(* ===== verification/_CoqProject ===== *)
-Q . S2P
Prelude.v
CString.v
Pmm.v
Interfaces.v
FatTable.v
FatChain.v
FatDir.v
FatPath.v
FatFile.v
Io.v
Vga.v
Ata.v
Gdt.v
Idt.v
Paging.v
Heap.v
Process.v
Vfs.v
Kernel.v
Terminal.v
Sched.v
Elf.v
Loader.v
Paths.v
FileCalls.v
Simplify.v
DirCalls.v
UserMem.v
ProcCalls.v
Syscalls.v
FatMount.v
Boot.v
HostDisk.v
HostString.v
FatLoader.v
FatCopies.v
LoaderWrite.v
LoaderCreate.v
LoadFile.v
Shell.v
