(* ===== verification/Prelude.v ===== *)
(** * DbolOS: a verification development

    DbolOS is a 32-bit x86 kernel in C with a FAT16 file system, paging, a heap,
    round-robin processes loaded from ELF files, terminals and system calls.  This
    library models the kernel's C code, file by file, as executable definitions,
    with the tool that puts files into its disk image and its shell, and proves
    what each part does and where it does not do what it means to.

    ** How the code is modelled

    A C function is a function of its arguments into [M S A] (Prelude): given the
    globals [S] it is [Done] with a result and the new globals, [Fault] when it
    touches memory it does not own or depends on a value nobody set, or [Timeout]
    when the fuel of a loop ran out.  [wp m Q s] says that [m] runs to [Done] from
    [s] with a result that satisfies [Q], so every theorem in this form contains
    that the code neither faults nor runs out of fuel.  An integer of the machine
    is a [Z], wrapped by [u8], [u16], [u32], [u64] or read as signed by [s32] where
    the code stores it; arrays are lists with a bound that is checked; strings are
    arrays of bytes.

    ** The files, and the code they model (paths under src/os/kernel/src)

    - CString: lib/src (string, itoa), loop by loop.
    - Pmm: memory/physical, the bitmap of frames and the memory map of the loader.
    - Interfaces: [BlockDevice] and [KernelHeap] with their laws, through which the
      file system sees the disk and the heap; [ramdisk] and [bump] are instances.
    - FatTable, FatChain, FatDir, FatPath, FatFile, FatMount: filesystem/fat/fat.c.
      The table, chains of clusters, directories as sequences of 32-byte entries,
      paths, creation and deletion, reads, writes and truncation, and mounting.
    - Io, Vga, Ata, Gdt, Idt: util/io, drivers/vga, drivers/harddisk/ata, cpu/gdt,
      cpu/idt and cpu/pic.  Devices sit behind the class [Ports]; what they answer
      is a hypothesis that states their documented protocol (an ATA drive, a pair
      of 8259 interrupt controllers, the CRT controller).
    - Paging: memory/paging, over physical memory and the processor's table walk.
    - Heap: memory/heap, over 32-bit words of memory; pages come from [PageAllocator].
    - Process: process/manager, the list of processes as nodes with pointers.
    - Vfs: filesystem/vfs, the table of open files.
    - Kernel: the record [kernel] of the globals of all of these, and the lifting of
      an operation on one part to the whole.
    - Terminal: terminal/terminal_manager.c and drivers/keyboard.
    - Sched: switching and exit of processes, cpu/pit, cpu/idt/isr.c.
    - Elf, Loader: process/elf, process/loader, and the creation of a process.
    - Paths, Simplify, FileCalls, DirCalls, ProcCalls: process/syscalls/handlers.
    - UserMem, Syscalls: the memory behind the pointers of a program, sys/sys.c and
      process/syscalls/syscalls.c.
    - Boot: kernel.c, and proc_manager_init.

    Outside the kernel (paths under src):

    - HostDisk, HostString, FatLoader, FatCopies, LoaderWrite, LoaderCreate, LoadFile:
      fs_loader/fat_loader.c, a program of the host with its own copy of the file
      system code.  HostDisk makes the open image file an instance of [BlockDevice];
      HostString is the C library of the host; FatLoader has the functions that
      differ from fat.c (those that do not are reused from FatTable to FatFile);
      FatCopies says when all copies of the table agree, LoaderWrite and LoaderCreate
      prove the writing and the creation of files, LoadFile is main.
    - Shell: terminal/main.c, over what newlib and the kernel do for it.

    ** What the theorems show

    - File system: fat_init establishes the invariant [fat_ok] from the contents
      of a disk; paths resolve component by component (the last one even in the data
      of a file, which is not checked to be a directory); lookups return the first
      matching slot; added entries are found, removed ones are gone with their
      chain; chains grow and are freed exactly; writes followed by reads give the
      bytes back, in place and past the end (where the bytes behind the old size are
      not cleared); shrinking loses the head of a file.
    - System calls: reading a file that is open for reading block by block gives its
      bytes (a write-only descriptor is read all the same), open and close leave
      the tables as they were, the system call read from the interrupt to the
      return, chdir and getcwd, what path simplification computes (not the normal
      form: the slash of an absolute path is doubled).
    - Processes: the list operations keep a well-formed ring, a switch runs the
      first ready process and saves the one it leaves, a ready process is run
      within a bound while no process is created or exits, exit resumes the next one whatever its state.
    - Memory: frames are never handed out twice, mapping a page changes exactly
      that translation, the heap hands out disjoint blocks (as long as nothing is
      freed next to a free block), [_sbrk] backs the pages it adds.
    - Devices: sectors are read and written back, the screen is never left, the
      descriptor tables and interrupt controllers are set up as documented.
    - Disk image: main of the loader stores a local file in an image (entry, chain and
      contents, with the table on the disk as in memory) or leaves it empty, as the
      value that fat_create_file does not set decides; its fat_write keeps all
      copies of the table in step, and the kernel's lookup and read give the file back.
    - Shell: a line is split into words as a reference function splits it, a round
      runs the command its first word selects, echo writes what it should where it
      should.
    - Start: the services of the kernel are ready after kmain's initialisations, and
      the system calls are at the numbers of sys.h, rmdir, times and getpid aside.

    Where a part of the code is itself a table or a layout, the theorems state what
    it should be in their own terms: the boot sector by its byte offsets
    ([boot_sector_of]), the drive by the ports of the standard ([Ata]'s device),
    the numbers of the system calls by sys.h ([documented]), the shell's functions
    by name ([commands]), the saved registers by field ([saved_registers]).

    Theorems that show a fault of the code are stated as such, next to the ones
    that show what works.

    ** Fuel and bounds

    A loop over a structure whose size is known recurses on it.  The others take
    fuel: chains of clusters 65537 rounds (a table has at most 65536 entries), a
    path its length and two, reads and writes one round per cluster and three, the
    wait for the drive 100000 polls, the search of the heap 1.1e9 rounds (more than
    there are headers), walks round the list of processes 2^20, directory entries
    one per byte of the buffer and one; the mutual calls of fat_write and
    fat_truncate are unfolded to depth 2, which is where they end.  [wp] theorems
    show that the fuel is enough under their hypotheses.  [read_terminal_input] and
    the memory map take their number of rounds as an argument, and so do the shell's
    loop and the loops of ls and cat, which end when there is no more input.  The
    loops of the shell's parser and of echo have the length of the line and 64.

    ** Parameters

    What the C code leaves open is a parameter: what other processes do while one is
    blocked or waits ([others]), the value a function without a return statement
    gives ([no_return], in the kernel and in the loader), what uninitialised arrays
    ([uninit]), new heap blocks ([fresh], [raw]) and the bytes behind a block
    ([behind]) hold, the addresses the linker chooses ([tss_address]).  The operands of + in _gettimeofday are read from
    left to right.  The class [UserLibrary] is what the shell calls of newlib and of
    the kernel; a [console] is an instance.

    ** Not modelled

    - The assembly: the boot code, the stubs that save the registers, the jump into
      a process, which is the last step of a handler here ([Jumps]).
    - The translation caches of the processor, and the read-write and user bits on an
      access: a walk only asks for presence.
    - An interrupt that arrives while the kernel runs; the code runs with interrupts
      disabled, apart from the start of kmain after idt_init.
    - The laws of [KernelHeapLaws] are not discharged by Heap: its kfree leaves stale
      back pointers, after which kmalloc overlaps live blocks (kmalloc_overlaps_live).
      The heap's memory and the heap nodes of other parts are kept apart from [vm].
    - newlib, whose headers and binaries are in the repository and whose sources are
      not; the shell over the modelled system calls, which would need them. *)

From Stdlib Require Export ZArith Lia.
From stdpp Require Export base strings gmap list list_numbers numbers option.

#[global] Set Default Proof Using "Type".
#[global] Open Scope Z_scope.

(** ** Machine integers

    A [w]-bit unsigned integer is a [Z] in [0, 2^w); the definitions wrap every
    result the code stores in one.  [s32] reads a 32-bit pattern as an [int]. *)

Definition u8 (z : Z) : Z := z mod 256.
Definition u16 (z : Z) : Z := z mod 65536.
Definition u32 (z : Z) : Z := z mod 4294967296.
Definition u64 (z : Z) : Z := z mod 18446744073709551616.
Definition s32 (z : Z) : Z :=
  let r := u32 z in if decide (r < 2147483648) then r else r - 4294967296.

Create HintDb word.
Create Rewrite HintDb word.

Lemma u8_small z : 0 ≤ z < 256 → u8 z = z.
Proof. apply Z.mod_small. Qed.
Lemma u16_small z : 0 ≤ z < 65536 → u16 z = z.
Proof. apply Z.mod_small. Qed.
Lemma u32_small z : 0 ≤ z < 4294967296 → u32 z = z.
Proof. apply Z.mod_small. Qed.
Lemma u8_range z : 0 ≤ u8 z < 256.
Proof. apply Z.mod_pos_bound; lia. Qed.
Lemma u16_range z : 0 ≤ u16 z < 65536.
Proof. apply Z.mod_pos_bound; lia. Qed.
Lemma u32_range z : 0 ≤ u32 z < 4294967296.
Proof. apply Z.mod_pos_bound; lia. Qed.
Lemma s32_small z : -2147483648 ≤ z < 2147483648 → s32 z = z.
Proof.
  unfold s32, u32. intros Hz. destruct (decide (0 ≤ z)).
  - rewrite Z.mod_small by lia. rewrite decide_True by lia. done.
  - assert (z mod 4294967296 = z + 4294967296) as ->.
    { rewrite <-(Z.mod_add z 1) by lia. apply Z.mod_small. lia. }
    rewrite decide_False by lia. lia.
Qed.
Lemma s32_range z : -2147483648 ≤ s32 z < 2147483648.
Proof. unfold s32. pose proof (u32_range z). case_decide; lia. Qed.

#[export] Hint Rewrite u8_small u16_small u32_small s32_small using lia : word.
#[export] Hint Resolve u8_range u16_range u32_range s32_range : word.

(** ** Results of running C code

    [Done] is a run that returns; [Fault] is one that reads or writes memory it
    does not own (a null pointer, an index outside its array, a page that is not
    mapped); [Timeout] is one the fuel of a loop did not suffice for. *)

Inductive outcome (A : Type) : Type :=
| Done (a : A)
| Fault
| Timeout.
Arguments Done {A} a.
Arguments Fault {A}.
Arguments Timeout {A}.

#[export] Instance outcome_eq_dec A `{EqDecision A} : EqDecision (outcome A).
Proof. solve_decision. Defined.

#[export] Instance outcome_ret : MRet outcome := @Done.
#[export] Instance outcome_bind : MBind outcome := λ A B f m,
  match m with Done a => f a | Fault => Fault | Timeout => Timeout end.

Lemma outcome_bind_done {A B} (f : A → outcome B) m r :
  m ≫= f = Done r ↔ ∃ a, m = Done a ∧ f a = Done r.
Proof. destruct m; naive_solver. Qed.

(** The state and error monad every stateful component runs in. *)
Definition M (S A : Type) : Type := S → outcome (A * S).

#[export] Instance M_ret {S} : MRet (M S) := λ A a s, Done (a, s).
#[export] Instance M_bind {S} : MBind (M S) := λ A B f m s,
  match m s with
  | Done (a, s') => f a s'
  | Fault => Fault
  | Timeout => Timeout
  end.

Definition get {S} : M S S := λ s, Done (s, s).
Definition gets {S A} (f : S → A) : M S A := λ s, Done (f s, s).
Definition modify {S} (f : S → S) : M S unit := λ s, Done (tt, f s).
Definition fault {S A} : M S A := λ _, Fault.

(** Run a pure computation that may fault. *)
Definition liftO {S A} (m : outcome A) : M S A := λ s,
  match m with Done a => Done (a, s) | Fault => Fault | Timeout => Timeout end.

Definition of_option {A} (o : option A) : outcome A :=
  match o with Some a => Done a | None => Fault end.

(** Run a computation on a part of the state. *)
Definition zoom {S T A} (sel : S → T) (upd : T → S → S) (m : M T A) : M S A :=
  λ s, match m (sel s) with
       | Done (a, t) => Done (a, upd t s)
       | Fault => Fault
       | Timeout => Timeout
       end.

(** A loop with fuel: the body either goes round again or leaves with a value. *)
Fixpoint iter {S A B} (fuel : nat) (body : A → M S (A + B)) (a : A) : M S B :=
  match fuel with
  | O => λ _, Timeout
  | Datatypes.S n =>
      r ← body a; match r with inl a' => iter n body a' | inr b => mret b end
  end.

(** ** Weakest preconditions

    [wp m Q s]: from [s] the computation terminates without a fault in a result
    and a state that satisfy [Q] (total correctness). *)
Definition wp {S A} (m : M S A) (Q : A → S → Prop) (s : S) : Prop :=
  match m s with Done (a, s') => Q a s' | Fault => False | Timeout => False end.

Section wp.
Context {S : Type}.
Implicit Types s : S.

Lemma wp_done {A} (m : M S A) Q s :
  wp m Q s ↔ ∃ a s', m s = Done (a, s') ∧ Q a s'.
Proof. unfold wp. destruct (m s) as [[a s']| |]; naive_solver. Qed.

Lemma wp_of_done {A} (m : M S A) (Q : A → S → Prop) s a s' :
  m s = Done (a, s') → Q a s' → wp m Q s.
Proof. unfold wp. intros ->. done. Qed.

Lemma wp_ret {A} (a : A) (Q : A → S → Prop) s : Q a s → wp (mret a) Q s.
Proof. done. Qed.

Lemma wp_bind {A B} (m : M S A) (f : A → M S B) Q s :
  wp m (λ a s', wp (f a) Q s') s → wp (m ≫= f) Q s.
Proof.
  unfold wp, mbind, M_bind. destruct (m s) as [[a s']| |]; done.
Qed.

Lemma wp_bind_inv {A B} (m : M S A) (f : A → M S B) Q s :
  wp (m ≫= f) Q s → wp m (λ a s', wp (f a) Q s') s.
Proof.
  unfold wp, mbind, M_bind. destruct (m s) as [[a s']| |]; done.
Qed.

Lemma wp_mono {A} (m : M S A) (Q Q' : A → S → Prop) s :
  wp m Q s → (∀ a s', Q a s' → Q' a s') → wp m Q' s.
Proof. unfold wp. destruct (m s) as [[a s']| |]; naive_solver. Qed.

(** Running a command that is known to return. *)
Lemma bind_done {A B} (m : M S A) (f : A → M S B) s a s' :
  m s = Done (a, s') → (m ≫= f) s = f a s'.
Proof. unfold mbind, M_bind. by intros ->. Qed.

Lemma liftO_done {A B} (o : outcome A) a (f : A → M S B) s : o = Done a → (liftO o ≫= f) s = f a s.
Proof. by intros ->. Qed.

(** Two continuations that agree after the same command. *)
Lemma bind_ext {A B} (m : M S A) (f g : A → M S B) s :
  (∀ a s', m s = Done (a, s') → f a s' = g a s') → (m ≫= f) s = (m ≫= g) s.
Proof. intros Hfg. unfold mbind, M_bind. destruct (m s) as [[a s']| |]; [|done..]. by apply Hfg. Qed.
Lemma bind_same {A B} (m m' : M S A) (f : A → M S B) s : m s = m' s → (m ≫= f) s = (m' ≫= f) s.
Proof. unfold mbind, M_bind. by intros ->. Qed.
Lemma bind_assoc {A B C} (m : M S A) (f : A → M S B) (g : B → M S C) s :
  ((m ≫= f) ≫= g) s = (m ≫= λ a, f a ≫= g) s.
Proof. unfold mbind, M_bind. by destruct (m s) as [[a s']| |]. Qed.

Lemma wp_get (Q : S → S → Prop) s : Q s s → wp get Q s.
Proof. done. Qed.
Lemma wp_gets {A} (f : S → A) (Q : A → S → Prop) s : Q (f s) s → wp (gets f) Q s.
Proof. done. Qed.
Lemma wp_modify (f : S → S) (Q : unit → S → Prop) s : Q tt (f s) → wp (modify f) Q s.
Proof. done. Qed.
Lemma wp_liftO {A} (o : outcome A) a (Q : A → S → Prop) s :
  o = Done a → Q a s → wp (liftO o) Q s.
Proof. intros ->. done. Qed.

Lemma wp_zoom {T A} (sel : S → T) (upd : T → S → S) (m : M T A) (Q : A → S → Prop) s :
  wp m (λ a t, Q a (upd t s)) (sel s) → wp (zoom sel upd m) Q s.
Proof. unfold wp, zoom. destruct (m (sel s)) as [[a t]| |]; done. Qed.

(** The loop rule: an invariant indexed by a measure that every round decreases. *)
Lemma wp_iter {A B} (I : nat → A → S → Prop) (body : A → M S (A + B))
    (Q : B → S → Prop) :
  (∀ n a s, I n a s →
     wp (body a) (λ r s', match r with
                          | inl a' => ∃ n', (n' < n)%nat ∧ I n' a' s'
                          | inr b => Q b s'
                          end) s) →
  ∀ fuel n a s, I n a s → (n < fuel)%nat → wp (iter fuel body a) Q s.
Proof.
  intros Hbody fuel. induction fuel as [|fuel IH]; intros n a s HI Hn; [lia|].
  cbn [iter]. apply wp_bind. eapply wp_mono; [by eapply Hbody|].
  intros [a'|b] s'; [|done]. intros (n' & Hn' & HI'). apply (IH n'); [done|lia].
Qed.

Lemma iter_step {A B} (body : A → M S (A + B)) n a s r s' :
  body a s = Done (r, s') →
  iter (Datatypes.S n) body a s = match r with inl a' => iter n body a' s' | inr b => Done (b, s') end.
Proof. intros E. cbn [iter]. rewrite (bind_done _ _ _ _ _ E). by destruct r. Qed.

(** More fuel does not change a result. *)
Lemma iter_fuel_mono {A B} (body : A → M S (A + B)) f1 f2 a s r :
  (f1 ≤ f2)%nat → iter f1 body a s = Done r → iter f2 body a s = Done r.
Proof.
  revert f2 a s. induction f1 as [|f1 IH]; intros f2 a s Hf; [done|].
  destruct f2 as [|f2]; [lia|]. cbn [iter].
  unfold mbind, M_bind. destruct (body a s) as [[[a'|b] s']| |]; try done.
  intros ?. apply IH; [lia|done].
Qed.
End wp.

Create HintDb wp.
#[export] Hint Resolve wp_ret wp_get wp_gets wp_modify : wp.

(** One step of a weakest-precondition proof of straight-line code. *)
Ltac wp_step :=
  lazymatch goal with
  | |- wp (mbind _ _) _ _ => apply wp_bind
  | |- wp (mret _) _ _ => apply wp_ret
  | |- wp get _ _ => apply wp_get
  | |- wp (gets _) _ _ => apply wp_gets
  | |- wp (modify _) _ _ => apply wp_modify
  | |- wp (zoom _ _ _) _ _ => apply wp_zoom
  end; cbv beta.
Ltac wp_steps := repeat wp_step.

(** ** Arrays

    C arrays are lists indexed by a [Z]; an index outside the array is [None]
    (reads) or [None] (writes), and becomes a [Fault] in the monad. *)

(** stdpp's versions of two names the Standard Library has as well. *)
Abbreviation last := list.last.
Abbreviation NoDup_cons := list.NoDup_cons.

Abbreviation zlen l := (Z.of_nat (length l)).

Definition aget {A} (l : list A) (i : Z) : option A :=
  if decide (0 ≤ i) then l !! Z.to_nat i else None.
Definition aset {A} (l : list A) (i : Z) (x : A) : option (list A) :=
  if decide (0 ≤ i < zlen l) then Some (<[Z.to_nat i := x]> l) else None.

Section arrays.
Context {A : Type}.
Implicit Types (l : list A) (i j : Z) (x y : A).

Lemma aget_Some l i x : aget l i = Some x ↔ 0 ≤ i ∧ l !! Z.to_nat i = Some x.
Proof. unfold aget. case_decide; naive_solver. Qed.

Lemma aget_lt_Some l i x : aget l i = Some x → 0 ≤ i < zlen l.
Proof. rewrite aget_Some. intros [? H%lookup_lt_Some]. lia. Qed.

Lemma aget_is_Some l i : 0 ≤ i < zlen l → ∃ x, aget l i = Some x.
Proof.
  intros Hi. unfold aget. rewrite decide_True by lia.
  destruct (lookup_lt_is_Some_2 l (Z.to_nat i)) as [x Hx]; [lia|eauto].
Qed.

Lemma aget_of_nat l (n : nat) : aget l (Z.of_nat n) = l !! n.
Proof. unfold aget. rewrite decide_True by lia. by rewrite Nat2Z.id. Qed.

Lemma aset_Some l i x l' :
  aset l i x = Some l' ↔ 0 ≤ i < zlen l ∧ l' = <[Z.to_nat i := x]> l.
Proof. unfold aset. case_decide; naive_solver. Qed.

Lemma aset_in l i x : 0 ≤ i < zlen l → aset l i x = Some (<[Z.to_nat i := x]> l).
Proof. intros. apply aset_Some. done. Qed.

Lemma aset_length l i x l' : aset l i x = Some l' → length l' = length l.
Proof. rewrite aset_Some. intros [_ ->]. apply length_insert. Qed.

Lemma aget_aset l i x l' j :
  aset l i x = Some l' → aget l' j = if decide (i = j) then Some x else aget l j.
Proof.
  rewrite aset_Some. intros [Hi ->]. unfold aget.
  destruct (decide (0 ≤ j)); case_decide; try lia; subst; try done.
  - apply list_lookup_insert_eq. lia.
  - apply list_lookup_insert_ne. lia.
Qed.

Lemma aget_insert l i x j :
  0 ≤ i < zlen l →
  aget (<[Z.to_nat i := x]> l) j = if decide (i = j) then Some x else aget l j.
Proof. intros. eapply aget_aset. by apply aset_in. Qed.

Lemma list_eq_aget l1 l2 : (∀ i, aget l1 i = aget l2 i) → l1 = l2.
Proof. intros H. apply list_eq. intros n. rewrite <-!aget_of_nat. apply H. Qed.
End arrays.

(** ** Little-endian integers in byte arrays *)

Fixpoint le_bytes (n : nat) (z : Z) : list Z :=
  match n with O => [] | S n => z mod 256 :: le_bytes n (z / 256) end.
Fixpoint le_val (bs : list Z) : Z :=
  match bs with [] => 0 | b :: bs => b + 256 * le_val bs end.

Definition is_byte (b : Z) : Prop := 0 ≤ b < 256.
#[export] Instance is_byte_dec b : Decision (is_byte b).
Proof. unfold is_byte. apply _. Defined.

(** Decide a closed decidable proposition by computation. *)
Ltac by_decide := apply (bool_decide_unpack _); vm_compute; exact I.

Lemma length_le_bytes n z : length (le_bytes n z) = n.
Proof. revert z; induction n; simpl; auto. Qed.

Lemma le_val_bytes n z : le_val (le_bytes n z) = z mod 256 ^ Z.of_nat n.
Proof.
  revert z. induction n as [|n IH]; intros z; cbn [le_bytes le_val].
  - by rewrite Z.mod_1_r.
  - rewrite IH, Nat2Z.inj_succ, Z.pow_succ_r by lia.
    rewrite Z.rem_mul_r by lia. lia.
Qed.

Lemma le_bytes_val bs n : Forall is_byte bs → length bs = n → le_bytes n (le_val bs) = bs.
Proof.
  intros Hbs <-. induction Hbs as [|b bs Hb _ IH]; cbn [length le_bytes le_val]; [done|].
  unfold is_byte in Hb. f_equal.
  - rewrite Z.mul_comm, Z.mod_add by lia. by apply Z.mod_small.
  - rewrite Z.mul_comm, Z.div_add, Z.div_small by lia. by rewrite Z.add_0_l.
Qed.

Lemma le_bytes_byte n z : Forall is_byte (le_bytes n z).
Proof.
  revert z; induction n as [|n IH]; intros z; cbn [le_bytes]; constructor; [|apply IH].
  apply Z.mod_pos_bound. lia.
Qed.

Lemma le_val_range bs : Forall is_byte bs → 0 ≤ le_val bs < 256 ^ zlen bs.
Proof.
  induction 1 as [|b bs Hb _ IH]; cbn [le_val length]; [lia|].
  rewrite Nat2Z.inj_succ, Z.pow_succ_r by lia. unfold is_byte in Hb. lia.
Qed.

#[export] Hint Resolve length_le_bytes le_bytes_byte : word.

(** ** Generic lemmas on lists *)

(** [splice l i bs]: [bs] copied over [l] from index [i] on. *)
Definition splice {A} (l : list A) (i : nat) (bs : list A) : list A :=
  take i l ++ bs ++ drop (i + length bs) l.

Lemma length_splice {A} (l : list A) i bs :
  (i + length bs ≤ length l)%nat → length (splice l i bs) = length l.
Proof. intros. unfold splice. rewrite !length_app, length_take, length_drop. lia. Qed.

Lemma lookup_splice {A} (l : list A) i bs j :
  (i + length bs ≤ length l)%nat →
  splice l i bs !! j =
    if decide (i ≤ j < i + length bs)%nat then bs !! (j - i)%nat else l !! j.
Proof.
  intros Hl. unfold splice. destruct (decide (j < i)%nat).
  - rewrite lookup_app_l by (rewrite length_take; lia).
    rewrite lookup_take_lt by lia. rewrite decide_False by lia. done.
  - rewrite lookup_app_r by (rewrite length_take; lia). rewrite length_take.
    replace (j - i `min` length l)%nat with (j - i)%nat by lia.
    case_decide.
    + apply lookup_app_l. lia.
    + rewrite lookup_app_r by lia. rewrite lookup_drop. f_equal. lia.
Qed.

Lemma take_drop_splice {A} (l : list A) i bs :
  (i + length bs ≤ length l)%nat → take (length bs) (drop i (splice l i bs)) = bs.
Proof.
  intros. unfold splice. rewrite drop_app_length' by (rewrite length_take; lia).
  by rewrite take_app_length.
Qed.

Lemma splice_nil {A} (l : list A) i : splice l i [] = l.
Proof. unfold splice. cbn [length app]. by rewrite Nat.add_0_r, take_drop. Qed.

Lemma splice_one {A} (l : list A) i x : (i < length l)%nat → splice l i [x] = <[i := x]> l.
Proof. intros. unfold splice. rewrite insert_take_drop by done. by rewrite Nat.add_1_r. Qed.

(** Two splices one after the other. *)
Lemma splice_splice {A} (l : list A) i b1 b2 j :
  (j = i + length b1)%nat → (j + length b2 ≤ length l)%nat →
  splice (splice l i b1) j b2 = splice l i (b1 ++ b2).
Proof.
  intros -> Hl. apply list_eq. intros k.
  rewrite !lookup_splice by (rewrite ?length_app, ?length_splice; lia). rewrite length_app.
  repeat case_decide; try lia.
  - rewrite lookup_app_r by lia. f_equal. lia.
  - by rewrite lookup_app_l by lia.
  - done.
Qed.

Lemma splice_app_l {A} (l1 l2 : list A) i bs :
  (i + length bs ≤ length l1)%nat → splice (l1 ++ l2) i bs = splice l1 i bs ++ l2.
Proof.
  intros. unfold splice. rewrite take_app_le, drop_app_le by lia. by rewrite <-!app_assoc.
Qed.

Lemma splice_app_r {A} (l1 l2 : list A) i bs :
  splice (l1 ++ l2) (length l1 + i) bs = l1 ++ splice l2 i bs.
Proof.
  unfold splice. rewrite take_app_add, <-app_assoc. do 3 f_equal.
  rewrite drop_app_ge by lia. f_equal. lia.
Qed.

(** A splice that crosses the boundary of two lists. *)
Lemma splice_app_cross {A} (l1 l2 : list A) i b1 b2 :
  (i + length b1 = length l1)%nat → splice (l1 ++ l2) i (b1 ++ b2) = splice l1 i b1 ++ splice l2 0 b2.
Proof.
  intros. unfold splice. rewrite take_app_le by lia. rewrite (drop_ge l1) by lia.
  rewrite app_nil_r, take_0, app_nil_l, length_app, Nat.add_0_l.
  rewrite drop_app_ge by lia. rewrite <-!app_assoc. do 3 f_equal. f_equal. lia.
Qed.

(** ** Counting loops

    [for (i = start; n more times; i++) body(i)]. *)
Fixpoint for_from {S} (i : Z) (n : nat) (body : Z → M S unit) : M S unit :=
  match n with
  | O => mret tt
  | Datatypes.S n => _ ← body i; for_from (i + 1) n body
  end.

Lemma wp_for {S} (I : Z → S → Prop) (body : Z → M S unit) (Q : unit → S → Prop) i n s :
  I i s →
  (∀ j s, i ≤ j < i + Z.of_nat n → I j s → wp (body j) (λ _, I (j + 1)) s) →
  (∀ s, I (i + Z.of_nat n) s → Q tt s) →
  wp (for_from i n body) Q s.
Proof.
  revert i s. induction n as [|n IH]; intros i s HI Hbody HQ; cbn [for_from].
  - apply wp_ret, HQ. by rewrite Z.add_0_r.
  - apply wp_bind. eapply wp_mono; [apply (Hbody i); [lia|done]|]. intros [] s' HI'.
    apply IH; [done|intros; apply Hbody; [lia|done]|].
    intros s'' HI''. apply HQ. by replace (i + Z.of_nat (Datatypes.S n)) with (i + 1 + Z.of_nat n) by lia.
Qed.

(** The bytes of a string literal, without its terminator. *)
Fixpoint lit (s : string) : list Z :=
  match s with EmptyString => [] | String c s => Z.of_N (Ascii.N_of_ascii c) :: lit s end.

(** Array accesses as commands: out of bounds is a [Fault]. *)
Definition reads {S A} (sel : S → list A) (i : Z) : M S A :=
  λ s, match aget (sel s) i with Some a => Done (a, s) | None => Fault end.
Definition writes {S A} (sel : S → list A) (upd : list A → S → S) (i : Z) (x : A) : M S unit :=
  λ s, match aset (sel s) i x with Some l => Done (tt, upd l s) | None => Fault end.

Lemma wp_reads {S A} (sel : S → list A) i a (Q : A → S → Prop) s :
  aget (sel s) i = Some a → Q a s → wp (reads sel i) Q s.
Proof. intros H. unfold wp, reads. by rewrite H. Qed.

Lemma wp_writes {S A} (sel : S → list A) upd i x (Q : unit → S → Prop) s :
  0 ≤ i < zlen (sel s) → Q tt (upd (<[Z.to_nat i := x]> (sel s)) s) →
  wp (writes sel upd i x) Q s.
Proof. intros H. unfold wp, writes. by rewrite aset_in. Qed.

(** ** Bits *)

Lemma testbit_shiftl1 r j : 0 ≤ r → 0 ≤ j → Z.testbit (Z.shiftl 1 r) j = bool_decide (j = r).
Proof.
  intros. rewrite Z.shiftl_1_l, Z.pow2_bits_eqb by lia. case_bool_decide.
  - subst. apply Z.eqb_refl.
  - apply Z.eqb_neq. lia.
Qed.

Lemma land_shiftl1_nonzero w r :
  0 ≤ r → negb (Z.land w (Z.shiftl 1 r) =? 0) = Z.testbit w r.
Proof.
  intros Hr. destruct (Z.testbit w r) eqn:E.
  - apply negb_true_iff, Z.eqb_neq. intros H.
    apply (f_equal (λ z, Z.testbit z r)) in H.
    rewrite Z.land_spec, testbit_shiftl1, bool_decide_eq_true_2, E in H by done.
    by rewrite Z.bits_0 in H.
  - apply negb_false_iff, Z.eqb_eq. apply Z.bits_inj'. intros j Hj.
    rewrite Z.land_spec, testbit_shiftl1, Z.bits_0 by done.
    case_bool_decide as Hjr; [by rewrite Hjr, E|by rewrite andb_false_r].
Qed.

Lemma lor_range w m b : 0 ≤ b → 0 ≤ w < 2 ^ b → 0 ≤ m < 2 ^ b → 0 ≤ Z.lor w m < 2 ^ b.
Proof.
  intros Hb Hw Hm. split; [apply Z.lor_nonneg; lia|].
  destruct (decide (Z.lor w m = 0)) as [->|Hne]; [lia|].
  apply Z.log2_lt_pow2; [pose proof (Z.lor_nonneg w m); lia|].
  rewrite Z.log2_lor by lia.
  assert (∀ z, 0 ≤ z < 2 ^ b → Z.log2 z < b ∨ z = 0) as Hlog.
  { intros z Hz. destruct (decide (z = 0)); [by right|left]. apply Z.log2_lt_pow2; lia. }
  destruct (Hlog w Hw), (Hlog m Hm); subst; try lia.
  - change (Z.log2 0) with 0. pose proof (Z.log2_nonneg w). lia.
  - change (Z.log2 0) with 0. pose proof (Z.log2_nonneg m). lia.
  - by rewrite Z.lor_0_l in Hne.
Qed.

Lemma land_range w m : 0 ≤ w → 0 ≤ m → 0 ≤ Z.land w m ≤ w.
Proof.
  intros Hw Hm. rewrite <-(Z2N.id w), <-(Z2N.id m), <-N2Z.inj_land by lia.
  pose proof (N.land_le_l (Z.to_N w) (Z.to_N m)). lia.
Qed.

Lemma testbit_above w n j : 0 ≤ w < 2 ^ n → 0 ≤ n ≤ j → Z.testbit w j = false.
Proof.
  intros Hw Hj. destruct (decide (w = 0)) as [->|]; [apply Z.bits_0|].
  apply Z.bits_above_log2; [lia|].
  assert (Z.log2 w < n) by (apply Z.log2_lt_pow2; lia). lia.
Qed.

(** A bounded search either finds the least failure or there is none. *)
Lemma least_or_none (P : Z → bool) n :
  (∃ p, 0 ≤ p < n ∧ P p = false ∧ ∀ q, 0 ≤ q < p → P q = true) ∨
  (∀ q, 0 ≤ q < n → P q = true).
Proof.
  destruct (decide (0 ≤ n)) as [Hn|]; [|right; lia].
  rewrite <-(Z2Nat.id n) by lia. induction (Z.to_nat n) as [|m IH]; [right; lia|].
  destruct IH as [(p & Hp & HP & Hq)|IH].
  - left. exists p. split; [lia|done].
  - destruct (P (Z.of_nat m)) eqn:E.
    + right. intros q Hq. destruct (decide (q = Z.of_nat m)) as [->|]; [done|]. apply IH. lia.
    + left. exists (Z.of_nat m). split; [lia|]. split; [done|]. intros q Hq. apply IH. lia.
Qed.

Lemma u32_sub_l x y : u32 (u32 x - y) = u32 (x - y).
Proof. unfold u32. apply Zminus_mod_idemp_l. Qed.
Lemma u32_add_l x y : u32 (u32 x + y) = u32 (x + y).
Proof. unfold u32. apply Zplus_mod_idemp_l. Qed.
