(* ===== verification/CString.v ===== *)
(** * The kernel's C library: lib/src/string and lib/src/ctype

    An array of bytes is a list of integers in [0, 256); a pointer into an array
    is the suffix of the array it points at, so [p + 1] is the tail and a read of
    the empty suffix is a read outside the array, a [Fault].  Functions that
    write return the destination array after the call.  The functions are
    translated loop by loop: where the library differs from the C standard
    ([strncmp] compares one byte too many, [strcpy], [strncpy] and [strrchr] look
    at the byte behind an empty string) the model differs with it. *)

From S2P Require Import Prelude.

(** ** Definitions *)

(** [while (str[length] != 0) length++] *)
Fixpoint strlen_from (str : list Z) (length : Z) : outcome Z :=
  match str with
  | [] => Fault
  | c :: str' => if decide (c ≠ 0) then strlen_from str' (length + 1) else Done length
  end.
Definition strlen (str : list Z) : outcome Z := strlen_from str 0.

(** Both bytes are read again by the return statement. *)
Fixpoint strcmp (str1 str2 : list Z) : outcome Z :=
  match str1, str2 with
  | c1 :: t1, c2 :: t2 =>
      if decide (c1 ≠ 0 ∧ c1 = c2) then strcmp t1 t2 else Done (c1 - c2)
  | _, _ => Fault
  end.

Fixpoint strncmp (str1 str2 : list Z) (num : nat) : outcome Z :=
  match str1, str2 with
  | c1 :: t1, c2 :: t2 =>
      match num with
      | S num' => if decide (c1 ≠ 0 ∧ c1 = c2) then strncmp t1 t2 num' else Done (c1 - c2)
      | O => Done (c1 - c2)
      end
  | _, _ => Fault
  end.

(** [do { *d = *s; s++, d++; } while ( *s); *d = 0] *)
Fixpoint strcpy (destination source : list Z) : outcome (list Z) :=
  match destination, source with
  | _ :: d, c :: s =>
      match s with
      | [] => Fault
      | c2 :: _ =>
          if decide (c2 ≠ 0) then r ← strcpy d s; Done (c :: r)
          else match d with [] => Fault | _ :: r => Done (c :: 0 :: r) end
      end
  | _, _ => Fault
  end.

(** [do { *d = *s; s++, d++, num--; } while ( *s && num)], for [num > 0] *)
Fixpoint strncpy_loop (destination source : list Z) (num : nat) : outcome (list Z) :=
  match destination, source with
  | _ :: d, c :: s =>
      match s with
      | [] => Fault
      | c2 :: _ =>
          if decide (c2 ≠ 0 ∧ pred num ≠ O)
          then r ← strncpy_loop d s (pred num); Done (c :: r)
          else Done (c :: d)
      end
  | _, _ => Fault
  end.
Definition strncpy (destination source : list Z) (num : nat) : outcome (list Z) :=
  if decide (num = O) then Done destination else strncpy_loop destination source num.

(** The index of the last match, relative to the pointer passed in. *)
Fixpoint strrchr_loop (str : list Z) (character : Z) (i : nat) (ret : option nat) :
    outcome (option nat) :=
  match str with
  | [] => Fault
  | c :: str' =>
      let ret' := if decide (c = u8 character) then Some i else ret in
      match str' with
      | [] => Fault
      | c2 :: _ => if decide (c2 ≠ 0) then strrchr_loop str' character (S i) ret'
                   else Done ret'
      end
  end.
Definition strrchr (str : list Z) (character : Z) : outcome (option nat) :=
  strrchr_loop str character 0 None.

(** [len] is an [int], [val] is stored in an [unsigned char]. *)
Fixpoint memset_loop (dest : list Z) (val : Z) (len : nat) : outcome (list Z) :=
  match len with
  | O => Done dest
  | S len' => match dest with
              | [] => Fault
              | _ :: d => r ← memset_loop d val len'; Done (u8 val :: r)
              end
  end.
Definition memset (dest : list Z) (val len : Z) : outcome (list Z) :=
  memset_loop dest val (Z.to_nat (s32 len)).

(** One of the three loops of [memcpy]: words of [w] bytes while [size >= w].
    [acc] is what was written, [dst] and [src] are the pointers' suffixes. *)
Fixpoint copy_words (fuel w : nat) (acc dst src : list Z) (size : nat) :
    outcome (list Z * list Z * list Z * nat) :=
  if decide (size < w)%nat then Done (acc, dst, src, size)
  else match fuel with
       | O => Timeout
       | S fuel' =>
           if decide (w ≤ length src ∧ w ≤ length dst)%nat
           then copy_words fuel' w (acc ++ le_bytes w (le_val (take w src)))
                  (drop w dst) (drop w src) (size - w)
           else Fault
       end.

(** [memcpy] between two different arrays. *)
Definition memcpy (destination source : list Z) (size : nat) : outcome (list Z) :=
  '(a8, d8, s8, n8) ← copy_words (S size) 8 [] destination source size;
  '(a4, d4, s4, n4) ← copy_words (S size) 4 a8 d8 s8 n8;
  '(a1, d1, _, _) ← copy_words (S size) 1 a4 d4 s4 n4;
  Done (a1 ++ d1).

Definition isalnum (c : Z) : Z :=
  if decide ((97 ≤ c ∧ c ≤ 122) ∨ (65 ≤ c ∧ c ≤ 90) ∨ (48 ≤ c ∧ c ≤ 57)) then 1 else 0.

(** ["0123456789ABCDEF"] with its terminating zero *)
Definition digits : list Z :=
  [48; 49; 50; 51; 52; 53; 54; 55; 56; 57; 65; 66; 67; 68; 69; 70; 0].

(** [do { temp[i++] = digits[value % base]; value /= base; } while (value > 0)];
    [cap] is the room left in [temp]: running out of it writes past the array. *)
Fixpoint itoa_digits (cap : nat) (value base : Z) (temp : list Z) : outcome (list Z) :=
  match cap with
  | O => Fault
  | S cap' =>
      d ← of_option (aget digits (Z.rem value base));
      let temp' := temp ++ [d] in
      let value' := Z.quot value base in
      if decide (0 < value') then itoa_digits cap' value' base temp' else Done temp'
  end.

Definition itoa (value : Z) (buffer : list Z) (base : Z) : outcome (list Z) :=
  if decide (base = 0) then Fault (* division by zero *) else
  let is_negative := bool_decide (base = 10 ∧ value < 0) in
  let value := if is_negative then s32 (- value) else value in
  temp ← itoa_digits 32 value base [];
  temp ← (if is_negative
          then if decide (length temp < 32)%nat then Done (temp ++ [45]) else Fault
          else Done temp);
  if decide (length temp < length buffer)%nat
  then Done (rev temp ++ 0 :: drop (S (length temp)) buffer) else Fault.

(** ** Strings *)

(** The characters of a C string: bytes other than the terminator. *)
Definition str_ok (s : list Z) : Prop := Forall (λ c, 0 < c < 256) s.

Lemma str_ok_cons c s : str_ok (c :: s) ↔ 0 < c < 256 ∧ str_ok s.
Proof. apply Forall_cons_iff. Qed.
Lemma str_ok_app s1 s2 : str_ok (s1 ++ s2) ↔ str_ok s1 ∧ str_ok s2.
Proof. apply Forall_app. Qed.
Lemma str_ok_nil : str_ok [].
Proof. constructor. Qed.
Lemma str_ok_take n s : str_ok s → str_ok (take n s).
Proof. apply Forall_take. Qed.
Lemma str_ok_drop n s : str_ok s → str_ok (drop n s).
Proof. apply Forall_drop. Qed.

Create HintDb cstr.
#[export] Hint Resolve str_ok_nil str_ok_take str_ok_drop : cstr.

Lemma strlen_from_cstr s rest n :
  str_ok s → strlen_from (s ++ 0 :: rest) n = Done (n + zlen s).
Proof.
  intros Hs. revert n. induction Hs as [|c s Hc _ IH]; intros n; simpl.
  - f_equal. lia.
  - rewrite decide_True by lia. rewrite IH. f_equal. lia.
Qed.
Lemma strlen_cstr s rest : str_ok s → strlen (s ++ 0 :: rest) = Done (zlen s).
Proof. intros Hs. unfold strlen. by rewrite strlen_from_cstr. Qed.

Lemma strcmp_cstr s1 s2 r1 r2 :
  str_ok s1 → str_ok s2 →
  ∃ d, strcmp (s1 ++ 0 :: r1) (s2 ++ 0 :: r2) = Done d ∧ (d = 0 ↔ s1 = s2).
Proof.
  intros H1 H2. revert s2 H2.
  induction H1 as [|c1 s1 Hc1 _ IH]; intros s2 H2; destruct H2 as [|c2 s2 Hc2 H2]; simpl.
  - exists (0 - 0). split; [done|]. naive_solver.
  - eexists. split; [done|]. split; [lia|done].
  - rewrite decide_False by lia. eexists. split; [done|]. split; [lia|done].
  - destruct (decide (c1 = c2)) as [->|Hne].
    + rewrite decide_True by lia. destruct (IH s2 H2) as (d & Hd & Heq).
      exists d. split; [done|]. rewrite Heq. naive_solver.
    + rewrite decide_False by naive_solver. eexists. split; [done|].
      split; [lia|intros Heq; injection Heq; lia].
Qed.

(** [strncmp] never reads past the terminators, and compares [num + 1] bytes. *)
Lemma strncmp_cstr s1 s2 r1 r2 n :
  str_ok s1 → str_ok s2 →
  ∃ d, strncmp (s1 ++ 0 :: r1) (s2 ++ 0 :: r2) n = Done d ∧
       (d = 0 ↔ take (S n) s1 = take (S n) s2).
Proof.
  intros H1 H2. revert s2 H2 n.
  induction H1 as [|c1 s1 Hc1 _ IH]; intros s2 H2 n; destruct H2 as [|c2 s2 Hc2 H2];
    cbn [app strncmp].
  - exists 0. destruct n; split; done.
  - exists (0 - c2). destruct n; (split; [done|]); split; done || lia.
  - exists (c1 - 0). destruct n; [|rewrite decide_False by lia]; (split; [done|]);
      split; done || lia.
  - destruct n as [|n].
    + exists (c1 - c2). split; [done|]. simpl. split; [intros; f_equal; lia|].
      intros Heq. injection Heq. lia.
    + destruct (decide (c1 = c2)) as [->|Hne].
      * rewrite decide_True by lia. destruct (IH s2 H2 n) as (d & Hd & Heq).
        exists d. split; [done|]. rewrite Heq, !(firstn_cons (S n)).
        split; [by intros ->|intros E; by injection E].
      * rewrite decide_False by naive_solver. eexists. split; [done|].
        split; [lia|intros Heq; injection Heq; lia].
Qed.

Lemma strcpy_cstr s dst rest :
  str_ok s → s ≠ [] → (length s < length dst)%nat →
  strcpy dst (s ++ 0 :: rest) = Done (s ++ 0 :: drop (S (length s)) dst).
Proof.
  intros Hs. revert dst. induction Hs as [|c s Hc Hs' IH]; intros dst Hne Hl; [done|].
  destruct dst as [|d dst]; simpl in Hl; [lia|]. destruct s as [|c2 s]; simpl.
  - destruct dst; simpl in Hl; [lia|]. done.
  - apply str_ok_cons in Hs' as [Hc2 _]. rewrite decide_True by lia.
    simpl in IH, Hl. by rewrite IH by (done || lia).
Qed.

(** [strncpy] copies at most [n] characters and writes no terminator. *)
Lemma strncpy_cstr s dst rest n :
  str_ok s → s ≠ [] → (length (take n s) ≤ length dst)%nat →
  strncpy dst (s ++ 0 :: rest) n = Done (take n s ++ drop (length (take n s)) dst).
Proof.
  unfold strncpy. intros Hs. destruct n as [|n]; [done|]. simpl.
  revert dst n. induction Hs as [|c s Hc Hs' IH]; intros dst n Hne Hl; [done|].
  destruct dst as [|d dst]; simpl in *; [lia|].
  destruct s as [|c2 s]; simpl.
  - by destruct n.
  - apply str_ok_cons in Hs' as [Hc2 _]. destruct n as [|n]; simpl.
    + rewrite decide_False by lia. done.
    + rewrite decide_True by lia. simpl in IH, Hl. rewrite IH by (done || lia).
      done.
Qed.

(** On an empty source [strncpy] writes the terminator and looks behind it. *)
Lemma strncpy_empty d dst rest : strncpy (d :: dst) (0 :: 0 :: rest) 1 = Done (0 :: dst).
Proof. done. Qed.

(** The last index of [c] in [s], counted from [i]. *)
Fixpoint last_index (c : Z) (s : list Z) (i : nat) (ret : option nat) : option nat :=
  match s with
  | [] => ret
  | d :: s' => last_index c s' (S i) (if decide (d = c) then Some i else ret)
  end.

Lemma strrchr_cstr s rest c :
  str_ok s → s ≠ [] → 0 < c < 256 → strrchr (s ++ 0 :: rest) c = Done (last_index c s 0 None).
Proof.
  intros Hs Hne Hc. unfold strrchr. generalize (@None nat) at 1 2 as ret. generalize 0%nat as i.
  induction Hs as [|d s Hd Hs' IH]; intros i ret; [done|].
  simpl. rewrite (u8_small c) by lia. destruct s as [|c2 s]; simpl; [done|].
  apply str_ok_cons in Hs' as [Hc2 _]. rewrite decide_True by lia.
  simpl in IH. by rewrite IH by done.
Qed.

(** [last_index] splits the string at its last slash. *)
Lemma last_index_app c s t i ret :
  c ∉ t → last_index c (s ++ t) i ret = last_index c s i ret.
Proof.
  intros Ht. revert i ret. induction s as [|d s IH]; intros i ret; simpl; [|apply IH].
  revert i. induction t as [|d t IHt]; intros i; simpl; [done|].
  rewrite decide_False by set_solver. apply IHt. set_solver.
Qed.
Lemma last_index_snoc c s i ret :
  last_index c (s ++ [c]) i ret = Some (i + length s)%nat.
Proof.
  revert i ret. induction s as [|d s IH]; intros i ret; simpl.
  - rewrite decide_True by done. f_equal. lia.
  - rewrite IH. f_equal. lia.
Qed.
Lemma last_index_none c s i : c ∉ s → last_index c s i None = None.
Proof. intros. by rewrite <-(app_nil_l s), last_index_app. Qed.

(** ** Filling and copying memory *)

(** The characters of an array up to its first zero byte. *)
Fixpoint cstr (bs : list Z) : list Z :=
  match bs with
  | [] => []
  | c :: t => if decide (c = 0) then [] else c :: cstr t
  end.

Lemma cstr_length bs : (length (cstr bs) ≤ length bs)%nat.
Proof. induction bs as [|c t IH]; simpl; [done|]. case_decide; simpl; lia. Qed.

Lemma cstr_terminated s r : str_ok s → cstr (s ++ 0 :: r) = s.
Proof.
  induction s as [|c s IH]; intros Hs; simpl; [done|].
  apply str_ok_cons in Hs as [Hc Hs]. rewrite decide_False by lia. by rewrite IH.
Qed.

(** [strncmp] against a terminated string, on memory that may not be terminated
    itself: it looks at no more than [num + 1] bytes. *)
Lemma strncmp_field bs n r num :
  str_ok n → (num < length bs)%nat →
  ∃ d, strncmp bs (n ++ 0 :: r) num = Done d ∧ (d = 0 ↔ cstr (take (S num) bs) = take (S num) n).
Proof.
  revert bs n. induction num as [|num IH]; intros bs n Hn Hl; destruct bs as [|b bs]; simpl in Hl; try lia.
  - destruct n as [|c n]; cbn [app strncmp take cstr].
    + eexists. split; [done|]. rewrite Z.sub_0_r. case_decide; naive_solver.
    + apply str_ok_cons in Hn as [Hc Hn]. eexists. split; [done|].
      case_decide; split; intros; simplify_eq; try lia. f_equal. lia.
  - destruct n as [|c n]; cbn [app strncmp].
    + rewrite decide_False by lia. eexists. split; [done|]. cbn [take cstr].
      case_decide; split; intros; simplify_eq; lia || done.
    + apply str_ok_cons in Hn as [Hc Hn]. cbn [take cstr]. destruct (decide (b ≠ 0 ∧ b = c)) as [[Hb ->]|Hne].
      * destruct (IH bs n) as (d & Hd & Hiff); [done|lia|]. exists d. split; [done|].
        rewrite decide_False by done. rewrite Hiff. split; [congruence|naive_solver].
      * eexists. split; [done|]. case_decide; split; intros; simplify_eq; try lia.
Qed.

Lemma strcmp_field bs n r :
  str_ok n → (length n < length bs)%nat →
  ∃ d, strcmp bs (n ++ 0 :: r) = Done d ∧ (d = 0 ↔ cstr (take (S (length n)) bs) = n).
Proof.
  revert bs. induction n as [|c n IH]; intros bs Hn Hl; destruct bs as [|b bs]; simpl in Hl; try lia.
  - cbn [app strcmp length take cstr]. rewrite decide_False by lia. eexists. split; [done|].
    case_decide; split; intros; simplify_eq; lia || done.
  - apply str_ok_cons in Hn as [Hc Hn]. cbn [app strcmp length]. rewrite firstn_cons. cbn [cstr].
    destruct (decide (b ≠ 0 ∧ b = c)) as [[Hb ->]|Hne].
    + destruct (IH bs) as (d & Hd & Hiff); [done|lia|]. exists d. split; [done|].
      rewrite decide_False by done. rewrite Hiff. split; [congruence|naive_solver].
    + eexists. split; [done|]. case_decide; split; intros; simplify_eq; try lia.
Qed.

Lemma memset_loop_spec n dest v :
  (n ≤ length dest)%nat → memset_loop dest v n = Done (replicate n (u8 v) ++ drop n dest).
Proof.
  revert dest. induction n as [|n IH]; intros dest Hn; simpl; [by destruct dest|].
  destruct dest as [|d dest]; simpl in *; [lia|]. by rewrite IH by lia.
Qed.
Lemma memset_spec dest v len :
  0 ≤ len ≤ zlen dest → len < 2147483648 →
  memset dest v len = Done (replicate (Z.to_nat len) (u8 v) ++ drop (Z.to_nat len) dest).
Proof. intros. unfold memset. rewrite s32_small by lia. apply memset_loop_spec. lia. Qed.

Lemma memset_all dest v :
  zlen dest < 2147483648 → memset dest v (zlen dest) = Done (replicate (length dest) (u8 v)).
Proof.
  intros. rewrite memset_spec by lia. rewrite Nat2Z.id, drop_ge by lia. by rewrite app_nil_r.
Qed.

(** A loop over [w]-byte words copies the longest prefix that is a whole number
    of words: it moves bytes from the source to [acc] unchanged. *)
Lemma copy_words_spec fuel w acc dst src size :
  (0 < w)%nat → (size < fuel)%nat → Forall is_byte src →
  (size ≤ length src)%nat → (size ≤ length dst)%nat →
  ∃ k, (k ≤ size)%nat ∧ (size - k < w)%nat ∧
    copy_words fuel w acc dst src size
      = Done (acc ++ take k src, drop k dst, drop k src, (size - k)%nat).
Proof.
  intros Hw. revert acc dst src size.
  induction fuel as [|fuel IH]; intros acc dst src size Hf Hb Hs Hd; [lia|].
  cbn [copy_words]. destruct (decide (size < w)%nat).
  - exists 0%nat. rewrite !drop_0, take_0, app_nil_r, Nat.sub_0_r. eauto with lia.
  - rewrite decide_True by lia.
    rewrite le_bytes_val; [|by apply Forall_take|rewrite length_take; lia].
    destruct (IH (acc ++ take w src) (drop w dst) (drop w src) (size - w)%nat)
      as (k & Hk & Hr & ->); [lia|by apply Forall_drop|rewrite length_drop; lia..|].
    exists (w + k)%nat. split; [lia|]. split; [lia|].
    rewrite !drop_drop, <-app_assoc, take_take_drop.
    do 2 f_equal. lia.
Qed.

Lemma copy_words_one fuel acc dst src size :
  (size < fuel)%nat → Forall is_byte src →
  (size ≤ length src)%nat → (size ≤ length dst)%nat →
  copy_words fuel 1 acc dst src size
    = Done (acc ++ take size src, drop size dst, drop size src, 0%nat).
Proof.
  intros Hf Hb Hs Hd.
  destruct (copy_words_spec fuel 1 acc dst src size) as (k & Hk & Hr & ->); try done; [lia|].
  assert (k = size) as -> by lia. by rewrite Nat.sub_diag.
Qed.

Lemma memcpy_spec destination source size :
  Forall is_byte source → (size ≤ length source)%nat → (size ≤ length destination)%nat →
  memcpy destination source size = Done (take size source ++ drop size destination).
Proof.
  intros Hb Hs Hd. unfold memcpy.
  destruct (copy_words_spec (S size) 8 [] destination source size)
    as (k8 & Hk8 & _ & ->); [lia|lia|done|lia|lia|].
  cbn [mbind outcome_bind].
  destruct (copy_words_spec (S size) 4 ([] ++ take k8 source) (drop k8 destination)
              (drop k8 source) (size - k8)) as (k4 & Hk4 & _ & ->);
    [lia|lia|by apply Forall_drop|rewrite length_drop; lia|rewrite length_drop; lia|].
  cbn [mbind outcome_bind].
  rewrite copy_words_one by (try apply Forall_drop; try apply Forall_drop; rewrite ?length_drop;
    done || lia).
  cbn [mbind outcome_bind].
  rewrite app_nil_l, take_take_drop, !drop_drop, take_take_drop.
  do 3 f_equal; lia.
Qed.

(** ** Integers to text *)

(** The value of a string of digits, most significant first. *)
Definition digit_val (c : Z) : Z := if decide (c ≤ 57) then c - 48 else c - 55.
Definition parse_digits (base : Z) (s : list Z) : Z :=
  fold_left (λ v c, v * base + digit_val c) s 0.

Lemma digits_lookup k :
  0 ≤ k < 16 → ∃ c, aget digits k = Some c ∧ digit_val c = k ∧ 0 < c < 256.
Proof.
  intros Hk.
  assert (k = 0 ∨ k = 1 ∨ k = 2 ∨ k = 3 ∨ k = 4 ∨ k = 5 ∨ k = 6 ∨ k = 7 ∨ k = 8 ∨ k = 9 ∨
          k = 10 ∨ k = 11 ∨ k = 12 ∨ k = 13 ∨ k = 14 ∨ k = 15) as Hk' by lia.
  destruct_or! Hk'; subst; eexists; (split; [reflexivity|]); by vm_compute.
Qed.

Lemma parse_digits_rev_cons base c s :
  parse_digits base (rev (c :: s)) = parse_digits base (rev s) * base + digit_val c.
Proof. unfold parse_digits. cbn [rev]. by rewrite fold_left_app. Qed.

(** The digits of [value], least significant first, are appended to [temp];
    [cap] digits are enough for values below [base ^ cap]. *)
Lemma itoa_digits_spec cap value base temp :
  2 ≤ base ≤ 16 → 0 ≤ value < base ^ Z.of_nat cap → (0 < cap)%nat →
  ∃ ds, itoa_digits cap value base temp = Done (temp ++ ds) ∧
        (0 < length ds ≤ cap)%nat ∧ parse_digits base (rev ds) = value ∧ str_ok ds.
Proof.
  intros Hb. revert value temp. induction cap as [|cap IH]; intros value temp Hv Hc; [lia|].
  cbn [itoa_digits]. rewrite Z.rem_mod_nonneg, Z.quot_div_nonneg by lia.
  pose proof (Z.mod_pos_bound value base ltac:(lia)).
  destruct (digits_lookup (value mod base)) as (c & -> & Hcv & Hc0); [lia|].
  cbn [of_option mbind outcome_bind].
  rewrite Nat2Z.inj_succ, Z.pow_succ_r in Hv by lia.
  destruct (decide (0 < value / base)) as [Hpos|Hzero].
  - assert (value / base < base ^ Z.of_nat cap) by (apply Z.div_lt_upper_bound; lia).
    destruct cap as [|cap]; [simpl in *; lia|].
    destruct (IH (value / base) (temp ++ [c])) as (ds & -> & Hl & Hp & Hok); [lia..|].
    exists (c :: ds). rewrite <-app_assoc. split; [done|]. split; [simpl; lia|].
    rewrite parse_digits_rev_cons, Hp, Hcv. split; [|by apply str_ok_cons].
    pose proof (Z.div_mod value base). lia.
  - exists [c]. split; [done|]. split; [simpl; lia|]. split; [|by repeat constructor; lia].
    cbn. rewrite Hcv. pose proof (Z.div_pos value base). pose proof (Z.div_mod value base).
    assert (value / base = 0) as E by lia. rewrite E in *. lia.
Qed.

(** A negative value is out of the digit table unless the base divides it. *)
Lemma itoa_digits_negative cap value base :
  2 ≤ base ≤ 16 → value < 0 →
  itoa_digits (S cap) value base [] =
    if decide (value mod base = 0) then Done [48] else Fault.
Proof.
  intros Hb Hv. cbn [itoa_digits].
  pose proof (Z.quot_rem' value base). pose proof (Z.div_mod value base ltac:(lia)).
  pose proof (Z.mod_pos_bound value base ltac:(lia)).
  assert (- base < Z.rem value base ≤ 0) by (apply Z.rem_bound_pos_neg; lia).
  destruct (decide (value mod base = 0)) as [E|E].
  - assert (Z.rem value base = 0) as Hr by (apply Z.rem_divide, Z.mod_divide; lia).
    rewrite Hr in *.
    change (of_option (aget digits 0)) with (Done 48). cbn [mbind outcome_bind app].
    rewrite decide_False by nia. done.
  - assert (Z.rem value base ≠ 0) as Hr.
    { intros Hr. apply E, Z.mod_divide; [lia|]. apply Z.rem_divide; lia. }
    unfold aget.
    rewrite decide_False by lia. done.
Qed.

Lemma itoa_negative value base buffer :
  2 ≤ base ≤ 16 → base ≠ 10 → -2147483648 ≤ value < 0 → (2 ≤ length buffer)%nat →
  itoa value buffer base =
    if decide (value mod base = 0) then Done (48 :: 0 :: drop 2 buffer) else Fault.
Proof.
  intros Hb Hb10 Hv Hl. unfold itoa. rewrite decide_False by lia.
  rewrite bool_decide_eq_false_2 by lia. rewrite itoa_digits_negative by lia.
  destruct (decide (value mod base = 0)); [|done].
  cbn [mbind outcome_bind length]. rewrite decide_True by lia. done.
Qed.

(** ** Properties *)

(** [strncmp] on two terminated strings always returns without reading past
    a terminator, and its result is zero exactly when the strings agree on their
    first [num + 1] bytes: one byte more than the C standard's [num]. *)
Theorem strncmp_compares_one_more s1 s2 r1 r2 num :
  str_ok s1 → str_ok s2 →
  ∃ d, strncmp (s1 ++ 0 :: r1) (s2 ++ 0 :: r2) num = Done d ∧
       (d = 0 ↔ take (S num) s1 = take (S num) s2).
Proof. apply strncmp_cstr. Qed.

Lemma strncmp_compares_one_more_witness :
  ∃ d, strncmp ([97; 98] ++ 0 :: []) ([97; 99] ++ 0 :: []) 1 = Done d ∧
       (d = 0 ↔ take 2 [97; 98] = take 2 [97; 99]).
Proof. apply (strncmp_compares_one_more [97; 98] [97; 99] [] [] 1); repeat constructor. Defined.

(** C39: [memcpy], which moves 8-byte words, then 4-byte words, then bytes, is the
    byte-for-byte copy: between two arrays it stores the first [size] bytes of the
    source at the destination and leaves the rest of the destination alone. *)
Theorem memcpy_is_bytewise destination source size :
  Forall is_byte source → (size ≤ length source)%nat → (size ≤ length destination)%nat →
  memcpy destination source size = Done (take size source ++ drop size destination).
Proof. apply memcpy_spec. Qed.

Lemma memcpy_is_bytewise_witness :
  memcpy (replicate 20 7) (seqZ 1 15) 13 = Done (take 13 (seqZ 1 15) ++ drop 13 (replicate 20 7)).
Proof.
  apply (memcpy_is_bytewise (replicate 20 7) (seqZ 1 15) 13); [by_decide|vm_compute; lia..].
Defined.

(** C40: [itoa] followed by reading the digits back is the identity: for a
    non-negative [int] and a base from 2 to 16 the buffer holds, from its start,
    digits of the value in that base and a terminator. *)
Theorem itoa_roundtrip value base buffer :
  2 ≤ base ≤ 16 → 0 ≤ value < 2147483648 → (33 ≤ length buffer)%nat →
  ∃ ds, itoa value buffer base = Done (ds ++ 0 :: drop (S (length ds)) buffer) ∧
        str_ok ds ∧ ds ≠ [] ∧ parse_digits base ds = value.
Proof.
  intros Hb Hv Hl. unfold itoa. rewrite decide_False by lia.
  rewrite bool_decide_eq_false_2 by lia.
  destruct (itoa_digits_spec 32 value base []) as (ds & -> & Hds & Hp & Hok); [lia| |lia|].
  { split; [lia|]. apply (Z.lt_le_trans _ (2 ^ Z.of_nat 32)); [lia|].
    apply Z.pow_le_mono_l. lia. }
  cbn [mbind outcome_bind app]. rewrite decide_True by lia.
  exists (rev ds). rewrite length_rev. split; [done|]. split; [by apply Forall_rev|].
  split; [|done]. intros E. apply (f_equal length) in E. rewrite length_rev in E.
  simpl in E. lia.
Qed.

Lemma itoa_roundtrip_witness :
  ∃ ds, itoa 31007 (replicate 33 0) 16 = Done (ds ++ 0 :: drop (S (length ds)) (replicate 33 0)) ∧
        str_ok ds ∧ ds ≠ [] ∧ parse_digits 16 ds = 31007.
Proof. apply (itoa_roundtrip 31007 16 (replicate 33 0)); [lia..|simpl; lia]. Defined.

(** [itoa] of a negative [int] in a base other than 10 never prints the
    value: when the base divides it the text is ["0"], and otherwise the function
    reads in front of its digit table. *)
Theorem itoa_negative_other_base value base buffer :
  2 ≤ base ≤ 16 → base ≠ 10 → -2147483648 ≤ value < 0 → (2 ≤ length buffer)%nat →
  itoa value buffer base =
    if decide (value mod base = 0) then Done (48 :: 0 :: drop 2 buffer) else Fault.
Proof. apply itoa_negative. Qed.

Lemma itoa_negative_other_base_witness :
  itoa (-1) (replicate 33 0) 16 =
    if decide (-1 mod 16 = 0) then Done (48 :: 0 :: drop 2 (replicate 33 0)) else Fault.
Proof. apply (itoa_negative_other_base (-1) 16 (replicate 33 0)); [lia..|simpl; lia]. Defined.
