(* ===== verification/Pmm.v ===== *)
(** * The physical memory manager: memory/physical/physical_memory_manager.c

    One bit per page frame in an array of 32-bit words; a set bit is an occupied
    frame.  [pmm_info_t] is the module's static state ([pmm_info] and
    [is_initialized]); before [pmm_init] the bitmap pointer is null, which is the
    empty array here, so any access through it faults.  The memory map the boot
    loader left in memory is the parameter [mmap_at]. *)

From S2P Require Import Prelude.

Definition PAGE_SIZE : Z := 4096.
Definition PAGES_PER_DWORD : Z := 32.
Definition MAX_PHYSICAL_MEMORY : Z := 4 * 1024 * 1024 * 1024.
Definition BITMAP_SIZE : Z :=
  (MAX_PHYSICAL_MEMORY / PAGE_SIZE + PAGES_PER_DWORD - 1) / PAGES_PER_DWORD.

Inductive pmm_status_t :=
| PMM_SUCCESS | PMM_ERROR_INVALID_PARAMS | PMM_ERROR_OUT_OF_MEMORY
| PMM_ERROR_ALREADY_INITIALIZED.
#[export] Instance pmm_status_eq_dec : EqDecision pmm_status_t.
Proof. solve_decision. Defined.

Inductive PAGE_STATUS := MEMORY_FREE | MEMORY_OCCUPIED.

Record pmm_info_t := Pmm {
  bitmap : list Z;
  bitmap_size : Z;
  max_pages : Z;
  used_pages : Z;
  is_initialized : bool
}.

Definition pmm_info_init : pmm_info_t := Pmm [] 0 0 0 false.

Definition set_bitmap (b : list Z) (s : pmm_info_t) : pmm_info_t :=
  Pmm b (bitmap_size s) (max_pages s) (used_pages s) (is_initialized s).
Definition set_used (u : Z) (s : pmm_info_t) : pmm_info_t :=
  Pmm (bitmap s) (bitmap_size s) (max_pages s) u (is_initialized s).

(** The fields of the boot information that the module reads. *)
Record multiboot_info_t := MultibootInfo {
  mem_lower : Z; mem_upper : Z; mmap_length : Z; mmap_addr : Z
}.
Record multiboot_memory_map_t := MmapEntry {
  me_size : Z; addr_low : Z; len_low : Z; me_type : Z
}.

(** ** The bitmap *)

Definition set_bit_status (bit_index : Z) (status : PAGE_STATUS) : M pmm_info_t unit :=
  let arr_index := bit_index / 32 in
  let shift_amount := bit_index mod 32 in
  let bit_mask := Z.shiftl 1 shift_amount in
  w ← reads bitmap arr_index;
  match status with
  | MEMORY_FREE => writes bitmap set_bitmap arr_index (Z.land w bit_mask)
  | MEMORY_OCCUPIED => writes bitmap set_bitmap arr_index (Z.lor w bit_mask)
  end.

Definition set_occupied (bit_index : Z) : M pmm_info_t unit :=
  set_bit_status bit_index MEMORY_OCCUPIED.
Definition set_free (bit_index : Z) : M pmm_info_t unit :=
  set_bit_status bit_index MEMORY_FREE.

Definition check_if_occupied (bit_index : Z) : M pmm_info_t bool :=
  let arr_index := bit_index / 32 in
  let shift_amount := bit_index mod 32 in
  let bit_mask := Z.shiftl 1 shift_amount in
  w ← reads bitmap arr_index;
  mret (negb (Z.land w bit_mask =? 0)).

(** ** Regions *)

Definition pmm_init_region (address length : Z) : M pmm_info_t unit :=
  let start_page := address / PAGE_SIZE in
  let num_pages := length / PAGE_SIZE in
  _ ← for_from 0 (Z.to_nat num_pages) (λ i, set_free (u32 (start_page + i)));
  modify (λ s, set_used (u32 (used_pages s - num_pages)) s).

Definition pmm_clear_region (address length : Z) : M pmm_info_t unit :=
  let start_page := address / PAGE_SIZE in
  let num_pages := length / PAGE_SIZE in
  _ ← for_from 0 (Z.to_nat num_pages) (λ i, set_occupied (u32 (start_page + i)));
  modify (λ s, set_used (u32 (used_pages s + num_pages)) s).

(** ** Allocation *)

(** The inner loop: the bits of one word, [bit] first, [n] of them. *)
Fixpoint scan_bits (n : nat) (entry bit : Z) : M pmm_info_t (option Z) :=
  match n with
  | O => mret None
  | S n' =>
      let block_index := u32 (entry * 32 + bit) in
      mx ← gets max_pages;
      if decide (mx ≤ block_index) then mret None
      else
        occ ← check_if_occupied block_index;
        if occ : bool then scan_bits n' entry (bit + 1) else mret (Some block_index)
  end.

(** The outer loop over the words. *)
Fixpoint scan_entries (n : nat) (entry : Z) : M pmm_info_t Z :=
  match n with
  | O => mret (-1)
  | S n' =>
      w ← reads bitmap entry;
      if decide (w = 4294967295) then scan_entries n' (entry + 1)
      else
        r ← scan_bits 32 entry 0;
        match r with
        | Some block_index => mret block_index
        | None => scan_entries n' (entry + 1)
        end
  end.

Definition find_first_free_block : M pmm_info_t Z :=
  s ← get;
  if decide (used_pages s = max_pages s) then mret (-1)
  else scan_entries (Z.to_nat (max_pages s / 32)) 0.

Definition pmm_allocate_page : M pmm_info_t Z :=
  r ← find_first_free_block;
  let page_index := u32 r in
  if decide (page_index = u32 (-1)) then mret 0
  else
    _ ← set_occupied page_index;
    _ ← modify (λ s, set_used (u32 (used_pages s + 1)) s);
    mret page_index.

Definition pmm_deallocate_page (page_index : Z) : M pmm_info_t unit :=
  _ ← modify (λ s, set_used (u32 (used_pages s - 1)) s);
  set_free page_index.

(** ** Initialisation *)

Section init.
Variable mmap_at : Z → multiboot_memory_map_t.

(** One round of the loop over the memory map, from the entry at [mmap]. *)
Definition mmap_step (mmap_end mmap : Z) : M pmm_info_t (Z + unit) :=
  if decide (mmap < mmap_end) then
    let e := mmap_at mmap in
    _ ← (if decide (me_type e = 1) then pmm_init_region (addr_low e) (len_low e)
         else mret tt);
    mret (inl (u32 (mmap + me_size e + 4)))
  else mret (inr tt).

(** The bitmap is filled by a [memset] of [BITMAP_SIZE] bytes, four to a word. *)
Definition bitmap_initial : list Z :=
  replicate (Z.to_nat (BITMAP_SIZE / 4)) 4294967295 ++
  replicate (Z.to_nat (BITMAP_SIZE - BITMAP_SIZE / 4)) 0.

(** [fuel] bounds the rounds over the memory map. *)
Definition pmm_init (fuel : nat) (mbi : option multiboot_info_t) :
    M pmm_info_t pmm_status_t :=
  s ← get;
  match mbi with
  | None => mret PMM_ERROR_ALREADY_INITIALIZED
  | Some mbi =>
      if is_initialized s then mret PMM_ERROR_ALREADY_INITIALIZED
      else
        let total_memory :=
          u64 (u64 (u32 (1024 + mem_lower mbi) + mem_upper mbi * 64) * 1024) in
        let pages := u32 (total_memory / PAGE_SIZE) in
        _ ← modify (λ _, Pmm bitmap_initial (pages / PAGES_PER_DWORD) pages pages false);
        let mmap_end := u32 (mmap_addr mbi + mmap_length mbi) in
        _ ← iter fuel (mmap_step mmap_end) (mmap_addr mbi);
        _ ← pmm_clear_region 0 25165824;
        _ ← modify (λ s, Pmm (bitmap s) (bitmap_size s) (max_pages s) (used_pages s) true);
        _ ← set_occupied 0;
        mret PMM_SUCCESS
  end.
End init.

(** ** What the bitmap says *)

(** The frame's bit; frames behind the end of the bitmap have none. *)
Definition occupied (s : pmm_info_t) (page : Z) : bool :=
  match aget (bitmap s) (page / 32) with
  | Some w => Z.testbit w (page mod 32)
  | None => false
  end.

(** The initialised module: the bitmap has its static size and holds 32-bit words. *)
Definition pmm_wf (s : pmm_info_t) : Prop :=
  zlen (bitmap s) = 32768 ∧ Forall (λ w, 0 ≤ w < 2 ^ 32) (bitmap s).

Lemma pmm_wf_word s i :
  pmm_wf s → 0 ≤ i < 32768 → ∃ w, aget (bitmap s) i = Some w ∧ 0 ≤ w < 2 ^ 32.
Proof.
  intros [Hl Hw] Hi. destruct (aget_is_Some (bitmap s) i) as [w Hget]; [lia|].
  exists w. split; [done|]. apply aget_Some in Hget as [_ Hget].
  by eapply (Forall_lookup_1 _ _ _ _ Hw).
Qed.

Lemma pmm_wf_insert s i w :
  pmm_wf s → 0 ≤ w < 2 ^ 32 → pmm_wf (set_bitmap (<[Z.to_nat i := w]> (bitmap s)) s).
Proof.
  intros [Hl Hw] Hr. split; simpl; [by rewrite length_insert|]. by apply Forall_insert.
Qed.

Lemma pmm_wf_used s u : pmm_wf s → pmm_wf (set_used u s).
Proof. done. Qed.
Lemma occupied_used s u p : occupied (set_used u s) p = occupied s p.
Proof. done. Qed.

Lemma occupied_insert s i w p :
  0 ≤ i < zlen (bitmap s) →
  occupied (set_bitmap (<[Z.to_nat i := w]> (bitmap s)) s) p =
    if decide (p / 32 = i) then Z.testbit w (p mod 32) else occupied s p.
Proof.
  intros Hi. unfold occupied. simpl. rewrite aget_insert by done.
  destruct (decide (i = p / 32)), (decide (p / 32 = i)); try done; lia.
Qed.

Lemma page_split p : p = p / 32 * 32 + p mod 32 ∧ 0 ≤ p mod 32 < 32.
Proof. pose proof (Z.div_mod p 32). pose proof (Z.mod_pos_bound p 32). lia. Qed.

Lemma page_in_word k p : k * 32 ≤ p < k * 32 + 32 → p / 32 = k ∧ p mod 32 = p - k * 32.
Proof.
  intros H. pose proof (Z.div_mod p 32). pose proof (Z.mod_pos_bound p 32).
  assert (p / 32 = k) by lia. split; lia.
Qed.

Create HintDb pmm.
#[export] Hint Resolve pmm_wf_insert pmm_wf_used : pmm.

(** [check_if_occupied] reads the frame's bit. *)
Lemma check_if_occupied_spec s p :
  pmm_wf s → 0 ≤ p < 1048576 → check_if_occupied p s = Done (occupied s p, s).
Proof.
  intros Hwf Hp. destruct (pmm_wf_word s (p / 32) Hwf) as (w & Hw & _).
  { pose proof (page_split p). lia. }
  unfold check_if_occupied, occupied, reads, mbind, M_bind. rewrite Hw.
  unfold mret, M_ret. rewrite land_shiftl1_nonzero; [done|]. apply page_split.
Qed.

(** What the two writes do to the word of a frame. *)
Definition status_word (status : PAGE_STATUS) (w r : Z) : Z :=
  match status with
  | MEMORY_FREE => Z.land w (Z.shiftl 1 r)
  | MEMORY_OCCUPIED => Z.lor w (Z.shiftl 1 r)
  end.

Lemma status_word_range status w r :
  0 ≤ w < 2 ^ 32 → 0 ≤ r < 32 → 0 ≤ status_word status w r < 2 ^ 32.
Proof.
  intros Hw Hr.
  assert (0 ≤ Z.shiftl 1 r < 2 ^ 32) as Hm.
  { rewrite Z.shiftl_1_l. split; [lia|]. apply Z.pow_lt_mono_r; lia. }
  destruct status; simpl.
  - pose proof (land_range w (Z.shiftl 1 r)). lia.
  - by apply (lor_range _ _ 32).
Qed.

Lemma set_bit_status_spec s p status :
  pmm_wf s → 0 ≤ p < 1048576 →
  ∃ w, aget (bitmap s) (p / 32) = Some w ∧ 0 ≤ w < 2 ^ 32 ∧
    set_bit_status p status s =
      Done (tt, set_bitmap (<[Z.to_nat (p / 32) := status_word status w (p mod 32)]>
                              (bitmap s)) s).
Proof.
  intros Hwf Hp. pose proof (page_split p).
  destruct (pmm_wf_word s (p / 32) Hwf) as (w & Hw & Hr); [lia|].
  exists w. split; [done|]. split; [done|].
  unfold set_bit_status, reads, writes, mbind, M_bind. rewrite Hw.
  destruct Hwf as [Hl _]. destruct status; rewrite aset_in by lia; done.
Qed.

(** Marking a frame occupied sets its bit and no other. *)
Lemma set_occupied_spec s p :
  pmm_wf s → 0 ≤ p < 1048576 →
  ∃ b, set_occupied p s = Done (tt, set_bitmap b s) ∧ pmm_wf (set_bitmap b s) ∧
    ∀ q, 0 ≤ q → occupied (set_bitmap b s) q = bool_decide (q = p) || occupied s q.
Proof.
  intros Hwf Hp. pose proof (page_split p).
  destruct (set_bit_status_spec s p MEMORY_OCCUPIED Hwf Hp) as (w & Hw & Hr & Hset).
  eexists. split; [apply Hset|]. split; [apply pmm_wf_insert; [done|]|].
  { apply status_word_range; lia. }
  intros q Hq. pose proof (page_split q).
  rewrite occupied_insert by (destruct Hwf as [-> _]; lia). simpl.
  destruct (decide (q / 32 = p / 32)) as [E|E].
  - rewrite Z.lor_spec, testbit_shiftl1 by lia.
    unfold occupied. rewrite E, Hw. rewrite orb_comm. f_equal.
    apply bool_decide_ext. lia.
  - rewrite bool_decide_eq_false_2 by congruence. done.
Qed.

(** Freeing a frame keeps its own bit and clears the 31 others of its word. *)
Lemma set_free_spec s p :
  pmm_wf s → 0 ≤ p < 1048576 →
  ∃ b, set_free p s = Done (tt, set_bitmap b s) ∧ pmm_wf (set_bitmap b s) ∧
    ∀ q, 0 ≤ q → occupied (set_bitmap b s) q =
      if decide (q / 32 = p / 32) then bool_decide (q = p) && occupied s q else occupied s q.
Proof.
  intros Hwf Hp. pose proof (page_split p).
  destruct (set_bit_status_spec s p MEMORY_FREE Hwf Hp) as (w & Hw & Hr & Hset).
  eexists. split; [apply Hset|]. split; [apply pmm_wf_insert; [done|]|].
  { apply status_word_range; lia. }
  intros q Hq. pose proof (page_split q).
  rewrite occupied_insert by (destruct Hwf as [-> _]; lia). simpl.
  destruct (decide (q / 32 = p / 32)) as [E|E]; [|done].
  rewrite Z.land_spec, testbit_shiftl1 by lia.
  unfold occupied. rewrite E, Hw. rewrite andb_comm. f_equal.
  apply bool_decide_ext. lia.
Qed.

(** ** The search for a free frame *)

Lemma word_full w : 0 ≤ w < 2 ^ 32 → (w = 4294967295 ↔ ∀ j, 0 ≤ j < 32 → Z.testbit w j = true).
Proof.
  intros Hw. split.
  - intros -> j Hj. change 4294967295 with (Z.ones 32). apply Z.ones_spec_low. lia.
  - intros H. change 4294967295 with (Z.ones 32). apply Z.bits_inj'. intros j Hj.
    destruct (decide (j < 32)).
    + rewrite H, Z.ones_spec_low by lia. done.
    + rewrite Z.ones_spec_high by lia. by apply (testbit_above w 32); [|lia].
Qed.

(** Within one word: the bits from [bit] on are occupied. *)
Lemma scan_bits_none s n entry bit :
  pmm_wf s → 0 ≤ entry < 32768 → 0 ≤ bit → bit + Z.of_nat n ≤ 32 →
  (∀ q, entry * 32 + bit ≤ q < entry * 32 + bit + Z.of_nat n → q < max_pages s →
        occupied s q = true) →
  scan_bits n entry bit s = Done (None, s).
Proof.
  intros Hwf He. revert bit. induction n as [|n IH]; intros bit Hb Hn Hocc; [done|].
  cbn [scan_bits]. unfold u32. rewrite Z.mod_small by lia.
  unfold mbind, M_bind, gets. destruct (decide (max_pages s ≤ entry * 32 + bit)); [done|].
  rewrite check_if_occupied_spec by (done || lia). rewrite Hocc by lia.
  apply IH; [lia..|]. intros q Hq. apply Hocc. lia.
Qed.

(** Within one word: the first free bit is found. *)
Lemma scan_bits_found s n entry bit p :
  pmm_wf s → 0 ≤ entry < 32768 → 0 ≤ bit →
  entry * 32 + bit ≤ p < entry * 32 + bit + Z.of_nat n → bit + Z.of_nat n ≤ 32 →
  p < max_pages s → occupied s p = false →
  (∀ q, entry * 32 + bit ≤ q < p → occupied s q = true) →
  scan_bits n entry bit s = Done (Some p, s).
Proof.
  intros Hwf He. revert bit. induction n as [|n IH]; intros bit Hb Hp Hn Hmax Hfree Hocc; [lia|].
  cbn [scan_bits]. unfold u32. rewrite Z.mod_small by lia.
  unfold mbind, M_bind, gets. rewrite decide_False by lia.
  rewrite check_if_occupied_spec by (done || lia).
  destruct (decide (p = entry * 32 + bit)) as [->|Hne].
  - by rewrite Hfree.
  - rewrite Hocc by lia. apply IH; try done; try lia. intros q Hq. apply Hocc. lia.
Qed.

Lemma word_occupied s k w :
  aget (bitmap s) k = Some w → 0 ≤ w < 2 ^ 32 →
  (w = 4294967295 ↔ ∀ q, k * 32 ≤ q < k * 32 + 32 → occupied s q = true).
Proof.
  intros Hw Hr. rewrite word_full by done. unfold occupied. split; intros H.
  - intros q Hq. destruct (page_in_word k q Hq) as [-> ->]. rewrite Hw. apply H. lia.
  - intros j Hj. specialize (H (k * 32 + j)).
    destruct (page_in_word k (k * 32 + j)) as [E1 E2]; [lia|].
    rewrite E1, E2, Hw in H. replace j with (k * 32 + j - k * 32) by lia. apply H. lia.
Qed.

Lemma scan_entries_none s n entry :
  pmm_wf s → 0 ≤ entry → entry + Z.of_nat n ≤ 32768 →
  (∀ q, entry * 32 ≤ q < (entry + Z.of_nat n) * 32 → q < max_pages s → occupied s q = true) →
  scan_entries n entry s = Done (-1, s).
Proof.
  intros Hwf. revert entry. induction n as [|n IH]; intros entry He Hn Hocc; [done|].
  cbn [scan_entries]. destruct (pmm_wf_word s entry Hwf) as (w & Hw & Hr); [lia|].
  assert (scan_entries n (entry + 1) s = Done (-1, s)) as Hrest.
  { apply IH; [lia..|]. intros q Hq. apply Hocc. lia. }
  unfold mbind, M_bind, reads. rewrite Hw. case_decide; [done|].
  rewrite scan_bits_none; [done|done|lia..|]. intros q Hq. apply Hocc. lia.
Qed.

Lemma scan_entries_found s n entry p :
  pmm_wf s → 0 ≤ entry → entry * 32 ≤ p < (entry + Z.of_nat n) * 32 →
  p < 1048576 → p < max_pages s → occupied s p = false →
  (∀ q, entry * 32 ≤ q < p → occupied s q = true) →
  scan_entries n entry s = Done (p, s).
Proof.
  intros Hwf. revert entry. induction n as [|n IH]; intros entry He Hp Hp' Hmax Hfree Hocc; [lia|].
  cbn [scan_entries]. destruct (pmm_wf_word s entry Hwf) as (w & Hw & Hr); [lia|].
  unfold mbind, M_bind, reads. rewrite Hw.
  destruct (decide (p < entry * 32 + 32)) as [Hin|Hout].
  - rewrite decide_False; cycle 1.
    { intros E. apply (word_occupied s entry w Hw Hr) with (q := p) in E; [congruence|lia]. }
    rewrite (scan_bits_found s 32 entry 0 p); try done; [lia..|].
    intros q Hq. apply Hocc. lia.
  - rewrite decide_True; cycle 1.
    { apply (word_occupied s entry w Hw Hr). intros q Hq. apply Hocc. lia. }
    apply IH; try done; [lia..|]. intros q Hq. apply Hocc. lia.
Qed.

(** The lowest free frame the search can see: it looks at whole words of the
    first [max_pages] bits only. *)
Definition first_free (s : pmm_info_t) (p : Z) : Prop :=
  0 ≤ p < max_pages s / 32 * 32 ∧ p < 1048576 ∧ occupied s p = false ∧
  ∀ q, 0 ≤ q < p → occupied s q = true.

Lemma find_first_free_block_found s p :
  pmm_wf s → used_pages s ≠ max_pages s → first_free s p →
  find_first_free_block s = Done (p, s).
Proof.
  intros Hwf Hu (Hp & Hp' & Hfree & Hocc). unfold find_first_free_block, mbind, M_bind, get.
  rewrite decide_False by done. pose proof (Z.div_mod (max_pages s) 32).
  pose proof (Z.mod_pos_bound (max_pages s) 32).
  apply scan_entries_found; try done; lia.
Qed.

Lemma find_first_free_block_none s :
  pmm_wf s → 0 ≤ max_pages s ≤ 1048576 →
  used_pages s = max_pages s ∨ (∀ q, 0 ≤ q < max_pages s / 32 * 32 → occupied s q = true) →
  find_first_free_block s = Done (-1, s).
Proof.
  intros Hwf Hm Hu. unfold find_first_free_block, mbind, M_bind, get.
  case_decide; [done|]. destruct Hu as [|Hocc]; [done|].
  pose proof (Z.div_mod (max_pages s) 32). pose proof (Z.mod_pos_bound (max_pages s) 32).
  apply scan_entries_none; try done; [lia..|]. intros q Hq _. apply Hocc. lia.
Qed.

Lemma pmm_allocate_page_found s p :
  pmm_wf s → used_pages s ≠ max_pages s → first_free s p →
  ∃ b, pmm_allocate_page s = Done (p, set_used (u32 (used_pages s + 1)) (set_bitmap b s)) ∧
       pmm_wf (set_bitmap b s) ∧
       ∀ q, 0 ≤ q → occupied (set_bitmap b s) q = bool_decide (q = p) || occupied s q.
Proof.
  intros Hwf Hu Hff. pose proof Hff as (Hp & Hp' & _).
  destruct (set_occupied_spec s p Hwf) as (b & Hset & Hwf' & Hocc); [lia|].
  exists b. split; [|done]. unfold pmm_allocate_page, mbind, M_bind.
  rewrite (find_first_free_block_found s p) by done.
  rewrite u32_small by lia. change (u32 (-1)) with 4294967295.
  rewrite decide_False by lia. by rewrite Hset.
Qed.

(** ** Regions *)

(** How many of the frames in [a, b) lie in word [k]. *)
Definition overlap (a b k : Z) : Z := Z.max 0 (Z.min b (k * 32 + 32) - Z.max a (k * 32)).

(** What clearing the frames [a, b) one after the other leaves of frame [q]. *)
Definition region_freed (s : pmm_info_t) (a b q : Z) : bool :=
  if decide (overlap a b (q / 32) = 0) then occupied s q
  else bool_decide (a ≤ q < b ∧ overlap a b (q / 32) = 1) && occupied s q.

Lemma region_freed_step s s' a j q :
  a ≤ j → 0 ≤ q → 0 ≤ a →
  (∀ q, 0 ≤ q → occupied s' q = region_freed s a j q) →
  region_freed s a (j + 1) q =
    if decide (q / 32 = j / 32) then bool_decide (q = j) && occupied s' q else occupied s' q.
Proof.
  intros Haj Hq Ha Hs'. rewrite Hs' by done. unfold region_freed.
  pose proof (page_split q). pose proof (page_split j). pose proof (page_split a).
  set (jk := j / 32) in *. set (qk := q / 32) in *. clearbody jk qk. unfold overlap.
  destruct (occupied s q); rewrite ?andb_false_r, ?andb_true_r; repeat case_decide;
    rewrite ?andb_true_r, ?andb_false_r; try done; try lia;
    repeat case_bool_decide; simpl; try done; lia.
Qed.

(** The part of the state the region loops do not touch. *)
Definition same_config (s s' : pmm_info_t) : Prop :=
  bitmap_size s' = bitmap_size s ∧ max_pages s' = max_pages s ∧
  is_initialized s' = is_initialized s.

Lemma pmm_init_region_spec s address length :
  pmm_wf s → 0 ≤ address → 0 ≤ length → address / 4096 + length / 4096 ≤ 1048576 →
  wp (pmm_init_region address length) (λ _ s',
    pmm_wf s' ∧ same_config s s' ∧ used_pages s' = u32 (used_pages s - length / 4096) ∧
    ∀ q, 0 ≤ q → occupied s' q =
      region_freed s (address / 4096) (address / 4096 + length / 4096) q) s.
Proof.
  intros Hwf Ha Hl Hr. unfold pmm_init_region, PAGE_SIZE. wp_step.
  set (a := address / 4096) in *. set (n := length / 4096) in *.
  assert (0 ≤ a) by (apply Z.div_pos; lia). assert (0 ≤ n) by (apply Z.div_pos; lia).
  apply (wp_for (λ i s', pmm_wf s' ∧ same_config s s' ∧ used_pages s' = used_pages s ∧
    ∀ q, 0 ≤ q → occupied s' q = region_freed s a (a + i) q)).
  - split; [done|]. split; [done|]. split; [done|]. intros q Hq. unfold region_freed.
    rewrite decide_True; [done|]. unfold overlap. lia.
  - intros j s' Hj (Hwf' & Hc & Hu & Hocc).
    rewrite u32_small by lia.
    destruct (set_free_spec s' (a + j) Hwf') as (b & Hset & Hwf'' & Hocc'); [lia|].
    eapply wp_of_done; [done|]. split; [done|]. split; [done|]. split; [done|].
    intros q Hq. rewrite Hocc' by done. rewrite Z.add_assoc.
    symmetry. by apply region_freed_step; [lia..|].
  - intros s' (Hwf' & Hc & Hu & Hocc). apply wp_modify.
    rewrite Z.add_0_l, Z2Nat.id in Hocc by lia.
    split; [done|]. split; [done|]. split; [by rewrite <-Hu|done].
Qed.

Lemma pmm_clear_region_spec s address length :
  pmm_wf s → 0 ≤ address → 0 ≤ length → address / 4096 + length / 4096 ≤ 1048576 →
  wp (pmm_clear_region address length) (λ _ s',
    pmm_wf s' ∧ same_config s s' ∧ used_pages s' = u32 (used_pages s + length / 4096) ∧
    ∀ q, 0 ≤ q → occupied s' q =
      bool_decide (address / 4096 ≤ q < address / 4096 + length / 4096) || occupied s q) s.
Proof.
  intros Hwf Ha Hl Hr. unfold pmm_clear_region, PAGE_SIZE. wp_step.
  set (a := address / 4096) in *. set (n := length / 4096) in *.
  assert (0 ≤ a) by (apply Z.div_pos; lia). assert (0 ≤ n) by (apply Z.div_pos; lia).
  apply (wp_for (λ i s', pmm_wf s' ∧ same_config s s' ∧ used_pages s' = used_pages s ∧
    ∀ q, 0 ≤ q → occupied s' q = bool_decide (a ≤ q < a + i) || occupied s q)).
  - split; [done|]. split; [done|]. split; [done|]. intros q Hq.
    by rewrite bool_decide_eq_false_2 by lia.
  - intros j s' Hj (Hwf' & Hc & Hu & Hocc).
    rewrite u32_small by lia.
    destruct (set_occupied_spec s' (a + j) Hwf') as (b & Hset & Hwf'' & Hocc'); [lia|].
    eapply wp_of_done; [done|]. split; [done|]. split; [done|]. split; [done|].
    intros q Hq. rewrite Hocc', Hocc, orb_assoc by done. f_equal.
    repeat case_bool_decide; simpl; done || lia.
  - intros s' (Hwf' & Hc & Hu & Hocc). apply wp_modify.
    rewrite Z.add_0_l, Z2Nat.id in Hocc by lia.
    split; [done|]. split; [done|]. split; [by rewrite <-Hu|done].
Qed.

(** Clearing never occupies a frame. *)
Lemma region_freed_le s a b q : occupied s q = false → region_freed s a b q = false.
Proof. intros H. unfold region_freed. rewrite H. case_decide; [done|apply andb_false_r]. Qed.

(** ** Initialisation *)

(** The entries the loop visits from [a] up to [e]. *)
Inductive mmap_walk (at_ : Z → multiboot_memory_map_t) (e : Z) :
    Z → list multiboot_memory_map_t → Prop :=
| walk_end a : e ≤ a → mmap_walk at_ e a []
| walk_cons a l : a < e → mmap_walk at_ e (u32 (a + me_size (at_ a) + 4)) l →
    mmap_walk at_ e a (at_ a :: l).

(** An available region lies in the 4 GB the bitmap covers. *)
Definition region_ok (m : multiboot_memory_map_t) : Prop :=
  me_type m = 1 → 0 ≤ addr_low m ∧ 0 ≤ len_low m ∧ addr_low m / 4096 + len_low m / 4096 ≤ 1048576.

Fixpoint available_pages (l : list multiboot_memory_map_t) : Z :=
  match l with
  | [] => 0
  | m :: l => (if decide (me_type m = 1) then len_low m / 4096 else 0) + available_pages l
  end.

(** The invariant of the loop: the frames above 1 GB stay free. *)
Definition high_free (s : pmm_info_t) : Prop := ∀ q, 262144 ≤ q → occupied s q = false.

Lemma mmap_loop_spec at_ e l : ∀ a fuel s,
  mmap_walk at_ e a l → Forall region_ok l → (length l < fuel)%nat →
  pmm_wf s → high_free s →
  wp (iter fuel (mmap_step at_ e) a) (λ _ s', pmm_wf s' ∧ same_config s s' ∧ high_free s' ∧
    u32 (used_pages s') = u32 (used_pages s - available_pages l)) s.
Proof.
  induction l as [|m l IH]; intros a fuel s Hwalk Hok Hf Hwf Hh;
    inversion Hwalk as [? He|? ? He Hw]; subst; (destruct fuel as [|fuel]; [simpl in Hf; lia|]);
    cbn [iter]; wp_step; unfold mmap_step.
  - rewrite decide_False by lia. wp_step. wp_step. simpl. rewrite Z.sub_0_r. done.
  - rewrite decide_True by lia. apply Forall_cons_iff in Hok as [Hm Hok]. simpl in Hf. wp_step.
    eapply (wp_mono _ (λ _ s', pmm_wf s' ∧ same_config s s' ∧ high_free s' ∧
      u32 (used_pages s') = u32 (used_pages s - available_pages [at_ a]))).
    + simpl. case_decide as Ht; [|apply wp_ret; by rewrite Z.sub_0_r].
      destruct (Hm Ht) as (H1 & H2 & H3).
      eapply wp_mono; [by apply pmm_init_region_spec|].
      intros _ s' (Hwf' & Hc & Hu & Hocc). split; [done|]. split; [done|]. split.
      * intros q Hq. rewrite Hocc by lia. apply region_freed_le, Hh. lia.
      * rewrite Hu, Z.add_0_r. unfold u32. by rewrite Z.mod_mod by lia.
    + intros _ s' (Hwf' & Hc & Hh' & Hu). wp_step.
      eapply wp_mono; [apply (IH _ _ s'); try done; lia|].
      intros _ s'' (Hwf'' & Hc' & Hh'' & Hu'). split; [done|]. split.
      { unfold same_config in *. intuition congruence. } split; [done|].
      rewrite Hu', <-u32_sub_l, Hu, u32_sub_l. simpl. f_equal. lia.
Qed.

Lemma bitmap_initial_occupied bs mx u i q :
  0 ≤ q → occupied (Pmm bitmap_initial bs mx u i) q = bool_decide (q < 262144).
Proof.
  intros Hq. unfold occupied. cbn [bitmap]. unfold bitmap_initial. pose proof (page_split q).
  replace (BITMAP_SIZE - BITMAP_SIZE / 4) with 24576 by done.
  replace (BITMAP_SIZE / 4) with 8192 by done.
  unfold aget. rewrite decide_True by lia.
  destruct (decide (q < 262144)); [rewrite bool_decide_eq_true_2 by done
                                  |rewrite bool_decide_eq_false_2 by done].
  - rewrite lookup_app_l by (rewrite length_replicate; lia).
    rewrite lookup_replicate_2 by lia. change 4294967295 with (Z.ones 32).
    apply Z.ones_spec_low. lia.
  - rewrite lookup_app_r by (rewrite length_replicate; lia). rewrite length_replicate.
    generalize (Z.to_nat 24576), (Z.to_nat (q / 32) - Z.to_nat 8192)%nat. intros k m.
    destruct (replicate k 0 !! m) eqn:E; [|done].
    apply lookup_replicate in E as [-> _]. apply Z.bits_0.
Qed.

Lemma bitmap_initial_wf bs mx u i : pmm_wf (Pmm bitmap_initial bs mx u i).
Proof.
  split; cbn [bitmap]; unfold bitmap_initial.
  - rewrite length_app, !length_replicate. 
    replace (BITMAP_SIZE - BITMAP_SIZE / 4) with 24576 by done.
    replace (BITMAP_SIZE / 4) with 8192 by done. lia.
  - apply Forall_app. split; apply Forall_replicate; lia.
Qed.

(** Allocations one after the other. *)
Fixpoint allocate_n (n : nat) : M pmm_info_t (list Z) :=
  match n with
  | O => mret []
  | S n => p ← pmm_allocate_page; ps ← allocate_n n; mret (p :: ps)
  end.

Lemma allocate_n_length n s ps s' : allocate_n n s = Done (ps, s') → length ps = n.
Proof.
  revert s ps s'. induction n as [|n IH]; intros s ps s' Hrun; [by injection Hrun as <- <-|].
  cbn [allocate_n] in Hrun. unfold mbind, M_bind in Hrun. destruct (pmm_allocate_page s) as [[p s1]| |]; try done.
  destruct (allocate_n n s1) as [[ps1 s2]| |] eqn:E; try done. injection Hrun as <- <-. simpl. by erewrite IH.
Qed.

(** An allocation either takes the first free frame or finds none. *)
Lemma pmm_allocate_page_cases s :
  pmm_wf s → 0 ≤ max_pages s ≤ 1048576 →
  (∃ p b, first_free s p ∧
     pmm_allocate_page s = Done (p, set_used (u32 (used_pages s + 1)) (set_bitmap b s)) ∧
     pmm_wf (set_bitmap b s) ∧
     ∀ q, 0 ≤ q → occupied (set_bitmap b s) q = bool_decide (q = p) || occupied s q) ∨
  pmm_allocate_page s = Done (0, s).
Proof.
  intros Hwf Hm.
  assert (used_pages s = max_pages s ∨ (∀ q, 0 ≤ q < max_pages s / 32 * 32 → occupied s q = true)
          → pmm_allocate_page s = Done (0, s)) as Hnone.
  { intros H. unfold pmm_allocate_page, mbind, M_bind.
    by rewrite find_first_free_block_none by done. }
  destruct (decide (used_pages s = max_pages s)) as [|Hu];
    [right; apply Hnone; by left|].
  destruct (least_or_none (occupied s) (max_pages s / 32 * 32)) as [(p & Hp & Hf & Hq)|H];
    [|right; apply Hnone; by right].
  left. assert (first_free s p) as Hff.
  { split; [done|]. split; [|done]. pose proof (Z.div_mod (max_pages s) 32).
    pose proof (Z.mod_pos_bound (max_pages s) 32). lia. }
  destruct (pmm_allocate_page_found s p) as (b & ? & ? & ?); [done..|]. by exists p, b.
Qed.

(** Along a run of allocations the non-zero results are different frames that
    were free at the start. *)
Lemma allocate_n_fresh n : ∀ s ps s',
  pmm_wf s → 0 ≤ max_pages s ≤ 1048576 → allocate_n n s = Done (ps, s') →
  NoDup (filter (λ p, p ≠ 0) ps) ∧
  (∀ p, p ∈ ps → p ≠ 0 → 0 ≤ p ∧ occupied s p = false ∧ occupied s' p = true) ∧
  (∀ q, 0 ≤ q → occupied s q = true → occupied s' q = true).
Proof.
  induction n as [|n IH]; intros s ps s' Hwf Hm Hrun.
  { injection Hrun as <- <-. split; [constructor|]. split; [set_solver|done]. }
  cbn [allocate_n] in Hrun. unfold mbind, M_bind at 1 in Hrun.
  destruct (pmm_allocate_page_cases s Hwf Hm) as [(p & b & Hff & Hal & Hwf1 & Hocc)|Hal];
    rewrite Hal in Hrun; cbn [mbind] in Hrun; unfold M_bind in Hrun.
  - set (s1 := set_used _ _) in Hrun. destruct (allocate_n n s1) as [[ps1 s1']| |] eqn:E; try done.
    injection Hrun as <- <-. destruct (IH s1 ps1 s1') as (Hnd & Hfr & Hmono); [done..|].
    destruct Hff as (Hp & _ & Hpf & _).
    assert (occupied s1 p = true) as Hs1p.
    { unfold s1. rewrite occupied_used, Hocc, bool_decide_eq_true_2 by lia. done. }
    assert (∀ q, 0 ≤ q → occupied s q = true → occupied s1 q = true) as Hs1.
    { intros q Hq Hs. unfold s1. rewrite occupied_used, Hocc, Hs by done. apply orb_true_r. }
    split; [|split].
    + rewrite filter_cons. case_decide as Hp0; [|done]. constructor; [|done].
      rewrite list_elem_of_filter. intros [_ Hin]. destruct (Hfr p Hin Hp0) as (_ & ? & _).
      congruence.
    + intros q [->|Hin]%elem_of_cons Hq0; [auto with lia|].
      destruct (Hfr q Hin Hq0) as (Hq & Hf & Ht). split; [done|]. split; [|done].
      apply not_true_is_false. intros Ht'. rewrite Hs1 in Hf by done. done.
    + intros q Hq Hs. by apply Hmono, Hs1.
  - destruct (allocate_n n s) as [[ps1 s1']| |] eqn:E; try done.
    injection Hrun as <- <-. destruct (IH s ps1 s1') as (Hnd & Hfr & Hmono); [done..|].
    split; [|split; [|done]].
    + rewrite filter_cons. by rewrite decide_False by auto.
    + intros q [->|Hin]%elem_of_cons Hq0; [done|]. auto.
Qed.

(** ** Properties *)

(** A small machine for the witnesses: 64 frames, the first 40 occupied. *)
Definition zero_words (n : Z) : list Z := replicate (Z.to_nat n) 0.
Definition demo_pmm : pmm_info_t :=
  Pmm (4294967295 :: 255 :: zero_words 32766) 2 64 40 true.

Lemma length_zero_words n : 0 ≤ n → zlen (zero_words n) = n.
Proof. intros. unfold zero_words. rewrite length_replicate. lia. Qed.
Lemma zero_words_lookup n i w : zero_words n !! i = Some w → w = 0.
Proof. unfold zero_words. intros H. by apply lookup_replicate in H as [-> _]. Qed.
Lemma zero_words_range n : Forall (λ w, 0 ≤ w < 2 ^ 32) (zero_words n).
Proof. apply Forall_replicate. lia. Qed.
#[local] Opaque zero_words.

Lemma demo_pmm_wf : pmm_wf demo_pmm.
Proof.
  split; cbn [demo_pmm bitmap].
  - cbn [length]. pose proof (length_zero_words 32766). lia.
  - repeat (apply Forall_cons_iff; split; [lia|]). apply zero_words_range.
Qed.

Lemma demo_pmm_free q : 0 ≤ q → occupied demo_pmm q = bool_decide (q < 40).
Proof.
  intros Hq. unfold occupied, aget. cbn [demo_pmm bitmap]. pose proof (page_split q).
  rewrite decide_True by lia.
  assert (q < 32 ∨ 32 ≤ q < 64 ∨ 64 ≤ q) as [H1|[H1|H1]] by lia.
  - destruct (page_in_word 0 q) as [-> ->]; [lia|]. cbn [lookup].
    rewrite bool_decide_eq_true_2 by lia. change 4294967295 with (Z.ones 32).
    apply Z.ones_spec_low. lia.
  - destruct (page_in_word 1 q) as [-> ->]; [lia|]. change 255 with (Z.ones 8).
    change ((4294967295 :: Z.ones 8 :: zero_words 32766) !! Z.to_nat 1) with (Some (Z.ones 8)).
    cbv iota.
    destruct (decide (q < 40)); [rewrite bool_decide_eq_true_2, Z.ones_spec_low by lia; done|].
    rewrite bool_decide_eq_false_2, Z.ones_spec_high by lia. done.
  - rewrite bool_decide_eq_false_2 by lia.
    destruct (Z.to_nat (q / 32)) as [|[|m]] eqn:E; [lia..|]. cbn [lookup list_lookup].
    destruct (zero_words 32766 !! m) eqn:El; [|done].
    apply zero_words_lookup in El as ->. apply Z.bits_0.
Qed.

Lemma demo_pmm_first_free : first_free demo_pmm 40.
Proof.
  split; [by vm_compute|]. split; [lia|]. split; [by rewrite demo_pmm_free by lia|].
  intros q Hq. rewrite demo_pmm_free, bool_decide_eq_true_2 by lia. done.
Qed.

(** C37: [pmm_allocate_page] takes the lowest free frame: when some frame below
    [max_pages] (rounded down to whole words) is free and the counter does not
    claim the memory is full, the call returns the lowest such frame, marks it
    and only it occupied, and adds one to [used_pages]. *)
Theorem pmm_allocate_takes_lowest s p :
  pmm_wf s → used_pages s ≠ max_pages s → first_free s p →
  wp pmm_allocate_page (λ r s', r = p ∧ pmm_wf s' ∧ same_config s s' ∧
    used_pages s' = u32 (used_pages s + 1) ∧
    ∀ q, 0 ≤ q → occupied s' q = bool_decide (q = p) || occupied s q) s.
Proof.
  intros Hwf Hu Hff. destruct (pmm_allocate_page_found s p Hwf Hu Hff) as (b & Hrun & Hwf' & Hocc).
  eapply wp_of_done; [exact Hrun|]. by split_and!.
Qed.

Lemma pmm_allocate_takes_lowest_witness :
  wp pmm_allocate_page (λ r s', r = 40 ∧ pmm_wf s' ∧ same_config demo_pmm s' ∧
    used_pages s' = u32 (used_pages demo_pmm + 1) ∧
    ∀ q, 0 ≤ q → occupied s' q = bool_decide (q = 40) || occupied demo_pmm q) demo_pmm.
Proof.
  apply (pmm_allocate_takes_lowest demo_pmm 40).
  - apply demo_pmm_wf.
  - done.
  - exact demo_pmm_first_free.
Defined.

(** when every frame the search looks at is occupied, or the counter says so,
    [pmm_allocate_page] returns 0 and changes nothing. *)
Theorem pmm_allocate_out_of_memory s :
  pmm_wf s → 0 ≤ max_pages s ≤ 1048576 →
  used_pages s = max_pages s ∨ (∀ q, 0 ≤ q < max_pages s / 32 * 32 → occupied s q = true) →
  pmm_allocate_page s = Done (0, s).
Proof.
  intros Hwf Hm H. unfold pmm_allocate_page, mbind, M_bind.
  by rewrite find_first_free_block_none by done.
Qed.

Lemma pmm_allocate_out_of_memory_witness :
  pmm_allocate_page (set_used 64 demo_pmm) = Done (0, set_used 64 demo_pmm).
Proof.
  apply (pmm_allocate_out_of_memory (set_used 64 demo_pmm)).
  - apply pmm_wf_used, demo_pmm_wf.
  - simpl. lia.
  - left. reflexivity.
Defined.

(** C38: a run of allocations never hands out a frame twice: its non-zero results
    are pairwise different, were free before the run and are occupied after it,
    and no occupied frame becomes free. *)
Theorem pmm_allocations_distinct n s ps s' :
  pmm_wf s → 0 ≤ max_pages s ≤ 1048576 → allocate_n n s = Done (ps, s') →
  NoDup (filter (λ p, p ≠ 0) ps) ∧
  (∀ p, p ∈ ps → p ≠ 0 → 0 ≤ p ∧ occupied s p = false ∧ occupied s' p = true) ∧
  (∀ q, 0 ≤ q → occupied s q = true → occupied s' q = true).
Proof. apply allocate_n_fresh. Qed.

Lemma demo_pmm_allocates :
  ∃ b, pmm_allocate_page demo_pmm = Done (40, set_used 41 (set_bitmap b demo_pmm)).
Proof.
  destruct (pmm_allocate_page_found demo_pmm 40) as (b & Hrun & _).
  - apply demo_pmm_wf.
  - done.
  - split; [by vm_compute|]. split; [lia|]. split; [by rewrite demo_pmm_free by lia|].
    intros q Hq. rewrite demo_pmm_free, bool_decide_eq_true_2 by lia. done.
  - by exists b.
Qed.

Lemma pmm_allocations_distinct_witness :
  ∃ ps s', allocate_n 1 demo_pmm = Done (ps, s') ∧ NoDup (filter (λ p, p ≠ 0) ps).
Proof.
  destruct demo_pmm_allocates as (b & Hrun).
  assert (allocate_n 1 demo_pmm = Done ([40], set_used 41 (set_bitmap b demo_pmm))) as E.
  { cbn [allocate_n]. unfold mbind, M_bind. by rewrite Hrun. }
  eexists _, _. split; [exact E|].
  destruct (pmm_allocations_distinct 1 demo_pmm _ _ demo_pmm_wf ltac:(simpl; lia) E) as [H _].
  exact H.
Defined.

(** freeing a frame does the opposite of what it says: after
    [pmm_deallocate_page page] the frame itself is as occupied as before, and the
    31 other frames of its 32-frame word are free, including those in use. *)
Theorem pmm_deallocate_frees_the_others s page :
  pmm_wf s → 0 ≤ page < 1048576 →
  wp (pmm_deallocate_page page) (λ _ s', pmm_wf s' ∧ same_config s s' ∧
    used_pages s' = u32 (used_pages s - 1) ∧
    ∀ q, 0 ≤ q → occupied s' q =
      if decide (q / 32 = page / 32) then bool_decide (q = page) && occupied s q
      else occupied s q) s.
Proof.
  intros Hwf Hp. unfold pmm_deallocate_page. wp_steps.
  destruct (set_free_spec (set_used (u32 (used_pages s - 1)) s) page)
    as (b & Hrun & Hwf' & Hocc); [by apply pmm_wf_used|done|].
  eapply wp_of_done; [exact Hrun|]. by split_and!.
Qed.

Lemma pmm_deallocate_frees_the_others_witness :
  wp (pmm_deallocate_page 33) (λ _ s', pmm_wf s' ∧ same_config demo_pmm s' ∧
    used_pages s' = u32 (used_pages demo_pmm - 1) ∧
    ∀ q, 0 ≤ q → occupied s' q =
      if decide (q / 32 = 33 / 32) then bool_decide (q = 33) && occupied demo_pmm q
      else occupied demo_pmm q) demo_pmm.
Proof. apply (pmm_deallocate_frees_the_others demo_pmm 33 demo_pmm_wf). lia. Defined.

(** [pmm_init_region] over whole words (a start and a size that are
    multiples of 32 frames) frees exactly the frames of the region and subtracts
    their number from [used_pages]. *)
Theorem pmm_init_region_frees_region s address length :
  pmm_wf s → 0 ≤ address → 0 ≤ length → (131072 | address) → (131072 | length) →
  address + length ≤ 4294967296 →
  wp (pmm_init_region address length) (λ _ s', pmm_wf s' ∧ same_config s s' ∧
    used_pages s' = u32 (used_pages s - length / 4096) ∧
    ∀ q, 0 ≤ q → occupied s' q =
      bool_decide (¬ (address ≤ q * 4096 < address + length)) && occupied s q) s.
Proof.
  intros Hwf Ha Hl [ka ->] [kl ->] Hr.
  replace (ka * 131072) with (ka * 32 * 4096) in * by lia.
  replace (kl * 131072) with (kl * 32 * 4096) in * by lia.
  eapply wp_mono; [apply pmm_init_region_spec; try done; rewrite !Z.div_mul by lia; lia|].
  intros _ s' (Hwf' & Hc & Hu & Hocc). split_and!; [done..|].
  intros q Hq. rewrite Hocc, !Z.div_mul by lia. unfold region_freed.
  pose proof (page_split q). set (k := q / 32) in *. clearbody k.
  unfold overlap. case_decide.
  - rewrite bool_decide_eq_true_2 by lia. done.
  - rewrite bool_decide_eq_false_2 by lia. rewrite bool_decide_eq_false_2 by lia. done.
Qed.

Lemma pmm_init_region_frees_region_witness :
  wp (pmm_init_region 0 131072) (λ _ s', pmm_wf s' ∧ same_config demo_pmm s' ∧
    used_pages s' = u32 (used_pages demo_pmm - 131072 / 4096) ∧
    ∀ q, 0 ≤ q → occupied s' q =
      bool_decide (¬ (0 ≤ q * 4096 < 0 + 131072)) && occupied demo_pmm q) demo_pmm.
Proof.
  apply (pmm_init_region_frees_region demo_pmm 0 131072 demo_pmm_wf); try lia.
  - by exists 0.
  - by exists 1.
Defined.

(** [pmm_init] on a boot loader's memory map whose available regions lie
    below 4 GB returns success without touching memory outside the bitmap, with
    the first 24 MB (the kernel and its heap start) occupied; but it sets only
    [BITMAP_SIZE] bytes of the bitmap, not words, so every frame above 1 GB is
    free afterwards, whatever the map says. *)
Theorem pmm_init_reserves_kernel mmap_at mbi l fuel s :
  is_initialized s = false →
  mmap_walk mmap_at (u32 (mmap_addr mbi + mmap_length mbi)) (mmap_addr mbi) l →
  Forall region_ok l → (length l < fuel)%nat →
  wp (pmm_init mmap_at fuel (Some mbi)) (λ r s', r = PMM_SUCCESS ∧ pmm_wf s' ∧
    is_initialized s' = true ∧
    used_pages s' = u32 (max_pages s' - available_pages l + 6144) ∧
    (∀ q, 0 ≤ q < 6144 → occupied s' q = true) ∧
    (∀ q, 262144 ≤ q → occupied s' q = false)) s.
Proof.
  intros Hi Hwalk Hok Hf. unfold pmm_init. wp_step. wp_step. rewrite Hi.
  set (pages := u32 _). wp_step. wp_step. wp_step.
  eapply wp_mono; [eapply mmap_loop_spec; try done; [apply bitmap_initial_wf|]|].
  { intros q Hq. rewrite bitmap_initial_occupied, bool_decide_eq_false_2 by lia. done. }
  intros _ s1 (Hwf1 & Hc1 & Hh1 & Hu1). cbn [used_pages] in Hu1. wp_step.
  eapply wp_mono; [by apply pmm_clear_region_spec|].
  change (0 / 4096) with 0. change (25165824 / 4096) with 6144. rewrite Z.add_0_l.
  intros _ s2 (Hwf2 & Hc2 & Hu2 & Hocc2). do 3 wp_step.
  destruct (set_occupied_spec (Pmm (bitmap s2) (bitmap_size s2) (max_pages s2) (used_pages s2) true) 0)
    as (b & Hrun & Hwf3 & Hocc3); [done|lia|].
  eapply wp_of_done; [exact Hrun|]. apply wp_ret. split_and!; [done..| | |].
  - cbn [used_pages max_pages set_bitmap]. destruct Hc1 as (_ & E1 & _), Hc2 as (_ & E2 & _).
    by rewrite Hu2, E2, E1, <-u32_add_l, Hu1, u32_add_l.
  - intros q Hq. rewrite Hocc3 by lia.
    change (occupied (Pmm (bitmap s2) _ _ _ _) q) with (occupied s2 q).
    rewrite Hocc2, (bool_decide_eq_true_2 (0 ≤ q < 6144)) by lia. apply orb_true_r.
  - intros q Hq. rewrite Hocc3 by lia.
    change (occupied (Pmm (bitmap s2) _ _ _ _) q) with (occupied s2 q).
    rewrite Hocc2, Hh1 by lia. rewrite !bool_decide_eq_false_2 by lia. done.
Qed.

Definition demo_mbi : multiboot_info_t := MultibootInfo 640 1048576 24 4096.
Definition demo_mmap (a : Z) : multiboot_memory_map_t := MmapEntry 20 1048576 33554432 1.

Lemma pmm_init_reserves_kernel_witness :
  wp (pmm_init demo_mmap 2 (Some demo_mbi)) (λ r s', r = PMM_SUCCESS ∧ pmm_wf s' ∧
    is_initialized s' = true ∧
    used_pages s' = u32 (max_pages s' - available_pages [demo_mmap 4096] + 6144) ∧
    (∀ q, 0 ≤ q < 6144 → occupied s' q = true) ∧
    (∀ q, 262144 ≤ q → occupied s' q = false)) pmm_info_init.
Proof.
  apply (pmm_init_reserves_kernel demo_mmap demo_mbi [demo_mmap 4096] 2 pmm_info_init).
  - reflexivity.
  - apply walk_cons; [by vm_compute|]. apply walk_end. by vm_compute.
  - repeat constructor; vm_compute; congruence.
  - simpl. lia.
Defined.
