(* ===== verification/Interfaces.v ===== *)
(** * The interfaces between the components

    The file system runs on a block device and on the kernel heap; it sees both
    through the operations of a class, and its theorems use the laws of a second
    class.  [BlockDevice] is what drivers/harddisk/ata/ata.h promises ([Ata]
    implements it over the drive's ports), [KernelHeap] what memory/heap/heap.h
    promises.  The reference implementations at the end ([ramdisk], [bump])
    show that the laws can hold, and run the examples. *)

From S2P Require Import Prelude.

(** ** A block device of 512-byte sectors *)

Definition SECTOR_SIZE : Z := 512.

(** [dev_read lba n buf]: the return code and the buffer after the call. *)
Class BlockDevice (D : Type) := {
  dev_read : Z → Z → list Z → M D (Z * list Z);
  dev_write : Z → Z → list Z → M D Z;
}.

(** The bytes of [n] sectors from [lba] on. *)
Definition sectors (f : Z → list Z) (lba : Z) (n : nat) : list Z :=
  concat ((λ k, f (lba + Z.of_nat k)) <$> seq 0 n).

(** The [k]-th sector of a buffer. *)
Definition sector_of (buf : list Z) (k : Z) : list Z :=
  take 512 (drop (Z.to_nat (512 * k)) buf).

Class BlockDeviceLaws (D : Type) `{BlockDevice D} := {
  dev_ready : D → Prop;
  dev_size : D → Z;
  dev_sector : D → Z → list Z;
  dev_sector_length d k : dev_ready d → length (dev_sector d k) = 512%nat;
  dev_sector_bytes d k : dev_ready d → Forall is_byte (dev_sector d k);
  dev_read_ok d lba n buf :
    dev_ready d → 0 ≤ lba → 0 < n < 256 → lba + n ≤ dev_size d → 512 * n ≤ zlen buf →
    ∃ d', dev_read lba n buf d = Done ((0, splice buf 0 (sectors (dev_sector d) lba (Z.to_nat n))), d') ∧
          dev_ready d' ∧ dev_size d' = dev_size d ∧ ∀ k, dev_sector d' k = dev_sector d k;
  dev_write_ok d lba n buf :
    dev_ready d → 0 ≤ lba → 0 < n < 256 → lba + n ≤ dev_size d → 512 * n ≤ zlen buf →
    Forall is_byte buf →
    ∃ d', dev_write lba n buf d = Done (0, d') ∧
          dev_ready d' ∧ dev_size d' = dev_size d ∧
          ∀ k, dev_sector d' k = if decide (lba ≤ k < lba + n) then sector_of buf (k - lba)
                                 else dev_sector d k;
}.

(** ** The kernel heap

    [heap_room n h]: requests that cost [n] in total can still be served. *)
Class KernelHeap (H : Type) := {
  kmalloc : Z → M H Z;
  kfree : Z → M H unit;
}.

Class KernelHeapLaws (H : Type) `{KernelHeap H} := {
  heap_room : Z → H → Prop;
  heap_cost : Z → Z;
  kmalloc_ok h size n :
    0 < size → 0 ≤ n → heap_room (heap_cost size + n) h →
    ∃ p h', kmalloc size h = Done (p, h') ∧ p ≠ 0 ∧ heap_room n h';
  kfree_ok h p n : heap_room n h → ∃ h', kfree p h = Done (tt, h') ∧ heap_room n h';
  heap_cost_nonneg size : 0 ≤ heap_cost size;
  heap_room_le h n n' : n' ≤ n → heap_room n h → heap_room n' h;
}.

(** ** Facts about sectors *)

Lemma length_sectors f lba n :
  (∀ k, length (f k) = 512%nat) → length (sectors f lba n) = (512 * n)%nat.
Proof.
  intros Hf. unfold sectors. assert (∀ i n, length (concat ((λ k, f (lba + Z.of_nat k)) <$> seq i n))
    = (512 * n)%nat) as Hlen; [|apply Hlen].
  clear n. intros i n. revert i. induction n as [|n IH]; intros i; cbn [seq fmap list_fmap concat]; [done|].
  rewrite length_app, Hf, IH. lia.
Qed.

Lemma sectors_bytes f lba n :
  (∀ k, Forall is_byte (f k)) → Forall is_byte (sectors f lba n).
Proof.
  intros Hf. unfold sectors. generalize 0%nat.
  induction n as [|n IH]; intros i; cbn [seq fmap list_fmap concat]; [constructor|].
  apply Forall_app. split; [apply Hf|apply IH].
Qed.

Lemma sectors_ext f g lba n :
  (∀ k, lba ≤ k < lba + Z.of_nat n → f k = g k) → sectors f lba n = sectors g lba n.
Proof.
  intros Hfg. unfold sectors. f_equal. apply list_fmap_ext. intros i k Hk.
  apply lookup_seq in Hk. apply Hfg. lia.
Qed.

Lemma sectors_cons f lba n : sectors f lba (S n) = f lba ++ sectors f (lba + 1) n.
Proof.
  unfold sectors. cbn [seq fmap list_fmap concat]. rewrite Z.add_0_r. f_equal.
  rewrite <-fmap_S_seq, <-list_fmap_compose. f_equal. apply list_fmap_ext.
  intros i k Hk. simpl. f_equal. lia.
Qed.

(** Cutting a buffer into sectors and putting them together again. *)
Lemma sectors_of_buffer buf lba n :
  length buf = (512 * n)%nat → sectors (λ k, sector_of buf (k - lba)) lba n = buf.
Proof.
  revert buf lba. induction n as [|n IH]; intros buf lba Hl.
  - by destruct buf.
  - rewrite sectors_cons. trans (take 512 buf ++ drop 512 buf); [|apply take_drop].
    f_equal.
    + unfold sector_of. by rewrite Z.sub_diag.
    + rewrite <-(IH (drop 512 buf) (lba + 1)) by (rewrite length_drop; lia).
      apply sectors_ext. intros k Hk. unfold sector_of. rewrite drop_drop. do 2 f_equal. lia.
Qed.

(** ** Reference implementations *)

(** A disk in memory: sectors that were never written are zero. *)
Record ramdisk := Ramdisk { rd_size : Z; rd_sectors : gmap Z (list Z) }.

Definition blank_sector : list Z := replicate 512 0.
Definition rd_sector (d : ramdisk) (k : Z) : list Z := default blank_sector (rd_sectors d !! k).

Fixpoint rd_store (m : gmap Z (list Z)) (lba : Z) (n : nat) (buf : list Z) : gmap Z (list Z) :=
  match n with
  | O => m
  | S n => rd_store (<[lba := take 512 buf]> m) (lba + 1) n (drop 512 buf)
  end.

#[export] Instance ramdisk_device : BlockDevice ramdisk := {
  dev_read lba n buf d :=
    if decide (0 ≤ lba ∧ lba + n ≤ rd_size d ∧ 512 * n ≤ zlen buf)
    then Done ((0, splice buf 0 (sectors (rd_sector d) lba (Z.to_nat n))), d) else Fault;
  dev_write lba n buf d :=
    if decide (0 ≤ lba ∧ lba + n ≤ rd_size d ∧ 512 * n ≤ zlen buf)
    then Done (0, Ramdisk (rd_size d) (rd_store (rd_sectors d) lba (Z.to_nat n) buf)) else Fault;
}.

Definition rd_wf (d : ramdisk) : Prop :=
  map_Forall (λ _ b, length b = 512%nat ∧ Forall is_byte b) (rd_sectors d).

Lemma rd_store_lookup m lba n buf k :
  rd_store m lba n buf !! k =
    if decide (lba ≤ k < lba + Z.of_nat n) then Some (sector_of buf (k - lba)) else m !! k.
Proof.
  revert m lba buf. induction n as [|n IH]; intros m lba buf; cbn [rd_store].
  - rewrite decide_False by lia. done.
  - rewrite IH. destruct (decide (k = lba)) as [->|Hk].
    + rewrite decide_False, decide_True, lookup_insert_eq by lia.
      unfold sector_of. by rewrite Z.sub_diag.
    + rewrite lookup_insert_ne by done. do 2 case_decide; try lia; [|done].
      unfold sector_of. rewrite drop_drop. do 3 f_equal. lia.
Qed.

Lemma rd_store_wf m lba n buf :
  map_Forall (λ _ b, length b = 512%nat ∧ Forall is_byte b) m →
  (512 * n ≤ length buf)%nat → Forall is_byte buf →
  map_Forall (λ _ b, length b = 512%nat ∧ Forall is_byte b) (rd_store m lba n buf).
Proof.
  intros Hm Hl Hb k b. rewrite rd_store_lookup. case_decide as Hk; [|apply Hm].
  intros [= <-]. unfold sector_of. split.
  - rewrite length_take, length_drop. lia.
  - by apply Forall_take, Forall_drop.
Qed.

#[export] Program Instance ramdisk_laws : BlockDeviceLaws ramdisk := {
  dev_ready := rd_wf; dev_size := rd_size; dev_sector := rd_sector;
}.
Next Obligation.
  intros d k Hd. cbn. unfold rd_sector. destruct (rd_sectors d !! k) eqn:E; [|done].
  by apply (Hd k).
Qed.
Next Obligation.
  intros d k Hd. cbn. unfold rd_sector. destruct (rd_sectors d !! k) eqn:E; [by apply (Hd k)|].
  apply Forall_replicate. unfold is_byte. lia.
Qed.
Next Obligation.
  intros d lba n buf Hd ????. exists d. unfold dev_read, ramdisk_device.
  rewrite decide_True by lia. done.
Qed.
Next Obligation.
  intros d lba n buf Hd ?????. unfold dev_write, ramdisk_device. cbv beta. rewrite decide_True by lia.
  eexists. split; [done|]. split; [|split; [done|]].
  - unfold rd_wf. cbn [rd_sectors]. apply rd_store_wf; [done|lia|done].
  - intros k. unfold rd_sector. cbn [rd_sectors]. rewrite rd_store_lookup, Z2Nat.id by lia.
    by case_decide.
Qed.

(** A heap that only counts the bytes it has left. *)
Record bump := Bump { bump_next : Z; bump_left : Z }.

#[export] Instance bump_heap : KernelHeap bump := {
  kmalloc size h :=
    if decide (0 < size ≤ bump_left h)
    then Done (bump_next h, Bump (bump_next h + size) (bump_left h - size)) else Done (0, h);
  kfree p h := Done (tt, h);
}.

#[export] Program Instance bump_laws : KernelHeapLaws bump := {
  heap_room n h := n ≤ bump_left h ∧ 0 < bump_next h;
  heap_cost size := Z.max 0 size;
}.
Next Obligation.
  intros h size n ?? [??]. unfold kmalloc, bump_heap. rewrite decide_True by lia.
  do 2 eexists. split; [done|]. cbn. lia.
Qed.
Next Obligation. intros h p n ?. exists h. done. Qed.
Next Obligation. intros size. cbn. lia. Qed.
Next Obligation. intros h n n' ? [??]. cbn. lia. Qed.
