(* ===== verification/FatTable.v ===== *)
(** * The FAT16 driver, part 1: state, clusters and the allocation table

    filesystem/fat/fat.c keeps the geometry ([fat16_fs]), the table in RAM
    ([fat_table], null before [fat_init]) and the root directory entry; it runs
    on the disk and the heap through [Interfaces].  Here are [fat_init], the
    cluster transfers and the operations on chains.  A chain is the list of
    clusters a file or a directory occupies ([chain]); the theorems say what
    each operation does to the chains and to the copy of the table on disk. *)

From S2P Require Import Prelude CString Interfaces.

(** ** Data *)

Definition FAT16_SIGNATURE : Z := 43605. (* 0xAA55 *)
Definition FAT16_CLUSTER_CHAIN_END : Z := 65528. (* 0xFFF8 *)
Definition FAT16_FREE_CLUSTER : Z := 0.
Definition FAT16_FILENAME_SIZE : Z := 11.
Definition FAT_ATTR_DIRECTORY : Z := 16.

Definition IS_END_OF_CLUSTER_CHAIN (cluster : Z) : bool :=
  bool_decide (65528 ≤ cluster ∧ cluster ≤ 65535).

Record FAT16_FS := mkFS {
  bytes_per_sector : Z;
  sectors_per_cluster : Z;
  reserved_sectors : Z;
  num_fats : Z;
  root_dir_entries : Z;
  total_sectors : Z;
  sectors_per_fat : Z;
  root_dir_start : Z;
  data_start : Z;
}.

(** [name] is the eleven bytes of the field; the other fields follow the
    structure in fat.h. *)
Record FAT16_DirEntry := mkEntry {
  name : list Z;
  attr : Z;
  case_attr : Z;
  creation_time_ms : Z;
  creation_time : Z;
  creation_date : Z;
  last_access_date : Z;
  reserved : Z;
  last_modification_time : Z;
  last_modification_date : Z;
  start_cluster : Z;
  file_size : Z;
}.

(** The structure as the 32 bytes [memcpy] moves. *)
Definition encode (e : FAT16_DirEntry) : list Z :=
  name e ++ [attr e; case_attr e; creation_time_ms e]
  ++ le_bytes 2 (creation_time e) ++ le_bytes 2 (creation_date e)
  ++ le_bytes 2 (last_access_date e) ++ le_bytes 2 (reserved e)
  ++ le_bytes 2 (last_modification_time e) ++ le_bytes 2 (last_modification_date e)
  ++ le_bytes 2 (start_cluster e) ++ le_bytes 4 (file_size e).

(** [n] little-endian bytes at offset [i]. *)
Definition field (b : list Z) (i n : nat) : Z := le_val (take n (drop i b)).

Definition decode (b : list Z) : FAT16_DirEntry := {|
  name := take 11 b; attr := field b 11 1; case_attr := field b 12 1;
  creation_time_ms := field b 13 1; creation_time := field b 14 2;
  creation_date := field b 16 2; last_access_date := field b 18 2; reserved := field b 20 2;
  last_modification_time := field b 22 2; last_modification_date := field b 24 2;
  start_cluster := field b 26 2; file_size := field b 28 4 |}.

(** An entry with every byte zero. *)
Definition zero_entry : FAT16_DirEntry := decode (replicate 32 0).

Record fat_state (D H : Type) := FatState {
  fat16_fs : FAT16_FS;
  fat_table : option (list Z);
  root_dir : FAT16_DirEntry;
  disk : D;
  heap : H;
  console : list (string * list Z);
}.
Arguments FatState {D H}.
Arguments fat16_fs {D H}.
Arguments fat_table {D H}.
Arguments root_dir {D H}.
Arguments disk {D H}.
Arguments heap {D H}.
Arguments console {D H}.

(** Every field within its width. *)
Record entry_ok (e : FAT16_DirEntry) : Prop := {
  eo_name : length (name e) = 11%nat ∧ Forall is_byte (name e);
  eo_bytes : is_byte (attr e) ∧ is_byte (case_attr e) ∧ is_byte (creation_time_ms e);
  eo_words : 0 ≤ creation_time e < 65536 ∧ 0 ≤ creation_date e < 65536 ∧
             0 ≤ last_access_date e < 65536 ∧ 0 ≤ reserved e < 65536 ∧
             0 ≤ last_modification_time e < 65536 ∧ 0 ≤ last_modification_date e < 65536 ∧
             0 ≤ start_cluster e < 65536;
  eo_size : 0 ≤ file_size e < 4294967296;
}.

Section operations.
Context {D H : Type} `{BlockDevice D} `{KernelHeap H}.
Implicit Types s : fat_state D H.

Definition set_fs (f : FAT16_FS) s : fat_state D H :=
  FatState f (fat_table s) (root_dir s) (disk s) (heap s) (console s).
Definition set_table (t : option (list Z)) s : fat_state D H :=
  FatState (fat16_fs s) t (root_dir s) (disk s) (heap s) (console s).
Definition set_root (r : FAT16_DirEntry) s : fat_state D H :=
  FatState (fat16_fs s) (fat_table s) r (disk s) (heap s) (console s).
Definition set_disk (d : D) s : fat_state D H :=
  FatState (fat16_fs s) (fat_table s) (root_dir s) d (heap s) (console s).
Definition set_heap (h : H) s : fat_state D H :=
  FatState (fat16_fs s) (fat_table s) (root_dir s) (disk s) h (console s).

(** [vga_printf] and [vga_putstring]: what is printed, in order. *)
Definition print (msg : string) (args : list Z) : M (fat_state D H) unit := modify (λ s,
  FatState (fat16_fs s) (fat_table s) (root_dir s) (disk s) (heap s) (console s ++ [(msg, args)])).

(** The table's entries; no entry can be read while it is the null pointer. *)
Definition table s : list Z := default [] (fat_table s).

Definition fat_entry (i : Z) : M (fat_state D H) Z := reads table i.
Definition set_fat_entry (i v : Z) : M (fat_state D H) unit :=
  writes table (λ t, set_table (Some t)) i (u16 v).

Definition read_disk (lba n : Z) (buf : list Z) : M (fat_state D H) (Z * list Z) :=
  zoom disk set_disk (dev_read (u32 lba) (u8 n) buf).
Definition write_disk (lba n : Z) (buf : list Z) : M (fat_state D H) Z :=
  zoom disk set_disk (dev_write (u32 lba) (u8 n) buf).

Definition heap_alloc (size : Z) : M (fat_state D H) Z := zoom heap set_heap (kmalloc (u32 size)).
Definition heap_free (p : Z) : M (fat_state D H) unit := zoom heap set_heap (kfree p).

(** [memset(p, 0, size)] on the block just allocated at [p]. *)
Definition cleared (p size : Z) : M (fat_state D H) (list Z) :=
  if decide (p = 0) then fault else mret (replicate (Z.to_nat size) 0).

Definition cluster_bytes s : Z :=
  bytes_per_sector (fat16_fs s) * sectors_per_cluster (fat16_fs s).

(** ** Initialisation *)

Definition parse_boot_sector (b : list Z) : FAT16_FS :=
  let bps := field b 11 2 in
  let reserved := field b 14 2 in
  let nfats := field b 16 1 in
  let rde := field b 17 2 in
  let spf := field b 22 2 in
  let root := u32 (reserved + nfats * spf) in
  {| bytes_per_sector := bps; sectors_per_cluster := field b 13 1;
     reserved_sectors := reserved; num_fats := nfats; root_dir_entries := rde;
     total_sectors := field b 19 2; sectors_per_fat := spf;
     root_dir_start := root; data_start := u32 (root + Z.quot (rde * 32) bps) |}.

(** [&fat_table[i]] as the bytes from there to the end of the table. *)
Definition table_bytes (t : list Z) (i : Z) : list Z :=
  concat (le_bytes 2 <$> drop (Z.to_nat i) t).

Fixpoint words_of_bytes (bs : list Z) : list Z :=
  match bs with
  | b1 :: b2 :: bs' => (b1 + 256 * b2) :: words_of_bytes bs'
  | _ => []
  end.

(** [for (i = 0; i < sectors_per_fat; i++) ata_read(reserved + i, 1, &fat_table[i * 256])];
    the result says whether every read succeeded. *)
Fixpoint read_table (i : Z) (n : nat) : M (fat_state D H) bool :=
  match n with
  | O => mret true
  | S n' =>
      s ← get;
      '(code, bytes) ← read_disk (reserved_sectors (fat16_fs s) + i) 1 (table_bytes (table s) (i * 256));
      _ ← modify (set_table (Some (take (Z.to_nat (i * 256)) (table s) ++ words_of_bytes bytes)));
      if decide (code ≠ 0)
      then _ ← print "Failed to read FAT table." []; mret false
      else read_table (i + 1) n'
  end.

(** [fresh p] is what the heap block at [p] holds when it is handed out. *)
Definition fat_init (fresh : Z → list Z) : M (fat_state D H) bool :=
  '(code, boot_sector) ← read_disk 0 1 (replicate 512 0);
  if decide (code ≠ 0) then _ ← print "Failed to read boot sector." []; mret false else
  let signature := field boot_sector 510 2 in
  if decide (signature ≠ FAT16_SIGNATURE)
  then _ ← print "Invalid FAT16 signature: 0x%X" [signature]; mret false else
  if decide (field boot_sector 11 2 = 0) then fault (* division by zero *) else
  let fs := parse_boot_sector boot_sector in
  _ ← modify (set_fs fs);
  p ← heap_alloc (sectors_per_fat fs * bytes_per_sector fs);
  if decide (p = 0) then _ ← modify (set_table None); mret false else
  let block := take (Z.to_nat (sectors_per_fat fs * bytes_per_sector fs)) (fresh p) in
  (* the count is that of the entries: only half of the bytes are cleared *)
  bytes ← liftO (memset block 0 (Z.quot (bytes_per_sector fs) 2 * sectors_per_fat fs));
  _ ← modify (set_table (Some (words_of_bytes bytes)));
  ok ← read_table 0 (Z.to_nat (sectors_per_fat fs));
  if negb ok then mret false else
  root ← gets root_dir;
  root_name ← liftO (strcpy (name root) [126; 0]);
  _ ← modify (set_root (mkEntry root_name (Z.lor (attr root) FAT_ATTR_DIRECTORY)
        (case_attr root) (creation_time_ms root) (creation_time root) (creation_date root)
        (last_access_date root) (reserved root) (last_modification_time root)
        (last_modification_date root) 0 (u32 (root_dir_entries fs * 32))));
  _ ← print "FAT16 Initialized:" [bytes_per_sector fs; sectors_per_cluster fs;
        reserved_sectors fs; root_dir_start fs; data_start fs; num_fats fs * sectors_per_fat fs];
  mret true.

(** ** The allocation table *)

(** No chain of a 16-bit table visits more clusters than this. *)
Definition CHAIN_FUEL : nat := Z.to_nat 65537.

Fixpoint find_free_from (i : Z) (n : nat) : M (fat_state D H) Z :=
  match n with
  | O => mret (-1)
  | S n' =>
      v ← fat_entry i;
      if decide (v = FAT16_FREE_CLUSTER) then mret i else find_free_from (i + 1) n'
  end.

Definition fat_find_free : M (fat_state D H) Z :=
  fs ← gets fat16_fs;
  let total_fat_entries := Z.quot (s32 (sectors_per_fat fs * bytes_per_sector fs)) 2 in
  find_free_from 0 (Z.to_nat total_fat_entries).

(** The table sector that holds entry [i], written back to the first table on disk. *)
Definition write_fat_sector (i : Z) : M (fat_state D H) Z :=
  s ← get;
  let bps := bytes_per_sector (fat16_fs s) in
  if decide (bps = 0) then fault else
  let sector := Z.quot (i * 2) bps in
  write_disk (reserved_sectors (fat16_fs s) + sector) 1
    (take 512 (table_bytes (take 256 (drop (Z.to_nat (Z.quot (sector * bps) 2)) (table s))) 0)).

Definition fat_read_data_cluster (cluster_num : Z) (buffer : list Z) : M (fat_state D H) (Z * list Z) :=
  fs ← gets fat16_fs;
  read_disk (cluster_num * sectors_per_cluster fs + root_dir_start fs) (sectors_per_cluster fs) buffer.

Definition fat_write_data_cluster (cluster_num : Z) (buffer : list Z) : M (fat_state D H) Z :=
  fs ← gets fat16_fs;
  write_disk (cluster_num * sectors_per_cluster fs + root_dir_start fs) (sectors_per_cluster fs) buffer.

(** One round of the walk to the last entry of a chain: [Some last], or [None]
    for a chain that leaves the table. *)
Definition before_last_step (before_last : Z) : M (fat_state D H) (Z + option Z) :=
  v ← fat_entry before_last;
  if IS_END_OF_CLUSTER_CHAIN v || bool_decide (v = FAT16_FREE_CLUSTER) then mret (inr (Some before_last))
  else
    fs ← gets fat16_fs;
    if decide (v < 0 ∨ Z.quot (s32 (s32 (num_fats fs * sectors_per_fat fs) * bytes_per_sector fs)) 2 ≤ v)
    then _ ← print "Corrupted FAT chain detected!" []; mret (inr None)
    else mret (inl v).

Definition fat_update_chain (starting_fat new_fat_index : Z) : M (fat_state D H) unit :=
  size ← gets cluster_bytes;
  p ← heap_alloc size;
  buffer ← cleared p size;
  r ← iter CHAIN_FUEL before_last_step starting_fat;
  match r with
  | None => mret tt
  | Some before_last =>
      _ ← set_fat_entry before_last new_fat_index;
      code ← write_fat_sector before_last;
      if decide (code ≠ 0) then mret tt else
      _ ← set_fat_entry new_fat_index FAT16_CLUSTER_CHAIN_END;
      code ← write_fat_sector new_fat_index;
      if decide (code ≠ 0) then mret tt else
      _ ← fat_write_data_cluster new_fat_index buffer;
      heap_free p
  end.

Definition free_chain_step (current_index : Z) : M (fat_state D H) (Z + Z) :=
  v ← fat_entry current_index;
  if IS_END_OF_CLUSTER_CHAIN v || bool_decide (v = FAT16_FREE_CLUSTER) then mret (inr current_index)
  else
    _ ← set_fat_entry current_index FAT16_FREE_CLUSTER;
    _ ← write_fat_sector current_index;
    mret (inl v).

Definition fat_free_chain (fat_index : Z) : M (fat_state D H) unit :=
  last ← iter CHAIN_FUEL free_chain_step fat_index;
  _ ← set_fat_entry last FAT16_FREE_CLUSTER;
  _ ← write_fat_sector last;
  mret tt.

(** [while (i > 0)] on the unsigned counter [i]. *)
Fixpoint get_ith_cluster (starting_cluster : Z) (i : nat) : M (fat_state D H) Z :=
  match i with
  | O => mret (s32 starting_cluster)
  | S i' =>
      v ← fat_entry starting_cluster;
      if IS_END_OF_CLUSTER_CHAIN v || bool_decide (v = FAT16_FREE_CLUSTER) then mret (-1)
      else get_ith_cluster v i'
  end.

Definition count_step (a : Z * Z) : M (fat_state D H) ((Z * Z) + (Z * Z)) :=
  let '(starting_cluster, count) := a in
  v ← fat_entry starting_cluster;
  if IS_END_OF_CLUSTER_CHAIN v || bool_decide (v = FAT16_FREE_CLUSTER)
  then mret (inr (starting_cluster, count)) else mret (inl (v, u32 (count + 1))).

Definition fat_get_cluster_amount (entry : FAT16_DirEntry) : M (fat_state D H) Z :=
  '(last, count) ← iter CHAIN_FUEL count_step (start_cluster entry, 0);
  v ← fat_entry last;
  mret (if IS_END_OF_CLUSTER_CHAIN v then u32 (count + 1) else count).

(** [for (int i = 0; i < amount_of_clusters; i++)], the counter compared as
    unsigned; every round but the last takes a free entry of the table. *)
Definition allocate_step (amount_of_clusters starting_cluster i : Z) : M (fat_state D H) (Z + bool) :=
  if decide (u32 i < u32 amount_of_clusters) then
    index ← fat_find_free;
    if decide (index = -1) then mret (inr false)
    else _ ← fat_update_chain starting_cluster index; mret (inl (s32 (i + 1)))
  else mret (inr true).
Definition fat_allocate_space (amount_of_clusters : Z) (entry : FAT16_DirEntry) : M (fat_state D H) bool :=
  iter CHAIN_FUEL (allocate_step amount_of_clusters (start_cluster entry)) 0.
End operations.

(** ** Directory entries as bytes *)

Lemma length_encode e : length (name e) = 11%nat → length (encode e) = 32%nat.
Proof. intros Hn. unfold encode. rewrite !length_app, !length_le_bytes, Hn. done. Qed.

Lemma encode_bytes e : entry_ok e → Forall is_byte (encode e).
Proof.
  intros [[_ Hn] (? & ? & ?) _ _]. unfold encode. rewrite !Forall_app.
  repeat (split; [by auto with word|]). auto with word.
Qed.

Lemma list_11 {A} (l : list A) :
  length l = 11%nat → ∃ a b c d e f g h i j k, l = [a; b; c; d; e; f; g; h; i; j; k].
Proof. intros Hl. do 11 (destruct l as [|? l]; [done|]). destruct l; [by do 11 eexists|done]. Qed.

Lemma le_val_le_bytes n z : 0 ≤ z < 256 ^ Z.of_nat n → le_val (le_bytes n z) = z.
Proof. intros. rewrite le_val_bytes. by apply Z.mod_small. Qed.

Lemma decode_encode e : entry_ok e → decode (encode e) = e.
Proof.
  intros [[Hn _] _ (H1 & H2 & H3 & H4 & H5 & H6 & H7) H8]. destruct e as [n a ca ct ? ? ? ? ? ? ? ?].
  cbn [name attr case_attr creation_time_ms creation_time creation_date last_access_date reserved
       last_modification_time last_modification_date start_cluster file_size] in *.
  destruct (list_11 n Hn) as (? & ? & ? & ? & ? & ? & ? & ? & ? & ? & ? & ->).
  unfold decode, encode, field.
  cbn [name attr case_attr creation_time_ms creation_time creation_date last_access_date reserved
       last_modification_time last_modification_date start_cluster file_size app take drop].
  f_equal; cbn [le_bytes app take drop]; try (cbn [le_val]; lia).
  all: match goal with
       | |- le_val [_; _] = ?z => apply (le_val_le_bytes 2 z); lia
       | |- le_val [_; _; _; _] = ?z => apply (le_val_le_bytes 4 z); lia
       end.
Qed.

(** ** Chains

    [chain t c cs]: in the table [t], [cs] is what a walk from cluster [c] to an
    end mark visits. *)

Definition is_end (v : Z) : Prop := 65528 ≤ v ∧ v ≤ 65535.

Inductive chain (t : list Z) : Z → list Z → Prop :=
| chain_end c v : aget t c = Some v → is_end v → chain t c [c]
| chain_next c v cs :
    aget t c = Some v → ¬ is_end v → v ≠ 0 → chain t v cs → chain t c (c :: cs).

#[export] Instance is_end_dec v : Decision (is_end v).
Proof. unfold is_end. apply _. Defined.

Lemma is_end_spec v : IS_END_OF_CLUSTER_CHAIN v = bool_decide (is_end v).
Proof. done. Qed.

Section chains.
Implicit Types (t : list Z) (c : Z) (cs : list Z).

Lemma chain_head t c cs : chain t c cs → ∃ cs', cs = c :: cs'.
Proof. destruct 1; eauto. Qed.

Lemma chain_det t c cs1 cs2 : chain t c cs1 → chain t c cs2 → cs1 = cs2.
Proof.
  intros H1. revert cs2. induction H1 as [c v E He|c v cs E Hne Hnz _ IH]; intros cs2 H2.
  - inversion H2; simplify_eq; done.
  - inversion H2; simplify_eq. f_equal. by apply IH.
Qed.

Lemma chain_in_range t c cs d : chain t c cs → d ∈ cs → 0 ≤ d < zlen t.
Proof.
  intros H1. induction H1 as [c v E _|c v cs E _ _ _ IH]; rewrite ?list_elem_of_singleton, ?elem_of_cons.
  - intros ->. by eapply aget_lt_Some.
  - intros [->|?]; [by eapply aget_lt_Some|auto].
Qed.

(** The entries of a chain are in use. *)
Lemma chain_used t c cs d : chain t c cs → d ∈ cs → aget t d ≠ Some 0.
Proof.
  intros H1. induction H1 as [c v E He|c v cs E ? ? _ IH]; rewrite ?list_elem_of_singleton, ?elem_of_cons.
  - intros ->. rewrite E. intros [= ->]. unfold is_end in He. lia.
  - intros [->|?]; [|auto]. rewrite E. congruence.
Qed.

Lemma chain_suffix t c cs d cs1 cs2 :
  chain t c cs → cs = cs1 ++ d :: cs2 → chain t d (d :: cs2).
Proof.
  intros H1. revert cs1. induction H1 as [c v E He|c v cs E Hne Hnz H IH]; intros cs1 Heq.
  - destruct cs1 as [|x [|??]]; simplify_eq/=. by eapply chain_end.
  - destruct cs1 as [|x cs1]; simplify_eq/=; [by eapply chain_next|by eapply IH].
Qed.

(** A chain ends, so it visits no cluster twice. *)
Lemma chain_NoDup t c cs : chain t c cs → NoDup cs.
Proof.
  intros H1. induction H1 as [c v E He|c v cs E Hne Hnz H IH].
  - apply NoDup_singleton.
  - apply list.NoDup_cons. split; [|done]. intros Hin.
    apply list_elem_of_split in Hin as (l1 & l2 & Heq).
    assert (chain t c (c :: l2)) as H2 by (by eapply chain_suffix).
    assert (chain t c (c :: cs)) as H3 by (by eapply chain_next).
    pose proof (chain_det _ _ _ _ H2 H3) as Hd. apply (f_equal length) in Hd.
    rewrite Heq in Hd. simpl in Hd. rewrite length_app in Hd. simpl in Hd. lia.
Qed.

Lemma chain_length t c cs : chain t c cs → (length cs ≤ length t)%nat.
Proof.
  intros Hc. rewrite <-(length_fmap Z.to_nat cs).
  rewrite <-(length_seq (length t) 0). apply submseteq_length, NoDup_submseteq.
  - apply NoDup_fmap_2_strong; [|by eapply chain_NoDup].
    intros x y Hx Hy ?. eapply chain_in_range in Hx, Hy; [|done..]. lia.
  - intros x. rewrite list_elem_of_fmap. intros (d & -> & Hd).
    eapply chain_in_range in Hd; [|done]. apply elem_of_seq. lia.
Qed.

(** A chain only depends on its own entries. *)
Lemma chain_frame t t' c cs :
  (∀ d, d ∈ cs → aget t' d = aget t d) → chain t c cs → chain t' c cs.
Proof.
  intros Hf H1. induction H1 as [c v E He|c v cs E Hne Hnz H IH].
  - eapply chain_end; [|done]. rewrite Hf; [done|set_solver].
  - eapply chain_next; [|done|done|apply IH; set_solver]. rewrite Hf; [done|set_solver].
Qed.

Lemma chain_last_end t c cs l :
  chain t c cs → last cs = Some l → ∃ v, aget t l = Some v ∧ is_end v.
Proof.
  induction 1 as [c v E He|c v cs E Hne Hnz H IH]; [naive_solver|].
  intros Hl. apply IH. destruct (chain_head _ _ _ H) as [cs' ->]. done.
Qed.

Lemma chain_last t c cs : chain t c cs → ∃ l, last cs = Some l.
Proof. intros (cs' & ->)%chain_head. apply (proj2 (last_is_Some (c :: cs'))). done. Qed.

(** Linking a new end cluster behind the last one. *)
Lemma chain_extend t t' c cs l new v :
  chain t c cs → last cs = Some l → new ∉ cs → 0 < new < 65528 → is_end v →
  aget t' l = Some new → aget t' new = Some v →
  (∀ d, d ∈ cs → d ≠ l → aget t' d = aget t d) →
  chain t' c (cs ++ [new]).
Proof.
  intros H1 Hl Hnew Hr Hv Hln Hnv Hf. induction H1 as [c w E He|c w cs E Hne Hnz H IH].
  - simplify_eq/=. eapply chain_next; [done|unfold is_end; lia|lia|]. by eapply chain_end.
  - destruct (chain_head _ _ _ H) as [cs' ->]. cbn [app].
    assert (c ≠ l) as Hcl.
    { intros ->. assert (NoDup (l :: w :: cs')) as Hnd%list.NoDup_cons.
      { apply (chain_NoDup t l). by eapply chain_next. }
      destruct Hnd as [Hnd _]. apply Hnd, last_Some_elem_of, Hl. }
    eapply chain_next; [rewrite Hf; [done|set_solver|done]|done|done|].
    apply IH; [done|set_solver|]. intros d Hd. apply Hf. set_solver.
Qed.
End chains.

(** ** What the operations do

    [fat_ok]: the driver is initialised for 512-byte sectors, the table fits the
    geometry, every cluster in use lies on the device.  The table may have more
    entries than the device has clusters, as on the image the Makefile builds. *)

Section specs.
Context {D H : Type} `{BlockDeviceLaws D} `{KernelHeapLaws H}.
Implicit Types s : fat_state D H.

Definition spc s : Z := sectors_per_cluster (fat16_fs s).
Definition content s (k : Z) : list Z := dev_sector (disk s) k.
(** The bytes of a data cluster. *)
Definition cluster_at s (c : Z) : list Z :=
  sectors (content s) (c * spc s + root_dir_start (fat16_fs s)) (Z.to_nat (spc s)).

(** The sectors of the cluster [c] are on the device. *)
Definition on_device s (c : Z) : Prop :=
  0 ≤ c ∧ c * spc s + root_dir_start (fat16_fs s) + spc s ≤ dev_size (disk s).

Record fat_ok s : Prop := {
  ok_bps : bytes_per_sector (fat16_fs s) = 512;
  ok_spc : 0 < spc s < 256;
  ok_spf : 0 < sectors_per_fat (fat16_fs s) < 256;
  ok_nf : 1 ≤ num_fats (fat16_fs s) < 256;
  ok_reserved : 0 ≤ reserved_sectors (fat16_fs s);
  ok_root : root_dir_start (fat16_fs s)
            = reserved_sectors (fat16_fs s) + num_fats (fat16_fs s) * sectors_per_fat (fat16_fs s);
  ok_table : is_Some (fat_table s);
  ok_length : zlen (table s) = 256 * sectors_per_fat (fat16_fs s);
  ok_entries : Forall (λ v, 0 ≤ v < 65536) (table s);
  ok_ready : dev_ready (disk s);
  ok_area : root_dir_start (fat16_fs s) ≤ dev_size (disk s);
  ok_used c v : aget (table s) c = Some v → v ≠ 0 → on_device s c;
  ok_size : dev_size (disk s) ≤ 268435456;
}.

(** The table sector [k] as it belongs on disk. *)
Definition table_sector (t : list Z) (k : Z) : list Z :=
  concat (le_bytes 2 <$> take 256 (drop (Z.to_nat (256 * k)) t)).

(** The first table on disk is the one in RAM. *)
Definition fat_synced s : Prop :=
  ∀ k, 0 ≤ k < sectors_per_fat (fat16_fs s) →
    content s (reserved_sectors (fat16_fs s) + k) = table_sector (table s) k.

(** Two states with the same file system: heap, console and the device's
    registers may differ. *)
Record fat_same s s' : Prop := {
  same_fs : fat16_fs s' = fat16_fs s;
  same_table : fat_table s' = fat_table s;
  same_root : root_dir s' = root_dir s;
  same_ready : dev_ready (disk s) → dev_ready (disk s');
  same_size : dev_size (disk s') = dev_size (disk s);
  same_content : ∀ k, content s' k = content s k;
}.

(** [s'] is [s] with the table [t'] and with the sectors [f]. *)
Record fat_step (t' : list Z) (f : Z → list Z) s s' : Prop := {
  step_fs : fat16_fs s' = fat16_fs s;
  step_table : table s' = t';
  step_some : is_Some (fat_table s) → is_Some (fat_table s');
  step_root : root_dir s' = root_dir s;
  step_ready : dev_ready (disk s) → dev_ready (disk s');
  step_size : dev_size (disk s') = dev_size (disk s);
  step_content : ∀ k, content s' k = f k;
}.

#[export] Instance fat_same_equiv_refl : Reflexive fat_same.
Proof. intros s. done. Qed.
#[export] Instance fat_same_trans : Transitive fat_same.
Proof.
  intros s1 s2 s3 [] []. split; intros; try congruence; auto.
Qed.

Lemma fat_same_table s s' : fat_same s s' → table s' = table s.
Proof. intros []. unfold table. congruence. Qed.
Lemma fat_same_spc s s' : fat_same s s' → spc s' = spc s.
Proof. intros []. unfold spc. congruence. Qed.

Lemma on_device_eq s s' c :
  fat16_fs s' = fat16_fs s → dev_size (disk s') = dev_size (disk s) → on_device s c → on_device s' c.
Proof. intros Hfs Hsz. unfold on_device, spc. by rewrite Hfs, Hsz. Qed.

Lemma fat_same_ok s s' : fat_same s s' → fat_ok s → fat_ok s'.
Proof.
  intros Hs []. pose proof (fat_same_table _ _ Hs) as Ht. pose proof (fat_same_spc _ _ Hs) as Hp.
  destruct Hs as [E ? ? ? ?].
  split; rewrite ?E, ?Ht, ?Hp; try done; try congruence; auto; try lia.
  intros c v Hv Hz. apply (on_device_eq s); eauto.
Qed.

Lemma fat_same_cluster s s' c : fat_same s s' → cluster_at s' c = cluster_at s c.
Proof.
  intros Hs. unfold cluster_at. rewrite (fat_same_spc _ _ Hs). destruct Hs as [-> ? ? ? ? Hc].
  apply sectors_ext. intros. apply Hc.
Qed.

#[export] Instance cluster_at_proper : Proper (fat_same ==> eq ==> eq) cluster_at.
Proof. intros s s' Hs c ? <-. symmetry. by apply fat_same_cluster. Qed.
#[export] Instance table_proper : Proper (fat_same ==> eq) table.
Proof. intros s s' Hs. symmetry. by apply fat_same_table. Qed.

Lemma length_table_bytes t : length (concat (le_bytes 2 <$> t)) = (2 * length t)%nat.
Proof. induction t as [|v t IH]; cbn [fmap list_fmap concat]; [done|]. rewrite length_app, length_le_bytes, IH. simpl. lia. Qed.
Lemma table_bytes_bytes t : Forall is_byte (concat (le_bytes 2 <$> t)).
Proof.
  induction t as [|v t IH]; cbn [fmap list_fmap concat]; [constructor|]. apply Forall_app. auto with word.
Qed.

Lemma length_cluster_at s c : fat_ok s → length (cluster_at s c) = (512 * Z.to_nat (spc s))%nat.
Proof. intros Hs. apply length_sectors. intros k. apply dev_sector_length, Hs. Qed.
Lemma cluster_at_bytes s c : fat_ok s → Forall is_byte (cluster_at s c).
Proof. intros Hs. apply sectors_bytes. intros k. apply dev_sector_bytes, Hs. Qed.

Lemma cluster_bytes_spc s : fat_ok s → cluster_bytes s = 512 * spc s.
Proof. intros [E]. unfold cluster_bytes. rewrite E. done. Qed.

(** *** Straight-line rules *)

Lemma wp_fat_entry i v (Q : Z → fat_state D H → Prop) s :
  aget (table s) i = Some v → Q v s → wp (fat_entry i) Q s.
Proof. intros. by eapply wp_reads. Qed.

Lemma wp_set_fat_entry i v (Q : unit → fat_state D H → Prop) s :
  0 ≤ i < zlen (table s) → Q tt (set_table (Some (<[Z.to_nat i := u16 v]> (table s))) s) →
  wp (set_fat_entry i v) Q s.
Proof. intros. by apply wp_writes. Qed.

(** The entry read is a 16-bit value. *)
Lemma fat_ok_entry s i v : fat_ok s → aget (table s) i = Some v → 0 ≤ v < 65536.
Proof.
  intros Hs [_ Hv]%aget_Some. by apply (Forall_lookup_1 _ _ _ _ (ok_entries s Hs) Hv).
Qed.

Lemma wp_heap_alloc size n (Q : Z → fat_state D H → Prop) s :
  0 < size < 4294967296 → 0 ≤ n → heap_room (heap_cost size + n) (heap s) →
  (∀ p s', p ≠ 0 → fat_same s s' → console s' = console s → heap_room n (heap s') → Q p s') →
  wp (heap_alloc size) Q s.
Proof.
  intros Hsz Hn Hr HQ. unfold heap_alloc. apply wp_zoom. rewrite u32_small by lia.
  destruct (kmalloc_ok (heap s) size n) as (p & h' & E & Hp & Hr'); [lia..|done|].
  apply (wp_of_done _ _ _ p h' E). by apply HQ.
Qed.

Lemma wp_heap_free p n (Q : unit → fat_state D H → Prop) s :
  heap_room n (heap s) →
  (∀ s', fat_same s s' → console s' = console s → heap_room n (heap s') → Q tt s') →
  wp (heap_free p) Q s.
Proof.
  intros Hr HQ. unfold heap_free. apply wp_zoom.
  destruct (kfree_ok (heap s) p n Hr) as (h' & E & Hr').
  apply (wp_of_done _ _ _ tt h' E). by apply HQ.
Qed.

(** *** The transfers *)

(** The sectors [f] with [buf] stored over [n] of them from [lba] on. *)
Definition stored (f : Z → list Z) (lba n : Z) (buf : list Z) (k : Z) : list Z :=
  if decide (lba ≤ k < lba + n) then sector_of buf (k - lba) else f k.

Lemma splice_all {A} (l bs : list A) : length bs = length l → splice l 0 bs = bs.
Proof. intros Hl. unfold splice. cbn [take app]. by rewrite drop_ge, app_nil_r by lia. Qed.

Lemma cluster_in_device s c :
  fat_ok s → on_device s c →
  0 ≤ c * spc s + root_dir_start (fat16_fs s) ∧
  c * spc s + root_dir_start (fat16_fs s) + spc s ≤ dev_size (disk s).
Proof. intros [] [Hc ?]. nia. Qed.

(** The clusters of a chain are on the device. *)
Lemma chain_on_device s c cs d : fat_ok s → chain (table s) c cs → d ∈ cs → on_device s d.
Proof.
  intros Hs Hc Hd. pose proof (chain_in_range _ _ _ _ Hc Hd) as Hr.
  destruct (aget_is_Some (table s) d Hr) as [v Ev]. apply (ok_used s Hs d v Ev).
  intros ->. by apply (chain_used _ _ _ _ Hc Hd).
Qed.

Lemma wp_read_cluster c buf (Q : Z * list Z → fat_state D H → Prop) s :
  fat_ok s → on_device s c → zlen buf = 512 * spc s →
  (∀ s', fat_same s s' → heap s' = heap s → Q (0, cluster_at s c) s') →
  wp (fat_read_data_cluster c buf) Q s.
Proof.
  intros Hs Hc Hb HQ. unfold fat_read_data_cluster. wp_steps. unfold read_disk. apply wp_zoom.
  pose proof (cluster_in_device s c Hs Hc) as Hd. fold (spc s).
  pose proof (ok_size s Hs). pose proof (ok_spc s Hs).
  rewrite u32_small, (u8_small (spc s)) by lia.
  destruct (dev_read_ok (disk s) (c * spc s + root_dir_start (fat16_fs s)) (spc s) buf)
    as (d' & E & Hr & Hsz & Hk); [apply Hs|lia..|].
  apply (wp_of_done _ _ _ _ d' E). rewrite splice_all.
  - apply HQ; done.
  - rewrite length_sectors; [lia|]. intros k. apply dev_sector_length, Hs.
Qed.

Lemma wp_write_disk lba n buf (Q : Z → fat_state D H → Prop) s :
  dev_ready (disk s) → 0 ≤ lba → 0 < n < 256 → lba + n ≤ dev_size (disk s) →
  dev_size (disk s) ≤ 268435456 → 512 * n ≤ zlen buf → Forall is_byte buf →
  (∀ s', fat_step (table s) (stored (content s) lba n buf) s s' → heap s' = heap s → Q 0 s') →
  wp (write_disk lba n buf) Q s.
Proof.
  intros Hr Hlba Hn Hsz Hmax Hlen Hb HQ. unfold write_disk. apply wp_zoom.
  rewrite u32_small, u8_small by lia.
  destruct (dev_write_ok (disk s) lba n buf) as (d' & E & Hr' & Hsz' & Hk); [done|lia..|done|].
  apply (wp_of_done _ _ _ _ d' E). by apply HQ.
Qed.

(** [s'] holds the table [t'] and the clusters [g], and is consistent again. *)
Record fat_upd (t' : list Z) (g : Z → list Z) s s' : Prop := {
  upd_ok : fat_ok s';
  upd_fs : fat16_fs s' = fat16_fs s;
  upd_root : root_dir s' = root_dir s;
  upd_table : table s' = t';
  upd_size : dev_size (disk s') = dev_size (disk s);
  upd_cluster : ∀ c, 0 ≤ c < zlen t' → cluster_at s' c = g c;
  upd_synced : fat_synced s → fat_synced s';
}.

Lemma fat_step_ok t' f s s' :
  fat_step t' f s s' → fat_ok s → zlen t' = zlen (table s) → Forall (λ v, 0 ≤ v < 65536) t' →
  (∀ c v, aget t' c = Some v → v ≠ 0 → on_device s c) → fat_ok s'.
Proof.
  intros [E ? Hsome ? Hr Hsz _] [] Hl Hf Hu.
  assert (spc s' = spc s) as Hp by (unfold spc; congruence).
  split; rewrite ?E, ?Hp; subst; auto; rewrite ?Hl, ?Hsz; auto.
  intros c v Hv Hz. apply (on_device_eq s); eauto.
Qed.

(** Entries in use after one more is set. *)
Lemma used_insert s i v :
  fat_ok s → 0 ≤ i < zlen (table s) → (v ≠ 0 → on_device s i) →
  ∀ c w, aget (<[Z.to_nat i := v]> (table s)) c = Some w → w ≠ 0 → on_device s c.
Proof.
  intros Hs Hi Hv c w. rewrite aget_insert by done. case_decide as Hc.
  - subst c. intros [= <-]. exact Hv.
  - apply (ok_used s Hs).
Qed.

Lemma fat_upd_trans t1 g1 t2 g2 s s1 s2 :
  fat_upd t1 g1 s s1 → fat_upd t2 g2 s1 s2 → fat_upd t2 g2 s s2.
Proof. intros [] []. split; intros; try congruence; auto. Qed.

Lemma fat_upd_ext t g g' s s' :
  (∀ c, 0 ≤ c < zlen t → g c = g' c) → fat_upd t g s s' → fat_upd t g' s s'.
Proof. intros Hg []. split; intros; try congruence; auto. rewrite <-Hg by done. auto. Qed.

Lemma fat_same_upd s s' : fat_ok s → fat_same s s' → fat_upd (table s) (cluster_at s) s s'.
Proof.
  intros Hs Hss. split.
  - by eapply fat_same_ok.
  - apply Hss.
  - apply Hss.
  - by apply fat_same_table.
  - apply Hss.
  - intros c _. by apply fat_same_cluster.
  - intros Hy k Hk. rewrite (same_content _ _ Hss), (fat_same_table _ _ Hss), (same_fs _ _ Hss).
    apply Hy. by rewrite <-(same_fs _ _ Hss).
Qed.

(** Storing a cluster replaces that cluster and no other. *)
Lemma cluster_at_stored s s' c c' buf :
  fat_ok s → zlen buf = 512 * spc s →
  fat_step (table s) (stored (content s) (c * spc s + root_dir_start (fat16_fs s)) (spc s) buf) s s' →
  cluster_at s' c' = if decide (c' = c) then buf else cluster_at s c'.
Proof.
  intros Hs Hb [E _ _ _ _ _ Hk]. pose proof (ok_spc s Hs).
  assert (spc s' = spc s) as Hp by (unfold spc; congruence).
  unfold cluster_at. rewrite Hp, E. case_decide as Heq.
  - subst c'. etrans; [|apply (sectors_of_buffer buf (c * spc s + root_dir_start (fat16_fs s))
      (Z.to_nat (spc s))); lia].
    apply sectors_ext. intros k Hr. rewrite Hk. unfold stored. by rewrite decide_True by lia.
  - apply sectors_ext. intros k Hr. rewrite Hk. unfold stored. rewrite decide_False by nia. done.
Qed.

(** The sectors in front of the clusters, where the tables are, keep their bytes. *)
Definition front_kept s s' : Prop := ∀ k, k < root_dir_start (fat16_fs s) → content s' k = content s k.

Lemma wp_write_cluster c buf (Q : Z → fat_state D H → Prop) s :
  fat_ok s → on_device s c → zlen buf = 512 * spc s → Forall is_byte buf →
  (∀ s', fat_upd (table s) (λ c', if decide (c' = c) then buf else cluster_at s c') s s' →
         heap s' = heap s → front_kept s s' → Q 0 s') →
  wp (fat_write_data_cluster c buf) Q s.
Proof.
  intros Hs Hc Hb Hby HQ. unfold fat_write_data_cluster. wp_steps. fold (spc s).
  pose proof (cluster_in_device s c Hs Hc). pose proof (ok_spc s Hs).
  apply wp_write_disk; try done; try lia; [apply Hs|apply Hs|].
  intros s' Hst Hh.
  assert (fat_ok s') as Hs'.
  { eapply fat_step_ok; [done|done|lia|apply Hs|apply Hs]. }
  apply HQ; [|done|].
  2: { intros k Hk. rewrite (step_content _ _ _ _ Hst). unfold stored. rewrite decide_False; [done|]. destruct Hc. nia. }
  destruct Hst as [E Ht Hsome Hroot Hr Hsz Hk] eqn:Est. split; try done.
  - intros c' Hc'. by eapply cluster_at_stored.
  - intros Hy k Hkr. rewrite Hk, E, Ht. rewrite E in Hkr. unfold stored.
    rewrite decide_False; [by apply Hy|]. destruct Hs, Hc. nia.
Qed.

(** *** Changing one entry, in RAM and on disk *)

Lemma table_sector_other (t : list Z) i v k :
  0 ≤ i → 0 ≤ k → k ≠ i / 256 → table_sector (<[Z.to_nat i := v]> t) k = table_sector t k.
Proof.
  intros Hi Hk Hne. unfold table_sector. do 2 f_equal.
  pose proof (Z.div_mod i 256). pose proof (Z.mod_pos_bound i 256).
  apply list_eq. intros j. destruct (decide (j < 256)%nat).
  - rewrite !lookup_take_lt, !lookup_drop by done. apply list_lookup_insert_ne. nia.
  - rewrite !lookup_take_ge by lia. done.
Qed.

(** The two statements every change of the table consists of. *)
Lemma wp_link i v (Q : Z → fat_state D H → Prop) s :
  fat_ok s → 0 ≤ i < zlen (table s) → 0 ≤ v < 65536 → (v ≠ 0 → on_device s i) →
  (∀ s', fat_upd (<[Z.to_nat i := v]> (table s)) (cluster_at s) s s' → heap s' = heap s → Q 0 s') →
  wp (_ ← set_fat_entry i v; write_fat_sector i) Q s.
Proof.
  intros Hs Hi Hv Hused HQ. apply wp_bind, wp_set_fat_entry; [done|].
  set (s1 := set_table _ s). unfold write_fat_sector. wp_steps.
  change (fat16_fs s1) with (fat16_fs s). rewrite (ok_bps s Hs). rewrite decide_False by lia.
  change (table s1) with (<[Z.to_nat i := u16 v]> (table s)). rewrite u16_small in * by lia.
  pose proof (ok_length s Hs) as Hl. pose proof (ok_spf s Hs).
  assert (Z.quot (i * 2) 512 = i / 256) as ->.
  { rewrite Z.quot_div_nonneg by lia. rewrite (Z.mul_comm i), <-(Z.div_mul_cancel_l i 256 2) by lia. done. }
  assert (0 ≤ i / 256 < sectors_per_fat (fat16_fs s)) as Hq.
  { split; [apply Z.div_pos; lia|apply Z.div_lt_upper_bound; lia]. }
  assert (Z.quot (i / 256 * 512) 2 = 256 * (i / 256)) as ->.
  { rewrite Z.quot_div_nonneg by lia. replace (i / 256 * 512) with (256 * (i / 256) * 2) by lia.
    apply Z.div_mul. lia. }
  set (t' := <[Z.to_nat i := v]> (table s)) in *.
  assert (zlen t' = zlen (table s)) as Hlt by (unfold t'; by rewrite length_insert).
  set (buf := take 512 (table_bytes _ 0)).
  assert (buf = table_sector t' (i / 256)) as Hbuf.
  { unfold buf, table_bytes, table_sector. rewrite take_ge; [done|].
    rewrite length_table_bytes. change (Z.to_nat 0) with 0%nat. rewrite length_drop, length_take. lia. }
  assert (length buf = 512%nat) as Hblen.
  { rewrite Hbuf. unfold table_sector. rewrite length_table_bytes, length_take, length_drop. lia. }
  assert (reserved_sectors (fat16_fs s) + i / 256 + 1 ≤ root_dir_start (fat16_fs s)) as Hroot.
  { destruct Hs. nia. }
  pose proof (ok_area s Hs) as Hdev.
  assert (sector_of buf 0 = buf) as Hso.
  { unfold sector_of. change (Z.to_nat (512 * 0)) with 0%nat. rewrite drop_0, take_ge; [done|lia]. }
  pose proof (ok_reserved s Hs).
  apply wp_write_disk; try lia.
  - apply Hs.
  - change (disk s1) with (disk s). lia.
  - apply Hs.
  - rewrite Hbuf. apply table_bytes_bytes.
  - intros s' Hst Hh. apply HQ; [|done]. change (table s1) with (<[Z.to_nat i := u16 v]> (table s)) in Hst.
    rewrite u16_small in Hst by lia. fold t' in Hst.
    change (content s1) with (content s) in Hst.
    destruct Hst as [E Ht Hsome Hr Hrd Hsz Hk].
    change (fat16_fs s1) with (fat16_fs s) in E.
    assert (spc s' = spc s) as Hp by (unfold spc; congruence).
    assert (fat_ok s') as Hs'.
    { apply (fat_step_ok t' (content s') s s'); [|done|done| |].
      - split; try done. intros _. apply Hsome. done.
      - apply Forall_insert; [apply Hs|done].
      - by apply used_insert. }
    split; try done.
    + intros c Hc. unfold cluster_at. rewrite Hp, E. apply sectors_ext. intros k Hkr.
      rewrite Hk. unfold stored. rewrite decide_False; [done|].
      pose proof (ok_spc s Hs). nia.
    + intros Hy k Hkr. rewrite Hk, E, Ht. rewrite E in Hkr. unfold stored. case_decide as Hd.
      * replace k with (i / 256) by lia. rewrite Z.sub_diag, Hso. done.
      * rewrite Hy by done. symmetry. apply table_sector_other; lia.
Qed.

(** *** Walks along a chain *)

Lemma fat_entry_done s i v : aget (table s) i = Some v → fat_entry i s = Done (v, s).
Proof. intros E. unfold fat_entry, reads. by rewrite E. Qed.

(** What the three walks decide on at an entry. *)
Lemma walk_ends v : is_end v → IS_END_OF_CLUSTER_CHAIN v || bool_decide (v = FAT16_FREE_CLUSTER) = true.
Proof. intros Hv. rewrite is_end_spec, bool_decide_eq_true_2 by done. done. Qed.
Lemma walk_goes_on v :
  ¬ is_end v → v ≠ 0 → IS_END_OF_CLUSTER_CHAIN v || bool_decide (v = FAT16_FREE_CLUSTER) = false.
Proof. intros Hv Hz. rewrite is_end_spec, !bool_decide_eq_false_2 by done. done. Qed.

Lemma get_ith_cluster_chain s c cs i :
  fat_ok s → chain (table s) c cs → get_ith_cluster c i s = Done (default (-1) (cs !! i), s).
Proof.
  intros Hs Hc. revert c cs Hc. induction i as [|i IH]; intros c cs Hc; cbn [get_ith_cluster].
  - destruct (chain_head _ _ _ Hc) as [cs' ->].
    pose proof (chain_in_range _ _ _ c Hc ltac:(set_solver)).
    pose proof (ok_length s Hs). pose proof (ok_spf s Hs). rewrite s32_small by lia. done.
  - destruct Hc as [c v E He|c v cs E Hne Hnz Hc]; rewrite (bind_done _ _ _ _ _ (fat_entry_done s c v E)).
    + rewrite walk_ends by done. done.
    + rewrite walk_goes_on by done. by apply IH.
Qed.

Lemma before_last_chain s c cs l fuel :
  fat_ok s → chain (table s) c cs → last cs = Some l → (length cs ≤ fuel)%nat →
  iter fuel before_last_step c s = Done (Some l, s).
Proof.
  intros Hs Hc. revert fuel. induction Hc as [c v E He|c v cs E Hne Hnz Hc IH];
    intros fuel Hl Hf; (destruct fuel as [|fuel]; [simpl in Hf; lia|]).
  - erewrite iter_step; [|unfold before_last_step;
      rewrite (bind_done _ _ _ _ _ (fat_entry_done s c v E)), walk_ends by done; reflexivity].
    by simplify_eq/=.
  - assert (v ∈ cs) as Hin by (destruct (chain_head _ _ _ Hc) as [? ->]; set_solver).
    pose proof (chain_in_range _ _ _ _ Hc Hin) as Hr.
    pose proof (ok_length s Hs). pose proof (ok_spf s Hs). pose proof (ok_nf s Hs).
    rewrite (iter_step _ _ _ _ (inl v) s).
    + apply IH; [|simpl in Hf; lia]. by destruct (chain_head _ _ _ Hc) as [? ->].
    + unfold before_last_step.
      rewrite (bind_done _ _ _ _ _ (fat_entry_done s c v E)), walk_goes_on by done.
      unfold mbind, M_bind, gets.
      rewrite (ok_bps s Hs), (s32_small (num_fats _ * _)), s32_small by nia.
      replace (num_fats (fat16_fs s) * sectors_per_fat (fat16_fs s) * 512)
        with (num_fats (fat16_fs s) * sectors_per_fat (fat16_fs s) * 256 * 2) by lia.
      rewrite Z.quot_mul by lia. rewrite decide_False by nia. done.
Qed.

Lemma count_chain s c cs n fuel :
  chain (table s) c cs → (length cs ≤ fuel)%nat → 0 ≤ n → n + zlen cs < 4294967296 →
  ∃ l, iter fuel count_step (c, n) s = Done ((l, n + zlen cs - 1), s) ∧ last cs = Some l.
Proof.
  intros Hc. revert n fuel. induction Hc as [c v E He|c v cs E Hne Hnz Hc IH];
    intros n fuel Hf Hn Hn'; (destruct fuel as [|fuel]; [simpl in Hf; lia|]); cbn [length] in *.
  - exists c. split; [|done].
    erewrite iter_step; [|unfold count_step;
      rewrite (bind_done _ _ _ _ _ (fat_entry_done s c v E)), walk_ends by done; reflexivity].
    do 3 f_equal. lia.
  - destruct (IH (n + 1) fuel) as (l & Hl & Hlast); [simpl in Hf; lia..|].
    exists l. split; [|by destruct (chain_head _ _ _ Hc) as [cs' ->]].
    rewrite (iter_step _ _ _ _ (inl (v, n + 1)) s).
    + rewrite Hl. do 3 f_equal. lia.
    + unfold count_step.
      rewrite (bind_done _ _ _ _ _ (fat_entry_done s c v E)), walk_goes_on by done.
      rewrite u32_small by lia. done.
Qed.

Lemma chain_fuel s c cs : fat_ok s → chain (table s) c cs → (length cs < CHAIN_FUEL)%nat.
Proof.
  intros Hs Hc%chain_length. pose proof (ok_length s Hs). pose proof (ok_spf s Hs).
  unfold CHAIN_FUEL. lia.
Qed.

Lemma fat_get_cluster_amount_chain s e cs :
  fat_ok s → chain (table s) (start_cluster e) cs →
  fat_get_cluster_amount e s = Done (zlen cs, s).
Proof.
  intros Hs Hc. pose proof (chain_fuel s _ _ Hs Hc) as Hf.
  pose proof (chain_length _ _ _ Hc). pose proof (ok_length s Hs). pose proof (ok_spf s Hs).
  unfold fat_get_cluster_amount.
  destruct (count_chain s _ cs 0 CHAIN_FUEL Hc) as (l & Hl & Hlast); [lia..|].
  rewrite (bind_done _ _ _ _ _ Hl). destruct (chain_last_end _ _ _ _ Hc Hlast) as (v & E & He).
  rewrite (bind_done _ _ _ _ _ (fat_entry_done s l v E)).
  rewrite is_end_spec, bool_decide_eq_true_2 by done. unfold mret, M_ret. do 2 f_equal.
  rewrite u32_small; [lia|]. destruct (chain_head _ _ _ Hc) as [cs' ->]. cbn [length] in *. lia.
Qed.

(** *** The lowest free entry *)

Lemma find_free_from_spec s i n :
  0 ≤ i → i + Z.of_nat n ≤ zlen (table s) →
  ∃ r, find_free_from i n s = Done (r, s) ∧
    ((r = -1 ∧ ∀ j, i ≤ j < i + Z.of_nat n → aget (table s) j ≠ Some 0) ∨
     (i ≤ r < i + Z.of_nat n ∧ aget (table s) r = Some 0 ∧
      ∀ j, i ≤ j < r → aget (table s) j ≠ Some 0)).
Proof.
  revert i. induction n as [|n IH]; intros i Hi Hl; cbn [find_free_from].
  - exists (-1). split; [done|]. left. split; [done|]. lia.
  - destruct (aget_is_Some (table s) i) as [v E]; [lia|].
    rewrite (bind_done _ _ _ _ _ (fat_entry_done s i v E)).
    unfold FAT16_FREE_CLUSTER. case_decide as Hv.
    + exists i. split; [done|]. right. subst v. split_and!; [lia..|done|lia].
    + destruct (IH (i + 1)) as (r & -> & Hr); [lia..|]. exists r. split; [done|].
      destruct Hr as [[-> Hn]|(Hr & Er & Hlow)]; [left|right].
      * split; [done|]. intros j Hj. destruct (decide (j = i)) as [->|]; [congruence|]. apply Hn. lia.
      * split; [lia|]. split; [done|]. intros j Hj.
        destruct (decide (j = i)) as [->|]; [congruence|]. apply Hlow. lia.
Qed.

Lemma fat_find_free_spec s :
  fat_ok s →
  ∃ r, fat_find_free s = Done (r, s) ∧
    ((r = -1 ∧ ∀ j, aget (table s) j ≠ Some 0) ∨
     (0 ≤ r < zlen (table s) ∧ aget (table s) r = Some 0 ∧
      ∀ j, 0 ≤ j < r → aget (table s) j ≠ Some 0)).
Proof.
  intros Hs. pose proof (ok_length s Hs) as Hl. pose proof (ok_spf s Hs).
  unfold fat_find_free. unfold mbind, M_bind, gets.
  rewrite (ok_bps s Hs), s32_small, Z.quot_div_nonneg by lia.
  replace (sectors_per_fat (fat16_fs s) * 512) with (zlen (table s) * 2) by lia.
  rewrite Z.div_mul, Nat2Z.id by lia.
  destruct (find_free_from_spec s 0 (length (table s))) as (r & -> & Hr); [lia..|].
  exists r. split; [done|]. destruct Hr as [[-> Hn]|(? & ? & ?)]; [left|right].
  - split; [done|]. intros j E. apply (Hn j); [|done]. apply aget_lt_Some in E. lia.
  - split; [lia|]. done.
Qed.
End specs.

Lemma CHAIN_FUEL_S : ∃ k, CHAIN_FUEL = S k.
Proof. exists (pred CHAIN_FUEL). unfold CHAIN_FUEL. lia. Qed.
Lemma CHAIN_FUEL_big : 65536 < Z.of_nat CHAIN_FUEL.
Proof. unfold CHAIN_FUEL. lia. Qed.

#[global] Opaque CHAIN_FUEL.

(** ** A small volume for the examples

    One sector per cluster, one table of one sector: the root directory is
    cluster 0, the file system's second chain is 2, 3. *)
Module Demo.
Definition fs : FAT16_FS := mkFS 512 1 1 1 16 300 1 2 3.
Definition fat : list Z := [65528; 65535; 3; 65528] ++ replicate 252 0.
Definition root : FAT16_DirEntry :=
  mkEntry [126; 0; 0; 0; 0; 0; 0; 0; 0; 0; 0] 16 0 0 0 0 0 0 0 0 0 512.
(** A file "A" of 600 bytes. *)
Definition file_a : FAT16_DirEntry := mkEntry [65; 0; 0; 0; 0; 0; 0; 0; 0; 0; 0] 0 0 0 0 0 0 0 0 0 2 600.
(** A volume whose root directory holds [n] entries. *)
Definition dev (n : nat) : ramdisk :=
  Ramdisk 300 (<[ 1 := table_sector fat 0 ]> {[ 2 := concat (replicate n (encode file_a)) ++ replicate (512 - 32 * n) 0 ]}).
Definition volume (n : nat) : fat_state ramdisk bump :=
  FatState fs (Some fat) root (dev n) (Bump 4096 1000000) [].
Definition state : fat_state ramdisk bump := volume 1.
(** Every slot of the root directory taken. *)
Definition full : fat_state ramdisk bump := volume 16.

Lemma dev_wf n : (n ≤ 16)%nat → rd_wf (dev n).
Proof.
  intros Hn. assert (length (concat (replicate n (encode file_a))) = 32 * n)%nat as Hl.
  { clear Hn. induction n as [|n IH]; [done|]. cbn [replicate concat]. rewrite length_app, IH.
    change (length (encode file_a)) with 32%nat. lia. }
  apply map_Forall_insert_2; [|apply map_Forall_singleton]; split.
  - vm_compute; reflexivity.
  - by_decide.
  - rewrite length_app, Hl, length_replicate. lia.
  - apply Forall_app. split; [|apply Forall_replicate; unfold is_byte; lia].
    apply Forall_concat, Forall_replicate. by_decide.
Qed.

Lemma volume_ok n : (n ≤ 16)%nat → fat_ok (volume n).
Proof.
  intros Hn. split; try exact (eq_refl _); try by_decide.
  - by apply dev_wf.
  - intros c v Hc%aget_lt_Some _. unfold on_device, spc. cbn in Hc |- *. lia.
Qed.
Lemma state_ok : fat_ok state.
Proof. apply volume_ok. lia. Qed.
Lemma full_ok : fat_ok full.
Proof. apply volume_ok. lia. Qed.

Lemma root_chain n : chain (table (volume n)) 0 [0].
Proof. by apply (chain_end _ _ 65528); [vm_compute; reflexivity|]. Qed.

Lemma file_chain : chain (table state) 2 [2; 3].
Proof.
  apply (chain_next _ _ 3); [vm_compute; reflexivity|unfold is_end; lia|lia|].
  by apply (chain_end _ _ 65528); [vm_compute; reflexivity|].
Qed.

Lemma file_a_ok : entry_ok file_a.
Proof. split; cbn; unfold is_byte; try lia. split; [done|by_decide]. Qed.
End Demo.
