(* ===== verification/FatChain.v ===== *)
(** * The FAT16 driver, part 2: what the table operations do to chains

    The refinement of [fat_update_chain], [fat_free_chain], [fat_find_free],
    [get_ith_cluster], [fat_get_cluster_amount] and [fat_allocate_space]
    (defined in [FatTable]) to operations on chains: append a cluster, free a
    chain, take the lowest free entry, index, length, append several. *)

From S2P Require Import Prelude CString Interfaces FatTable.

Section chains.
Context {D H : Type} `{BlockDeviceLaws D} `{KernelHeapLaws H}.
Implicit Types s : fat_state D H.

(** [wp_link] in front of more code. *)
Lemma wp_link_then {A} i v (k : Z → M (fat_state D H) A) (Q : A → fat_state D H → Prop) s :
  fat_ok s → 0 ≤ i < zlen (table s) → 0 ≤ v < 65536 → (v ≠ 0 → on_device s i) →
  (∀ s', fat_upd (<[Z.to_nat i := v]> (table s)) (cluster_at s) s s' → heap s' = heap s →
         wp (k 0) Q s') →
  wp (_ ← set_fat_entry i v; code ← write_fat_sector i; k code) Q s.
Proof.
  intros Hs Hi Hv Hu HQ.
  pose proof (wp_link i v (λ r s', wp (k r) Q s') s Hs Hi Hv Hu HQ) as Hw.
  apply wp_bind. apply wp_bind_inv in Hw. eapply wp_mono; [exact Hw|]. intros [] s'. apply wp_bind.
Qed.

(** The table after linking [new] behind [l]. *)
Definition linked (t : list Z) (l new : Z) : list Z :=
  <[Z.to_nat new := FAT16_CLUSTER_CHAIN_END]> (<[Z.to_nat l := new]> t).

(** The clusters of [s] with [new] cleared. *)
Definition with_zeroed s (new c : Z) : list Z :=
  if decide (c = new) then replicate (Z.to_nat (512 * spc s)) 0 else cluster_at s c.

Lemma zeros_bytes n : Forall is_byte (replicate n 0).
Proof. apply Forall_replicate. unfold is_byte. lia. Qed.

Lemma upd_length t g s s' : fat_ok s → fat_upd t g s s' → zlen t = zlen (table s).
Proof.
  intros Hs Hu. pose proof (ok_length s Hs). pose proof (ok_length s' (upd_ok _ _ _ _ Hu)) as Hl.
  rewrite (upd_table _ _ _ _ Hu), (upd_fs _ _ _ _ Hu) in Hl. lia.
Qed.

Lemma upd_spc t g s s' : fat_upd t g s s' → spc s' = spc s.
Proof. intros Hu. unfold spc. by rewrite (upd_fs _ _ _ _ Hu). Qed.

Lemma upd_on_device t g s s' c : fat_upd t g s s' → on_device s c → on_device s' c.
Proof. intros Hu. apply on_device_eq; apply Hu. Qed.
Lemma same_on_device s s' c : fat_same s s' → on_device s c → on_device s' c.
Proof. intros Hu. apply on_device_eq; apply Hu. Qed.

Lemma wp_update_chain c l new n (Q : unit → fat_state D H → Prop) s :
  fat_ok s → 0 ≤ l < zlen (table s) → 0 ≤ new < zlen (table s) →
  on_device s l → on_device s new →
  (∀ s1, fat_same s s1 → iter CHAIN_FUEL before_last_step c s1 = Done (Some l, s1)) →
  0 ≤ n → heap_room (heap_cost (512 * spc s) + n) (heap s) →
  (∀ s', fat_upd (linked (table s) l new) (with_zeroed s new) s s' → heap_room n (heap s') → Q tt s') →
  wp (fat_update_chain c new) Q s.
Proof.
  intros Hs Hl Hnew Hdl Hdn Hwalk Hn Hroom HQ. unfold fat_update_chain. wp_steps.
  pose proof (ok_spc s Hs). pose proof (ok_length s Hs). pose proof (ok_spf s Hs).
  rewrite cluster_bytes_spc by done. eapply wp_heap_alloc; [lia|done|done|].
  intros p s1 Hp Hs1 _ Hr1. unfold cleared. rewrite decide_False by done. wp_steps.
  apply (wp_of_done _ _ _ _ _ (Hwalk s1 Hs1)).
  pose proof (fat_same_ok _ _ Hs1 Hs) as Hok1. pose proof (fat_same_table _ _ Hs1) as Ht1.
  pose proof (fat_same_upd _ _ Hs Hs1) as Hu1.
  apply (same_on_device _ _ _ Hs1) in Hdl, Hdn.
  apply wp_link_then; [done|by rewrite Ht1|lia|done|]. intros s2 Hu2 Hh2. rewrite decide_False by lia.
  apply (upd_on_device _ _ _ _ _ Hu2) in Hdn.
  pose proof (upd_table _ _ _ _ Hu2) as Ht2. pose proof (upd_ok _ _ _ _ Hu2) as Hok2.
  assert (zlen (table s2) = zlen (table s)) as Hl2 by (rewrite Ht2, length_insert, Ht1; done).
  apply wp_link_then; [done|lia|unfold FAT16_CLUSTER_CHAIN_END; lia|done|].
  intros s3 Hu3 Hh3. rewrite decide_False by lia. apply (upd_on_device _ _ _ _ _ Hu3) in Hdn.
  pose proof (upd_table _ _ _ _ Hu3) as Ht3. pose proof (upd_ok _ _ _ _ Hu3) as Hok3.
  assert (zlen (table s3) = zlen (table s)) as Hl3 by (rewrite Ht3, length_insert; done).
  pose proof (upd_spc _ _ _ _ Hu3). pose proof (upd_spc _ _ _ _ Hu2). pose proof (fat_same_spc _ _ Hs1).
  apply wp_bind, wp_write_cluster; [done|done|rewrite length_replicate; lia|apply zeros_bytes|].
  intros s4 Hu4 Hh4 _. pose proof (upd_table _ _ _ _ Hu4) as Ht4.
  eapply (wp_heap_free p n); [by rewrite Hh4, Hh3, Hh2|]. intros s5 Hs5 _ Hr5. apply HQ; [|done].
  pose proof (upd_ok _ _ _ _ Hu4) as Hok4.
  assert (table s5 = linked (table s) l new) as Ht5.
  { rewrite (fat_same_table _ _ Hs5), Ht4, Ht3, Ht2, Ht1. done. }
  assert (zlen (table s5) = zlen (table s)) as Hl5 by (rewrite Ht5; unfold linked; by rewrite !length_insert).
  rewrite <-Ht5. apply (fat_upd_ext _ (cluster_at s4)).
  - intros c' Hc'. rewrite (upd_cluster _ _ _ _ Hu4) by lia.
    unfold with_zeroed. case_decide; [do 2 f_equal; lia|].
    rewrite (upd_cluster _ _ _ _ Hu3), (upd_cluster _ _ _ _ Hu2) by (rewrite length_insert; lia || (rewrite Ht1; lia)).
    by apply fat_same_cluster.
  - do 4 (eapply fat_upd_trans; [eassumption|]). rewrite (fat_same_table _ _ Hs5). by apply fat_same_upd.
Qed.

(** *** The table after a link *)

Lemma linked_lookup (t : list Z) l new d :
  0 ≤ l < zlen t → 0 ≤ new < zlen t →
  aget (linked t l new) d =
    if decide (new = d) then Some FAT16_CLUSTER_CHAIN_END
    else if decide (l = d) then Some new else aget t d.
Proof.
  intros Hl Hn. unfold linked. rewrite aget_insert by (rewrite length_insert; lia).
  case_decide; [done|]. by rewrite aget_insert.
Qed.

Lemma chain_linked t c cs l new :
  chain t c cs → last cs = Some l → aget t new = Some 0 → 0 < new < 65528 → zlen t ≤ 65528 →
  chain (linked t l new) c (cs ++ [new]).
Proof.
  intros Hc Hl Hfree Hn Ht. pose proof (aget_lt_Some _ _ _ Hfree) as Hr.
  pose proof (chain_in_range _ _ _ _ Hc (last_Some_elem_of _ _ Hl)) as Hlr.
  assert (new ∉ cs) as Hnew by (intros Hin; by apply (chain_used _ _ _ _ Hc Hin)).
  assert (l ≠ new) by (intros ->; apply Hnew, last_Some_elem_of, Hl).
  eapply (chain_extend t _ c cs l new FAT16_CLUSTER_CHAIN_END); try done.
  - rewrite linked_lookup, decide_False, decide_True by done. done.
  - rewrite linked_lookup, decide_True by done. done.
  - intros d Hd Hdl. rewrite linked_lookup, !decide_False; [done|done|congruence|done..].
Qed.

(** A chain that shares no cluster with the extended one stays as it is. *)
Lemma chain_linked_other t d ds l new :
  chain t d ds → l ∉ ds → aget t new = Some 0 → 0 ≤ l < zlen t →
  chain (linked t l new) d ds.
Proof.
  intros Hd Hl Hfree Hlr. apply (chain_frame t); [|done]. intros x Hx.
  assert (x ≠ new) by (intros ->; by apply (chain_used _ _ _ _ Hd Hx)).
  rewrite linked_lookup, !decide_False; [done|set_solver|done|done|by eapply aget_lt_Some].
Qed.

(** How many entries are free. *)
Definition free_count (t : list Z) : nat := length (filter (λ v, v = 0) t).

Lemma free_count_insert (t : list Z) d v w :
  aget t d = Some v →
  (free_count (<[Z.to_nat d := w]> t) + (if decide (v = 0%Z) then 1 else 0)
   = free_count t + (if decide (w = 0%Z) then 1 else 0))%nat.
Proof.
  intros [Hd Hv]%aget_Some. unfold free_count.
  rewrite <-(take_drop_middle t (Z.to_nat d) v Hv) at 2.
  rewrite insert_take_drop by (by eapply lookup_lt_Some).
  rewrite !list.filter_app, !list.filter_cons, !length_app.
  repeat case_decide; simpl; lia.
Qed.

Lemma free_count_zero t : free_count t = 0%nat ↔ ∀ d, aget t d ≠ Some 0.
Proof.
  unfold free_count. rewrite length_zero_iff_nil. split.
  - intros Hf d [Hd Hv]%aget_Some. apply list_elem_of_lookup_2 in Hv.
    assert (0 ∈ filter (λ v, v = 0) t) as Hin by (by apply list_elem_of_filter).
    rewrite Hf in Hin. by apply not_elem_of_nil in Hin.
  - intros Hf. apply elem_of_nil_inv. intros x [-> Hin]%list_elem_of_filter.
    apply list_elem_of_lookup in Hin as [i Hi]. apply (Hf (Z.of_nat i)). by rewrite aget_of_nat.
Qed.

Lemma free_count_linked (t : list Z) l new v :
  aget t l = Some v → v ≠ 0 → aget t new = Some 0 → new ≠ 0 →
  free_count t = S (free_count (linked t l new)).
Proof.
  intros Hl Hv Hn Hn0. unfold linked.
  assert (aget (<[Z.to_nat l := new]> t) new = Some 0) as Hn'.
  { rewrite aget_insert, decide_False; [done|congruence|by eapply aget_lt_Some]. }
  pose proof (free_count_insert _ _ _ new Hl) as E1.
  pose proof (free_count_insert _ _ _ FAT16_CLUSTER_CHAIN_END Hn') as E2.
  unfold FAT16_CLUSTER_CHAIN_END in *. repeat case_decide; try lia; done.
Qed.

(** How many clusters the device has, and how many of them are free. *)
Definition clusters s : Z := (dev_size (disk s) - root_dir_start (fat16_fs s)) / spc s.
Definition room s : nat := free_count (take (Z.to_nat (clusters s)) (table s)).

Lemma on_device_clusters s c : fat_ok s → on_device s c ↔ 0 ≤ c < clusters s.
Proof.
  intros Hs. unfold on_device, clusters. pose proof (ok_spc s Hs).
  set (r := root_dir_start _). set (z := dev_size _).
  pose proof (Z.div_mod (z - r) (spc s) ltac:(lia)). pose proof (Z.mod_pos_bound (z - r) (spc s) ltac:(lia)).
  split; intros; nia.
Qed.

Lemma aget_take (t : list Z) n i : 0 ≤ i < Z.of_nat n → aget (take n t) i = aget t i.
Proof. intros Hi. unfold aget. rewrite !decide_True by lia. by rewrite lookup_take_lt by lia. Qed.

(** The lowest free cluster is on the device when any free cluster is. *)
Lemma room_first s new :
  fat_ok s → (0 < room s)%nat → aget (table s) new = Some 0 →
  (∀ j, 0 ≤ j < new → aget (table s) j ≠ Some 0) → on_device s new.
Proof.
  intros Hs Hr Hn Hlow. apply on_device_clusters; [done|]. pose proof (aget_lt_Some _ _ _ Hn).
  destruct (decide (new < clusters s)) as [|Hge]; [lia|]. exfalso.
  assert (room s = 0%nat) as E; [|lia]. unfold room. apply free_count_zero. intros d Hd.
  pose proof (aget_lt_Some _ _ _ Hd) as Hdl. rewrite length_take in Hdl.
  apply (Hlow d); [lia|]. rewrite aget_take in Hd by lia. done.
Qed.

Lemma room_none s : (∀ j, aget (table s) j ≠ Some 0) → room s = 0%nat.
Proof.
  intros Hno. unfold room. apply free_count_zero. intros d Hd.
  pose proof (aget_lt_Some _ _ _ Hd) as Hdl. rewrite length_take in Hdl.
  rewrite aget_take in Hd by lia. by apply (Hno d).
Qed.

Lemma room_linked g s s' l new v :
  fat_ok s → fat_upd (linked (table s) l new) g s s' →
  aget (table s) l = Some v → v ≠ 0 → aget (table s) new = Some 0 → new ≠ 0 →
  on_device s new → room s = S (room s').
Proof.
  intros Hs Hu Hl Hv Hn Hn0 Hd. unfold room, clusters.
  rewrite (upd_table _ _ _ _ Hu), (upd_size _ _ _ _ Hu), (upd_fs _ _ _ _ Hu), (upd_spc _ _ _ _ Hu).
  fold (clusters s). pose proof (ok_used s Hs l v Hl Hv) as Hdl.
  apply on_device_clusters in Hd, Hdl; [|done..].
  assert (linked (take (Z.to_nat (clusters s)) (table s)) l new
    = take (Z.to_nat (clusters s)) (linked (table s) l new)) as <-.
  { unfold linked. rewrite !take_insert_lt by lia. done. }
  apply (free_count_linked _ l new v); rewrite ?aget_take by lia; done.
Qed.

(** [s'] is [s] with the clusters [news], free before, appended to the chain [cs]
    of [c] and cleared. *)
Record appended (c : Z) (cs news : list Z) s s' : Prop := {
  app_ok : fat_ok s';
  app_fs : fat16_fs s' = fat16_fs s;
  app_root : root_dir s' = root_dir s;
  app_chain : chain (table s') c (cs ++ news);
  app_free : Forall (λ d, aget (table s) d = Some 0) news;
  app_others d ds : chain (table s) d ds → (∀ x, x ∈ ds → (x ∉ cs)) → chain (table s') d ds;
  app_unused d : aget (table s') d = Some 0 ↔ (d ∉ news) ∧ aget (table s) d = Some 0;
  app_size : dev_size (disk s') = dev_size (disk s);
  app_room : room s = (length news + room s')%nat;
  app_cleared d : d ∈ news → cluster_at s' d = replicate (Z.to_nat (512 * spc s)) 0;
  app_kept d : 0 ≤ d < zlen (table s) → d ∉ news → cluster_at s' d = cluster_at s d;
  app_synced : fat_synced s → fat_synced s';
}.

Lemma upd_appended s s' c cs l new :
  fat_ok s → chain (table s) c cs → last cs = Some l → aget (table s) new = Some 0 → 0 < new →
  on_device s new → fat_upd (linked (table s) l new) (with_zeroed s new) s s' → appended c cs [new] s s'.
Proof.
  intros Hs Hc Hl Hfree Hn Hdev Hu. pose proof (aget_lt_Some _ _ _ Hfree) as Hr.
  pose proof (upd_length _ _ _ _ Hs Hu) as Hlen. pose proof (ok_length s Hs). pose proof (ok_spf s Hs).
  pose proof (last_Some_elem_of _ _ Hl) as Hlin.
  pose proof (chain_in_range _ _ _ _ Hc Hlin) as Hlr.
  assert (room s = S (room s')) as Hroom.
  { destruct (chain_last_end _ _ _ _ Hc Hl) as (v & Ev & He).
    apply (room_linked (with_zeroed s new) s s' l new v); try done; [unfold is_end in He|]; lia. }
  destruct Hu as [Hok Hfs Hroot Ht Hsz Hcl Hsy]. split; try done.
  - rewrite Ht. apply chain_linked; try done; lia.
  - by repeat constructor.
  - intros d ds Hd Hdis. rewrite Ht. apply chain_linked_other; try done. intros Hld. by apply (Hdis l).
  - intros d. rewrite Ht, linked_lookup, list_elem_of_singleton by done. unfold FAT16_CLUSTER_CHAIN_END.
    pose proof (chain_used _ _ _ _ Hc Hlin). repeat case_decide; naive_solver lia.
  - intros d ->%list_elem_of_singleton. rewrite Hcl by lia. unfold with_zeroed. by rewrite decide_True.
  - intros d Hdr Hd%not_elem_of_cons. rewrite Hcl by lia. unfold with_zeroed.
    rewrite decide_False; [done|naive_solver].
Qed.

Lemma appended_trans c cs n1 n2 s s1 s2 :
  appended c cs n1 s s1 → appended c (cs ++ n1) n2 s1 s2 → fat_ok s → appended c cs (n1 ++ n2) s s2.
Proof.
  intros Ha Hb Hs.
  assert (spc s1 = spc s) as Hp by (unfold spc; by rewrite (app_fs _ _ _ _ _ Ha)).
  assert (zlen (table s1) = zlen (table s)) as Hlen.
  { pose proof (ok_length s Hs). pose proof (ok_length s1 (app_ok _ _ _ _ _ Ha)) as Hl.
    rewrite (app_fs _ _ _ _ _ Ha) in Hl. lia. }
  assert (∀ d, d ∈ n2 → (d ∉ n1) ∧ aget (table s) d = Some 0) as Hn2.
  { intros d Hd. pose proof (app_free _ _ _ _ _ Hb) as Hf. rewrite list.Forall_forall in Hf.
    by apply (proj1 (app_unused _ _ _ _ _ Ha d)), Hf. }
  assert (∀ d, d ∈ n1 → aget (table s) d = Some 0) as Hn1.
  { apply list.Forall_forall, (app_free _ _ _ _ _ Ha). }
  split.
  - apply Hb.
  - by rewrite (app_fs _ _ _ _ _ Hb), (app_fs _ _ _ _ _ Ha).
  - by rewrite (app_root _ _ _ _ _ Hb), (app_root _ _ _ _ _ Ha).
  - rewrite app_assoc. apply Hb.
  - apply Forall_app. rewrite !list.Forall_forall. naive_solver.
  - intros d ds Hd Hdis. apply (app_others _ _ _ _ _ Hb); [by apply (app_others _ _ _ _ _ Ha)|].
    intros x Hx. rewrite not_elem_of_app. split; [by apply Hdis|]. intros Hx1.
    apply (chain_used _ _ _ _ Hd Hx). by apply Hn1.
  - intros d. rewrite (app_unused _ _ _ _ _ Hb), (app_unused _ _ _ _ _ Ha), not_elem_of_app. tauto.
  - by rewrite (app_size _ _ _ _ _ Hb), (app_size _ _ _ _ _ Ha).
  - rewrite (app_room _ _ _ _ _ Ha), (app_room _ _ _ _ _ Hb), length_app. lia.
  - intros d. rewrite elem_of_app. intros [Hd|Hd].
    + rewrite (app_kept _ _ _ _ _ Hb).
      * by apply (app_cleared _ _ _ _ _ Ha).
      * rewrite Hlen. eapply aget_lt_Some. by apply Hn1.
      * intros Hd2. by destruct (Hn2 d Hd2).
    + rewrite (app_cleared _ _ _ _ _ Hb) by done. by rewrite Hp.
  - intros d Hd Hin. rewrite not_elem_of_app in Hin.
    rewrite (app_kept _ _ _ _ _ Hb), (app_kept _ _ _ _ _ Ha); naive_solver lia.
  - intros Hy. by apply (app_synced _ _ _ _ _ Hb), (app_synced _ _ _ _ _ Ha).
Qed.

(** *** Properties *)

(** Appending to a chain. *)
Lemma wp_append_cluster s c cs new n :
  fat_ok s → chain (table s) c cs → aget (table s) new = Some 0 → 0 < new → on_device s new →
  0 ≤ n → heap_room (heap_cost (512 * spc s) + n) (heap s) →
  wp (fat_update_chain c new)
     (λ _ s', appended c cs [new] s s' ∧ heap_room n (heap s')) s.
Proof.
  intros Hs Hc Hfree Hn0 Hdev Hn Hroom. destruct (chain_last _ _ _ Hc) as [l Hl].
  pose proof (last_Some_elem_of _ _ Hl) as Hlin. pose proof (chain_in_range _ _ _ _ Hc Hlin).
  eapply wp_update_chain; try done.
  - by eapply aget_lt_Some.
  - by eapply chain_on_device.
  - intros s1 Hs1. apply (before_last_chain s1 c cs); [by eapply fat_same_ok| |done|].
    + by rewrite (fat_same_table _ _ Hs1).
    + pose proof (chain_fuel s c cs Hs Hc). lia.
  - intros s' Hu Hr. split; [|done]. by eapply upd_appended.
Qed.

(** A new chain: fat_update_chain of a free cluster with itself. *)
Lemma wp_start_chain new n (Q : unit → fat_state D H → Prop) s :
  fat_ok s → aget (table s) new = Some 0 → 0 < new → on_device s new →
  0 ≤ n → heap_room (heap_cost (512 * spc s) + n) (heap s) →
  (∀ s', fat_upd (<[Z.to_nat new := FAT16_CLUSTER_CHAIN_END]> (table s)) (with_zeroed s new) s s' →
         heap_room n (heap s') → Q tt s') →
  wp (fat_update_chain new new) Q s.
Proof.
  intros Hs Hfree Hn0 Hdev Hn Hroom HQ. pose proof (aget_lt_Some _ _ _ Hfree).
  eapply (wp_update_chain new new new n); try done.
  - intros s1 Hs1. destruct CHAIN_FUEL_S as [k ->].
    erewrite iter_step; [|unfold before_last_step;
      rewrite (bind_done _ _ _ _ _ (fat_entry_done s1 new 0 ltac:(by rewrite (fat_same_table _ _ Hs1))));
      reflexivity].
    done.
  - intros s' Hu Hr. apply HQ; [|done]. unfold linked in Hu. by rewrite list_insert_insert_eq in Hu.
Qed.

(** *** Freeing a chain *)

(** [s'] is [s] with the entries in [cs] freed. *)
Record freed (cs : list Z) s s' : Prop := {
  freed_ok : fat_ok s';
  freed_fs : fat16_fs s' = fat16_fs s;
  freed_root : root_dir s' = root_dir s;
  freed_table d : aget (table s') d = if decide (d ∈ cs) then Some 0 else aget (table s) d;
  freed_cluster d : 0 ≤ d < zlen (table s) → cluster_at s' d = cluster_at s d;
  freed_heap : heap s' = heap s;
  freed_size : dev_size (disk s') = dev_size (disk s);
  freed_synced : fat_synced s → fat_synced s';
}.

Lemma upd_freed c s s' :
  fat_ok s → 0 ≤ c < zlen (table s) →
  fat_upd (<[Z.to_nat c := 0]> (table s)) (cluster_at s) s s' → heap s' = heap s → freed [c] s s'.
Proof.
  intros Hs Hc [Hok Hfs Hroot Ht Hsz Hcl Hsy] Hh. split; try done.
  - intros d. rewrite Ht, aget_insert by done.
    destruct (decide (c = d)) as [->|]; [by rewrite decide_True by set_solver|].
    by rewrite decide_False by set_solver.
  - intros d Hd. apply Hcl. by rewrite length_insert.
Qed.

Lemma freed_cons c cs s s1 s2 :
  fat_ok s → freed [c] s s1 → freed cs s1 s2 → freed (c :: cs) s s2.
Proof.
  intros Hs Ha Hb.
  assert (zlen (table s1) = zlen (table s)) as Hlen.
  { pose proof (ok_length s Hs). pose proof (ok_length s1 (freed_ok _ _ _ Ha)) as Hl.
    rewrite (freed_fs _ _ _ Ha) in Hl. lia. }
  destruct Ha as [? Hfs1 Hr1 Ht1 Hc1 Hh1 Hz1 Hy1], Hb as [Hok2 Hfs2 Hr2 Ht2 Hc2 Hh2 Hz2 Hy2].
  split; try done; try congruence; auto.
  - intros d. rewrite Ht2, Ht1. repeat case_decide; set_solver.
  - intros d Hd. rewrite Hc2 by lia. auto.
Qed.

Lemma wp_free_chain c cs fuel s (Q : unit → fat_state D H → Prop) :
  fat_ok s → chain (table s) c cs → (length cs ≤ fuel)%nat →
  (∀ s', freed cs s s' → Q tt s') →
  wp (last ← iter fuel free_chain_step c;
      _ ← set_fat_entry last FAT16_FREE_CLUSTER; _ ← write_fat_sector last; mret tt) Q s.
Proof.
  intros Hs Hc. revert s c Hs Hc fuel Q.
  induction cs as [|x cs IH]; intros s c Hs Hc fuel Q Hf HQ; [inversion Hc|].
  destruct fuel as [|fuel]; [simpl in Hf; lia|].
  assert (c = x) as -> by (by inversion Hc).
  pose proof (chain_in_range _ _ _ x Hc ltac:(set_solver)) as Hr.
  pose proof (chain_NoDup _ _ _ Hc) as [Hx Hnd]%NoDup_cons.
  inversion Hc as [c' v E He|c' v cs' E Hne Hnz Hc']; subst; clear Hc.
  - apply wp_bind. eapply wp_of_done.
    { erewrite iter_step; [|unfold free_chain_step;
        rewrite (bind_done _ _ _ _ _ (fat_entry_done s x v E)), walk_ends by done; reflexivity].
      reflexivity. }
    apply (wp_link_then x 0 (λ _, mret tt)); [done..|lia|]. intros s' Hu Hh. apply wp_ret, HQ.
    by apply upd_freed.
  - apply wp_bind. cbn [iter]. apply wp_bind. unfold free_chain_step at 1. apply wp_bind.
    eapply wp_fat_entry; [done|]. rewrite walk_goes_on by done.
    apply (wp_link_then x 0 (λ _, mret (inl v))); [done..|lia|]. intros s1 Hu Hh. apply wp_ret.
    pose proof (upd_freed x s s1 Hs Hr Hu Hh) as Hfr.
    apply wp_bind_inv. apply (IH s1 v); [apply Hfr| |simpl in Hf; lia|].
    + apply (chain_frame (table s)); [|done]. intros d Hd. rewrite (freed_table _ _ _ Hfr).
      rewrite decide_False by set_solver. done.
    + intros s2 Hs2. apply HQ. by eapply freed_cons.
Qed.

(** Freeing a whole chain. *)
Lemma wp_free_whole_chain s c cs :
  fat_ok s → chain (table s) c cs → wp (fat_free_chain c) (λ _ s', freed cs s s') s.
Proof.
  intros Hs Hc. unfold fat_free_chain. apply (wp_free_chain c cs); try done.
  pose proof (chain_fuel s c cs Hs Hc). lia.
Qed.

(** *** Growing a chain by several clusters *)

(** The first [a] free entries can be found: entry 0 is in use. *)
Lemma wp_allocate_rounds a e cs k news n fuel s0 s (Q : bool → fat_state D H → Prop) :
  fat_ok s0 → chain (table s0) (start_cluster e) cs → aget (table s0) 0 ≠ Some 0 →
  appended (start_cluster e) cs news s0 s → zlen news + Z.of_nat k = a → a < 65536 →
  (k ≤ room s)%nat → (k < fuel)%nat →
  0 ≤ n → heap_room (Z.of_nat k * heap_cost (512 * spc s0) + n) (heap s) →
  (∀ s' news', length news' = Z.to_nat a → appended (start_cluster e) cs news' s0 s' →
     heap_room n (heap s') → Q true s') →
  wp (iter fuel (allocate_step a (start_cluster e)) (zlen news)) Q s.
Proof.
  intros Hs0 Hc0 Hz. revert news s k Q.
  induction fuel as [|fuel IH]; intros news s k Q Ha Hk Hmax Hfree Hf Hn Hroom HQ; [lia|].
  cbn [iter]. apply wp_bind. unfold allocate_step at 1.
  rewrite (u32_small (zlen news)), (u32_small a) by lia.
  pose proof (app_ok _ _ _ _ _ Ha) as Hs. pose proof (app_chain _ _ _ _ _ Ha) as Hc.
  assert (spc s = spc s0) as Hp by (unfold spc; by rewrite (app_fs _ _ _ _ _ Ha)).
  destruct k as [|k].
  - rewrite decide_False by lia. apply wp_ret, wp_ret. apply (HQ _ news); [lia|done|].
    by replace n with (Z.of_nat 0 * heap_cost (512 * spc s0) + n) by lia.
  - rewrite decide_True by lia. apply wp_bind.
    destruct (fat_find_free_spec s Hs) as (r & E & Hr). apply (wp_of_done _ _ _ _ _ E).
    destruct Hr as [[-> Hno]|(Hr & Er & Hlow)].
    { apply room_none in Hno. lia. }
    assert (on_device s r) as Hdr by (apply room_first; done || lia).
    assert (aget (table s0) r = Some 0) as Er0 by (by apply (app_unused _ _ _ _ _ Ha)).
    assert (r ≠ 0) by (intros ->; done).
    rewrite decide_False by lia. apply wp_bind. destruct (chain_last _ _ _ Hc) as [l Hl].
    eapply wp_mono; [apply (wp_append_cluster s _ _ r (Z.of_nat k * heap_cost (512 * spc s0) + n) Hs Hc Er)|].
    + lia.
    + done.
    + pose proof (heap_cost_nonneg (512 * spc s0)). nia.
    + rewrite Hp. by replace (heap_cost (512 * spc s0) + (Z.of_nat k * heap_cost (512 * spc s0) + n))
        with (Z.of_nat (S k) * heap_cost (512 * spc s0) + n) by lia.
    + intros [] s' [Hap Hroom']. apply wp_ret. rewrite s32_small by lia.
      replace (zlen news + 1) with (zlen (news ++ [r])) by (rewrite length_app; simpl; lia).
      apply (IH (news ++ [r]) s' k); try done.
      * by eapply appended_trans.
      * rewrite length_app. simpl. lia.
      * pose proof (app_room _ _ _ _ _ Hap) as Hcnt. simpl in Hcnt. lia.
      * lia.
Qed.

(** Appending a number of clusters. *)
Lemma wp_allocate_space s e cs a n :
  fat_ok s → chain (table s) (start_cluster e) cs → aget (table s) 0 ≠ Some 0 →
  0 ≤ a → (Z.to_nat a ≤ room s)%nat →
  0 ≤ n → heap_room (a * heap_cost (512 * spc s) + n) (heap s) →
  wp (fat_allocate_space a e)
     (λ r s', r = true ∧ heap_room n (heap s') ∧
              ∃ news, length news = Z.to_nat a ∧ appended (start_cluster e) cs news s s') s.
Proof.
  intros Hs Hc Hz Ha Hfree Hn Hroom. unfold fat_allocate_space.
  pose proof (ok_length s Hs). pose proof (ok_spf s Hs).
  assert (room s ≤ length (table s))%nat as Hle.
  { unfold room, free_count. etrans; [apply length_filter|]. rewrite length_take. lia. }
  change 0 with (zlen (@nil Z)) at 1.
  apply (wp_allocate_rounds a e cs (Z.to_nat a) [] n _ s s); try done.
  - split; try done.
    + by rewrite app_nil_r.
    + set_solver.
    + set_solver.
  - simpl. lia.
  - lia.
  - pose proof CHAIN_FUEL_big. lia.
  - by rewrite Z2Nat.id.
  - intros s' news Hl Hap Hr. split; [done|]. split; [done|]. by exists news.
Qed.

(** fat_find_free returns the lowest free entry of the table, and -1 exactly
    when no entry is free; it changes nothing. *)
Theorem fat_find_free_lowest s :
  fat_ok s →
  wp fat_find_free (λ r s', s' = s ∧
    ((r = -1 ∧ ∀ j, aget (table s) j ≠ Some 0) ∨
     (0 ≤ r ∧ aget (table s) r = Some 0 ∧ ∀ j, 0 ≤ j < r → aget (table s) j ≠ Some 0))) s.
Proof.
  intros Hs. destruct (fat_find_free_spec s Hs) as (r & E & Hr).
  apply (wp_of_done _ _ _ _ _ E). naive_solver lia.
Qed.

(** on a chain, get_ith_cluster returns its i-th cluster, or -1 past the end,
    and fat_get_cluster_amount returns its length; neither changes anything. *)
Theorem fat_chain_walks s e cs i :
  fat_ok s → chain (table s) (start_cluster e) cs →
  get_ith_cluster (start_cluster e) i s = Done (default (-1) (cs !! i), s) ∧
  fat_get_cluster_amount e s = Done (zlen cs, s).
Proof.
  intros Hs Hc. split; [by apply get_ith_cluster_chain|by apply fat_get_cluster_amount_chain].
Qed.
(** fat_update_chain on a chain and a free cluster appends the cluster: the
    walk from the first cluster now visits the old clusters and then the new one,
    every chain that shares no cluster with it is as before, the new cluster
    reads as zeros, no other cluster changed, and the table on disk still equals
    the table in RAM. *)
Theorem fat_update_chain_appends s c cs new n :
  fat_ok s → chain (table s) c cs → aget (table s) new = Some 0 → 0 < new → on_device s new →
  0 ≤ n → heap_room (heap_cost (512 * spc s) + n) (heap s) →
  wp (fat_update_chain c new)
     (λ _ s', appended c cs [new] s s' ∧ heap_room n (heap s')) s.
Proof. apply wp_append_cluster. Qed.

(** C10: fat_free_chain frees exactly the clusters of the chain: their entries are
    zero afterwards, every other entry and every data cluster is unchanged (the
    data is not wiped), and the table on disk still equals the table in RAM. *)
Theorem fat_free_chain_frees s c cs :
  fat_ok s → chain (table s) c cs → wp (fat_free_chain c) (λ _ s', freed cs s s') s.
Proof. apply wp_free_whole_chain. Qed.

(** fat_allocate_space with enough free clusters returns true and appends
    exactly that many clusters to the chain of the entry, all of them free before
    and cleared now; other chains and clusters are untouched. *)
Theorem fat_allocate_space_appends s e cs a n :
  fat_ok s → chain (table s) (start_cluster e) cs → aget (table s) 0 ≠ Some 0 →
  0 ≤ a → (Z.to_nat a ≤ room s)%nat →
  0 ≤ n → heap_room (a * heap_cost (512 * spc s) + n) (heap s) →
  wp (fat_allocate_space a e)
     (λ r s', r = true ∧ heap_room n (heap s') ∧
              ∃ news, length news = Z.to_nat a ∧ appended (start_cluster e) cs news s s') s.
Proof. apply wp_allocate_space. Qed.
End chains.

(** ** The theorems at work on the example volume *)

Lemma fat_update_chain_appends_witness :
  wp (fat_update_chain 2 4)
     (λ _ s', appended 2 [2; 3] [4] Demo.state s' ∧ heap_room 0 (heap s')) Demo.state.
Proof.
  apply (fat_update_chain_appends Demo.state 2 [2; 3] 4 0);
    [apply Demo.state_ok|apply Demo.file_chain|vm_compute; reflexivity|lia|unfold on_device; cbn; lia|lia|].
  vm_compute. split; [congruence|done].
Defined.

Lemma fat_free_chain_frees_witness :
  wp (fat_free_chain 2) (λ _ s', freed [2; 3] Demo.state s') Demo.state.
Proof.
  apply (fat_free_chain_frees Demo.state 2 [2; 3]); [apply Demo.state_ok|apply Demo.file_chain].
Defined.

Lemma fat_allocate_space_appends_witness :
  wp (fat_allocate_space 3 (mkEntry [] 0 0 0 0 0 0 0 0 0 2 600))
     (λ r s', r = true ∧ heap_room 0 (heap s') ∧
        ∃ news, length news = Z.to_nat 3 ∧ appended 2 [2; 3] news Demo.state s') Demo.state.
Proof.
  apply (fat_allocate_space_appends Demo.state (mkEntry [] 0 0 0 0 0 0 0 0 0 2 600) [2; 3] 3 0);
    [apply Demo.state_ok|apply Demo.file_chain|vm_compute; congruence|lia| |lia|].
  - apply Nat.leb_le. vm_compute. reflexivity.
  - vm_compute. split; [congruence|done].
Defined.

Lemma fat_find_free_lowest_witness :
  wp fat_find_free (λ r s', s' = Demo.state ∧
    ((r = -1 ∧ ∀ j, aget (table Demo.state) j ≠ Some 0) ∨
     (0 ≤ r ∧ aget (table Demo.state) r = Some 0 ∧
      ∀ j, 0 ≤ j < r → aget (table Demo.state) j ≠ Some 0))) Demo.state.
Proof. apply fat_find_free_lowest, Demo.state_ok. Defined.

Lemma fat_chain_walks_witness :
  get_ith_cluster 2 1 Demo.state = Done (3, Demo.state) ∧
  fat_get_cluster_amount (mkEntry [] 0 0 0 0 0 0 0 0 0 2 600) Demo.state = Done (2, Demo.state).
Proof.
  exact (fat_chain_walks Demo.state (mkEntry [] 0 0 0 0 0 0 0 0 0 2 600) [2; 3] 1
           Demo.state_ok Demo.file_chain).
Defined.
