(* ===== verification/FatDir.v ===== *)
(** * The FAT16 driver, part 3: directories

    A directory is a chain of clusters full of 32-byte entries; a slot whose
    name starts with a zero byte is free.  The functions here read the clusters
    one after the other into a heap buffer and look for the first slot that
    matches.  The theorems relate them to a search in the flat list of slots
    ([dir_slots]) of the directory. *)

From S2P Require Import Prelude CString Interfaces FatTable FatChain.

(** ** Definitions *)

Section operations.
Context {D H : Type} `{BlockDevice D} `{KernelHeap H}.

(** [&dir[i]] as the bytes from there on. *)
Definition slot_ptr (dir : list Z) (i : Z) : list Z := drop (Z.to_nat (32 * i)) dir.

(** [for (dir_entry = 0; dir_entry < ...; dir_entry++)]: the first slot whose name
    compares equal, by the comparison the function uses. *)
Fixpoint scan_slots (cmp : list Z → outcome Z) (dir : list Z) (i : Z) (n : nat) : outcome (option Z) :=
  match n with
  | O => Done None
  | S n' =>
      r ← cmp (slot_ptr dir i);
      if decide (r = 0) then Done (Some i) else scan_slots cmp dir (i + 1) n'
  end.

Definition slots_per_cluster (fs : FAT16_FS) : nat :=
  Z.to_nat (Z.quot (bytes_per_sector fs) 32 * sectors_per_cluster fs).

(** The two comparisons: [strncmp] with FAT16_FILENAME_SIZE, and [strcmp]. *)
Definition cmp_name (name slot : list Z) : outcome Z := strncmp slot name (Z.to_nat FAT16_FILENAME_SIZE).
Definition cmp_whole_name (name slot : list Z) : outcome Z := strcmp slot name.

(** The opening lines the functions share: the heap buffer, cleared; [None] is
    the early return for a null table. *)
Definition dir_buffer : M (fat_state D H) (option (Z * list Z)) :=
  size ← gets cluster_bytes;
  p ← heap_alloc size;
  t ← gets fat_table;
  match t with
  | None => mret None
  | Some _ => buf ← cleared p size; mret (Some (p, buf))
  end.

(** One round of [while ((cluster_num = get_ith_cluster(start, i)) != -1)]: the
    loop goes on with the next [i], or ends because the chain did ([None]), the
    disk failed ([Some None]) or a slot matched ([Some (Some (cluster, slot, buffer))]). *)
Definition dir_round (cmp : list Z → outcome Z) (start : Z) (a : Z * list Z) :
    M (fat_state D H) ((Z * list Z) + option (option (Z * Z * list Z))) :=
  let '(i, buf) := a in
  cluster_num ← get_ith_cluster start (Z.to_nat i);
  if decide (cluster_num = -1) then mret (inr None) else
  '(code, buf) ← fat_read_data_cluster cluster_num buf;
  if decide (code ≠ 0) then mret (inr (Some None)) else
  fs ← gets fat16_fs;
  r ← liftO (scan_slots cmp buf 0 (slots_per_cluster fs));
  match r with
  | Some j => mret (inr (Some (Some (cluster_num, j, buf))))
  | None => mret (inl (i + 1, buf))
  end.

Definition dir_search (cmp : list Z → outcome Z) (start : Z) (buf : list Z) :
    M (fat_state D H) (option (option (Z * Z * list Z))) :=
  iter CHAIN_FUEL (dir_round cmp start) (0, buf).

(** The entry found, copied out before the buffer is freed.  The comparison is a
    parameter: the image builder has the same function over another C library. *)
Definition find_entry (cmp : list Z → outcome Z) (current_dir : FAT16_DirEntry) :
    M (fat_state D H) (option FAT16_DirEntry) :=
  b ← dir_buffer;
  match b with
  | None => mret None
  | Some (p, buf) =>
      r ← dir_search cmp (start_cluster current_dir) buf;
      _ ← heap_free p;
      match r with
      | Some (Some (_, j, buf)) => mret (Some (decode (take 32 (slot_ptr buf j))))
      | _ => mret None
      end
  end.
Definition fat_find_dir_entry (name : list Z) (current_dir : FAT16_DirEntry) :
    M (fat_state D H) (option FAT16_DirEntry) := find_entry (cmp_name name) current_dir.

(** [memcpy(&dir[j], new_entry, sizeof(FAT16_DirEntry))] *)
Definition put_slot (dir : list Z) (j : Z) (bytes : list Z) : list Z :=
  splice dir (Z.to_nat (32 * j)) bytes.

(** The parent is extended by a cluster when every slot is taken. *)
Definition add_entry (cmp : list Z → outcome Z) (parent_dir new_entry : FAT16_DirEntry) :
    M (fat_state D H) bool :=
  b ← dir_buffer;
  match b with
  | None => mret false
  | Some (p, buf) =>
      r ← dir_search cmp (start_cluster parent_dir) buf;
      match r with
      | Some None => _ ← heap_free p; mret false
      | Some (Some (cluster_num, j, buf)) =>
          code ← fat_write_data_cluster cluster_num (put_slot buf j (encode new_entry));
          _ ← heap_free p; mret (bool_decide (code = 0))
      | None =>
          new_fat_index ← fat_find_free;
          if decide (new_fat_index = -1) then _ ← heap_free p; mret false else
          _ ← fat_update_chain (start_cluster parent_dir) new_fat_index;
          '(code, buf) ← fat_read_data_cluster new_fat_index buf;
          if decide (code ≠ 0) then _ ← heap_free p; mret false else
          code ← fat_write_data_cluster new_fat_index (put_slot buf 0 (encode new_entry));
          _ ← heap_free p; mret (bool_decide (code = 0))
      end
  end.
Definition fat_add_dir_entry (parent_dir new_entry : FAT16_DirEntry) : M (fat_state D H) bool :=
  add_entry (cmp_name [0]) parent_dir new_entry.

Definition fat_update_dir_entry (name : list Z) (current_dir new_entry : FAT16_DirEntry) :
    M (fat_state D H) bool :=
  b ← dir_buffer;
  match b with
  | None => mret false
  | Some (p, buf) =>
      r ← dir_search (cmp_whole_name name) (start_cluster current_dir) buf;
      match r with
      | Some (Some (cluster_num, j, buf)) =>
          code ← fat_write_data_cluster cluster_num (put_slot buf j (encode new_entry));
          _ ← heap_free p; mret (bool_decide (code = 0))
      | _ => _ ← heap_free p; mret false
      end
  end.

Definition remove_entry (cmp : list Z → outcome Z) (current_dir : FAT16_DirEntry) (delete_chain : bool) :
    M (fat_state D H) bool :=
  b ← dir_buffer;
  match b with
  | None => mret false
  | Some (p, buf) =>
      r ← dir_search cmp (start_cluster current_dir) buf;
      match r with
      | Some (Some (cluster_num, j, buf)) =>
          _ ← (if delete_chain
               then fat_free_chain (start_cluster (decode (take 32 (slot_ptr buf j)))) else mret tt);
          _ ← fat_write_data_cluster cluster_num (put_slot buf j (replicate 32 0));
          _ ← heap_free p; mret true
      | _ => _ ← heap_free p; mret false
      end
  end.
Definition fat_remove_dir_entry (name : list Z) (current_dir : FAT16_DirEntry) (delete_chain : bool) :
    M (fat_state D H) bool := remove_entry (cmp_name name) current_dir delete_chain.

(** The slots of one cluster, [count] of them used so far: the [n]-th slot that
    is reached after [n] used ones. *)
Fixpoint nth_slot (n : Z) (dir : list Z) (i count : Z) (k : nat) : outcome (Z + Z) :=
  match k with
  | O => Done (inl count)
  | S k' =>
      if decide (count = n) then Done (inr i) else
      r ← cmp_name [0] (slot_ptr dir i);
      nth_slot n dir (i + 1) (if decide (r ≠ 0) then count + 1 else count) k'
  end.

Definition get_dir_entry_round (start n : Z) (a : Z * Z * list Z) :
    M (fat_state D H) ((Z * Z * list Z) + option (option FAT16_DirEntry)) :=
  let '(i, count, buf) := a in
  cluster_num ← get_ith_cluster start (Z.to_nat i);
  if decide (cluster_num = -1) then mret (inr None) else
  '(code, buf) ← fat_read_data_cluster cluster_num buf;
  if decide (code ≠ 0) then mret (inr (Some None)) else
  fs ← gets fat16_fs;
  r ← liftO (nth_slot n buf 0 count (slots_per_cluster fs));
  match r with
  | inr j => mret (inr (Some (Some (decode (take 32 (slot_ptr buf j))))))
  | inl count => mret (inl (i + 1, count, buf))
  end.

Definition EIO : Z := 5.
Definition ENOENT : Z := 2.
Definition EEXIST : Z := 17.
Definition EINVAL : Z := 22.
Definition ENOSPC : Z := 28.
Definition EISDIR : Z := 21.
Definition ENOTDIR : Z := 20.

(** Return code and entry; [n] is compared unsigned.  The buffer is not freed
    when the chain ends. *)
Definition fat_get_dir_entry (dir : FAT16_DirEntry) (n : Z) : M (fat_state D H) (Z * option FAT16_DirEntry) :=
  if decide (file_size dir ≤ u32 n) then mret (- ENOENT, None) else
  b ← dir_buffer;
  match b with
  | None => mret (0, None)
  | Some (p, buf) =>
      r ← iter CHAIN_FUEL (get_dir_entry_round (start_cluster dir) n) (0, 0, buf);
      match r with
      | None => mret (- ENOENT, None)
      | Some None => _ ← heap_free p; mret (- ENOSPC, None)
      | Some (Some e) => _ ← heap_free p; mret (0, Some e)
      end
  end.
End operations.

(** ** Slots *)

(** The [j]-th slot of a cluster, and the slots of a directory whose chain is
    [cs], in the order they are searched. *)
Definition slot (b : list Z) (j : nat) : list Z := take 32 (drop (32 * j) b).

Definition cluster_slots (b : list Z) : list (list Z) :=
  (λ j, slot b j) <$> seq 0 (length b / 32).

(** What the name comparison of [fat_find_dir_entry] accepts: the bytes of the
    name field and the attribute byte behind it, up to the first zero, are [n]
    (cut at twelve characters). *)
Definition slot_named (n sl : list Z) : Prop := cstr (take 12 sl) = take 12 n.
#[export] Instance slot_named_dec n sl : Decision (slot_named n sl).
Proof. unfold slot_named. apply _. Defined.

(** What [fat_update_dir_entry] accepts: the exact name. *)
Definition slot_named_exactly (n sl : list Z) : Prop := cstr (take (S (length n)) sl) = n.
#[export] Instance slot_named_exactly_dec n sl : Decision (slot_named_exactly n sl).
Proof. unfold slot_named_exactly. apply _. Defined.

Lemma slot_free_iff sl : length sl = 32%nat → slot_named [] sl ↔ ∃ t, sl = 0 :: t.
Proof.
  intros Hl. destruct sl as [|c sl]; [done|]. unfold slot_named. cbn [take cstr].
  case_decide; naive_solver.
Qed.

Lemma length_slot b j : (32 * j + 32 ≤ length b)%nat → length (slot b j) = 32%nat.
Proof. intros. unfold slot. rewrite length_take, length_drop. lia. Qed.

Lemma slot_ptr_slot b (j : nat) :
  slot_ptr b (Z.of_nat j) = drop (32 * j) b ∧ take 32 (slot_ptr b (Z.of_nat j)) = slot b j.
Proof. unfold slot_ptr, slot. by replace (Z.to_nat (32 * Z.of_nat j)) with (32 * j)%nat by lia. Qed.

Lemma cluster_slots_lookup b j :
  cluster_slots b !! j = if decide (j < length b / 32)%nat then Some (slot b j) else None.
Proof.
  unfold cluster_slots. rewrite list_lookup_fmap. case_decide.
  - rewrite lookup_seq_lt by done. done.
  - by rewrite lookup_seq_ge by lia.
Qed.

Lemma length_cluster_slots b : length (cluster_slots b) = (length b / 32)%nat.
Proof. unfold cluster_slots. by rewrite length_fmap, length_seq. Qed.

(** Writing a slot changes that slot only. *)
Lemma cluster_slots_put b (j : nat) e :
  length e = 32%nat → (j < length b / 32)%nat →
  cluster_slots (put_slot b (Z.of_nat j) e) = <[j := e]> (cluster_slots b).
Proof.
  intros He Hj. pose proof (Nat.div_mod_eq (length b) 32) as Hdm.
  unfold put_slot. replace (Z.to_nat (32 * Z.of_nat j)) with (32 * j)%nat by lia.
  assert (length (splice b (32 * j) e) = length b) as Hlen by (apply length_splice; lia).
  apply list_eq. intros k. rewrite cluster_slots_lookup, Hlen.
  destruct (decide (j = k)) as [<-|Hjk].
  - rewrite decide_True by done. rewrite list_lookup_insert_eq by (rewrite length_cluster_slots; lia).
    f_equal. unfold slot. rewrite <-He. apply take_drop_splice. lia.
  - rewrite list_lookup_insert_ne, cluster_slots_lookup by done. case_decide; [|done]. f_equal.
    unfold slot. apply list_eq. intros x. destruct (decide (x < 32)%nat).
    + rewrite !lookup_take_lt, !lookup_drop, lookup_splice by lia. rewrite decide_False; [done|lia].
    + by rewrite !lookup_take_ge by lia.
Qed.

(** Storing an entry at the start of a cleared cluster. *)
Lemma cleared_cluster_slots (n : nat) e :
  (0 < n)%nat → length e = 32%nat →
  cluster_slots (put_slot (replicate (512 * n) 0) 0 e) = e :: replicate (16 * n - 1) (replicate 32 0).
Proof.
  intros Hn He. set (z := replicate (512 * n) 0).
  assert (length z / 32 = 16 * n)%nat as Hz.
  { unfold z. rewrite length_replicate. replace (512 * n)%nat with (16 * n * 32)%nat by lia.
    by rewrite Nat.div_mul by lia. }
  change 0 with (Z.of_nat 0) at 1. rewrite cluster_slots_put by (done || lia).
  apply list_eq. intros k. destruct k as [|k].
  - rewrite list_lookup_insert_eq by (rewrite length_cluster_slots; lia). done.
  - rewrite list_lookup_insert_ne, cluster_slots_lookup, Hz, lookup_cons by done. case_decide.
    + rewrite lookup_replicate_2 by lia. f_equal. unfold slot, z. rewrite drop_replicate, take_replicate.
      f_equal. lia.
    + symmetry. apply lookup_ge_None. rewrite length_replicate. lia.
Qed.

(** A comparison that decides a property of the slot. *)
Definition decides (cmp : list Z → outcome Z) (P : list Z → Prop) : Prop :=
  ∀ b j, (32 * j + 32 ≤ length b)%nat →
    ∃ d, cmp (drop (32 * j) b) = Done d ∧ (d = 0 ↔ P (slot b j)).

Lemma take_slot b j n : (n ≤ 32)%nat → take n (slot b j) = take n (drop (32 * j) b).
Proof. intros. unfold slot. rewrite take_take. f_equal. lia. Qed.

Lemma cmp_name_decides n r : str_ok n → decides (cmp_name (n ++ 0 :: r)) (slot_named n).
Proof.
  intros Hn b j Hl. unfold cmp_name, slot_named.
  destruct (strncmp_field (drop (32 * j) b) n r (Z.to_nat FAT16_FILENAME_SIZE)) as (d & Hd & Hiff);
    [done|rewrite length_drop; unfold FAT16_FILENAME_SIZE; lia|].
  exists d. split; [done|]. by rewrite take_slot by lia.
Qed.

Lemma cmp_whole_name_decides n r :
  str_ok n → (length n < 32)%nat → decides (cmp_whole_name (n ++ 0 :: r)) (slot_named_exactly n).
Proof.
  intros Hn Hn' b j Hl. unfold cmp_whole_name, slot_named_exactly.
  destruct (strcmp_field (drop (32 * j) b) n r) as (d & Hd & Hiff);
    [done|rewrite length_drop; lia|].
  exists d. split; [done|]. by rewrite take_slot by lia.
Qed.

Lemma list_find_seq_shift {A} (P : A → Prop) `{∀ x, Decision (P x)} (l : list A) x :
  list_find P (x :: l) = if decide (P x) then Some (0%nat, x) else prod_map S id <$> list_find P l.
Proof. done. Qed.

(** The inner loop is the search in the slots of the buffer. *)
Lemma scan_slots_spec cmp P `{∀ x, Decision (P x)} b i n :
  decides cmp P → (32 * (i + n) ≤ length b)%nat →
  scan_slots cmp b (Z.of_nat i) n
    = Done ((λ p, Z.of_nat (i + p.1)) <$> list_find P ((λ j, slot b j) <$> seq i n)).
Proof.
  intros Hc. revert i. induction n as [|n IH]; intros i Hl; cbn [scan_slots seq fmap list_fmap]; [done|].
  destruct (slot_ptr_slot b i) as [-> _]. destruct (Hc b i) as (d & -> & Hd); [lia|].
  cbn [mbind outcome_bind]. rewrite list_find_seq_shift. destruct (decide (P (slot b i))) as [Hp|Hp].
  - rewrite decide_True by tauto. cbn. do 2 f_equal. lia.
  - rewrite decide_False by tauto.
    replace (Z.of_nat i + 1) with (Z.of_nat (S i)) by lia. rewrite IH by lia.
    f_equal. rewrite <-option_fmap_compose. apply option_fmap_ext. intros [k x]. simpl. lia.
Qed.

Section specs.
Context {D H : Type} `{BlockDeviceLaws D} `{KernelHeapLaws H}.
Implicit Types s : fat_state D H.

(** The search: the first slot with [P] in the clusters [cs], with the cluster
    it is in and that cluster's bytes. *)
Fixpoint dir_find (P : list Z → Prop) `{∀ x, Decision (P x)} s (cs : list Z) : option (Z * nat * list Z) :=
  match cs with
  | [] => None
  | c :: cs' =>
      match list_find P (cluster_slots (cluster_at s c)) with
      | Some (j, _) => Some (c, j, cluster_at s c)
      | None => dir_find P s cs'
      end
  end.

(** The slots of the directory whose chain is [cs]. *)
Definition dir_slots s (cs : list Z) : list (list Z) :=
  concat ((λ c, cluster_slots (cluster_at s c)) <$> cs).

Definition found_at (r : option (Z * nat * list Z)) : option (option (Z * Z * list Z)) :=
  match r with
  | None => None
  | Some (c, j, b) => Some (Some (c, Z.of_nat j, b))
  end.

Lemma slots_per_cluster_ok s c :
  fat_ok s → slots_per_cluster (fat16_fs s) = (length (cluster_at s c) / 32)%nat ∧
             (32 * (length (cluster_at s c) / 32) ≤ length (cluster_at s c))%nat.
Proof.
  intros Hs. rewrite length_cluster_at by done. unfold slots_per_cluster.
  rewrite (ok_bps s Hs). fold (spc s). pose proof (ok_spc s Hs). change (Z.quot 512 32) with 16.
  replace (512 * Z.to_nat (spc s))%nat with (16 * Z.to_nat (spc s) * 32)%nat by lia.
  rewrite Nat.div_mul by lia. lia.
Qed.

Lemma wp_dir_round cmp P `{∀ x, Decision (P x)} c cs (i : nat) buf
    (Q : (Z * list Z) + option (option (Z * Z * list Z)) → fat_state D H → Prop) s :
  fat_ok s → chain (table s) c cs → decides cmp P → zlen buf = 512 * spc s →
  match cs !! i with
  | None => Q (inr None) s
  | Some cl => ∀ s', fat_same s s' → heap s' = heap s →
      Q (match list_find P (cluster_slots (cluster_at s cl)) with
         | Some (j, _) => inr (Some (Some (cl, Z.of_nat j, cluster_at s cl)))
         | None => inl (Z.of_nat (S i), cluster_at s cl)
         end) s'
  end →
  wp (dir_round cmp c (Z.of_nat i, buf)) Q s.
Proof.
  intros Hs Hc Hcmp Hb HQ. unfold dir_round. apply wp_bind.
  rewrite Nat2Z.id. eapply wp_of_done; [by apply get_ith_cluster_chain|].
  destruct (cs !! i) as [cl|] eqn:Ecl; cbn [default from_option id].
  - assert (cl ∈ cs) as Hin by (by eapply list_elem_of_lookup_2).
    pose proof (chain_in_range _ _ _ _ Hc Hin). rewrite decide_False by lia.
    apply wp_bind, wp_read_cluster; [done|by eapply chain_on_device|done|]. intros s' Hs' Hh. cbv beta iota.
    rewrite decide_False by lia. wp_steps. rewrite (same_fs _ _ Hs').
    destruct (slots_per_cluster_ok s cl Hs) as [-> Hle].
    eapply wp_liftO.
    { apply (scan_slots_spec cmp P (cluster_at s cl) 0); [done|]. by rewrite Nat.add_0_l. }
    fold (cluster_slots (cluster_at s cl)). specialize (HQ s' Hs' Hh).
    destruct (list_find P (cluster_slots (cluster_at s cl))) as [[j x]|]; cbn; [done|].
    replace (Z.of_nat i + 1) with (Z.of_nat (S i)) by lia. done.
  - rewrite decide_True by done. done.
Qed.

Lemma wp_dir_search cmp P `{∀ x, Decision (P x)} c cs buf
    (Q : option (option (Z * Z * list Z)) → fat_state D H → Prop) s :
  fat_ok s → chain (table s) c cs → decides cmp P → zlen buf = 512 * spc s →
  (∀ s', fat_same s s' → heap s' = heap s → Q (found_at (dir_find P s cs)) s') →
  wp (dir_search cmp c buf) Q s.
Proof.
  intros Hs Hc Hcmp Hb HQ. unfold dir_search.
  assert (∀ suf pre fuel s1 buf1, cs = pre ++ suf → (length suf < fuel)%nat →
    fat_same s s1 → heap s1 = heap s → zlen buf1 = 512 * spc s →
    (∀ s', fat_same s s' → heap s' = heap s → Q (found_at (dir_find P s suf)) s') →
    wp (iter fuel (dir_round cmp c) (Z.of_nat (length pre), buf1)) Q s1) as Hloop.
  { clear HQ buf Hb. induction suf as [|cl suf IH];
      intros pre fuel s1 buf1 Hcs Hf Hs1 Hh1 Hb1 HQ; (destruct fuel as [|fuel]; [lia|]);
      cbn [iter]; apply wp_bind;
      (eapply (wp_dir_round cmp P c cs); [by eapply fat_same_ok|by rewrite (fat_same_table _ _ Hs1)|done|
         by rewrite (fat_same_spc _ _ Hs1)|]).
    - rewrite lookup_ge_None_2 by (rewrite Hcs, length_app; simpl; lia). apply wp_ret. by apply HQ.
    - rewrite Hcs, list_lookup_middle by done. intros s2 Hs2 Hh2.
      rewrite (fat_same_cluster _ _ cl Hs1). cbn [dir_find] in HQ.
      assert (fat_same s s2) by (by etrans). assert (heap s2 = heap s) by congruence.
      destruct (list_find P (cluster_slots (cluster_at s cl))) as [[j x]|] eqn:Ef.
      + apply wp_ret. by apply HQ.
      + replace (S (length pre)) with (length (pre ++ [cl])) by (rewrite length_app; simpl; lia).
        apply IH; [by rewrite Hcs, <-app_assoc|simpl in Hf; lia|done|done| |done].
        rewrite length_cluster_at by done. pose proof (ok_spc s Hs). lia. }
  apply (Hloop cs [] _ s buf); try done. apply (chain_fuel s c cs Hs Hc).
Qed.

(** [dir_find] is the first match in the flat list of slots. *)
Lemma dir_find_slots P `{∀ x, Decision (P x)} s cs :
  (λ r, slot r.2 r.1.2) <$> dir_find P s cs = snd <$> list_find P (dir_slots s cs).
Proof.
  unfold dir_slots. induction cs as [|c cs IH]; cbn [dir_find fmap list_fmap concat]; [done|].
  destruct (list_find P (cluster_slots (cluster_at s c))) as [[j x]|] eqn:Ef.
  - erewrite list_find_app_l by done. cbn.
    apply list_find_Some in Ef as (Hx & _). rewrite cluster_slots_lookup in Hx. case_decide; naive_solver.
  - rewrite list_find_app_r by done. rewrite IH. rewrite <-option_fmap_compose.
    destruct (list_find P _) as [[k y]|]; done.
Qed.

(** Where a match is: its cluster, its slot and its place in the flat list. *)
Lemma dir_find_Some P `{∀ x, Decision (P x)} s cs c j b :
  dir_find P s cs = Some (c, j, b) →
  ∃ pre suf, cs = pre ++ c :: suf ∧ b = cluster_at s c ∧ (j < length b / 32)%nat ∧
    P (slot b j) ∧ list_find P (dir_slots s cs) = Some ((length (dir_slots s pre) + j)%nat, slot b j).
Proof.
  induction cs as [|c' cs IH]; cbn [dir_find]; [done|].
  destruct (list_find P (cluster_slots (cluster_at s c'))) as [[k x]|] eqn:Ef.
  - intros [= <- <- <-]. exists [], cs. pose proof Ef as Ef'.
    apply list_find_Some in Ef as (Hx & Hp & _). rewrite cluster_slots_lookup in Hx.
    case_decide; [|done]. simplify_eq. split_and!; try done.
    unfold dir_slots. cbn [fmap list_fmap concat length]. by erewrite list_find_app_l by done.
  - intros (pre & suf & -> & -> & Hj & Hp & Hfind)%IH. exists (c' :: pre), suf.
    split_and!; try done. unfold dir_slots in *. cbn [fmap list_fmap concat app].
    rewrite list_find_app_r by done. rewrite Hfind. cbn. rewrite length_app. do 2 f_equal. lia.
Qed.

Lemma dir_find_None P `{∀ x, Decision (P x)} s cs :
  dir_find P s cs = None ↔ list_find P (dir_slots s cs) = None.
Proof.
  pose proof (dir_find_slots P s cs) as E.
  destruct (dir_find P s cs), (list_find P (dir_slots s cs)); naive_solver.
Qed.

(** *** The shared opening and closing lines *)

Lemma wp_dir_buffer n (Q : option (Z * list Z) → fat_state D H → Prop) s :
  fat_ok s → 0 ≤ n → heap_room (heap_cost (512 * spc s) + n) (heap s) →
  (∀ p buf s', p ≠ 0 → zlen buf = 512 * spc s → fat_same s s' → heap_room n (heap s') →
     Q (Some (p, buf)) s') →
  wp dir_buffer Q s.
Proof.
  intros Hs Hn Hroom HQ. unfold dir_buffer. wp_steps. pose proof (ok_spc s Hs).
  rewrite cluster_bytes_spc by done. eapply wp_heap_alloc; [lia|done|done|].
  intros p s' Hp Hs' _ Hr. wp_steps. rewrite (same_table _ _ Hs').
  destruct (ok_table s Hs) as [t ->]. wp_steps. unfold cleared. rewrite decide_False by done. wp_steps.
  apply HQ; try done. rewrite length_replicate. lia.
Qed.

(** [s'] has the same table; the directory [cs] has the slot [k] replaced, the
    clusters outside it are as before. *)
Record slot_written (cs : list Z) (k : nat) (bytes : list Z) s s' : Prop := {
  sw_ok : fat_ok s';
  sw_fs : fat16_fs s' = fat16_fs s;
  sw_root : root_dir s' = root_dir s;
  sw_table : table s' = table s;
  sw_size : dev_size (disk s') = dev_size (disk s);
  sw_slots : dir_slots s' cs = <[k := bytes]> (dir_slots s cs);
  sw_others c : 0 ≤ c < zlen (table s) → c ∉ cs → cluster_at s' c = cluster_at s c;
  sw_synced : fat_synced s → fat_synced s';
  sw_front : front_kept s s';
}.

Lemma dir_slots_frame s s' cs :
  (∀ c, c ∈ cs → cluster_at s' c = cluster_at s c) → dir_slots s' cs = dir_slots s cs.
Proof.
  intros Hf. unfold dir_slots. f_equal. apply list_fmap_ext. intros i c Hc.
  rewrite Hf; [done|]. by eapply list_elem_of_lookup_2.
Qed.

Lemma dir_slots_app s cs1 cs2 : dir_slots s (cs1 ++ cs2) = dir_slots s cs1 ++ dir_slots s cs2.
Proof. unfold dir_slots. by rewrite fmap_app, concat_app. Qed.

Lemma dir_slots_put s s' pre c suf j e :
  fat_ok s → NoDup (pre ++ c :: suf) → length e = 32%nat → (j < length (cluster_at s c) / 32)%nat →
  cluster_at s' c = put_slot (cluster_at s c) (Z.of_nat j) e →
  (∀ c', c' ∈ pre ++ c :: suf → c' ≠ c → cluster_at s' c' = cluster_at s c') →
  dir_slots s' (pre ++ c :: suf)
    = <[(length (dir_slots s pre) + j)%nat := e]> (dir_slots s (pre ++ c :: suf)).
Proof.
  intros Hs Hnd He Hj Hc Hf. apply list.NoDup_app in Hnd as (_ & Hpre & [Hsuf _]%NoDup_cons).
  rewrite !dir_slots_app. change (c :: suf) with ([c] ++ suf). rewrite !dir_slots_app.
  rewrite insert_app_r. f_equal.
  { apply dir_slots_frame. intros c' Hc'. apply Hf; [set_solver|]. intros ->. apply (Hpre c Hc'). set_solver. }
  rewrite insert_app_l.
  2: { unfold dir_slots. simpl. rewrite app_nil_r, length_cluster_slots. done. }
  f_equal.
  - unfold dir_slots. simpl. rewrite !app_nil_r, Hc. by apply cluster_slots_put.
  - apply dir_slots_frame. intros c' Hc'. apply Hf; [set_solver|]. intros ->. done.
Qed.

Lemma put_slot_length b j e :
  (j < length b / 32)%nat → length e = 32%nat → length (put_slot b (Z.of_nat j) e) = length b.
Proof.
  intros Hj He. unfold put_slot. apply length_splice. pose proof (Nat.div_mod_eq (length b) 32). lia.
Qed.

Lemma put_slot_bytes b j e :
  Forall is_byte b → Forall is_byte e → Forall is_byte (put_slot b j e).
Proof.
  intros Hb He. unfold put_slot, splice. rewrite !Forall_app. split; [|split; [done|]].
  - by apply Forall_take.
  - by apply Forall_drop.
Qed.

(** Writing back the cluster a search stopped at. *)
Lemma wp_put_found P `{∀ x, Decision (P x)} c0 cs c j b e
    (Q : Z → fat_state D H → Prop) s s1 :
  fat_ok s → chain (table s) c0 cs → dir_find P s cs = Some (c, j, b) → fat_same s s1 →
  length e = 32%nat → Forall is_byte e →
  (∀ s' k x, list_find P (dir_slots s cs) = Some (k, x) → x = slot b j →
     slot_written cs k e s s' → heap s' = heap s1 → Q 0 s') →
  wp (fat_write_data_cluster c (put_slot b (Z.of_nat j) e)) Q s1.
Proof.
  intros Hs Hc Hfind Hs1 He Heb HQ.
  destruct (dir_find_Some _ _ _ _ _ _ Hfind) as (pre & suf & Hcs & -> & Hj & Hp & Hk).
  assert (c ∈ cs) as Hin by (rewrite Hcs; set_solver).
  pose proof (chain_in_range _ _ _ _ Hc Hin) as Hr.
  pose proof (fat_same_ok _ _ Hs1 Hs) as Hok1.
  assert (zlen (put_slot (cluster_at s c) (Z.of_nat j) e) = 512 * spc s) as Hl.
  { rewrite put_slot_length, length_cluster_at by done. pose proof (ok_spc s Hs). lia. }
  apply wp_write_cluster; [done|by eapply same_on_device, chain_on_device|by rewrite (fat_same_spc _ _ Hs1)| |].
  { apply put_slot_bytes; [by apply cluster_at_bytes|done]. }
  intros s2 Hu Hh Hfront. eapply HQ; [done|done| |done].
  destruct (fat_upd_trans _ _ _ _ _ _ _ (fat_same_upd _ _ Hs Hs1) Hu) as [Hok Hfs Hroot Ht Hsz Hcl Hsy].
  rewrite (fat_same_table _ _ Hs1) in Ht, Hcl.
  split; try done.
  - rewrite Hcs. apply dir_slots_put; try done.
    + rewrite <-Hcs. by eapply chain_NoDup.
    + rewrite Hcl by done. by rewrite decide_True.
    + intros c' Hc' Hne. rewrite Hcl.
      * rewrite decide_False by done. by apply fat_same_cluster.
      * rewrite <-Hcs in Hc'. by eapply chain_in_range.
  - intros c' Hc' Hnin. rewrite Hcl by done. rewrite decide_False by set_solver. by apply fat_same_cluster.
  - intros k Hkr. rewrite Hfront by (by rewrite (same_fs _ _ Hs1)). apply (same_content _ _ Hs1).
Qed.

Lemma fat_same_trans_upd t g s s1 s2 : fat_upd t g s s1 → fat_same s1 s2 → fat_upd t g s s2.
Proof.
  intros Hu Hs. eapply fat_upd_trans; [exact Hu|].
  pose proof (fat_same_upd _ _ (upd_ok _ _ _ _ Hu) Hs) as Hu2.
  rewrite (upd_table _ _ _ _ Hu) in Hu2. eapply fat_upd_ext; [|exact Hu2].
  intros c Hc. by apply Hu.
Qed.

Lemma slot_written_same cs k e s s1 s2 : slot_written cs k e s s1 → fat_same s1 s2 → slot_written cs k e s s2.
Proof.
  intros [Hok Hfs Hr Ht Hsz Hsl Ho Hsy Hfr] Hs. split.
  - by eapply fat_same_ok.
  - by rewrite (same_fs _ _ Hs).
  - by rewrite (same_root _ _ Hs).
  - by rewrite (fat_same_table _ _ Hs).
  - by rewrite (same_size _ _ Hs).
  - rewrite <-Hsl. apply dir_slots_frame. intros. by apply fat_same_cluster.
  - intros c Hc Hn. rewrite (fat_same_cluster _ _ _ Hs). by apply Ho.
  - intros Hy. apply (upd_synced _ _ _ _ (fat_same_upd _ _ Hok Hs)). by apply Hsy.
  - intros k' Hk'. by rewrite (same_content _ _ Hs), Hfr.
Qed.

Lemma same_slot_written cs k e s s1 s2 :
  fat_ok s → fat_same s s1 → slot_written cs k e s1 s2 → slot_written cs k e s s2.
Proof.
  intros Hs Hs1 [Hok Hfs Hr Ht Hsz Hsw Ho Hsy Hfr]. split; try done.
  - by rewrite Hfs, (same_fs _ _ Hs1).
  - by rewrite Hr, (same_root _ _ Hs1).
  - by rewrite Ht, (fat_same_table _ _ Hs1).
  - by rewrite Hsz, (same_size _ _ Hs1).
  - rewrite Hsw. f_equal. apply dir_slots_frame. intros. by apply fat_same_cluster.
  - intros c' Hc' Hn'. rewrite Ho by (rewrite ?(fat_same_table _ _ Hs1); done). by apply fat_same_cluster.
  - intros Hy. apply Hsy, (upd_synced _ _ _ _ (fat_same_upd _ _ Hs Hs1)), Hy.
  - intros k' Hk'. rewrite Hfr by (by rewrite (same_fs _ _ Hs1)). apply (same_content _ _ Hs1).
Qed.

(** *** Finding *)

Lemma wp_find_entry cmp P `{∀ x, Decision (P x)} dir cs n (Q : option FAT16_DirEntry → fat_state D H → Prop) s :
  fat_ok s → chain (table s) (start_cluster dir) cs → decides cmp P →
  0 ≤ n → heap_room (heap_cost (512 * spc s) + n) (heap s) →
  (∀ s', fat_same s s' → heap_room n (heap s') →
     Q ((λ p, decode p.2) <$> list_find P (dir_slots s cs)) s') →
  wp (find_entry cmp dir) Q s.
Proof.
  intros Hs Hc Hcmp Hn0 Hroom HQ. unfold find_entry.
  apply wp_bind. eapply wp_dir_buffer; [done|exact Hn0|done|].
  intros p buf s1 Hp Hb Hs1 Hr1. cbv beta iota. apply wp_bind.
  eapply (wp_dir_search _ P _ cs); [by eapply fat_same_ok|
    by rewrite (fat_same_table _ _ Hs1)|done|by rewrite (fat_same_spc _ _ Hs1)|].
  intros s2 Hs2 Hh2. apply wp_bind. eapply wp_heap_free; [by rewrite Hh2|].
  intros s3 Hs3 _ Hr3. assert (fat_same s s3) as Hs03 by (do 2 (etrans; [eassumption|]); done).
  assert (dir_slots s1 cs = dir_slots s cs) as Hsl.
  { apply dir_slots_frame. intros. by apply fat_same_cluster. }
  pose proof (dir_find_slots P s1 cs) as Hf. rewrite Hsl in Hf.
  specialize (HQ s3 Hs03 Hr3).
  destruct (dir_find P s1 cs) as [[[c j] b]|] eqn:Ed; cbn [found_at] in *; apply wp_ret.
  - destruct (slot_ptr_slot b j) as [_ ->].
    destruct (list_find P (dir_slots s cs)) as [[k x]|]; [|done].
    cbn in Hf. injection Hf as <-. exact HQ.
  - destruct (list_find P (dir_slots s cs)) as [[k x]|]; [done|exact HQ].
Qed.

Lemma wp_find_dir_entry nm r dir cs n (Q : option FAT16_DirEntry → fat_state D H → Prop) s :
  fat_ok s → chain (table s) (start_cluster dir) cs → str_ok nm →
  0 ≤ n → heap_room (heap_cost (512 * spc s) + n) (heap s) →
  (∀ s', fat_same s s' → heap_room n (heap s') →
     Q ((λ p, decode p.2) <$> list_find (slot_named nm) (dir_slots s cs)) s') →
  wp (fat_find_dir_entry (nm ++ 0 :: r) dir) Q s.
Proof. intros. eapply wp_find_entry; try done. by apply cmp_name_decides. Qed.

(** fat_find_dir_entry returns the first slot of the directory, in chain
    order, whose name matches, decoded, or reports failure exactly when no slot
    of the directory matches; the file system is unchanged. *)
Theorem fat_find_dir_entry_first nm r dir cs n s :
  fat_ok s → chain (table s) (start_cluster dir) cs → str_ok nm →
  0 ≤ n → heap_room (heap_cost (512 * spc s) + n) (heap s) →
  wp (fat_find_dir_entry (nm ++ 0 :: r) dir)
     (λ res s', res = (λ p, decode p.2) <$> list_find (slot_named nm) (dir_slots s cs) ∧
                fat_same s s' ∧ heap_room n (heap s')) s.
Proof. intros. eapply wp_find_dir_entry; try done. Qed.

(** *** Adding *)

Lemma wp_add_entry_slot cmp P `{∀ x, Decision (P x)} dir e cs k x n (Q : bool → fat_state D H → Prop) s :
  fat_ok s → chain (table s) (start_cluster dir) cs → entry_ok e → decides cmp P →
  list_find P (dir_slots s cs) = Some (k, x) →
  0 ≤ n → heap_room (heap_cost (512 * spc s) + n) (heap s) →
  (∀ s', slot_written cs k (encode e) s s' → heap_room n (heap s') → Q true s') →
  wp (add_entry cmp dir e) Q s.
Proof.
  intros Hs Hc He Hcmp Hk Hn0 Hroom HQ. unfold add_entry.
  apply wp_bind. eapply wp_dir_buffer; [done|exact Hn0|done|].
  intros p buf s1 Hp Hb Hs1 Hr1. cbv beta iota. apply wp_bind.
  eapply (wp_dir_search _ P _ cs); [by eapply fat_same_ok|
    by rewrite (fat_same_table _ _ Hs1)|done|by rewrite (fat_same_spc _ _ Hs1)|].
  intros s2 Hs2 Hh2. assert (fat_same s s2) as Hs02 by (by etrans).
  assert (dir_slots s1 cs = dir_slots s cs) as Hsl.
  { apply dir_slots_frame. intros. by apply fat_same_cluster. }
  destruct (dir_find P s1 cs) as [[[c j] b]|] eqn:Ed; cbn [found_at].
  - apply wp_bind. eapply (wp_put_found P _ cs c j b _ _ s1); try done.
    + by eapply fat_same_ok.
    + by rewrite (fat_same_table _ _ Hs1).
    + apply length_encode, He.
    + by apply encode_bytes.
    + intros s3 k' x' Hk' -> Hw Hh3. rewrite Hsl, Hk in Hk'. simplify_eq.
      apply wp_bind. eapply wp_heap_free; [by rewrite Hh3, Hh2|]. intros s4 Hs4 _ Hr4. apply wp_ret.
      rewrite bool_decide_eq_true_2 by done. apply HQ; [|done].
      eapply slot_written_same; [|done]. by apply (same_slot_written _ _ _ s s1).
  - apply dir_find_None in Ed. rewrite Hsl in Ed. congruence.
Qed.

Lemma wp_add_dir_entry_slot dir e cs k x n (Q : bool → fat_state D H → Prop) s :
  fat_ok s → chain (table s) (start_cluster dir) cs → entry_ok e →
  list_find (slot_named []) (dir_slots s cs) = Some (k, x) →
  0 ≤ n → heap_room (heap_cost (512 * spc s) + n) (heap s) →
  (∀ s', slot_written cs k (encode e) s s' → heap_room n (heap s') → Q true s') →
  wp (fat_add_dir_entry dir e) Q s.
Proof. intros. eapply wp_add_entry_slot; try done. apply (cmp_name_decides [] []), str_ok_nil. Qed.

(** when the directory has a free slot, fat_add_dir_entry returns true and
    stores the entry in the first one; every other slot of the directory, every
    cluster outside it and the allocation table keep their contents. *)
Theorem fat_add_dir_entry_first_free dir e cs k x n s :
  fat_ok s → chain (table s) (start_cluster dir) cs → entry_ok e →
  list_find (slot_named []) (dir_slots s cs) = Some (k, x) →
  0 ≤ n → heap_room (heap_cost (512 * spc s) + n) (heap s) →
  wp (fat_add_dir_entry dir e)
     (λ ok s', ok = true ∧ slot_written cs k (encode e) s s' ∧ heap_room n (heap s')) s.
Proof. intros. eapply wp_add_dir_entry_slot; try done. Qed.

(** C11: An entry that was added is found: in a directory that has a free slot, after
    adding an entry (a file, with attribute 0, or any whose name is shorter than 11
    characters) under a name that matched no slot before, looking the name up returns
    exactly the entry that was added. *)
Theorem fat_add_then_find dir e cs k x nm r n s :
  fat_ok s → chain (table s) (start_cluster dir) cs → entry_ok e →
  list_find (slot_named []) (dir_slots s cs) = Some (k, x) →
  str_ok nm → nm ≠ [] → cstr (name e ++ [attr e]) = nm →
  list_find (slot_named nm) (dir_slots s cs) = None →
  0 ≤ n → heap_room (heap_cost (512 * spc s) + (heap_cost (512 * spc s) + n)) (heap s) →
  wp (ok ← fat_add_dir_entry dir e; found ← fat_find_dir_entry (nm ++ 0 :: r) dir; mret (ok, found))
     (λ res s', res = (true, Some e) ∧ heap_room n (heap s')) s.
Proof.
  intros Hs Hc He Hk Hnm Hne Hname Hnone Hn Hroom. apply wp_bind.
  pose proof (heap_cost_nonneg (512 * spc s)).
  eapply (wp_add_dir_entry_slot dir e cs k x (heap_cost (512 * spc s) + n)); try done; [lia|].
  intros s1 Hw Hr1. pose proof (sw_ok _ _ _ _ _ Hw) as Hok1.
  assert (spc s1 = spc s) as Hp by (unfold spc; by rewrite (sw_fs _ _ _ _ _ Hw)).
  apply wp_bind. eapply (wp_find_dir_entry nm r dir cs n); [done| |done|done|by rewrite Hp|].
  { by rewrite (sw_table _ _ _ _ _ Hw). }
  intros s2 Hs2 Hr2. apply wp_ret. split; [|done]. do 2 f_equal. rewrite (sw_slots _ _ _ _ _ Hw).
  pose proof Hk as Hk'. apply list_find_Some in Hk' as (Hx & Hfree & _).
  assert (list_find (slot_named nm) (<[k := encode e]> (dir_slots s cs)) = Some (k, encode e)) as ->.
  { apply list_find_insert_Some. right. left. split_and!; try done.
    - by eapply lookup_lt_Some.
    - unfold slot_named. destruct (eo_name _ He) as [Hl _].
      assert (length nm ≤ 12)%nat.
      { rewrite <-Hname. etrans; [apply cstr_length|]. rewrite length_app, Hl. simpl. lia. }
      rewrite (take_ge nm), <-Hname by lia. f_equal. unfold encode.
      destruct (list_11 _ Hl) as (? & ? & ? & ? & ? & ? & ? & ? & ? & ? & ? & E). by rewrite E.
    - intros i z Hz _ Hzn. apply list_find_None in Hnone. rewrite Forall_lookup in Hnone.
      by apply (Hnone i z). }
  cbn. by rewrite decode_encode.
Qed.

(** *** A directory without a free slot *)

(** when every slot of the directory is taken and a cluster is free,
    fat_add_dir_entry returns true, appends that cluster to the directory's chain
    and stores the entry in its first slot: the directory's slots are the old
    ones, the new entry, and free slots. *)
Theorem fat_add_dir_entry_extends dir e cs n s :
  fat_ok s → chain (table s) (start_cluster dir) cs → entry_ok e →
  list_find (slot_named []) (dir_slots s cs) = None →
  aget (table s) 0 ≠ Some 0 → (0 < room s)%nat →
  0 ≤ n → heap_room (heap_cost (512 * spc s) + (heap_cost (512 * spc s) + n)) (heap s) →
  wp (fat_add_dir_entry dir e)
     (λ ok s', ok = true ∧ heap_room n (heap s') ∧ fat_ok s' ∧
        ∃ new, aget (table s) new = Some 0 ∧ (∀ d, aget (table s) d = Some 0 → new ≤ d) ∧
          chain (table s') (start_cluster dir) (cs ++ [new]) ∧
          dir_slots s' (cs ++ [new])
            = dir_slots s cs ++ encode e :: replicate (16 * Z.to_nat (spc s) - 1) (replicate 32 0) ∧
          ∀ d, 0 ≤ d < zlen (table s) → d ≠ new → cluster_at s' d = cluster_at s d) s.
Proof.
  intros Hs Hc He Hfull Hz0 Hfree Hn0 Hroom. unfold fat_add_dir_entry, add_entry.
  pose proof (heap_cost_nonneg (512 * spc s)) as Hcost. pose proof (ok_spc s Hs) as Hspc.
  apply wp_bind. eapply (wp_dir_buffer (heap_cost (512 * spc s) + n)); [done|lia|done|].
  intros p buf s1 Hp Hb Hs1 Hr1. cbv beta iota. apply wp_bind.
  pose proof (fat_same_ok _ _ Hs1 Hs) as Hok1. pose proof (fat_same_table _ _ Hs1) as Ht1.
  pose proof (fat_same_spc _ _ Hs1) as Hp1.
  eapply (wp_dir_search _ (slot_named []) _ cs); [done|by rewrite Ht1|
    apply (cmp_name_decides [] []), str_ok_nil|by rewrite Hp1|].
  intros s2 Hs2 Hh2. assert (fat_same s s2) as Hs02 by (by etrans).
  assert (dir_slots s1 cs = dir_slots s cs) as Hsl.
  { apply dir_slots_frame. intros. by apply fat_same_cluster. }
  rewrite (proj2 (dir_find_None (slot_named []) s1 cs)) by (by rewrite Hsl). cbn [found_at].
  pose proof (fat_same_ok _ _ Hs02 Hs) as Hok2. pose proof (fat_same_table _ _ Hs02) as Ht2.
  pose proof (fat_same_spc _ _ Hs02) as Hp2.
  apply wp_bind. destruct (fat_find_free_spec s2 Hok2) as (new & E & Hnew).
  apply (wp_of_done _ _ _ _ _ E). rewrite Ht2 in Hnew.
  destruct Hnew as [[-> Hno]|(Hr & Er & Hlow)]; [by apply (room_none s) in Hno; lia|].
  assert (on_device s new) as Hdev by (by apply room_first).
  assert (on_device s2 new) as Hdev2 by (by eapply same_on_device).
  assert (new ≠ 0) by congruence. rewrite decide_False by lia.
  apply wp_bind. eapply wp_mono; [apply (wp_append_cluster s2 _ cs new n)|];
    [done|by rewrite Ht2|by rewrite Ht2|lia|done|done|by rewrite Hp2, Hh2|].
  intros [] s3 [Hap Hr3]. pose proof (app_ok _ _ _ _ _ Hap) as Hok3.
  assert (spc s3 = spc s) as Hp3 by (rewrite <-Hp2; unfold spc; by rewrite (app_fs _ _ _ _ _ Hap)).
  assert (zlen (table s3) = zlen (table s)) as Hlen3.
  { pose proof (ok_length s3 Hok3) as Hl. rewrite (app_fs _ _ _ _ _ Hap), (same_fs _ _ Hs02) in Hl.
    pose proof (ok_length s Hs). lia. }
  assert (on_device s3 new) as Hdev3.
  { eapply on_device_eq; [apply Hap|apply Hap|done]. }
  apply wp_bind, wp_read_cluster; [done|done|by rewrite Hp3|]. intros s4 Hs4 Hh4. cbv beta iota.
  rewrite decide_False by lia. apply wp_bind.
  assert (cluster_at s3 new = replicate (512 * Z.to_nat (spc s)) 0) as ->.
  { rewrite (app_cleared _ _ _ _ _ Hap) by set_solver. rewrite Hp2. f_equal. lia. }
  pose proof (length_encode e (proj1 (eo_name _ He))) as Hel.
  apply wp_write_cluster.
  { by eapply fat_same_ok. }
  { by eapply same_on_device. }
  { unfold put_slot. rewrite length_splice, length_replicate, (fat_same_spc _ _ Hs4); [lia|].
    rewrite length_replicate. lia. }
  { apply put_slot_bytes; [apply zeros_bytes|by apply encode_bytes]. }
  intros s5 Hu5 Hh5 _. apply wp_bind. eapply wp_heap_free; [by rewrite Hh5, Hh4|].
  intros s6 Hs6 _ Hr6. apply wp_ret. rewrite bool_decide_eq_true_2 by done.
  assert (∀ d, 0 ≤ d < zlen (table s) → d ≠ new → cluster_at s6 d = cluster_at s d) as Hkept.
  { intros d Hd Hdn. rewrite (fat_same_cluster _ _ _ Hs6), (upd_cluster _ _ _ _ Hu5), decide_False,
      (fat_same_cluster _ _ _ Hs4), (app_kept _ _ _ _ _ Hap), (fat_same_cluster _ _ _ Hs02);
      rewrite ?(fat_same_table _ _ Hs4), ?Ht2; try done; try lia. set_solver. }
  split_and!; try done.
  { eapply fat_same_ok; [done|]. apply Hu5. }
  exists new. split; [done|]. split.
  { intros d Hd. destruct (decide (new ≤ d)); [done|]. destruct (Hlow d); [|done].
    apply aget_lt_Some in Hd. lia. }
  split.
  { rewrite (fat_same_table _ _ Hs6), (upd_table _ _ _ _ Hu5), (fat_same_table _ _ Hs4). apply Hap. }
  split; [|done].
  rewrite dir_slots_app. f_equal.
  - apply dir_slots_frame. intros d Hd. apply Hkept; [by eapply chain_in_range|].
    intros ->. by apply (chain_used _ _ _ _ Hc Hd).
  - unfold dir_slots. cbn [fmap list_fmap concat]. rewrite app_nil_r.
    rewrite (fat_same_cluster _ _ _ Hs6), (upd_cluster _ _ _ _ Hu5), decide_True
      by (rewrite ?(fat_same_table _ _ Hs4); done || lia).
    apply cleared_cluster_slots; [lia|done].
Qed.

(** *** Replacing and removing *)

Lemma wp_update_dir_entry nm r dir e cs n (Q : bool → fat_state D H → Prop) s :
  fat_ok s → chain (table s) (start_cluster dir) cs → entry_ok e → str_ok nm → (length nm < 32)%nat →
  0 ≤ n → heap_room (heap_cost (512 * spc s) + n) (heap s) →
  (∀ s', heap_room n (heap s') →
     match list_find (slot_named_exactly nm) (dir_slots s cs) with
     | Some (k, _) => slot_written cs k (encode e) s s' → Q true s'
     | None => fat_same s s' → Q false s'
     end) →
  wp (fat_update_dir_entry (nm ++ 0 :: r) dir e) Q s.
Proof.
  intros Hs Hc He Hnm Hlen Hn0 Hroom HQ. unfold fat_update_dir_entry.
  apply wp_bind. eapply wp_dir_buffer; [done|exact Hn0|done|].
  intros p buf s1 Hp Hb Hs1 Hr1. cbv beta iota. apply wp_bind.
  pose proof (fat_same_ok _ _ Hs1 Hs) as Hok1. pose proof (fat_same_table _ _ Hs1) as Ht1.
  eapply (wp_dir_search _ (slot_named_exactly nm) _ cs); [done|by rewrite Ht1|
    by apply cmp_whole_name_decides|by rewrite (fat_same_spc _ _ Hs1)|].
  intros s2 Hs2 Hh2. assert (fat_same s s2) as Hs02 by (by etrans).
  assert (dir_slots s1 cs = dir_slots s cs) as Hsl.
  { apply dir_slots_frame. intros. by apply fat_same_cluster. }
  destruct (dir_find (slot_named_exactly nm) s1 cs) as [[[c j] b]|] eqn:Ed; cbn [found_at].
  - apply wp_bind. eapply (wp_put_found (slot_named_exactly nm) _ cs c j b _ _ s1); try done.
    + by rewrite Ht1.
    + apply length_encode, He.
    + by apply encode_bytes.
    + intros s3 k x Hk -> Hw Hh3. rewrite Hsl in Hk.
      apply wp_bind. eapply wp_heap_free; [by rewrite Hh3, Hh2|]. intros s4 Hs4 _ Hr4. apply wp_ret.
      rewrite bool_decide_eq_true_2 by done. specialize (HQ s4 Hr4). rewrite Hk in HQ. apply HQ.
      eapply slot_written_same; [|done]. by apply (same_slot_written _ _ _ s s1).
  - apply dir_find_None in Ed. rewrite Hsl in Ed. apply wp_bind.
    eapply wp_heap_free; [by rewrite Hh2|]. intros s3 Hs3 _ Hr3. apply wp_ret.
    specialize (HQ s3 Hr3). rewrite Ed in HQ. apply HQ. by etrans.
Qed.

(** [s'] is [s] with the slot [k] of the directory [cs] cleared and the clusters
    [fs] free. *)
Record removed (cs fs : list Z) (k : nat) s s' : Prop := {
  rm_ok : fat_ok s';
  rm_fs : fat16_fs s' = fat16_fs s;
  rm_root : root_dir s' = root_dir s;
  rm_table d : aget (table s') d = if decide (d ∈ fs) then Some 0 else aget (table s) d;
  rm_slots : dir_slots s' cs = <[k := replicate 32 0]> (dir_slots s cs);
  rm_others c : 0 ≤ c < zlen (table s) → c ∉ cs → cluster_at s' c = cluster_at s c;
  rm_synced : fat_synced s → fat_synced s';
}.

(** A chain freed and then a slot cleared. *)
Lemma freed_then_cleared cs fs pre c suf j start s s2 s3 s5 :
  fat_ok s → chain (table s) start cs → cs = pre ++ c :: suf → fat_same s s2 → freed fs s2 s3 →
  (j < length (cluster_at s c) / 32)%nat →
  fat_upd (table s3) (λ d, if decide (d = c) then put_slot (cluster_at s c) (Z.of_nat j) (replicate 32 0) else cluster_at s3 d) s3 s5 →
  removed cs fs (length (dir_slots s pre) + j) s s5.
Proof.
  intros Hs Hc Hcs Hs2 Hfr Hj [Hok5 Hfs5 Hroot5 Ht5 Hsz5 Hcl5 Hsy5]. pose proof (fat_same_table _ _ Hs2) as Ht2.
  assert (zlen (table s3) = zlen (table s)) as Hlen3.
  { pose proof (ok_length s3 (freed_ok _ _ _ Hfr)) as Hl. rewrite (freed_fs _ _ _ Hfr), (same_fs _ _ Hs2) in Hl.
    pose proof (ok_length s Hs). lia. }
  assert (∀ d, 0 ≤ d < zlen (table s) → cluster_at s3 d = cluster_at s d) as Hc3.
  { intros d Hd. rewrite (freed_cluster _ _ _ Hfr) by (by rewrite Ht2). by apply fat_same_cluster. }
  assert (c ∈ cs) as Hin by (rewrite Hcs; set_solver). pose proof (chain_in_range _ _ _ _ Hc Hin) as Hr.
  split; try done.
  - by rewrite Hfs5, (freed_fs _ _ _ Hfr), (same_fs _ _ Hs2).
  - by rewrite Hroot5, (freed_root _ _ _ Hfr), (same_root _ _ Hs2).
  - intros d. by rewrite Ht5, (freed_table _ _ _ Hfr), Ht2.
  - rewrite Hcs. apply dir_slots_put; try done.
    + rewrite <-Hcs. by eapply chain_NoDup.
    + rewrite Hcl5 by lia. by rewrite decide_True.
    + intros c' Hc' Hne. rewrite <-Hcs in Hc'. pose proof (chain_in_range _ _ _ _ Hc Hc').
      rewrite Hcl5 by lia. rewrite decide_False by done. by apply Hc3.
  - intros d Hd Hnin. rewrite Hcl5 by lia. rewrite decide_False by set_solver. by apply Hc3.
  - intros Hy. apply Hsy5, (freed_synced _ _ _ Hfr), (upd_synced _ _ _ _ (fat_same_upd _ _ Hs Hs2)), Hy.
Qed.

(** C12: fat_remove_dir_entry with delete_chain finds the first slot of that name,
    frees the chain the slot starts and clears the slot: every other slot, every
    other table entry and every cluster outside the directory is unchanged, and
    the table on disk still equals the table in RAM. *)
Theorem fat_remove_dir_entry_removes nm r dir cs k x fs n s :
  fat_ok s → chain (table s) (start_cluster dir) cs → str_ok nm →
  list_find (slot_named nm) (dir_slots s cs) = Some (k, x) →
  chain (table s) (start_cluster (decode x)) fs →
  0 ≤ n → heap_room (heap_cost (512 * spc s) + n) (heap s) →
  wp (fat_remove_dir_entry (nm ++ 0 :: r) dir true)
     (λ ok s', ok = true ∧ removed cs fs k s s' ∧ heap_room n (heap s')) s.
Proof.
  intros Hs Hc Hnm Hk Hfs Hn0 Hroom. unfold fat_remove_dir_entry, remove_entry.
  apply wp_bind. eapply wp_dir_buffer; [done|exact Hn0|done|].
  intros p buf s1 Hp Hb Hs1 Hr1. cbv beta iota. apply wp_bind.
  pose proof (fat_same_ok _ _ Hs1 Hs) as Hok1. pose proof (fat_same_table _ _ Hs1) as Ht1.
  eapply (wp_dir_search _ (slot_named nm) _ cs); [done|by rewrite Ht1|
    by apply cmp_name_decides|by rewrite (fat_same_spc _ _ Hs1)|].
  intros s2 Hs2 Hh2. assert (fat_same s s2) as Hs02 by (by etrans).
  assert (dir_slots s1 cs = dir_slots s cs) as Hsl.
  { apply dir_slots_frame. intros. by apply fat_same_cluster. }
  destruct (dir_find (slot_named nm) s1 cs) as [[[c j] b]|] eqn:Ed; cbn [found_at].
  2: { apply dir_find_None in Ed. rewrite Hsl in Ed. congruence. }
  destruct (dir_find_Some _ _ _ _ _ _ Ed) as (pre & suf & Hcs & -> & Hj & _ & Hk').
  rewrite Hsl, Hk in Hk'. injection Hk' as Hkeq ->.
  assert (c ∈ cs) as Hin by (rewrite Hcs; set_solver).
  pose proof (chain_in_range _ _ _ _ Hc Hin) as Hr. apply wp_bind.
  destruct (slot_ptr_slot (cluster_at s1 c) j) as [_ ->].
  pose proof (fat_same_ok _ _ Hs02 Hs) as Hok2. pose proof (fat_same_table _ _ Hs02) as Ht2.
  eapply wp_mono; [apply (wp_free_whole_chain s2 _ fs); [done|by rewrite Ht2]|].
  intros [] s3 Hfr. pose proof (freed_ok _ _ _ Hfr) as Hok3.
  assert (zlen (table s3) = zlen (table s)) as Hlen3.
  { pose proof (ok_length s3 Hok3) as Hl. rewrite (freed_fs _ _ _ Hfr), (same_fs _ _ Hs02) in Hl.
    pose proof (ok_length s Hs). lia. }
  assert (spc s3 = spc s) as Hp3 by (unfold spc; by rewrite (freed_fs _ _ _ Hfr), (same_fs _ _ Hs02)).
  pose proof (ok_spc s Hs). apply wp_bind. apply wp_write_cluster; [done| | | |].
  { pose proof (chain_on_device _ _ _ _ Hs Hc Hin) as Hd. eapply on_device_eq; [| |exact Hd].
    - by rewrite (freed_fs _ _ _ Hfr), (same_fs _ _ Hs02).
    - by rewrite (freed_size _ _ _ Hfr), (same_size _ _ Hs02). }
  { rewrite put_slot_length, length_cluster_at, (fat_same_spc _ _ Hs1), Hp3 by done. lia. }
  { apply put_slot_bytes; [by apply cluster_at_bytes|apply zeros_bytes]. }
  intros s4 Hu4 Hh4 _. apply wp_bind. eapply wp_heap_free; [by rewrite Hh4, (freed_heap _ _ _ Hfr), Hh2|].
  intros s5 Hs5 _ Hr5. apply wp_ret. split; [done|]. split; [|done].
  pose proof (fat_same_trans_upd _ _ _ _ _ Hu4 Hs5) as Hu5.
  rewrite (fat_same_cluster _ _ c Hs1) in Hu5. rewrite (fat_same_cluster _ _ c Hs1) in Hj.
  rewrite Hkeq, (dir_slots_frame s s1) by (intros; by apply fat_same_cluster). by eapply freed_then_cleared.
Qed.
End specs.

(** ** The theorems at work on the example volume *)

(** A second file for the root directory. *)
Definition file_b : FAT16_DirEntry := mkEntry [66; 0; 0; 0; 0; 0; 0; 0; 0; 0; 0] 0 0 0 0 0 0 0 0 0 4 0.
Lemma file_b_ok : entry_ok file_b.
Proof. split; cbn; unfold is_byte; try lia. split; [done|by_decide]. Qed.

Lemma fat_find_dir_entry_first_witness :
  wp (fat_find_dir_entry ([65] ++ [0]) Demo.root)
     (λ res s', res = (λ p, decode p.2) <$> list_find (slot_named [65]) (dir_slots Demo.state [0]) ∧
                fat_same Demo.state s' ∧ heap_room 0 (heap s')) Demo.state.
Proof.
  apply (fat_find_dir_entry_first [65] [] Demo.root [0] 0 Demo.state);
    [apply Demo.state_ok|apply Demo.root_chain|by_decide|lia|vm_compute; split; [congruence|done]].
Defined.

Lemma fat_add_dir_entry_first_free_witness :
  wp (fat_add_dir_entry Demo.root file_b)
     (λ ok s', ok = true ∧ slot_written [0] 1 (encode file_b) Demo.state s' ∧ heap_room 0 (heap s'))
     Demo.state.
Proof.
  apply (fat_add_dir_entry_first_free Demo.root file_b [0] 1 (replicate 32 0) 0 Demo.state);
    [apply Demo.state_ok|apply Demo.root_chain|apply file_b_ok|vm_compute; reflexivity|lia|
     vm_compute; split; [congruence|done]].
Defined.

Lemma fat_add_then_find_witness :
  wp (ok ← fat_add_dir_entry Demo.root file_b;
      found ← fat_find_dir_entry ([66] ++ [0]) Demo.root; mret (ok, found))
     (λ res s', res = (true, Some file_b) ∧ heap_room 0 (heap s')) Demo.state.
Proof.
  apply (fat_add_then_find Demo.root file_b [0] 1 (replicate 32 0) [66] [] 0 Demo.state);
    [apply Demo.state_ok|apply Demo.root_chain|apply file_b_ok|vm_compute; reflexivity|by_decide|done|
     vm_compute; reflexivity|vm_compute; reflexivity|lia|vm_compute; split; [congruence|done]].
Defined.

Lemma fat_add_dir_entry_extends_witness :
  wp (fat_add_dir_entry Demo.root file_b)
     (λ ok s', ok = true ∧ heap_room 0 (heap s') ∧ fat_ok s' ∧
        ∃ new, aget (table Demo.full) new = Some 0 ∧ (∀ d, aget (table Demo.full) d = Some 0 → new ≤ d) ∧
          chain (table s') 0 ([0] ++ [new]) ∧
          dir_slots s' ([0] ++ [new]) = dir_slots Demo.full [0] ++ encode file_b ::
            replicate (16 * Z.to_nat (spc Demo.full) - 1) (replicate 32 0) ∧
          ∀ d, 0 ≤ d < zlen (table Demo.full) → d ≠ new → cluster_at s' d = cluster_at Demo.full d)
     Demo.full.
Proof.
  apply (fat_add_dir_entry_extends Demo.root file_b [0] 0 Demo.full);
    [apply Demo.full_ok|apply Demo.root_chain|apply file_b_ok|vm_compute; reflexivity|
     vm_compute; congruence|apply Nat.ltb_lt; vm_compute; reflexivity|lia|vm_compute; split; [congruence|done]].
Defined.

Lemma fat_remove_dir_entry_removes_witness :
  wp (fat_remove_dir_entry ([65] ++ [0]) Demo.root true)
     (λ ok s', ok = true ∧ removed [0] [2; 3] 0 Demo.state s' ∧ heap_room 0 (heap s')) Demo.state.
Proof.
  apply (fat_remove_dir_entry_removes [65] [] Demo.root [0] 0 (encode Demo.file_a) [2; 3] 0 Demo.state);
    [apply Demo.state_ok|apply Demo.root_chain|by_decide|vm_compute; reflexivity|apply Demo.file_chain|
     lia|vm_compute; split; [congruence|done]].
Defined.
