(* ===== verification/FatPath.v ===== *)
(** * The FAT16 driver, part 4: paths

    Path resolution, the split of a path into parent and base name, and the
    operations that take paths: create, delete, rename and the queries.  A path
    is the memory from its pointer on: its characters, a zero byte, whatever
    follows in the array. *)

From S2P Require Import Prelude CString Interfaces FatTable FatChain FatDir.

(** ** Definitions *)

Definition SLASH : Z := 47.
Definition TILDE : Z := 126.
Definition DOT : Z := 46.

Record FileData := mkFileData { file_entry : FAT16_DirEntry; parent_entry : FAT16_DirEntry }.

Section operations.
Context {D H : Type} `{BlockDevice D} `{KernelHeap H}.

(** [while (index - start_index <= 11 && path[index] != '/' && index < path_len) ++index] *)
Fixpoint component_end (path : list Z) (path_len start_index index : Z) (fuel : nat) : outcome Z :=
  if decide (11 < index - start_index) then Done index else
  match fuel with
  | O => Timeout
  | S fuel' =>
      c ← of_option (aget path index);
      if decide (c ≠ SLASH ∧ index < path_len)
      then component_end path path_len start_index (index + 1) fuel' else Done index
  end.

(** One round of the resolution: the directory reached so far and [sub_name]. *)
Definition path_round (path : list Z) (path_len : Z) (a : Z * FAT16_DirEntry * list Z) :
    M (fat_state D H) ((Z * FAT16_DirEntry * list Z) + (Z + FAT16_DirEntry)) :=
  let '(start_index, curr_dir_entry, sub_name) := a in
  index ← liftO (component_end path path_len start_index start_index 13);
  if decide (11 < index - start_index) then mret (inr (inl (- EINVAL))) else
  sub_name ← liftO (memset sub_name 0 FAT16_FILENAME_SIZE);
  sub_name ← liftO (strncpy sub_name (drop (Z.to_nat start_index) path) (Z.to_nat (index - start_index)));
  if decide (start_index = 0) then
    d1 ← liftO (strncmp sub_name [0] 11);
    d2 ← liftO (if decide (d1 ≠ 0) then strncmp sub_name [TILDE; 0] 11 else Done 0);
    if decide (d1 ≠ 0 ∧ d2 ≠ 0) then mret (inr (inl (- ENOENT)))
    else mret (inl (index + 1, curr_dir_entry, sub_name))
  else if decide (path_len - 1 ≤ index) then
    r ← fat_find_dir_entry sub_name curr_dir_entry;
    match r with
    | None => mret (inr (inl (- ENOENT)))
    | Some e => mret (inr (inr e))
    end
  else if decide (Z.land (attr curr_dir_entry) FAT_ATTR_DIRECTORY = 0) then mret (inr (inl (- ENOENT)))
  else
    r ← fat_find_dir_entry sub_name curr_dir_entry;
    match r with
    | None => mret (inr (inl (- ENOENT)))
    | Some e => mret (inl (index + 1, e, sub_name))
    end.

(** The error code, or the entry. *)
Definition fat_find_dir_entry_from_path (path : list Z) : M (fat_state D H) (Z + FAT16_DirEntry) :=
  root ← gets root_dir;
  path_len ← liftO (strlen path);
  d1 ← liftO (strncmp path [TILDE; SLASH; 0] 3);
  d2 ← liftO (if decide (d1 = 0) then Done 0 else strncmp path [SLASH; 0] 2);
  d3 ← liftO (if decide (d1 = 0 ∨ d2 = 0) then Done 0 else strncmp path [DOT; SLASH; 0] 3);
  if decide (d1 = 0 ∨ d2 = 0 ∨ d3 = 0) then mret (inr root) else
  iter (Z.to_nat path_len + 2) (path_round path path_len) (0, root, replicate 12 0).

(** *** Names *)

(** Letters, digits, '-', '_' and '.' only. *)
Fixpoint legal_chars (file_name : list Z) : outcome bool :=
  match file_name with
  | [] => Fault
  | c :: rest =>
      if decide (c = 0) then Done true else
      if decide (isalnum c ≠ 0 ∨ c = 45 ∨ c = 95 ∨ c = DOT) then legal_chars rest else Done false
  end.

Definition check_file_name (file_name : list Z) : outcome bool :=
  ok ← legal_chars file_name;
  if negb ok then Done false else
  d1 ← strcmp file_name [0];
  d2 ← strcmp file_name [DOT; 0];
  d3 ← strcmp file_name [DOT; DOT; 0];
  d4 ← strcmp file_name [TILDE; 0];
  Done (bool_decide (d1 ≠ 0 ∧ d2 ≠ 0 ∧ d3 ≠ 0 ∧ d4 ≠ 0)).

Definition PATH_COPY : list Z := replicate 1024 0.

(** The array [parent_dir] after the call. *)
Definition get_parent_dir (path parent_dir : list Z) : outcome (list Z) :=
  path_copy ← strcpy PATH_COPY path;
  last_slash ← strrchr path_copy SLASH;
  let path_copy := match last_slash with Some i => <[i := 0]> path_copy | None => path_copy end in
  n ← strlen path_copy;
  if decide (n = 0) then strcpy parent_dir [SLASH; 0] else strcpy parent_dir path_copy.

Definition get_base_name (path name : list Z) : outcome (list Z) :=
  path_copy ← strcpy PATH_COPY path;
  last_slash ← strrchr path_copy SLASH;
  match last_slash with
  | Some i => strcpy name (drop (S i) (<[i := 0]> path_copy))
  | None => strcpy name path_copy
  end.

(** *** Entries with some fields changed *)

Definition set_name (n : list Z) (e : FAT16_DirEntry) : FAT16_DirEntry :=
  mkEntry n (attr e) (case_attr e) (creation_time_ms e) (creation_time e) (creation_date e)
    (last_access_date e) (reserved e) (last_modification_time e) (last_modification_date e)
    (start_cluster e) (file_size e).
Definition set_attr (a : Z) (e : FAT16_DirEntry) : FAT16_DirEntry :=
  mkEntry (name e) a (case_attr e) (creation_time_ms e) (creation_time e) (creation_date e)
    (last_access_date e) (reserved e) (last_modification_time e) (last_modification_date e)
    (start_cluster e) (file_size e).
Definition set_start (c : Z) (e : FAT16_DirEntry) : FAT16_DirEntry :=
  mkEntry (name e) (attr e) (case_attr e) (creation_time_ms e) (creation_time e) (creation_date e)
    (last_access_date e) (reserved e) (last_modification_time e) (last_modification_date e)
    (u16 c) (file_size e).
Definition set_size (n : Z) (e : FAT16_DirEntry) : FAT16_DirEntry :=
  mkEntry (name e) (attr e) (case_attr e) (creation_time_ms e) (creation_time e) (creation_date e)
    (last_access_date e) (reserved e) (last_modification_time e) (last_modification_date e)
    (start_cluster e) (u32 n).

(** A [char] array of 1024 zero bytes. *)
Definition PATH_BUFFER : list Z := replicate 1024 0.

(** [dot_entries] with a name, added to the new directory. *)
Definition dot_entry (n : list Z) (cluster : Z) : outcome FAT16_DirEntry :=
  let e := set_attr FAT_ATTR_DIRECTORY (set_start cluster zero_entry) in
  nm ← strcpy (name e) n; Done (set_name nm e).

(** The code is a [ReturnCode]; it travels through [uint32_t] and back. *)
Definition fat_create (path : list Z) (is_directory : bool) : M (fat_state D H) Z :=
  dir_name ← liftO (get_base_name path (replicate 12 0));
  directory ← liftO (get_parent_dir path PATH_BUFFER);
  ok ← liftO (check_file_name dir_name);
  if negb ok then mret (- EINVAL) else
  r ← fat_find_dir_entry_from_path directory;
  match r with
  | inl err => mret err
  | inr parent_dir =>
    if decide (Z.land (attr parent_dir) FAT_ATTR_DIRECTORY = 0) then mret (- ENOENT) else
    found ← fat_find_dir_entry dir_name parent_dir;
    match found with
    | Some _ => mret (- EEXIST)
    | None =>
      index ← fat_find_free;
      (* the comparison of the 16-bit field with -1 is never true *)
      let dir := set_start index zero_entry in
      if decide (start_cluster dir = -1) then mret (- ENOSPC) else
      _ ← fat_update_chain (start_cluster dir) (start_cluster dir);
      nm ← liftO (strncpy (name dir) dir_name (Z.to_nat FAT16_FILENAME_SIZE));
      let dir := set_name nm dir in
      let dir := if is_directory then set_size 2 (set_attr (Z.lor (attr dir) FAT_ATTR_DIRECTORY) dir)
                 else dir in
      ok ← fat_add_dir_entry parent_dir dir;
      if negb ok then _ ← fat_free_chain (start_cluster dir); mret (- EIO) else
      ok ← (if is_directory then
              dot ← liftO (dot_entry [DOT; 0] (start_cluster dir));
              ok ← fat_add_dir_entry dir dot;
              if negb ok then mret false else
              dotdot ← liftO (dot_entry [DOT; DOT; 0] (start_cluster parent_dir));
              fat_add_dir_entry dir dotdot
            else mret true : M (fat_state D H) bool);
      if negb ok then _ ← fat_free_chain (start_cluster dir); mret (- EIO) else
      let parent_dir := set_size (file_size parent_dir + 1) parent_dir in
      parent_parent ← liftO (get_parent_dir directory PATH_BUFFER);
      r ← fat_find_dir_entry_from_path parent_parent;
      match r with
      | inl err => mret err
      | inr parent_parent_dir =>
          _ ← fat_update_dir_entry (encode parent_dir) parent_parent_dir parent_dir;
          mret 0
      end
    end
  end.

(** Both wrappers end without a return statement: a caller gets whatever is left
    in the result register, so the model returns nothing. *)
Definition fat_create_file (path : list Z) : M (fat_state D H) unit :=
  _ ← fat_create path false; mret tt.
Definition fat_create_directory (path : list Z) : M (fat_state D H) unit :=
  _ ← fat_create path true; mret tt.

Definition fat_delete (path : list Z) (is_directory : bool) : M (fat_state D H) Z :=
  dir_name ← liftO (get_base_name path (replicate 12 0));
  parent_dir_name ← liftO (get_parent_dir path PATH_BUFFER);
  parent_parent_dir_name ← liftO (get_parent_dir parent_dir_name PATH_BUFFER);
  r ← fat_find_dir_entry_from_path path;
  match r with
  | inl err => mret err
  | inr dir =>
    (* the directory test is [attr && FAT_ATTR_DIRECTORY] *)
    if is_directory && bool_decide (attr dir = 0) then mret (- ENOENT) else
    if is_directory && bool_decide (file_size dir ≠ 2) then mret (- EINVAL) else
    if negb is_directory && bool_decide (Z.land (attr dir) FAT_ATTR_DIRECTORY ≠ 0)
    then mret (- EISDIR) else
    r ← fat_find_dir_entry_from_path parent_dir_name;
    match r with
    | inl err => mret err
    | inr parent_dir =>
      r ← fat_find_dir_entry_from_path parent_parent_dir_name;
      match r with
      | inl err => mret err
      | inr parent_parent_dir =>
          _ ← fat_remove_dir_entry dir_name parent_dir true;
          let parent_dir := set_size (file_size parent_dir - 1) parent_dir in
          _ ← fat_update_dir_entry (encode parent_dir) parent_parent_dir parent_dir;
          mret 0
      end
    end
  end.
Definition fat_delete_file (path : list Z) : M (fat_state D H) Z := fat_delete path false.
Definition fat_delete_dir (path : list Z) : M (fat_state D H) Z := fat_delete path true.

Definition fat_rename (path new_name : list Z) : M (fat_state D H) Z :=
  r ← fat_find_dir_entry_from_path path;
  match r with
  | inl err => mret err
  | inr file =>
    directory ← liftO (get_parent_dir path PATH_BUFFER);
    r ← fat_find_dir_entry_from_path directory;
    match r with
    | inl err => mret err
    | inr parent_dir =>
      if decide (Z.land (attr parent_dir) FAT_ATTR_DIRECTORY = 0) then mret (- ENOENT) else
      n ← liftO (strlen new_name);
      if decide (FAT16_FILENAME_SIZE < n) then mret (- EINVAL) else
      ok ← liftO (check_file_name new_name);
      if negb ok then mret (- EINVAL) else
      previous_name ← liftO (strncpy (replicate 12 0) (encode file) (Z.to_nat FAT16_FILENAME_SIZE));
      nm ← liftO (memset (name file) 0 FAT16_FILENAME_SIZE);
      nm ← liftO (strncpy nm new_name (Z.to_nat FAT16_FILENAME_SIZE));
      let file := set_name nm file in
      found ← fat_find_dir_entry (encode file) parent_dir;
      match found with
      | Some _ => mret (- EEXIST)
      | None =>
          ok ← fat_update_dir_entry previous_name parent_dir file;
          mret (if (ok : bool) then 0 else - EIO)
      end
    end
  end.

(** Return code, and the structure filled in on success. *)
Definition fat_get_file_data (path : list Z) : M (fat_state D H) (Z * option FileData) :=
  r ← fat_find_dir_entry_from_path path;
  match r with
  | inl _ => mret (- ENOENT, None)
  | inr file =>
      parent_path ← liftO (get_parent_dir path PATH_BUFFER);
      r ← fat_find_dir_entry_from_path parent_path;
      match r with
      | inl _ => mret (-1, None)
      | inr parent => mret (0, Some (mkFileData file parent))
      end
  end.

Definition fat_get_dir_data (path : list Z) : M (fat_state D H) (Z * option FileData) :=
  r ← fat_find_dir_entry_from_path path;
  match r with
  | inl _ => mret (-1, None)
  | inr dir =>
      if decide (Z.land (attr dir) FAT_ATTR_DIRECTORY = 0) then mret (- ENOTDIR, None) else
      parent_path ← liftO (get_parent_dir path PATH_BUFFER);
      r ← fat_find_dir_entry_from_path parent_path;
      match r with
      | inl _ => mret (-1, None)
      | inr parent => mret (0, Some (mkFileData dir parent))
      end
  end.
End operations.

(** ** Paths as lists of components *)

(** A component that fits a name field. *)
Definition comp_ok (c : list Z) : Prop :=
  str_ok c ∧ c ≠ [] ∧ (length c ≤ 11)%nat ∧ SLASH ∉ c.
#[export] Instance comp_ok_dec c : Decision (comp_ok c).
Proof. unfold comp_ok, str_ok. apply _. Defined.

(** ["/c1/c2/.../cn"] *)
Definition render (comps : list (list Z)) : list Z := concat ((λ c, SLASH :: c) <$> comps).

Lemma render_cons c comps : render (c :: comps) = SLASH :: c ++ render comps.
Proof. done. Qed.

Lemma render_str_ok comps : Forall comp_ok comps → str_ok (render comps).
Proof.
  induction 1 as [|c comps (Hc & _) _ IH]; [constructor|]. rewrite render_cons.
  apply str_ok_cons. split; [unfold SLASH; lia|]. by apply str_ok_app.
Qed.

Lemma render_cases comps : render comps = [] ∨ ∃ t, render comps = SLASH :: t.
Proof. destruct comps; [by left|right]. eexists. apply render_cons. Qed.

(** The scan of a component stops behind it. *)
Lemma component_end_spec p r start c t k fuel :
  (start ≤ length p)%nat → drop start p = c ++ t → (t = [] ∨ ∃ t', t = SLASH :: t') → SLASH ∉ c → (length c ≤ 11)%nat →
  (k ≤ length c)%nat → (length c - k < fuel)%nat →
  component_end (p ++ 0 :: r) (zlen p) (Z.of_nat start) (Z.of_nat (start + k)) fuel
    = Done (Z.of_nat (start + length c)).
Proof.
  intros Hst Hd Ht Hs Hl Hk. revert k Hk. induction fuel as [|fuel IH]; intros k Hk Hf; [lia|].
  cbn [component_end]. rewrite decide_False by lia. rewrite aget_of_nat.
  assert (length (c ++ t) = length p - start)%nat as Hlen by (rewrite <-Hd; apply length_drop).
  rewrite length_app in Hlen. destruct (decide (k = length c)) as [->|Hne].
  - destruct Ht as [->|[t' ->]].
    + simpl in Hlen. rewrite lookup_app_r by lia.
      replace (start + length c - length p)%nat with 0%nat by lia.
      cbn [lookup list_lookup of_option mbind outcome_bind]. by rewrite decide_False by lia.
    + simpl in Hlen. assert (p !! (start + length c)%nat = Some SLASH) as Hx.
      { rewrite <-lookup_drop, Hd, lookup_app_r, Nat.sub_diag by lia. done. }
      rewrite lookup_app_l by (by eapply lookup_lt_Some). rewrite Hx.
      cbn [of_option mbind outcome_bind]. rewrite decide_False by tauto. done.
  - destruct (lookup_lt_is_Some_2 c k) as [x Hx]; [lia|].
    assert (p !! (start + k)%nat = Some x) as Hp.
    { rewrite <-lookup_drop, Hd, lookup_app_l by lia. done. }
    rewrite lookup_app_l by (by eapply lookup_lt_Some). rewrite Hp.
    cbn [of_option mbind outcome_bind]. rewrite decide_True.
    + replace (Z.of_nat (start + k) + 1) with (Z.of_nat (start + S k)) by lia. apply IH; lia.
    + split; [|apply lookup_lt_Some in Hp; lia]. intros ->. apply Hs. by eapply list_elem_of_lookup_2.
Qed.

Section specs.
Context {D H : Type} `{BlockDeviceLaws D} `{KernelHeapLaws H}.
Implicit Types s : fat_state D H.

(** *** What a path means *)

(** The entry a name has in the directory whose chain is [cs]. *)
Definition lookup_in s (cs : list Z) (nm : list Z) : option FAT16_DirEntry :=
  (λ p, decode p.2) <$> list_find (slot_named nm) (dir_slots s cs).

(** The result of following the components from the entry [dir].  A component with
    another behind it is looked up in a directory only: [dir] has to have the
    directory bit, and what the component names becomes the next [dir].  The last
    component is looked up in the clusters of whatever [dir] is, a directory or a
    file. *)
Inductive resolves s : FAT16_DirEntry → list (list Z) → Z + FAT16_DirEntry → Prop :=
| res_last dir cs c :
    chain (table s) (start_cluster dir) cs →
    resolves s dir [c] (match lookup_in s cs c with Some e => inr e | None => inl (- ENOENT) end)
| res_file dir c c' comps :
    Z.land (attr dir) FAT_ATTR_DIRECTORY = 0 → resolves s dir (c :: c' :: comps) (inl (- ENOENT))
| res_missing dir cs c c' comps :
    Z.land (attr dir) FAT_ATTR_DIRECTORY ≠ 0 → chain (table s) (start_cluster dir) cs →
    lookup_in s cs c = None → resolves s dir (c :: c' :: comps) (inl (- ENOENT))
| res_step dir cs c c' comps e res :
    Z.land (attr dir) FAT_ATTR_DIRECTORY ≠ 0 → chain (table s) (start_cluster dir) cs →
    lookup_in s cs c = Some e → resolves s e (c' :: comps) res →
    resolves s dir (c :: c' :: comps) res.

Lemma lookup_in_same s s' cs nm : fat_same s s' → lookup_in s' cs nm = lookup_in s cs nm.
Proof.
  intros Hs. unfold lookup_in. do 2 f_equal. apply dir_slots_frame. intros. by apply fat_same_cluster.
Qed.

(** The name buffer after [memset] and [strncpy] of a component. *)
Lemma sub_name_clear sub :
  length sub = 12%nat → sub !! 11%nat = Some 0 → memset sub 0 FAT16_FILENAME_SIZE = Done (replicate 12 0).
Proof.
  intros Hl Hz. rewrite memset_spec by (unfold FAT16_FILENAME_SIZE; lia).
  change (Z.to_nat FAT16_FILENAME_SIZE) with 11%nat. rewrite (drop_S _ _ _ Hz), drop_ge by lia. done.
Qed.

Lemma sub_name_copy c t r :
  comp_ok c → str_ok t →
  strncpy (replicate 12 0) ((c ++ t) ++ 0 :: r) (length c) = Done (c ++ 0 :: replicate (11 - length c) 0).
Proof.
  intros (Hc & Hne & Hl & _) Ht. rewrite strncpy_cstr.
  - rewrite take_app_length, drop_replicate. do 2 f_equal.
    by replace (12 - length c)%nat with (S (11 - length c)) by lia.
  - by apply str_ok_app.
  - by destruct c.
  - rewrite take_app_length, length_replicate. lia.
Qed.

(** A round behind a slash, up to the point where it looks the component up. *)
Lemma wp_path_round_head p r pre dir c rest sub
    (Q : (Z * FAT16_DirEntry * list Z) + (Z + FAT16_DirEntry) → fat_state D H → Prop) s :
  p = pre ++ render (c :: rest) → str_ok pre → Forall comp_ok (c :: rest) →
  length sub = 12%nat → sub !! 11%nat = Some 0 →
  (let sub' := c ++ 0 :: replicate (11 - length c) 0 in
   if decide (rest = [] ∨ Z.land (attr dir) FAT_ATTR_DIRECTORY ≠ 0) then
     wp (fat_find_dir_entry sub' dir)
        (λ found s', Q (match found, rest with
                        | None, _ => inr (inl (- ENOENT))
                        | Some e, [] => inr (inr e)
                        | Some e, _ => inl (Z.of_nat (length pre + length c + 2), e, sub')
                        end) s') s
   else Q (inr (inl (- ENOENT))) s) →
  wp (path_round (p ++ 0 :: r) (zlen p) (Z.of_nat (length pre + 1), dir, sub)) Q s.
Proof.
  intros Hp Hpre Hok Hsub Hsub11 HQ. unfold path_round.
  pose proof (Forall_inv Hok) as Hcok. destruct Hcok as (Hcs & Hcne & Hcl & Hcslash).
  pose proof (render_str_ok _ (Forall_inv_tail Hok)) as Hrest.
  assert (drop (length pre + 1) p = c ++ render rest) as Hd.
  { rewrite Hp, render_cons, drop_app_add. done. }
  assert (length p = length pre + 1 + length c + length (render rest))%nat as Hlen.
  { rewrite Hp, render_cons, !length_app. simpl. rewrite length_app. lia. }
  apply wp_bind. eapply wp_liftO.
  { pose proof (component_end_spec p r (length pre + 1) c (render rest) 0 13) as Hce.
    rewrite Nat.add_0_r in Hce. apply Hce; try done; try lia. apply render_cases. }
  rewrite decide_False by lia.
  apply wp_bind. eapply wp_liftO; [by apply sub_name_clear|].
  apply wp_bind. eapply wp_liftO.
  { rewrite Nat2Z.id. rewrite drop_app_le by lia. rewrite Hd.
    replace (Z.to_nat (Z.of_nat (length pre + 1 + length c) - Z.of_nat (length pre + 1))) with (length c) by lia.
    apply sub_name_copy; [by repeat split|done]. }
  rewrite decide_False by lia. cbv zeta in HQ.
  destruct rest as [|c2 rest].
  - simpl in Hlen. rewrite decide_True by lia. rewrite decide_True in HQ by by left. apply wp_bind.
    eapply wp_mono; [exact HQ|]. intros [e|] s' Hs'; by apply wp_ret.
  - pose proof (Forall_inv (Forall_inv_tail Hok)) as (_ & Hc2 & _).
    rewrite render_cons in Hlen. simpl in Hlen. rewrite length_app in Hlen.
    assert (length c2 ≠ 0%nat) by (by destruct c2).
    rewrite decide_False by lia. destruct (decide (Z.land (attr dir) FAT_ATTR_DIRECTORY = 0)) as [Ha|Ha].
    + rewrite decide_False in HQ by naive_solver. by apply wp_ret.
    + rewrite decide_True in HQ by by right. apply wp_bind. eapply wp_mono; [exact HQ|].
      intros [e|] s' Hs'; apply wp_ret; [|done].
      replace (Z.of_nat (length pre + 1 + length c) + 1) with (Z.of_nat (length pre + length c + 2)) by lia. done.
Qed.

(** The same with the lookup done. *)
Lemma wp_path_round p r pre dir c rest sub n
    (Q : (Z * FAT16_DirEntry * list Z) + (Z + FAT16_DirEntry) → fat_state D H → Prop) s cs :
  fat_ok s → p = pre ++ render (c :: rest) → str_ok pre → Forall comp_ok (c :: rest) →
  length sub = 12%nat → sub !! 11%nat = Some 0 →
  (rest ≠ [] → Z.land (attr dir) FAT_ATTR_DIRECTORY ≠ 0) →
  chain (table s) (start_cluster dir) cs →
  0 ≤ n → heap_room (heap_cost (512 * spc s) + n) (heap s) →
  (∀ s', fat_same s s' → heap_room n (heap s') →
     Q (match lookup_in s cs c, rest with
        | None, _ => inr (inl (- ENOENT))
        | Some e, [] => inr (inr e)
        | Some e, _ => inl (Z.of_nat (length pre + length c + 2), e, c ++ 0 :: replicate (11 - length c) 0)
        end) s') →
  wp (path_round (p ++ 0 :: r) (zlen p) (Z.of_nat (length pre + 1), dir, sub)) Q s.
Proof.
  intros Hs Hp Hpre Hok Hsub Hsub11 Hdir Hc Hn Hroom HQ.
  eapply wp_path_round_head; [done..|]. cbv zeta. rewrite decide_True.
  - eapply wp_find_dir_entry; [done|done|apply (Forall_inv Hok)|done..].
  - destruct rest; [by left|right; auto].
Qed.

Lemma wp_path_rounds : ∀ comps p r pre dir sub res fuel n (Q : Z + FAT16_DirEntry → fat_state D H → Prop) s s1,
  fat_ok s → resolves s dir comps res → p = pre ++ render comps → str_ok pre → Forall comp_ok comps →
  length sub = 12%nat → sub !! 11%nat = Some 0 → (length comps ≤ fuel)%nat → fat_same s s1 →
  0 ≤ n → heap_room (zlen comps * heap_cost (512 * spc s) + n) (heap s1) →
  (∀ s', fat_same s s' → Q res s') →
  wp (iter fuel (path_round (p ++ 0 :: r) (zlen p)) (Z.of_nat (length pre + 1), dir, sub)) Q s1.
Proof.
  induction comps as [|c comps IH]; intros p r pre dir sub res fuel n Q s s1 Hs Hres Hp Hpre Hok Hsub Hz
    Hf Hs1 Hn Hroom HQ; [inversion Hres|].
  destruct fuel as [|fuel]; [simpl in Hf; lia|]. cbn [iter]. apply wp_bind.
  pose proof (fat_same_ok _ _ Hs1 Hs) as Hok1. pose proof (fat_same_table _ _ Hs1) as Ht1.
  pose proof (fat_same_spc _ _ Hs1) as Hp1. pose proof (heap_cost_nonneg (512 * spc s)) as HC.
  assert (heap_room (heap_cost (512 * spc s1) + (zlen comps * heap_cost (512 * spc s) + n)) (heap s1)) as Hroom1.
  { rewrite Hp1. cbn [length] in Hroom.
    by replace (heap_cost (512 * spc s) + (zlen comps * heap_cost (512 * spc s) + n))
      with (Z.of_nat (S (length comps)) * heap_cost (512 * spc s) + n) by lia. }
  assert (0 ≤ zlen comps * heap_cost (512 * spc s) + n) as Hn1 by nia.
  inversion Hres as [dir' cs c1 Hc|dir' c1 c' comps' Ha|dir' cs c1 c' comps' Ha Hc Hlook
    |dir' cs c1 c' comps' e res' Ha Hc Hlook Hrest]; subst.
  - eapply (wp_path_round _ r pre dir c [] sub); [done..|by rewrite Ht1|done|done|].
    intros s2 Hs2 _. rewrite (lookup_in_same _ _ _ _ Hs1).
    assert (fat_same s s2) by (by etrans). destruct (lookup_in s cs c); apply wp_ret; by apply HQ.
  - eapply (wp_path_round_head _ r pre dir c (c' :: comps') sub); [done..|]. cbv zeta.
    rewrite decide_False by naive_solver. apply wp_ret. by apply HQ.
  - eapply (wp_path_round _ r pre dir c (c' :: comps') sub); [done..|by rewrite Ht1|done|done|].
    intros s2 Hs2 _. rewrite (lookup_in_same _ _ _ _ Hs1), Hlook.
    assert (fat_same s s2) by (by etrans). apply wp_ret. by apply HQ.
  - eapply (wp_path_round _ r pre dir c (c' :: comps') sub); [done..|by rewrite Ht1|exact Hn1|done|].
    intros s2 Hs2 Hr2. rewrite (lookup_in_same _ _ _ _ Hs1), Hlook.
    pose proof (Forall_inv Hok) as (Hcs & Hcne & Hcl & _).
    replace (Z.of_nat (length pre + length c + 2)) with (Z.of_nat (length (pre ++ SLASH :: c) + 1))
      by (rewrite length_app; simpl; lia).
    eapply (IH _ r (pre ++ SLASH :: c) e _ res fuel n Q s s2); try done.
    + by rewrite (render_cons c), <-app_assoc.
    + apply str_ok_app. split; [done|]. apply str_ok_cons. split; [unfold SLASH; lia|done].
    + by apply Forall_inv_tail in Hok.
    + rewrite length_app. cbn [length]. rewrite length_replicate. lia.
    + rewrite lookup_app_r by lia. destruct (11 - length c)%nat as [|k] eqn:Ek; [done|].
      rewrite lookup_cons. apply lookup_replicate_2. lia.
    + simpl in *. lia.
    + by etrans.
Qed.

(** C1: fat_find_dir_entry_from_path on "/c1/.../cn" resolves the components one
    after the other from the root directory and returns the entry the last one names,
    or -ENOENT when a component is missing.  All but the last component are looked up
    in directories only: when "/c1/.../ci" names a file and at least two components
    follow it, the answer is -ENOENT.  The last component is not: it is looked up in
    whatever "/c1/.../cn-1" names, so that the data of a file is searched as if it
    were a directory.  The volume is unchanged and the fuel of the loop suffices. *)
Theorem fat_path_resolves comps r res n s :
  fat_ok s → comps ≠ [] → Forall comp_ok comps → resolves s (root_dir s) comps res →
  0 ≤ n → heap_room (zlen comps * heap_cost (512 * spc s) + n) (heap s) →
  wp (fat_find_dir_entry_from_path (render comps ++ 0 :: r)) (λ x s', x = res ∧ fat_same s s') s.
Proof.
  intros Hs Hne Hok Hres Hn Hroom. unfold fat_find_dir_entry_from_path.
  apply wp_bind, wp_gets. pose proof (render_str_ok _ Hok) as Hstr.
  destruct comps as [|c comps]; [done|]. pose proof (Forall_inv Hok) as (Hcs & Hcne & Hcl & Hcsl).
  destruct c as [|x c]; [done|]. apply str_ok_cons in Hcs as Hcs'. destruct Hcs' as [Hx _].
  apply wp_bind. eapply wp_liftO; [by apply strlen_cstr|].
  assert (x ≠ SLASH) as Hxs by set_solver.
  rewrite (render_cons (x :: c)). cbn [app].
  apply wp_bind. eapply wp_liftO; [reflexivity|]. rewrite decide_False by done.
  apply wp_bind. eapply wp_liftO; [cbn [strncmp]; rewrite decide_True by done;
    cbn [strncmp]; rewrite decide_False by lia; reflexivity|]. 
  rewrite decide_False by (unfold SLASH, TILDE; lia).
  apply wp_bind. eapply wp_liftO; [reflexivity|]. rewrite decide_False by (unfold SLASH, DOT, TILDE; lia).
  set (p := SLASH :: x :: c ++ render comps).
  change (SLASH :: x :: (c ++ render comps) ++ 0 :: r) with (p ++ 0 :: r).
  change (zlen (SLASH :: (x :: c) ++ render comps)) with (zlen p).
  replace (Z.to_nat (zlen p) + 2)%nat with (S (S (length p))) by lia.
  assert (length ((x :: c) :: comps) ≤ S (length p))%nat as Hfuel.
  { unfold p. clear. induction comps as [|c' comps IH]; [simpl; lia|].
    rewrite render_cons. simpl in *. rewrite !length_app in *. simpl in *. rewrite length_app. lia. }
  generalize dependent (S (length p)). intros fuel Hfuel. cbn [iter].
  apply wp_bind. unfold path_round at 1. apply wp_bind. eapply wp_liftO.
  { pose proof (component_end_spec p r 0 [] p 0 13) as Hce. apply Hce; try done; simpl; try lia; [|set_solver].
    right. by eexists. }
  rewrite decide_False by (simpl; lia).
  apply wp_bind. eapply wp_liftO; [by apply sub_name_clear|].
  apply wp_bind. eapply wp_liftO; [reflexivity|]. rewrite decide_True by done.
  apply wp_bind. eapply wp_liftO; [reflexivity|]. apply wp_bind. eapply wp_liftO; [reflexivity|].
  rewrite decide_False by naive_solver. apply wp_ret.
  eapply (wp_path_rounds ((x :: c) :: comps) p r [] (root_dir s) (replicate 12 0) res fuel n _ s s); try done. apply str_ok_nil.
Qed.
End specs.

(** ** Parent and base name *)

(** Copying a path into the local array, and finding its last slash. *)
Lemma path_copy_spec p r :
  str_ok p → p ≠ [] → (length p < 1024)%nat →
  strcpy PATH_COPY (p ++ 0 :: r) = Done (p ++ 0 :: replicate (1023 - length p) 0).
Proof.
  intros Hp Hne Hl. rewrite strcpy_cstr by (done || (unfold PATH_COPY; rewrite length_replicate; lia)).
  unfold PATH_COPY. rewrite drop_replicate. do 4 f_equal; lia.
Qed.

Lemma last_slash_spec dir nm :
  SLASH ∉ nm → last_index SLASH (dir ++ SLASH :: nm) 0 None = Some (length dir).
Proof.
  intros Hn. change (SLASH :: nm) with ([SLASH] ++ nm). rewrite app_assoc, last_index_app by done.
  apply last_index_snoc.
Qed.

Lemma insert_last_slash dir nm rest :
  <[length dir := 0]> ((dir ++ SLASH :: nm) ++ rest) = dir ++ 0 :: nm ++ rest.
Proof. rewrite <-app_assoc. cbn [app]. rewrite insert_app_r_alt, Nat.sub_diag by lia. done. Qed.

(** The text before the last slash, ["/"] for none. *)
Definition parent_of (dir : list Z) : list Z := match dir with [] => [SLASH] | _ => dir end.

Lemma get_parent_dir_spec dir nm r buf :
  str_ok dir → str_ok nm → SLASH ∉ nm → (length (dir ++ SLASH :: nm) < 1024)%nat →
  (length (parent_of dir) < length buf)%nat →
  get_parent_dir ((dir ++ SLASH :: nm) ++ 0 :: r) buf
    = Done (parent_of dir ++ 0 :: drop (S (length (parent_of dir))) buf).
Proof.
  intros Hd Hn Hs Hl Hb. unfold get_parent_dir.
  assert (str_ok (dir ++ SLASH :: nm)) as Hok.
  { apply str_ok_app. split; [done|]. apply str_ok_cons. split; [unfold SLASH; lia|done]. }
  assert (dir ++ SLASH :: nm ≠ []) as Hne by (by destruct dir).
  rewrite path_copy_spec by done. cbn [mbind outcome_bind].
  rewrite strrchr_cstr by (done || (unfold SLASH; lia)). cbn [mbind outcome_bind].
  rewrite last_slash_spec, insert_last_slash by done. rewrite strlen_cstr by done. cbn [mbind outcome_bind].
  destruct dir as [|x dir].
  - rewrite decide_True by done. change [SLASH; 0] with ([SLASH] ++ 0 :: []).
    rewrite strcpy_cstr; [done| |done|done]. apply str_ok_cons. split; [unfold SLASH; lia|apply str_ok_nil].
  - rewrite decide_False by (simpl; lia). by rewrite strcpy_cstr.
Qed.

(** for a path with a last slash, get_parent_dir stores the text before that
    slash ("/" if there is none) and get_base_name the text behind it, each with
    its terminator, so the parent, a slash and the base name make up the path. *)
Theorem path_split dir nm r buf nbuf :
  str_ok dir → str_ok nm → nm ≠ [] → SLASH ∉ nm → (length (dir ++ SLASH :: nm) < 1024)%nat →
  (length (parent_of dir) < length buf)%nat → (length nm < length nbuf)%nat →
  get_parent_dir ((dir ++ SLASH :: nm) ++ 0 :: r) buf
    = Done (parent_of dir ++ 0 :: drop (S (length (parent_of dir))) buf) ∧
  get_base_name ((dir ++ SLASH :: nm) ++ 0 :: r) nbuf
    = Done (nm ++ 0 :: drop (S (length nm)) nbuf).
Proof.
  intros Hd Hn Hne Hs Hl Hb Hnb. split; [by apply get_parent_dir_spec|]. unfold get_base_name.
  assert (str_ok (dir ++ SLASH :: nm)) as Hok.
  { apply str_ok_app. split; [done|]. apply str_ok_cons. split; [unfold SLASH; lia|done]. }
  rewrite path_copy_spec by (done || by destruct dir). cbn [mbind outcome_bind].
  rewrite strrchr_cstr by (done || (by destruct dir) || (unfold SLASH; lia)). cbn [mbind outcome_bind].
  rewrite last_slash_spec, insert_last_slash by done.
  assert (drop (S (length dir)) (dir ++ 0 :: nm ++ 0 :: replicate (1023 - length (dir ++ SLASH :: nm)) 0)
    = nm ++ 0 :: replicate (1023 - length (dir ++ SLASH :: nm)) 0) as ->.
  { rewrite drop_app_ge by lia. by replace (S (length dir) - length dir)%nat with 1%nat by lia. }
  by rewrite strcpy_cstr.
Qed.

Lemma path_split_witness :
  get_parent_dir (([47; 97] ++ SLASH :: [98]) ++ 0 :: []) PATH_BUFFER
    = Done (parent_of [47; 97] ++ 0 :: drop 3 PATH_BUFFER) ∧
  get_base_name (([47; 97] ++ SLASH :: [98]) ++ 0 :: []) (replicate 12 0)
    = Done ([98] ++ 0 :: drop 2 (replicate 12 0)).
Proof.
  apply (path_split [47; 97] [98] [] PATH_BUFFER (replicate 12 0));
    [by_decide|by_decide|done|by_decide|by_decide|by_decide|by_decide].
Defined.

(** A string that does not fit its destination. *)
Lemma strcpy_overflow s dst rest :
  str_ok s → s ≠ [] → (length dst ≤ length s)%nat → strcpy dst (s ++ 0 :: rest) = Fault.
Proof.
  intros Hs. revert dst. induction Hs as [|c s Hc Hs' IH]; intros dst Hne Hl; [done|].
  destruct dst as [|d dst]; [done|]. destruct s as [|c2 s]; simpl in *.
  - destruct dst; [done|simpl in Hl; lia].
  - rewrite decide_True by (apply str_ok_cons in Hs'; lia). rewrite IH by (done || lia). done.
Qed.

(** creating or deleting a path whose base name has twelve or more characters
    writes past the 12-byte name array on the stack before any check of the name's
    length, whatever the state of the volume. *)
Theorem fat_long_name_overflows {D H} `{BlockDevice D} `{KernelHeap H} dir nm r b (s : fat_state D H) :
  str_ok dir → str_ok nm → SLASH ∉ nm → (12 ≤ length nm)%nat → (length (dir ++ SLASH :: nm) < 1024)%nat →
  fat_create ((dir ++ SLASH :: nm) ++ 0 :: r) b s = Fault ∧
  fat_delete ((dir ++ SLASH :: nm) ++ 0 :: r) b s = Fault.
Proof.
  intros Hd Hn Hs Hlong Hl.
  assert (get_base_name ((dir ++ SLASH :: nm) ++ 0 :: r) (replicate 12 0) = Fault) as E.
  { unfold get_base_name.
    assert (str_ok (dir ++ SLASH :: nm)) as Hok.
    { apply str_ok_app. split; [done|]. apply str_ok_cons. split; [unfold SLASH; lia|done]. }
    rewrite path_copy_spec by (done || by destruct dir). cbn [mbind outcome_bind].
    rewrite strrchr_cstr by (done || (by destruct dir) || (unfold SLASH; lia)). cbn [mbind outcome_bind].
    rewrite last_slash_spec, insert_last_slash by done. rewrite drop_app_ge by lia.
    replace (S (length dir) - length dir)%nat with 1%nat by lia. cbn [drop].
    apply strcpy_overflow; [done|by destruct nm; simpl in *; [lia|]|by rewrite length_replicate]. }
  unfold fat_create, fat_delete, mbind, M_bind, liftO. by rewrite E.
Qed.

Lemma fat_long_name_overflows_witness :
  fat_create (([] ++ SLASH :: replicate 12 97) ++ 0 :: []) false Demo.state = Fault ∧
  fat_delete (([] ++ SLASH :: replicate 12 97) ++ 0 :: []) false Demo.state = Fault.
Proof.
  apply (fat_long_name_overflows [] (replicate 12 97) [] false Demo.state);
    [by_decide|by_decide|by_decide|by_decide|by_decide].
Defined.

(** A volume with a directory "D", which holds an entry "B", and a file "A" whose
    data happens to hold an entry "X". *)
Module Tree.
Definition fat : list Z := [65528; 65535; 3; 65528; 65528] ++ replicate 251 0.
Definition entry (c a start : Z) : FAT16_DirEntry := mkEntry [c; 0; 0; 0; 0; 0; 0; 0; 0; 0; 0] a 0 0 0 0 0 0 0 0 start 600.
Definition d : FAT16_DirEntry := entry 68 16 4.
Definition b : FAT16_DirEntry := entry 66 0 7.
Definition x : FAT16_DirEntry := entry 88 0 9.
Definition sector (es : list FAT16_DirEntry) : list Z := concat (encode <$> es) ++ replicate (512 - 32 * length es) 0.
Definition dev : ramdisk := Ramdisk 300 (list_to_map
  [(1, table_sector fat 0); (2, sector [d; Demo.file_a]); (4, sector [x]); (6, sector [b])]).
Definition volume : fat_state ramdisk bump := FatState Demo.fs (Some fat) Demo.root dev (Bump 4096 1000000) [].

Lemma tree_ok : fat_ok volume.
Proof.
  split; try exact (eq_refl _); try by_decide.
  - intros c v Hc%aget_lt_Some _. unfold on_device, spc. cbn in Hc |- *. lia.
Qed.
Lemma ends c : c ∈ [0; 3; 4] → chain (table volume) c [c].
Proof.
  intros Hc. apply (chain_end _ _ 65528); [|unfold is_end; lia].
  rewrite !elem_of_cons, elem_of_nil in Hc. by destruct Hc as [->|[->|[->|[]]]].
Qed.
Lemma tree_file_chain : chain (table volume) 2 [2; 3].
Proof. apply (chain_next _ _ 3); [done|unfold is_end; lia|lia|]. apply ends. set_solver. Qed.
Lemma in_root : lookup_in volume [0] [68] = Some d ∧ lookup_in volume [0] [65] = Some Demo.file_a ∧ lookup_in volume [0] [77] = None.
Proof. split_and!; by vm_compute. Qed.
Lemma below : lookup_in volume [4] [66] = Some b ∧ lookup_in volume [4] [67] = None ∧ lookup_in volume [2; 3] [88] = Some x.
Proof. split_and!; by vm_compute. Qed.
Lemma tree_root_chain : chain (table volume) (start_cluster (root_dir volume)) [0].
Proof. apply ends. set_solver. Qed.
Lemma step c e c' comps res :
  lookup_in volume [0] c = Some e → resolves volume e (c' :: comps) res → resolves volume Demo.root (c :: c' :: comps) res.
Proof. intros. by eapply (res_step volume Demo.root [0]); [|apply tree_root_chain|..]. Qed.
Lemma last dir cs c res :
  chain (table volume) (start_cluster dir) cs → lookup_in volume cs c = res →
  resolves volume dir [c] (match res with Some e => inr e | None => inl (- ENOENT) end).
Proof. intros Hc <-. by apply res_last. Qed.
End Tree.

(** "/D/B" and "/D/C"; "/M/B", whose first component is missing; "/A/X", found in
    the data of the file, and "/A/X/Y", which is refused. *)
Lemma fat_path_resolves_witness :
  let found comps res := wp (fat_find_dir_entry_from_path (render comps ++ 0 :: []))
    (λ y s', y = res ∧ fat_same Tree.volume s') Tree.volume in
  found [[68]; [66]] (inr Tree.b) ∧ found [[68]; [67]] (inl (- ENOENT)) ∧ found [[77]; [66]] (inl (- ENOENT)) ∧
  found [[65]; [88]] (inr Tree.x) ∧ found [[65]; [88]; [89]] (inl (- ENOENT)).
Proof.
  destruct Tree.in_root as (Hd & Ha & Hm), Tree.below as (Hb & Hc & Hx).
  split_and!;
    (eapply (fat_path_resolves _ [] _ 0 Tree.volume);
       [apply Tree.tree_ok|done|by_decide| |lia|vm_compute; split; [congruence|done]]).
  - apply (Tree.step _ Tree.d); [done|]. apply (Tree.last _ [4] _ (Some Tree.b)); [apply Tree.ends; set_solver|done].
  - apply (Tree.step _ Tree.d); [done|]. apply (Tree.last _ [4] _ None); [apply Tree.ends; set_solver|done].
  - apply (res_missing Tree.volume Demo.root [0]); [done|apply Tree.tree_root_chain|done].
  - apply (Tree.step _ Demo.file_a); [done|]. apply (Tree.last _ [2; 3] _ (Some Tree.x)); [apply Tree.tree_file_chain|done].
  - apply (Tree.step _ Demo.file_a); [done|]. by apply res_file.
Defined.
