(* ===== verification/FatFile.v ===== *)
(** * The FAT16 driver, part 5: reading, writing and truncating files

    [fat_read], [fat_write] and [fat_truncate].  The last two call each other:
    a write past the end of a file truncates it to its new size first, and a
    truncation that grows a file ends with a write of no bytes, so two levels
    are all there is.  The theorems describe a file by the bytes of its chain
    ([file_bytes]). *)

From S2P Require Import Prelude CString Interfaces FatTable FatChain FatDir FatPath.

(** ** Definitions *)

(** [memcpy(dst + i, src, n)] *)
Definition memcpy_at (dst : list Z) (i : Z) (src : list Z) (n : Z) : outcome (list Z) :=
  r ← memcpy (drop (Z.to_nat i) dst) src (Z.to_nat n);
  Done (take (Z.to_nat i) dst ++ r).

Section operations.
Context {D H : Type} `{BlockDevice D} `{KernelHeap H}.

(** The walk to the cluster an offset lies in; [None] is the early return. *)
Fixpoint read_seek (current_cluster : Z) (n : nat) : M (fat_state D H) (option Z) :=
  match n with
  | O => mret (Some current_cluster)
  | S n' =>
      if decide (FAT16_CLUSTER_CHAIN_END ≤ current_cluster ∨ current_cluster = 0) then mret None
      else v ← fat_entry current_cluster; read_seek v n'
  end.

(** [bytes_read], [cluster_offset], [current_cluster], the caller's buffer and the
    cluster buffer. *)
Record read_loop := ReadLoop {
  rl_done : Z; rl_off : Z; rl_cluster : Z; rl_out : list Z; rl_buf : list Z }.

(** One round; the result is the code to return and the caller's buffer. *)
Definition read_round (bytes_per_cluster size : Z) (a : read_loop) :
    M (fat_state D H) (read_loop + (Z * list Z)) :=
  let '(ReadLoop bytes_read cluster_offset current_cluster out cluster_buffer) := a in
  if decide (bytes_read < size ∧ current_cluster < FAT16_CLUSTER_CHAIN_END ∧ current_cluster ≠ 0) then
    '(code, cluster_buffer) ← fat_read_data_cluster current_cluster cluster_buffer;
    if decide (code ≠ 0) then mret (inr (-1, out)) else
    let bytes_to_copy := Z.min (u32 (bytes_per_cluster - cluster_offset)) (size - bytes_read) in
    out ← liftO (memcpy_at out bytes_read (drop (Z.to_nat cluster_offset) cluster_buffer) bytes_to_copy);
    let bytes_read := u32 (bytes_read + bytes_to_copy) in
    if decide (bytes_read < size)
    then v ← fat_entry current_cluster; mret (inl (ReadLoop bytes_read 0 v out cluster_buffer))
    else mret (inl (ReadLoop bytes_read 0 current_cluster out cluster_buffer))
  else mret (inr (s32 bytes_read, out)).

(** The return code and the caller's buffer after the call. *)
Definition fat_read (file : FAT16_DirEntry) (offset size : Z) (buffer : list Z) :
    M (fat_state D H) (Z * list Z) :=
  if decide (Z.land (attr file) FAT_ATTR_DIRECTORY ≠ 0) then mret (-1, buffer) else
  if decide (file_size file ≤ offset) then mret (0, buffer) else
  let size := if decide (file_size file < u32 (offset + size)) then u32 (file_size file - offset) else size in
  bytes_per_cluster ← gets cluster_bytes;
  if decide (bytes_per_cluster = 0) then fault else
  c ← read_seek (start_cluster file) (Z.to_nat (offset / bytes_per_cluster));
  match c with
  | None => mret (-1, buffer)
  | Some current_cluster =>
      p ← heap_alloc bytes_per_cluster;
      if decide (p = 0) then mret (- EIO, buffer) else
      cluster_buffer ← cleared p bytes_per_cluster;
      r ← iter (Z.to_nat (size / bytes_per_cluster) + 3) (read_round bytes_per_cluster size)
               (ReadLoop 0 (offset mod bytes_per_cluster) current_cluster buffer cluster_buffer);
      _ ← heap_free p;
      mret r
  end.

Fixpoint write_seek (current_cluster : Z) (n : nat) : M (fat_state D H) (option Z) :=
  match n with
  | O => mret (Some current_cluster)
  | S n' =>
      if decide (FAT16_CLUSTER_CHAIN_END ≤ current_cluster) then mret None
      else v ← fat_entry current_cluster; write_seek v n'
  end.

Record write_loop := WriteLoop {
  wl_done : Z; wl_off : Z; wl_cluster : Z; wl_buf : list Z }.

(** One round; a cluster that is written in part is read first. *)
Definition write_round (bytes_per_cluster size : Z) (buffer : list Z) (a : write_loop) :
    M (fat_state D H) (write_loop + Z) :=
  let '(WriteLoop bytes_written cluster_offset current_cluster cluster_buffer) := a in
  if decide (bytes_written < size) then
    '(code, cluster_buffer) ←
      (if decide (0 < cluster_offset ∨ size - bytes_written < bytes_per_cluster)
       then fat_read_data_cluster current_cluster cluster_buffer else mret (0, cluster_buffer));
    if decide (code ≠ 0) then mret (inr (-1)) else
    let bytes_to_write := Z.min (u32 (bytes_per_cluster - cluster_offset)) (size - bytes_written) in
    cluster_buffer ← liftO (memcpy_at cluster_buffer cluster_offset
                              (drop (Z.to_nat bytes_written) buffer) bytes_to_write);
    code ← fat_write_data_cluster current_cluster cluster_buffer;
    if decide (code ≠ 0) then mret (inr (-1)) else
    let bytes_written := u32 (bytes_written + bytes_to_write) in
    if decide (bytes_written < size)
    then v ← fat_entry current_cluster; mret (inl (WriteLoop bytes_written 0 v cluster_buffer))
    else mret (inl (WriteLoop bytes_written 0 current_cluster cluster_buffer))
  else mret (inr (s32 bytes_written)).

(** The rest of [fat_write] once the file is large enough. *)
Definition write_clusters (file : FAT16_DirEntry) (offset size : Z) (buffer : list Z) :
    M (fat_state D H) Z :=
  bytes_per_cluster ← gets cluster_bytes;
  c ← write_seek (start_cluster file) (Z.to_nat (offset / bytes_per_cluster));
  match c with
  | None => mret (-1)
  | Some current_cluster =>
      p ← heap_alloc bytes_per_cluster;
      if decide (p = 0) then mret (- EIO) else
      cluster_buffer ← cleared p bytes_per_cluster;
      r ← iter (Z.to_nat (size / bytes_per_cluster) + 3) (write_round bytes_per_cluster size buffer)
               (WriteLoop 0 (offset mod bytes_per_cluster) current_cluster cluster_buffer);
      _ ← heap_free p;
      mret r
  end.

(** [while (new_cluster_amount < curr_cluster_amount)]: [n] rounds from [cluster]. *)
Fixpoint cut_chain (cluster : Z) (n : nat) : M (fat_state D H) Z :=
  match n with
  | O => mret cluster
  | S n' =>
      next_cluster ← fat_entry cluster;
      _ ← set_fat_entry cluster FAT16_FREE_CLUSTER;
      cut_chain next_cluster n'
  end.

(** The code, the file's entry after the call. *)
Definition fat_truncate_with
    (write : FAT16_DirEntry → FAT16_DirEntry → Z → Z → list Z → M (fat_state D H) (Z * FAT16_DirEntry))
    (file : FileData) (size : Z) : M (fat_state D H) (Z * FileData) :=
  let entry := file_entry file in
  let finish entry :=
    let file := mkFileData (set_size size entry) (parent_entry file) in
    ok ← fat_update_dir_entry (encode (file_entry file)) (parent_entry file) (file_entry file);
    mret (if (ok : bool) then 0 else -1, file) in
  if decide (Z.land (attr entry) FAT_ATTR_DIRECTORY ≠ 0) then mret (-1, file) else
  if decide (size < file_size entry) then
    curr_cluster_amount ← fat_get_cluster_amount entry;
    bytes_per_cluster ← gets cluster_bytes;
    if decide (bytes_per_cluster = 0) then fault else
    let new_cluster_amount := s32 (size / bytes_per_cluster + 1) in
    last ← cut_chain (start_cluster entry)
             (Z.to_nat (s32 curr_cluster_amount - new_cluster_amount));
    _ ← set_fat_entry last FAT16_CLUSTER_CHAIN_END;
    finish entry
  else if decide (file_size entry < size) then
    bytes_per_cluster ← gets cluster_bytes;
    if decide (bytes_per_cluster = 0) then fault else
    let new_cluster_amount := s32 (size / bytes_per_cluster + 1) in
    curr_cluster_amount ← fat_get_cluster_amount entry;
    ok ← fat_allocate_space (new_cluster_amount - s32 curr_cluster_amount) entry;
    if negb ok then mret (-1, file) else
    p ← heap_alloc (size - file_size entry);
    if decide (p = 0) then mret (-1, file) else
    buf ← cleared p (size - file_size entry);
    let entry := set_size size entry in
    (* the size was overwritten just before: the write has no bytes *)
    '(_, entry) ← write entry (parent_entry file) (file_size entry) (u32 (size - file_size entry)) buf;
    _ ← heap_free p;
    finish entry
  else mret (0, file).

Fixpoint fat_write_depth (depth : nat) (file parent_dir : FAT16_DirEntry) (offset size : Z)
    (buffer : list Z) : M (fat_state D H) (Z * FAT16_DirEntry) :=
  match depth with
  | O => λ _, Timeout
  | S depth' =>
      if decide (Z.land (attr file) FAT_ATTR_DIRECTORY ≠ 0) then mret (-1, file) else
      bytes_per_cluster ← gets cluster_bytes;
      if decide (bytes_per_cluster = 0) then fault else
      let new_size := u32 (offset + size) in
      '(err, file) ←
        (if decide (file_size file < new_size) then
           '(err, data) ← fat_truncate_with (fat_write_depth depth') (mkFileData file parent_dir) new_size;
           mret (if decide (err ≠ 0) then (true, file) else (false, file_entry data))
         else mret (false, file));
      if (err : bool) then mret (-1, file) else
      r ← write_clusters file offset size buffer;
      mret (r, file)
  end.

Definition fat_write : FAT16_DirEntry → FAT16_DirEntry → Z → Z → list Z →
    M (fat_state D H) (Z * FAT16_DirEntry) := fat_write_depth 2.
Definition fat_truncate : FileData → Z → M (fat_state D H) (Z * FileData) :=
  fat_truncate_with (fat_write_depth 1).
End operations.

(** ** Lemmas *)

(** [memcpy_at] into the middle of an array. *)
Lemma memcpy_at_spec dst i src n :
  Forall is_byte src → 0 ≤ i → 0 ≤ n → n ≤ zlen src → i + n ≤ zlen dst →
  memcpy_at dst i src n = Done (splice dst (Z.to_nat i) (take (Z.to_nat n) src)).
Proof.
  intros Hb Hi Hn Hs Hd. unfold memcpy_at.
  rewrite memcpy_spec; [|done|lia|rewrite length_drop; lia]. cbn [mbind outcome_bind].
  unfold splice. do 2 f_equal. rewrite drop_drop, length_take. do 2 f_equal. lia.
Qed.

(** The rounds the two loops are given suffice. *)
Lemma rounds_enough off size B :
  0 < B → 0 ≤ off < B → 0 ≤ size →
  off + size ≤ (Z.of_nat (Z.to_nat (size / B) + 3) - 1) * B.
Proof.
  intros HB Hoff Hsz. pose proof (Z.div_mod size B ltac:(lia)). pose proof (Z.mod_pos_bound size B HB).
  pose proof (Z.div_pos size B Hsz HB). rewrite Nat2Z.inj_add, Z2Nat.id by lia. nia.
Qed.

Lemma chain_nonzero t c cs : chain t c cs → c ≠ 0 → 0 ∉ cs.
Proof. induction 1; set_solver. Qed.

Section specs.
Context {D H : Type} `{BlockDeviceLaws D} `{KernelHeapLaws H}.
Implicit Types s : fat_state D H.

(** The bytes of the clusters [cs], one after the other. *)
Definition file_bytes s (cs : list Z) : list Z := concat (cluster_at s <$> cs).

Lemma length_file_bytes s cs :
  fat_ok s → length (file_bytes s cs) = (length cs * (512 * Z.to_nat (spc s)))%nat.
Proof.
  intros Hs. unfold file_bytes. induction cs as [|c cs IH]; cbn [fmap list_fmap concat]; [done|].
  rewrite length_app, length_cluster_at, IH by done. simpl. lia.
Qed.

Lemma file_bytes_bytes s cs : fat_ok s → Forall is_byte (file_bytes s cs).
Proof.
  intros Hs. unfold file_bytes. induction cs as [|c cs IH]; cbn [fmap list_fmap concat]; [constructor|].
  apply Forall_app. split; [by apply cluster_at_bytes|done].
Qed.

Lemma file_bytes_same s s' cs : fat_same s s' → file_bytes s' cs = file_bytes s cs.
Proof.
  intros Hs. unfold file_bytes. f_equal. apply list_fmap_ext. intros i c _. by apply fat_same_cluster.
Qed.

Lemma file_bytes_frame s s' cs :
  (∀ c, c ∈ cs → cluster_at s' c = cluster_at s c) → file_bytes s' cs = file_bytes s cs.
Proof.
  intros Hf. unfold file_bytes. f_equal. apply list_fmap_ext. intros i c Hc.
  apply Hf. by eapply list_elem_of_lookup_2.
Qed.

Lemma file_bytes_drop s cs k :
  fat_ok s → drop (k * (512 * Z.to_nat (spc s)))%nat (file_bytes s cs) = file_bytes s (drop k cs).
Proof.
  intros Hs. revert cs. induction k as [|k IH]; intros cs; [done|].
  destruct cs as [|c cs]; [exact (drop_nil _)|]. cbn [drop].
  unfold file_bytes at 1. cbn [fmap list_fmap concat]. rewrite drop_app_ge by (rewrite length_cluster_at by done; lia).
  rewrite length_cluster_at, <-IH by done. f_equal. lia.
Qed.

(** Both walks reach the [k]-th cluster of a file. *)
Lemma seek_chain s c cs k d :
  fat_ok s → chain (table s) c cs → c ≠ 0 → cs !! k = Some d →
  read_seek c k s = Done (Some d, s) ∧ write_seek c k s = Done (Some d, s).
Proof.
  intros Hs. revert c cs. induction k as [|k IH]; intros c cs Hc Hz Hk.
  - destruct (chain_head _ _ _ Hc) as [cs' ->]. by simplify_eq/=.
  - pose proof (chain_in_range _ _ _ c Hc) as Hr.
    pose proof (ok_length s Hs). pose proof (ok_spf s Hs).
    destruct Hc as [c v E He|c v cs E Hne Hnz Hc]; [done|].
    assert (c < 65528) by (specialize (Hr ltac:(set_solver)); lia).
    cbn [read_seek write_seek]. unfold FAT16_CLUSTER_CHAIN_END.
    rewrite decide_False by lia. rewrite decide_False by lia.
    rewrite !(bind_done _ _ _ _ _ (fat_entry_done s c v E)). by apply (IH v cs).
Qed.

(** *** Reading *)

Lemma wp_read_loop size : ∀ fuel suf c off r out buf (Q : Z * list Z → fat_state D H → Prop) s,
  fat_ok s → chain (table s) c suf → c ≠ 0 → 0 ≤ off < 512 * spc s →
  0 ≤ r ≤ size → size < 2147483648 → off + (size - r) ≤ zlen (file_bytes s suf) →
  zlen buf = 512 * spc s → size ≤ zlen out →
  (1 ≤ fuel)%nat → (r < size → off + (size - r) ≤ (Z.of_nat fuel - 1) * (512 * spc s)) →
  (∀ s', fat_same s s' → heap s' = heap s →
     Q (size, splice out (Z.to_nat r) (take (Z.to_nat (size - r)) (drop (Z.to_nat off) (file_bytes s suf)))) s') →
  wp (iter fuel (read_round (512 * spc s) size) (ReadLoop r off c out buf)) Q s.
Proof.
  induction fuel as [|fuel IH]; intros suf c off r out buf Q s Hs Hc Hz Hoff Hr Hsz Hav Hb Ho Hf Hfuel HQ;
    [lia|].
  cbn [iter]. apply wp_bind. unfold read_round at 1.
  destruct (decide (r = size)) as [->|Hne].
  { rewrite decide_False by lia. apply wp_ret, wp_ret. rewrite s32_small by lia.
    specialize (HQ s ltac:(done) ltac:(done)). by rewrite Z.sub_diag, take_0, splice_nil in HQ. }
  pose proof (ok_spc s Hs). pose proof (ok_length s Hs). pose proof (ok_spf s Hs).
  destruct (chain_head _ _ _ Hc) as [suf' ->].
  pose proof (chain_in_range _ _ _ c Hc ltac:(set_solver)) as Hcr.
  unfold FAT16_CLUSTER_CHAIN_END. rewrite decide_True by lia.
  apply wp_bind, wp_read_cluster; [done|eapply chain_on_device; [done..|set_solver]|done|].
  intros s1 Hs1 Hh1. cbv beta iota.
  rewrite decide_False by lia. set (cl := cluster_at s c).
  assert (zlen cl = 512 * spc s) as Hcl by (unfold cl; rewrite length_cluster_at by done; lia).
  rewrite (u32_small (512 * spc s - off)) by lia.
  set (n := (512 * spc s - off) `min` (size - r)).
  apply wp_bind. eapply wp_liftO.
  { apply memcpy_at_spec; [|lia|lia|rewrite length_drop; lia|lia].
    apply Forall_drop. by apply cluster_at_bytes. }
  rewrite (u32_small (r + n)) by lia.
  set (out' := splice out (Z.to_nat r) _).
  assert (file_bytes s (c :: suf') = cl ++ file_bytes s suf') as Hfb by done.
  assert (length (take (Z.to_nat n) (drop (Z.to_nat off) cl)) = Z.to_nat n) as Hln.
  { rewrite length_take, length_drop. lia. }
  assert (zlen out' = zlen out) as Hol.
  { unfold out'. rewrite length_splice; [done|]. rewrite Hln. lia. }
  pose proof (fat_same_ok _ _ Hs1 Hs) as Hok1. pose proof (fat_same_spc _ _ Hs1) as Hp1.
  rewrite <-Hp1. rewrite Hfb, length_app in Hav.
  destruct (decide (r + n < size)) as [Hmore|Hlast].
  - assert (n = 512 * spc s - off) as Hn by lia.
    inversion Hc as [c' v E He|c' v cs' E Hvne Hvz Hc']; subst.
    { unfold file_bytes in Hav. simpl in Hav. lia. }
    apply wp_bind. eapply wp_fat_entry; [by rewrite (fat_same_table _ _ Hs1)|]. apply wp_ret.
    apply (IH suf'); try done; rewrite ?(fat_same_table _ _ Hs1), ?(file_bytes_same _ _ _ Hs1), ?Hp1;
      try done; try lia.
    intros s2 Hs2 Hh2. specialize (HQ s2 ltac:(by etrans) ltac:(congruence)).
    unfold out'. rewrite splice_splice; [|rewrite Hln; lia|].
    2: { rewrite length_take. lia. }
    replace (take _ (drop _ cl) ++ _) with
      (take (Z.to_nat (size - r)) (drop (Z.to_nat off) (cl ++ file_bytes s suf'))); [done|].
    rewrite drop_app_le by lia. rewrite take_app_ge by (rewrite length_drop; lia).
    rewrite (take_ge (drop (Z.to_nat off) cl)) by (rewrite length_drop; lia). f_equal. rewrite length_drop, drop_0. f_equal. lia.
  - assert (n = size - r) as Hn by lia. apply wp_ret.
    destruct fuel as [|fuel]; [lia|].
    apply (IH (c :: suf') c 0); try done; rewrite ?(fat_same_table _ _ Hs1), ?(file_bytes_same _ _ _ Hs1), ?Hp1;
      try done; try lia.
    intros s2 Hs2 Hh2. specialize (HQ s2 ltac:(by etrans) ltac:(congruence)).
    replace (size - (r + n)) with 0 by lia. rewrite take_0, splice_nil. unfold out'.
    rewrite Hfb, drop_app_le, take_app_le in HQ by (rewrite ?length_drop; lia). by rewrite Hn.
Qed.

(** A regular file whose chain is long enough for its size. *)
Record file_ok s (e : FAT16_DirEntry) (cs : list Z) : Prop := {
  fo_attr : Z.land (attr e) FAT_ATTR_DIRECTORY = 0;
  fo_chain : chain (table s) (start_cluster e) cs;
  fo_start : start_cluster e ≠ 0;
  fo_size : 0 ≤ file_size e < 2147483648;
  fo_long : file_size e ≤ zlen (file_bytes s cs);
}.

(** The cluster of an offset inside the file, and what is left from there. *)
Lemma offset_cluster s e cs off :
  fat_ok s → file_ok s e cs → 0 ≤ off < zlen (file_bytes s cs) →
  ∃ d suf, cs !! Z.to_nat (off / (512 * spc s)) = Some d ∧
    chain (table s) d suf ∧ d ≠ 0 ∧ suf = drop (Z.to_nat (off / (512 * spc s))) cs ∧
    0 ≤ off mod (512 * spc s) < 512 * spc s ∧
    drop (Z.to_nat (off mod (512 * spc s))) (file_bytes s suf) = drop (Z.to_nat off) (file_bytes s cs) ∧
    off mod (512 * spc s) + (zlen (file_bytes s cs) - off) = zlen (file_bytes s suf).
Proof.
  intros Hs Hf Hoff. pose proof (ok_spc s Hs) as Hspc. set (B := 512 * spc s) in *.
  pose proof (Z.div_mod off B ltac:(lia)) as Hdm. pose proof (Z.mod_pos_bound off B ltac:(lia)) as Hm.
  pose proof (Z.div_pos off B ltac:(lia) ltac:(lia)) as Hq.
  set (k := Z.to_nat (off / B)). pose proof (length_file_bytes s cs Hs) as Hlen.
  assert (zlen (file_bytes s cs) = zlen cs * B) as HlenZ by lia.
  destruct (lookup_lt_is_Some_2 cs k) as [d Hd]; [nia|].
  pose proof (drop_S _ _ _ Hd) as Hsuf.
  assert (chain (table s) d (drop k cs)) as Hc.
  { rewrite Hsuf. eapply (chain_suffix _ _ cs d (take k cs)); [apply (fo_chain _ _ _ Hf)|].
    by rewrite take_drop_middle. }
  exists d, (drop k cs). split_and!; try done; try lia.
  - intros ->. apply (chain_nonzero _ _ _ (fo_chain _ _ _ Hf) (fo_start _ _ _ Hf)).
    by eapply list_elem_of_lookup_2.
  - rewrite <-file_bytes_drop, drop_drop by done. f_equal. nia.
  - rewrite !length_file_bytes, length_drop by done. nia.
Qed.

Definition bytes_wanted (e : FAT16_DirEntry) (offset size : Z) : Z :=
  if decide (file_size e ≤ offset) then 0 else Z.min size (file_size e - offset).

Lemma wp_fat_read e cs offset size buffer n (Q : Z * list Z → fat_state D H → Prop) s :
  fat_ok s → file_ok s e cs → 0 ≤ offset → 0 ≤ size → offset + size < 4294967296 →
  bytes_wanted e offset size ≤ zlen buffer →
  0 ≤ n → heap_room (heap_cost (512 * spc s) + n) (heap s) →
  (∀ s', fat_same s s' → heap_room n (heap s') →
     Q (bytes_wanted e offset size,
        splice buffer 0 (take (Z.to_nat (bytes_wanted e offset size)) (drop (Z.to_nat offset) (file_bytes s cs)))) s') →
  wp (fat_read e offset size buffer) Q s.
Proof.
  intros Hs Hf Hoff Hsz Hsum Hb Hn Hroom HQ. unfold fat_read.
  rewrite (fo_attr _ _ _ Hf), decide_False by lia. unfold bytes_wanted in *.
  pose proof (fo_size _ _ _ Hf). pose proof (fo_long _ _ _ Hf). pose proof (ok_spc s Hs).
  destruct (decide (file_size e ≤ offset)) as [Hpast|Hin].
  { apply wp_ret. pose proof (heap_cost_nonneg (512 * spc s)).
    assert (heap_room n (heap s)) as Hr by (eapply heap_room_le; [|exact Hroom]; lia).
    specialize (HQ s ltac:(done) Hr). by rewrite take_0, splice_nil in HQ. }
  assert ((if decide (file_size e < u32 (offset + size)) then u32 (file_size e - offset) else size)
          = Z.min size (file_size e - offset)) as ->.
  { rewrite (u32_small (offset + size)) by lia. case_decide; rewrite ?u32_small; lia. }
  set (size' := Z.min size (file_size e - offset)) in *.
  apply wp_bind, wp_gets. rewrite cluster_bytes_spc by done. rewrite decide_False by lia.
  destruct (offset_cluster s e cs offset Hs Hf) as (d & suf & Hd & Hc & Hd0 & Hsuf & Hm & Hdrop & Hleft); [lia|].
  apply wp_bind. eapply wp_of_done.
  { apply (seek_chain s _ cs _ d Hs (fo_chain _ _ _ Hf) (fo_start _ _ _ Hf) Hd). }
  cbv beta iota. apply wp_bind. eapply wp_heap_alloc; [lia|exact Hn|done|].
  intros p s1 Hp Hs1 _ Hr1. rewrite decide_False by done. unfold cleared. rewrite decide_False by done.
  apply wp_bind, wp_ret, wp_bind. rewrite <-(fat_same_spc _ _ Hs1).
  eapply (wp_read_loop size' _ suf d); rewrite ?(fat_same_spc _ _ Hs1), ?(file_bytes_same _ _ _ Hs1),
    ?(fat_same_table _ _ Hs1); try done; try lia.
  - by eapply fat_same_ok.
  - rewrite length_replicate. lia.
  - intros _. rewrite Z.sub_0_r. apply rounds_enough; lia.
  - intros s2 Hs2 Hh2. apply wp_bind. eapply wp_heap_free; [by rewrite Hh2|].
    intros s3 Hs3 _ Hr3. apply wp_ret. rewrite Hdrop, Z.sub_0_r.
    apply HQ; [|done]. by do 2 (etrans; [eassumption|]).
Qed.

(** fat_read of a regular file returns the number of bytes between the offset
    and the end of the file, at most [size], stores exactly those bytes of the
    file's clusters at the start of the buffer, leaves the rest of the buffer
    alone, and changes nothing on the volume; past the end it returns 0. *)
Theorem fat_read_reads e cs offset size buffer n s :
  fat_ok s → file_ok s e cs → 0 ≤ offset → 0 ≤ size → offset + size < 4294967296 →
  bytes_wanted e offset size ≤ zlen buffer →
  0 ≤ n → heap_room (heap_cost (512 * spc s) + n) (heap s) →
  wp (fat_read e offset size buffer)
     (λ res s', res.1 = bytes_wanted e offset size ∧
        res.2 = take (Z.to_nat (bytes_wanted e offset size)) (drop (Z.to_nat offset) (file_bytes s cs))
                ++ drop (Z.to_nat (bytes_wanted e offset size)) buffer ∧
        fat_same s s') s.
Proof.
  intros Hs Hf Hoff Hsz Hsum Hb Hn Hroom. eapply wp_fat_read; try done. intros s' Hs' _.
  split_and!; try done. cbn [snd]. unfold splice. rewrite take_0, app_nil_l. do 2 f_equal.
  rewrite length_take, length_drop. pose proof (fo_long _ _ _ Hf). unfold bytes_wanted.
  case_decide; lia.
Qed.

(** *** Writing *)

(** [s'] is [s] with the bytes of the clusters [cs] replaced by [data]. *)
Record rewritten (cs data : list Z) s s' : Prop := {
  rw_ok : fat_ok s';
  rw_fs : fat16_fs s' = fat16_fs s;
  rw_root : root_dir s' = root_dir s;
  rw_table : table s' = table s;
  rw_size : dev_size (disk s') = dev_size (disk s);
  rw_bytes : file_bytes s' cs = data;
  rw_others d : 0 ≤ d < zlen (table s) → d ∉ cs → cluster_at s' d = cluster_at s d;
  rw_synced : fat_synced s → fat_synced s';
}.

Lemma rewritten_refl cs s : fat_ok s → rewritten cs (file_bytes s cs) s s.
Proof. intros Hs. by split. Qed.

Lemma fat_same_rewritten cs data s s1 s2 :
  fat_ok s → fat_same s s1 → rewritten cs data s1 s2 → rewritten cs data s s2.
Proof.
  intros Hs Hs1 [Hok Hfs Hr Ht Hsz Hb Ho Hsy]. split; try done.
  - by rewrite Hfs, (same_fs _ _ Hs1).
  - by rewrite Hr, (same_root _ _ Hs1).
  - by rewrite Ht, (fat_same_table _ _ Hs1).
  - by rewrite Hsz, (same_size _ _ Hs1).
  - intros d Hd Hn. rewrite Ho by (rewrite ?(fat_same_table _ _ Hs1); done). by apply fat_same_cluster.
  - intros Hy. apply Hsy, (upd_synced _ _ _ _ (fat_same_upd _ _ Hs Hs1)), Hy.
Qed.

Lemma rewritten_same cs data s s1 s2 :
  rewritten cs data s s1 → fat_same s1 s2 → rewritten cs data s s2.
Proof.
  intros [Hok Hfs Hr Ht Hsz Hb Ho Hsy] Hs. split.
  - by eapply fat_same_ok.
  - by rewrite (same_fs _ _ Hs).
  - by rewrite (same_root _ _ Hs).
  - by rewrite (fat_same_table _ _ Hs).
  - by rewrite (same_size _ _ Hs).
  - by rewrite (file_bytes_same _ _ _ Hs).
  - intros d Hd Hn. rewrite (fat_same_cluster _ _ _ Hs). by apply Ho.
  - intros Hy. apply (upd_synced _ _ _ _ (fat_same_upd _ _ Hok Hs)), Hsy, Hy.
Qed.

(** The first cluster is written, then the rest. *)
Lemma rewritten_cons c cs new data s s1 s2 :
  fat_ok s → 0 ≤ c < zlen (table s) → NoDup (c :: cs) → (∀ d, d ∈ cs → 0 ≤ d < zlen (table s)) →
  fat_upd (table s) (λ d, if decide (d = c) then new else cluster_at s d) s s1 →
  rewritten cs data s1 s2 → rewritten (c :: cs) (new ++ data) s s2.
Proof.
  intros Hs Hc [Hn Hnd]%NoDup_cons Hr [Hok1 Hfs1 Hr1 Ht1 Hz1 Hc1 Hsy1] [Hok2 Hfs2 Hr2 Ht2 Hz2 Hb2 Ho2 Hsy2].
  split; try done; try congruence; auto.
  - unfold file_bytes in *. cbn [fmap list_fmap concat]. rewrite Hb2. f_equal.
    rewrite Ho2, Hc1 by (rewrite ?Ht1; done). by rewrite decide_True.
  - intros d Hd Hnin. rewrite Ho2, Hc1 by (rewrite ?Ht1; done || set_solver).
    rewrite decide_False by set_solver. done.
Qed.

(** The part of a round that prepares the cluster buffer. *)
Lemma wp_write_fill c off n rem buf B
    (Q : Z * list Z → fat_state D H → Prop) s :
  fat_ok s → on_device s c → B = 512 * spc s → zlen buf = B → Forall is_byte buf →
  0 ≤ off < B → 0 < rem → n = Z.min (B - off) rem →
  (∀ s' cb, fat_same s s' → heap s' = heap s → zlen cb = B → Forall is_byte cb →
     (∀ bs, zlen bs = n → splice cb (Z.to_nat off) bs = splice (cluster_at s c) (Z.to_nat off) bs) →
     Q (0, cb) s') →
  wp (if decide (0 < off ∨ rem < B) then fat_read_data_cluster c buf else mret (0, buf)) Q s.
Proof.
  intros Hs Hc -> Hb Hby Hoff Hrem -> HQ. pose proof (length_cluster_at s c Hs) as Hcl.
  pose proof (ok_spc s Hs). case_decide as Hpart.
  - apply wp_read_cluster; [done..|]. intros s' Hs' Hh. apply HQ; try done; [lia|by apply cluster_at_bytes].
  - apply wp_ret. apply HQ; try done. intros bs Hbs. replace off with 0 by lia.
    rewrite !splice_all; [done|lia|lia].
Qed.

Lemma wp_write_loop size buffer : ∀ fuel suf c off r buf (Q : Z → fat_state D H → Prop) s,
  fat_ok s → chain (table s) c suf → c ≠ 0 → 0 ≤ off < 512 * spc s →
  0 ≤ r ≤ size → size < 2147483648 → off + (size - r) ≤ zlen (file_bytes s suf) →
  zlen buf = 512 * spc s → Forall is_byte buf → Forall is_byte buffer → size ≤ zlen buffer →
  (1 ≤ fuel)%nat → (r < size → off + (size - r) ≤ (Z.of_nat fuel - 1) * (512 * spc s)) →
  (∀ s', rewritten suf (splice (file_bytes s suf) (Z.to_nat off)
                          (take (Z.to_nat (size - r)) (drop (Z.to_nat r) buffer))) s s' →
     heap s' = heap s → Q size s') →
  wp (iter fuel (write_round (512 * spc s) size buffer) (WriteLoop r off c buf)) Q s.
Proof.
  induction fuel as [|fuel IH];
    intros suf c off r buf Q s Hs Hc Hz Hoff Hr Hsz Hav Hb Hbb Hby Ho Hf Hfuel HQ; [lia|].
  cbn [iter]. apply wp_bind. unfold write_round at 1. destruct (decide (r = size)) as [->|Hne].
  { rewrite decide_False by lia. apply wp_ret, wp_ret. rewrite s32_small by lia. apply HQ; [|done].
    rewrite Z.sub_diag, take_0, splice_nil. by apply rewritten_refl. }
  rewrite decide_True by lia. pose proof (ok_spc s Hs) as Hspc.
  destruct (chain_head _ _ _ Hc) as [suf' ->]. pose proof (chain_NoDup _ _ _ Hc) as Hnd.
  pose proof (chain_in_range _ _ _ c Hc ltac:(set_solver)) as Hcr.
  set (n := (512 * spc s - off) `min` (size - r)). set (B := 512 * spc s) in *.
  pose proof (chain_on_device s c _ c Hs Hc ltac:(set_solver)) as Hdev.
  apply wp_bind. eapply (wp_write_fill c off n (size - r) buf B); [try done; lia..|].
  intros s1 cb Hs1 Hh1 Hcb Hcbb Hsp. cbv beta iota. rewrite decide_False by lia.
  rewrite (u32_small (B - off)) by lia. fold n. apply wp_bind. eapply wp_liftO.
  { apply memcpy_at_spec; [by apply Forall_drop|lia|lia|rewrite length_drop; lia|lia]. }
  set (bs := take (Z.to_nat n) (drop (Z.to_nat r) buffer)).
  assert (zlen bs = n) as Hbs by (unfold bs; rewrite length_take, length_drop; lia).
  rewrite Hsp by done. set (cl := cluster_at s c).
  assert (zlen cl = B) as Hcl by (unfold cl; rewrite length_cluster_at by done; lia).
  assert (length (splice cl (Z.to_nat off) bs) = length cl) as Hlcl by (apply length_splice; lia).
  assert (Forall is_byte (splice cl (Z.to_nat off) bs)) as Hnb.
  { unfold cl. rewrite <-(Hsp bs Hbs). unfold splice. rewrite !Forall_app.
    split_and!; [by apply Forall_take|by apply Forall_take, Forall_drop|by apply Forall_drop]. }
  apply wp_bind, wp_write_cluster; [by eapply fat_same_ok|by eapply same_on_device|
    rewrite (fat_same_spc _ _ Hs1); lia|done|].
  intros s2 Hu Hh2 _. rewrite decide_False by lia. rewrite (u32_small (r + n)) by lia.
  assert (fat_upd (table s) (λ d, if decide (d = c) then splice cl (Z.to_nat off) bs else cluster_at s d) s s2) as Hu2.
  { rewrite (fat_same_table _ _ Hs1) in Hu.
    eapply fat_upd_trans; [by apply fat_same_upd|]. eapply fat_upd_ext; [|exact Hu].
    intros d Hd. cbv beta. destruct (decide (d = c)); [done|by apply fat_same_cluster]. }
  pose proof (upd_ok _ _ _ _ Hu2) as Hok2. pose proof (upd_table _ _ _ _ Hu2) as Ht2.
  assert (spc s2 = spc s) as Hp2 by (unfold spc; by rewrite (upd_fs _ _ _ _ Hu2)).
  assert (file_bytes s (c :: suf') = cl ++ file_bytes s suf') as Hfb by done.
  assert (file_bytes s2 suf' = file_bytes s suf') as Hfb2.
  { apply NoDup_cons in Hnd as [Hnin _]. apply file_bytes_frame. intros d Hd.
    rewrite (upd_cluster _ _ _ _ Hu2) by (eapply chain_in_range; [done|set_solver]).
    by rewrite decide_False by set_solver. }
  assert (zlen (splice cl (Z.to_nat off) bs) = B) by lia.
  rewrite Hfb, length_app in Hav. rewrite Hfb in HQ. fold B.
  assert (∀ d, d ∈ suf' → 0 ≤ d < zlen (table s)) as Hrange.
  { intros d Hd. eapply chain_in_range; [done|set_solver]. }
  destruct (decide (r + n < size)) as [Hmore|Hlast].
  - inversion Hc as [c' v E He|c' v cs' E Hvne Hvz Hc']; subst.
    { unfold file_bytes in Hav. simpl in Hav. lia. }
    apply wp_bind. eapply wp_fat_entry; [by rewrite Ht2|]. apply wp_ret. unfold B. rewrite <-Hp2.
    apply (IH suf'); rewrite ?Hp2, ?Ht2, ?Hfb2; try done; try lia.
    intros s3 Hrw Hh3. apply HQ; [|congruence].
    replace (take (Z.to_nat (size - r)) (drop (Z.to_nat r) buffer)) with
      (bs ++ take (Z.to_nat (size - (r + n))) (drop (Z.to_nat (r + n)) buffer)).
    + rewrite splice_app_cross by lia. by eapply rewritten_cons.
    + unfold bs. replace (Z.to_nat (r + n)) with (Z.to_nat r + Z.to_nat n)%nat by lia.
      rewrite <-drop_drop, take_take_drop. f_equal. lia.
  - apply wp_ret. destruct fuel as [|fuel]; [lia|]. cbn [iter].
    apply wp_bind. unfold write_round at 1. rewrite decide_False by lia. apply wp_ret, wp_ret.
    rewrite s32_small by lia. replace (r + n) with size by lia. apply HQ; [|congruence].
    fold n in Hbs. replace (take (Z.to_nat (size - r)) _) with bs by (unfold bs; do 2 f_equal; lia).
    rewrite splice_app_l by lia. eapply rewritten_cons; try done.
Qed.

(** Rewriting the end of a chain rewrites the file. *)
Lemma rewritten_suffix cs k data c s s' :
  fat_ok s → chain (table s) c cs → (k ≤ length cs)%nat →
  rewritten (drop k cs) data s s' → rewritten cs (file_bytes s (take k cs) ++ data) s s'.
Proof.
  intros Hs Hc Hk [Hok Hfs Hr Ht Hsz Hb Ho Hsy].
  pose proof (chain_NoDup _ _ _ Hc) as Hnd. rewrite <-(take_drop k cs) in Hnd.
  apply list.NoDup_app in Hnd as (_ & Hdis & _). split; try done.
  - rewrite <-(take_drop k cs) at 1. unfold file_bytes. rewrite fmap_app, concat_app.
    fold (file_bytes s' (take k cs)) (file_bytes s' (drop k cs)). rewrite Hb. f_equal.
    apply file_bytes_frame. intros d Hd. apply Ho; [|by apply Hdis].
    eapply chain_in_range; [done|]. by apply (subseteq_take k cs).
  - intros d Hd Hn. apply Ho; [done|]. intros Hin. apply Hn.
    rewrite <-(take_drop k cs). set_solver.
Qed.

Lemma wp_write_clusters e cs offset size buffer n (Q : Z → fat_state D H → Prop) s :
  fat_ok s → file_ok s e cs → 0 ≤ offset → 0 < size → offset + size ≤ file_size e →
  size ≤ zlen buffer → Forall is_byte buffer →
  0 ≤ n → heap_room (heap_cost (512 * spc s) + n) (heap s) →
  (∀ s', rewritten cs (splice (file_bytes s cs) (Z.to_nat offset) (take (Z.to_nat size) buffer)) s s' →
         heap_room n (heap s') → Q size s') →
  wp (write_clusters e offset size buffer) Q s.
Proof.
  intros Hs Hf Hoff Hsz Hsum Hb Hbb Hn Hroom HQ. unfold write_clusters.
  pose proof (fo_size _ _ _ Hf). pose proof (fo_long _ _ _ Hf). pose proof (ok_spc s Hs).
  apply wp_bind, wp_gets. rewrite cluster_bytes_spc by done.
  destruct (offset_cluster s e cs offset Hs Hf) as (d & suf & Hd & Hc & Hd0 & Hsuf & Hm & Hdrop & Hleft); [lia|].
  apply wp_bind. eapply wp_of_done.
  { apply (seek_chain s _ cs _ d Hs (fo_chain _ _ _ Hf) (fo_start _ _ _ Hf) Hd). }
  cbv beta iota. apply wp_bind. eapply wp_heap_alloc; [lia|exact Hn|done|].
  intros p s1 Hp Hs1 _ Hr1. rewrite decide_False by done. unfold cleared. rewrite decide_False by done.
  apply wp_bind, wp_ret, wp_bind. rewrite <-(fat_same_spc _ _ Hs1).
  eapply (wp_write_loop size buffer _ suf d); rewrite ?(fat_same_spc _ _ Hs1), ?(file_bytes_same _ _ _ Hs1),
    ?(fat_same_table _ _ Hs1); try done; try lia.
  - by eapply fat_same_ok.
  - rewrite length_replicate. lia.
  - apply zeros_bytes.
  - intros _. rewrite Z.sub_0_r. apply rounds_enough; lia.
  - intros s2 Hrw Hh2. apply wp_bind. eapply wp_heap_free; [by rewrite Hh2|].
    intros s3 Hs3 _ Hr3. apply wp_ret. apply HQ; [|done].
    eapply rewritten_same; [|done]. eapply fat_same_rewritten; [done..|].
    set (B := 512 * spc s) in *. set (k := Z.to_nat (offset / B)) in *.
    assert (k < length cs)%nat by (by eapply lookup_lt_Some).
    rewrite Z.sub_0_r, drop_0 in Hrw. rewrite Hsuf in Hrw.
    eapply rewritten_suffix in Hrw; [|by eapply fat_same_ok|
      by rewrite (fat_same_table _ _ Hs1); apply Hf|lia].
    rewrite !(file_bytes_same _ _ _ Hs1) in Hrw.
    replace (splice (file_bytes s cs) (Z.to_nat offset) (take (Z.to_nat size) buffer)) with
      (file_bytes s (take k cs) ++ splice (file_bytes s (drop k cs)) (Z.to_nat (offset mod B)) (take (Z.to_nat size) buffer));
      [done|].
    rewrite <-splice_app_r. f_equal.
    + unfold file_bytes. by rewrite <-concat_app, <-fmap_app, take_drop.
    + rewrite length_file_bytes, length_take by done. pose proof (Z.div_mod offset B ltac:(lia)).
      pose proof (Z.div_pos offset B ltac:(lia) ltac:(lia)). nia.
Qed.

Lemma wp_fat_write_inside depth e pd cs offset size buffer n (Q : Z * FAT16_DirEntry → fat_state D H → Prop) s :
  fat_ok s → file_ok s e cs → 0 ≤ offset → 0 < size → offset + size ≤ file_size e →
  size ≤ zlen buffer → Forall is_byte buffer →
  0 ≤ n → heap_room (heap_cost (512 * spc s) + n) (heap s) →
  (∀ s', rewritten cs (splice (file_bytes s cs) (Z.to_nat offset) (take (Z.to_nat size) buffer)) s s' →
         heap_room n (heap s') → Q (size, e) s') →
  wp (fat_write_depth (S depth) e pd offset size buffer) Q s.
Proof.
  intros Hs Hf Hoff Hsz Hsum Hb Hbb Hn Hroom HQ. cbn [fat_write_depth].
  pose proof (fo_size _ _ _ Hf). pose proof (ok_spc s Hs).
  rewrite (fo_attr _ _ _ Hf), decide_False by lia.
  apply wp_bind, wp_gets. rewrite cluster_bytes_spc by done. rewrite decide_False by lia.
  rewrite u32_small, decide_False by lia. apply wp_bind, wp_ret. cbv beta iota.
  apply wp_bind. eapply wp_write_clusters; [done..|]. intros s' Hrw Hr. apply wp_ret. by apply HQ.
Qed.

(** fat_write inside a regular file returns the number of bytes asked for and
    replaces exactly those bytes of the file: the file's clusters read as before
    with the buffer spliced in at the offset, every other cluster, the table and
    the file's entry are unchanged. *)
Theorem fat_write_overwrites e pd cs offset size buffer n s :
  fat_ok s → file_ok s e cs → 0 ≤ offset → 0 < size → offset + size ≤ file_size e →
  size ≤ zlen buffer → Forall is_byte buffer →
  0 ≤ n → heap_room (heap_cost (512 * spc s) + n) (heap s) →
  wp (fat_write e pd offset size buffer)
     (λ res s', res = (size, e) ∧
        rewritten cs (splice (file_bytes s cs) (Z.to_nat offset) (take (Z.to_nat size) buffer)) s s') s.
Proof. intros. by eapply wp_fat_write_inside. Qed.

(** C2: what fat_write stores inside a file, fat_read at the same offset and size
    gives back, byte for byte. *)
Theorem fat_write_then_read e pd cs offset size buffer out n s :
  fat_ok s → file_ok s e cs → 0 ≤ offset → 0 < size → offset + size ≤ file_size e →
  zlen buffer = size → Forall is_byte buffer → zlen out = size →
  0 ≤ n → heap_room (heap_cost (512 * spc s) + (heap_cost (512 * spc s) + n)) (heap s) →
  wp (_ ← fat_write e pd offset size buffer; fat_read e offset size out)
     (λ res _, res = (size, buffer)) s.
Proof.
  intros Hs Hf Hoff Hsz Hsum Hb Hbb Ho Hn Hroom. pose proof (heap_cost_nonneg (512 * spc s)).
  pose proof (fo_size _ _ _ Hf) as Hfsz. pose proof (fo_long _ _ _ Hf) as Hlong.
  apply wp_bind. unfold fat_write.
  eapply (wp_fat_write_inside 1 e pd cs offset size buffer (heap_cost (512 * spc s) + n)); try done; [lia..|].
  intros s1 Hrw Hr1. pose proof (rw_ok _ _ _ _ Hrw) as Hok1.
  rewrite (take_ge buffer) in Hrw by lia. set (data := splice _ _ _) in Hrw.
  assert (spc s1 = spc s) as Hp by (unfold spc; by rewrite (rw_fs _ _ _ _ Hrw)).
  assert (length data = length (file_bytes s cs)) as Hdl by (apply length_splice; lia).
  eapply (wp_fat_read e cs offset size out n); try done; rewrite ?Hp; try done; try lia.
  - destruct Hf. split; rewrite ?(rw_table _ _ _ _ Hrw), ?(rw_bytes _ _ _ _ Hrw); try done. lia.
  - unfold bytes_wanted. case_decide; lia.
  - intros s2 _ _. rewrite (rw_bytes _ _ _ _ Hrw).
    assert (bytes_wanted e offset size = size) as -> by (unfold bytes_wanted; case_decide; lia).
    f_equal. unfold data. replace (Z.to_nat size) with (length buffer) by lia.
    rewrite take_drop_splice by lia. apply splice_all. lia.
Qed.

(** *** Truncating *)

(** A directory that lists the file [e] under the name [nm] in its slot [k]. *)
Record listed s (pd : FAT16_DirEntry) (ps : list Z) (e : FAT16_DirEntry) (nm : list Z) (k : nat) : Prop := {
  ls_chain : chain (table s) (start_cluster pd) ps;
  ls_entry : entry_ok e;
  ls_name : ∃ t, str_ok nm ∧ name e = nm ++ 0 :: t;
  ls_slot : fst <$> list_find (slot_named_exactly nm) (dir_slots s ps) = Some k;
}.

Lemma set_size_ok size e : entry_ok e → entry_ok (set_size size e).
Proof. intros [? ? ? ?]. split; try done. cbn. apply u32_range. Qed.

(** The directory update both truncations end with. *)
Lemma wp_store_entry pd ps e e' nm k n (Q : bool → fat_state D H → Prop) s :
  fat_ok s → listed s pd ps e nm k → entry_ok e' → name e' = name e →
  0 ≤ n → heap_room (heap_cost (512 * spc s) + n) (heap s) →
  (∀ s', slot_written ps k (encode e') s s' → heap_room n (heap s') → Q true s') →
  wp (fat_update_dir_entry (encode e') pd e') Q s.
Proof.
  intros Hs [Hc He (t & Hnm & Hname) Hslot] He' Hne Hn Hroom HQ.
  assert (∃ r, encode e' = nm ++ 0 :: r) as [r ->].
  { unfold encode. rewrite Hne, Hname, <-app_assoc. eauto. }
  eapply wp_update_dir_entry; [done..| |done|done|].
  { destruct (eo_name _ He) as [Hl _]. rewrite Hname, length_app in Hl. simpl in Hl. lia. }
  intros s' Hr. destruct (list_find _ _) as [[k' x]|]; [|done]. cbn in Hslot. simplify_eq. eauto.
Qed.

Lemma set_table_ok t s :
  fat_ok s → zlen t = zlen (table s) → Forall (λ v, 0 ≤ v < 65536) t →
  (∀ c v, aget t c = Some v → v ≠ 0 → aget (table s) c ≠ Some 0) → fat_ok (set_table (Some t) s).
Proof.
  intros Hs Hl Hf Hu. pose proof Hs as []. split; try done.
  - change (zlen t = 256 * sectors_per_fat (fat16_fs s)). congruence.
  - intros c v Hv Hz. change (aget t c = Some v) in Hv. change (on_device s c).
    pose proof (aget_lt_Some _ _ _ Hv) as Hr. rewrite Hl in Hr.
    destruct (aget_is_Some (table s) c Hr) as [w Hw]. apply (ok_used c w Hw).
    intros ->. by apply (Hu c v).
Qed.

(** The loop that shortens a chain frees its first clusters, in RAM only. *)
Lemma wp_cut_chain n : ∀ c cs d s (Q : Z → fat_state D H → Prop),
  fat_ok s → chain (table s) c cs → cs !! n = Some d →
  (∀ t, zlen t = zlen (table s) → Forall (λ v, 0 ≤ v < 65536) t →
     (∀ x, aget t x = if decide (x ∈ take n cs) then Some 0 else aget (table s) x) →
     Q d (set_table (Some t) s)) →
  wp (cut_chain c n) Q s.
Proof.
  induction n as [|n IH]; intros c cs d s Q Hs Hc Hd HQ; cbn [cut_chain].
  - destruct (chain_head _ _ _ Hc) as [cs' ->]. simplify_eq/=. apply wp_ret.
    specialize (HQ (table s) ltac:(done) (ok_entries s Hs) ltac:(done)).
    destruct (ok_table s Hs) as [t Ht]. unfold table in HQ. rewrite Ht in HQ. cbn in HQ.
    destruct s. cbn in Ht. subst. exact HQ.
  - pose proof (chain_in_range _ _ _ c Hc) as Hr. pose proof (chain_NoDup _ _ _ Hc) as Hnd.
    destruct Hc as [c v E He|c v cs E Hne Hnz Hc]; [done|]. cbn in Hd.
    apply NoDup_cons in Hnd as [Hcin _]. specialize (Hr ltac:(set_solver)).
    apply wp_bind. eapply wp_fat_entry; [done|]. apply wp_bind, wp_set_fat_entry; [done|].
    change (u16 FAT16_FREE_CLUSTER) with 0. set (t1 := <[Z.to_nat c := 0]> (table s)).
    assert (zlen t1 = zlen (table s)) as Hl1 by (unfold t1; by rewrite length_insert).
    assert (Forall (λ v, 0 ≤ v < 65536) t1) as Hf1 by (apply Forall_insert; [apply Hs|lia]).
    apply (IH v cs d); [apply set_table_ok; try done| |done|].
    + intros x w. unfold t1. rewrite aget_insert by done. case_decide; naive_solver.
    + apply (chain_frame (table s)); [|done]. intros x Hx. change (aget t1 x = aget (table s) x).
      unfold t1. rewrite aget_insert, decide_False by (done || set_solver). done.
    + intros t Hl Hf Ht. change (Q d (set_table (Some t) s)). apply HQ; [by rewrite Hl|done|].
      intros x. rewrite Ht. change (table (set_table (Some t1) s)) with t1. unfold t1.
      rewrite aget_insert, firstn_cons by done. destruct (decide (c = x)) as [->|Hcx].
      * rewrite (decide_True (P := x ∈ x :: _)) by set_solver. by case_decide.
      * destruct (decide (x ∈ take n cs)); [by rewrite decide_True by set_solver|].
        by rewrite decide_False by set_solver.
Qed.

(** C9: fat_truncate to a smaller size that needs fewer clusters reports success
    but loses the file: the loop frees clusters from the head of the chain, so
    the first cluster of the file, which the entry stored in the directory still
    names, is free afterwards and no chain starts there. *)
Theorem fat_truncate_shrink_loses_head e pd cs ps nm k size n s :
  fat_ok s → file_ok s e cs → listed s pd ps e nm k → (∀ x, x ∈ ps → x ∉ cs) →
  0 ≤ size < file_size e → size / (512 * spc s) + 1 < zlen cs →
  0 ≤ n → heap_room (heap_cost (512 * spc s) + n) (heap s) →
  wp (fat_truncate (mkFileData e pd) size)
     (λ res s', res = (0, mkFileData (set_size size e) pd) ∧
        dir_slots s' ps = <[k := encode (set_size size e)]> (dir_slots s ps) ∧
        aget (table s') (start_cluster (set_size size e)) = Some 0 ∧
        ∀ cs', ¬ chain (table s') (start_cluster e) cs') s.
Proof.
  intros Hs Hf Hl Hdis Hsz Hfew Hn Hroom. unfold fat_truncate, fat_truncate_with. cbn [file_entry parent_entry].
  pose proof (fo_size _ _ _ Hf) as Hfs. pose proof (ok_spc s Hs) as Hspc. pose proof (fo_chain _ _ _ Hf) as Hc.
  rewrite (fo_attr _ _ _ Hf), decide_False, decide_True by lia.
  apply wp_bind. eapply wp_of_done; [by apply fat_get_cluster_amount_chain|].
  apply wp_bind, wp_gets. rewrite cluster_bytes_spc by done. rewrite decide_False by lia.
  pose proof (chain_length _ _ _ Hc). pose proof (ok_length s Hs). pose proof (ok_spf s Hs).
  pose proof (Z.div_pos size (512 * spc s) ltac:(lia) ltac:(lia)) as Hq.
  rewrite !s32_small by lia. set (m := Z.to_nat _).
  destruct (lookup_lt_is_Some_2 cs m) as [d Hd]; [unfold m; lia|].
  assert (d ∈ cs) as Hdin by (by eapply list_elem_of_lookup_2).
  pose proof (chain_in_range _ _ _ _ Hc Hdin) as Hdr.
  apply wp_bind, (wp_cut_chain m _ cs d); [done..|]. intros t Hlt Hft Ht.
  apply wp_bind, wp_set_fat_entry; [change (0 ≤ d < zlen t); lia|].
  change (table (set_table (Some t) s)) with t. change (u16 FAT16_CLUSTER_CHAIN_END) with 65528.
  set (t' := <[Z.to_nat d := 65528]> t). set (s1 := set_table (Some t') _).
  assert (zlen t' = zlen (table s)) as Hlt' by (unfold t'; rewrite length_insert; lia).
  assert (fat_ok s1) as Hok1.
  { apply (set_table_ok t' s Hs Hlt'); unfold t'; [apply Forall_insert; [done|lia]|].
    intros x w. rewrite aget_insert by lia. case_decide as Hx.
    - subst x. intros _ _. by apply (chain_used _ _ _ _ Hc).
    - rewrite Ht. case_decide; naive_solver. }
  assert (∀ x, x ∉ cs → aget t' x = aget (table s) x) as Hkeep.
  { intros x Hx. unfold t'. rewrite aget_insert, decide_False, Ht, decide_False; [done| |set_solver|lia].
    intros Hin. by apply Hx, (subseteq_take m cs). }
  assert (aget t' (start_cluster e) = Some 0) as Hhead.
  { destruct (chain_head _ _ _ Hc) as [cs' Hcs]. destruct m as [|m'] eqn:Em; [unfold m in Em; lia|].
    pose proof (chain_NoDup _ _ _ Hc) as Hnd. rewrite Hcs in Hnd, Hd.
    apply NoDup_cons in Hnd as [Hnin _]. unfold t'. rewrite aget_insert by lia. rewrite decide_False.
    - rewrite Ht, Hcs. rewrite decide_True; [done|]. rewrite firstn_cons. set_solver.
    - intros ->. apply Hnin. by eapply list_elem_of_lookup_2. }
  apply wp_bind. cbn [file_entry parent_entry].
  eapply (wp_store_entry pd ps e (set_size size e) nm k n); try done.
  - destruct Hl as [Hpc He Hnm Hsl]. split; try done.
    apply (chain_frame (table s)); [|done]. intros x Hx. apply Hkeep. by apply Hdis.
  - by apply set_size_ok, Hl.
  - intros s2 Hw Hr. apply wp_ret. pose proof (sw_table _ _ _ _ _ Hw) as Ht2.
    change (table s1) with t' in Ht2. split; [done|]. split; [by rewrite (sw_slots _ _ _ _ _ Hw)|].
    rewrite Ht2. split; [done|]. intros cs' Hc'. destruct (chain_head _ _ _ Hc') as [cs2 ->].
    apply (chain_used _ _ _ _ Hc' (list_elem_of_here _ _) Hhead).
Qed.

(** *** Growing *)

(** The write of no bytes a growing truncation ends with. *)
Lemma wp_write_nothing depth e pd cs offset buf d n (Q : Z * FAT16_DirEntry → fat_state D H → Prop) s :
  fat_ok s → Z.land (attr e) FAT_ATTR_DIRECTORY = 0 → chain (table s) (start_cluster e) cs →
  start_cluster e ≠ 0 → 0 ≤ offset < 4294967296 → offset ≤ file_size e →
  cs !! Z.to_nat (offset / (512 * spc s)) = Some d →
  0 ≤ n → heap_room (heap_cost (512 * spc s) + n) (heap s) →
  (∀ s', fat_same s s' → heap_room n (heap s') → Q (0, e) s') →
  wp (fat_write_depth (S depth) e pd offset 0 buf) Q s.
Proof.
  intros Hs Ha Hc Hz Hoff Hle Hd Hn Hroom HQ. cbn [fat_write_depth]. pose proof (ok_spc s Hs).
  rewrite Ha, decide_False by lia. apply wp_bind, wp_gets.
  rewrite cluster_bytes_spc, decide_False by (done || lia).
  rewrite Z.add_0_r, u32_small, decide_False by lia. apply wp_bind, wp_ret. cbv beta iota.
  unfold write_clusters. apply wp_bind, wp_bind, wp_gets. rewrite cluster_bytes_spc by done.
  apply wp_bind. eapply wp_of_done; [by apply (seek_chain s _ cs _ d)|]. cbv beta iota.
  apply wp_bind. eapply wp_heap_alloc; [lia|exact Hn|done|]. intros p s1 Hp Hs1 _ Hr1.
  rewrite decide_False by done. unfold cleared. rewrite decide_False by done.
  apply wp_bind, wp_ret, wp_bind. rewrite Z.div_0_l by lia. cbn [Z.to_nat plus iter].
  apply wp_bind. unfold write_round at 1. rewrite decide_False by lia. apply wp_ret, wp_ret.
  apply wp_bind. eapply wp_heap_free; [done|]. intros s2 Hs2 _ Hr2. apply wp_ret, wp_ret.
  change (s32 0) with 0. apply HQ; [by etrans|done].
Qed.

(** [s'] is [s] after the file [e] of chain [cs], listed in slot [k] of the
    directory [ps], has grown to [size] bytes by the clusters [news]. *)
Record grown (e pd : FAT16_DirEntry) (cs ps news : list Z) (k : nat) (size : Z) s s' : Prop := {
  gr_ok : fat_ok s';
  gr_fs : fat16_fs s' = fat16_fs s;
  gr_count : zlen (cs ++ news) = size / (512 * spc s) + 1;
  gr_chain : chain (table s') (start_cluster e) (cs ++ news);
  gr_bytes : file_bytes s' (cs ++ news)
             = file_bytes s cs ++ replicate (length news * (512 * Z.to_nat (spc s))) 0;
  gr_parent : chain (table s') (start_cluster pd) ps;
  gr_slots : dir_slots s' ps = <[k := encode (set_size size e)]> (dir_slots s ps);
  gr_free : Forall (λ d, aget (table s) d = Some 0) news;
  gr_others d ds : chain (table s) d ds → (∀ x, x ∈ ds → x ∉ cs) → chain (table s') d ds;
  gr_kept d : 0 ≤ d < zlen (table s) → d ∉ cs ++ news → d ∉ ps → cluster_at s' d = cluster_at s d;
}.

Lemma file_bytes_zero s cs m :
  (∀ c, c ∈ cs → cluster_at s c = replicate m 0) → file_bytes s cs = replicate (length cs * m) 0.
Proof.
  intros Hz. unfold file_bytes. induction cs as [|c cs IH]; cbn [fmap list_fmap concat length]; [done|].
  rewrite Hz by set_solver. rewrite IH by set_solver. rewrite <-replicate_add. done.
Qed.

(** What growing needs: the clusters, the listed entry, the heap. *)
Record can_grow s (e pd : FAT16_DirEntry) (cs ps : list Z) (nm : list Z) (k : nat) (size n : Z) : Prop := {
  cg_file : file_ok s e cs;
  cg_listed : listed s pd ps e nm k;
  cg_disjoint x : x ∈ ps → x ∉ cs;
  cg_size : file_size e < size < 2147483648;
  cg_entry0 : aget (table s) 0 ≠ Some 0;
  cg_fewer : zlen cs ≤ size / (512 * spc s) + 1;
  cg_free : size / (512 * spc s) + 1 - zlen cs ≤ Z.of_nat (room s);
  cg_heap : heap_room ((size / (512 * spc s) + 1 - zlen cs) * heap_cost (512 * spc s)
              + (heap_cost (size - file_size e)
              + (heap_cost (512 * spc s) + (heap_cost (512 * spc s) + n)))) (heap s);
}.

Lemma appended_grown e pd cs ps news nm k size s s1 s2 :
  fat_ok s → file_ok s e cs → listed s pd ps e nm k → (∀ x, x ∈ ps → x ∉ cs) →
  appended (start_cluster e) cs news s s1 → zlen (cs ++ news) = size / (512 * spc s) + 1 →
  slot_written ps k (encode (set_size size e)) s1 s2 → grown e pd cs ps news k size s s2.
Proof.
  intros Hs Hf Hl Hdis Hap Hcnt Hw. pose proof (ls_chain _ _ _ _ _ _ Hl) as Hpc.
  pose proof (app_free _ _ _ _ _ Hap) as Hfree. rewrite list.Forall_forall in Hfree.
  assert (zlen (table s1) = zlen (table s)) as Hlen1.
  { pose proof (ok_length s1 (app_ok _ _ _ _ _ Hap)) as Hl1.
    rewrite (app_fs _ _ _ _ _ Hap) in Hl1. pose proof (ok_length s Hs). lia. }
  assert (∀ x, x ∈ ps → x ∉ news) as Hdisn.
  { intros x Hx Hn. by apply (chain_used _ _ _ _ Hpc Hx), Hfree. }
  assert (∀ x, x ∈ cs ++ news → x ∉ ps) as Hout.
  { intros x Hx Hp. apply elem_of_app in Hx as [Hx|Hx]; [by eapply Hdis|by eapply Hdisn]. }
  pose proof (app_chain _ _ _ _ _ Hap) as Hc1.
  split; try done.
  - apply Hw.
  - by rewrite (sw_fs _ _ _ _ _ Hw), (app_fs _ _ _ _ _ Hap).
  - by rewrite (sw_table _ _ _ _ _ Hw).
  - rewrite (file_bytes_frame s1).
    2: { intros c Hc. apply (sw_others _ _ _ _ _ Hw); [by eapply chain_in_range|by apply Hout]. }
    unfold file_bytes at 1. rewrite fmap_app, concat_app.
    fold (file_bytes s1 cs) (file_bytes s1 news). f_equal.
    + apply file_bytes_frame. intros c Hc. apply (app_kept _ _ _ _ _ Hap).
      * eapply chain_in_range; [apply Hf|done].
      * intros Hn. apply (chain_used _ _ _ _ (fo_chain _ _ _ Hf) Hc). by apply Hfree.
    + rewrite (file_bytes_zero s1 news (Z.to_nat (512 * spc s))).
      * f_equal. lia.
      * intros c Hc. by apply (app_cleared _ _ _ _ _ Hap).
  - rewrite (sw_table _ _ _ _ _ Hw). apply (app_others _ _ _ _ _ Hap); [done|]. intros x Hx. by apply Hdis.
  - rewrite (sw_slots _ _ _ _ _ Hw). f_equal. apply dir_slots_frame. intros c Hc.
    apply (app_kept _ _ _ _ _ Hap); [by eapply chain_in_range|by apply Hdisn].
  - apply Hap.
  - intros d ds Hd Hx. rewrite (sw_table _ _ _ _ _ Hw). by apply (app_others _ _ _ _ _ Hap).
  - intros d Hd Hn Hp. rewrite (sw_others _ _ _ _ _ Hw) by lia || done.
    apply (app_kept _ _ _ _ _ Hap); [done|]. intros Hx. apply Hn, elem_of_app. by right.
Qed.

Lemma wp_truncate_grow depth e pd cs ps nm k size n (Q : Z * FileData → fat_state D H → Prop) s :
  fat_ok s → can_grow s e pd cs ps nm k size n → 0 ≤ n →
  (∀ s' news, grown e pd cs ps news k size s s' → heap_room n (heap s') →
     Q (0, mkFileData (set_size size e) pd) s') →
  wp (fat_truncate_with (fat_write_depth (S depth)) (mkFileData e pd) size) Q s.
Proof.
  intros Hs [Hf Hl Hdis Hsz Hz0 Hfew Hfree Hroom] Hn HQ. unfold fat_truncate_with. cbn [file_entry parent_entry].
  pose proof (fo_size _ _ _ Hf) as Hfs. pose proof (ok_spc s Hs) as Hspc. pose proof (fo_chain _ _ _ Hf) as Hc.
  set (B := 512 * spc s) in *. set (C := heap_cost B) in *.
  pose proof (heap_cost_nonneg B) as HC. fold C in HC. pose proof (heap_cost_nonneg (size - file_size e)).
  pose proof (Z.div_pos size B ltac:(lia) ltac:(lia)) as Hq.
  assert (size / B < 2147483647) as Hq2 by (apply Z.div_lt_upper_bound; lia).
  pose proof (chain_length _ _ _ Hc). pose proof (ok_length s Hs). pose proof (ok_spf s Hs).
  rewrite (fo_attr _ _ _ Hf), decide_False, decide_False, decide_True by lia.
  apply wp_bind, wp_gets. rewrite cluster_bytes_spc by done. fold B. rewrite decide_False by lia.
  apply wp_bind. eapply wp_of_done; [by apply fat_get_cluster_amount_chain|].
  rewrite !s32_small by lia. apply wp_bind. eapply wp_mono.
  { eapply (wp_allocate_space s e cs _ (heap_cost (size - file_size e) + (C + (C + n)))); try done; lia. }
  intros ok s1 (-> & Hr1 & news & Hln & Hap). cbn [negb].
  pose proof (app_ok _ _ _ _ _ Hap) as Hok1.
  assert (spc s1 = spc s) as Hp1 by (unfold spc; by rewrite (app_fs _ _ _ _ _ Hap)).
  apply wp_bind. eapply (wp_heap_alloc _ (C + (C + n))); [lia|lia|done|]. intros p s2 Hp Hs2 _ Hr2.
  rewrite decide_False by done. unfold cleared. rewrite decide_False by done. apply wp_bind, wp_ret.
  pose proof (fat_same_ok _ _ Hs2 Hok1) as Hok2. pose proof (fat_same_spc _ _ Hs2) as Hp2.
  assert (u32 size = size) as Hu by (apply u32_small; lia).
  replace (u32 (size - file_size (set_size size e))) with 0 by (cbn; rewrite Hu, Z.sub_diag; done).
  change (file_size (set_size size e)) with (u32 size). rewrite Hu.
  assert (zlen (cs ++ news) = size / B + 1) as Hcnt by (rewrite length_app; lia).
  destruct (lookup_lt_is_Some_2 (cs ++ news) (Z.to_nat (size / B))) as [d Hd]; [lia|].
  apply wp_bind. eapply (wp_write_nothing depth (set_size size e) pd (cs ++ news) size _ d (C + n)); try done.
  - apply (fo_attr _ _ _ Hf).
  - rewrite (fat_same_table _ _ Hs2). apply Hap.
  - apply (fo_start _ _ _ Hf).
  - lia.
  - cbn. lia.
  - by rewrite Hp2, Hp1.
  - lia.
  - by rewrite Hp2, Hp1.
  - intros s3 Hs3 Hr3. cbv beta iota. apply wp_bind. eapply wp_heap_free; [done|]. intros s4 Hs4 _ Hr4.
    assert (fat_same s1 s4) as Hs14 by (do 2 (etrans; [eassumption|]); done).
    assert (listed s4 pd ps e nm k) as Hl4.
    { destruct Hl as [Hpc He Hnm Hsl]. split; try done.
      - rewrite (fat_same_table _ _ Hs14). apply (app_others _ _ _ _ _ Hap); [done|]. intros x Hx. by apply Hdis.
      - rewrite <-Hsl. f_equal. f_equal. apply dir_slots_frame. intros c Hcin.
        rewrite (fat_same_cluster _ _ _ Hs14). apply (app_kept _ _ _ _ _ Hap); [by apply (chain_in_range _ _ _ _ Hpc)|].
        intros Hn'. pose proof (app_free _ _ _ _ _ Hap) as Hfr. rewrite list.Forall_forall in Hfr.
        by apply (chain_used _ _ _ _ Hpc Hcin), Hfr. }
    apply wp_bind. cbn [file_entry parent_entry].
    eapply (wp_store_entry pd ps e (set_size size (set_size size e)) nm k n); try done.
    + by eapply fat_same_ok.
    + apply set_size_ok, set_size_ok, Hl.
    + rewrite (fat_same_spc _ _ Hs14), Hp1. done.
    + intros s5 Hw5 Hr5. apply wp_ret. apply (HQ s5 news); [|done].
      eapply (appended_grown e pd cs ps news nm k size s s1); try done.
      by apply (same_slot_written _ _ _ s1 s4).
Qed.

(** fat_truncate to a larger size, with enough free clusters, returns 0 and
    grows the file: its chain is extended to size / cluster + 1 clusters, its old
    clusters keep their bytes, the added ones read as zeros, and the directory
    slot of the file holds the entry with the new size. *)
Theorem fat_truncate_grows e pd cs ps nm k size n s :
  fat_ok s → can_grow s e pd cs ps nm k size n → 0 ≤ n →
  wp (fat_truncate (mkFileData e pd) size)
     (λ res s', res = (0, mkFileData (set_size size e) pd) ∧
        ∃ news, grown e pd cs ps news k size s s') s.
Proof. intros. eapply (wp_truncate_grow 0); try done. intros s' news Hg _. eauto. Qed.

(** C8: fat_write past the end of a file returns the number of bytes asked for and the
    entry with its new size.  The file's chain is its old clusters and then clusters
    that were free, as many as the new size needs; the old clusters keep all their
    bytes and the added ones are cleared, with the buffer stored at the offset.  The
    bytes between the old size and the end of the old last cluster are therefore what
    they were, zero or not: nothing clears them.  The directory's slot of the file
    holds the entry with the new size, no other slot changes, and all other chains and
    the bytes of all other clusters are as before.  Two levels of the mutual recursion
    with fat_truncate are enough. *)
Theorem fat_write_extends e pd cs ps nm k offset size buffer n s :
  fat_ok s → can_grow s e pd cs ps nm k (offset + size) (heap_cost (512 * spc s) + n) → 0 ≤ n →
  0 ≤ offset → 0 < size → size ≤ zlen buffer → Forall is_byte buffer →
  wp (fat_write e pd offset size buffer)
     (λ res s', res = (size, set_size (offset + size) e) ∧ fat_ok s' ∧
        ∃ news, chain (table s') (start_cluster e) (cs ++ news) ∧
          zlen (cs ++ news) = (offset + size) / (512 * spc s) + 1 ∧ Forall (λ d, aget (table s) d = Some 0) news ∧
          file_bytes s' (cs ++ news) =
            splice (file_bytes s cs ++ replicate (length news * (512 * Z.to_nat (spc s))) 0)
                   (Z.to_nat offset) (take (Z.to_nat size) buffer) ∧
          dir_slots s' ps = <[k := encode (set_size (offset + size) e)]> (dir_slots s ps) ∧
          (∀ d ds, chain (table s) d ds → (∀ x, x ∈ ds → x ∉ cs) → chain (table s') d ds) ∧
          ∀ d, 0 ≤ d < zlen (table s) → d ∉ cs ++ news → d ∉ ps → cluster_at s' d = cluster_at s d) s.
Proof.
  intros Hs Hg Hn Hoff Hsz Hb Hbb. unfold fat_write. cbn [fat_write_depth].
  pose proof (cg_file _ _ _ _ _ _ _ _ _ Hg) as Hf. pose proof (cg_size _ _ _ _ _ _ _ _ _ Hg) as Hgs.
  pose proof (fo_size _ _ _ Hf). pose proof (ok_spc s Hs). pose proof (heap_cost_nonneg (512 * spc s)).
  rewrite (fo_attr _ _ _ Hf), decide_False by lia.
  apply wp_bind, wp_gets. rewrite cluster_bytes_spc, decide_False by (done || lia).
  rewrite (u32_small (offset + size)), decide_True by lia.
  apply wp_bind, wp_bind. eapply (wp_truncate_grow 0 e pd cs ps nm k _ (heap_cost (512 * spc s) + n)); try done; [lia|].
  intros s1 news Hgr Hr1. cbv beta iota. rewrite decide_False by lia. apply wp_ret. cbv beta iota.
  cbn [file_entry]. pose proof (gr_ok _ _ _ _ _ _ _ _ _ Hgr) as Hok1.
  assert (spc s1 = spc s) as Hp1 by (unfold spc; by rewrite (gr_fs _ _ _ _ _ _ _ _ _ Hgr)).
  apply wp_bind. eapply (wp_write_clusters _ (cs ++ news) offset size buffer n); try done; rewrite ?Hp1; try done.
  - split; cbn.
    + apply (fo_attr _ _ _ Hf).
    + apply Hgr.
    + apply (fo_start _ _ _ Hf).
    + rewrite u32_small by lia. lia.
    + rewrite u32_small, length_file_bytes, Hp1 by (done || lia).
      pose proof (gr_count _ _ _ _ _ _ _ _ _ Hgr) as Hcnt.
      pose proof (Z.div_mod (offset + size) (512 * spc s) ltac:(lia)).
      pose proof (Z.mod_pos_bound (offset + size) (512 * spc s) ltac:(lia)). nia.
  - cbn. rewrite u32_small by lia. lia.
  - intros s2 Hrw Hr2. apply wp_ret. split; [done|]. split; [apply Hrw|]. exists news.
    assert (zlen (table s1) = zlen (table s)) as Hlen.
    { pose proof (ok_length s1 Hok1) as Hl1. rewrite (gr_fs _ _ _ _ _ _ _ _ _ Hgr) in Hl1. pose proof (ok_length s Hs). lia. }
    assert (∀ d, 0 ≤ d < zlen (table s) → d ∉ cs ++ news → cluster_at s2 d = cluster_at s1 d) as Hkept.
    { intros d Hd Hn'. apply (rw_others _ _ _ _ Hrw); [lia|done]. }
    assert (∀ x, x ∈ ps → x ∉ cs ++ news) as Hout.
    { intros x Hx [Hc|Hc]%elem_of_app; [by eapply (cg_disjoint _ _ _ _ _ _ _ _ _ Hg)|].
      apply (chain_used _ _ _ _ (ls_chain _ _ _ _ _ _ (cg_listed _ _ _ _ _ _ _ _ _ Hg)) Hx).
      pose proof (gr_free _ _ _ _ _ _ _ _ _ Hgr) as Hfr. rewrite list.Forall_forall in Hfr. by apply Hfr. }
    rewrite (rw_table _ _ _ _ Hrw), (rw_bytes _ _ _ _ Hrw), (gr_bytes _ _ _ _ _ _ _ _ _ Hgr).
    split; [apply Hgr|]. split; [apply Hgr|]. split; [apply Hgr|]. split; [done|]. split; [|split; [apply Hgr|]].
    + rewrite <-(gr_slots _ _ _ _ _ _ _ _ _ Hgr). apply dir_slots_frame. intros c Hc. apply Hkept; [|by apply Hout].
      eapply chain_in_range; [apply (cg_listed _ _ _ _ _ _ _ _ _ Hg)|done].
    + intros d Hd Hn' Hp. rewrite Hkept by done. by apply (gr_kept _ _ _ _ _ _ _ _ _ Hgr).
Qed.
End specs.

(** ** The theorems at work on the example volume *)

Lemma demo_file : file_ok Demo.state Demo.file_a [2; 3].
Proof.
  split; [reflexivity|apply Demo.file_chain|done|cbn; lia|].
  rewrite length_file_bytes by apply Demo.state_ok. vm_compute. congruence.
Qed.

Lemma demo_listed : listed Demo.state Demo.root [0] Demo.file_a [65] 0.
Proof.
  split; [apply Demo.root_chain|apply Demo.file_a_ok| |vm_compute; reflexivity].
  exists (replicate 9 0). split; [by_decide|reflexivity].
Qed.

Lemma demo_grow size n :
  1024 ≤ size < 2048 → 0 ≤ n ≤ 500000 → can_grow Demo.state Demo.file_a Demo.root [2; 3] [0] [65] 0 size n.
Proof.
  intros Hsize Hn. assert (2 ≤ size / 512 ≤ 3) as Hq.
  { split; [apply Z.div_le_lower_bound; lia|]. assert (size / 512 < 4) by (apply Z.div_lt_upper_bound; lia). lia. }
  split.
  - apply demo_file.
  - apply demo_listed.
  - set_solver.
  - cbn. lia.
  - vm_compute. congruence.
  - change (512 * spc Demo.state) with 512. cbn [length]. lia.
  - change (512 * spc Demo.state) with 512. cbn [length].
    change (room Demo.state) with 252%nat. lia.
  - change (512 * spc Demo.state) with 512. cbn [length]. cbn [heap_room heap_cost bump_laws].
    split; [|done]. change (file_size Demo.file_a) with 600. cbn [heap Demo.state Demo.volume bump_left]. lia.
Qed.

Lemma fat_read_reads_witness :
  wp (fat_read Demo.file_a 500 200 (replicate 200 7))
     (λ res s', res.1 = 100 ∧
        res.2 = take 100 (drop 500 (file_bytes Demo.state [2; 3])) ++ drop 100 (replicate 200 7) ∧
        fat_same Demo.state s') Demo.state.
Proof.
  apply (fat_read_reads Demo.file_a [2; 3] 500 200 (replicate 200 7) 0 Demo.state);
    [apply Demo.state_ok|apply demo_file|lia|lia|lia|vm_compute; congruence|lia|
     vm_compute; split; [congruence|done]].
Defined.

Lemma fat_write_overwrites_witness :
  wp (fat_write Demo.file_a Demo.root 510 4 [1; 2; 3; 4])
     (λ res s', res = (4, Demo.file_a) ∧
        rewritten [2; 3] (splice (file_bytes Demo.state [2; 3]) (Z.to_nat 510) (take (Z.to_nat 4) [1; 2; 3; 4]))
          Demo.state s') Demo.state.
Proof.
  apply (fat_write_overwrites Demo.file_a Demo.root [2; 3] 510 4 [1; 2; 3; 4] 0 Demo.state);
    [apply Demo.state_ok|apply demo_file|lia|lia|cbn; lia|cbn; lia|by_decide|lia|
     vm_compute; split; [congruence|done]].
Defined.

Lemma fat_write_then_read_witness :
  wp (_ ← fat_write Demo.file_a Demo.root 510 4 [1; 2; 3; 4];
      fat_read Demo.file_a 510 4 (replicate 4 0))
     (λ res _, res = (4, [1; 2; 3; 4])) Demo.state.
Proof.
  apply (fat_write_then_read Demo.file_a Demo.root [2; 3] 510 4 [1; 2; 3; 4] (replicate 4 0) 0 Demo.state);
    [apply Demo.state_ok|apply demo_file|lia|lia|cbn; lia|reflexivity|by_decide|reflexivity|lia|
     vm_compute; split; [congruence|done]].
Defined.

Lemma fat_truncate_shrink_loses_head_witness :
  wp (fat_truncate (mkFileData Demo.file_a Demo.root) 100)
     (λ res s', res = (0, mkFileData (set_size 100 Demo.file_a) Demo.root) ∧
        dir_slots s' [0] = <[0%nat := encode (set_size 100 Demo.file_a)]> (dir_slots Demo.state [0]) ∧
        aget (table s') (start_cluster (set_size 100 Demo.file_a)) = Some 0 ∧
        ∀ cs', ¬ chain (table s') (start_cluster Demo.file_a) cs') Demo.state.
Proof.
  apply (fat_truncate_shrink_loses_head Demo.file_a Demo.root [2; 3] [0] [65] 0 100 0 Demo.state);
    [apply Demo.state_ok|apply demo_file|apply demo_listed|set_solver|cbn; lia|vm_compute; reflexivity|lia|
     vm_compute; split; [congruence|done]].
Defined.

Lemma fat_truncate_grows_witness :
  wp (fat_truncate (mkFileData Demo.file_a Demo.root) 1500)
     (λ res s', res = (0, mkFileData (set_size 1500 Demo.file_a) Demo.root) ∧
        ∃ news, grown Demo.file_a Demo.root [2; 3] [0] news 0 1500 Demo.state s') Demo.state.
Proof.
  apply (fat_truncate_grows Demo.file_a Demo.root [2; 3] [0] [65] 0 1500 0 Demo.state);
    [apply Demo.state_ok|apply demo_grow; lia|lia].
Defined.

Lemma fat_write_extends_witness :
  wp (fat_write Demo.file_a Demo.root 1200 3 [9; 8; 7])
     (λ res s', res = (3, set_size (1200 + 3) Demo.file_a) ∧ fat_ok s' ∧
        ∃ news, chain (table s') 2 ([2; 3] ++ news) ∧
          zlen ([2; 3] ++ news) = (1200 + 3) / (512 * spc Demo.state) + 1 ∧ Forall (λ d, aget (table Demo.state) d = Some 0) news ∧
          file_bytes s' ([2; 3] ++ news) =
            splice (file_bytes Demo.state [2; 3]
                      ++ replicate (length news * (512 * Z.to_nat (spc Demo.state))) 0)
                   (Z.to_nat 1200) (take (Z.to_nat 3) [9; 8; 7]) ∧
          dir_slots s' [0] = <[0%nat := encode (set_size (1200 + 3) Demo.file_a)]> (dir_slots Demo.state [0]) ∧
          (∀ d ds, chain (table Demo.state) d ds → (∀ x, x ∈ ds → x ∉ [2; 3]) → chain (table s') d ds) ∧
          ∀ d, 0 ≤ d < zlen (table Demo.state) → d ∉ [2; 3] ++ news → d ∉ [0] →
            cluster_at s' d = cluster_at Demo.state d) Demo.state.
Proof.
  apply (fat_write_extends Demo.file_a Demo.root [2; 3] [0] [65] 0 1200 3 [9; 8; 7] 0 Demo.state);
    [apply Demo.state_ok|apply demo_grow; cbn; lia|lia|lia|lia|cbn; lia|by_decide].
Defined.
