(* ===== verification/Io.v ===== *)
(** * Port input and output: util/io/io.c

    A device is seen through its ports.  The instructions of io.c are the
    operations of the class [Ports]; what a device answers is not part of the
    kernel, so every driver is verified against an arbitrary instance, or against
    one that satisfies the documented behaviour of its device. *)

From S2P Require Import Prelude.

Class Ports (D : Type) := {
  port_in : Z → D → Z * D;
  port_out : Z → Z → D → D;
  port_in_word : Z → D → Z * D;
  port_out_word : Z → Z → D → D;
  port_in_long : Z → D → Z * D;
  port_out_long : Z → Z → D → D;
}.

(** ** The functions of io.c *)

Section io.
Context {D : Type} `{Ports D}.

Definition io_in_byte (port : Z) : M D Z := λ d, let '(v, d') := port_in (u16 port) d in Done (u8 v, d').
Definition io_out_byte (port val : Z) : M D unit := λ d, Done (tt, port_out (u16 port) (u8 val) d).
Definition io_in_word (port : Z) : M D Z :=
  λ d, let '(v, d') := port_in_word (u16 port) d in Done (u16 v, d').
Definition io_out_word (port val : Z) : M D unit := λ d, Done (tt, port_out_word (u16 port) (u16 val) d).
Definition io_in_long (port : Z) : M D Z :=
  λ d, let '(v, d') := port_in_long (u16 port) d in Done (u32 v, d').
Definition io_out_long (port val : Z) : M D unit := λ d, Done (tt, port_out_long (u16 port) (u32 val) d).
(** A write to an unused port takes long enough. *)
Definition io_wait : M D unit := io_out_byte 128 0.

Lemma wp_io_out_byte port val (Q : unit → D → Prop) d :
  Q tt (port_out (u16 port) (u8 val) d) → wp (io_out_byte port val) Q d.
Proof. done. Qed.
Lemma wp_io_out_word port val (Q : unit → D → Prop) d :
  Q tt (port_out_word (u16 port) (u16 val) d) → wp (io_out_word port val) Q d.
Proof. done. Qed.
Lemma wp_io_in_byte port (Q : Z → D → Prop) d :
  Q (u8 (port_in (u16 port) d).1) (port_in (u16 port) d).2 → wp (io_in_byte port) Q d.
Proof. unfold wp, io_in_byte. by destruct (port_in (u16 port) d). Qed.
Lemma wp_io_in_word port (Q : Z → D → Prop) d :
  Q (u16 (port_in_word (u16 port) d).1) (port_in_word (u16 port) d).2 → wp (io_in_word port) Q d.
Proof. unfold wp, io_in_word. by destruct (port_in_word (u16 port) d). Qed.
End io.

(** ** A device that latches: a port reads back the last byte written to it *)

Record latches := Latches { latch : gmap Z Z; writes_log : list (Z * Z) }.

#[export] Instance latch_ports : Ports latches := {
  port_in p d := (default 0 (latch d !! p), d);
  port_out p v d := Latches (<[p := v]> (latch d)) (writes_log d ++ [(p, v)]);
  port_in_word p d := (default 0 (latch d !! p), d);
  port_out_word p v d := Latches (<[p := v]> (latch d)) (writes_log d ++ [(p, v)]);
  port_in_long p d := (default 0 (latch d !! p), d);
  port_out_long p v d := Latches (<[p := v]> (latch d)) (writes_log d ++ [(p, v)]);
}.
