(* ===== verification/Vga.v ===== *)
(** * The text screen: drivers/vga/vga.c

    2000 cells of a character and a colour, the cursor in two variables, and the
    position the CRT controller is told.  The cursor's column may be 80: the line
    is full and the next character goes to the next one.  Counted from the top
    left, position [row * 80 + column] is what the functions advance. *)

From S2P Require Import Prelude CString Io.

(** ** Definitions *)

Definition screen_width : Z := 80.
Definition screen_height : Z := 25.
Definition VGA_COLOR_BLACK : Z := 0.
Definition VGA_COLOR_RED : Z := 4.
Definition VGA_COLOR_PINK : Z := 13.
Definition VGA_COLOR_WHITE : Z := 15.

Record vga_char := VgaChar { ascii_code : Z; color : Z }.

Record vga (D : Type) := Vga {
  vga_buffer : list vga_char;
  vga_curr_column : Z;
  vga_curr_row : Z;
  vga_ports : D;
}.
Arguments Vga {D}.
Arguments vga_buffer {D}.
Arguments vga_curr_column {D}.
Arguments vga_curr_row {D}.
Arguments vga_ports {D}.

Section operations.
Context {D : Type} `{Ports D}.
Implicit Types v : vga D.

Definition set_buffer (b : list vga_char) v : vga D := Vga b (vga_curr_column v) (vga_curr_row v) (vga_ports v).
Definition set_column (c : Z) v : vga D := Vga (vga_buffer v) (u16 c) (vga_curr_row v) (vga_ports v).
Definition set_row (r : Z) v : vga D := Vga (vga_buffer v) (vga_curr_column v) (u16 r) (vga_ports v).
Definition set_ports (p : D) v : vga D := Vga (vga_buffer v) (vga_curr_column v) (vga_curr_row v) p.

Definition get_cell (i : Z) : M (vga D) vga_char := reads vga_buffer i.
Definition put_cell (i : Z) (c : vga_char) : M (vga D) unit := writes vga_buffer set_buffer i c.
Definition out (port val : Z) : M (vga D) unit := zoom vga_ports set_ports (io_out_byte port val).

Definition emptyChar : vga_char := VgaChar 32 VGA_COLOR_WHITE.

Definition vga_init : M (vga D) unit :=
  _ ← for_from 0 25 (λ row, for_from 0 80 (λ col, put_cell (row * 80 + col) emptyChar));
  _ ← modify (set_column 0);
  modify (set_row 0).

Definition vga_scroll : M (vga D) unit :=
  _ ← for_from 1 24 (λ row, for_from 0 80 (λ col,
        c ← get_cell (row * screen_width + col);
        put_cell ((row - 1) * screen_width + col) c));
  for_from 0 80 (λ col, put_cell ((screen_height - 1) * screen_width + col) emptyChar).

Definition vga_line_down : M (vga D) unit :=
  _ ← modify (set_column 0);
  row ← gets vga_curr_row;
  if decide (row = screen_height - 1) then vga_scroll else modify (set_row (row + 1)).

Definition move_cursor (x y : Z) : M (vga D) unit :=
  let pos := u16 (y * 80 + x) in
  _ ← out 0x3D4 0x0F;
  _ ← out 0x3D5 (Z.land pos 0xFF);
  _ ← out 0x3D4 0x0E;
  out 0x3D5 (Z.land (Z.shiftr pos 8) 0xFF).

Definition update_cursor : M (vga D) unit :=
  v ← get; move_cursor (vga_curr_column v) (vga_curr_row v).

Definition vga_del_char : M (vga D) unit :=
  v ← get;
  _ ← (if decide (vga_curr_column v = 0) then
         if decide (0 < vga_curr_row v)
         then _ ← modify (set_row (vga_curr_row v - 1)); modify (set_column (screen_width - 1))
         else mret tt
       else modify (set_column (vga_curr_column v - 1)));
  v ← get;
  _ ← put_cell (vga_curr_column v + vga_curr_row v * screen_width) emptyChar;
  update_cursor.

(** ['\n'] is 10, ['\b'] is 8. *)
Definition vga_putchar_colored (c bg ch_color : Z) : M (vga D) unit :=
  if decide (c = 10) then _ ← vga_line_down; update_cursor else
  if decide (c = 8) then vga_del_char else
  v ← get;
  _ ← (if decide (vga_curr_column v = screen_width) then vga_line_down
       else if decide (vga_curr_row v = screen_height) then
         _ ← modify (set_column 0);
         _ ← vga_scroll;
         modify (set_row (vga_curr_row v - 1))
       else mret tt);
  v ← get;
  _ ← put_cell (vga_curr_column v + vga_curr_row v * screen_width)
        (VgaChar c (u8 (Z.lor ch_color (Z.shiftl bg 4))));
  _ ← modify (set_column (vga_curr_column v + 1));
  update_cursor.

Definition vga_putchar (c : Z) : M (vga D) unit := vga_putchar_colored c VGA_COLOR_BLACK VGA_COLOR_WHITE.

(** [while ( *s)] *)
Fixpoint vga_putstring_colored (s : list Z) (bg ch_color : Z) : M (vga D) unit :=
  match s with
  | [] => fault
  | c :: s' => if decide (c ≠ 0)
               then _ ← vga_putchar_colored c bg ch_color; vga_putstring_colored s' bg ch_color
               else mret tt
  end.
Definition vga_putstring (s : list Z) : M (vga D) unit :=
  vga_putstring_colored s VGA_COLOR_BLACK VGA_COLOR_WHITE.

(** The variable arguments of [vga_printf]. *)
Inductive va := VaInt (n : Z) | VaStr (s : list Z).

(** [buffer] keeps its contents from one conversion to the next. *)
Fixpoint vga_printf_loop (format : list Z) (buffer : list Z) (args : list va) : M (vga D) unit :=
  match format with
  | [] => fault
  | c :: rest =>
      if decide (c = 0) then mret tt else
      if decide (c = 37 (* % *)) then
        match rest with
        | [] => fault
        | f :: rest' =>
            if decide (f = 100 (* d *) ∨ f = 120 (* x *)) then
              match args with
              | VaInt n :: args' =>
                  buffer ← liftO (itoa n buffer (if decide (f = 100) then 10 else 16));
                  _ ← vga_putstring buffer;
                  vga_printf_loop rest' buffer args'
              | _ => fault
              end
            else if decide (f = 115 (* s *)) then
              match args with
              | VaStr str :: args' => _ ← vga_putstring str; vga_printf_loop rest' buffer args'
              | _ => fault
              end
            else _ ← vga_putstring (if decide (f = 37) then [37; 0] else [63; 0]);
                 vga_printf_loop rest' buffer args
        end
      else _ ← vga_putstring [c; 0]; vga_printf_loop rest buffer args
  end.
Definition vga_printf (format : list Z) (args : list va) : M (vga D) unit :=
  vga_printf_loop format (replicate 32 0) args.

(** [while(1) cli; hlt]: the run never returns, whatever the fuel. *)
Definition halted {S A} : M S A := λ _, Timeout.
Definition panic_screen (panic_message : list Z) : M (vga D) unit :=
  _ ← vga_putstring_colored panic_message VGA_COLOR_RED VGA_COLOR_WHITE;
  halted.

Definition put_lines (lines : list string) (ch_color : Z) : M (vga D) unit :=
  foldr (λ l rest, _ ← vga_putstring_colored (lit l ++ [10; 0]) VGA_COLOR_BLACK ch_color; rest) (mret tt) lines.

Definition print_logo : M (vga D) unit :=
  put_lines [
    "____________       _ _____ _____ ";
    "|  _  \ ___ \     | |  _  /  ___|";
    "| | | | |_/ / ___ | | | | \ `--. ";
    "| | | | ___ \/ _ \| | | | |`--. \";
    "| |/ /| |_/ / (_) | \ \_/ /\__/ /";
    "|___/ \____/ \___/|_|\___/\____/ "]%string VGA_COLOR_PINK.

Definition print_bye : M (vga D) unit :=
  put_lines [
    "  ____             ";
    " |  _ \            ";
    " | |_) |_   _  ___ ";
    " |  _ <| | | |/ _ \";
    " | |_) | |_| |  __/";
    " |____/ \__, |\___|";
    "         __/ |     ";
    "        |___/      "]%string VGA_COLOR_RED.
End operations.

(** ** Well-formed screens *)

Record vga_ok {D} (v : vga D) : Prop := {
  vo_cells : length (vga_buffer v) = 2000%nat;
  vo_column : 0 ≤ vga_curr_column v ≤ 80;
  vo_row : 0 ≤ vga_curr_row v ≤ 24;
}.

(** The position the cursor variables stand for. *)
Definition position {D} (v : vga D) : Z := vga_curr_row v * 80 + vga_curr_column v.

(** The controller after it has been told [pos]. *)
Definition crt {D} `{Ports D} (pos : Z) (d : D) : D :=
  port_out 0x3D5 (pos / 256) (port_out 0x3D4 0x0E (port_out 0x3D5 (pos mod 256) (port_out 0x3D4 0x0F d))).

Section specs.
Context {D : Type} `{Ports D}.
Implicit Types v : vga D.

Lemma wp_put_cell i c (Q : unit → vga D → Prop) v :
  0 ≤ i < zlen (vga_buffer v) → Q tt (set_buffer (<[Z.to_nat i := c]> (vga_buffer v)) v) →
  wp (put_cell i c) Q v.
Proof. intros. by apply wp_writes. Qed.

(** The screen moved up by one line. *)
Definition scrolled (b : list vga_char) : list vga_char := drop 80 b ++ replicate 80 emptyChar.

Lemma length_scrolled b : length b = 2000%nat → length (scrolled b) = 2000%nat.
Proof. intros Hl. unfold scrolled. rewrite length_app, length_drop, length_replicate. lia. Qed.

(** Part of the copy done: the first [k] cells hold what was a line below. *)
Definition moved (b : list vga_char) (k : Z) (b' : list vga_char) : Prop :=
  length b' = length b ∧ ∀ i, b' !! i = if decide (Z.of_nat i < k) then b !! (i + 80)%nat else b !! i.

Lemma moved_step b k b' c :
  moved b k b' → 0 ≤ k → k + 80 < zlen b → aget b' (k + 80) = Some c →
  moved b (k + 1) (<[Z.to_nat k := c]> b').
Proof.
  intros [Hl Hm] Hk Hb [_ Hc]%aget_Some. split; [by rewrite length_insert|]. intros i.
  destruct (decide (i = Z.to_nat k)) as [->|Hne].
  - rewrite list_lookup_insert_eq by lia. rewrite decide_True by lia. rewrite <-Hc, Hm.
    rewrite decide_False by lia. f_equal. lia.
  - rewrite list_lookup_insert_ne by done. rewrite Hm. repeat case_decide; try lia; done.
Qed.

Lemma wp_scroll (Q : unit → vga D → Prop) v :
  length (vga_buffer v) = 2000%nat → Q tt (set_buffer (scrolled (vga_buffer v)) v) →
  wp vga_scroll Q v.
Proof.
  intros Hl HQ. unfold vga_scroll. set (b := vga_buffer v).
  apply wp_bind. eapply (wp_for (λ row w, ∃ b', w = set_buffer b' v ∧ moved b ((row - 1) * 80) b')).
  { exists b. split; [by destruct v|]. split; [done|]. intros i. by rewrite decide_False by lia. }
  2: { intros w (b' & -> & Hm). cbn [Z.of_nat Z.add] in Hm.
       eapply (wp_for (λ col w, ∃ b2, w = set_buffer b2 v ∧ length b2 = 2000%nat ∧
         ∀ i, b2 !! i = if decide (Z.of_nat i < 1920) then b !! (i + 80)%nat
                        else if decide (Z.of_nat i < 1920 + col) then Some emptyChar else b' !! i)).
       - exists b'. destruct Hm as [Hl' Hm]. split; [done|]. split; [unfold b in *; lia|]. intros i.
         rewrite Hm. repeat case_decide; try lia; done.
       - intros col w Hcol (b2 & -> & Hl2 & Hb2). apply wp_put_cell.
         { cbn [vga_buffer set_buffer]. unfold screen_height, screen_width. lia. }
         eexists. split; [done|]. cbn [vga_buffer set_buffer]. split; [by rewrite length_insert|].
         unfold screen_height, screen_width. intros i.
         destruct (decide (i = Z.to_nat ((25 - 1) * 80 + col))) as [->|Hne].
         + rewrite list_lookup_insert_eq by lia. rewrite decide_False, decide_True by lia. done.
         + rewrite list_lookup_insert_ne by done. rewrite Hb2. repeat case_decide; try lia; done.
       - intros w (b2 & -> & Hl2 & Hb2). replace (scrolled (vga_buffer v)) with b2 in HQ; [done|].
         apply list_eq. intros i. rewrite Hb2. unfold scrolled. fold b. repeat case_decide.
         + rewrite lookup_app_l by (rewrite length_drop; unfold b; lia). rewrite lookup_drop. f_equal. lia.
         + rewrite lookup_app_r by (rewrite length_drop; unfold b; lia).
           rewrite lookup_replicate_2; [done|]. rewrite length_drop. unfold b. lia.
         + destruct Hm as [Hl' Hm]. rewrite !lookup_ge_None_2; [done| |unfold b in *; lia].
           rewrite length_app, length_drop, length_replicate. unfold b. lia. }
  intros row w Hrow (b' & -> & Hm).
  eapply (wp_for (λ col w, ∃ b', w = set_buffer b' v ∧ moved b ((row - 1) * 80 + col) b')).
  - exists b'. by rewrite Z.add_0_r.
  - intros col w Hcol (b2 & -> & Hm2). apply wp_bind. unfold screen_width.
    destruct (aget_is_Some b2 (row * 80 + col)) as [c Hc]; [destruct Hm2 as [-> _]; unfold b; lia|].
    eapply wp_reads; [done|]. apply wp_put_cell; [destruct Hm2 as [Hl2 _]; cbn; unfold b in *; lia|].
    eexists. split; [done|]. cbn [vga_buffer set_buffer].
    replace ((row - 1) * 80 + (col + 1)) with ((row - 1) * 80 + col + 1) by lia.
    apply moved_step; [done|lia|unfold b; lia|]. by replace ((row - 1) * 80 + col + 80) with (row * 80 + col) by lia.
  - intros w (b2 & -> & Hm2). exists b2. split; [done|].
    by replace ((row + 1 - 1) * 80) with ((row - 1) * 80 + (0 + Z.of_nat 80)) by lia.
Qed.

(** *** The cursor *)

Lemma wp_out port val (Q : unit → vga D → Prop) v :
  0 ≤ port < 65536 → 0 ≤ val < 256 → Q tt (set_ports (port_out port val (vga_ports v)) v) →
  wp (out port val) Q v.
Proof.
  intros Hp Hv HQ. unfold out. apply wp_zoom, wp_io_out_byte. by rewrite u16_small, u8_small by lia.
Qed.

Lemma wp_update_cursor (Q : unit → vga D → Prop) v :
  vga_ok v → Q tt (set_ports (crt (position v) (vga_ports v)) v) → wp update_cursor Q v.
Proof.
  intros [_ Hc Hr] HQ. unfold update_cursor, move_cursor. apply wp_bind, wp_get.
  fold (position v). assert (0 ≤ position v ≤ 2000) as Hp by (unfold position; lia).
  rewrite u16_small by lia.
  change 255 with (Z.ones 8). rewrite !Z.land_ones, Z.shiftr_div_pow2 by lia.
  change (2 ^ 8) with 256. pose proof (Z.mod_pos_bound (position v) 256 ltac:(lia)).
  assert (0 ≤ position v / 256 < 256) as Hq.
  { split; [apply Z.div_pos; lia|apply Z.div_lt_upper_bound; lia]. }
  rewrite (Z.mod_small (position v / 256)) by lia.
  do 3 (apply wp_bind, wp_out; [lia|lia|]). apply wp_out; [lia|lia|]. exact HQ.
Qed.

(** The start of the next line, the screen moved up from the last one. *)
Definition next_line v : vga D :=
  if decide (vga_curr_row v = 24) then set_buffer (scrolled (vga_buffer v)) (set_column 0 v)
  else set_row (vga_curr_row v + 1) (set_column 0 v).

Lemma wp_line_down (Q : unit → vga D → Prop) v :
  vga_ok v → Q tt (next_line v) → wp vga_line_down Q v.
Proof.
  intros [Hl Hc Hr] HQ. unfold vga_line_down. wp_steps. unfold screen_height.
  change (vga_curr_row (set_column 0 v)) with (vga_curr_row v). change (25 - 1) with 24.
  unfold next_line in HQ. case_decide; [by apply wp_scroll|by apply wp_modify].
Qed.

Lemma next_line_ok v : vga_ok v → vga_ok (next_line v).
Proof.
  intros [Hl Hc Hr]. unfold next_line. case_decide; split; cbn; change (u16 0) with 0; try lia; try done.
  - by apply length_scrolled.
  - rewrite u16_small; lia.
Qed.

(** One position back. *)
Definition stepped_back v : vga D :=
  if decide (position v = 0) then v
  else if decide (vga_curr_column v = 0) then set_column 79 (set_row (vga_curr_row v - 1) v)
  else set_column (vga_curr_column v - 1) v.

Lemma stepped_back_ok v :
  vga_ok v → vga_ok (stepped_back v) ∧ position (stepped_back v) = Z.max 0 (position v - 1) ∧
             position (stepped_back v) < 2000 ∧ vga_buffer (stepped_back v) = vga_buffer v.
Proof.
  intros [Hl Hc Hr]. unfold stepped_back, position in *. repeat case_decide; cbn.
  - split_and!; [done|lia|lia|done].
  - rewrite !u16_small by lia. split_and!; [split; cbn; rewrite ?u16_small; lia|lia|lia|done].
  - rewrite !u16_small by lia. split_and!; [split; cbn; rewrite ?u16_small; lia|lia|lia|done].
Qed.

Lemma wp_del_char (Q : unit → vga D → Prop) v :
  vga_ok v →
  (∀ v', vga_ok v' → position v' = Z.max 0 (position v - 1) →
     vga_buffer v' = <[Z.to_nat (position v') := emptyChar]> (vga_buffer v) →
     (∃ d, vga_ports v' = crt (position v') d) → Q tt v') →
  wp vga_del_char Q v.
Proof.
  intros Hv HQ. pose proof (stepped_back_ok v Hv) as (Hok & Hpos & Hlt & Hbuf).
  assert (∀ Q', Q' tt (stepped_back v) →
    wp (if decide (vga_curr_column v = 0) then
         if decide (0 < vga_curr_row v)
         then _ ← modify (set_row (vga_curr_row v - 1)); modify (set_column (screen_width - 1))
         else mret tt
       else modify (set_column (vga_curr_column v - 1))) Q' v) as Hback.
  { intros Q' HQ'. destruct Hv as [_ Hc Hr]. unfold stepped_back, position in HQ'.
    repeat case_decide; try lia; wp_steps; done. }
  unfold vga_del_char. apply wp_bind, wp_get, wp_bind, Hback. apply wp_bind, wp_get.
  apply wp_bind. unfold screen_width. rewrite Z.add_comm. fold (position (stepped_back v)).
  pose proof (vo_cells _ Hok) as Hl. apply wp_put_cell; [unfold position in *; lia|].
  set (v' := set_buffer _ _). assert (vga_ok v') as Hok'.
  { destruct Hok as [? ? ?]. split; try done. cbn. by rewrite length_insert. }
  apply wp_update_cursor; [done|]. apply HQ.
  - destruct Hok' as [? ? ?]. by split.
  - exact Hpos.
  - cbn. by rewrite Hbuf.
  - by eexists.
Qed.

(** *** One character *)

(** Where a plain character goes: the line below when this one is full. *)
Definition place v : vga D := if decide (vga_curr_column v = 80) then next_line v else v.

Lemma place_ok v :
  vga_ok v → vga_ok (place v) ∧ vga_curr_column (place v) < 80 ∧
    (position v < 2000 → position (place v) = position v ∧ vga_buffer (place v) = vga_buffer v) ∧
    (position v = 2000 → position (place v) = 1920 ∧ vga_buffer (place v) = scrolled (vga_buffer v)).
Proof.
  intros Hv. unfold place. case_decide as Hc.
  - split; [by apply next_line_ok|]. destruct Hv as [_ Hcol Hr]. unfold next_line, position.
    case_decide; cbn; change (u16 0) with 0; split_and!; intros; try lia; split; try lia; try done.
    rewrite u16_small by lia. lia.
  - split; [done|]. destruct Hv as [_ Hcol Hr]. split; [lia|]. unfold position. split; [done|lia].
Qed.

Lemma wp_putchar_plain c bg col (Q : unit → vga D → Prop) v :
  vga_ok v → c ≠ 10 → c ≠ 8 →
  (∀ v', vga_ok v' → position v' = position (place v) + 1 →
     vga_buffer v' = <[Z.to_nat (position (place v)) := VgaChar c (u8 (Z.lor col (Z.shiftl bg 4)))]>
                       (vga_buffer (place v)) →
     (∃ d, vga_ports v' = crt (position v') d) → Q tt v') →
  wp (vga_putchar_colored c bg col) Q v.
Proof.
  intros Hv Hc10 Hc8 HQ. pose proof (place_ok v Hv) as (Hok & Hcol & _).
  unfold vga_putchar_colored. rewrite !decide_False by done. apply wp_bind, wp_get.
  assert (∀ Q', Q' tt (place v) →
    wp (if decide (vga_curr_column v = screen_width) then vga_line_down
       else if decide (vga_curr_row v = screen_height) then
         _ ← modify (set_column 0); _ ← vga_scroll; modify (set_row (vga_curr_row v - 1))
       else mret tt) Q' v) as Hplace.
  { intros Q' HQ'. unfold place in HQ'. unfold screen_width, screen_height.
    case_decide; [by apply wp_line_down|]. destruct Hv as [_ _ Hr].
    rewrite decide_False by lia. by apply wp_ret. }
  apply wp_bind, Hplace. apply wp_bind, wp_get. apply wp_bind. unfold screen_width.
  rewrite Z.add_comm. fold (position (place v)).
  destruct Hok as [Hl Hc Hr]. apply wp_put_cell; [unfold position; lia|].
  apply wp_bind, wp_modify. set (v' := set_column _ _).
  assert (vga_curr_column v' = vga_curr_column (place v) + 1) as Hc' by (cbn; rewrite u16_small; lia).
  assert (vga_ok v') as Hok'.
  { split; [cbn; by rewrite length_insert|rewrite Hc'; lia|done]. }
  assert (position v' = position (place v) + 1) as Hp'.
  { unfold position. rewrite Hc'. change (vga_curr_row v') with (vga_curr_row (place v)). lia. }
  apply wp_update_cursor; [done|]. apply HQ; [by destruct Hok'|exact Hp'|done|by eexists].
Qed.

Lemma wp_putchar_any c bg col (Q : unit → vga D → Prop) v :
  vga_ok v → (∀ v', vga_ok v' → (∃ d, vga_ports v' = crt (position v') d) → Q tt v') →
  wp (vga_putchar_colored c bg col) Q v.
Proof.
  intros Hv HQ. destruct (decide (c = 10)) as [->|H10].
  { unfold vga_putchar_colored. rewrite decide_True by done. apply wp_bind, wp_line_down; [done|].
    apply wp_update_cursor; [by apply next_line_ok|]. apply HQ; [by destruct (next_line_ok v Hv)|by eexists]. }
  destruct (decide (c = 8)) as [->|H8].
  { unfold vga_putchar_colored. rewrite decide_False, decide_True by done.
    apply wp_del_char; [done|]. intros v' Hok _ _ Hd. by apply HQ. }
  apply wp_putchar_plain; try done. intros v' Hok _ _ Hd. by apply HQ.
Qed.

(** The controller knows the cursor. *)
Definition cursor_shown v : Prop := ∃ d, vga_ports v = crt (position v) d.

Lemma wp_putstring_any s r bg col v :
  vga_ok v → cursor_shown v → str_ok s →
  wp (vga_putstring_colored (s ++ 0 :: r) bg col) (λ _ v', vga_ok v' ∧ cursor_shown v') v.
Proof.
  intros Hv Hd Hs. revert v Hv Hd. induction Hs as [|c s Hc Hs IH]; intros v Hv Hd; cbn [app vga_putstring_colored].
  - rewrite decide_False by lia. by apply wp_ret.
  - rewrite decide_True by lia. apply wp_bind, wp_putchar_any; [done|]. intros v' Hok Hd'. by apply IH.
Qed.

Lemma wp_putstring_ok s r bg col v :
  vga_ok v → str_ok s →
  wp (vga_putstring_colored (s ++ 0 :: r) bg col) (λ _ v', vga_ok v' ∧ (s ≠ [] → cursor_shown v')) v.
Proof.
  intros Hv Hs. destruct Hs as [|c s Hc Hs]; cbn [app vga_putstring_colored].
  - rewrite decide_False by lia. by apply wp_ret.
  - rewrite decide_True by lia. apply wp_bind, wp_putchar_any; [done|]. intros v' Hok Hd.
    eapply wp_mono; [by apply wp_putstring_any|]. naive_solver.
Qed.

(** *** Properties *)

(** C33: printing any terminated string, with line feeds and backspaces, never
    leaves the screen memory: the cursor stays within 25 lines of 80 columns and
    the full-line position behind them, and after every non-empty string the CRT
    controller has been told the position the cursor variables stand for. *)
Theorem vga_putstring_safe s r bg col v :
  vga_ok v → str_ok s →
  wp (vga_putstring_colored (s ++ 0 :: r) bg col)
     (λ _ v', vga_ok v' ∧ (s ≠ [] → cursor_shown v')) v.
Proof. apply wp_putstring_ok. Qed.

(** a string of plain characters is stored in consecutive cells from the
    cursor's position on, across line ends, with the colour computed from
    foreground and background; the position advances by the string's length and
    no other cell changes. *)
Theorem vga_putstring_writes s r bg col v :
  vga_ok v → str_ok s → Forall (λ c, c ≠ 10 ∧ c ≠ 8) s → position v + zlen s ≤ 2000 →
  wp (vga_putstring_colored (s ++ 0 :: r) bg col)
     (λ _ v', position v' = position v + zlen s ∧
        vga_buffer v' = splice (vga_buffer v) (Z.to_nat (position v))
                          ((λ c, VgaChar c (u8 (Z.lor col (Z.shiftl bg 4)))) <$> s)) v.
Proof.
  intros Hv Hs Hplain. revert v Hv. induction Hs as [|c s Hc Hs IH]; intros v Hv Hpos;
    cbn [app vga_putstring_colored].
  - rewrite decide_False by lia. apply wp_ret. split; [simpl; lia|]. exact (eq_sym (splice_nil _ _)).
  - apply Forall_cons_iff in Hplain as [[H10 H8] Hplain]. cbn [length] in Hpos.
    rewrite decide_True by lia. apply wp_bind, wp_putchar_plain; [done..|].
    intros v' Hok Hp Hb _. destruct (place_ok v Hv) as (_ & _ & Hplace & _).
    destruct (Hplace ltac:(lia)) as [Hpp Hpb]. rewrite Hpp in Hp, Hb. rewrite Hpb in Hb.
    eapply wp_mono; [apply IH; [done|done|lia]|]. intros [] v2 [Hp2 Hb2]. cbn [length fmap list_fmap].
    split; [lia|]. rewrite Hb2, Hb, Hp. pose proof (vo_cells _ Hv) as Hl. destruct Hv as [_ ? ?].
    assert (0 ≤ position v) by (unfold position; lia).
    rewrite <-(splice_one _ _ (VgaChar c (u8 (Z.lor col (Z.shiftl bg 4))))) by lia.
    rewrite splice_splice; [done|simpl; lia|rewrite length_fmap; lia].
Qed.

(** a plain character printed with the cursor behind the last cell moves the
    screen up by one line, blanks the last line and stores the character at its
    start. *)
Theorem vga_putchar_scrolls c bg col v :
  vga_ok v → position v = 2000 → c ≠ 10 → c ≠ 8 →
  wp (vga_putchar_colored c bg col)
     (λ _ v', position v' = 1921 ∧
        vga_buffer v' = drop 80 (vga_buffer v) ++ VgaChar c (u8 (Z.lor col (Z.shiftl bg 4)))
                        :: replicate 79 emptyChar) v.
Proof.
  intros Hv Hpos H10 H8. apply wp_putchar_plain; [done..|]. intros v' Hok Hp Hb _.
  destruct (place_ok v Hv) as (_ & _ & _ & Hscroll). destruct (Hscroll Hpos) as [Hpp Hpb].
  rewrite Hpp in Hp, Hb. rewrite Hpb in Hb. split; [lia|]. rewrite Hb. unfold scrolled.
  pose proof (vo_cells _ Hv) as Hl. rewrite insert_app_r_alt by (rewrite length_drop; lia).
  rewrite length_drop, Hl. done.
Qed.

(** a backspace undoes the plain character printed before it, up to the cell's
    old contents: the position is the old one and the cell there is blank. *)
Theorem vga_backspace_undoes c bg col v :
  vga_ok v → position v < 2000 → c ≠ 10 → c ≠ 8 →
  wp (_ ← vga_putchar_colored c bg col; vga_putchar_colored 8 bg col)
     (λ _ v', position v' = position v ∧
        vga_buffer v' = <[Z.to_nat (position v) := emptyChar]> (vga_buffer v)) v.
Proof.
  intros Hv Hpos H10 H8. apply wp_bind, wp_putchar_plain; [done..|]. intros v1 Hok Hp Hb _.
  destruct (place_ok v Hv) as (_ & _ & Hplace & _). destruct (Hplace Hpos) as [Hpp Hpb].
  rewrite Hpp in Hp, Hb. rewrite Hpb in Hb. assert (0 ≤ position v) by (destruct Hv; unfold position; lia).
  unfold vga_putchar_colored. rewrite decide_False, decide_True by done.
  apply wp_del_char; [done|]. intros v2 _ Hp2 Hb2 _. assert (position v2 = position v) as E by lia.
  split; [done|]. by rewrite Hb2, Hb, E, list_insert_insert_eq.
Qed.

(** vga_printf with "%x" and a negative argument that 16 does not divide does
    not print it: the conversion reads in front of its table of digits. *)
Theorem vga_printf_negative_hex n args v :
  -2147483648 ≤ n < 0 → n mod 16 ≠ 0 → vga_printf [37; 120; 0] (VaInt n :: args) v = Fault.
Proof.
  intros Hn Hm. unfold vga_printf. cbn [vga_printf_loop].
  rewrite decide_False, decide_True, decide_True by (done || lia).
  unfold mbind, M_bind, liftO. rewrite decide_False by done.
  rewrite itoa_negative by (rewrite ?length_replicate; lia). by rewrite decide_False.
Qed.
End specs.

(** ** The theorems at work *)

Definition screen (row col : Z) : vga latches := Vga (replicate 2000 (VgaChar 46 7)) col row (Latches ∅ []).
Lemma screen_ok row col : 0 ≤ row ≤ 24 → 0 ≤ col ≤ 80 → vga_ok (screen row col).
Proof. intros. split; [apply length_replicate|done|done]. Qed.

Lemma vga_putstring_safe_witness :
  wp (vga_putstring_colored ([72; 10; 8] ++ 0 :: []) 0 15)
     (λ _ v', vga_ok v' ∧ ([72; 10; 8] ≠ [] → cursor_shown v')) (screen 24 80).
Proof. apply (vga_putstring_safe [72; 10; 8] []); [apply screen_ok; lia|by_decide]. Defined.

Lemma vga_putstring_writes_witness :
  wp (vga_putstring_colored ([72; 105] ++ 0 :: []) 0 15)
     (λ _ v', position v' = position (screen 3 79) + 2 ∧
        vga_buffer v' = splice (vga_buffer (screen 3 79)) (Z.to_nat (position (screen 3 79)))
                          ((λ c, VgaChar c (u8 (Z.lor 15 (Z.shiftl 0 4)))) <$> [72; 105])) (screen 3 79).
Proof.
  apply (vga_putstring_writes [72; 105] [] 0 15 (screen 3 79));
    [apply screen_ok; lia|by_decide|by_decide|vm_compute; congruence].
Defined.

Lemma vga_putchar_scrolls_witness :
  wp (vga_putchar_colored 72 0 15)
     (λ _ v', position v' = 1921 ∧
        vga_buffer v' = drop 80 (vga_buffer (screen 24 80)) ++ VgaChar 72 (u8 (Z.lor 15 (Z.shiftl 0 4)))
                        :: replicate 79 emptyChar) (screen 24 80).
Proof. apply (vga_putchar_scrolls 72 0 15 (screen 24 80)); [apply screen_ok; lia|reflexivity|lia|lia]. Defined.

Lemma vga_backspace_undoes_witness :
  wp (_ ← vga_putchar_colored 72 0 15; vga_putchar_colored 8 0 15)
     (λ _ v', position v' = position (screen 2 80) ∧
        vga_buffer v' = <[Z.to_nat (position (screen 2 80)) := emptyChar]> (vga_buffer (screen 2 80)))
     (screen 2 80).
Proof. apply (vga_backspace_undoes 72 0 15 (screen 2 80)); [apply screen_ok; lia|reflexivity|lia|lia]. Defined.

Lemma vga_printf_negative_hex_witness : vga_printf [37; 120; 0] [VaInt (-1)] (screen 0 0) = Fault.
Proof. apply (vga_printf_negative_hex (-1) [] (screen 0 0)); [lia|vm_compute; congruence]. Defined.
