(* ===== verification/Ata.v ===== *)
(** * The hard disk driver: drivers/harddisk/ata/ata.c

    Programmed input and output to an ATA drive with 28-bit sector numbers.  The
    drive itself is not kernel code: [pio] writes down the documented protocol (a
    command loads the registers, the data port moves 256 words per sector, the
    status port reports busy and data request), and [AtaDrive] is the hypothesis
    that the device behind the ports behaves like it.  The result of the file is
    that [ata_read] and [ata_write] implement the interface [BlockDevice] the
    file system is verified against. *)

From S2P Require Import Prelude Io Interfaces.

(** ** Definitions *)

Definition ATA_DATA : Z := 0x1F0.
Definition ATA_SECTOR_COUNT : Z := 0x1F2.
Definition ATA_SECTOR_LOW : Z := 0x1F3.
Definition ATA_SECTOR_MID : Z := 0x1F4.
Definition ATA_SECTOR_HIGH : Z := 0x1F5.
Definition ATA_SELECT_DRIVE : Z := 0x1F6.
Definition ATA_CMD_STATUS : Z := 0x1F7.

Record ata_drive := AtaDriveInfo {
  cylinders : Z; heads : Z; sectors_per_track : Z; drive_sectors : Z;
  model : list Z; is_present : Z }.

Record ata (D : Type) := Ata { main_driver : ata_drive; ata_ports : D }.
Arguments Ata {D}.
Arguments main_driver {D}.
Arguments ata_ports {D}.

(** Status reads a waiting loop may need. *)
Definition WAIT_FUEL : nat := Z.to_nat 100000.

Section operations.
Context {D : Type} `{Ports D}.

Definition set_ata_ports (d : D) (a : ata D) : ata D := Ata (main_driver a) d.
Definition on_ports {A} (m : M D A) : M (ata D) A := zoom ata_ports set_ata_ports m.
Definition set_driver (i : ata_drive) : M (ata D) unit := modify (λ a, Ata i (ata_ports a)).

Definition wait_400ns : M D unit :=
  for_from 0 4 (λ _, _ ← io_in_byte ATA_CMD_STATUS; mret tt).

(** [while (!(io_in_byte(ATA_CMD_STATUS) & 0x08));] *)
Definition wait_request : M D unit :=
  iter WAIT_FUEL (λ _ : unit, st ← io_in_byte ATA_CMD_STATUS;
    mret (if bool_decide (Z.land st 0x08 = 0) then inl tt else inr tt)) tt.
(** [while (io_in_byte(ATA_CMD_STATUS) & 0x80);] *)
Definition wait_not_busy : M D unit :=
  iter WAIT_FUEL (λ _ : unit, st ← io_in_byte ATA_CMD_STATUS;
    mret (if bool_decide (Z.land st 0x80 ≠ 0) then inl tt else inr tt)) tt.

(** Sector number, count and command, the same for both directions. *)
Definition ata_command (sector_number sector_count command : Z) : M D unit :=
  _ ← io_out_byte ATA_SELECT_DRIVE (Z.lor (Z.shiftr sector_number 24) 0xE0);
  _ ← io_out_byte ATA_SECTOR_COUNT sector_count;
  _ ← io_out_byte ATA_SECTOR_LOW (Z.land sector_number 0xFF);
  _ ← io_out_byte ATA_SECTOR_MID (Z.land (Z.shiftr sector_number 8) 0xFF);
  _ ← io_out_byte ATA_SECTOR_HIGH (Z.land (Z.shiftr sector_number 16) 0xFF);
  io_out_byte ATA_CMD_STATUS command.

(** [((uint16_t* )buffer)[i] = w] and the read of the same element. *)
Definition store_word (buffer : list Z) (i w : Z) : outcome (list Z) :=
  if decide (2 * i + 2 ≤ zlen buffer) then Done (splice buffer (Z.to_nat (2 * i)) (le_bytes 2 w)) else Fault.
Definition load_word (buffer : list Z) (i : Z) : outcome Z :=
  if decide (2 * i + 2 ≤ zlen buffer) then Done (le_val (take 2 (drop (Z.to_nat (2 * i)) buffer))) else Fault.

(** [for (j = 0; j < 256; j++)] from element [i] of the buffer on. *)
Fixpoint read_words (i : Z) (n : nat) (buffer : list Z) : M D (list Z) :=
  match n with
  | O => mret buffer
  | S n' =>
      w ← io_in_word ATA_DATA;
      buffer ← liftO (store_word buffer i w);
      read_words (i + 1) n' buffer
  end.
Fixpoint write_words (i : Z) (n : nat) (buffer : list Z) : M D unit :=
  match n with
  | O => mret tt
  | S n' =>
      w ← liftO (load_word buffer i);
      _ ← io_out_word ATA_DATA w;
      write_words (i + 1) n' buffer
  end.

(** [for (i = 0; i < sector_count; i++)] *)
Fixpoint read_sectors (i : Z) (n : nat) (buffer : list Z) : M D (list Z) :=
  match n with
  | O => mret buffer
  | S n' =>
      buffer ← read_words (i * 256) 256 buffer;
      _ ← wait_400ns;
      _ ← wait_not_busy;
      read_sectors (i + 1) n' buffer
  end.
Fixpoint write_sectors (i : Z) (n : nat) (buffer : list Z) : M D unit :=
  match n with
  | O => mret tt
  | S n' =>
      _ ← write_words (i * 256) 256 buffer;
      _ ← wait_400ns;
      _ ← wait_not_busy;
      write_sectors (i + 1) n' buffer
  end.

(** The return code and the buffer. *)
Definition ata_read (sector_number sector_count : Z) (buffer : list Z) : M (ata D) (Z * list Z) :=
  d ← gets main_driver;
  if decide (is_present d = 0) then mret (1, buffer) else
  _ ← on_ports (ata_command sector_number sector_count 0x20);
  _ ← on_ports wait_request;
  buffer ← on_ports (read_sectors 0 (Z.to_nat sector_count) buffer);
  mret (0, buffer).

Definition ata_write (sector_number sector_count : Z) (buffer : list Z) : M (ata D) Z :=
  d ← gets main_driver;
  if decide (is_present d = 0) then mret 1 else
  _ ← on_ports (ata_command sector_number sector_count 0x30);
  _ ← on_ports wait_request;
  _ ← on_ports (write_sectors 0 (Z.to_nat sector_count) buffer);
  mret 0.

Fixpoint identify_words (n : nat) : M D (list Z) :=
  match n with
  | O => mret []
  | S n' => w ← io_in_word ATA_DATA; ws ← identify_words n'; mret (w :: ws)
  end.

(** Forty characters of the model number and a terminator. *)
Definition model_number (ws : list Z) : list Z :=
  concat ((λ w, [Z.land w 0xFF; Z.shiftr w 8]) <$> take 20 (drop 27 ws)) ++ [0].

Definition ata_init : M (ata D) unit :=
  _ ← on_ports (io_out_byte ATA_SELECT_DRIVE 0xA0);
  _ ← on_ports (io_out_byte ATA_SECTOR_LOW 0);
  _ ← on_ports (io_out_byte ATA_SECTOR_MID 0);
  _ ← on_ports (io_out_byte ATA_SECTOR_HIGH 0);
  _ ← on_ports (io_out_byte ATA_CMD_STATUS 0xEC);
  drive_status ← on_ports (io_in_byte ATA_CMD_STATUS);
  d ← gets main_driver;
  if decide (drive_status = 0) then
    set_driver (AtaDriveInfo (cylinders d) (heads d) (sectors_per_track d) (drive_sectors d) (model d) 0)
  else
    data_buffer ← on_ports (identify_words 256);
    let w i := default 0 (data_buffer !! i) in
    set_driver (AtaDriveInfo (w 1%nat) (w 3%nat) (w 6%nat)
      (Z.lor (w 60%nat) (Z.shiftl (w 61%nat) 16)) (model_number data_buffer) 1).
End operations.

(** ** The drive's documented protocol *)

Inductive phase :=
| Idle
| Sending (lba : Z) (todo : nat) (ws : list Z)      (* words of the sector still to be read *)
| Receiving (lba : Z) (todo : nat) (ws : list Z).   (* words of the sector already written *)

#[export] Instance phase_eq_dec : EqDecision phase.
Proof. solve_decision. Defined.

Record pio := Pio {
  p_regs : Z → Z;
  p_phase : phase;
  p_busy : nat;
  p_latency : nat;
  p_size : Z;
  p_disk : Z → list Z;
}.

Fixpoint sector_words (n : nat) (bytes : list Z) : list Z :=
  match n with
  | O => []
  | S n' => le_val (take 2 bytes) :: sector_words n' (drop 2 bytes)
  end.
Definition words_sector (ws : list Z) : list Z := concat (le_bytes 2 <$> ws).

(** The ports of the first controller are 0x1F0 (data, 16 bits), 0x1F2 (sector
    count), 0x1F3 to 0x1F5 (sector number), 0x1F6 (drive, and bits 24 to 27) and
    0x1F7 (status and command); they are those of the standard and not the names
    the driver gives them.  The 28-bit sector number in the registers: *)
Definition p_lba (p : pio) : Z :=
  p_regs p 0x1F3 + 256 * p_regs p 0x1F4 + 65536 * p_regs p 0x1F5 + 16777216 * (p_regs p 0x1F6 mod 16).
(** A count of 0 asks for 256 sectors. *)
Definition p_count (p : pio) : Z := if decide (p_regs p 0x1F2 = 0) then 256 else p_regs p 0x1F2.
(** Bit 6 selects sector numbers (in place of cylinder, head and sector), bit 4 the
    second drive. *)
Definition p_selected (p : pio) : Prop := Z.testbit (p_regs p 0x1F6) 6 = true ∧ Z.testbit (p_regs p 0x1F6) 4 = false.
#[export] Instance p_selected_dec p : Decision (p_selected p).
Proof. unfold p_selected. apply _. Defined.

Definition with_phase (ph : phase) (busy : nat) (p : pio) : pio :=
  Pio (p_regs p) ph busy (p_latency p) (p_size p) (p_disk p).

Definition set_reg (port v : Z) (p : pio) : pio :=
  Pio (λ q, if decide (q = port) then v else p_regs p q) (p_phase p) (p_busy p) (p_latency p) (p_size p) (p_disk p).

(** A busy drive ignores its registers and has no data. *)
Definition pio_out (port v : Z) (p : pio) : pio :=
  if decide (p_busy p ≠ O) then p
  else if decide (0x1F2 ≤ port ≤ 0x1F6)
  then set_reg port v p
  else if decide (port = 0x1F7 ∧ p_phase p = Idle ∧ p_selected p ∧ p_lba p + p_count p ≤ p_size p) then
    if decide (v = 0x20) then
      with_phase (Sending (p_lba p) (Z.to_nat (p_count p)) (sector_words 256 (p_disk p (p_lba p)))) (p_latency p) p
    else if decide (v = 0x30) then
      with_phase (Receiving (p_lba p) (Z.to_nat (p_count p)) []) (p_latency p) p
    else p
  else p.

Definition pio_in (port : Z) (p : pio) : Z * pio :=
  if decide (port = 0x1F7) then
    match p_busy p with
    | S b => (0x80, with_phase (p_phase p) b p)
    | O => (match p_phase p with Idle => 0x40 | _ => 0x48 end, p)
    end
  else (p_regs p port, p).

(** The next sector of a transfer, or its end. *)
Definition next_sending (lba : Z) (todo : nat) (p : pio) : pio :=
  match todo with
  | S (S todo') => with_phase (Sending (lba + 1) (S todo') (sector_words 256 (p_disk p (lba + 1)))) (p_latency p) p
  | _ => with_phase Idle 0 p
  end.
(** Only the data port moves words; nobody answers at another one. *)
Definition pio_in_word (port : Z) (p : pio) : Z * pio :=
  if decide (port = 0x1F0) then
    match p_busy p, p_phase p with
    | O, Sending lba todo (w :: ws) =>
        (w, match ws with
            | [] => next_sending lba todo p
            | _ => with_phase (Sending lba todo ws) (p_busy p) p
            end)
    | _, _ => (0, p)
    end
  else (0xFFFF, p).

Definition next_receiving (lba : Z) (todo : nat) (ws : list Z) (p : pio) : pio :=
  let disk' k := if decide (k = lba) then words_sector ws else p_disk p k in
  match todo with
  | S (S todo') => Pio (p_regs p) (Receiving (lba + 1) (S todo') []) (p_latency p) (p_latency p) (p_size p) disk'
  | _ => Pio (p_regs p) Idle (p_latency p) (p_latency p) (p_size p) disk'
  end.
Definition pio_out_word (port v : Z) (p : pio) : pio :=
  if decide (port = 0x1F0) then
    match p_busy p, p_phase p with
    | O, Receiving lba todo ws =>
        let ws' := ws ++ [v] in
        if decide (length ws' = 256%nat) then next_receiving lba todo ws' p
        else with_phase (Receiving lba todo ws') (p_busy p) p
    | _, _ => p
    end
  else p.

#[export] Instance pio_ports : Ports pio := {
  port_in := pio_in; port_out := pio_out; port_in_word := pio_in_word; port_out_word := pio_out_word;
  port_in_long _ p := (0, p); port_out_long _ _ p := p }.

(** The hypothesis on the device: seen through [ata_view] it is such a drive. *)
Class AtaDrive (D : Type) `{Ports D} := {
  ata_view : D → pio;
  view_in port d : 0 ≤ port < 65536 →
    (port_in port d).1 = (pio_in port (ata_view d)).1 ∧ ata_view (port_in port d).2 = (pio_in port (ata_view d)).2;
  view_out port v d : 0 ≤ port < 65536 → ata_view (port_out port v d) = pio_out port v (ata_view d);
  view_in_word port d : 0 ≤ port < 65536 →
    (port_in_word port d).1 = (pio_in_word port (ata_view d)).1 ∧
    ata_view (port_in_word port d).2 = (pio_in_word port (ata_view d)).2;
  view_out_word port v d : 0 ≤ port < 65536 → ata_view (port_out_word port v d) = pio_out_word port v (ata_view d);
}.

#[export] Program Instance pio_drive : AtaDrive pio := { ata_view p := p }.
Solve All Obligations with done.

(** ** Lemmas *)

Record pio_wf (p : pio) : Prop := {
  pw_latency : Z.of_nat (p_latency p) ≤ 90000;
  pw_size : p_size p ≤ 268435456;
  pw_disk k : length (p_disk p k) = 512%nat ∧ Forall is_byte (p_disk p k);
}.

Lemma words_sector_words n bytes :
  Forall is_byte bytes → length bytes = (2 * n)%nat → words_sector (sector_words n bytes) = bytes.
Proof.
  revert bytes. induction n as [|n IH]; intros bytes Hb Hl; [by destruct bytes|].
  unfold words_sector in *. cbn [sector_words fmap list_fmap concat].
  rewrite IH by (try apply Forall_drop; rewrite ?length_drop; done || lia).
  rewrite le_bytes_val; [by rewrite take_drop|by apply Forall_take|rewrite length_take; lia].
Qed.

Lemma length_sector_words n bytes : length (sector_words n bytes) = n.
Proof. revert bytes. induction n; intros; cbn; auto. Qed.

Lemma sector_words_range n bytes :
  Forall is_byte bytes → Forall (λ w, 0 ≤ w < 65536) (sector_words n bytes).
Proof.
  revert bytes. induction n as [|n IH]; intros bytes Hb; cbn [sector_words]; constructor.
  - pose proof (le_val_range (take 2 bytes) (Forall_take _ _ _ Hb)) as Hr. rewrite length_take in Hr.
    assert (256 ^ Z.of_nat (2 `min` length bytes) ≤ 256 ^ 2) by (apply Z.pow_le_mono_r; lia). lia.
  - by apply IH, Forall_drop.
Qed.

Lemma length_words_sector ws : length (words_sector ws) = (2 * length ws)%nat.
Proof.
  unfold words_sector. induction ws as [|w ws IH]; cbn [fmap list_fmap concat length]; [done|].
  rewrite length_app, length_le_bytes, IH. lia.
Qed.

(** A 28-bit sector number survives the four registers. *)
Lemma lba_roundtrip n :
  0 ≤ n < 268435456 →
  u8 (Z.land n 0xFF) + 256 * u8 (Z.land (Z.shiftr n 8) 0xFF) + 65536 * u8 (Z.land (Z.shiftr n 16) 0xFF)
  + 16777216 * (u8 (Z.lor (Z.shiftr n 24) 0xE0) mod 16) = n.
Proof.
  intros Hn. change 0xFF with (Z.ones 8). rewrite !Z.land_ones, !Z.shiftr_div_pow2 by lia.
  change (2 ^ 8) with 256. change (2 ^ 16) with 65536. change (2 ^ 24) with 16777216.
  assert (0 ≤ n / 16777216 < 16) as Hq.
  { split; [apply Z.div_pos; lia|apply Z.div_lt_upper_bound; lia]. }
  assert (u8 (Z.lor (n / 16777216) 0xE0) mod 16 = n / 16777216) as ->.
  { generalize dependent (n / 16777216). intros x Hx.
    assert (x = 0 ∨ x = 1 ∨ x = 2 ∨ x = 3 ∨ x = 4 ∨ x = 5 ∨ x = 6 ∨ x = 7 ∨ x = 8 ∨ x = 9 ∨ x = 10 ∨
            x = 11 ∨ x = 12 ∨ x = 13 ∨ x = 14 ∨ x = 15) as Hcases by lia.
    repeat destruct Hcases as [->|Hcases]; try reflexivity. by subst. }
  unfold u8. rewrite !Z.mod_mod by lia.
  assert (n / 65536 = n / 256 / 256) as -> by (by rewrite Z.div_div by lia).
  assert (n / 16777216 = n / 256 / 256 / 256) as -> by (by rewrite !Z.div_div by lia).
  pose proof (Z.div_mod n 256 ltac:(lia)). pose proof (Z.div_mod (n / 256) 256 ltac:(lia)).
  pose proof (Z.div_mod (n / 256 / 256) 256 ltac:(lia)). lia.
Qed.

(** The driver selects the first drive and sector numbers. *)
Lemma select_bits n :
  0 ≤ n < 268435456 →
  let sel := u8 (Z.lor (Z.shiftr n 24) 0xE0) in Z.testbit sel 6 = true ∧ Z.testbit sel 4 = false.
Proof.
  intros Hn sel. assert (0 ≤ Z.shiftr n 24 < 2 ^ 4) as Hs.
  { rewrite Z.shiftr_div_pow2 by lia. split; [apply Z.div_pos; lia|apply Z.div_lt_upper_bound; lia]. }
  unfold sel, u8. change 256 with (2 ^ 8). rewrite !Z.mod_pow2_bits_low, !Z.lor_spec by lia.
  by rewrite !(testbit_above (Z.shiftr n 24) 4) by lia.
Qed.

Section specs.
Context {D : Type} `{AtaDrive D}.
Implicit Types d : D.

Lemma wp_out_view port v (Q : unit → D → Prop) d :
  0 ≤ port < 65536 →
  (∀ d', ata_view d' = pio_out port (u8 v) (ata_view d) → Q tt d') → wp (io_out_byte port v) Q d.
Proof. intros Hp HQ. apply wp_io_out_byte. rewrite u16_small by lia. by apply HQ, view_out. Qed.

Lemma wp_status (Q : Z → D → Prop) d :
  (∀ d', ata_view d' = (pio_in ATA_CMD_STATUS (ata_view d)).2 →
     Q (u8 (pio_in ATA_CMD_STATUS (ata_view d)).1) d') → wp (io_in_byte ATA_CMD_STATUS) Q d.
Proof.
  intros HQ. apply wp_io_in_byte. rewrite u16_small by (unfold ATA_CMD_STATUS; lia).
  destruct (view_in ATA_CMD_STATUS d) as [-> Hd]; [unfold ATA_CMD_STATUS; lia|]. by apply HQ.
Qed.

(** A status read while the drive is busy, and when it is not. *)
Lemma status_busy p b : p_busy p = S b → pio_in ATA_CMD_STATUS p = (0x80, with_phase (p_phase p) b p).
Proof. intros E. unfold pio_in. by rewrite decide_True, E by done. Qed.
Lemma status_ready p :
  p_busy p = O → pio_in ATA_CMD_STATUS p = (match p_phase p with Idle => 0x40 | _ => 0x48 end, p).
Proof. intros E. unfold pio_in. by rewrite decide_True, E by done. Qed.

Lemma with_phase_self p : with_phase (p_phase p) (p_busy p) p = p.
Proof. by destruct p. Qed.

Lemma wp_wait_loop (test : Z → bool) fuel (Q : unit → D → Prop) d :
  test 0x80 = true → test (match p_phase (ata_view d) with Idle => 0x40 | _ => 0x48 end) = false →
  (p_busy (ata_view d) < fuel)%nat →
  (∀ d', ata_view d' = with_phase (p_phase (ata_view d)) 0 (ata_view d) → Q tt d') →
  wp (iter fuel (λ _ : unit, st ← io_in_byte ATA_CMD_STATUS;
        mret (if test st then inl tt else inr tt)) tt) Q d.
Proof.
  intros Hb. revert d. induction fuel as [|fuel IH]; intros d Hr Hf HQ; [lia|]. cbn [iter].
  apply wp_bind, wp_bind, wp_status. intros d' Hd'. apply wp_ret. destruct (p_busy (ata_view d)) as [|b] eqn:E.
  - rewrite status_ready in Hd' |- * by done. cbn [fst snd] in *. rewrite u8_small by (destruct (p_phase _); lia).
    rewrite Hr. apply wp_ret, HQ. rewrite Hd', <-E. symmetry. apply with_phase_self.
  - rewrite (status_busy _ b) in Hd' |- * by done. cbn [fst snd] in *. change (u8 0x80) with 0x80. rewrite Hb.
    apply IH; rewrite Hd'; [done|simpl; lia|]. intros d2 Hd2. apply HQ. by rewrite Hd2.
Qed.

Lemma wait_fuel_enough n : Z.of_nat n ≤ 90000 → (n < WAIT_FUEL)%nat.
Proof. unfold WAIT_FUEL. lia. Qed.

Lemma wp_wait_not_busy (Q : unit → D → Prop) d :
  Z.of_nat (p_busy (ata_view d)) ≤ 90000 →
  (∀ d', ata_view d' = with_phase (p_phase (ata_view d)) 0 (ata_view d) → Q tt d') → wp wait_not_busy Q d.
Proof.
  intros Hb HQ. unfold wait_not_busy.
  apply (wp_wait_loop (λ st, bool_decide (Z.land st 0x80 ≠ 0))); [done| |by apply wait_fuel_enough|done].
  by destruct (p_phase (ata_view d)).
Qed.

Lemma wp_wait_request (Q : unit → D → Prop) d :
  Z.of_nat (p_busy (ata_view d)) ≤ 90000 → p_phase (ata_view d) ≠ Idle →
  (∀ d', ata_view d' = with_phase (p_phase (ata_view d)) 0 (ata_view d) → Q tt d') → wp wait_request Q d.
Proof.
  intros Hb Hph HQ. unfold wait_request.
  apply (wp_wait_loop (λ st, bool_decide (Z.land st 0x08 = 0))); [done| |by apply wait_fuel_enough|done].
  by destruct (p_phase (ata_view d)).
Qed.

(** Status reads only let the busy counter run down. *)
Lemma wp_wait_400ns (Q : unit → D → Prop) d :
  (∀ d' b, (b ≤ p_busy (ata_view d))%nat → ata_view d' = with_phase (p_phase (ata_view d)) b (ata_view d) →
     Q tt d') → wp wait_400ns Q d.
Proof.
  intros HQ. unfold wait_400ns.
  eapply (wp_for (λ _ w, ∃ b, (b ≤ p_busy (ata_view d))%nat ∧
    ata_view w = with_phase (p_phase (ata_view d)) b (ata_view d))).
  - exists (p_busy (ata_view d)). by rewrite with_phase_self.
  - intros j w _ (b & Hb & Hw). apply wp_bind, wp_status. intros d' Hd'. apply wp_ret.
    destruct b as [|b].
    + rewrite status_ready in Hd' by (by rewrite Hw). exists 0%nat. split; [lia|]. by rewrite Hd'.
    + rewrite (status_busy _ b) in Hd' by (by rewrite Hw). exists b. split; [lia|]. by rewrite Hd', Hw.
  - intros w (b & Hb & Hw). by eapply HQ.
Qed.

Lemma store_word_ok buffer i w :
  0 ≤ i → 2 * i + 2 ≤ zlen buffer →
  store_word buffer i w = Done (splice buffer (Z.to_nat (2 * i)) (le_bytes 2 w)).
Proof. intros. unfold store_word. by rewrite decide_True. Qed.

(** Reading out what the drive has ready for one sector. *)
Lemma wp_read_words lba todo ws : ∀ i buffer (Q : list Z → D → Prop) d,
  ws ≠ [] → Forall (λ w, 0 ≤ w < 65536) ws → 0 ≤ i → 2 * (i + zlen ws) ≤ zlen buffer →
  p_phase (ata_view d) = Sending lba todo ws → p_busy (ata_view d) = O →
  (∀ d', ata_view d' = next_sending lba todo (ata_view d) →
     Q (splice buffer (Z.to_nat (2 * i)) (words_sector ws)) d') →
  wp (read_words i (length ws) buffer) Q d.
Proof.
  induction ws as [|w ws IH]; intros i buffer Q d Hne Hr Hi Hl Hph Hb HQ; [done|].
  apply Forall_cons_iff in Hr as [Hw Hr]. cbn [length] in Hl |- *. cbn [read_words].
  apply wp_bind, wp_io_in_word. rewrite (u16_small ATA_DATA) by (unfold ATA_DATA; lia).
  destruct (view_in_word ATA_DATA d) as [-> Hd]; [unfold ATA_DATA; lia|].
  revert Hd. generalize (port_in_word ATA_DATA d).2. intros d1 Hd.
  unfold pio_in_word in Hd |- *. rewrite decide_True, Hb, Hph in Hd |- * by done. cbn [fst snd] in Hd |- *.
  rewrite u16_small by done. eapply wp_bind, wp_liftO; [apply store_word_ok; lia|].
  destruct ws as [|w2 ws].
  - cbn [length read_words]. apply wp_ret. by apply HQ.
  - apply IH; [done|done|lia| |by rewrite Hd|by rewrite Hd|].
    + rewrite length_splice by (rewrite length_le_bytes; lia).
      lia.
    + intros d2 Hd2. rewrite splice_splice.
      * apply HQ. rewrite Hd2, Hd. unfold next_sending. destruct todo as [|[|]]; done.
      * rewrite length_le_bytes. lia.
      * rewrite length_words_sector. cbn [length] in *. lia.
Qed.

(** The same medium and the same timing; the registers may differ. *)
Definition pio_same (p q : pio) : Prop :=
  p_latency q = p_latency p ∧ p_size q = p_size p ∧ ∀ k, p_disk q k = p_disk p k.

Lemma pio_same_wf p q : pio_same p q → pio_wf p → pio_wf q.
Proof. intros (E1 & E2 & E3) []. split; intros; rewrite ?E1, ?E2, ?E3; auto. Qed.

Lemma next_sending_same lba todo p : pio_same p (next_sending lba todo p).
Proof. unfold next_sending. by destruct todo as [|[|]]. Qed.

Lemma next_sending_busy lba todo p : pio_wf p → Z.of_nat (p_busy (next_sending lba todo p)) ≤ 90000.
Proof. intros []. unfold next_sending. destruct todo as [|[|]]; simpl; lia. Qed.

(** The two waits after a sector: afterwards the drive is not busy. *)
Lemma wp_settle {A} (m : M D A) (Q : A → D → Prop) d :
  Z.of_nat (p_busy (ata_view d)) ≤ 90000 →
  (∀ d', ata_view d' = with_phase (p_phase (ata_view d)) 0 (ata_view d) → wp m Q d') →
  wp (_ ← wait_400ns; _ ← wait_not_busy; m) Q d.
Proof.
  intros Hb HQ. apply wp_bind, wp_wait_400ns. intros d1 b Hle Hd1.
  apply wp_bind, wp_wait_not_busy; [rewrite Hd1; simpl; lia|].
  intros d2 Hd2. apply HQ. by rewrite Hd2, Hd1.
Qed.

Lemma wp_read_sectors n : ∀ lba i buffer (Q : list Z → D → Prop) d,
  pio_wf (ata_view d) → 0 ≤ i → 512 * (i + Z.of_nat n) ≤ zlen buffer →
  p_phase (ata_view d) =
    match n with O => Idle | _ => Sending lba n (sector_words 256 (p_disk (ata_view d) lba)) end →
  p_busy (ata_view d) = O →
  (∀ d', pio_same (ata_view d) (ata_view d') → p_phase (ata_view d') = Idle → p_busy (ata_view d') = O →
     Q (splice buffer (Z.to_nat (512 * i)) (sectors (p_disk (ata_view d)) lba n)) d') →
  wp (read_sectors i n buffer) Q d.
Proof.
  induction n as [|n IH]; intros lba i buffer Q d Hwf Hi Hl Hph Hb HQ; cbn [read_sectors].
  - apply wp_ret. rewrite <-(splice_nil buffer (Z.to_nat (512 * i))). by apply HQ.
  - destruct (pw_disk _ Hwf lba) as [Hlen Hbytes].
    pose proof (length_sector_words 256 (p_disk (ata_view d) lba)) as Hsw.
    apply wp_bind. rewrite <-Hsw at 1.
    eapply wp_read_words; [|by apply sector_words_range|lia|rewrite Hsw; lia|exact Hph|done|].
    { intros E. by rewrite E in Hsw. }
    intros d1 Hd1. rewrite words_sector_words by done.
    apply wp_settle; [rewrite Hd1; by apply next_sending_busy|]. intros d2 Hd2.
    assert (pio_same (ata_view d) (ata_view d2)) as Hsame.
    { rewrite Hd2, Hd1. apply next_sending_same. }
    destruct Hsame as (E1 & E2 & E3).
    apply (IH (lba + 1)); [by apply (pio_same_wf (ata_view d))|lia| | |by rewrite Hd2|].
    + rewrite length_splice by lia. lia.
    + rewrite E3, Hd2, Hd1. by destruct n.
    + intros d3 (F1 & F2 & F3) Hph3 Hb3. rewrite splice_splice.
      * replace (Z.to_nat (2 * (i * 256))) with (Z.to_nat (512 * i)) by lia.
        rewrite (sectors_ext _ (p_disk (ata_view d))) by auto. rewrite <-sectors_cons.
        apply HQ; [|done..]. split; [|split]; intros; rewrite ?F1, ?F2, ?F3; auto.
      * rewrite Hlen. lia.
      * rewrite length_sectors by (intros; rewrite E3; apply Hwf). lia.
Qed.

Lemma load_word_ok buffer i :
  0 ≤ i → 2 * i + 2 ≤ zlen buffer →
  load_word buffer i = Done (le_val (take 2 (drop (Z.to_nat (2 * i)) buffer))).
Proof. intros. unfold load_word. by rewrite decide_True. Qed.

Lemma wp_write_words lba todo n : ∀ i ws buffer (Q : unit → D → Prop) d,
  n ≠ O → (length ws + n = 256)%nat → Forall is_byte buffer → 0 ≤ i → 2 * (i + Z.of_nat n) ≤ zlen buffer →
  p_phase (ata_view d) = Receiving lba todo ws → p_busy (ata_view d) = O →
  (∀ d', ata_view d' =
     next_receiving lba todo (ws ++ sector_words n (drop (Z.to_nat (2 * i)) buffer)) (ata_view d) → Q tt d') →
  wp (write_words i n buffer) Q d.
Proof.
  induction n as [|n IH]; intros i ws buffer Q d Hn Hws Hbs Hi Hl Hph Hb HQ; [done|]. cbn [write_words].
  eapply wp_bind, wp_liftO; [apply load_word_ok; lia|].
  set (w := le_val (take 2 (drop (Z.to_nat (2 * i)) buffer))) in *.
  assert (0 ≤ w < 65536) as Hw.
  { by apply (Forall_inv (sector_words_range 1 (drop (Z.to_nat (2 * i)) buffer)
      (Forall_drop _ _ _ Hbs))). }
  apply wp_bind, wp_io_out_word. rewrite (u16_small w), u16_small by (done || (unfold ATA_DATA; lia)).
  assert (ata_view (port_out_word ATA_DATA w d) = pio_out_word ATA_DATA w (ata_view d)) as Hd.
  { apply view_out_word. unfold ATA_DATA. lia. }
  revert Hd. generalize (port_out_word ATA_DATA w d). intros d1 Hd.
  unfold pio_out_word in Hd. rewrite decide_True, Hb, Hph in Hd by done. cbv zeta in Hd. rewrite length_app in Hd. cbn [length] in Hd.
  destruct n as [|n].
  - rewrite decide_True in Hd by lia. cbn [write_words]. apply wp_ret, HQ. by rewrite Hd.
  - rewrite decide_False in Hd by lia.
    apply (IH (i + 1) (ws ++ [w])); [done|rewrite length_app; cbn [length]; lia|done|lia|lia|by rewrite Hd|by rewrite Hd|].
    intros d2 Hd2. apply HQ. rewrite Hd2, Hd. rewrite <-app_assoc.
    replace (Z.to_nat (2 * (i + 1))) with (Z.to_nat (2 * i) + 2)%nat by lia. rewrite <-drop_drop.
    unfold next_receiving. by destruct todo as [|[|]].
Qed.

(** The sectors [lba .. lba + n) hold the buffer from sector [i] of it on. *)
Definition pio_written (lba : Z) (n : nat) (i : Z) (buffer : list Z) (p q : pio) : Prop :=
  p_latency q = p_latency p ∧ p_size q = p_size p ∧
  ∀ k, p_disk q k = if decide (lba ≤ k < lba + Z.of_nat n) then sector_of buffer (i + (k - lba)) else p_disk p k.

Lemma pio_written_wf lba n i buffer p q :
  pio_written lba n i buffer p q → 0 ≤ i → 512 * (i + Z.of_nat n) ≤ zlen buffer → Forall is_byte buffer →
  pio_wf p → pio_wf q.
Proof.
  intros (E1 & E2 & E3) Hi Hl Hb [? ? Hd]. split; rewrite ?E1, ?E2; [done..|]. intros k. rewrite E3.
  case_decide; [|apply Hd]. unfold sector_of. split; [rewrite length_take, length_drop; lia|].
  by apply Forall_take, Forall_drop.
Qed.

Lemma words_sector_of buffer i :
  0 ≤ i → 512 * (i + 1) ≤ zlen buffer → Forall is_byte buffer →
  words_sector (sector_words 256 (drop (Z.to_nat (512 * i)) buffer)) = sector_of buffer i.
Proof.
  intros Hi Hl Hb. unfold sector_of. rewrite <-(words_sector_words 256 (take 512 _)).
  - f_equal. assert (∀ n bs, sector_words n bs = sector_words n (take (2 * n) bs)) as ->; [|done].
    clear. induction n as [|n IH]; intros bs; cbn [sector_words]; [done|]. f_equal.
    + rewrite take_take. do 2 f_equal. lia.
    + rewrite IH. replace (2 * S n)%nat with (2 + 2 * n)%nat by lia. by rewrite skipn_firstn_comm, Nat.add_comm, Nat.add_sub.
  - by apply Forall_take, Forall_drop.
  - rewrite length_take, length_drop. lia.
Qed.

Lemma wp_write_sectors n : ∀ lba i buffer (Q : unit → D → Prop) d,
  pio_wf (ata_view d) → 0 ≤ i → 512 * (i + Z.of_nat n) ≤ zlen buffer → Forall is_byte buffer →
  p_phase (ata_view d) = match n with O => Idle | _ => Receiving lba n [] end →
  p_busy (ata_view d) = O →
  (∀ d', pio_written lba n i buffer (ata_view d) (ata_view d') →
     p_phase (ata_view d') = Idle → p_busy (ata_view d') = O → Q tt d') →
  wp (write_sectors i n buffer) Q d.
Proof.
  induction n as [|n IH]; intros lba i buffer Q d Hwf Hi Hl Hbs Hph Hb HQ; cbn [write_sectors].
  - apply wp_ret, HQ; [|done..]. split; [done|]. split; [done|]. intros k. by rewrite decide_False by lia.
  - apply wp_bind. apply (wp_write_words lba (S n) 256 (i * 256) []); [done|done|done|lia|lia|exact Hph|done|]. intros d1 Hd1.
    cbn [app] in Hd1. unfold next_receiving in Hd1.
    replace (Z.to_nat (2 * (i * 256))) with (Z.to_nat (512 * i)) in Hd1 by lia.
    rewrite words_sector_of in Hd1 by (done || lia).
    apply wp_settle; [rewrite Hd1; destruct n; simpl; apply Hwf|]. intros d2 Hd2.
    assert (pio_written lba 1 i buffer (ata_view d) (ata_view d2)) as Hone.
    { rewrite Hd2, Hd1. split; [by destruct n|]. split; [by destruct n|]. intros k.
      trans (if decide (k = lba) then sector_of buffer i else p_disk (ata_view d) k); [by destruct n|].
      repeat case_decide; try lia; [|done]. subst. f_equal. lia. }
    apply (IH (lba + 1) (i + 1)); [|lia|lia|done| |by rewrite Hd2|].
    + eapply pio_written_wf; [exact Hone|lia|lia|done|done].
    + rewrite Hd2, Hd1. by destruct n.
    + intros d3 (F1 & F2 & F3) Hph3 Hb3. destruct Hone as (E1 & E2 & E3). apply HQ; [|done..].
      split; [by rewrite F1|]. split; [by rewrite F2|]. intros k. rewrite F3, E3.
      repeat case_decide; try lia; f_equal; lia.
Qed.

Lemma wp_out_reg port v (Q : unit → D → Prop) d :
  0x1F2 ≤ port ≤ 0x1F6 → p_busy (ata_view d) = O →
  (∀ d', ata_view d' = set_reg port (u8 v) (ata_view d) → Q tt d') → wp (io_out_byte port v) Q d.
Proof.
  intros Hp Hb HQ. apply wp_out_view; [lia|].
  intros d' Hd'. apply HQ. rewrite Hd'. unfold pio_out. rewrite decide_False by lia. by rewrite decide_True.
Qed.

(** The registers a command leaves are the 28-bit address of its first sector. *)
Lemma wp_ata_command sector_number sector_count command (Q : unit → D → Prop) d :
  0 ≤ sector_number → 0 < sector_count < 256 → sector_number + sector_count ≤ p_size (ata_view d) →
  pio_wf (ata_view d) → p_phase (ata_view d) = Idle → p_busy (ata_view d) = O →
  command = 0x20 ∨ command = 0x30 →
  (∀ d', pio_same (ata_view d) (ata_view d') →
     p_phase (ata_view d') =
       (if decide (command = 0x20)
        then Sending sector_number (Z.to_nat sector_count) (sector_words 256 (p_disk (ata_view d) sector_number))
        else Receiving sector_number (Z.to_nat sector_count) []) →
     Z.of_nat (p_busy (ata_view d')) ≤ 90000 → Q tt d') →
  wp (ata_command sector_number sector_count command) Q d.
Proof.
  intros Hn Hc Hsz Hwf Hph Hb Hcmd HQ. pose proof (pw_size _ Hwf) as Hsize. unfold ata_command.
  apply wp_bind, wp_out_reg; [done|done|]. intros d1 Hd1.
  apply wp_bind, wp_out_reg; [done|by rewrite Hd1|]. intros d2 Hd2.
  apply wp_bind, wp_out_reg; [done|by rewrite Hd2, Hd1|]. intros d3 Hd3.
  apply wp_bind, wp_out_reg; [done|by rewrite Hd3, Hd2, Hd1|]. intros d4 Hd4.
  apply wp_bind, wp_out_reg; [done|by rewrite Hd4, Hd3, Hd2, Hd1|]. intros d5 Hd5.
  assert (p_lba (ata_view d5) = sector_number ∧ p_count (ata_view d5) = sector_count ∧ p_selected (ata_view d5))
    as (Elba & Ecnt & Esel).
  { rewrite Hd5, Hd4, Hd3, Hd2, Hd1. split; [apply lba_roundtrip; lia|]. split; [|apply select_bits; lia].
    change (p_count _) with (if decide (u8 sector_count = 0) then 256 else u8 sector_count).
    by rewrite u8_small, decide_False by lia. }
  rewrite Hd1 in Hd2. rewrite Hd2 in Hd3. rewrite Hd3 in Hd4. rewrite Hd4 in Hd5.
  apply wp_out_view; [done|]. intros d6 Hd6.
  assert (ata_view d6 = with_phase (if decide (command = 0x20)
      then Sending sector_number (Z.to_nat sector_count) (sector_words 256 (p_disk (ata_view d) sector_number))
      else Receiving sector_number (Z.to_nat sector_count) []) (p_latency (ata_view d)) (ata_view d5)) as E.
  { rewrite Hd6. unfold pio_out. rewrite decide_False by (rewrite Hd5; simpl; lia).
    rewrite (decide_False (P := 0x1F2 ≤ ATA_CMD_STATUS ≤ 0x1F6)) by (unfold ATA_CMD_STATUS; lia).
    rewrite Elba, Ecnt, decide_True by (split_and!; [done|by rewrite Hd5|done|rewrite Hd5; simpl; lia]).
    rewrite Hd5. by destruct Hcmd as [->| ->]. }
  apply HQ; rewrite E, ?Hd5; [done|done|]. apply Hwf.
Qed.

(** ** The driver implements the interface of the file system *)

Definition ata_ok (a : ata D) : Prop :=
  is_present (main_driver a) ≠ 0 ∧ pio_wf (ata_view (ata_ports a)) ∧
  p_phase (ata_view (ata_ports a)) = Idle ∧ p_busy (ata_view (ata_ports a)) = O.

Lemma wp_on_ports {A} (m : M D A) (Q : A → ata D → Prop) a :
  wp m (λ x d, Q x (set_ata_ports d a)) (ata_ports a) → wp (on_ports m) Q a.
Proof. apply wp_zoom. Qed.

Lemma wp_ata_read a lba n buffer :
  ata_ok a → 0 ≤ lba → 0 < n < 256 → lba + n ≤ p_size (ata_view (ata_ports a)) → 512 * n ≤ zlen buffer →
  wp (ata_read lba n buffer)
    (λ r a', r = (0, splice buffer 0 (sectors (p_disk (ata_view (ata_ports a))) lba (Z.to_nat n))) ∧
       ata_ok a' ∧ pio_same (ata_view (ata_ports a)) (ata_view (ata_ports a'))) a.
Proof.
  intros (Hpr & Hwf & Hph & Hb) Hlba Hn Hsz Hl. unfold ata_read. wp_steps. rewrite decide_False by done.
  apply wp_bind, wp_on_ports, wp_ata_command; [done..|by left|]. intros d1 Hs1 Hph1 Hb1.
  rewrite decide_True in Hph1 by done.
  apply wp_bind, wp_on_ports, wp_wait_request; [done|cbn; by rewrite Hph1|]. intros d2 Hd2. cbn in Hd2.
  assert (pio_same (ata_view (ata_ports a)) (ata_view d2)) as (F1 & F2 & F3) by by rewrite Hd2.
  apply wp_bind, wp_on_ports, (wp_read_sectors _ lba); cbn [ata_ports set_ata_ports].
  - by apply (pio_same_wf (ata_view (ata_ports a))).
  - lia.
  - lia.
  - rewrite F3, Hd2. cbn [p_phase with_phase]. rewrite Hph1.
    destruct (Z.to_nat n) eqn:E; [lia|done].
  - by rewrite Hd2.
  - intros d3 (G1 & G2 & G3) Hph3 Hb3. apply wp_ret.
    assert (pio_same (ata_view (ata_ports a)) (ata_view d3)) as Hs3.
    { split; [by rewrite G1|]. split; [by rewrite G2|]. intros k. by rewrite G3. }
    split; [|split; [|done]].
    + change (Z.to_nat (512 * 0)) with O. do 2 f_equal. by apply sectors_ext.
    + split; [done|]. split; [|done]. by apply (pio_same_wf (ata_view (ata_ports a))).
Qed.

Lemma wp_ata_write a lba n buffer :
  ata_ok a → 0 ≤ lba → 0 < n < 256 → lba + n ≤ p_size (ata_view (ata_ports a)) → 512 * n ≤ zlen buffer →
  Forall is_byte buffer →
  wp (ata_write lba n buffer)
    (λ r a', r = 0 ∧ ata_ok a' ∧
       pio_written lba (Z.to_nat n) 0 buffer (ata_view (ata_ports a)) (ata_view (ata_ports a'))) a.
Proof.
  intros (Hpr & Hwf & Hph & Hb) Hlba Hn Hsz Hl Hbs. unfold ata_write. wp_steps. rewrite decide_False by done.
  apply wp_bind, wp_on_ports, wp_ata_command; [done..|by right|]. intros d1 Hs1 Hph1 Hb1.
  rewrite decide_False in Hph1 by done.
  apply wp_bind, wp_on_ports, wp_wait_request; [done|cbn; by rewrite Hph1|]. intros d2 Hd2. cbn in Hd2.
  assert (pio_same (ata_view (ata_ports a)) (ata_view d2)) as Hs2 by by rewrite Hd2.
  apply wp_bind, wp_on_ports, (wp_write_sectors _ lba); cbn [ata_ports set_ata_ports].
  - by apply (pio_same_wf (ata_view (ata_ports a))).
  - lia.
  - lia.
  - done.
  - rewrite Hd2. cbn [p_phase with_phase]. rewrite Hph1. destruct (Z.to_nat n) eqn:E; [lia|done].
  - by rewrite Hd2.
  - intros d3 (G1 & G2 & G3) Hph3 Hb3. apply wp_ret. destruct Hs2 as (F1 & F2 & F3).
    assert (pio_written lba (Z.to_nat n) 0 buffer (ata_view (ata_ports a)) (ata_view d3)) as Hw.
    { split; [by rewrite G1|]. split; [by rewrite G2|]. intros k. by rewrite G3, F3. }
    split; [done|]. split; [|done]. split; [done|]. split; [|done].
    eapply pio_written_wf; [exact Hw|lia|lia|done|done].
Qed.
End specs.

#[export] Instance ata_device {D} `{Ports D} : BlockDevice (ata D) := {
  dev_read := ata_read; dev_write := ata_write }.

#[export] Program Instance ata_laws {D} `{AtaDrive D} : BlockDeviceLaws (ata D) := {
  dev_ready := ata_ok;
  dev_size a := p_size (ata_view (ata_ports a));
  dev_sector a := p_disk (ata_view (ata_ports a));
}.
Next Obligation. intros D ?? a k Ha. apply Ha. Qed.
Next Obligation. intros D ?? a k Ha. apply Ha. Qed.
Next Obligation.
  intros D ?? a lba n buf Ha ????. cbn [dev_read ata_device].
  destruct (proj1 (wp_done _ _ _) (wp_ata_read a lba n buf Ha ltac:(done) ltac:(done) ltac:(done) ltac:(done)))
    as (r & a' & E & -> & Hok & Hs). exists a'. rewrite E. split; [done|]. split; [done|]. by destruct Hs as (_ & ? & ?).
Qed.
Next Obligation.
  intros D ?? a lba n buf Ha ?????. cbn [dev_write ata_device].
  destruct (proj1 (wp_done _ _ _) (wp_ata_write a lba n buf Ha ltac:(done) ltac:(done) ltac:(done) ltac:(done) ltac:(done)))
    as (r & a' & E & -> & Hok & _ & Hsz & Hd). exists a'. rewrite E. split; [done|]. split; [done|]. split; [done|].
  intros k. rewrite Hd, Z2Nat.id by lia. by rewrite Z.add_0_l.
Qed.

(** ** Properties *)

Module Demo.
(** A drive of sixteen sectors, sector [k] full of [k]s, that needs three status
    reads before every sector. *)
Definition medium (k : Z) : list Z := replicate 512 (Z.land k 0xFF).
Definition drive : pio := Pio (λ _, 0) Idle 0 3 16 medium.
Definition driver : ata pio := Ata (AtaDriveInfo 0 0 0 16 [] 1) drive.

Lemma drive_wf : pio_wf drive.
Proof.
  split; cbn [drive p_latency p_size p_disk]; [lia|lia|]. intros k. unfold medium. split; [by rewrite length_replicate|]. apply Forall_replicate.
  unfold is_byte. change 0xFF with (Z.ones 8). rewrite Z.land_ones by lia. apply Z.mod_pos_bound. lia.
Qed.
Lemma driver_ok : ata_ok driver.
Proof. split; [done|]. split; [exact drive_wf|done]. Qed.
End Demo.

(** C31: on a drive that follows the documented protocol, ata_read of [n] sectors
    (fewer than 256) from a 28-bit sector number terminates, returns 0, puts
    exactly the bytes of the sectors [lba], ..., [lba + n - 1] at the front of the
    buffer, leaves the medium as it was and the drive idle; the waiting loops
    finish whatever the drive's latency, up to 90000 status reads. *)
Theorem ata_read_reads {D} `{AtaDrive D} (a : ata D) lba n buffer :
  ata_ok a → 0 ≤ lba → 0 < n < 256 → lba + n ≤ p_size (ata_view (ata_ports a)) → 512 * n ≤ zlen buffer →
  ∃ a', ata_read lba n buffer a =
          Done ((0, splice buffer 0 (sectors (p_disk (ata_view (ata_ports a))) lba (Z.to_nat n))), a') ∧
        ata_ok a' ∧ ∀ k, p_disk (ata_view (ata_ports a')) k = p_disk (ata_view (ata_ports a)) k.
Proof.
  intros Ha ????. destruct (proj1 (wp_done _ _ _) (wp_ata_read a lba n buffer Ha ltac:(done) ltac:(done) ltac:(done) ltac:(done)))
    as (r & a' & E & -> & Hok & _ & _ & Hd). eauto.
Qed.

Lemma ata_read_reads_witness :
  ∃ a', ata_read 5 2 (replicate 1024 0) Demo.driver =
          Done ((0, splice (replicate 1024 0) 0 (sectors Demo.medium 5 2)), a') ∧
        ata_ok a' ∧ ∀ k, p_disk (ata_view (ata_ports a')) k = Demo.medium k.
Proof.
  exact (ata_read_reads Demo.driver 5 2 (replicate 1024 0) Demo.driver_ok
    ltac:(lia) ltac:(lia) ltac:(by_decide) ltac:(by_decide)).
Defined.

(** C32: what ata_write puts on the drive ata_read gets back: after a successful
    write of [n] sectors, reading the same sectors returns the bytes written, and
    every sector outside the range is unchanged. *)
Theorem ata_write_then_read {D} `{AtaDrive D} (a : ata D) lba n data buffer :
  ata_ok a → 0 ≤ lba → 0 < n < 256 → lba + n ≤ p_size (ata_view (ata_ports a)) →
  zlen data = 512 * n → Forall is_byte data → zlen buffer = 512 * n →
  ∃ a1 a2, ata_write lba n data a = Done (0, a1) ∧ ata_read lba n buffer a1 = Done ((0, data), a2) ∧
    ∀ k, ¬ lba ≤ k < lba + n →
      p_disk (ata_view (ata_ports a2)) k = p_disk (ata_view (ata_ports a)) k.
Proof.
  intros Ha Hlba Hn Hsz Hdata Hbytes Hbuf.
  destruct (proj1 (wp_done _ _ _) (wp_ata_write a lba n data Ha Hlba Hn Hsz ltac:(lia) Hbytes))
    as (r & a1 & E1 & -> & Hok1 & _ & Hsz1 & Hd1).
  destruct (proj1 (wp_done _ _ _) (wp_ata_read a1 lba n buffer Hok1 Hlba Hn ltac:(lia) ltac:(lia)))
    as (r & a2 & E2 & -> & Hok2 & _ & Hsz2 & Hd2).
  exists a1, a2. split; [done|]. split.
  - rewrite E2. do 3 f_equal.
    rewrite (sectors_ext _ (λ k, sector_of data (k - lba))).
    + rewrite sectors_of_buffer by lia. unfold splice. rewrite drop_ge by lia. by rewrite app_nil_r.
    + intros k Hk. by rewrite Hd1, decide_True by lia.
  - intros k Hk. by rewrite Hd2, Hd1, decide_False by lia.
Qed.

Lemma ata_write_then_read_witness :
  ∃ a1 a2, ata_write 3 1 (replicate 512 0x41) Demo.driver = Done (0, a1) ∧
    ata_read 3 1 (replicate 512 0) a1 = Done ((0, replicate 512 0x41), a2) ∧
    ∀ k, ¬ 3 ≤ k < 3 + 1 → p_disk (ata_view (ata_ports a2)) k = Demo.medium k.
Proof.
  exact (ata_write_then_read Demo.driver 3 1 (replicate 512 0x41) (replicate 512 0) Demo.driver_ok
    ltac:(lia) ltac:(lia) ltac:(by_decide) ltac:(by_decide) ltac:(by_decide) ltac:(by_decide)).
Defined.

Lemma identify_words_done {D} `{Ports D} n (d : D) :
  ∃ ws d', identify_words n d = Done (ws, d') ∧ length ws = n.
Proof.
  revert d. induction n as [|n IH]; intros d; cbn [identify_words]; [by exists [], d|].
  unfold mbind, M_bind, io_in_word. destruct (port_in_word (u16 ATA_DATA) d) as [v d1].
  destruct (IH d1) as (ws & d2 & -> & Hl). exists (u16 v :: ws), d2. split; [done|]. by simpl; rewrite Hl.
Qed.

(** ata_init always returns; a drive that answers the identify command with
    status 0 is recorded as absent, and from then on ata_read and ata_write fail
    with 1 without touching a port or the buffer; any other status records a
    present drive whose model number is a string of 40 characters with its terminator. *)
Theorem ata_init_detects {D} `{Ports D} (a : ata D) :
  ∃ a', ata_init a = Done (tt, a') ∧
    ((is_present (main_driver a') = 0 ∧
      (∀ lba n buffer, ata_read lba n buffer a' = Done ((1, buffer), a')) ∧
      (∀ lba n buffer, ata_write lba n buffer a' = Done (1, a'))) ∨
     (is_present (main_driver a') = 1 ∧ length (model (main_driver a')) = 41%nat)).
Proof.
  unfold ata_init, on_ports, zoom. unfold mbind at 1 2 3 4 5 6, M_bind, io_out_byte, io_in_byte. cbn [ata_ports set_ata_ports].
  destruct (port_in _ _) as [st d]. unfold gets, mbind at 1, M_bind. cbn [main_driver]. case_decide as Hst.
  - eexists. split; [done|]. left. done.
  - destruct (identify_words_done 256 d) as (ws & d' & E & Hl). unfold mbind, M_bind.
    cbn [ata_ports set_ata_ports]. rewrite E. eexists. split; [done|]. right. split; [done|].
    cbn [main_driver model]. unfold model_number. rewrite length_app.
    assert (∀ l : list Z, length (concat ((λ w, [Z.land w 0xFF; Z.shiftr w 8]) <$> l)) = (2 * length l)%nat) as ->.
    { induction l; cbn [fmap list_fmap concat length app]; lia. }
    rewrite length_take, length_drop, Hl. done.
Qed.
