(* ===== verification/Gdt.v ===== *)
(** * Segments and the task state: cpu/gdt/gdt.c

    The descriptor table the kernel builds, field by field, the bytes its packed
    structure lays out, and what the processor reads back from those bytes. *)

From S2P Require Import Prelude.

(** ** Definitions *)

Definition GDT_SIZE : Z := 6.
Definition GDT_KERNEL_CODE_INDEX : Z := 1 * 8.
Definition GDT_KERNEL_DATA_INDEX : Z := 2 * 8.

Record gdt_entry := GdtEntry {
  limit_low : Z; base_low : Z; base_mid : Z;
  accessed : Z; readable_writeable : Z; direction : Z; executable : Z; segment_type : Z;
  privilege : Z; present : Z;
  limit_high : Z; reserved : Z; long_mode : Z; segment_size : Z; granularity : Z;
  base_high : Z }.

Record tss_entry_t := Tss {
  prev_tss : Z; esp0 : Z; ss0 : Z; esp1 : Z; ss1 : Z; esp2 : Z; ss2 : Z;
  tss_cr3 : Z; tss_eip : Z; tss_eflags : Z; tss_eax : Z; tss_ecx : Z; tss_edx : Z; tss_ebx : Z;
  tss_esp : Z; tss_ebp : Z; tss_esi : Z; tss_edi : Z;
  tss_es : Z; tss_cs : Z; tss_ss : Z; tss_ds : Z; tss_fs : Z; tss_gs : Z;
  tss_ldt : Z; tss_trap : Z; tss_iomap_base : Z }.

(** 25 double words and two words. *)
Definition sizeof_tss : Z := 104.

Record gdt_ptr := GdtPtr { ptr_limit : Z; ptr_base : Z }.

(** The globals of gdt.c, and the registers [lgdt] and [ltr] load. *)
Record gdt := Gdt {
  gdt_table : list gdt_entry;
  info : gdt_ptr;
  tss : tss_entry_t;
  gdtr : option (gdt_ptr * Z * Z);
  task_register : Z }.

Definition set_table (t : list gdt_entry) (g : gdt) : gdt :=
  Gdt t (info g) (tss g) (gdtr g) (task_register g).
Definition set_info (i : gdt_ptr) (g : gdt) : gdt := Gdt (gdt_table g) i (tss g) (gdtr g) (task_register g).
Definition set_tss (t : tss_entry_t) (g : gdt) : gdt := Gdt (gdt_table g) (info g) t (gdtr g) (task_register g).
Definition set_entry (index : Z) (e : gdt_entry) : M gdt unit := writes gdt_table set_table index e.

Definition zero_entry : gdt_entry := GdtEntry 0 0 0 0 0 0 0 0 0 0 0 0 0 0 0 0.
Definition zero_tss : tss_entry_t := Tss 0 0 0 0 0 0 0 0 0 0 0 0 0 0 0 0 0 0 0 0 0 0 0 0 0 0 0.
(** The statics before [gdt_init]. *)
Definition gdt_statics : gdt := Gdt (replicate 6 zero_entry) (GdtPtr 0 0) zero_tss None 0.

(** Every field but [long_mode], which keeps its value. *)
Definition gdt_fill_entry (index base limit : Z) (is_executable : bool) (privilege_level : Z) : M gdt unit :=
  e ← reads gdt_table index;
  set_entry index {|
    limit_low := u16 (Z.land limit 0xFFFF);
    limit_high := Z.land (Z.shiftr limit 16) 0x0F;
    base_low := u16 (Z.land base 0xFFFF);
    base_mid := u8 (Z.land (Z.shiftr base 16) 0xFF);
    base_high := u8 (Z.land (Z.shiftr base 24) 0xFF);
    accessed := 0; readable_writeable := 1; direction := 0;
    executable := Z.b2z is_executable;
    segment_type := 1;
    privilege := privilege_level mod 4;
    present := 1;
    reserved := 0; long_mode := long_mode e; segment_size := 1; granularity := 1 |}.

Definition tss_fill_entry (esp0 ss0 : Z) : M gdt unit :=
  modify (set_tss (Tss 0 esp0 ss0 0 0 0 0 0 0 0 0 0 0 0 0 0 0 0 0 0 0 0 0 0 0 0 0)).

Section linked.
(** The addresses of [gdt_table] and [tss], which the linker chooses. *)
Context (gdt_table_address tss_address : Z).

Definition gdt_fill_entry_as_tss (index : Z) : M gdt unit :=
  e ← reads gdt_table index;
  set_entry index {|
    limit_low := u16 sizeof_tss;
    base_low := u16 tss_address;
    base_mid := u8 (Z.shiftr tss_address 16);
    accessed := 1; readable_writeable := 0; direction := 0; executable := 1; segment_type := 0;
    privilege := 0; present := 1;
    limit_high := Z.shiftr sizeof_tss 16 mod 16;
    reserved := 0; long_mode := long_mode e; segment_size := 0; granularity := 0;
    base_high := u8 (Z.shiftr tss_address 24) |}.

Definition tss_fill_esp0 (esp0 : Z) : M gdt unit :=
  _ ← tss_fill_entry esp0 0x10;
  gdt_fill_entry_as_tss 5.

Definition load_gdt (code data : Z) : M gdt unit :=
  modify (λ g, Gdt (gdt_table g) (info g) (tss g) (Some (info g, code, data)) (task_register g)).
Definition ltr (selector : Z) : M gdt unit :=
  modify (λ g, Gdt (gdt_table g) (info g) (tss g) (gdtr g) selector).

Definition gdt_init : M gdt unit :=
  _ ← set_entry 0 zero_entry;
  _ ← gdt_fill_entry 1 0 0xFFFFF true 0;
  _ ← gdt_fill_entry 2 0 0xFFFFF false 0;
  _ ← gdt_fill_entry 3 0 0xFFFFF true 3;
  _ ← gdt_fill_entry 4 0 0xFFFFF false 3;
  _ ← tss_fill_entry 0xC1100000 0x10;
  _ ← gdt_fill_entry_as_tss 5;
  _ ← modify (λ g, set_info (GdtPtr (u16 (8 * GDT_SIZE)) (ptr_base (info g))) g);
  _ ← modify (λ g, set_info (GdtPtr (ptr_limit (info g)) (u32 gdt_table_address)) g);
  _ ← load_gdt GDT_KERNEL_CODE_INDEX GDT_KERNEL_DATA_INDEX;
  ltr 0x28.
End linked.

(** The eight bytes of the packed structure. *)
Definition entry_bytes (e : gdt_entry) : list Z :=
  le_bytes 2 (limit_low e) ++ le_bytes 2 (base_low e) ++ [base_mid e;
    accessed e + 2 * readable_writeable e + 4 * direction e + 8 * executable e
      + 16 * segment_type e + 32 * privilege e + 128 * present e;
    limit_high e + 16 * reserved e + 32 * long_mode e + 64 * segment_size e + 128 * granularity e;
    base_high e].

(** ** What the processor reads

    A segment descriptor's documented layout: the base in bytes 2, 3, 4 and 7,
    the limit in bytes 0, 1 and the low half of byte 6, counted in pages when the
    top bit of byte 6 is set. *)
Record descriptor := Descriptor {
  d_base : Z; d_limit : Z; d_access : Z; d_wide : bool }.

Definition decode (bs : list Z) : option descriptor :=
  match bs with
  | [l0; l1; b0; b1; b2; access; flags; b3] =>
      let raw := l0 + 256 * l1 + 65536 * (flags mod 16) in
      Some (Descriptor (b0 + 256 * b1 + 65536 * b2 + 16777216 * b3)
        (if Z.testbit flags 7 then 4096 * raw + 4095 else raw) access (Z.testbit flags 6))
  | _ => None
  end.

(** ** Lemmas *)

Lemma split_word x : 0 ≤ x → x mod 256 + 256 * ((x / 256) mod 256) = x mod 65536.
Proof. intros. change 65536 with (256 * 256). rewrite Z.rem_mul_r by lia. lia. Qed.

(** The three fields of a base put it together again. *)
Lemma base_fields x :
  0 ≤ x < 4294967296 →
  u16 x + 65536 * u8 (Z.shiftr x 16) + 16777216 * u8 (Z.shiftr x 24) = x.
Proof.
  intros Hx. rewrite !Z.shiftr_div_pow2 by lia. change (2 ^ 16) with 65536. change (2 ^ 24) with 16777216.
  unfold u16, u8. replace (x / 16777216) with (x / 65536 / 256) by (by rewrite Z.div_div by lia).
  assert (0 ≤ x / 65536 < 65536).
  { split; [apply Z.div_pos; lia|apply Z.div_lt_upper_bound; lia]. }
  assert (0 ≤ x / 65536 / 256 < 256).
  { split; [apply Z.div_pos; lia|apply Z.div_lt_upper_bound; lia]. }
  rewrite (Z.mod_small (x / 65536 / 256)) by lia.
  pose proof (Z.div_mod x 65536 ltac:(lia)). pose proof (Z.div_mod (x / 65536) 256 ltac:(lia)). lia.
Qed.

Lemma land_byte x : Z.land x 0xFF = u8 x.
Proof. change 0xFF with (Z.ones 8). by rewrite Z.land_ones. Qed.
Lemma land_word x : Z.land x 0xFFFF = u16 x.
Proof. change 0xFFFF with (Z.ones 16). by rewrite Z.land_ones. Qed.
Lemma u8_u8 x : u8 (u8 x) = u8 x.
Proof. apply Z.mod_mod. lia. Qed.
Lemma u16_u16 x : u16 (u16 x) = u16 x.
Proof. apply Z.mod_mod. lia. Qed.

Lemma word_bytes x : 0 ≤ x < 65536 → ∃ l h, le_bytes 2 x = [l; h] ∧ l + 256 * h = x.
Proof.
  intros Hx. exists (x mod 256), ((x / 256) mod 256). split; [done|].
  rewrite split_word by lia. by apply Z.mod_small.
Qed.

(** Decoding an entry from its fields. *)
Lemma decode_entry e :
  0 ≤ limit_low e < 65536 → 0 ≤ base_low e < 65536 →
  decode (entry_bytes e) =
    let flags := limit_high e + 16 * reserved e + 32 * long_mode e + 64 * segment_size e + 128 * granularity e in
    let raw := limit_low e + 65536 * (flags mod 16) in
    Some (Descriptor (base_low e + 65536 * base_mid e + 16777216 * base_high e)
      (if Z.testbit flags 7 then 4096 * raw + 4095 else raw)
      (accessed e + 2 * readable_writeable e + 4 * direction e + 8 * executable e
        + 16 * segment_type e + 32 * privilege e + 128 * present e) (Z.testbit flags 6)).
Proof.
  intros Hl Hb. unfold entry_bytes.
  destruct (word_bytes _ Hl) as (l0 & l1 & -> & El), (word_bytes _ Hb) as (b0 & b1 & -> & Eb).
  cbn [app decode]. rewrite El. cbv zeta. by rewrite Eb.
Qed.

(** The flags byte of a page-granular 32-bit segment, and of the task segment. *)
Lemma flags_byte h l k :
  0 ≤ h < 16 → l = 0 ∨ l = 1 → k = 0 ∨ k = 1 →
  let flags := h + 16 * 0 + 32 * l + 64 * k + 128 * k in
  flags mod 16 = h ∧ Z.testbit flags 7 = (k =? 1) ∧ Z.testbit flags 6 = (k =? 1).
Proof.
  intros Hh Hl Hk flags.
  assert (h = 0 ∨ h = 1 ∨ h = 2 ∨ h = 3 ∨ h = 4 ∨ h = 5 ∨ h = 6 ∨ h = 7 ∨ h = 8 ∨ h = 9 ∨ h = 10 ∨
          h = 11 ∨ h = 12 ∨ h = 13 ∨ h = 14 ∨ h = 15) as Hc by lia. subst flags.
  destruct Hl as [->| ->], Hk as [->| ->]; repeat destruct Hc as [->|Hc]; try (by vm_compute);
    subst; by vm_compute.
Qed.

(** The entries [gdt_init] builds. *)
Definition flat_entry (code level : Z) : gdt_entry := GdtEntry 0xFFFF 0 0 0 1 0 code 1 level 1 15 0 0 1 1 0.
Definition task_entry (a : Z) : gdt_entry :=
  GdtEntry 104 (u16 a) (u8 (Z.shiftr a 16)) 1 0 0 1 0 0 1 0 0 0 0 0 (u8 (Z.shiftr a 24)).

Lemma decode_task_entry a :
  0 ≤ a < 4294967296 → decode (entry_bytes (task_entry a)) = Some (Descriptor a sizeof_tss 0x89 false).
Proof.
  intros Ha. rewrite decode_entry by (apply u16_range || by_decide). unfold task_entry. cbv zeta.
  cbn [limit_high reserved long_mode segment_size granularity limit_low base_low base_mid base_high accessed
    readable_writeable direction executable segment_type privilege present]. by rewrite base_fields.
Qed.

(** ** Properties *)

(** gdt_fill_entry writes a descriptor from which the processor decodes
    exactly what was asked for: for any 32-bit base, 20-bit limit and privilege
    level, the entry's bytes denote a present 32-bit code or data segment with
    that base, that limit counted in 4096-byte pages, and that privilege level in
    the access byte; the other entries of the table are untouched. *)
Theorem gdt_fill_entry_decodes g index base limit is_executable privilege_level :
  0 ≤ index < zlen (gdt_table g) → 0 ≤ base < 4294967296 → 0 ≤ limit < 1048576 → 0 ≤ privilege_level < 4 →
  Forall (λ e, long_mode e = 0) (gdt_table g) →
  ∃ e, gdt_fill_entry index base limit is_executable privilege_level g =
         Done (tt, set_table (<[Z.to_nat index := e]> (gdt_table g)) g) ∧
       decode (entry_bytes e) =
         Some (Descriptor base (4096 * limit + 4095)
           (0x92 + (if is_executable then 8 else 0) + 32 * privilege_level) true).
Proof.
  intros Hi Hb Hl Hp Hlong. destruct (aget_is_Some (gdt_table g) index Hi) as [e0 He0].
  assert (long_mode e0 = 0) as Hl0.
  { apply aget_Some in He0 as [_ He0]. by apply (Forall_lookup_1 _ _ _ _ Hlong He0). }
  unfold gdt_fill_entry, mbind, M_bind, reads. rewrite He0.
  eexists. unfold set_entry, writes. rewrite aset_in by done. split; [done|].
  rewrite !land_byte, !land_word, !u8_u8, !u16_u16.
  rewrite decode_entry by apply u16_range. cbv zeta.
  cbn [limit_high reserved long_mode segment_size granularity limit_low base_low base_mid base_high accessed
    readable_writeable direction executable segment_type privilege present].
  assert (Z.land (Z.shiftr limit 16) 0x0F = limit / 65536) as ->.
  { change 0x0F with (Z.ones 4). rewrite Z.land_ones, Z.shiftr_div_pow2 by lia. change (2 ^ 16) with 65536.
    apply Z.mod_small. split; [apply Z.div_pos; lia|apply Z.div_lt_upper_bound; lia]. }
  destruct (flags_byte (limit / 65536) (long_mode e0) 1) as (-> & -> & ->); [|by left|by right|].
  { split; [apply Z.div_pos; lia|apply Z.div_lt_upper_bound; lia]. }
  rewrite base_fields by done. do 2 f_equal.
  - unfold u16. pose proof (Z.div_mod limit 65536 ltac:(lia)). cbn [Z.eqb Pos.eqb]. lia.
  - rewrite (Z.mod_small privilege_level) by lia. destruct is_executable; cbn [Z.b2z]; lia.
Qed.

Lemma gdt_fill_entry_decodes_witness :
  ∃ e, gdt_fill_entry 3 0x12345678 0xFFFFF true 3 gdt_statics =
         Done (tt, set_table (<[3%nat := e]> (gdt_table gdt_statics)) gdt_statics) ∧
       decode (entry_bytes e) = Some (Descriptor 0x12345678 (4096 * 0xFFFFF + 4095) (0x92 + 8 + 32 * 3) true).
Proof.
  apply (gdt_fill_entry_decodes gdt_statics 3 0x12345678 0xFFFFF true 3);
    [by_decide|by_decide|by_decide|by_decide|]. repeat constructor.
Defined.

(** gdt_init builds the flat memory model the rest of the kernel assumes:
    decoded from the table it loads, entry 0 is the null descriptor, entries 1 to
    4 are the kernel and user code and data segments (access bytes 0x9A, 0x92,
    0xFA, 0xF2) covering all 4 GiB from base 0, entry 5 is a present 32-bit task
    segment at the address of [tss], whose ring-0 stack is 0xC1100000 in the
    kernel's data segment; the processor is told the table's address and the
    selectors 8, 0x10 and 0x28. *)
Theorem gdt_init_flat gdt_address tss_address :
  0 ≤ gdt_address < 4294967296 → 0 ≤ tss_address < 4294967296 →
  ∃ g, gdt_init gdt_address tss_address gdt_statics = Done (tt, g) ∧
    decode ∘ entry_bytes <$> gdt_table g =
      [ Some (Descriptor 0 0 0 false);
        Some (Descriptor 0 0xFFFFFFFF 0x9A true); Some (Descriptor 0 0xFFFFFFFF 0x92 true);
        Some (Descriptor 0 0xFFFFFFFF 0xFA true); Some (Descriptor 0 0xFFFFFFFF 0xF2 true);
        Some (Descriptor tss_address sizeof_tss 0x89 false) ] ∧
    esp0 (tss g) = 0xC1100000 ∧ ss0 (tss g) = GDT_KERNEL_DATA_INDEX ∧
    gdtr g = Some (GdtPtr 48 gdt_address, GDT_KERNEL_CODE_INDEX, GDT_KERNEL_DATA_INDEX) ∧
    task_register g = 0x28.
Proof.
  intros Hg Ht.
  exists (Gdt [zero_entry; flat_entry 1 0; flat_entry 0 0; flat_entry 1 3; flat_entry 0 3; task_entry tss_address]
    (GdtPtr 48 (u32 gdt_address)) (Tss 0 0xC1100000 16 0 0 0 0 0 0 0 0 0 0 0 0 0 0 0 0 0 0 0 0 0 0 0 0)
    (Some (GdtPtr 48 (u32 gdt_address), 8, 16)) 0x28).
  split; [reflexivity|]. split; [|split; [done|split; [done|split; [|done]]]].
  - cbn [gdt_table fmap list_fmap]. unfold compose. rewrite decode_task_entry by done. reflexivity.
  - unfold gdtr. by rewrite u32_small.
Qed.

Lemma gdt_init_flat_witness :
  0 ≤ 0xC0108000 < 4294967296 ∧ 0 ≤ 0xC0109000 < 4294967296 ∧
  ∃ g, gdt_init 0xC0108000 0xC0109000 gdt_statics = Done (tt, g) ∧ task_register g = 0x28.
Proof.
  split; [lia|split; [lia|]].
  destruct (gdt_init_flat 0xC0108000 0xC0109000 ltac:(lia) ltac:(lia)) as (g & E & _ & _ & _ & _ & Hr).
  exists g. by split.
Defined.
