(* ===== verification/Idt.v ===== *)
(** * Interrupt gates and the interrupt controllers: cpu/idt/idt.c, irq.c, cpu/pic/pic.c

    [idt_init] writes 256 gates, remaps the two 8259 controllers and masks every
    line but the cascade.  The controllers are hardware: [i8259] is their
    documented initialisation protocol and [PicDevice] the hypothesis that the
    ports 0x20, 0x21, 0xA0 and 0xA1 lead to two of them. *)

From S2P Require Import Prelude Io Gdt.

(** ** Definitions *)

Definition PIC_ICW1_MASK_IC4 : Z := 0x1.
Definition PIC_ICW1_MASK_INIT : Z := 0x10.
Definition PIC_ICW4_MASK_8086 : Z := 0x1.
Definition PIC1_CMD : Z := 0x20.
Definition PIC1_DATA : Z := 0x21.
Definition PIC2_CMD : Z := 0xA0.
Definition PIC2_DATA : Z := 0xA1.
Definition PIC1_IRQ_INDEX : Z := 0x20.
Definition PIC2_IRQ_INDEX : Z := PIC1_IRQ_INDEX + 0x8.
Definition PIC_EOI : Z := 0x20.
Definition CASCADE_IRQ : Z := 2.
Definition IDT_SIZE : Z := 256.

Section pic.
Context {D : Type} `{Ports D}.

Definition out_wait (port val : Z) : M D unit := _ ← io_out_byte port val; io_wait.
Definition in_wait (port : Z) : M D Z := v ← io_in_byte port; _ ← io_wait; mret v.

Definition init_pic (irq_offset1 irq_offset2 : Z) : M D unit :=
  irq_mask_1 ← in_wait PIC1_DATA;
  irq_mask_2 ← in_wait PIC2_DATA;
  let icw1 := Z.lor PIC_ICW1_MASK_INIT PIC_ICW1_MASK_IC4 in
  _ ← out_wait PIC1_CMD icw1;
  _ ← out_wait PIC2_CMD icw1;
  _ ← out_wait PIC1_DATA irq_offset1;
  _ ← out_wait PIC2_DATA irq_offset2;
  _ ← out_wait PIC1_DATA 4;
  _ ← out_wait PIC2_DATA 2;
  _ ← out_wait PIC1_DATA PIC_ICW4_MASK_8086;
  _ ← out_wait PIC2_DATA PIC_ICW4_MASK_8086;
  _ ← out_wait PIC1_DATA irq_mask_1;
  out_wait PIC2_DATA irq_mask_2.

Definition pic_toggle_irq (irq_number : Z) (toggle_on : bool) : M D unit :=
  let port := if decide (irq_number > 7) then PIC2_DATA else PIC1_DATA in
  irq_mask ← in_wait port;
  let irq_number := irq_number mod 8 in
  out_wait port
    (if toggle_on then u8 (Z.land irq_mask (Z.lnot (Z.shiftl 1 irq_number)))
     else u8 (Z.lor irq_mask (Z.shiftl 1 irq_number))).

Definition init_irqs : M D unit :=
  _ ← for_from 0 16 (λ i, pic_toggle_irq i false);
  pic_toggle_irq CASCADE_IRQ true.

Definition irq_exit (interrupt_number : Z) : M D unit :=
  _ ← (if decide (PIC2_IRQ_INDEX ≤ interrupt_number) then io_out_byte PIC2_CMD PIC_EOI else mret tt);
  io_out_byte PIC1_CMD PIC_EOI.
End pic.

Record idt_entry := IdtEntry {
  offset_low : Z; selector : Z; zero : Z; type_attributes : Z; offset_high : Z }.
Record idt_pointer := IdtPointer { idt_limit : Z; idt_offset : Z }.

(** The globals of idt.c, the register [lidt] loads and the interrupt flag. *)
Record idt_state (D : Type) := Idt {
  idt : list idt_entry;
  idt_ptr : idt_pointer;
  idtr : option idt_pointer;
  interrupts_enabled : bool;
  idt_ports : D }.
Arguments Idt {D}.
Arguments idt {D}.
Arguments idt_ptr {D}.
Arguments idtr {D}.
Arguments interrupts_enabled {D}.
Arguments idt_ports {D}.

Section idt.
Context {D : Type} `{Ports D}.
Implicit Types s : idt_state D.

Definition set_idt (t : list idt_entry) s : idt_state D := Idt t (idt_ptr s) (idtr s) (interrupts_enabled s) (idt_ports s).
Definition set_idt_ports (d : D) s : idt_state D := Idt (idt s) (idt_ptr s) (idtr s) (interrupts_enabled s) d.

Definition idt_set_entry (index handlerAddress : Z) (is_userspace : bool) : M (idt_state D) unit :=
  writes idt set_idt (u8 index) {|
    offset_low := u16 (Z.land handlerAddress 0xFFFF);
    selector := u16 GDT_KERNEL_CODE_INDEX;
    zero := 0;
    type_attributes := u8 (Z.lor 0x8E (if is_userspace then 0x60 else 0x0));
    offset_high := u16 (Z.land (Z.shiftr handlerAddress 16) 0xFFFF) |}.

Definition enable_interrupts : M (idt_state D) unit :=
  modify (λ s, Idt (idt s) (idt_ptr s) (idtr s) true (idt_ports s)).
Definition disable_interrupts : M (idt_state D) unit :=
  modify (λ s, Idt (idt s) (idt_ptr s) (idtr s) false (idt_ports s)).

(** [first_int_handlers] is the table of int_handlers.asm, [idt_address] the
    address of [idt]. *)
Definition idt_init (first_int_handlers : list Z) (idt_address : Z) : M (idt_state D) unit :=
  _ ← for_from 0 256 (λ i,
        h ← reads (λ _, first_int_handlers) i;
        idt_set_entry i (u32 h) (bool_decide (i = 0x80)));
  _ ← modify (λ s, Idt (idt s) (IdtPointer (u16 (8 * IDT_SIZE - 1)) (u32 idt_address))
                    (idtr s) (interrupts_enabled s) (idt_ports s));
  _ ← modify (λ s, Idt (idt s) (idt_ptr s) (Some (idt_ptr s)) (interrupts_enabled s) (idt_ports s));
  _ ← zoom idt_ports set_idt_ports (init_pic PIC1_IRQ_INDEX PIC2_IRQ_INDEX);
  _ ← zoom idt_ports set_idt_ports init_irqs;
  enable_interrupts.
End idt.

(** ** The controllers' documented protocol *)

(** [icw = 0]: operating; otherwise the next initialisation word expected. *)
Record i8259 := I8259 {
  imr : Z; vector_base : Z; wiring : Z; icw : Z; unacknowledged : bool }.

Definition pic_command (v : Z) (p : i8259) : i8259 :=
  if Z.testbit v 4 then I8259 0 (vector_base p) (wiring p) 2 false
  else if decide (v = 0x20) then I8259 (imr p) (vector_base p) (wiring p) (icw p) false else p.
Definition pic_data (v : Z) (p : i8259) : i8259 :=
  if decide (icw p = 2) then I8259 (imr p) (Z.land v 0xF8) (wiring p) 3 (unacknowledged p)
  else if decide (icw p = 3) then I8259 (imr p) (vector_base p) v 4 (unacknowledged p)
  else if decide (icw p = 4) then I8259 (imr p) (vector_base p) (wiring p) 0 (unacknowledged p)
  else I8259 v (vector_base p) (wiring p) 0 (unacknowledged p).

Record pics := Pics { master : i8259; slave : i8259 }.
Definition pics_out (port v : Z) (p : pics) : pics :=
  if decide (port = PIC1_CMD) then Pics (pic_command v (master p)) (slave p)
  else if decide (port = PIC1_DATA) then Pics (pic_data v (master p)) (slave p)
  else if decide (port = PIC2_CMD) then Pics (master p) (pic_command v (slave p))
  else if decide (port = PIC2_DATA) then Pics (master p) (pic_data v (slave p))
  else p.
Definition pics_in (port : Z) (p : pics) : Z :=
  if decide (port = PIC1_DATA) then imr (master p)
  else if decide (port = PIC2_DATA) then imr (slave p) else 0.

#[export] Instance pics_ports : Ports pics := {
  port_in port p := (pics_in port p, p); port_out := pics_out;
  port_in_word _ p := (0, p); port_out_word _ _ p := p;
  port_in_long _ p := (0, p); port_out_long _ _ p := p }.

(** The hypothesis on the device: the data ports read the masks, and every byte
    written reaches the controllers. *)
Class PicDevice (D : Type) `{Ports D} := {
  pic_view : D → pics;
  pic_view_in port d : port = PIC1_DATA ∨ port = PIC2_DATA →
    (port_in port d).1 = pics_in port (pic_view d) ∧ pic_view (port_in port d).2 = pic_view d;
  pic_view_out port v d : pic_view (port_out port v d) = pics_out port v (pic_view d);
}.

#[export] Program Instance pics_device : PicDevice pics := { pic_view p := p }.
Next Obligation. by intros port d [-> | ->]. Qed.
Next Obligation. done. Qed.

(** Both controllers operate and hold byte masks. *)
Definition pics_ok (p : pics) : Prop :=
  is_byte (imr (master p)) ∧ is_byte (imr (slave p)) ∧ icw (master p) = 0 ∧ icw (slave p) = 0.

#[export] Instance pics_ok_dec p : Decision (pics_ok p).
Proof. unfold pics_ok. apply _. Defined.

(** The mask bit of an interrupt line. *)
Definition masked (p : pics) (irq : Z) : bool :=
  if decide (irq > 7) then Z.testbit (imr (slave p)) (irq - 8) else Z.testbit (imr (master p)) irq.

(** ** Lemmas *)

(** Which controller a write reaches, and the initialisation words in turn. *)
Lemma pics_out_1c v p : pics_out PIC1_CMD v p = Pics (pic_command v (master p)) (slave p).
Proof. done. Qed.
Lemma pics_out_1d v p : pics_out PIC1_DATA v p = Pics (pic_data v (master p)) (slave p).
Proof. done. Qed.
Lemma pics_out_2c v p : pics_out PIC2_CMD v p = Pics (master p) (pic_command v (slave p)).
Proof. done. Qed.
Lemma pics_out_2d v p : pics_out PIC2_DATA v p = Pics (master p) (pic_data v (slave p)).
Proof. done. Qed.
Lemma pics_in_1 p : pics_in PIC1_DATA p = imr (master p).
Proof. done. Qed.
Lemma pics_in_2 p : pics_in PIC2_DATA p = imr (slave p).
Proof. done. Qed.
Lemma pic_icw1 m vb w i u : pic_command 0x11 (I8259 m vb w i u) = I8259 0 vb w 2 false.
Proof. done. Qed.
Lemma pic_icw2 v m vb w u : pic_data v (I8259 m vb w 2 u) = I8259 m (Z.land v 0xF8) w 3 u.
Proof. done. Qed.
Lemma pic_icw3 v m vb w u : pic_data v (I8259 m vb w 3 u) = I8259 m vb v 4 u.
Proof. done. Qed.
Lemma pic_icw4 v m vb w u : pic_data v (I8259 m vb w 4 u) = I8259 m vb w 0 u.
Proof. done. Qed.
Lemma pic_mask v m vb w u : pic_data v (I8259 m vb w 0 u) = I8259 v vb w 0 u.
Proof. done. Qed.
Create Rewrite HintDb pic.
#[export] Hint Rewrite pics_in_1 pics_in_2 pics_out_1c pics_out_1d pics_out_2c pics_out_2d pic_icw1 pic_icw2 pic_icw3 pic_icw4 pic_mask : pic.

(** A vector base is a multiple of eight, so its low bits are not lost. *)
Lemma vector_bits o : 0 ≤ o < 256 → o mod 8 = 0 → Z.land o 0xF8 = o.
Proof.
  intros Ho Hmod. change 0xF8 with (Z.shiftl (Z.ones 5) 3). apply Z.bits_inj'. intros j Hj.
  rewrite Z.land_spec, Z.shiftl_spec by lia. destruct (decide (j < 3)).
  - rewrite (Z.testbit_neg_r _ (j - 3)) by lia. rewrite andb_false_r. symmetry.
    rewrite <-(Z.mod_pow2_bits_low o 3) by lia. change (2 ^ 3) with 8. by rewrite Hmod, Z.bits_0.
  - rewrite Z.testbit_ones by lia. destruct (decide (j < 8)).
    + replace (0 <=? j - 3) with true by (symmetry; apply Z.leb_le; lia).
      replace (j - 3 <? 5) with true by (symmetry; apply Z.ltb_lt; lia). by rewrite andb_true_r.
    + rewrite (testbit_above o 8 j) by (change (2 ^ 8) with 256; lia). done.
Qed.

Section specs.
Context {D : Type} `{PicDevice D}.
Implicit Types d : D.

Lemma wp_out_wait port v (Q : unit → D → Prop) d :
  port = PIC1_CMD ∨ port = PIC1_DATA ∨ port = PIC2_CMD ∨ port = PIC2_DATA →
  (∀ d', pic_view d' = pics_out port (u8 v) (pic_view d) → Q tt d') → wp (out_wait port v) Q d.
Proof.
  intros Hp HQ. unfold out_wait. apply wp_bind, wp_io_out_byte. unfold io_wait. apply wp_io_out_byte, HQ.
  rewrite !pic_view_out. assert (u16 port = port) as -> by (by destruct Hp as [-> |[-> |[-> | ->]]]).
  done.
Qed.

Lemma wp_in_wait port (Q : Z → D → Prop) d :
  port = PIC1_DATA ∨ port = PIC2_DATA →
  (∀ d', pic_view d' = pic_view d → Q (u8 (pics_in port (pic_view d))) d') → wp (in_wait port) Q d.
Proof.
  intros Hp HQ. unfold in_wait. apply wp_bind, wp_io_in_byte.
  assert (u16 port = port) as -> by (by destruct Hp as [-> | ->]).
  destruct (pic_view_in port d Hp) as [E1 E2]. rewrite E1. apply wp_bind, wp_io_out_byte, wp_ret, HQ.
  by rewrite pic_view_out, E2.
Qed.

(** One write of a sequence; [E] describes the controllers before and after it. *)
Ltac pic_write E :=
  first [apply wp_bind, wp_out_wait | apply wp_out_wait];
  [tauto|let d := fresh "d" in let E' := fresh "E'" in
   intros d E'; rewrite E in E'; autorewrite with pic in E'; cbn [master slave] in E';
   autorewrite with pic in E'; clear E; rename E' into E].

Lemma wp_init_pic o1 o2 (Q : unit → D → Prop) d :
  pics_ok (pic_view d) → is_byte o1 → is_byte o2 → o1 mod 8 = 0 → o2 mod 8 = 0 →
  (∀ d', pic_view d' = Pics (I8259 (imr (master (pic_view d))) o1 4 0 false)
                            (I8259 (imr (slave (pic_view d))) o2 2 0 false) → Q tt d') →
  wp (init_pic o1 o2) Q d.
Proof.
  intros (Hm & Hs & Hi1 & Hi2) Ho1 Ho2 He1 He2 HQ. unfold init_pic.
  apply wp_bind, wp_in_wait; [by left|]. intros d1 E1. apply wp_bind, wp_in_wait; [by right|]. intros d2 E2.
  rewrite E1 in E2 |- *. cbv zeta. clear E1 d1.
  destruct (pic_view d) as [[m1 v1 w1 i1 u1] [m2 v2 w2 i2 u2]]. cbn [master slave imr icw] in *.
  unfold is_byte in *. rewrite pics_in_1, pics_in_2. cbn [master slave imr] in *.
  assert (Z.lor PIC_ICW1_MASK_INIT PIC_ICW1_MASK_IC4 = 0x11) as -> by done.
  rewrite !u8_small by lia. subst i1 i2.
  do 10 pic_write E2. apply HQ. rewrite E2, !vector_bits, !u8_small by (rewrite ?u8_small by lia; done || lia).
  done.
Qed.

(** Masks of two controllers that are otherwise the same. *)
Definition pics_keep (p q : pics) : Prop :=
  pics_ok q ∧ vector_base (master q) = vector_base (master p) ∧ vector_base (slave q) = vector_base (slave p) ∧
  wiring (master q) = wiring (master p) ∧ wiring (slave q) = wiring (slave p).

Lemma u8_bit x j : 0 ≤ j < 8 → Z.testbit (u8 x) j = Z.testbit x j.
Proof. intros. unfold u8. change 256 with (2 ^ 8). apply Z.mod_pow2_bits_low. lia. Qed.

(** The bit of a mask register that [pic_toggle_irq] changes. *)
Lemma mask_bit m r (on : bool) j :
  0 ≤ r < 8 → 0 ≤ j < 8 →
  Z.testbit (u8 (if on then u8 (Z.land m (Z.lnot (Z.shiftl 1 r))) else u8 (Z.lor m (Z.shiftl 1 r)))) j =
    if decide (j = r) then negb on else Z.testbit m j.
Proof.
  intros Hr Hj. rewrite u8_bit by done. destruct on; rewrite u8_bit by done.
  - rewrite Z.land_spec, Z.lnot_spec, testbit_shiftl1 by lia. case_decide.
    + rewrite bool_decide_true by done. by rewrite andb_false_r.
    + rewrite bool_decide_false by done. by rewrite andb_true_r.
  - rewrite Z.lor_spec, testbit_shiftl1 by lia. case_decide.
    + rewrite bool_decide_true by done. by rewrite orb_true_r.
    + rewrite bool_decide_false by done. by rewrite orb_false_r.
Qed.

Lemma wp_pic_toggle_irq irq (on : bool) (Q : unit → D → Prop) d :
  pics_ok (pic_view d) → 0 ≤ irq < 16 →
  (∀ d', pics_keep (pic_view d) (pic_view d') →
     (∀ j, 0 ≤ j < 16 → masked (pic_view d') j = if decide (j = irq) then negb on else masked (pic_view d) j) →
     Q tt d') →
  wp (pic_toggle_irq irq on) Q d.
Proof.
  intros Hok Hirq HQ. unfold pic_toggle_irq. cbv zeta.
  set (port := if decide (irq > 7) then PIC2_DATA else PIC1_DATA).
  apply wp_bind, wp_in_wait; [subst port; case_decide; tauto|]. intros d1 E1.
  destruct Hok as (Hm & Hs & Hi1 & Hi2). destruct (pic_view d) as [[m1 v1 w1 i1 u1] [m2 v2 w2 i2 u2]] eqn:E.
  cbn [master slave imr icw] in *. subst i1 i2. unfold is_byte in Hm, Hs.
  set (r := irq mod 8). assert (0 ≤ r < 8) as Hr by (apply Z.mod_pos_bound; lia).
  apply wp_out_wait; [subst port; case_decide; tauto|]. intros d2 E2. rewrite E1 in E2.
  apply HQ; subst port; destruct (decide (irq > 7)) as [Hgt|Hle];
    autorewrite with pic in E2; cbn [master slave imr] in E2; autorewrite with pic in E2; rewrite E2.
  1, 2: unfold pics_keep, pics_ok; cbn; repeat split; try lia; apply u8_range.
  all: intros j Hj; unfold masked; cbn [master slave imr];
    destruct (decide (j > 7)); repeat case_decide; try lia; try done.
  all: rewrite mask_bit by lia; rewrite u8_small by lia.
  - rewrite decide_True; [done|]. subst irq r. rewrite <-(Z.mod_add j (-1)), Z.mod_small by lia. lia.
  - rewrite decide_False; [done|]. assert (irq = r + 8); [|lia].
    subst r. rewrite <-(Z.mod_add irq (-1)), Z.mod_small by lia. lia.
  - rewrite decide_True; [done|]. subst irq r. by rewrite Z.mod_small by lia.
  - rewrite decide_False; [done|]. subst r. rewrite Z.mod_small by lia. lia.
Qed.

Lemma pics_keep_trans p q r : pics_keep p q → pics_keep q r → pics_keep p r.
Proof. intros (_ & ? & ? & ? & ?) (? & ? & ? & ? & ?). split; [done|]. repeat split; congruence. Qed.

(** All lines masked but the cascade. *)
Lemma wp_init_irqs (Q : unit → D → Prop) d :
  pics_ok (pic_view d) →
  (∀ d', pics_keep (pic_view d) (pic_view d') →
     (∀ j, 0 ≤ j < 16 → masked (pic_view d') j = bool_decide (j ≠ CASCADE_IRQ)) → Q tt d') →
  wp init_irqs Q d.
Proof.
  intros Hok HQ. unfold init_irqs. apply wp_bind.
  apply (wp_for (λ i d', pics_keep (pic_view d) (pic_view d') ∧ ∀ j, 0 ≤ j < i → masked (pic_view d') j = true)).
  - split; [by split|]. lia.
  - intros i d1 Hi [Hk Hmask]. apply wp_pic_toggle_irq; [apply Hk|lia|]. intros d2 Hk2 Hm2.
    split; [by eapply pics_keep_trans|]. intros j Hj. rewrite Hm2 by lia. case_decide; [done|]. apply Hmask. lia.
  - intros d1 [Hk Hmask]. apply wp_pic_toggle_irq; [apply Hk|done|]. intros d2 Hk2 Hm2.
    apply HQ; [by eapply pics_keep_trans|]. intros j Hj. rewrite Hm2 by lia. case_decide.
    + by rewrite bool_decide_false by tauto.
    + rewrite bool_decide_true by done. apply Hmask. lia.
Qed.
End specs.

(** The address, selector and privilege level the processor reads from a gate. *)
Definition gate_address (e : idt_entry) : Z := offset_low e + 65536 * offset_high e.
Definition gate_level (e : idt_entry) : Z := Z.shiftr (type_attributes e) 5 mod 4.
Definition gate_entry (h : Z) (user : bool) : idt_entry :=
  IdtEntry (u16 h) 8 0 (if user then 0xEE else 0x8E) (u16 (Z.shiftr h 16)).

Section idt_specs.
Context {D : Type} `{PicDevice D}.

Lemma wp_idt_gates handlers (Q : unit → idt_state D → Prop) s :
  length (idt s) = 256%nat → length handlers = 256%nat →
  (∀ s', idt_ports s' = idt_ports s → length (idt s') = 256%nat →
     (∀ i h, 0 ≤ i → handlers !! Z.to_nat i = Some h →
        aget (idt s') i = Some (gate_entry (u32 h) (bool_decide (i = 0x80)))) → Q tt s') →
  wp (for_from 0 256 (λ i, h ← reads (λ _, handlers) i;
                           idt_set_entry i (u32 h) (bool_decide (i = 0x80)))) Q s.
Proof.
  intros Hl Hh HQ.
  apply (wp_for (λ i s', idt_ports s' = idt_ports s ∧ length (idt s') = 256%nat ∧
    ∀ k h, 0 ≤ k < i → handlers !! Z.to_nat k = Some h →
      aget (idt s') k = Some (gate_entry (u32 h) (bool_decide (k = 0x80))))).
  - split; [done|]. split; [done|]. lia.
  - intros i s1 Hi (Hp & Hl1 & Hg). destruct (aget_is_Some handlers i) as [h Hget]; [lia|].
    eapply wp_bind, wp_reads; [exact Hget|]. unfold idt_set_entry. rewrite (u8_small i) by lia.
    apply wp_writes; [lia|]. cbn [idt_ports idt set_idt]. split; [done|]. rewrite length_insert. split; [done|].
    intros k h' Hk Hh'. rewrite aget_insert by lia. case_decide as Hik.
    + subst k. apply aget_Some in Hget as [_ Hget]. rewrite Hget in Hh'. injection Hh' as ->.
      f_equal. unfold gate_entry. rewrite !land_word, !u16_u16. by destruct (bool_decide (i = 128)).
    + apply Hg; [lia|done].
  - intros s1 (Hp & Hl1 & Hg). apply HQ; [done|done|]. intros i h Hi Hget. apply Hg; [|done].
    apply lookup_lt_Some in Hget. lia.
Qed.
End idt_specs.

(** ** Properties *)

(** idt_init, on two controllers that operate, leaves a table in which gate
    [i] is a present 32-bit interrupt gate to the [i]-th handler of
    first_int_handlers in the kernel's code segment, callable from user mode
    exactly for the system call vector 0x80; the processor's IDT register covers
    the 256 gates; the controllers deliver line [j] at vector 0x20 + [j], are
    wired through line 2, and mask every line but the cascade; interrupts are on. *)
Theorem idt_init_ready {D} `{PicDevice D} handlers address (s : idt_state D) :
  length (idt s) = 256%nat → length handlers = 256%nat →
  Forall (λ h, 0 ≤ h < 4294967296) handlers → 0 ≤ address < 4294967296 → pics_ok (pic_view (idt_ports s)) →
  ∃ s', idt_init handlers address s = Done (tt, s') ∧
    (∀ i h, handlers !! i = Some h →
       ∃ e, idt s' !! i = Some e ∧ gate_address e = h ∧ selector e = GDT_KERNEL_CODE_INDEX ∧
         Z.testbit (type_attributes e) 7 = true ∧ type_attributes e mod 32 = 0xE ∧
         gate_level e = (if decide (i = 128%nat) then 3 else 0)) ∧
    idtr s' = Some (IdtPointer 2047 address) ∧
    vector_base (master (pic_view (idt_ports s'))) = 0x20 ∧ vector_base (slave (pic_view (idt_ports s'))) = 0x28 ∧
    wiring (master (pic_view (idt_ports s'))) = Z.shiftl 1 CASCADE_IRQ ∧
    wiring (slave (pic_view (idt_ports s'))) = CASCADE_IRQ ∧
    (∀ j, 0 ≤ j < 16 → masked (pic_view (idt_ports s')) j = bool_decide (j ≠ CASCADE_IRQ)) ∧
    interrupts_enabled s' = true.
Proof.
  intros Hl Hh Haddr Hid Hok.
  destruct (proj1 (wp_done (idt_init handlers address) (λ _ s',
    (∀ i h, 0 ≤ i → handlers !! Z.to_nat i = Some h →
       aget (idt s') i = Some (gate_entry (u32 h) (bool_decide (i = 0x80)))) ∧
    idtr s' = Some (IdtPointer 2047 address) ∧ interrupts_enabled s' = true ∧
    pics_keep (Pics (I8259 (imr (master (pic_view (idt_ports s)))) 0x20 4 0 false)
                    (I8259 (imr (slave (pic_view (idt_ports s)))) 0x28 2 0 false)) (pic_view (idt_ports s')) ∧
    (∀ j, 0 ≤ j < 16 → masked (pic_view (idt_ports s')) j = bool_decide (j ≠ CASCADE_IRQ))) s))
    as ([] & s' & E & Hg & Hi & He & (_ & Hv1 & Hv2 & Hw1 & Hw2) & Hm).
  - unfold idt_init. apply wp_bind, wp_idt_gates; [done|done|]. intros s1 Hp Hl1 Hg.
    wp_steps. cbn [idt_ports]. rewrite Hp. apply wp_init_pic; [done|done|done|done|done|]. intros d1 E1.
    wp_steps. cbn [idt_ports set_idt_ports]. apply wp_init_irqs; [rewrite E1; by destruct Hok as (? & ? & _)|].
    intros d2 Hk Hm. rewrite E1 in Hk. unfold enable_interrupts. wp_steps.
    cbn [idt idt_ports idtr interrupts_enabled set_idt_ports].
    split; [done|]. rewrite u32_small by done. done.
  - exists s'. split; [done|]. split; [|by repeat split].
    intros i h Hget. exists (gate_entry h (bool_decide (Z.of_nat i = 0x80))).
    assert (0 ≤ h < 4294967296) as Hr by by apply (Forall_lookup_1 _ _ _ _ Haddr Hget).
    split; [rewrite <-aget_of_nat, (Hg (Z.of_nat i) h), u32_small by (rewrite ?Nat2Z.id; done || lia); done|].
    split; [|split; [done|]].
    + unfold gate_address, gate_entry. cbn [offset_low offset_high]. unfold u16.
      rewrite Z.shiftr_div_pow2 by lia. change (2 ^ 16) with 65536.
      rewrite (Z.mod_small (h / 65536)) by (split; [apply Z.div_pos; lia|apply Z.div_lt_upper_bound; lia]).
      pose proof (Z.div_mod h 65536 ltac:(lia)). lia.
    + unfold gate_level, gate_entry. cbn [type_attributes].
      destruct (decide (i = 128%nat)) as [->|Hi128]; [done|]. rewrite bool_decide_false by lia. done.
Qed.

Module Demo.
Definition state : idt_state pics :=
  Idt (replicate 256 (IdtEntry 0 0 0 0 0)) (IdtPointer 0 0) None false
      (Pics (I8259 0xB8 8 4 0 false) (I8259 0x8E 0x70 2 0 false)).
Definition stubs : list Z := (λ i, 0xC0100000 + 16 * Z.of_nat i) <$> seq 0 256.
End Demo.

Lemma idt_init_ready_witness :
  pics_ok (idt_ports Demo.state) ∧
  ∃ s', idt_init Demo.stubs 0xC0107000 Demo.state = Done (tt, s') ∧
    vector_base (master (idt_ports s')) = 0x20 ∧ interrupts_enabled s' = true.
Proof.
  split; [by_decide|].
  destruct (idt_init_ready Demo.stubs 0xC0107000 Demo.state) as (s' & E & _ & _ & Hv & _ & _ & _ & _ & He);
    [reflexivity|reflexivity|by_decide|by_decide|by_decide|]. eauto.
Defined.
