(* ===== verification/Paging.v ===== *)
(** * Virtual memory: memory/paging/paging.c

    The page tables live in physical memory and the kernel edits them through
    their own recursive mapping, so the model runs the processor's table walk:
    [walk] reads the directory and the table from [ram] (32-bit words by their
    index), and every access of the code to [page_directory] and [page_tables] is
    a load or store at a virtual address that itself is translated.  Translation
    caches are not modelled. *)

From S2P Require Import Prelude Pmm.

(** ** Definitions *)

Definition PAGE_DIR_ADDR : Z := 0xFFFFF000.
Definition PAGE_TABLES_ADDR : Z := 0xFFC00000.
Definition KERNEL_PAGE_DIR_PHYS_ADDR : Z := 0x00006000.
Definition KERNEL_PAGE_TABLES_PHYS_ADDR : Z := 0x01100000.
Definition RELOCATION_OFFSET : Z := 0xC0100000 - 0x00100000.
Definition PAGES_PER_TABLE : Z := 1024.

Record vm := Vm {
  pmm : pmm_info_t;
  cr3 : Z;
  current_page_directory : Z;
  ram : gmap Z Z }.

Definition set_pmm (p : pmm_info_t) (s : vm) : vm := Vm p (cr3 s) (current_page_directory s) (ram s).
Definition set_ram (r : gmap Z Z) (s : vm) : vm := Vm (pmm s) (cr3 s) (current_page_directory s) r.
Definition on_pmm {A} (m : M pmm_info_t A) : M vm A := zoom pmm set_pmm m.

(** Bit fields of a word: [width] bits from bit [pos] on. *)
Definition get_field (pos width w : Z) : Z := Z.shiftr w pos mod 2 ^ width.
Definition set_field (pos width v w : Z) : Z :=
  Z.lor (Z.ldiff w (Z.shiftl (Z.ones width) pos)) (Z.shiftl (v mod 2 ^ width) pos).

(** The fields of page_directory_entry and page_table_entry the code uses. *)
Inductive field := f_present | f_read_write | f_user_supervisor | f_address.
Definition field_pos (f : field) : Z :=
  match f with f_present => 0 | f_read_write => 1 | f_user_supervisor => 2 | f_address => 12 end.
Definition field_width (f : field) : Z := match f with f_address => 20 | _ => 1 end.
Definition fget (f : field) (w : Z) : Z := get_field (field_pos f) (field_width f) w.
Definition fset (f : field) (v w : Z) : Z := set_field (field_pos f) (field_width f) v w.

(** *** The processor's translation *)

Definition word (s : vm) (k : Z) : Z := default 0 (ram s !! k).

(** The word index of an entry of the directory, and of an entry of a table. *)
Definition entry_index (frame i : Z) : Z := frame * 1024 + i.
Definition pde (s : vm) (i : Z) : Z := word s (entry_index (cr3 s / 4096) i).

Definition walk (s : vm) (va : Z) : option Z :=
  let d := pde s (va / 4194304) in
  if decide (fget f_present d = 0) then None else
  let t := word s (entry_index (fget f_address d) (va / 4096 mod 1024)) in
  if decide (fget f_present t = 0) then None else
  Some (fget f_address t * 4096 + va mod 4096).

Definition load32 (va : Z) : M vm Z := λ s,
  match walk s va with Some pa => Done (word s (pa / 4), s) | None => Fault end.
Definition store32 (va v : Z) : M vm unit := λ s,
  match walk s va with Some pa => Done (tt, set_ram (<[pa / 4 := v]> (ram s)) s) | None => Fault end.
(** [entry->f = v] and the read of a field. *)
Definition put (va : Z) (f : field) (v : Z) : M vm unit := w ← load32 va; store32 va (fset f v w).
Definition fetch (va : Z) (f : field) : M vm Z := w ← load32 va; mret (fget f w).

(** *** The functions of paging.c *)

(** [GET_PAGE_TABLE(vpn)] and the entry of a page in it. *)
Definition GET_PAGE_TABLE (vpn : Z) : Z := PAGE_TABLES_ADDR + vpn / PAGES_PER_TABLE * PAGE_SIZE.

Definition paging_map_page (physical_page_index virtual_page_index : Z) (only_kernel_mode : bool)
    (page_table_phys_addr : Z) : M vm unit :=
  let pd_entry := PAGE_DIR_ADDR + 4 * (virtual_page_index / PAGES_PER_TABLE) in
  present ← fetch pd_entry f_present;
  _ ← (if decide (present = 0) then
         let page_table_phys_addr :=
           if decide (RELOCATION_OFFSET / PAGE_SIZE ≤ virtual_page_index)
           then KERNEL_PAGE_TABLES_PHYS_ADDR + virtual_page_index / PAGES_PER_TABLE * 4 * PAGES_PER_TABLE
           else page_table_phys_addr in
         _ ← store32 pd_entry 0;
         _ ← put pd_entry f_present 1;
         _ ← put pd_entry f_read_write 1;
         put pd_entry f_address (Z.shiftr page_table_phys_addr 12)
       else mret tt);
  let pt_entry := GET_PAGE_TABLE virtual_page_index + 4 * (virtual_page_index mod 1024) in
  _ ← put pt_entry f_address physical_page_index;
  _ ← put pt_entry f_user_supervisor (Z.b2z (negb only_kernel_mode));
  _ ← put pt_entry f_present 1;
  _ ← put pt_entry f_read_write 1;
  user ← fetch pd_entry f_user_supervisor;
  put pd_entry f_user_supervisor (Z.lor user (Z.b2z (negb only_kernel_mode))).

(** [&page_tables[virtual_page_index]] is never NULL. *)
Definition get_pte (virtual_page_index : Z) : Z := u32 (PAGE_TABLES_ADDR + 4 * virtual_page_index).

Definition deallocate_virtual_page (virtual_page_index : Z) : M vm unit :=
  let pte := get_pte virtual_page_index in
  if decide (pte ≠ 0) then
    frame ← fetch pte f_address;
    _ ← on_pmm (pmm_deallocate_page frame);
    put pte f_present 0
  else mret tt.

Definition paging_unmap_page (virtual_page_index : Z) : M vm unit :=
  let pte := get_pte virtual_page_index in
  if decide (pte ≠ 0) then put pte f_present 0 else mret tt.

Definition paging_map_kernel_page (physical_page_index virtual_page_index : Z)
    (supervisor_permissions : bool) : M vm unit :=
  paging_map_page physical_page_index virtual_page_index supervisor_permissions 0.

Definition allocate_kernel_virtual_page (virtual_page_index : Z) (supervisor_permissions : bool) : M vm bool :=
  physical_page_index ← on_pmm pmm_allocate_page;
  if decide (physical_page_index = 0) then mret false else
  _ ← paging_map_kernel_page physical_page_index virtual_page_index supervisor_permissions;
  mret true.

(** [for (i ...)] with [n] pages to go; a failure gives back the first [i]. *)
Fixpoint allocate_pages_from (i : Z) (n : nat) (starting_page_index : Z) (supervisor_permissions : bool)
    (page_tables_phys_addr : Z) : M vm bool :=
  match n with
  | O => mret true
  | S n' =>
      physical_page_index ← on_pmm pmm_allocate_page;
      if decide (physical_page_index = 0) then
        _ ← for_from 0 (Z.to_nat i) (λ j, deallocate_virtual_page (starting_page_index + j));
        mret false
      else
        _ ← paging_map_page physical_page_index (starting_page_index + i) supervisor_permissions
              page_tables_phys_addr;
        allocate_pages_from (i + 1) n' starting_page_index supervisor_permissions page_tables_phys_addr
  end.
Definition allocate_multiple_pages (starting_page_index page_count : Z) (supervisor_permissions : bool)
    (page_tables_phys_addr : Z) : M vm bool :=
  allocate_pages_from 0 (Z.to_nat page_count) starting_page_index supervisor_permissions page_tables_phys_addr.

Definition get_page_table (virtual_address : Z) : Z := GET_PAGE_TABLE (virtual_address / PAGE_SIZE).

Definition get_physical_address (virtual_address : Z) : M vm Z :=
  let virtual_page_index := virtual_address / PAGE_SIZE in
  present ← fetch (PAGE_DIR_ADDR + 4 * (virtual_page_index / PAGES_PER_TABLE)) f_present;
  if decide (present = 0) then mret 0 else
  let pt_entry := GET_PAGE_TABLE virtual_page_index + 4 * (virtual_page_index mod 1024) in
  present ← fetch pt_entry f_present;
  if decide (present = 0) then mret 0 else
  address ← fetch pt_entry f_address;
  mret (u32 (Z.shiftl address 12) + virtual_address mod PAGE_SIZE).

Definition load_pd_phys_addr (pd_phys_addr : Z) : M vm unit :=
  modify (λ s, Vm (pmm s) pd_phys_addr (current_page_directory s) (ram s)).
Definition load_pd (pd : Z) : M vm unit :=
  phys_addr ← get_physical_address pd;
  _ ← modify (λ s, Vm (pmm s) (cr3 s) pd (ram s));
  load_pd_phys_addr phys_addr.
Definition get_current_pd : M vm Z := gets current_page_directory.
Definition get_kernel_pd : Z := KERNEL_PAGE_DIR_PHYS_ADDR + RELOCATION_OFFSET.
Definition get_current_pd_phys_addr : M vm Z := gets cr3.

(** ** Lemmas *)

(** *** Fields *)

Lemma testbit_set_field pos width v w j :
  0 ≤ pos → 0 ≤ width → 0 ≤ j →
  Z.testbit (set_field pos width v w) j =
    if decide (pos ≤ j < pos + width) then Z.testbit v (j - pos) else Z.testbit w j.
Proof.
  intros Hp Hw Hj. unfold set_field.
  rewrite Z.lor_spec, Z.ldiff_spec, !Z.shiftl_spec by done. case_decide as H.
  - rewrite Z.ones_spec_low by lia. cbn [negb]. rewrite andb_false_r, orb_false_l.
    apply Z.mod_pow2_bits_low. lia.
  - assert (Z.testbit (Z.ones width) (j - pos) = false ∧ Z.testbit (v mod 2 ^ width) (j - pos) = false) as [-> ->].
    { destruct (decide (j < pos)).
      - by rewrite !Z.testbit_neg_r by lia.
      - by rewrite Z.ones_spec_high, Z.mod_pow2_bits_high by lia. }
    by rewrite andb_true_r, orb_false_r.
Qed.

Lemma testbit_get_field pos width w j :
  0 ≤ pos → 0 ≤ width → 0 ≤ j →
  Z.testbit (get_field pos width w) j = if decide (j < width) then Z.testbit w (j + pos) else false.
Proof.
  intros Hp Hw Hj. unfold get_field. case_decide.
  - by rewrite Z.mod_pow2_bits_low, Z.shiftr_spec by lia.
  - apply Z.mod_pow2_bits_high. lia.
Qed.

Lemma fields_apart f g : f ≠ g →
  field_pos f + field_width f ≤ field_pos g ∨ field_pos g + field_width g ≤ field_pos f.
Proof. destruct f, g; simpl; intros; lia || done. Qed.

Lemma field_shape f : 0 ≤ field_pos f ∧ 0 < field_width f.
Proof. destruct f; simpl; lia. Qed.

Lemma fget_fset_eq f v w : fget f (fset f v w) = v mod 2 ^ field_width f.
Proof.
  pose proof (field_shape f). apply Z.bits_inj'. intros j Hj. unfold fget, fset.
  rewrite testbit_get_field by lia. case_decide.
  - rewrite testbit_set_field, decide_True by lia. rewrite Z.mod_pow2_bits_low by lia. f_equal. lia.
  - symmetry. apply Z.mod_pow2_bits_high. lia.
Qed.

Lemma fget_fset_ne f g v w : f ≠ g → fget f (fset g v w) = fget f w.
Proof.
  intros Hne. pose proof (field_shape f). pose proof (field_shape g). pose proof (fields_apart f g Hne).
  apply Z.bits_inj'. intros j Hj. unfold fget, fset. rewrite !testbit_get_field by lia. case_decide; [|done].
  by rewrite testbit_set_field, decide_False by lia.
Qed.

Lemma fget_zero f : fget f 0 = 0.
Proof. by destruct f. Qed.

Lemma fget_range f w : 0 ≤ fget f w < 2 ^ field_width f.
Proof. unfold fget, get_field. apply Z.mod_pos_bound. destruct f; simpl; lia. Qed.

(** *** Memory and the recursive mapping *)

Definition upd (k w : Z) (s : vm) : vm := set_ram (<[k := w]> (ram s)) s.

Lemma word_upd k w s j : word (upd k w s) j = if decide (j = k) then w else word s j.
Proof.
  unfold word, upd. cbn [ram set_ram]. case_decide; [subst|].
  - by rewrite lookup_insert_eq.
  - by rewrite lookup_insert_ne.
Qed.
Lemma upd_upd k w1 w2 s : upd k w2 (upd k w1 s) = upd k w2 s.
Proof. unfold upd, set_ram. cbn. by rewrite insert_insert_eq. Qed.

Lemma entry_index_inj f1 i1 f2 i2 :
  0 ≤ i1 < 1024 → 0 ≤ i2 < 1024 → entry_index f1 i1 = entry_index f2 i2 → f1 = f2 ∧ i1 = i2.
Proof. unfold entry_index. lia. Qed.

(** The frame of the directory in use, and the index of its [i]-th entry. *)
Definition dir (s : vm) : Z := cr3 s / 4096.
Definition pde_index (s : vm) (i : Z) : Z := entry_index (dir s) i.
(** The table of a directory entry, and the index of a page's entry in it. *)
Definition table (s : vm) (i : Z) : Z := fget f_address (pde s i).
Definition pte_index (s : vm) (vpn : Z) : Z := entry_index (table s (vpn / 1024)) (vpn mod 1024).
Definition has_table (s : vm) (i : Z) : Prop := fget f_present (pde s i) ≠ 0.

(** The last entry of the directory is the directory. *)
Definition recursive (s : vm) : Prop := has_table s 1023 ∧ table s 1023 = dir s.

Lemma pde_upd k w s i : pde (upd k w s) i = if decide (pde_index s i = k) then w else pde s i.
Proof. apply word_upd. Qed.

Lemma recursive_upd k w s :
  recursive s → k ≠ pde_index s 1023 → recursive (upd k w s).
Proof. intros [H1 H2] Hk. unfold recursive, has_table, table. rewrite pde_upd, decide_False by done. done. Qed.

(** The address at which the kernel sees an entry, and where it leads. *)
Lemma walk_pde s i :
  recursive s → 0 ≤ i < 1024 → walk s (PAGE_DIR_ADDR + 4 * i) = Some (4 * pde_index s i).
Proof.
  intros [Hp Ht] Hi. unfold walk, PAGE_DIR_ADDR.
  assert ((0xFFFFF000 + 4 * i) / 4194304 = 1023) as -> by (symmetry; apply (Z.div_unique _ _ _ (4190208 + 4 * i)); lia).
  assert ((0xFFFFF000 + 4 * i) / 4096 = 1048575) as -> by (symmetry; apply (Z.div_unique _ _ _ (4 * i)); lia).
  assert ((0xFFFFF000 + 4 * i) mod 4096 = 4 * i) as -> by (symmetry; apply (Z.mod_unique _ _ 1048575); lia).
  change (1048575 mod 1024) with 1023.
  rewrite decide_False by done. unfold table in Ht. rewrite Ht.
  change (word s (entry_index (dir s) 1023)) with (pde s 1023). rewrite decide_False by done.
  rewrite Ht. unfold pde_index, entry_index. f_equal. lia.
Qed.

Lemma walk_pte s vpn :
  recursive s → 0 ≤ vpn < 1048576 → has_table s (vpn / 1024) →
  walk s (GET_PAGE_TABLE vpn + 4 * (vpn mod 1024)) = Some (4 * pte_index s vpn).
Proof.
  intros [Hp Ht] Hv Hhas. unfold walk, GET_PAGE_TABLE, PAGE_TABLES_ADDR, PAGE_SIZE, PAGES_PER_TABLE.
  pose proof (Z.mod_pos_bound vpn 1024 ltac:(lia)) as Hm.
  assert (0 ≤ vpn / 1024 < 1024) as Hd by (split; [apply Z.div_pos; lia|apply Z.div_lt_upper_bound; lia]).
  assert (∀ a b, 0 ≤ a < 1024 → 0 ≤ b < 1024 →
    (0xFFC00000 + a * 4096 + 4 * b) / 4194304 = 1023 ∧
    (0xFFC00000 + a * 4096 + 4 * b) / 4096 mod 1024 = a ∧
    (0xFFC00000 + a * 4096 + 4 * b) mod 4096 = 4 * b) as Hsplit.
  { intros a b Ha Hb.
    assert ((0xFFC00000 + a * 4096 + 4 * b) / 4096 = 1023 * 1024 + a) as E
      by (symmetry; apply (Z.div_unique _ _ _ (4 * b)); lia).
    split; [symmetry; apply (Z.div_unique _ _ _ (a * 4096 + 4 * b)); lia|]. rewrite E. split.
    - symmetry. apply (Z.mod_unique _ _ 1023); lia.
    - symmetry. apply (Z.mod_unique _ _ (1023 * 1024 + a)); lia. }
  destruct (Hsplit _ _ Hd Hm) as (-> & -> & ->).
  rewrite decide_False by done. unfold table in Ht. rewrite Ht.
  change (word s (entry_index (dir s) (vpn / 1024))) with (pde s (vpn / 1024)).
  rewrite decide_False by done. unfold pte_index, table, entry_index. f_equal. lia.
Qed.

Lemma walk_get_pte s vpn :
  recursive s → 0 ≤ vpn < 1048576 → has_table s (vpn / 1024) → walk s (get_pte vpn) = Some (4 * pte_index s vpn).
Proof.
  intros Hr Hv Hh. rewrite <-walk_pte by done. f_equal. unfold get_pte, GET_PAGE_TABLE, PAGE_SIZE, PAGES_PER_TABLE.
  pose proof (Z.div_mod vpn 1024 ltac:(lia)). rewrite u32_small by (unfold PAGE_TABLES_ADDR; lia). lia.
Qed.

Lemma wp_store32 va k v (Q : unit → vm → Prop) s :
  walk s va = Some (4 * k) → Q tt (upd k v s) → wp (store32 va v) Q s.
Proof. intros Hw HQ. unfold wp, store32. rewrite Hw, Z.mul_comm, Z.div_mul by lia. done. Qed.
Lemma wp_load32 va k (Q : Z → vm → Prop) s : walk s va = Some (4 * k) → Q (word s k) s → wp (load32 va) Q s.
Proof. intros Hw HQ. unfold wp, load32. rewrite Hw, Z.mul_comm, Z.div_mul by lia. done. Qed.
Lemma wp_put va k f v (Q : unit → vm → Prop) s :
  walk s va = Some (4 * k) → Q tt (upd k (fset f v (word s k)) s) → wp (put va f v) Q s.
Proof. intros Hw HQ. eapply wp_bind, wp_load32; [done|]. by eapply wp_store32. Qed.
Lemma wp_fetch va k f (Q : Z → vm → Prop) s :
  walk s va = Some (4 * k) → Q (fget f (word s k)) s → wp (fetch va f) Q s.
Proof. intros Hw HQ. eapply wp_bind, wp_load32; [done|]. by apply wp_ret. Qed.

(** The entry a new table gets, and the entry of a mapped page. *)
Definition table_entry (t : Z) : Z := fset f_address t (fset f_read_write 1 (fset f_present 1 0)).
Definition page_entry (frame user w : Z) : Z :=
  fset f_read_write 1 (fset f_present 1 (fset f_user_supervisor user (fset f_address frame w))).

(** The table [paging_map_page] uses for a page. *)
Definition table_of (s : vm) (vpn page_table_phys_addr : Z) : Z :=
  if decide (fget f_present (pde s (vpn / 1024)) = 0) then
    Z.shiftr (if decide (RELOCATION_OFFSET / PAGE_SIZE ≤ vpn)
              then KERNEL_PAGE_TABLES_PHYS_ADDR + vpn / PAGES_PER_TABLE * 4 * PAGES_PER_TABLE
              else page_table_phys_addr) 12 mod 2 ^ 20
  else table s (vpn / 1024).

(** The directory after the table is there. *)
Definition with_table (s : vm) (vpn page_table_phys_addr : Z) : vm :=
  if decide (fget f_present (pde s (vpn / 1024)) = 0)
  then upd (pde_index s (vpn / 1024)) (table_entry (table_of s vpn page_table_phys_addr)) s else s.

Lemma fset_address_mod v w : fset f_address (v mod 2 ^ 20) w = fset f_address v w.
Proof. unfold fset, set_field. cbn [field_width]. by rewrite Z.mod_mod by lia. Qed.

Lemma table_entry_present t : fget f_present (table_entry t) = 1.
Proof. unfold table_entry. by rewrite !fget_fset_ne, fget_fset_eq by done. Qed.
Lemma table_entry_address t : 0 ≤ t < 2 ^ 20 → fget f_address (table_entry t) = t.
Proof. intros. unfold table_entry. rewrite fget_fset_eq. by apply Z.mod_small. Qed.

Lemma table_of_range s vpn a : 0 ≤ table_of s vpn a < 2 ^ 20.
Proof.
  unfold table_of. case_decide; [apply Z.mod_pos_bound; lia|]. apply (fget_range f_address).
Qed.

Lemma with_table_spec s vpn a :
  has_table (with_table s vpn a) (vpn / 1024) ∧ table (with_table s vpn a) (vpn / 1024) = table_of s vpn a.
Proof.
  unfold has_table, table, with_table. pose proof (table_of_range s vpn a) as Hr. case_decide as Hp.
  - rewrite pde_upd, decide_True by done. rewrite table_entry_present, table_entry_address by done. done.
  - unfold table_of. by rewrite decide_False.
Qed.

Definition mapped (frame vpn user a : Z) (s : vm) : vm :=
  let s1 := with_table s vpn a in
  let d := pde s1 (vpn / 1024) in
  upd (pde_index s (vpn / 1024)) (fset f_user_supervisor (Z.lor (fget f_user_supervisor d) user) d)
    (upd (pte_index s1 vpn) (page_entry frame user (word s1 (pte_index s1 vpn))) s1).

Lemma vpn_split vpn : 0 ≤ vpn < 1047552 → 0 ≤ vpn / 1024 < 1023 ∧ 0 ≤ vpn mod 1024 < 1024.
Proof.
  intros. split; [split; [apply Z.div_pos; lia|apply Z.div_lt_upper_bound; lia]|apply Z.mod_pos_bound; lia].
Qed.

Lemma pde_index_inj s i j : 0 ≤ i < 1024 → 0 ≤ j < 1024 → pde_index s i = pde_index s j → i = j.
Proof. intros Hi Hj E. by destruct (entry_index_inj _ _ _ _ Hi Hj E). Qed.

(** Several fields of the entry at one address. *)
Lemma wp_put_again va k f w v (Q : unit → vm → Prop) s0 :
  walk (upd k w s0) va = Some (4 * k) → Q tt (upd k (fset f v w) s0) → wp (put va f v) Q (upd k w s0).
Proof.
  intros Hw HQ. eapply wp_put; [done|]. rewrite upd_upd, word_upd. by rewrite decide_True.
Qed.

Lemma with_table_recursive s vpn a :
  recursive s → 0 ≤ vpn < 1047552 → recursive (with_table s vpn a).
Proof.
  intros Hr Hv. destruct (vpn_split vpn Hv). unfold with_table. case_decide; [|done].
  apply recursive_upd; [done|]. intros E. apply pde_index_inj in E; lia.
Qed.

Lemma wp_paging_map_page frame vpn km a (Q : unit → vm → Prop) s :
  recursive s → 0 ≤ vpn < 1047552 → table_of s vpn a ≠ dir s →
  Q tt (mapped frame vpn (Z.b2z (negb km)) a s) → wp (paging_map_page frame vpn km a) Q s.
Proof.
  intros Hr Hv Ht HQ. destruct (vpn_split vpn Hv) as [Hi Hm]. unfold paging_map_page. cbv zeta.
  assert (∀ s', recursive s' → pde_index s' (vpn / 1024) = pde_index s (vpn / 1024) →
    walk s' (PAGE_DIR_ADDR + 4 * (vpn / PAGES_PER_TABLE)) = Some (4 * pde_index s (vpn / 1024))) as Hwd.
  { intros s' Hr' <-. apply walk_pde; [done|lia]. }
  assert (pde_index s (vpn / 1024) ≠ pde_index s 1023) as Hne by (intros E; apply pde_index_inj in E; lia).
  eapply wp_bind, wp_fetch; [by apply Hwd|]. fold (pde s (vpn / 1024)).
  change (word s (pde_index s (vpn / 1024))) with (pde s (vpn / 1024)).
  (* the table *)
  apply wp_bind, (wp_mono _ (λ _ s1, s1 = with_table s vpn a)).
  { unfold with_table, table_of. case_decide as Hp; [|by apply wp_ret].
    assert (∀ w, recursive (upd (pde_index s (vpn / 1024)) w s)) as Hr' by (intros; by apply recursive_upd).
    eapply wp_bind, wp_store32; [by apply Hwd|].
    do 2 (eapply wp_bind, wp_put_again; [by apply Hwd; [apply Hr'|]|]).
    eapply wp_put_again; [by apply Hwd; [apply Hr'|]|]. unfold table_entry. by rewrite fset_address_mod. }
  intros [] ? ->. pose proof (with_table_recursive s vpn a Hr Hv) as Hr1.
  destruct (with_table_spec s vpn a) as [Hhas Htab]. revert HQ. unfold mapped. cbv zeta.
  assert (dir (with_table s vpn a) = dir s) as Hdir by (unfold with_table; by case_decide).
  generalize dependent (with_table s vpn a). intros s1 Hr1 Hhas Htab Hdir HQ.
  assert (∀ i, pde_index s1 i = pde_index s i) as Hpi by (intros; unfold pde_index; by rewrite Hdir).
  (* the page's entry *)
  set (k := pte_index s1 vpn) in *.
  assert (∀ i, 0 ≤ i < 1024 → pde_index s1 i ≠ k) as Hk.
  { intros i Hi' E. subst k. apply entry_index_inj in E as [E _]; [|done|done]. congruence. }
  assert (∀ w, recursive (upd k w s1) ∧ walk (upd k w s1) (GET_PAGE_TABLE vpn + 4 * (vpn mod 1024)) = Some (4 * k)) as Hw.
  { intros w. assert (recursive (upd k w s1)) as Hr2 by (apply recursive_upd; [done|]; intros E; symmetry in E; by apply Hk in E).
    split; [done|]. rewrite walk_pte; [|done|lia|].
    - unfold k at 2, pte_index, table. rewrite pde_upd, decide_False by (apply Hk; lia). done.
    - unfold has_table. rewrite pde_upd, decide_False by (apply Hk; lia). done. }
  eapply wp_bind, wp_put; [apply walk_pte; [done|lia|done]|]. fold k.
  eapply wp_bind, wp_put_again; [apply Hw|]. eapply wp_bind, wp_put_again; [apply Hw|].
  eapply wp_bind, wp_put_again; [apply Hw|].
  set (s2 := upd k (fset f_read_write 1 (fset f_present 1 (fset f_user_supervisor (Z.b2z (negb km))
    (fset f_address frame (word s1 k))))) s1).
  assert (walk s2 (PAGE_DIR_ADDR + 4 * (vpn / PAGES_PER_TABLE)) = Some (4 * pde_index s (vpn / 1024))) as Hw2.
  { apply Hwd; [apply Hw|]. apply Hpi. }
  assert (word s2 (pde_index s (vpn / 1024)) = pde s1 (vpn / 1024)) as Hpde.
  { unfold s2. rewrite word_upd, decide_False; [by rewrite <-Hpi|]. rewrite <-Hpi. apply Hk. lia. }
  eapply wp_bind, wp_fetch; [exact Hw2|]. rewrite Hpde. eapply wp_put; [exact Hw2|]. by rewrite Hpde.
Qed.

(** No other entry of the directory leads to table [t], and none leads to the
    directory itself. *)
Definition table_private (s : vm) (i t : Z) : Prop := ∀ j, 0 ≤ j < 1023 → j ≠ i → has_table s j → table s j ≠ t.
Definition dir_private (s : vm) : Prop := ∀ j, 0 ≤ j < 1023 → has_table s j → table s j ≠ dir s.

(** User mode reaches a page through the permission bits of both entries. *)
Definition user_page (s : vm) (vpn : Z) : bool :=
  negb (fget f_user_supervisor (pde s (vpn / 1024)) =? 0) &&
  negb (fget f_user_supervisor (word s (pte_index s vpn)) =? 0).

Section mapped.
Variables (frame vpn user a : Z) (s : vm).
Hypothesis Hvpn : 0 ≤ vpn < 1047552.
Hypothesis Hdir : table_of s vpn a ≠ dir s.
Abbreviation i := (vpn / 1024).
Abbreviation s' := (mapped frame vpn user a s).
#[local] Set Default Proof Using "Hvpn Hdir".

Lemma mapped_dir : dir s' = dir s.
Proof. unfold mapped, with_table. by case_decide. Qed.

(** Where the entry of the page is, before and after. *)
Definition slot : Z := entry_index (table_of s vpn a) (vpn mod 1024).

Lemma slot_not_dir j : 0 ≤ j < 1024 → pde_index s j ≠ slot.
Proof.
  intros Hj E. apply entry_index_inj in E as [E _]; [|done|apply Z.mod_pos_bound; lia]. by apply Hdir.
Qed.

Lemma mapped_pde_other j : 0 ≤ j < 1024 → j ≠ i → pde s' j = pde s j.
Proof.
  intros Hj Hne. destruct (vpn_split vpn Hvpn) as [Hi Hm]. unfold pde. fold (dir s') (dir s). rewrite mapped_dir.
  fold (pde_index s j). unfold mapped. cbv zeta.
  assert (pde_index s j ≠ pde_index s i) as Hd by (intros E; apply pde_index_inj in E; lia).
  rewrite word_upd, decide_False by done. unfold pte_index.
  destruct (with_table_spec s vpn a) as [_ ->]. fold slot.
  rewrite word_upd, decide_False by (by apply slot_not_dir).
  unfold with_table. case_decide; [|done]. by rewrite word_upd, decide_False.
Qed.

Lemma mapped_pde : pde s' i = let d := pde (with_table s vpn a) i in
  fset f_user_supervisor (Z.lor (fget f_user_supervisor d) user) d.
Proof.
  unfold pde at 1. fold (dir s'). rewrite mapped_dir. fold (pde_index s i). unfold mapped. cbv zeta.
  by rewrite word_upd, decide_True.
Qed.

Lemma mapped_table : has_table s' i ∧ table s' i = table_of s vpn a.
Proof.
  destruct (with_table_spec s vpn a) as [H1 H2]. unfold has_table, table. rewrite mapped_pde. cbv zeta.
  rewrite !fget_fset_ne by done. done.
Qed.

Lemma mapped_slot : pte_index s' vpn = slot.
Proof. unfold pte_index. by destruct mapped_table as [_ ->]. Qed.

Lemma mapped_pte : ∃ w, word s' slot = page_entry frame user w.
Proof.
  destruct (vpn_split vpn Hvpn) as [Hi Hm]. unfold mapped. cbv zeta. eexists.
  rewrite word_upd, decide_False by (apply not_eq_sym, slot_not_dir; lia).
  rewrite word_upd, decide_True; [done|]. unfold pte_index. by destruct (with_table_spec s vpn a) as [_ ->].
Qed.

(** A word that is neither the page's entry nor the directory's is unchanged. *)
Lemma mapped_word k : k ≠ slot → k ≠ pde_index s i → word s' k = word s k.
Proof.
  intros H1 H2. unfold mapped. cbv zeta. rewrite word_upd, decide_False by done. unfold pte_index.
  destruct (with_table_spec s vpn a) as [_ ->]. fold slot. rewrite word_upd, decide_False by done.
  unfold with_table. case_decide; [|done]. by rewrite word_upd, decide_False.
Qed.

Lemma page_entry_fields w :
  fget f_present (page_entry frame user w) = 1 ∧ fget f_address (page_entry frame user w) = frame mod 2 ^ 20 ∧
  fget f_user_supervisor (page_entry frame user w) = user mod 2.
Proof. unfold page_entry. by repeat (rewrite fget_fset_eq || rewrite fget_fset_ne by done). Qed.

Lemma mapped_walk off :
  0 ≤ frame < 2 ^ 20 → 0 ≤ off < 4096 → walk s' (vpn * 4096 + off) = Some (frame * 4096 + off).
Proof.
  intros Hf Ho. unfold walk.
  assert ((vpn * 4096 + off) / 4096 = vpn) as E1 by (symmetry; apply (Z.div_unique _ _ _ off); lia).
  assert ((vpn * 4096 + off) / 4194304 = i) as ->.
  { change 4194304 with (4096 * 1024). by rewrite <-Z.div_div, E1 by lia. }
  assert ((vpn * 4096 + off) mod 4096 = off) as -> by (symmetry; apply (Z.mod_unique _ _ vpn); lia).
  rewrite E1. destruct mapped_table as [Hh Ht]. rewrite decide_False by done.
  fold (table s' i). rewrite Ht. fold slot. destruct mapped_pte as [w ->].
  destruct (page_entry_fields w) as (-> & -> & _). rewrite decide_False by done. by rewrite Z.mod_small.
Qed.

Lemma mapped_walk_other va :
  dir_private s → table_private s i (table_of s vpn a) →
  0 ≤ va / 4194304 < 1023 → va / 4096 ≠ vpn → has_table s (va / 4194304) → walk s' va = walk s va.
Proof.
  intros Hdp Htp Hva Hne Hh. destruct (vpn_split vpn Hvpn) as [Hi Hm]. set (j := va / 4194304) in *.
  assert (j = va / 4096 / 1024) as Ej by (subst j; change 4194304 with (4096 * 1024); by rewrite Z.div_div by lia).
  pose proof (Z.mod_pos_bound (va / 4096) 1024 ltac:(lia)) as Hb.
  pose proof (Z.div_mod (va / 4096) 1024 ltac:(lia)). pose proof (Z.div_mod vpn 1024 ltac:(lia)).
  assert (fget f_present (pde s' j) = fget f_present (pde s j) ∧ table s' j = table s j) as [Ep Et].
  { destruct (decide (j = i)) as [E|Hji].
    - assert (table_of s vpn a = table s i) as Eto by (unfold table_of; rewrite decide_False by (rewrite <-E; exact Hh); done).
      split.
      + rewrite E, mapped_pde. cbv zeta. rewrite fget_fset_ne by done. unfold with_table.
        by rewrite decide_False by (rewrite <-E; exact Hh).
      + rewrite E. by destruct mapped_table as [_ ->].
    - unfold table. by rewrite mapped_pde_other by lia. }
  unfold walk. fold j. rewrite Ep. unfold has_table in Hh.
  destruct (decide (fget f_present (pde s j) = 0)) as [|_]; [done|].
  fold (table s' j) (table s j). rewrite Et.
  rewrite mapped_word; [done| |].
  - intros E. apply entry_index_inj in E as [E1 E2]; [|done|done].
    destruct (decide (j = i)) as [Hji|Hji]; [lia|]. by apply (Htp j Hva Hji Hh).
  - intros E. apply entry_index_inj in E as [E1 _]; [|done|lia]. by apply (Hdp j Hva Hh).
Qed.

Lemma mapped_recursive : recursive s → recursive s'.
Proof.
  intros [H1 H2]. destruct (vpn_split vpn Hvpn). unfold recursive, has_table, table.
  rewrite mapped_pde_other, mapped_dir by lia. done.
Qed.

Lemma mapped_dir_private : dir_private s → dir_private s'.
Proof.
  intros Hp j Hj. rewrite mapped_dir. destruct (decide (j = i)) as [->|Hne].
  - by destruct mapped_table as [_ ->].
  - unfold has_table, table. rewrite mapped_pde_other by lia. by apply Hp.
Qed.

Lemma mapped_user : user = 0 ∨ user = 1 → user_page s' vpn = (user =? 1).
Proof.
  intros Hu. unfold user_page. rewrite mapped_slot, mapped_pde. cbv zeta. rewrite fget_fset_eq.
  destruct mapped_pte as [w ->]. destruct (page_entry_fields w) as (_ & _ & ->). cbn [field_width].
  pose proof (fget_range f_user_supervisor (pde (with_table s vpn a) i)) as Hr. cbn [field_width] in Hr.
  assert (∀ x, 0 ≤ x < 2 ^ 1 → x = 0 ∨ x = 1) as Hbit by (intros; change (2 ^ 1) with 2 in *; lia).
  destruct (Hbit _ Hr) as [-> | ->], Hu as [-> | ->]; reflexivity.
Qed.
End mapped.

Lemma mapped_pmm frame vpn user a s : pmm (mapped frame vpn user a s) = pmm s ∧ cr3 (mapped frame vpn user a s) = cr3 s.
Proof. unfold mapped, with_table. by case_decide. Qed.

(** Reading an address through the tables the way [get_physical_address] does. *)
Lemma va_split va :
  0 ≤ va < 4290772992 →
  0 ≤ va / 4096 < 1047552 ∧ va / 4194304 = va / 4096 / 1024 ∧ 0 ≤ va / 4096 / 1024 < 1023.
Proof.
  intros Hva. assert (0 ≤ va / 4096 < 1047552) as Hv.
  { split; [apply Z.div_pos; lia|apply Z.div_lt_upper_bound; lia]. }
  destruct (vpn_split _ Hv) as [Hi _]. split; [done|]. split; [|done].
  change 4194304 with (4096 * 1024). by rewrite Z.div_div by lia.
Qed.

Lemma get_physical_address_walk s va :
  recursive s → 0 ≤ va < 4290772992 →
  get_physical_address va s = Done (match walk s va with Some pa => pa | None => 0 end, s).
Proof.
  intros Hr Hva. destruct (va_split va Hva) as (Hv & E & Hi).
  destruct (proj1 (wp_done (get_physical_address va)
    (λ r s', s' = s ∧ r = match walk s va with Some pa => pa | None => 0 end) s)) as (r & s' & -> & -> & ->); [|done].
  unfold get_physical_address, PAGE_SIZE, PAGES_PER_TABLE. cbv zeta. unfold walk. rewrite E.
  eapply wp_bind, wp_fetch; [apply walk_pde; [done|lia]|].
  change (word s (pde_index s (va / 4096 / 1024))) with (pde s (va / 4096 / 1024)).
  destruct (decide (fget f_present (pde s (va / 4096 / 1024)) = 0)) as [Hp|Hp]; [by apply wp_ret|].
  eapply wp_bind, wp_fetch; [apply walk_pte; [done|lia|done]|].
  unfold pte_index, table. case_decide as Hq; [by apply wp_ret|].
  eapply wp_bind, wp_fetch; [apply walk_pte; [done|lia|done]|]. apply wp_ret. split; [done|].
  pose proof (fget_range f_address (word s (pte_index s (va / 4096)))) as Hf. cbn [field_width] in Hf.
  unfold pte_index, table in Hf |- *. rewrite Z.shiftl_mul_pow2 by lia. change (2 ^ 12) with 4096.
  by rewrite u32_small by lia.
Qed.

(** *** A run of pages in one table *)

Lemma table_of_page s vpn vpn' a : vpn / 1024 = vpn' / 1024 → table_of s vpn a = table_of s vpn' a.
Proof.
  intros E. unfold table_of, PAGES_PER_TABLE. rewrite E. case_decide; [|done]. do 2 f_equal.
  change (RELOCATION_OFFSET / PAGE_SIZE) with (768 * 1024).
  assert (768 * 1024 ≤ vpn ↔ 768 * 1024 ≤ vpn') as Hiff.
  { assert (∀ v, 768 * 1024 ≤ v ↔ 768 ≤ v / 1024) as Hv by (intros v; split; intros; Z.div_mod_to_equations; lia).
    by rewrite !Hv, E. }
  case_decide; [rewrite decide_True by tauto|rewrite decide_False by tauto]; done.
Qed.

(** The pages of the directory entry [i] can be mapped through table [t]. *)
Record table_ready (s : vm) (a i t : Z) : Prop := {
  tr_recursive : recursive s;
  tr_dir_private : dir_private s;
  tr_table vpn : vpn / 1024 = i → table_of s vpn a = t;
  tr_not_dir : t ≠ dir s;
  tr_private : table_private s i t;
}.

(** The pages from [vpn] on lie in the frames [ps], in this order; no other
    translation has changed. *)
Record backed (s : vm) (vpn : Z) (ps : list Z) (s' : vm) : Prop := {
  bk_pages k p off : ps !! k = Some p → 0 ≤ off < 4096 →
    walk s' ((vpn + Z.of_nat k) * 4096 + off) = Some (p * 4096 + off);
  bk_others va : 0 ≤ va < 4290772992 → ¬ (vpn ≤ va / 4096 < vpn + zlen ps) → has_table s (va / 4194304) →
    walk s' va = walk s va;
  bk_tables i : 0 ≤ i < 1023 → has_table s i → has_table s' i;
}.

Lemma mapped_ready frame vpn user a t s :
  0 ≤ vpn < 1047552 → table_ready s a (vpn / 1024) t → table_ready (mapped frame vpn user a s) a (vpn / 1024) t.
Proof.
  intros Hv [Hr Hdp Ht Hne Hp]. destruct (vpn_split vpn Hv). pose proof (Ht vpn eq_refl) as Et.
  assert (table_of s vpn a ≠ dir s) as Hd by (by rewrite Et).
  destruct (mapped_table frame vpn user a s Hv Hd) as [Hh Htab]. split.
  - by apply mapped_recursive.
  - by apply mapped_dir_private.
  - intros v Ev. unfold table_of. rewrite Ev, decide_False by exact Hh. by rewrite Htab.
  - by rewrite mapped_dir.
  - intros j Hj Hji. unfold has_table, table. rewrite mapped_pde_other by (done || lia). by apply Hp.
Qed.

Lemma mapped_backed frame vpn user a t s :
  0 ≤ vpn < 1047552 → 0 ≤ frame < 2 ^ 20 → table_ready s a (vpn / 1024) t →
  backed s vpn [frame] (mapped frame vpn user a s).
Proof.
  intros Hv Hf [Hr Hdp Ht Hne Hp]. destruct (vpn_split vpn Hv) as [Hi _]. pose proof (Ht vpn eq_refl) as Et.
  assert (table_of s vpn a ≠ dir s) as Hd by (by rewrite Et). split.
  - intros [|k] p off [=<-] Ho. rewrite Z.add_0_r. by apply mapped_walk.
  - intros va Hva Hout Hh. destruct (va_split va Hva) as (_ & E2 & Hi'). simpl in Hout.
    apply mapped_walk_other; try done; [by rewrite Et|lia|lia].
  - intros j Hj Hh. destruct (decide (j = vpn / 1024)) as [->|]; [by apply mapped_table|].
    unfold has_table. rewrite mapped_pde_other by (done || lia). done.
Qed.

Lemma backed_cons s s1 s' vpn p ps :
  0 ≤ vpn → vpn + zlen ps < 1047552 → (∀ v, vpn ≤ v ≤ vpn + zlen ps → v / 1024 = vpn / 1024) →
  has_table s1 (vpn / 1024) →
  backed s vpn [p] s1 → backed s1 (vpn + 1) ps s' → backed s vpn (p :: ps) s'.
Proof.
  intros Hv Hl Hsame Hh [H1 H2 H3] [H1' H2' H3']. split.
  - intros [|k] q off Hq Ho; simpl in Hq.
    + injection Hq as <-. change (Z.of_nat 0) with 0. rewrite Z.add_0_r.
      assert ((vpn * 4096 + off) / 4096 = vpn) as Ev by (symmetry; apply (Z.div_unique _ _ _ off); lia).
      rewrite H2'; [|lia|lia|].
      * pose proof (H1 0%nat p off eq_refl Ho) as H. change (Z.of_nat 0) with 0 in H. by rewrite Z.add_0_r in H.
      * change 4194304 with (4096 * 1024). by rewrite <-Z.div_div, Ev by lia.
    + rewrite <-(H1' k q off Hq Ho). f_equal. lia.
  - intros va Hva Hout Hhas. cbn [length] in Hout. destruct (va_split va Hva) as (_ & E2 & Hi).
    rewrite H2'; [apply H2; [done|simpl; lia|done]|done|lia|]. apply H3; [lia|done].
  - intros i Hi Hhas. by apply H3', H3.
Qed.

Lemma wp_allocate_pages a i t sup start n : ∀ j s ps m',
  (∀ v, start + j ≤ v < start + j + Z.of_nat n → v / 1024 = i) → 0 ≤ i < 1023 → 0 ≤ start + j →
  table_ready s a i t → pmm_wf (pmm s) → 0 ≤ max_pages (pmm s) ≤ 1048576 →
  allocate_n n (pmm s) = Done (ps, m') → 0 ∉ ps →
  wp (allocate_pages_from j n start sup a)
     (λ ok s', ok = true ∧ backed s (start + j) ps s' ∧ pmm s' = m' ∧ table_ready s' a i t) s.
Proof.
  induction n as [|n IH]; intros j s ps m' Hsame Hi Hj Hready Hwf Hmax Hal H0; cbn [allocate_pages_from allocate_n] in *.
  { injection Hal as <- <-. apply wp_ret. split_and!; try done. }
  pose proof (Hsame (start + j) ltac:(lia)) as Ei.
  assert (0 ≤ start + j < 1047552) as Hv by (rewrite <-Ei in Hi; Z.div_mod_to_equations; lia).
  unfold mbind, M_bind in Hal.
  destruct (pmm_allocate_page_cases (pmm s) Hwf Hmax) as [(p & b & Hff & Ep & Hwf1 & Hocc)|Ep]; rewrite Ep in Hal.
  2: { destruct (allocate_n n (pmm s)) as [[ps1 m1]| |]; try done. injection Hal as <- <-. set_solver. }
  destruct (allocate_n n _) as [[ps1 m1]| |] eqn:Es; try done. injection Hal as <- <-.
  apply not_elem_of_cons in H0 as [Hp0 H0]. destruct Hff as ([Hp1 _] & Hp2 & _).
  apply wp_bind, wp_zoom. eapply wp_of_done; [exact Ep|]. rewrite decide_False by congruence.
  set (s1 := set_pmm _ s) in *. set (user := Z.b2z (negb sup)).
  assert (table_ready s1 a (((start + j) / 1024)) t) as Hready1 by (rewrite Ei; destruct Hready; by split).
  destruct (vpn_split _ Hv) as [Hi' _].
  apply wp_bind. apply wp_paging_map_page; [apply Hready1|lia| |].
  { rewrite (tr_table _ _ _ _ Hready1) by done. apply Hready1. }
  fold user. pose proof (mapped_ready p (start + j) user a t s1 Hv Hready1) as Hready2.
  pose proof (mapped_backed p (start + j) user a t s1 Hv ltac:(lia) Hready1) as Hb1.
  assert (has_table (mapped p (start + j) user a s1) ((start + j) / 1024)) as Hh2.
  { apply mapped_table; [done|]. rewrite (tr_table _ _ _ _ Hready1) by done. apply Hready1. }
  destruct (mapped_pmm p (start + j) user a s1) as [Epm _]. rewrite Ei in Hready2.
  generalize dependent (mapped p (start + j) user a s1). intros s2 Hready2 Hb1 Hh2 Epm.
  eapply wp_mono.
  { apply (IH (j + 1) s2 ps1 m1); try (rewrite Epm; done); try done; [|lia]. intros v Hv'. apply Hsame. lia. }
  intros ok s' (-> & Hb2 & Hm & Hr'). split_and!; try done.
  pose proof (allocate_n_length _ _ _ _ Es) as Hlen.
  eapply (backed_cons s s2 s' (start + j) p ps1); [done| | |done| |by rewrite <-Z.add_assoc].
  - destruct (decide (ps1 = [])) as [->|]; [simpl; lia|].
    pose proof (Hsame (start + j + zlen ps1) ltac:(lia)). Z.div_mod_to_equations; lia.
  - intros v Hv'. rewrite Ei. apply Hsame. lia.
  - destruct Hb1 as [B1 B2 B3]. split; [exact B1|exact B2|exact B3].
Qed.

(** The directory's own entries are seen as pages of the window. *)
Lemma get_physical_address_table s vpn :
  recursive s → 0 ≤ vpn < 1048576 → has_table s (vpn / 1024) →
  get_physical_address (GET_PAGE_TABLE vpn) s = Done (table s (vpn / 1024) * 4096, s).
Proof.
  intros Hr Hv Hh. set (i := vpn / 1024) in *. assert (0 ≤ i < 1024) as Hi by (subst i; Z.div_mod_to_equations; lia).
  destruct (proj1 (wp_done (get_physical_address (GET_PAGE_TABLE vpn))
    (λ r s', s' = s ∧ r = table s i * 4096) s)) as (r & s' & -> & -> & ->); [|done].
  unfold get_physical_address, GET_PAGE_TABLE, PAGE_TABLES_ADDR, PAGES_PER_TABLE, PAGE_SIZE. fold i. cbv zeta.
  assert ((0xFFC00000 + i * 4096) / 4096 = 1047552 + i) as -> by (symmetry; apply (Z.div_unique _ _ _ 0); lia).
  assert ((1047552 + i) / 1024 = 1023) as -> by (symmetry; apply (Z.div_unique _ _ _ i); lia).
  assert ((1047552 + i) mod 1024 = i) as -> by (symmetry; apply (Z.mod_unique _ _ 1023); lia).
  assert ((0xFFC00000 + i * 4096) mod 4096 = 0) as -> by (symmetry; apply (Z.mod_unique _ _ (1047552 + i)); lia).
  change (0xFFC00000 + 1023 * 4096) with PAGE_DIR_ADDR.
  eapply wp_bind, wp_fetch; [apply walk_pde; [done|lia]|]. rewrite decide_False by apply Hr.
  eapply wp_bind, wp_fetch; [apply walk_pde; [done|lia]|]. rewrite decide_False by exact Hh.
  eapply wp_bind, wp_fetch; [apply walk_pde; [done|lia]|]. apply wp_ret. split; [done|].
  change (word s (pde_index s i)) with (pde s i). fold (table s i).
  pose proof (fget_range f_address (pde s i)) as Hf. change (2 ^ field_width f_address) with 1048576 in Hf.
  fold (table s i) in Hf. rewrite Z.shiftl_mul_pow2 by lia. change (2 ^ 12) with 4096. by rewrite u32_small, Z.add_0_r by lia.
Qed.

(** Checking the two conditions on a concrete directory. *)
Lemma dir_private_check s :
  bool_decide (Forall (λ j, fget f_present (pde s j) = 0 ∨ table s j ≠ dir s) (seqZ 0 1023)) = true → dir_private s.
Proof.
  intros Hc%bool_decide_eq_true j Hj Hh. rewrite list.Forall_forall in Hc.
  destruct (Hc j) as [H|H]; [apply elem_of_seqZ; lia|done|done].
Qed.
Lemma table_private_check s i t :
  bool_decide (Forall (λ j, j = i ∨ fget f_present (pde s j) = 0 ∨ table s j ≠ t) (seqZ 0 1023)) = true →
  table_private s i t.
Proof.
  intros Hc%bool_decide_eq_true j Hj Hne Hh. rewrite list.Forall_forall in Hc.
  destruct (Hc j) as [H|[H|H]]; [apply elem_of_seqZ; lia|done|done|done].
Qed.

(** ** Properties *)

Module Demo.
(** A directory in frame 6 as the boot code leaves it, one kernel table deep. *)
Definition machine : vm :=
  Vm demo_pmm 0x6000 0xC0006000
    (<[entry_index 6 1023 := 0x6003]> (<[entry_index 6 768 := 0x1100003]> (<[entry_index 0x1100 5 := 0x5003]> ∅))).

Lemma recursive_machine : recursive machine.
Proof. split; by vm_compute. Qed.
Lemma machine_dir : dir_private machine.
Proof. apply dir_private_check. by vm_compute. Qed.
Lemma machine_table : table_private machine 774 (table_of machine 0xC1800 0).
Proof. apply table_private_check. by vm_compute. Qed.
Lemma walk_mapped : walk machine 0xC0005123 = Some 0x5123.
Proof. by vm_compute. Qed.
Lemma walk_unmapped : walk machine 0xC0006000 = None.
Proof. by vm_compute. Qed.
End Demo.

(** C36: paging_map_page maps exactly one page.  Through the recursive mapping,
    below the 4 MiB window of the tables, and with a table that is neither the
    directory nor another entry's: afterwards the processor translates every
    address of the page to the same offset in the given frame, user mode may use
    it exactly when it was not mapped for the kernel only (if the directory entry
    is new or the page is a user page), every address of another page whose
    directory entry existed translates as before, and the recursive mapping still holds. *)
Theorem paging_map_page_maps s frame vpn only_kernel a :
  recursive s → dir_private s → 0 ≤ vpn < 1047552 → 0 ≤ frame < 2 ^ 20 →
  table_of s vpn a ≠ dir s → table_private s (vpn / 1024) (table_of s vpn a) →
  ∃ s', paging_map_page frame vpn only_kernel a s = Done (tt, s') ∧
    (∀ off, 0 ≤ off < 4096 → walk s' (vpn * 4096 + off) = Some (frame * 4096 + off)) ∧
    user_page s' vpn = negb only_kernel ∧
    (∀ va, 0 ≤ va < 4290772992 → va / 4096 ≠ vpn → has_table s (va / 4194304) → walk s' va = walk s va) ∧
    recursive s' ∧ dir_private s' ∧ pmm s' = pmm s.
Proof.
  intros Hr Hdp Hv Hf Ht Htp. set (user := Z.b2z (negb only_kernel)).
  destruct (proj1 (wp_done (paging_map_page frame vpn only_kernel a)
    (λ _ s', s' = mapped frame vpn user a s) s)) as ([] & s' & E & ->); [by apply wp_paging_map_page|].
  eexists. split; [exact E|]. split; [intros; by apply mapped_walk|].
  split; [rewrite mapped_user; [by destruct only_kernel|done|done|subst user; destruct only_kernel; simpl; lia]|].
  split; [|split; [by apply mapped_recursive|split; [by apply mapped_dir_private|apply mapped_pmm]]].
  intros va Hva Hne Hh. destruct (va_split va Hva) as (_ & E2 & Hi). apply mapped_walk_other; try done. lia.
Qed.

Lemma paging_map_page_maps_witness :
  ∃ s', paging_map_page 40 0xC1800 true 0 Demo.machine = Done (tt, s') ∧
    (∀ off, 0 ≤ off < 4096 → walk s' (0xC1800 * 4096 + off) = Some (40 * 4096 + off)).
Proof.
  destruct (paging_map_page_maps Demo.machine 40 0xC1800 true 0) as (s' & E & Hw & _);
    [exact Demo.recursive_machine|exact Demo.machine_dir|lia|lia|by vm_compute|exact Demo.machine_table|].
  exists s'. by split.
Defined.

(** get_physical_address computes the processor's translation: for every
    address below the window of the tables it returns the physical address the
    two-level walk gives, 0 when the walk finds no table or no page, never faults
    and changes nothing. *)
Theorem get_physical_address_translates s va :
  recursive s → 0 ≤ va < 4290772992 →
  get_physical_address va s = Done (match walk s va with Some pa => pa | None => 0 end, s).
Proof. apply get_physical_address_walk. Qed.

Lemma get_physical_address_translates_witness :
  get_physical_address 0xC0005123 Demo.machine = Done (0x5123, Demo.machine) ∧
  get_physical_address 0xC0006000 Demo.machine = Done (0, Demo.machine).
Proof.
  split; rewrite (get_physical_address_translates _ _ Demo.recursive_machine) by lia.
  - by rewrite Demo.walk_mapped.
  - by rewrite Demo.walk_unmapped.
Defined.

(** allocate_kernel_virtual_page backs a page with the lowest free frame:
    with a free frame [p] other than 0 it returns true, the page then translates
    to [p], which was free and is now taken, the other pages with a table keep
    their frames and no other frame changes hands; with no free frame it returns
    false and leaves the state alone. *)
Theorem allocate_kernel_virtual_page_backs s vpn supervisor :
  recursive s → dir_private s → 0 ≤ vpn < 1047552 → pmm_wf (pmm s) → 0 ≤ max_pages (pmm s) ≤ 1048576 →
  table_of s vpn 0 ≠ dir s → table_private s (vpn / 1024) (table_of s vpn 0) →
  (∀ p, first_free (pmm s) p → used_pages (pmm s) ≠ max_pages (pmm s) → p ≠ 0 →
    ∃ s', allocate_kernel_virtual_page vpn supervisor s = Done (true, s') ∧
      (∀ off, 0 ≤ off < 4096 → walk s' (vpn * 4096 + off) = Some (p * 4096 + off)) ∧
      (∀ va, 0 ≤ va < 4290772992 → va / 4096 ≠ vpn → has_table s (va / 4194304) → walk s' va = walk s va) ∧
      (∀ q, 0 ≤ q → occupied (pmm s') q = bool_decide (q = p) || occupied (pmm s) q)) ∧
  ((∀ q, 0 ≤ q < max_pages (pmm s) / 32 * 32 → occupied (pmm s) q = true) →
    allocate_kernel_virtual_page vpn supervisor s = Done (false, s)).
Proof.
  intros Hr Hdp Hv Hwf Hmax Ht Htp. unfold allocate_kernel_virtual_page, on_pmm. split.
  - intros p Hff Hu Hp. destruct (pmm_allocate_page_found (pmm s) p Hwf Hu Hff) as (b & E & _ & Hocc).
    unfold zoom, mbind at 1, M_bind. rewrite E. rewrite decide_False by done.
    set (s1 := set_pmm _ s). unfold paging_map_kernel_page.
    destruct (proj1 (wp_done (paging_map_page p vpn supervisor 0)
      (λ _ s', s' = mapped p vpn (Z.b2z (negb supervisor)) 0 s1) s1)) as ([] & s' & E' & ->);
      [by apply wp_paging_map_page|].
    unfold mbind, M_bind. rewrite E'. eexists. split; [done|]. destruct Hff as ([Hp0 _] & Hp20 & _).
    assert (0 ≤ p < 2 ^ 20) by lia.
    split; [intros off Ho; by apply (mapped_walk _ _ _ _ s1)|].
    split.
    + intros va Hva Hne Hh. destruct (va_split va Hva) as (_ & E2 & Hi).
      rewrite (mapped_walk_other _ _ _ _ s1); try done. lia.
    + intros q Hq. rewrite (proj1 (mapped_pmm _ _ _ _ _)). apply Hocc. lia.
  - intros Hall. unfold zoom, mbind, M_bind, pmm_allocate_page.
    unfold mbind, M_bind. rewrite find_first_free_block_none by (try done; by right). by destruct s.
Qed.

Lemma allocate_kernel_virtual_page_backs_witness :
  ∃ s', allocate_kernel_virtual_page 0xC1800 true Demo.machine = Done (true, s') ∧
    (∀ off, 0 ≤ off < 4096 → walk s' (0xC1800 * 4096 + off) = Some (40 * 4096 + off)).
Proof.
  destruct (allocate_kernel_virtual_page_backs Demo.machine 0xC1800 true) as [Hok _];
    [exact Demo.recursive_machine|exact Demo.machine_dir|lia|exact demo_pmm_wf|simpl; lia|by vm_compute|
     exact Demo.machine_table|].
  destruct (Hok 40) as (s' & E & Hw & _); [exact demo_pmm_first_free|simpl; lia|lia|].
  exists s'. by split.
Defined.
