(* ===== verification/Heap.v ===== *)
(** * The kernel heap: memory/heap/heap.c

    A list of headers threaded through the memory it manages, from
    [KERNEL_CODE_END] to [curr_heap_end]; the bytes between two headers are the
    block.  The model keeps the memory as 32-bit words by address, so a header is
    three words and a header left behind inside another block is still there to
    be read.  Pages come from the interface [PageAllocator]; an access outside
    the pages the heap has mapped is a [Fault]. *)

From S2P Require Import Prelude.

(** ** The pages the heap asks for *)

Class PageAllocator (P : Type) := {
  alloc_page : Z → bool → M P bool;
  free_page : Z → M P unit;
}.

(** [page_has p vpn]: [vpn] may be given back. *)
Class PageAllocatorLaws (P : Type) `{PageAllocator P} := {
  pages_ready : P → Prop;
  page_has : P → Z → Prop;
  alloc_page_ok p vpn b :
    pages_ready p → 0xC1800 ≤ vpn < 0xFFFFF →
    ∃ r p', alloc_page vpn b p = Done (r, p') ∧ pages_ready p' ∧
      (∀ v, page_has p v → page_has p' v) ∧ (r = true → page_has p' vpn);
  free_page_ok p vpn :
    pages_ready p → page_has p vpn →
    ∃ p', free_page vpn p = Done (tt, p') ∧ pages_ready p' ∧ ∀ v, v ≠ vpn → page_has p v → page_has p' v;
}.

(** ** Definitions *)

Definition KERNEL_CODE_END : Z := 0xC1800000.
Definition KERNEL_HEAP_END : Z := 0xFFFFF000.
Definition PAGE_SIZE : Z := 4096.
Definition sizeof_heap_entry : Z := 12.
Definition MIN_BLOCK_SIZE : Z := 4.
Definition heap_start : Z := KERNEL_CODE_END.
Definition ALIGN (size alignment : Z) : Z :=
  u32 (Z.land (size + alignment - 1) (Z.lnot (alignment - 1))).

Record heap (P : Type) := Heap {
  words : gmap Z Z;
  curr_heap_end : Z;
  last_entry : Z;
  heap_pages : P }.
Arguments Heap {P}.
Arguments words {P}.
Arguments curr_heap_end {P}.
Arguments last_entry {P}.
Arguments heap_pages {P}.

(** Rounds a loop of the allocator may need: one per block and per page. *)
Definition HEAP_FUEL : nat := Z.to_nat 1100000000.

Section operations.
Context {P : Type} `{PageAllocator P}.
Implicit Types h : heap P.

Definition set_words (w : gmap Z Z) h : heap P := Heap w (curr_heap_end h) (last_entry h) (heap_pages h).
Definition set_heap_end (e : Z) h : heap P := Heap (words h) e (last_entry h) (heap_pages h).
Definition set_last_entry (e : Z) h : heap P := Heap (words h) (curr_heap_end h) e (heap_pages h).
Definition set_heap_pages (p : P) h : heap P := Heap (words h) (curr_heap_end h) (last_entry h) p.

(** *** Memory *)

Definition in_heap h (a : Z) : Prop := heap_start ≤ a ∧ a + 4 ≤ curr_heap_end h.
Definition word_at h (a : Z) : Z := default 0 (words h !! a).
Definition load (a : Z) : M (heap P) Z := λ h,
  if decide (heap_start ≤ a ∧ a + 4 ≤ curr_heap_end h) then Done (word_at h a, h) else Fault.
Definition store (a v : Z) : M (heap P) unit := λ h,
  if decide (heap_start ≤ a ∧ a + 4 ≤ curr_heap_end h) then Done (tt, set_words (<[a := v]> (words h)) h) else Fault.

(** [bool is_free] is the lowest byte of the first word. *)
Definition load_is_free (block : Z) : M (heap P) bool :=
  w ← load block; mret (negb (w mod 256 =? 0)).
Definition store_is_free (block : Z) (b : bool) : M (heap P) unit :=
  w ← load block; store block (w - w mod 256 + Z.b2z b).
Definition load_next (block : Z) : M (heap P) Z := load (block + 4).
Definition store_next (block v : Z) : M (heap P) unit := store (block + 4) v.
Definition load_prev (block : Z) : M (heap P) Z := load (block + 8).
Definition store_prev (block v : Z) : M (heap P) unit := store (block + 8) v.

(** [BLOCK_SIZE(block)] *)
Definition block_size (block : Z) : M (heap P) Z :=
  next ← load_next block; mret (u32 (next - block - sizeof_heap_entry)).

(** *** Pages *)

Definition allocate_heap_page : M (heap P) bool :=
  e ← gets curr_heap_end;
  if decide (KERNEL_HEAP_END ≤ e) then mret false else
  ok ← zoom heap_pages set_heap_pages (alloc_page (e / PAGE_SIZE) true);
  if (ok : bool) then _ ← modify (set_heap_end (u32 (e + PAGE_SIZE))); mret true else mret false.

Definition deallocate_last_heap_page : M (heap P) unit :=
  e ← gets curr_heap_end;
  let last_page_start_addr := u32 (e - PAGE_SIZE) in
  _ ← zoom heap_pages set_heap_pages (free_page (last_page_start_addr / PAGE_SIZE));
  modify (set_heap_end (u32 (e - PAGE_SIZE))).

Definition heap_init : M (heap P) bool :=
  ok ← allocate_heap_page;
  if (ok : bool) then
    let first := heap_start in
    e ← gets curr_heap_end;
    let last := u32 (e - sizeof_heap_entry) in
    _ ← modify (set_last_entry last);
    _ ← store_next last 0;
    _ ← store_prev last first;
    _ ← store_is_free last false;
    _ ← store_next first last;
    _ ← store_prev first 0;
    _ ← store_is_free first true;
    mret true
  else mret false.

(** *** Allocation *)

(** The condition of the search loop: does this block not do? *)
Definition unsuitable (curr wanted_size : Z) : M (heap P) bool :=
  f ← load_is_free curr;
  if negb f then mret true else
  next ← load_next curr;
  if decide (next = 0) then mret true else
  size ← block_size curr;
  mret (bool_decide (size < wanted_size)).

(** One round of the loop: go on with a block, or leave with the result of the
    search ([None] when there is no memory). *)
Definition find_round (wanted_size : Z) (curr : Z) : M (heap P) (Z + option Z) :=
  bad ← unsuitable curr wanted_size;
  if negb bad then mret (inr (Some curr)) else
  next ← load_next curr;
  e ← gets curr_heap_end;
  if decide (next = 0 ∨ e ≤ next) then
    ok ← allocate_heap_page;
    if negb ok then mret (inr None) else
    prev ← load_prev curr;
    prev_free ← (if decide (prev = 0) then mret false else load_is_free prev);
    curr ← (if (prev_free : bool) then mret prev
            else _ ← store_is_free curr true; mret curr);
    e ← gets curr_heap_end;
    _ ← store_next curr (u32 (e - sizeof_heap_entry));
    last ← load_next curr;
    _ ← modify (set_last_entry last);
    _ ← store_next last 0;
    _ ← store_prev last curr;
    _ ← store_is_free last false;
    mret (inl curr)
  else mret (inl next).

Definition split_block (curr wanted_size : Z) : M (heap P) unit :=
  size ← block_size curr;
  if decide (wanted_size + sizeof_heap_entry + MIN_BLOCK_SIZE ≤ size) then
    curr_end ← load_next curr;
    let rest := u32 (curr + wanted_size + sizeof_heap_entry) in
    _ ← store_next curr rest;
    _ ← store_next rest curr_end;
    _ ← store_prev rest curr;
    _ ← store_is_free rest true;
    store_prev curr_end rest
  else mret tt.

Definition heap_find_first_free_space (wanted_size : Z) : M (heap P) Z :=
  if decide (wanted_size = 0 ∨ KERNEL_HEAP_END - heap_start < wanted_size) then mret 0 else
  let wanted_size := ALIGN wanted_size 4 in
  r ← iter HEAP_FUEL (find_round wanted_size) heap_start;
  match r with
  | None => mret 0
  | Some curr =>
      _ ← split_block curr wanted_size;
      _ ← store_is_free curr false;
      mret (u32 (curr + sizeof_heap_entry))
  end.

Definition kmalloc (size : Z) : M (heap P) Z := heap_find_first_free_space size.

(** *** Release *)

Definition free_block (block : Z) : M (heap P) unit :=
  if decide (block < heap_start ∨ KERNEL_HEAP_END < block) then mret tt else
  next ← load_next block;
  if decide (next = 0) then mret tt else
  next_next ← load_next next;
  if decide (next_next = 0) then
    _ ← modify (set_last_entry block);
    _ ← store_next block 0;
    _ ← store_is_free block true;
    e ← gets curr_heap_end;
    if decide (ALIGN block PAGE_SIZE < ALIGN e PAGE_SIZE) then deallocate_last_heap_page else mret tt
  else
    prev ← load_prev block;
    prev_free ← (if decide (prev = 0) then mret false else load_is_free prev);
    if (prev_free : bool) then store_next prev next else
    next_free ← load_is_free next;
    _ ← (if (next_free : bool) then store_next block next_next else mret tt);
    store_is_free block true.

Definition kfree (addr : Z) : M (heap P) unit :=
  if decide (addr = 0) then mret tt else free_block (u32 (addr - sizeof_heap_entry)).

(** *** Whole pages *)

(** The [page_amount + 1] pages; a failure gives the first ones back. *)
Fixpoint grab_pages (i : Z) (n : nat) : M (heap P) bool :=
  match n with
  | O => mret true
  | S n' =>
      ok ← allocate_heap_page;
      if (ok : bool) then grab_pages (i + 1) n'
      else _ ← for_from 0 (Z.to_nat i) (λ _, deallocate_last_heap_page); mret false
  end.

Definition kmalloc_pages (page_amount : Z) : M (heap P) Z :=
  if decide (page_amount = 0 ∨ (KERNEL_HEAP_END - heap_start) / PAGE_SIZE < page_amount) then mret 0 else
  ok ← grab_pages 0 (Z.to_nat (page_amount + 1));
  if negb ok then mret 0 else
  e ← gets curr_heap_end;
  let returned_entry := u32 (e - (page_amount + 1) * PAGE_SIZE - sizeof_heap_entry) in
  _ ← store_is_free returned_entry false;
  last ← gets last_entry;
  prev ← load_prev last;
  prev_free ← load_is_free prev;
  before ← (if negb prev_free then mret prev else load_prev prev);
  _ ← store_next before returned_entry;
  _ ← store_prev returned_entry before;
  let rest := u32 (returned_entry + page_amount * PAGE_SIZE + sizeof_heap_entry) in
  _ ← store_next returned_entry rest;
  _ ← store_is_free rest true;
  let last := u32 (e - sizeof_heap_entry) in
  _ ← modify (set_last_entry last);
  _ ← store_is_free last false;
  _ ← store_prev last rest;
  _ ← store_next rest last;
  _ ← store_prev rest returned_entry;
  mret (u32 (returned_entry + sizeof_heap_entry)).

(** [int get_heap_end()] *)
Definition get_heap_end : M (heap P) Z := e ← gets curr_heap_end; mret (s32 e).
End operations.

(** ** The list of blocks

    A block is its flag and its size; [chain h pp a bs e]: from address [a],
    whose predecessor is [pp], the headers list the blocks [bs] and end in the
    closing header at [e]. *)

Definition block : Type := bool * Z.
Definition blk_free (b : block) : bool := b.1.
Definition blk_size (b : block) : Z := b.2.

Fixpoint span (bs : list block) : Z :=
  match bs with [] => 0 | b :: bs => 12 + blk_size b + span bs end.
(** The address of the last header, [pp] when there is none. *)
Fixpoint last_of (pp a : Z) (bs : list block) : Z :=
  match bs with [] => pp | b :: bs => last_of a (a + 12 + blk_size b) bs end.
(** The blocks handed out: address of the data and size. *)
Fixpoint allocated (a : Z) (bs : list block) : list (Z * Z) :=
  match bs with
  | [] => []
  | b :: bs => (if blk_free b then [] else [(a + 12, blk_size b)]) ++ allocated (a + 12 + blk_size b) bs
  end.

Section chains.
Context {P : Type}.
Implicit Types h : heap P.

Definition hdr_free h (a : Z) : bool := negb (word_at h a mod 256 =? 0).
Definition hdr_next h (a : Z) : Z := word_at h (a + 4).
Definition hdr_prev h (a : Z) : Z := word_at h (a + 8).

Fixpoint seg h (pp a : Z) (bs : list block) : Prop :=
  match bs with
  | [] => True
  | b :: bs => hdr_free h a = blk_free b ∧ hdr_next h a = a + 12 + blk_size b ∧ hdr_prev h a = pp ∧
               4 ≤ blk_size b ∧ blk_size b mod 4 = 0 ∧ seg h a (a + 12 + blk_size b) bs
  end.
Definition chain h (pp a : Z) (bs : list block) (e : Z) : Prop :=
  seg h pp a bs ∧ e = a + span bs ∧ hdr_next h e = 0 ∧ hdr_prev h e = last_of pp a bs.

Lemma span_app bs cs : span (bs ++ cs) = span bs + span cs.
Proof. induction bs; cbn [app span]; lia. Qed.
Lemma last_of_app pp a bs cs : last_of pp a (bs ++ cs) = last_of (last_of pp a bs) (a + span bs) cs.
Proof.
  revert pp a. induction bs as [|b bs IH]; intros pp a; cbn [app span last_of]; [by rewrite Z.add_0_r|].
  rewrite IH. f_equal. lia.
Qed.
Lemma allocated_app a bs cs : allocated a (bs ++ cs) = allocated a bs ++ allocated (a + span bs) cs.
Proof.
  revert a. induction bs as [|b bs IH]; intros a; cbn [app span allocated]; [by rewrite Z.add_0_r|].
  rewrite IH, <-app_assoc. do 3 f_equal. lia.
Qed.
Lemma seg_app h pp a bs cs :
  seg h pp a (bs ++ cs) ↔ seg h pp a bs ∧ seg h (last_of pp a bs) (a + span bs) cs.
Proof.
  revert pp a. induction bs as [|b bs IH]; intros pp a; cbn [app seg span last_of].
  - rewrite Z.add_0_r. tauto.
  - rewrite IH. replace (a + (12 + blk_size b + span bs)) with (a + 12 + blk_size b + span bs) by lia. tauto.
Qed.
Lemma span_nonneg h pp a bs : seg h pp a bs → 0 ≤ span bs.
Proof.
  revert pp a. induction bs as [|b bs IH]; intros pp a; cbn [seg span]; [lia|].
  intros (_ & _ & _ & ? & _ & Hs). apply IH in Hs. lia.
Qed.
Lemma span_aligned h pp a bs : seg h pp a bs → span bs mod 4 = 0.
Proof.
  revert pp a. induction bs as [|b bs IH]; intros pp a; cbn [seg span]; [done|].
  intros (_ & _ & _ & _ & Hm & Hs). apply IH in Hs. Z.div_mod_to_equations. lia.
Qed.
Lemma length_span h pp a bs : seg h pp a bs → 16 * zlen bs ≤ span bs.
Proof.
  revert pp a. induction bs as [|b bs IH]; intros pp a; cbn [seg span length]; [lia|].
  intros (_ & _ & _ & ? & _ & Hs). apply IH in Hs. lia.
Qed.

(** Only the words of the list's own range matter. *)
Lemma seg_frame h h' pp a bs :
  seg h pp a bs → (∀ x, a ≤ x < a + span bs → word_at h' x = word_at h x) → seg h' pp a bs.
Proof.
  revert pp a. induction bs as [|b bs IH]; intros pp a; cbn [seg span]; [done|].
  intros (Hf & Hn & Hp & Hs & Hm & Hseg) Hx. pose proof (span_nonneg _ _ _ _ Hseg).
  unfold hdr_free, hdr_next, hdr_prev in *. rewrite !Hx by lia. split_and!; try done.
  apply IH; [done|]. intros x Hx'. apply Hx. lia.
Qed.

(** A new predecessor for the first header. *)
Lemma seg_reprev h h' pp pp' a bs :
  seg h pp a bs → bs ≠ [] → word_at h' (a + 8) = pp' →
  (∀ x, a ≤ x < a + span bs → x ≠ a + 8 → word_at h' x = word_at h x) → seg h' pp' a bs.
Proof.
  destruct bs as [|b bs]; [done|]. cbn [seg span].
  intros (Hf & Hn & Hp & Hs & Hm & Hseg) _ Hp' Hx. pose proof (span_nonneg _ _ _ _ Hseg).
  unfold hdr_free, hdr_next, hdr_prev in *. rewrite !Hx by lia. split_and!; try done.
  apply (seg_frame h); [done|]. intros x Hx'. apply Hx; lia.
Qed.

(** Where the handed out blocks are. *)
Lemma allocated_range h pp a bs x t :
  seg h pp a bs → (x, t) ∈ allocated a bs → a + 12 ≤ x ∧ 4 ≤ t ∧ x + t ≤ a + span bs.
Proof.
  revert pp a. induction bs as [|b bs IH]; intros pp a; cbn [seg span allocated].
  - intros _ H. by apply elem_of_nil in H.
  - intros (_ & _ & _ & Hs & _ & Hseg) [Hin|Hin]%elem_of_app; pose proof (span_nonneg _ _ _ _ Hseg).
    + destruct (blk_free b); [by apply elem_of_nil in Hin|].
      apply list_elem_of_singleton in Hin as [= -> ->]. lia.
    + pose proof (IH _ _ Hseg Hin). lia.
Qed.

(** Two handed out blocks of one list do not overlap. *)
Lemma allocated_apart h pp a bs x t y u :
  seg h pp a bs → (x, t) ∈ allocated a bs → (y, u) ∈ allocated a bs →
  (x, t) = (y, u) ∨ x + t ≤ y ∨ y + u ≤ x.
Proof.
  revert pp a. induction bs as [|b bs IH]; intros pp a; cbn [seg allocated].
  - intros _ H. by apply elem_of_nil in H.
  - intros (_ & _ & _ & Hs & _ & Hseg) [Hx|Hx]%elem_of_app [Hy|Hy]%elem_of_app; [| | |by eapply IH].
    + destruct (blk_free b); [by apply elem_of_nil in Hx|].
      apply list_elem_of_singleton in Hx as ->, Hy as ->. by left.
    + destruct (blk_free b); [by apply elem_of_nil in Hx|]. apply list_elem_of_singleton in Hx as [= -> ->].
      pose proof (allocated_range _ _ _ _ _ _ Hseg Hy). lia.
    + destruct (blk_free b); [by apply elem_of_nil in Hy|]. apply list_elem_of_singleton in Hy as [= -> ->].
      pose proof (allocated_range _ _ _ _ _ _ Hseg Hx). lia.
Qed.

Lemma last_of_cases pp a bs : (bs = [] ∧ last_of pp a bs = pp) ∨
  ∃ bs0 b, bs = bs0 ++ [b] ∧ last_of pp a bs = a + span bs0.
Proof.
  destruct bs as [|b0 bs0 _] using rev_ind; [by left|]. right. exists bs0, b0. split; [done|].
  by rewrite last_of_app.
Qed.

Lemma chain_app h pp a bs cs e :
  chain h pp a (bs ++ cs) e ↔ seg h pp a bs ∧ chain h (last_of pp a bs) (a + span bs) cs e.
Proof.
  unfold chain. rewrite seg_app, span_app, last_of_app, Z.add_assoc. tauto.
Qed.
Lemma chain_cons h pp a b cs e :
  chain h pp a (b :: cs) e ↔
  (hdr_free h a = blk_free b ∧ hdr_next h a = a + 12 + blk_size b ∧ hdr_prev h a = pp ∧
   4 ≤ blk_size b ∧ blk_size b mod 4 = 0) ∧ chain h a (a + 12 + blk_size b) cs e.
Proof. unfold chain. cbn [seg span last_of]. rewrite !Z.add_assoc. tauto. Qed.

Lemma chain_reprev h h' pp pp' a bs e :
  chain h pp a bs e → word_at h' (a + 8) = pp' →
  (∀ x, a ≤ x < e + 12 → x ≠ a + 8 → word_at h' x = word_at h x) → chain h' pp' a bs e.
Proof.
  intros (Hseg & He & Hn & Hp) Hp' Hx. pose proof (span_nonneg _ _ _ _ Hseg).
  unfold chain, hdr_next, hdr_prev in *. destruct bs as [|b bs].
  - cbn [span last_of] in *. replace e with a in * by lia. rewrite Hx by lia. split_and!; done || lia.
  - rewrite (Hx (e + 4)), (Hx (e + 8)); try (cbn [seg span] in *; destruct Hseg as (_ & _ & _ & ? & _ & Hs);
      pose proof (span_nonneg _ _ _ _ Hs); lia).
    split_and!; try done. eapply seg_reprev; [exact Hseg|done|done|]. intros x Hr. apply Hx. lia.
Qed.
Lemma heap_chain_frame h h' pp a bs e :
  chain h pp a bs e → (∀ x, a ≤ x < e + 12 → word_at h' x = word_at h x) → chain h' pp a bs e.
Proof.
  intros (Hseg & He & Hn & Hp) Hx. pose proof (span_nonneg _ _ _ _ Hseg). unfold chain, hdr_next, hdr_prev in *.
  rewrite !Hx by lia. split_and!; try done. apply (seg_frame h); [done|]. intros x Hr. apply Hx. lia.
Qed.
Lemma chain_span h pp a bs e : chain h pp a bs e → e = a + span bs ∧ 0 ≤ span bs.
Proof. intros (Hs & He & _). split; [done|]. by eapply span_nonneg. Qed.
End chains.

(** ** Steps of the allocator *)

Section specs.
Context {P : Type} `{PageAllocatorLaws P}.
Implicit Types h : heap P.

Definition wr (a v : Z) h : heap P := set_words (<[a := v]> (words h)) h.

Lemma word_at_wr a v h x : word_at (wr a v h) x = if decide (x = a) then v else word_at h x.
Proof.
  unfold word_at, wr. cbn [words set_words]. case_decide; [subst|].
  - by rewrite lookup_insert_eq.
  - by rewrite lookup_insert_ne.
Qed.

Lemma word_at_last e h x : word_at (set_last_entry e h) x = word_at h x.
Proof. done. Qed.
Lemma word_at_end e h x : word_at (set_heap_end e h) x = word_at h x.
Proof. done. Qed.
Lemma word_at_pages p h x : word_at (set_heap_pages p h) x = word_at h x.
Proof. done. Qed.

Lemma wp_load a (Q : Z → heap P → Prop) h :
  heap_start ≤ a → a + 4 ≤ curr_heap_end h → Q (word_at h a) h → wp (load a) Q h.
Proof. intros. unfold wp, load. by rewrite decide_True. Qed.
Lemma wp_store a v (Q : unit → heap P → Prop) h :
  heap_start ≤ a → a + 4 ≤ curr_heap_end h → Q tt (wr a v h) → wp (store a v) Q h.
Proof. intros. unfold wp, store. by rewrite decide_True. Qed.

Definition free_word (w : Z) (b : bool) : Z := w - w mod 256 + Z.b2z b.
Lemma free_word_flag w b : negb (free_word w b mod 256 =? 0) = b.
Proof.
  unfold free_word. assert ((w - w mod 256 + Z.b2z b) mod 256 = Z.b2z b) as ->; [|by destruct b].
  pose proof (Z.div_mod w 256 ltac:(lia)). replace (w - w mod 256 + Z.b2z b) with (Z.b2z b + w / 256 * 256) by lia.
  rewrite Z.mod_add by lia. by destruct b.
Qed.

Lemma wp_load_is_free a (Q : bool → heap P → Prop) h :
  heap_start ≤ a → a + 4 ≤ curr_heap_end h → Q (hdr_free h a) h → wp (load_is_free a) Q h.
Proof. intros. unfold load_is_free. apply wp_bind, wp_load; [done..|]. by apply wp_ret. Qed.
Lemma wp_store_is_free a b (Q : unit → heap P → Prop) h :
  heap_start ≤ a → a + 4 ≤ curr_heap_end h → Q tt (wr a (free_word (word_at h a) b) h) →
  wp (store_is_free a b) Q h.
Proof. intros. unfold store_is_free. apply wp_bind, wp_load; [done..|]. by apply wp_store. Qed.

(** The pages and the end of the heap. *)
Record frame_ok h : Prop := {
  fo_page : curr_heap_end h mod 4096 = 0;
  fo_bounds : heap_start ≤ curr_heap_end h ≤ KERNEL_HEAP_END;
  fo_ready : pages_ready (heap_pages h);
  fo_pages v : 0xC1800 ≤ v < curr_heap_end h / 4096 → page_has (heap_pages h) v }.

Record heap_ok h (bs : list block) : Prop := {
  ho_chain : chain h 0 heap_start bs (last_entry h);
  ho_end : last_entry h + 12 ≤ curr_heap_end h;
  ho_frame : frame_ok h }.

Lemma wp_allocate_heap_page (Q : bool → heap P → Prop) h :
  frame_ok h →
  (∀ p, frame_ok (set_heap_pages p h) → Q false (set_heap_pages p h)) →
  (∀ p, let h' := set_heap_end (curr_heap_end h + 4096) (set_heap_pages p h) in frame_ok h' → Q true h') →
  wp allocate_heap_page Q h.
Proof.
  intros [Hpage Hbounds Hready Hpages] Hno Hyes. unfold allocate_heap_page. wp_steps. case_decide as Hfull.
  { apply wp_ret. assert (h = set_heap_pages (heap_pages h) h) as -> by (by destruct h). by apply Hno. }
  unfold KERNEL_HEAP_END, heap_start, KERNEL_CODE_END, PAGE_SIZE in *.
  set (e := curr_heap_end h) in *.
  assert (0xC1800 ≤ e / 4096 < 0xFFFFF ∧ e = 4096 * (e / 4096)) as [Hv He].
  { pose proof (Z.div_mod e 4096 ltac:(lia)). split; [|lia].
    split; [apply Z.div_le_lower_bound; lia|apply Z.div_lt_upper_bound; lia]. }
  destruct (alloc_page_ok (heap_pages h) (e / 4096) true Hready Hv) as (r & p' & E & Hr' & Hkeep & Hgot).
  wp_steps. unfold wp. rewrite E.
  assert (∀ v, 0xC1800 ≤ v < e / 4096 → page_has p' v) as Hold by (intros; apply Hkeep, Hpages; lia).
  destruct r.
  - rewrite u32_small by lia. apply Hyes. split; cbn [curr_heap_end heap_pages set_heap_end set_heap_pages]; fold e.
    + by rewrite <-Z.add_mod_idemp_l, Hpage by lia.
    + unfold heap_start, KERNEL_HEAP_END, KERNEL_CODE_END. lia.
    + done.
    + intros v Hvr. assert ((e + 4096) / 4096 = e / 4096 + 1) as Ed by (rewrite <-(Z.div_add e 1) by lia; done).
      destruct (decide (v = e / 4096)) as [->|]; [by apply Hgot|]. apply Hold. lia.
  - apply Hno. split; cbn; done.
Qed.

Lemma heap_const : heap_start = 3246391296 ∧ KERNEL_HEAP_END = 4294963200.
Proof. done. Qed.

Ltac heap_lia := destruct heap_const; unfold sizeof_heap_entry, MIN_BLOCK_SIZE in *; lia.

Lemma chain_end h bs : heap_ok h bs → last_entry h = heap_start + span bs ∧ 0 ≤ span bs ∧ span bs mod 4 = 0.
Proof.
  intros [(Hs & He & _) _ _]. split; [done|]. split; [by eapply span_nonneg|by eapply span_aligned].
Qed.

(** A header in the middle of the list. *)
Lemma chain_at h pre b suf :
  heap_ok h (pre ++ b :: suf) →
  let a := heap_start + span pre in
  hdr_free h a = blk_free b ∧ hdr_next h a = a + 12 + blk_size b ∧ hdr_prev h a = last_of 0 heap_start pre ∧
  4 ≤ blk_size b ∧ blk_size b mod 4 = 0 ∧ heap_start ≤ a ∧ a + 12 + blk_size b + span suf = last_entry h ∧ 0 ≤ span suf ∧
  last_entry h + 12 ≤ curr_heap_end h ≤ KERNEL_HEAP_END ∧ span pre mod 4 = 0.
Proof.
  intros Hok. cbv zeta. pose proof (chain_end _ _ Hok) as (He & _ & _).
  destruct Hok as [(Hseg & _) Hend [_ Hb _ _]]. apply seg_app in Hseg as [Hpre Hseg].
  cbn [seg] in Hseg. destruct Hseg as (Hf & Hn & Hp & Hs & Hm & Hsuf).
  pose proof (span_nonneg _ _ _ _ Hpre). pose proof (span_nonneg _ _ _ _ Hsuf). pose proof (span_aligned _ _ _ _ Hpre).
  rewrite span_app in He. cbn [span] in He. split_and!; try done; lia.
Qed.
End specs.

Create Rewrite HintDb heap.
#[export] Hint Rewrite @word_at_wr @word_at_last @word_at_end @word_at_pages : heap.
(** What a word holds after some stores. *)
Ltac words := autorewrite with heap; repeat (case_decide; try lia; try done).
Ltac heap_lia := destruct heap_const; unfold sizeof_heap_entry, MIN_BLOCK_SIZE, PAGE_SIZE in *; lia.

Section search.
Context {P : Type} `{PageAllocatorLaws P}.
Implicit Types h : heap P.

(** The contents of the blocks handed out. *)
Definition data_kept (bs : list block) h h' : Prop :=
  ∀ x t y, (x, t) ∈ allocated heap_start bs → x ≤ y → y + 4 ≤ x + t → word_at h' y = word_at h y.

Lemma data_kept_refl bs h : data_kept bs h h.
Proof. by intros x t y. Qed.
Lemma data_kept_trans bs cs h1 h2 h3 :
  allocated heap_start cs = allocated heap_start bs → data_kept bs h1 h2 → data_kept cs h2 h3 → data_kept bs h1 h3.
Proof.
  intros E H12 H23 x t y Hin Hy1 Hy2. rewrite (H23 x t y), (H12 x t y); [done..|by rewrite E|done|done].
Qed.

Lemma wp_unsuitable h pre b suf w (Q : bool → heap P → Prop) :
  heap_ok h (pre ++ b :: suf) →
  Q (negb (blk_free b && bool_decide (w ≤ blk_size b))) h →
  wp (unsuitable (heap_start + span pre) w) Q h.
Proof.
  intros Hok HQ. destruct (chain_at _ _ _ _ Hok) as (Hf & Hn & Hp & Hs & Hm & Ha & He & Hsp & Hb & Hal).
  unfold unsuitable. apply wp_bind, wp_load_is_free; [heap_lia..|]. rewrite Hf. destruct (blk_free b); cbn [negb andb] in *.
  - apply wp_bind, wp_load; [heap_lia..|]. fold (hdr_next h (heap_start + span pre)). rewrite Hn.
    rewrite decide_False by heap_lia. apply wp_bind. unfold block_size, load_next. apply wp_bind, wp_load; [heap_lia..|].
    fold (hdr_next h (heap_start + span pre)). rewrite Hn. apply wp_ret, wp_ret.
    rewrite u32_small by heap_lia.
    replace (heap_start + span pre + 12 + blk_size b - (heap_start + span pre) - sizeof_heap_entry)
      with (blk_size b) by heap_lia.
    destruct (decide (w ≤ blk_size b)); [rewrite bool_decide_true in HQ by done|rewrite bool_decide_false in HQ by done].
    + by rewrite bool_decide_false by lia.
    + by rewrite bool_decide_true by lia.
  - by apply wp_ret.
Qed.

(** A round at a block: found, or on to the next one. *)
Lemma wp_find_round_block h pre b suf w (Q : Z + option Z → heap P → Prop) :
  heap_ok h (pre ++ b :: suf) →
  Q (if blk_free b && bool_decide (w ≤ blk_size b) then inr (Some (heap_start + span pre))
     else inl (heap_start + span (pre ++ [b]))) h →
  wp (find_round w (heap_start + span pre)) Q h.
Proof.
  intros Hok HQ. destruct (chain_at _ _ _ _ Hok) as (Hf & Hn & Hp & Hs & Hm & Ha & He & Hsp & Hb & Hal).
  unfold find_round. eapply wp_bind, wp_unsuitable; [exact Hok|]. rewrite negb_involutive.
  destruct (blk_free b && bool_decide (w ≤ blk_size b)); [by apply wp_ret|].
  apply wp_bind. apply wp_load; [heap_lia..|]. fold (hdr_next h (heap_start + span pre)). rewrite Hn.
  wp_steps. rewrite decide_False by heap_lia. apply wp_ret. rewrite span_app in HQ. cbn [span] in HQ.
  by replace (heap_start + span pre + 12 + blk_size b) with (heap_start + (span pre + (12 + blk_size b + 0))) by lia.
Qed.

(** The block the new page becomes, or extends. *)
Definition grown (pre : list block) (e new_end : Z) : list block :=
  match last pre with
  | Some (true, s) => removelast pre ++ [(true, s + (new_end - 12 - e))]
  | _ => pre ++ [(true, new_end - 24 - e)]
  end.

Lemma grown_alloc pre e n : allocated heap_start (grown pre e n) = allocated heap_start pre.
Proof.
  unfold grown. destruct pre as [|[[] s] pre0 _] using rev_ind; [done|..]; rewrite list.last_snoc.
  - rewrite removelast_last. by rewrite !allocated_app.
  - by rewrite (allocated_app _ (pre0 ++ [_])), app_nil_r.
Qed.

(** Closing the list behind a last block that starts at [a]. *)
Definition closed (a e' : Z) h : heap P :=
  wr e' (free_word (word_at (wr (e' + 8) a (wr (e' + 4) 0 (wr (a + 4) e' h))) e') false)
    (wr (e' + 8) a (wr (e' + 4) 0 (set_last_entry e' (wr (a + 4) e' h)))).

Lemma closed_ok h pre a :
  seg h 0 heap_start pre → a = heap_start + span pre → hdr_free h a = true →
  hdr_prev h a = last_of 0 heap_start pre →
  frame_ok h → a + 28 ≤ curr_heap_end h → span pre mod 4 = 0 →
  let e' := curr_heap_end h - 12 in heap_ok (closed a e' h) (pre ++ [(true, e' - 12 - a)]).
Proof.
  intros Hseg -> Hf Hp Hfr Hend Hal. cbv zeta. set (a := heap_start + span pre) in *. set (e' := curr_heap_end h - 12).
  pose proof (span_nonneg _ _ _ _ Hseg) as Hsp. destruct Hfr as [Hpage Hb Hr Hpg].
  assert (∀ x, x < e' → x ≠ a + 4 → word_at (closed a e' h) x = word_at h x) as Hout by (intros; by unfold closed; words).
  assert (word_at (closed a e' h) (a + 4) = e') as H1 by (by unfold closed; words).
  assert (word_at (closed a e' h) (e' + 4) = 0) as H2 by (by unfold closed; words).
  assert (word_at (closed a e' h) (e' + 8) = a) as H3 by (by unfold closed; words).
  split; [split; [|split]|..].
  - apply seg_app. split; [apply (seg_frame h); [done|intros x Hx; apply Hout; lia]|].
    fold a. cbn [seg blk_free blk_size fst snd]. unfold hdr_free, hdr_next, hdr_prev in *.
    rewrite (Hout a), (Hout (a + 8)), H1 by lia. split_and!; try done; try lia.
    subst e' a. destruct heap_const as [-> _]. Z.div_mod_to_equations. lia.
  - rewrite span_app. cbn [span blk_size snd]. cbn [closed last_entry wr set_words set_last_entry]. lia.
  - unfold hdr_next, hdr_prev. cbn [closed last_entry wr set_words set_last_entry]. fold (closed a e' h).
    rewrite last_of_app. cbn [last_of]. by split.
  - cbn [closed last_entry curr_heap_end wr set_words set_last_entry]. lia.
  - by split.
Qed.

Lemma closed_data h pre a bs :
  allocated heap_start bs = allocated heap_start pre → seg h 0 heap_start pre → a = heap_start + span pre →
  a + 28 ≤ curr_heap_end h → data_kept bs h (closed a (curr_heap_end h - 12) h).
Proof.
  intros E Hseg -> Hend x t y Hin Hy1 Hy2. rewrite E in Hin.
  pose proof (allocated_range _ _ _ _ _ _ Hseg Hin). unfold closed. by words.
Qed.

(** The stores that close the list after a page was added. *)
Lemma wp_close a (Q : Z + option Z → heap P → Prop) h :
  heap_start ≤ a → a + 28 ≤ curr_heap_end h ≤ KERNEL_HEAP_END →
  Q (inl a) (closed a (curr_heap_end h - 12) h) →
  wp (e ← gets curr_heap_end;
      _ ← store_next a (u32 (e - sizeof_heap_entry));
      last ← load_next a;
      _ ← modify (set_last_entry last);
      _ ← store_next last 0;
      _ ← store_prev last a;
      _ ← store_is_free last false;
      mret (inl a)) Q h.
Proof.
  intros Ha Hb HQ. wp_steps. rewrite u32_small by heap_lia.
  change (curr_heap_end h - sizeof_heap_entry) with (curr_heap_end h - 12).
  apply wp_store; [heap_lia|lia|]. unfold load_next. wp_steps.
  apply wp_load; [heap_lia|cbn [wr set_words curr_heap_end]; lia|].
  rewrite word_at_wr, decide_True by done. wp_steps.
  apply wp_store; [heap_lia|cbn [wr set_words set_last_entry curr_heap_end]; lia|]. apply wp_bind.
  apply wp_store; [heap_lia|cbn [wr set_words set_last_entry curr_heap_end]; lia|]. apply wp_bind.
  apply wp_store_is_free; [heap_lia|cbn [wr set_words set_last_entry curr_heap_end]; lia|]. apply wp_ret, HQ.
Qed.

Lemma heap_ok_pages h bs p :
  heap_ok h bs → frame_ok (set_heap_pages p h) → heap_ok (set_heap_pages p h) bs.
Proof. intros [(Hs & Hc) He _] Hf. split; [split; [by apply (seg_frame h)|done]|done|done]. Qed.

(** A page added behind the closing header. *)
Lemma wp_grow h pre w (Q : Z + option Z → heap P → Prop) :
  heap_ok h pre →
  (∀ h', heap_ok h' pre → data_kept pre h h' → Q (inr None) h') →
  (∀ pre' s h', heap_ok h' (pre' ++ [(true, s)]) → pre' `prefix_of` pre →
     allocated heap_start (pre' ++ [(true, s)]) = allocated heap_start pre → data_kept pre h h' →
     curr_heap_end h' = curr_heap_end h + 4096 → Q (inl (heap_start + span pre')) h') →
  wp (find_round w (heap_start + span pre)) Q h.
Proof.
  intros Hok Hno Hyes. pose proof (chain_end _ _ Hok) as (He & Hsp & Hal). pose proof Hok as Hok0.
  destruct Hok as [(Hseg & _ & Hn & Hp) Hend Hfr]. pose proof (fo_bounds _ Hfr) as Hb.
  rewrite He in Hn, Hp, Hend. set (e := heap_start + span pre) in *.
  unfold find_round. apply wp_bind, (wp_mono _ (λ r h', r = true ∧ h' = h)).
  { unfold unsuitable. apply wp_bind, wp_load_is_free; [heap_lia..|].
    destruct (hdr_free h e); cbn [negb]; [|by apply wp_ret].
    apply wp_bind, wp_load; [heap_lia..|]. fold (hdr_next h e). rewrite Hn. by apply wp_ret. }
  intros ? ? [-> ->]. cbn [negb]. apply wp_bind, wp_load; [heap_lia..|]. fold (hdr_next h e). rewrite Hn.
  wp_steps. rewrite decide_True by by left. apply wp_bind, wp_allocate_heap_page; [done|..].
  { intros p Hfr'. apply wp_ret, Hno; [by apply heap_ok_pages|done]. }
  intros p h1 Hfr1. cbn [negb]. assert (curr_heap_end h1 = curr_heap_end h + 4096) as Hend1 by done.
  pose proof (fo_bounds _ Hfr1) as Hb1.
  assert (seg h1 0 heap_start pre) as Hseg1 by (by apply (seg_frame h)).
  assert (data_kept pre h h1) as Hkept1 by by intros x t y.
  apply wp_bind, wp_load; [heap_lia..|]. change (word_at h1 (e + 8)) with (hdr_prev h e). rewrite Hp.
  (* is the last block free? *)
  apply wp_bind, (wp_mono _ (λ r h', h' = h1 ∧
    match last pre with Some b => r = blk_free b | None => r = false end)).
  { destruct (last_of_cases 0 heap_start pre) as [[-> ->]|(pre0 & b & -> & ->)]; [by apply wp_ret|].
    apply seg_app in Hseg1 as [Hs0 (Hf & _ & _ & Hsz & _)].
    pose proof (span_nonneg _ _ _ _ Hs0). rewrite span_app in Hsp. subst e. rewrite span_app in *. cbn [span] in *.
    rewrite decide_False by heap_lia. apply wp_load_is_free; [heap_lia..|]. rewrite list.last_snoc. by split. }
  intros r ? [-> Hr]. destruct r.
  - (* extend it *)
    destruct (last_of_cases 0 heap_start pre) as [[-> E]|(pre0 & [f s] & -> & E)]; [done|]. rewrite E.
    rewrite list.last_snoc in Hr. cbn [blk_free fst] in Hr. subst f.
    apply seg_app in Hseg1 as [Hs0 (Hf & _ & Hpv & Hsz & _)]. cbn [blk_free blk_size fst snd] in *.
    pose proof (span_nonneg _ _ _ _ Hs0). pose proof (span_aligned _ _ _ _ Hs0).
    subst e. rewrite span_app in *. cbn [span blk_size snd] in *.
    apply wp_bind, wp_ret, wp_close; [heap_lia..|].
    apply (Hyes pre0 (curr_heap_end h1 - 12 - 12 - (heap_start + span pre0))); [|by apply prefix_app_r| | |exact Hend1].
    + apply closed_ok; try done. heap_lia.
    + by rewrite !allocated_app.
    + apply (data_kept_trans _ (pre0 ++ [(true, s)]) _ h1); [done|done|].
      apply (closed_data _ pre0); try done; [by rewrite allocated_app, app_nil_r|heap_lia].
  - (* the closing header becomes a block *)
    apply wp_bind, wp_bind, wp_store_is_free; [heap_lia..|]. apply wp_ret.
    set (h2 := wr e (free_word (word_at h1 e) true) h1).
    assert (frame_ok h2) as Hfr2 by (by destruct Hfr1; split).
    apply wp_close; [heap_lia|cbn [h2 wr set_words curr_heap_end]; heap_lia|].
    assert (seg h2 0 heap_start pre) as Hseg2.
    { apply (seg_frame h1); [done|]. intros x Hx. unfold h2. words. }
    apply (Hyes pre (curr_heap_end h2 - 12 - 12 - e)); [|done| | |exact Hend1].
    + apply closed_ok; try done; [|unfold h2, hdr_prev; words; by apply Hp|cbn [h2 wr set_words curr_heap_end]; heap_lia].
      unfold hdr_free, h2. words. apply free_word_flag.
    + by rewrite allocated_app, app_nil_r.
    + apply (data_kept_trans _ pre _ h2); [done| |].
      * intros x t y Hin Hy1 Hy2. pose proof (allocated_range _ _ _ _ _ _ Hseg1 Hin). unfold h2. by words.
      * apply (closed_data _ pre); try done. cbn [h2 wr set_words curr_heap_end]. heap_lia.
Qed.

(** A block that does not serve a request. *)
Definition unfit (w : Z) (b : block) : Prop := blk_free b && bool_decide (w ≤ blk_size b) = false.

Definition pages_left h : nat := Z.to_nat ((KERNEL_HEAP_END - curr_heap_end h) / 4096).

Lemma pages_left_grow h h' :
  frame_ok h' → curr_heap_end h' = curr_heap_end h + 4096 → (S (pages_left h') = pages_left h)%nat.
Proof.
  intros [Hp Hb _ _] E. unfold pages_left. rewrite E in Hb |- *.
  replace (KERNEL_HEAP_END - curr_heap_end h) with (KERNEL_HEAP_END - (curr_heap_end h + 4096) + 1 * 4096) by lia.
  rewrite Z.div_add by lia.
  assert (0 ≤ (KERNEL_HEAP_END - (curr_heap_end h + 4096)) / 4096) by (apply Z.div_pos; lia). lia.
Qed.

Lemma heap_fuel_enough h bs : heap_ok h bs → (2 * pages_left h + length bs < HEAP_FUEL)%nat.
Proof.
  intros Hok. pose proof (chain_end _ _ Hok) as (He & _). destruct Hok as [(Hs & _) Hend [_ Hb _ _]].
  pose proof (length_span _ _ _ _ Hs). unfold pages_left, HEAP_FUEL.
  assert ((KERNEL_HEAP_END - curr_heap_end h) / 4096 ≤ KERNEL_HEAP_END - curr_heap_end h).
  { apply Z.div_le_upper_bound; heap_lia. }
  assert ((KERNEL_HEAP_END - curr_heap_end h) / 4096 ≤ 300000).
  { apply Z.div_le_upper_bound; heap_lia. }
  heap_lia.
Qed.

(** The search: the first block that serves the request, after as many new pages
    as it takes, or none when the pages run out. *)
Lemma wp_search h bs w (Q : option Z → heap P → Prop) :
  heap_ok h bs →
  (∀ h' bs', heap_ok h' bs' → allocated heap_start bs' = allocated heap_start bs → data_kept bs h h' → Q None h') →
  (∀ h' pre s suf, heap_ok h' (pre ++ (true, s) :: suf) →
     allocated heap_start (pre ++ (true, s) :: suf) = allocated heap_start bs → data_kept bs h h' →
     w ≤ s → Forall (unfit w) pre → Q (Some (heap_start + span pre)) h') →
  wp (iter HEAP_FUEL (find_round w) heap_start) Q h.
Proof.
  intros Hok Hno Hyes.
  apply (wp_iter (λ n curr h', ∃ pre suf, heap_ok h' (pre ++ suf) ∧ curr = heap_start + span pre ∧
    allocated heap_start (pre ++ suf) = allocated heap_start bs ∧ data_kept bs h h' ∧
    Forall (unfit w) pre ∧ n = (2 * pages_left h' + length suf)%nat)) with (n := (2 * pages_left h + length bs)%nat).
  - intros n curr h1 (pre & suf & Hok1 & -> & Ha & Hk & Hunfit & ->). destruct suf as [|b suf].
    + rewrite app_nil_r in *. apply wp_grow; [done|..].
      * intros h2 Hok2 Hk2. apply (Hno _ pre); [done|done|]. by apply (data_kept_trans _ pre _ h1).
      * intros pre' s h2 Hok2 Hpre Ha2 Hk2 Hend. exists (2 * pages_left h2 + 1)%nat.
        pose proof (pages_left_grow h1 h2 (ho_frame _ _ Hok2) Hend). split; [cbn [length]; lia|].
        exists pre', [(true, s)]. split_and!; try done; [exact (eq_trans Ha2 Ha)|by apply (data_kept_trans _ pre _ h1)|].
        destruct Hpre as [k ->]. by apply Forall_app in Hunfit as [? _].
    + eapply wp_find_round_block; [exact Hok1|]. destruct (blk_free b && bool_decide (w ≤ blk_size b)) eqn:Hfit.
      * destruct b as [f s]. apply andb_true_iff in Hfit as [Hf Hs%bool_decide_eq_true]. cbn in Hf, Hs. subst f.
        by apply (Hyes _ _ s suf).
      * exists (2 * pages_left h1 + length suf)%nat. split; [cbn [length]; lia|].
        exists (pre ++ [b]), suf. rewrite <-app_assoc. split_and!; try done. apply Forall_app. split; [done|]. by constructor.
  - exists [], bs. cbn [app span]. rewrite Z.add_0_r. split_and!; try done.
  - by eapply heap_fuel_enough.
Qed.

(** The list after the found block was taken for [w] bytes. *)
Definition taken (pre : list block) (s : Z) (suf : list block) (w : Z) : list block :=
  if decide (w + 16 ≤ s) then pre ++ (false, w) :: (true, s - w - 12) :: suf else pre ++ (false, s) :: suf.

(** [heap_ok] of a state whose list ends where it did. *)
Lemma heap_ok_change h h' bs bs' :
  heap_ok h bs → chain h' 0 heap_start bs' (last_entry h) → last_entry h' = last_entry h →
  curr_heap_end h' = curr_heap_end h → heap_pages h' = heap_pages h → heap_ok h' bs'.
Proof.
  intros [_ He [Hp Hb Hr Hpg]] Hc El Ee Epp. split; rewrite ?El, ?Ee, ?Epp; [done|done|].
  split; by rewrite ?Ee, ?Epp.
Qed.

Lemma wp_take h pre s suf w (Q : Z → heap P → Prop) :
  heap_ok h (pre ++ (true, s) :: suf) → 4 ≤ w ≤ s → w mod 4 = 0 →
  (∀ h', heap_ok h' (taken pre s suf w) → data_kept (pre ++ (true, s) :: suf) h h' →
     curr_heap_end h' = curr_heap_end h → Q (heap_start + span pre + 12) h') →
  wp (_ ← split_block (heap_start + span pre) w;
      _ ← store_is_free (heap_start + span pre) false;
      mret (u32 (heap_start + span pre + sizeof_heap_entry))) Q h.
Proof.
  intros Hok Hw Hw4 HQ. pose proof (chain_at _ _ _ _ Hok) as (Hf & Hn & Hp & Hs & Hm & Ha & He & Hsp & Hb & Hal).
  pose proof (ho_chain _ _ Hok) as Hc. apply chain_app in Hc as [Hpre Hc]. apply chain_cons in Hc as [_ Hsuf].
  cbn [blk_free blk_size fst snd] in *. set (a := heap_start + span pre) in *. set (ce := a + 12 + s) in *.
  assert (u32 (a + sizeof_heap_entry) = a + 12) as Hret by (rewrite u32_small by heap_lia; done).
  assert (∀ h', (∀ x, x < a ∨ ce ≤ x → x ≠ ce + 8 → word_at h' x = word_at h x) →
    data_kept (pre ++ (true, s) :: suf) h h') as Hkept.
  { intros h' Hx x t y Hin Hy1 Hy2. rewrite allocated_app in Hin. cbn [allocated blk_free blk_size fst snd app] in Hin.
    fold a in Hin. fold ce in Hin. apply elem_of_app in Hin as [Hin|Hin].
    - pose proof (allocated_range _ _ _ _ _ _ Hpre Hin). apply Hx; [left; subst a; lia|subst ce a; lia].
    - destruct Hsuf as [Hseg _]. pose proof (allocated_range _ _ _ _ _ _ Hseg Hin). apply Hx; lia. }
  unfold split_block. apply wp_bind. unfold block_size, load_next. apply wp_bind, wp_bind, wp_load; [heap_lia..|].
  fold (hdr_next h a). rewrite Hn. apply wp_ret.
  replace (u32 (ce - a - sizeof_heap_entry)) with s by (rewrite u32_small; heap_lia).
  unfold taken in HQ. change (w + sizeof_heap_entry + MIN_BLOCK_SIZE) with (w + 12 + 4).
  destruct (decide (w + 16 ≤ s)) as [Hsplit|Hwhole].
  - rewrite decide_True by lia. apply wp_bind, wp_load; [heap_lia..|]. fold (hdr_next h a). rewrite Hn.
    change (a + w + sizeof_heap_entry) with (a + w + 12). rewrite u32_small by heap_lia. cbv zeta. set (rest := a + w + 12).
    apply wp_bind, wp_store; [heap_lia..|]. apply wp_bind, wp_store; [heap_lia|cbn [wr set_words curr_heap_end]; heap_lia|].
    apply wp_bind, wp_store; [heap_lia|cbn [wr set_words curr_heap_end]; heap_lia|].
    apply wp_bind, wp_store_is_free; [heap_lia|cbn [wr set_words curr_heap_end]; heap_lia|].
    apply wp_store; [heap_lia|cbn [wr set_words curr_heap_end]; heap_lia|].
    apply wp_bind, wp_store_is_free; [heap_lia|cbn [wr set_words curr_heap_end]; heap_lia|]. apply wp_ret.
    rewrite Hret. match goal with |- Q _ ?h' => set (h1 := h') end.
    assert (∀ x, x < a ∨ ce ≤ x → x ≠ ce + 8 → word_at h1 x = word_at h x) as Hout by (intros; unfold h1; by words).
    apply HQ; [|by apply Hkept|done]. apply (heap_ok_change h _ _ _ Hok); [|done..].
    apply chain_app. split; [apply (seg_frame h); [done|intros; apply Hout; lia]|]. fold a.
    apply chain_cons. cbn [blk_free blk_size fst snd]. split.
    { split_and!; try done; unfold hdr_free, hdr_next, hdr_prev, h1.
      - words. apply free_word_flag.
      - words.
      - by words.
      - lia. }
    apply chain_cons. cbn [blk_free blk_size fst snd]. replace (a + 12 + w) with rest by (subst rest; lia). split.
    { split_and!; unfold hdr_free, hdr_next, hdr_prev, h1.
      - words. apply free_word_flag.
      - by words; subst rest ce; lia.
      - by words.
      - lia.
      - Z.div_mod_to_equations. lia. }
    replace (rest + 12 + (s - w - 12)) with ce by (subst rest ce; lia).
    eapply chain_reprev; [exact Hsuf|unfold h1; by words|]. intros x Hx Hne. apply Hout; lia.
  - rewrite decide_False by lia. apply wp_ret, wp_bind, wp_store_is_free; [heap_lia..|]. apply wp_ret. rewrite Hret.
    match goal with |- Q _ ?h' => set (h1 := h') end.
    assert (∀ x, x ≠ a → word_at h1 x = word_at h x) as Hout by (intros; unfold h1; by words).
    apply HQ; [|apply Hkept; intros; apply Hout; lia|done]. apply (heap_ok_change h _ _ _ Hok); [|done..].
    apply chain_app. split; [apply (seg_frame h); [done|intros; apply Hout; lia]|]. fold a.
    apply chain_cons. cbn [blk_free blk_size fst snd]. split.
    { unfold hdr_next, hdr_prev in *. rewrite !Hout by lia. split_and!; try done; try lia.
      unfold hdr_free, h1. words. apply free_word_flag. }
    apply (heap_chain_frame h); [done|]. intros; apply Hout; lia.
Qed.
End search.

Section allocation.
Context {P : Type} `{PageAllocatorLaws P}.
Implicit Types h : heap P.

Lemma align_4 size : 0 < size ≤ 2147483648 → let w := ALIGN size 4 in
  size ≤ w ≤ size + 3 ∧ w mod 4 = 0 ∧ 4 ≤ w.
Proof.
  intros Hs w. assert (w = 4 * ((size + 3) / 4)) as ->.
  { subst w. unfold ALIGN. change (4 - 1) with (Z.ones 2). rewrite <-Z.ldiff_land, Z.ldiff_ones_r by lia.
    rewrite Z.shiftl_mul_pow2, Z.shiftr_div_pow2 by lia. change (2 ^ 2) with 4.
    replace (size + 4 - 1) with (size + 3) by lia. rewrite u32_small; [lia|]. Z.div_mod_to_equations. lia. }
  split; [Z.div_mod_to_equations; lia|]. split; [by rewrite Z.mul_comm, Z.mod_mul|]. Z.div_mod_to_equations. lia.
Qed.

Lemma taken_allocated pre s suf w x :
  x ∈ allocated heap_start (taken pre s suf w) ↔
  x = (heap_start + span pre + 12, if decide (w + 16 ≤ s) then w else s) ∨
  x ∈ allocated heap_start (pre ++ (true, s) :: suf).
Proof.
  unfold taken. case_decide; rewrite !allocated_app; cbn [allocated blk_free blk_size fst snd app];
    rewrite !elem_of_app, !elem_of_cons.
  - replace (heap_start + span pre + 12 + w + 12 + (s - w - 12)) with (heap_start + span pre + 12 + s) by lia. tauto.
  - tauto.
Qed.

(** The new block lies apart from those already handed out. *)
Lemma taken_apart h pre s suf x u :
  heap_ok h (pre ++ (true, s) :: suf) → (x, u) ∈ allocated heap_start (pre ++ (true, s) :: suf) →
  x + u ≤ heap_start + span pre ∨ heap_start + span pre + 12 + s ≤ x.
Proof.
  intros Hok Hin. destruct Hok as [(Hseg & _) _ _]. apply seg_app in Hseg as [Hpre Hseg].
  cbn [seg blk_free blk_size fst snd] in Hseg. destruct Hseg as (_ & _ & _ & _ & _ & Hsuf).
  rewrite allocated_app in Hin. cbn [allocated blk_free blk_size fst snd app] in Hin.
  apply elem_of_app in Hin as [Hin|Hin].
  - pose proof (allocated_range _ _ _ _ _ _ Hpre Hin). lia.
  - pose proof (allocated_range _ _ _ _ _ _ Hsuf Hin). lia.
Qed.

Lemma wp_kmalloc h bs size (Q : Z → heap P → Prop) :
  heap_ok h bs → 0 < size ≤ KERNEL_HEAP_END - heap_start →
  (∀ h' bs', heap_ok h' bs' → allocated heap_start bs' = allocated heap_start bs → data_kept bs h h' → Q 0 h') →
  (∀ h1 h' pre s suf, let w := ALIGN size 4 in heap_ok h1 (pre ++ (true, s) :: suf) →
     allocated heap_start (pre ++ (true, s) :: suf) = allocated heap_start bs → w ≤ s → Forall (unfit w) pre →
     heap_ok h' (taken pre s suf w) → data_kept bs h h' → Q (heap_start + span pre + 12) h') →
  wp (kmalloc size) Q h.
Proof.
  intros Hok Hsize Hno Hyes. unfold kmalloc, heap_find_first_free_space. rewrite decide_False by lia. cbv zeta.
  destruct (align_4 size) as (Hw1 & Hw2 & Hw3); [heap_lia|]. apply wp_bind, (wp_search h bs); [done|..].
  - intros h' bs' Hok' Ha Hk. apply wp_ret. by eapply Hno.
  - intros h1 pre s suf Hok1 Ha Hk Hs Hunfit. apply wp_take with (suf := suf) (s := s); [done|lia|done|].
    intros h' Hok' Hk' _. eapply Hyes; try done. by eapply data_kept_trans.
Qed.

(** A request that some block serves, without the loop's other way out. *)
Lemma wp_kmalloc_fit h pre s suf size (Q : Z → heap P → Prop) :
  let w := ALIGN size 4 in
  heap_ok h (pre ++ (true, s) :: suf) → 0 < size ≤ KERNEL_HEAP_END - heap_start → w ≤ s → Forall (unfit w) pre →
  (∀ h', heap_ok h' (taken pre s suf w) → data_kept (pre ++ (true, s) :: suf) h h' →
     curr_heap_end h' = curr_heap_end h → Q (heap_start + span pre + 12) h') →
  wp (kmalloc size) Q h.
Proof.
  intros w Hok Hsize Hs Hunfit HQ. unfold kmalloc, heap_find_first_free_space. rewrite decide_False by lia. cbv zeta.
  destruct (align_4 size) as (Hw1 & Hw2 & Hw3); [heap_lia|]. fold w in Hw1, Hw2, Hw3 |- *. apply wp_bind.
  apply (wp_iter (λ n curr h', h' = h ∧ ∃ p1 p2, pre = p1 ++ p2 ∧ curr = heap_start + span p1 ∧ n = length p2))
    with (n := length pre).
  - intros n curr ? (-> & p1 & p2 & -> & -> & ->). destruct p2 as [|b p2].
    + rewrite app_nil_r in *. eapply wp_find_round_block; [exact Hok|]. cbn [blk_free blk_size fst snd andb].
      rewrite bool_decide_true by done. apply wp_take with (suf := suf) (s := s); [done|lia|done|done].
    + rewrite <-app_assoc in Hok. cbn [app] in Hok. eapply wp_find_round_block; [exact Hok|].
      apply Forall_app in Hunfit as [_ Hunfit]. apply Forall_cons_iff in Hunfit as [Hb _]. unfold unfit in Hb. rewrite Hb.
      exists (length p2). split; [cbn [length]; lia|]. split; [done|]. exists (p1 ++ [b]), p2.
      by rewrite <-app_assoc.
  - split; [done|]. exists [], pre. cbn [span app]. by rewrite Z.add_0_r.
  - pose proof (heap_fuel_enough _ _ Hok) as Hf. rewrite length_app in Hf. lia.
Qed.

Lemma wp_heap_init (Q : bool → heap P → Prop) h :
  curr_heap_end h = heap_start → pages_ready (heap_pages h) →
  (∀ h', heap_ok h' [(true, 4072)] → curr_heap_end h' = heap_start + 4096 → Q true h') →
  (∀ p, Q false (set_heap_pages p h)) →
  wp heap_init Q h.
Proof.
  intros He Hr Hyes Hno. unfold heap_init. apply wp_bind, wp_allocate_heap_page.
  - split; rewrite ?He; [done|heap_lia|done|]. intros v Hv. change (heap_start / 4096) with 0xC1800 in Hv. lia.
  - intros p _. by apply wp_ret.
  - intros p h1 Hfr. assert (curr_heap_end h1 = heap_start + 4096) as E1 by (by subst h1; cbn; rewrite He).
    wp_steps. rewrite E1. set (last := u32 (heap_start + 4096 - sizeof_heap_entry)).
    assert (last = heap_start + 4084) as El by done. rewrite El. clear last El.
    apply wp_store; [heap_lia|cbn [curr_heap_end wr set_words set_last_entry]; heap_lia|].
    do 4 (apply wp_bind; (apply wp_store || apply wp_store_is_free); [heap_lia|cbn [curr_heap_end wr set_words set_last_entry]; heap_lia|]).
    apply wp_bind, wp_store_is_free; [heap_lia|cbn [curr_heap_end wr set_words set_last_entry]; heap_lia|]. apply wp_ret.
    apply Hyes; [|done]. destruct Hfr as [? ? ? ?]. split; [|cbn [last_entry curr_heap_end wr set_words set_last_entry]; lia|by split].
    split; [|split; [|split]].
    + cbn [seg blk_free blk_size fst snd]. split_and!; try done; unfold hdr_free, hdr_next, hdr_prev.
      * words. apply free_word_flag.
      * by words; heap_lia.
      * by words.
    + done.
    + unfold hdr_next. cbn [last_entry wr set_words set_last_entry]. by words.
    + unfold hdr_prev. cbn [last_entry wr set_words set_last_entry last_of]. by words.
Qed.
End allocation.

Section release.
Context {P : Type} `{PageAllocatorLaws P}.
Implicit Types h : heap P.

Lemma align_page x : 0 ≤ x ≤ 4294963200 → ALIGN x 4096 = 4096 * ((x + 4095) / 4096).
Proof.
  intros Hx. unfold ALIGN. change (4096 - 1) with (Z.ones 12). rewrite <-Z.ldiff_land, Z.ldiff_ones_r by lia.
  rewrite Z.shiftl_mul_pow2, Z.shiftr_div_pow2 by lia. change (2 ^ 12) with 4096.
  replace (x + 4096 - 1) with (x + 4095) by lia. rewrite u32_small; [lia|]. Z.div_mod_to_equations. lia.
Qed.

(** The header of a block that may be freed: in one page, not at its start. *)
Definition inside_page (a : Z) : Prop := 0 < a mod 4096 ≤ 4084.

Lemma wp_give_back (Q : unit → heap P → Prop) h :
  frame_ok h → heap_start + 4096 ≤ curr_heap_end h →
  (∀ p, let h' := set_heap_end (curr_heap_end h - 4096) (set_heap_pages p h) in frame_ok h' → Q tt h') →
  wp deallocate_last_heap_page Q h.
Proof.
  intros [Hpage Hb Hr Hpg] Hend HQ. unfold deallocate_last_heap_page. wp_steps. rewrite u32_small by heap_lia.
  unfold PAGE_SIZE. pose proof (Z.div_mod (curr_heap_end h) 4096 ltac:(lia)) as Hdm.
  assert ((curr_heap_end h - 4096) / 4096 = curr_heap_end h / 4096 - 1) as Ed.
  { replace (curr_heap_end h - 4096) with (curr_heap_end h + -1 * 4096) by lia. rewrite Z.div_add by lia. lia. }
  destruct heap_const as [Hc1 Hc2].
  destruct (free_page_ok (heap_pages h) ((curr_heap_end h - 4096) / 4096)) as (p' & E & Hr' & Hkeep).
  { done. } { rewrite Ed. apply Hpg. lia. }
  unfold wp. rewrite E. wp_steps. apply HQ. split; cbn [curr_heap_end heap_pages set_heap_end set_heap_pages].
  - Z.div_mod_to_equations. lia.
  - lia.
  - done.
  - intros v Hv. rewrite Ed in Hv, Hkeep. apply Hkeep; [lia|]. apply Hpg. lia.
Qed.

(** A block with a block behind it and no free neighbour. *)
Lemma wp_kfree_middle h pre t b suf (Q : unit → heap P → Prop) :
  let bs := pre ++ (false, t) :: b :: suf in
  heap_ok h bs → (∀ c, last pre = Some c → blk_free c = false) → blk_free b = false →
  (∀ h', heap_ok h' (pre ++ (true, t) :: b :: suf) → data_kept bs h h' → Q tt h') →
  wp (kfree (heap_start + span pre + 12)) Q h.
Proof.
  intros bs Hok Hpf Hbf HQ. subst bs.
  pose proof (chain_at _ _ _ _ Hok) as (Hf & Hn & Hp & Hs & Hm & Ha & He & Hsp & Hb & Hal).
  assert (heap_ok h ((pre ++ [(false, t)]) ++ b :: suf)) as Hok' by by rewrite <-app_assoc.
  pose proof (chain_at _ _ _ _ Hok') as (Hf2 & Hn2 & _ & Hs2 & _ & Ha2 & He2 & Hsp2 & _).
  rewrite span_app in Hf2, Hn2, Ha2, He2. cbn [span blk_free blk_size fst snd] in *.
  set (a := heap_start + span pre) in *.
  replace (heap_start + (span pre + (12 + t + 0))) with (a + 12 + t) in * by lia.
  unfold kfree, free_block. rewrite decide_False by heap_lia. rewrite u32_small by heap_lia.
  replace (a + 12 - sizeof_heap_entry) with a by heap_lia. rewrite decide_False by heap_lia.
  apply wp_bind, wp_load; [heap_lia..|]. fold (hdr_next h a). rewrite Hn, decide_False by heap_lia.
  apply wp_bind, wp_load; [heap_lia..|]. fold (hdr_next h (a + 12 + t)). rewrite Hn2, decide_False by heap_lia.
  apply wp_bind, wp_load; [heap_lia..|]. fold (hdr_prev h a). rewrite Hp.
  apply wp_bind, (wp_mono _ (λ r h', r = false ∧ h' = h)).
  { destruct (last_of_cases 0 heap_start pre) as [[-> ->]|(pre0 & c & -> & ->)]; [by apply wp_ret|].
    pose proof (ho_chain _ _ Hok) as Hc. apply chain_app in Hc as [Hpre _]. apply seg_app in Hpre as [Hp0 (Hfc & _ & _ & Hsc & _)].
    pose proof (span_nonneg _ _ _ _ Hp0). subst a. rewrite span_app in *. cbn [span] in *.
    rewrite decide_False by heap_lia. apply wp_load_is_free; [heap_lia..|]. rewrite Hfc. split; [|done].
    apply Hpf. by rewrite list.last_snoc. }
  intros ? ? [-> ->]. apply wp_bind, wp_load_is_free; [heap_lia..|]. rewrite Hf2, Hbf.
  apply wp_bind, wp_ret, wp_store_is_free; [heap_lia..|]. match goal with |- Q _ ?h' => set (h1 := h') end.
  assert (∀ x, x ≠ a → word_at h1 x = word_at h x) as Hout by (intros; unfold h1; by words).
  pose proof (ho_chain _ _ Hok) as Hc. apply chain_app in Hc as [Hpre Hc]. apply chain_cons in Hc as [_ Hsuf].
  fold a in Hsuf. pose proof (chain_span _ _ _ _ _ Hsuf). cbn [blk_size snd] in *.
  apply HQ.
  - apply (heap_ok_change h _ _ _ Hok); [|done..].
    apply chain_app. split; [apply (seg_frame h); [done|intros; apply Hout; lia]|]. fold a.
    apply chain_cons. cbn [blk_free blk_size fst snd]. split.
    { unfold hdr_next, hdr_prev in *. rewrite !Hout by lia. split_and!; try done.
      unfold hdr_free, h1. words. apply free_word_flag. }
    apply (heap_chain_frame h); [done|]. intros; apply Hout; lia.
  - intros x u y Hin Hy1 Hy2. apply Hout. rewrite allocated_app in Hin. apply elem_of_app in Hin as [Hin|Hin].
    + pose proof (allocated_range _ _ _ _ _ _ Hpre Hin). subst a. lia.
    + cbn [allocated blk_free blk_size fst snd app] in Hin. apply elem_of_cons in Hin as [[= -> ->]|Hin]; [subst a; lia|].
      destruct Hsuf as [Hseg _]. fold a in Hin.
      pose proof (allocated_range h a (a + 12 + t) (b :: suf) _ _ Hseg Hin). lia.
Qed.

(** The last block: its header becomes the closing one, and a page may go. *)
Lemma wp_kfree_last h pre t (Q : unit → heap P → Prop) :
  heap_ok h (pre ++ [(false, t)]) → inside_page (heap_start + span pre) →
  (∀ h', heap_ok h' pre → data_kept pre h h' → Q tt h') →
  wp (kfree (heap_start + span pre + 12)) Q h.
Proof.
  intros Hok Hin HQ. pose proof (chain_at _ _ _ _ Hok) as (Hf & Hn & Hp & Hs & Hm & Ha & He & Hsp & Hb & Hal).
  pose proof (ho_chain _ _ Hok) as Hc. apply chain_app in Hc as [Hpre Hc].
  apply chain_cons in Hc as [_ (_ & Ee & Hne & Hpe)].
  cbn [span blk_free blk_size fst snd] in *. set (a := heap_start + span pre) in *. rewrite Z.add_0_r in Ee.
  rewrite Ee in Hne.
  unfold kfree, free_block. rewrite decide_False by heap_lia. rewrite u32_small by heap_lia.
  replace (a + 12 - sizeof_heap_entry) with a by heap_lia. rewrite decide_False by heap_lia.
  apply wp_bind, wp_load; [heap_lia..|]. fold (hdr_next h a). rewrite Hn, decide_False by heap_lia.
  apply wp_bind, wp_load; [heap_lia..|]. fold (hdr_next h (a + 12 + t)). rewrite Hne, decide_True by done.
  wp_steps. apply wp_store; [heap_lia|cbn [set_last_entry curr_heap_end]; lia|]. apply wp_bind.
  apply wp_store_is_free; [heap_lia|cbn [wr set_words set_last_entry curr_heap_end]; lia|].
  match goal with |- wp _ _ ?h' => set (h1 := h') end.
  assert (∀ x, x ≠ a → x ≠ a + 4 → word_at h1 x = word_at h x) as Hout by (intros; unfold h1; by words).
  assert (∀ h2, (∀ x, word_at h2 x = word_at h1 x) → last_entry h2 = a → a + 12 ≤ curr_heap_end h2 → frame_ok h2 →
    heap_ok h2 pre) as Hdone.
  { intros h2 Hw Hl He2 Hf2. split; [|lia|done]. rewrite Hl. unfold chain, hdr_next, hdr_prev in *. rewrite !Hw.
    split_and!.
    - apply (seg_frame h); [done|]. intros x Hx. rewrite Hw. apply Hout; subst a; lia.
    - done.
    - unfold h1. by words.
    - rewrite Hout by lia. done. }
  assert (∀ h2, (∀ x, word_at h2 x = word_at h1 x) → data_kept pre h h2) as Hkept.
  { intros h2 Hw x u y Hi Hy1 Hy2. rewrite Hw. pose proof (allocated_range _ _ _ _ _ _ Hpre Hi). apply Hout; subst a; lia. }
  pose proof (ho_frame _ _ Hok) as Hfr. assert (frame_ok h1) as Hfr1 by (by destruct Hfr; split).
  wp_steps. unfold PAGE_SIZE. rewrite !align_page by (cbn [h1 wr set_words set_last_entry curr_heap_end]; heap_lia).
  change (curr_heap_end h1) with (curr_heap_end h). case_decide as Hd.
  - assert (a + 12 ≤ curr_heap_end h - 4096).
    { destruct Hfr as [Hpage _ _ _]. unfold inside_page in Hin. Z.div_mod_to_equations. lia. }
    apply wp_give_back; [done|change (curr_heap_end h1) with (curr_heap_end h); heap_lia|]. intros p h2 Hf2.
    apply HQ; [|by apply Hkept]. by apply Hdone.
  - apply wp_ret, HQ; [|by apply Hkept]. apply Hdone; [done|done| |done]. change (curr_heap_end h1) with (curr_heap_end h). lia.
Qed.
End release.

(** ** Properties *)

Module Demo.
(** A source of a fixed number of pages. *)
Definition pool : Type := Z.
#[global] Instance pool_pages : PageAllocator pool := {
  alloc_page _ _ n := if decide (0 < n) then Done (true, n - 1) else Done (false, n);
  free_page _ n := Done (tt, n + 1) }.
#[global] Program Instance pool_laws : PageAllocatorLaws pool := {
  pages_ready _ := True; page_has _ _ := True }.
Next Obligation.
  intros n vpn b _ _. unfold alloc_page, pool_pages. case_decide; eauto 10.
Qed.
Next Obligation. intros n vpn _ _. by exists (n + 1). Qed.

Definition empty (n : Z) : heap pool := Heap ∅ heap_start 0 n.

(** A heap just initialised, and one with two blocks handed out. *)
Definition fresh_blocks : list block := [(true, 4072)].
Definition two_blocks : list block := [(false, 100); (false, 8); (true, 3940)].

Lemma fresh_ok : ∃ h, heap_init (empty 3) = Done (true, h) ∧ heap_ok h fresh_blocks.
Proof.
  destruct (proj1 (wp_done heap_init (λ r h, r = true → heap_ok h fresh_blocks) (empty 3))) as (r & h & E & Hok).
  - by apply wp_heap_init.
  - exists h. assert (r = true) as ->; [|by auto].
    assert (match heap_init (empty 3) with Done (r, _) => r | _ => false end = true) as Hr by by vm_compute.
    by rewrite E in Hr.
Qed.

Lemma two_ok : ∃ h : heap pool, heap_ok h two_blocks.
Proof.
  destruct fresh_ok as (h0 & _ & Hok0).
  destruct (proj1 (wp_done (kmalloc 100) (λ _ h, heap_ok h (taken [] 4072 [] 100)) h0)) as (r1 & h1 & _ & Hok1).
  { by apply (wp_kmalloc_fit _ [] 4072 []); [done|by vm_compute|by vm_compute|constructor|]. }
  destruct (proj1 (wp_done (kmalloc 8) (λ _ h, heap_ok h (taken [(false, 100)] 3960 [] 8)) h1)) as (r2 & h2 & _ & Hok2).
  { by apply (wp_kmalloc_fit _ [(false, 100)] 3960 []); [done|by vm_compute|by vm_compute|repeat constructor|]. }
  by exists h2.
Qed.
End Demo.

(** C34: kmalloc of a size the kernel's range can hold, on any well-formed heap,
    terminates without a fault in one of two ways.  Either it returns 0, nothing
    new is handed out and the heap is still well-formed; or it returns a 4-byte
    aligned block of at least that many bytes, the blocks handed out are the old
    ones and the new one, the new one overlaps none of them, the heap is
    well-formed, and the contents of every block already handed out are unchanged. *)
Theorem kmalloc_sound {P} `{PageAllocatorLaws P} (h : heap P) bs size :
  heap_ok h bs → 0 < size ≤ KERNEL_HEAP_END - heap_start →
  ∃ r h' bs', kmalloc size h = Done (r, h') ∧ heap_ok h' bs' ∧ data_kept bs h h' ∧
    ((r = 0 ∧ allocated heap_start bs' = allocated heap_start bs) ∨
     ∃ t, size ≤ t ∧ heap_start < r ∧ r mod 4 = 0 ∧
       (∀ x, x ∈ allocated heap_start bs' ↔ x = (r, t) ∨ x ∈ allocated heap_start bs) ∧
       (∀ y u, (y, u) ∈ allocated heap_start bs → r + t ≤ y ∨ y + u ≤ r)).
Proof.
  intros Hok Hsize. destruct (proj1 (wp_done (kmalloc size) (λ r h', ∃ bs', heap_ok h' bs' ∧ data_kept bs h h' ∧
    ((r = 0 ∧ allocated heap_start bs' = allocated heap_start bs) ∨
     ∃ t, size ≤ t ∧ heap_start < r ∧ r mod 4 = 0 ∧
       (∀ x, x ∈ allocated heap_start bs' ↔ x = (r, t) ∨ x ∈ allocated heap_start bs) ∧
       (∀ y u, (y, u) ∈ allocated heap_start bs → r + t ≤ y ∨ y + u ≤ r))) h)) as (r & h' & E & bs' & Hpost);
    [|by exists r, h', bs'].
  apply (wp_kmalloc h bs); [done|done|..].
  - intros h' bs' Hok' Ha Hk. exists bs'. split; [done|]. split; [done|]. by left.
  - intros h1 h' pre s suf w Hok1 Ha Hs _ Hok' Hk. exists (taken pre s suf w). split; [done|]. split; [done|]. right.
    destruct (align_4 size) as (Hw1 & Hw2 & Hw3); [heap_lia|]. fold w in Hw1, Hw2, Hw3.
    destruct (chain_at _ _ _ _ Hok1) as (_ & _ & _ & _ & _ & Ha1 & He & _ & _ & Hal). cbn [blk_size snd] in He.
    exists (if decide (w + 16 ≤ s) then w else s). rewrite <-Ha. split; [case_decide; lia|]. split; [lia|]. split.
    { destruct heap_const as [-> _]. Z.div_mod_to_equations. lia. }
    split; [intros x; apply taken_allocated|]. intros y u Hin.
    destruct (taken_apart _ _ _ _ _ _ Hok1 Hin); [right|left; case_decide]; lia.
Qed.

Lemma kmalloc_sound_witness :
  ∃ h, heap_ok h Demo.fresh_blocks ∧
    ∃ r h' bs', kmalloc 100 h = Done (r, h') ∧ heap_ok h' bs' ∧ data_kept Demo.fresh_blocks h h'.
Proof.
  destruct Demo.fresh_ok as (h & _ & Hok). exists h. split; [exact Hok|].
  destruct (kmalloc_sound h Demo.fresh_blocks 100 Hok ltac:(by_decide)) as (r & h' & bs' & E & Hok' & Hk & _).
  exists r, h', bs'. by split.
Defined.

(** kmalloc is first fit: when block [s] is free, large enough for the size
    rounded up to 4 bytes, and no earlier block is, the call returns the data of
    exactly that block, takes no page, and leaves the list with the block cut in
    two when at least 16 bytes would be left over, and whole otherwise. *)
Theorem kmalloc_first_fit {P} `{PageAllocatorLaws P} (h : heap P) pre s suf size :
  heap_ok h (pre ++ (true, s) :: suf) → 0 < size ≤ KERNEL_HEAP_END - heap_start →
  ALIGN size 4 ≤ s → Forall (unfit (ALIGN size 4)) pre →
  ∃ h', kmalloc size h = Done (heap_start + span pre + 12, h') ∧ heap_ok h' (taken pre s suf (ALIGN size 4)) ∧
    curr_heap_end h' = curr_heap_end h.
Proof.
  intros Hok Hsize Hs Hunfit.
  destruct (proj1 (wp_done (kmalloc size) (λ r h', r = heap_start + span pre + 12 ∧
    heap_ok h' (taken pre s suf (ALIGN size 4)) ∧ curr_heap_end h' = curr_heap_end h) h)) as (r & h' & E & -> & Hok' & He);
    [|by exists h'].
  by apply (wp_kmalloc_fit h pre s suf).
Qed.

Lemma kmalloc_first_fit_witness :
  ∃ h, heap_ok h Demo.two_blocks ∧ ∃ h', kmalloc 50 h = Done (heap_start + 132 + 12, h') ∧
    heap_ok h' ([(false, 100); (false, 8)] ++ [(false, 52); (true, 3876)]) ∧ curr_heap_end h' = curr_heap_end h.
Proof.
  destruct Demo.two_ok as (h & Hok). exists h. split; [exact Hok|].
  exact (kmalloc_first_fit h [(false, 100); (false, 8)] 3940 [] 50 Hok ltac:(by_decide) ltac:(by_decide)
    ltac:(repeat constructor)).
Defined.

(** C35: kfree of a handed out block takes exactly that block back and keeps the
    heap well-formed and every other block's contents, in the two situations the
    code handles without merging: the block's neighbours are in use, or it is the
    last one and its header is neither cut by a page boundary nor the first bytes
    of a page (its header then closes the list and the page behind it is given back). *)
Theorem kfree_releases {P} `{PageAllocatorLaws P} (h : heap P) pre t suf :
  heap_ok h (pre ++ (false, t) :: suf) →
  (suf = [] ∧ inside_page (heap_start + span pre)) ∨
  (∃ b suf', suf = b :: suf' ∧ blk_free b = false ∧ ∀ c, last pre = Some c → blk_free c = false) →
  ∃ h' bs', kfree (heap_start + span pre + 12) h = Done (tt, h') ∧ heap_ok h' bs' ∧
    allocated heap_start bs' = allocated heap_start pre ++ allocated (heap_start + span pre + 12 + t) suf ∧
    data_kept bs' h h'.
Proof.
  intros Hok Hcase.
  destruct (proj1 (wp_done (kfree (heap_start + span pre + 12)) (λ _ h', ∃ bs', heap_ok h' bs' ∧
    allocated heap_start bs' = allocated heap_start pre ++ allocated (heap_start + span pre + 12 + t) suf ∧
    data_kept bs' h h') h)) as ([] & h' & E & bs' & Hpost); [|by exists h', bs'].
  destruct Hcase as [[-> Hin]|(b & suf' & -> & Hb & Hpre)].
  - apply (wp_kfree_last h pre t); [done|done|]. intros h' Hok' Hk. exists pre. split; [done|].
    by rewrite app_nil_r.
  - apply (wp_kfree_middle h pre t b suf'); [done|done|done|]. intros h' Hok' Hk. eexists. split; [exact Hok'|].
    split; [by rewrite allocated_app|]. intros x u y Hin. apply Hk.
    rewrite allocated_app in Hin |- *. cbn [allocated blk_free blk_size fst snd app] in *.
    apply elem_of_app in Hin as [Hin|Hin]; apply elem_of_app; [by left|right; by apply elem_of_cons; right].
Qed.

Lemma kfree_releases_witness :
  ∃ h, heap_ok h Demo.two_blocks ∧ ∃ h' bs', kfree (heap_start + 0 + 12) h = Done (tt, h') ∧ heap_ok h' bs' ∧
    allocated heap_start bs' = [(heap_start + 124, 8)].
Proof.
  destruct Demo.two_ok as (h & Hok). exists h. split; [exact Hok|].
  destruct (kfree_releases h [] 100 [(false, 8); (true, 3940)] Hok) as (h' & bs' & E & Hok' & Ha & _).
  - right. exists (false, 8), [(true, 3940)]. done.
  - exists h', bs'. by split.
Defined.

(** The same search with less fuel, for running the allocator. *)
Definition kmalloc_within {P} `{PageAllocator P} (n : nat) (size : Z) : M (heap P) Z :=
  if decide (size = 0 ∨ KERNEL_HEAP_END - heap_start < size) then mret 0 else
  let w := ALIGN size 4 in
  r ← iter n (find_round w) heap_start;
  match r with
  | None => mret 0
  | Some curr =>
      _ ← split_block curr w;
      _ ← store_is_free curr false;
      mret (u32 (curr + sizeof_heap_entry))
  end.

Lemma kmalloc_within_enough {P} `{PageAllocator P} n size (h : heap P) x :
  (n ≤ HEAP_FUEL)%nat → kmalloc_within n size h = Done x → kmalloc size h = Done x.
Proof.
  intros Hn. unfold kmalloc, heap_find_first_free_space, kmalloc_within. case_decide; [done|]. cbv zeta.
  unfold mbind, M_bind. destruct (iter n _ _ h) as [[r h']| |] eqn:E; [|done|done].
  by rewrite (iter_fuel_mono _ _ HEAP_FUEL _ _ _ Hn E).
Qed.

(** freeing a block next to a free one corrupts the heap.  On a fresh heap,
    allocate 100 bytes, free them, allocate 4072 bytes and then 8 bytes: the last
    block lies inside the 4072 bytes that are still in use.  The cause is
    free_block, which merges with the next block without correcting the back
    pointer of the header behind it; the search follows that stale pointer into the
    block when it adds a page. *)
Theorem kmalloc_overlaps_live :
  ∃ q r h, (_ ← heap_init; p ← kmalloc 100; _ ← kfree p; q ← kmalloc 4072; r ← kmalloc 8; mret (q, r))
             (Demo.empty 2) = Done ((q, r), h) ∧
    q ≠ 0 ∧ r ≠ 0 ∧ q ≤ r ∧ r + 8 ≤ q + 4072.
Proof.
  assert (∃ h, (_ ← heap_init; p ← kmalloc_within 5 100; _ ← kfree p; q ← kmalloc_within 5 4072;
                r ← kmalloc_within 5 8; mret (q, r)) (Demo.empty 2)
    = Done ((heap_start + 12, heap_start + 124), h)) as [h Hrun] by (eexists; vm_compute; reflexivity).
  exists (heap_start + 12), (heap_start + 124), h. split; [|by heap_lia].
  assert (5 ≤ HEAP_FUEL)%nat as Hf.
  { unfold HEAP_FUEL. generalize (eq_refl 1100000000). generalize 1100000000 at 1 3. intros z Hz. lia. }
  unfold mbind, M_bind in Hrun |- *. destruct (heap_init _) as [[? h0]| |]; [|done..].
  destruct (kmalloc_within 5 100 h0) as [[p h1]| |] eqn:E1; [|done..].
  rewrite (kmalloc_within_enough _ _ _ _ Hf E1). destruct (kfree p h1) as [[? h2]| |]; [|done..].
  destruct (kmalloc_within 5 4072 h2) as [[q h3]| |] eqn:E2; [|done..].
  rewrite (kmalloc_within_enough _ _ _ _ Hf E2).
  destruct (kmalloc_within 5 8 h3) as [[r h4]| |] eqn:E3; [|done..].
  by rewrite (kmalloc_within_enough _ _ _ _ Hf E3).
Qed.

(** kmalloc_pages on a heap whose first block is its only one writes through a
    null pointer: the block's predecessor. *)
Lemma kmalloc_pages_fresh_faults : (_ ← heap_init; kmalloc_pages 1) (Demo.empty 3) = Fault.
Proof. by vm_compute. Qed.
