(* ===== verification/Process.v ===== *)
(** * The process list and the scheduler's choices: process/manager/process_manager.c

    The nodes are heap objects, so the model keeps them in a map from addresses
    to nodes; the doubly linked list is its [next] and [prev] pointers, and a node
    that was freed is no longer in the map.  This file holds the data, the list,
    the wake-ups and the walk that picks the next process; [Kernel] adds the
    switch of the address space and of the registers. *)

From S2P Require Import Prelude.

(** ** Definitions *)

Definition MAX_LOCAL_FD : Z := 128.
Definition PROC_KERNEL_STACK_SIZE : Z := 2.

Inductive process_state_t :=
  PROCESS_RUNNING | PROCESS_READY | PROCESS_BLOCKED | PROCESS_WAITING | PROCESS_TERMINATED.
#[export] Instance process_state_eq_dec : EqDecision process_state_t.
Proof. solve_decision. Defined.

(** What isr.h's stub pushes. *)
Record int_registers := IntRegs {
  r_ds : Z; r_edi : Z; r_esi : Z; r_ebp : Z; r_kern_esp : Z; r_ebx : Z; r_edx : Z; r_ecx : Z; r_eax : Z;
  r_interrupt : Z; r_error : Z;
  r_eip : Z; r_cs : Z; r_eflags : Z; r_esp : Z; r_ss : Z }.

Record process_registers_t := ProcRegs {
  edi : Z; esi : Z; ebp : Z; unused : Z; ebx : Z; edx : Z; ecx : Z; eax : Z;
  eip : Z; cs : Z; eflags : Z; esp : Z; ss : Z }.

(** A pointer into [global_fd_table] is an index, NULL is [None]. *)
Record file_descriptor := FileDesc {
  global_fd : option Z; fd_flags : Z; fd_offset : Z; fd_is_used : bool }.
Definition zero_fd : file_descriptor := FileDesc None 0 0 false.
Definition zero_regs : process_registers_t := ProcRegs 0 0 0 0 0 0 0 0 0 0 0 0 0.

Record process_t := Proc {
  pid : Z;
  terminal_id : Z;
  waiting_for : Z;
  is_kernel_mode : bool;
  cwd : list Z;
  page_directory : Z;
  kernel_stack : Z;
  process_break : Z;
  state : process_state_t;
  fd_table : list file_descriptor;
  regs : process_registers_t }.

Record process_node := Node { proc : process_t; next : Z; prev : Z }.

(** The static variables, and the nodes on the heap. *)
Record procs := Procs {
  nodes : gmap Z process_node;
  process_list_head : Z;
  process_list_tail : Z;
  next_pid : Z;
  current_process_g : Z;
  run_processes : bool;
  manage_initialized : bool }.

Definition set_nodes (m : gmap Z process_node) (s : procs) : procs :=
  Procs m (process_list_head s) (process_list_tail s) (next_pid s) (current_process_g s) (run_processes s)
    (manage_initialized s).
Definition set_head (p : Z) (s : procs) : procs :=
  Procs (nodes s) p (process_list_tail s) (next_pid s) (current_process_g s) (run_processes s)
    (manage_initialized s).
Definition set_tail (p : Z) (s : procs) : procs :=
  Procs (nodes s) (process_list_head s) p (next_pid s) (current_process_g s) (run_processes s)
    (manage_initialized s).
Definition set_next_pid (n : Z) (s : procs) : procs :=
  Procs (nodes s) (process_list_head s) (process_list_tail s) (u32 n) (current_process_g s) (run_processes s)
    (manage_initialized s).
Definition set_current (p : Z) (s : procs) : procs :=
  Procs (nodes s) (process_list_head s) (process_list_tail s) (next_pid s) p (run_processes s)
    (manage_initialized s).
Definition set_run (b : bool) (s : procs) : procs :=
  Procs (nodes s) (process_list_head s) (process_list_tail s) (next_pid s) (current_process_g s) b
    (manage_initialized s).
Definition set_initialized (b : bool) (s : procs) : procs :=
  Procs (nodes s) (process_list_head s) (process_list_tail s) (next_pid s) (current_process_g s)
    (run_processes s) b.

Definition set_proc (x : process_t) (n : process_node) : process_node := Node x (next n) (prev n).
Definition set_next (p : Z) (n : process_node) : process_node := Node (proc n) p (prev n).
Definition set_prev (p : Z) (n : process_node) : process_node := Node (proc n) (next n) p.

Definition set_state (t : process_state_t) (x : process_t) : process_t :=
  Proc (pid x) (terminal_id x) (waiting_for x) (is_kernel_mode x) (cwd x) (page_directory x) (kernel_stack x)
    (process_break x) t (fd_table x) (regs x).
Definition set_waiting_for (w : Z) (x : process_t) : process_t :=
  Proc (pid x) (terminal_id x) w (is_kernel_mode x) (cwd x) (page_directory x) (kernel_stack x)
    (process_break x) (state x) (fd_table x) (regs x).
Definition set_terminal_id (t : Z) (x : process_t) : process_t :=
  Proc (pid x) t (waiting_for x) (is_kernel_mode x) (cwd x) (page_directory x) (kernel_stack x)
    (process_break x) (state x) (fd_table x) (regs x).
Definition set_kernel_mode (b : bool) (x : process_t) : process_t :=
  Proc (pid x) (terminal_id x) (waiting_for x) b (cwd x) (page_directory x) (kernel_stack x)
    (process_break x) (state x) (fd_table x) (regs x).
Definition set_cwd (c : list Z) (x : process_t) : process_t :=
  Proc (pid x) (terminal_id x) (waiting_for x) (is_kernel_mode x) c (page_directory x) (kernel_stack x)
    (process_break x) (state x) (fd_table x) (regs x).
Definition set_process_break (b : Z) (x : process_t) : process_t :=
  Proc (pid x) (terminal_id x) (waiting_for x) (is_kernel_mode x) (cwd x) (page_directory x) (kernel_stack x)
    (u32 b) (state x) (fd_table x) (regs x).
Definition set_fd_table (t : list file_descriptor) (x : process_t) : process_t :=
  Proc (pid x) (terminal_id x) (waiting_for x) (is_kernel_mode x) (cwd x) (page_directory x) (kernel_stack x)
    (process_break x) (state x) t (regs x).
Definition set_regs (r : process_registers_t) (x : process_t) : process_t :=
  Proc (pid x) (terminal_id x) (waiting_for x) (is_kernel_mode x) (cwd x) (page_directory x) (kernel_stack x)
    (process_break x) (state x) (fd_table x) r.

Definition set_pid (i : Z) (x : process_t) : process_t :=
  Proc i (terminal_id x) (waiting_for x) (is_kernel_mode x) (cwd x) (page_directory x) (kernel_stack x)
    (process_break x) (state x) (fd_table x) (regs x).
Definition set_page_directory (p : Z) (x : process_t) : process_t :=
  Proc (pid x) (terminal_id x) (waiting_for x) (is_kernel_mode x) (cwd x) p (kernel_stack x)
    (process_break x) (state x) (fd_table x) (regs x).
Definition set_kernel_stack (p : Z) (x : process_t) : process_t :=
  Proc (pid x) (terminal_id x) (waiting_for x) (is_kernel_mode x) (cwd x) (page_directory x) (u32 p)
    (process_break x) (state x) (fd_table x) (regs x).

(** *** Pointers to nodes: NULL and freed nodes are not in the map *)

Definition node (p : Z) : M procs process_node := λ s,
  match nodes s !! p with Some n => Done (n, s) | None => Fault end.
Definition update_node (p : Z) (f : process_node → process_node) : M procs unit :=
  n ← node p; modify (λ s, set_nodes (<[p := f n]> (nodes s)) s).
Definition update_proc (p : Z) (f : process_t → process_t) : M procs unit :=
  update_node p (λ n, set_proc (f (proc n)) n).

(** *** The list *)

Definition add_to_linked_list (new_process_node : Z) : M procs unit :=
  if decide (new_process_node = 0) then mret tt else
  _ ← update_node new_process_node (set_next 0);
  _ ← update_node new_process_node (set_prev 0);
  head ← gets process_list_head;
  if decide (head = 0) then
    _ ← modify (set_head new_process_node);
    modify (set_tail new_process_node)
  else
    tail ← gets process_list_tail;
    _ ← update_node tail (set_next new_process_node);
    _ ← update_node new_process_node (set_prev tail);
    modify (set_tail new_process_node).

Definition remove_from_linked_list (proc_node : Z) : M procs Z :=
  if decide (proc_node = 0) then mret (-1) else
  head ← gets process_list_head;
  n ← node proc_node;
  _ ← (if decide (proc_node = head) then modify (set_head (next n)) else mret tt);
  tail ← gets process_list_tail;
  _ ← (if decide (proc_node = tail) then modify (set_tail (prev n)) else mret tt);
  _ ← (if decide (prev n ≠ 0) then update_node (prev n) (set_next (next n)) else mret tt);
  n ← node proc_node;
  _ ← (if decide (next n ≠ 0) then update_node (next n) (set_prev (prev n)) else mret tt);
  mret 0.

(** *** Creation and bookkeeping *)

Definition init_proc_fd (t : list file_descriptor) : outcome (list file_descriptor) :=
  let used := FileDesc None 0 0 true in
  t ← of_option (aset t 0 zero_fd);
  t ← of_option (aset t 1 zero_fd);
  t ← of_option (aset t 2 zero_fd);
  t ← of_option (aset t 0 used);
  t ← of_option (aset t 1 used);
  of_option (aset t 2 used).

Definition get_current_process : M procs Z := gets current_process_g.

Definition copy_registers (src : int_registers) : process_registers_t :=
  ProcRegs (r_edi src) (r_esi src) (r_ebp src) 0 (r_ebx src) (r_edx src) (r_ecx src) (r_eax src)
    (r_eip src) (r_cs src) (r_eflags src) (r_esp src) (r_ss src).

Definition enable_processes : M procs unit :=
  ready ← gets manage_initialized;
  if (ready : bool) then modify (set_run true) else mret tt.
Definition is_schduling : M procs bool := gets run_processes.

(** *** Walks round the list

    The heap has room for fewer than 2^20 nodes of more than two kilobytes. *)
Definition WALK_FUEL : nat := Z.to_nat 1048576.

(** [if (iter->next != NULL) iter = iter->next; else iter = process_list_head;] *)
Definition step_round (iter : Z) : M procs Z :=
  n ← node iter;
  if decide (next n ≠ 0) then mret (next n) else gets process_list_head.

Definition wake_round (woken : process_t → bool) (wake : process_t → process_t) (iter : Z) : M procs (Z + unit) :=
  n ← node iter;
  _ ← (if woken (proc n) then update_proc iter wake else mret tt);
  iter ← step_round iter;
  current ← gets current_process_g;
  if decide (iter ≠ current) then mret (inl iter) else mret (inr tt).

Definition blocked_on (tid : Z) (x : process_t) : bool :=
  bool_decide (state x = PROCESS_BLOCKED) && bool_decide (terminal_id x = tid).
Definition wake_up_terminal_processes (tid : Z) : M procs unit :=
  current ← gets current_process_g;
  iter WALK_FUEL (wake_round (blocked_on tid) (set_state PROCESS_READY)) current.

Definition waits_for (wait_for_pid : Z) (x : process_t) : bool :=
  bool_decide (state x = PROCESS_WAITING) && bool_decide (waiting_for x = wait_for_pid).
Definition wake_up_waiting_processes (wait_for_pid : Z) : M procs unit :=
  current ← gets current_process_g;
  iter WALK_FUEL (wake_round (waits_for wait_for_pid) (λ x, set_waiting_for 0 (set_state PROCESS_READY x))) current.

(** The [do ... while] of switch_process: on to the next READY process. *)
Definition next_ready_round (_ : unit) : M procs (unit + unit) :=
  current ← gets current_process_g;
  p ← step_round current;
  _ ← modify (set_current p);
  n ← node p;
  if decide (state (proc n) ≠ PROCESS_READY) then mret (inl tt) else mret (inr tt).
Definition next_ready (fuel : nat) : M procs unit := iter fuel next_ready_round tt.

(** switch_process up to its jump: [false] when there is no process at all. *)
Definition choose_process_within (fuel : nat) (r : int_registers) : M procs bool :=
  head ← gets process_list_head;
  if decide (head = 0) then mret false else
  current ← gets current_process_g;
  _ ← (if decide (current = 0) then modify (set_current head)
       else
         n ← node current;
         _ ← (if decide (state (proc n) = PROCESS_RUNNING)
              then update_proc current (set_state PROCESS_READY) else mret tt);
         _ ← update_proc current (set_regs (copy_registers r));
         next_ready fuel);
  current ← gets current_process_g;
  _ ← update_proc current (set_state PROCESS_RUNNING);
  mret true.

Definition choose_process : int_registers → M procs bool := choose_process_within WALK_FUEL.

(** ** The list as the kernel keeps it

    The pointers and the processes are two projections of the nodes: the list is
    a fact about [links], what the scheduler does to processes one about [datas]. *)

Definition links (s : procs) : gmap Z (Z * Z) := (λ n, (next n, prev n)) <$> nodes s.
Definition datas (s : procs) : gmap Z process_t := proc <$> nodes s.

(** The nodes of [ps] are linked in this order, [pp] before them and [nx] after. *)
Fixpoint seg (m : gmap Z (Z * Z)) (pp : Z) (ps : list Z) (nx : Z) : Prop :=
  match ps with
  | [] => True
  | p :: ps' => m !! p = Some (hd nx ps', pp) ∧ seg m p ps' nx
  end.
Fixpoint last_node (pp : Z) (ps : list Z) : Z :=
  match ps with [] => pp | p :: ps' => last_node p ps' end.

(** The nodes of [ps], in this order, are the process list. *)
Record plist (s : procs) (ps : list Z) : Prop := {
  pl_nodup : NoDup ps;
  pl_null : 0 ∉ ps;
  pl_head : process_list_head s = hd 0 ps;
  pl_tail : process_list_tail s = last_node 0 ps;
  pl_links : seg (links s) 0 ps 0;
}.

(** The same list seen from the current process: [qs] are the others in the
    order the scheduler meets them. *)
Definition ring (s : procs) (c : Z) (qs : list Z) : Prop :=
  ∃ l r, plist s (l ++ c :: r) ∧ qs = r ++ l.

(** One process: wake it if it is to be woken. *)
Definition wake_if (woken : process_t → bool) (wake : process_t → process_t) (x : process_t) : process_t :=
  if woken x then wake x else x.


(** Every process of [ps] woken, the others as they were. *)
Definition woken_all (woken : process_t → bool) (wake : process_t → process_t) (ps : list Z)
    (m : gmap Z process_t) : gmap Z process_t :=
  map_imap (λ p x, Some (if decide (p ∈ ps) then wake_if woken wake x else x)) m.

(** ** Lemmas *)

Lemma datas_lookup s p : datas s !! p = proc <$> nodes s !! p.
Proof. apply lookup_fmap. Qed.
Lemma links_lookup s p : links s !! p = (λ n, (next n, prev n)) <$> nodes s !! p.
Proof. apply lookup_fmap. Qed.

Lemma links_proc s p n x : nodes s !! p = Some n → links (set_nodes (<[p := set_proc x n]> (nodes s)) s) = links s.
Proof.
  intros Hn. unfold links. cbn. rewrite fmap_insert. apply insert_id. by rewrite lookup_fmap, Hn.
Qed.
Lemma datas_proc s p n x : datas (set_nodes (<[p := set_proc x n]> (nodes s)) s) = <[p := x]> (datas s).
Proof. unfold datas. cbn. by rewrite fmap_insert. Qed.
Lemma datas_link s p n n' : nodes s !! p = Some n → proc n' = proc n →
  datas (set_nodes (<[p := n']> (nodes s)) s) = datas s.
Proof. intros Hn E. unfold datas. cbn. rewrite fmap_insert, E. apply insert_id. by rewrite lookup_fmap, Hn. Qed.
Lemma links_link s p n' : links (set_nodes (<[p := n']> (nodes s)) s) = <[p := (next n', prev n')]> (links s).
Proof. unfold links. cbn. by rewrite fmap_insert. Qed.

Lemma wp_node p n (Q : process_node → procs → Prop) s : nodes s !! p = Some n → Q n s → wp (node p) Q s.
Proof. intros E HQ. unfold wp, node. by rewrite E. Qed.

Lemma wp_update_node p f n (Q : unit → procs → Prop) s :
  nodes s !! p = Some n → Q tt (set_nodes (<[p := f n]> (nodes s)) s) → wp (update_node p f) Q s.
Proof. intros E HQ. apply wp_bind. eapply wp_node; [done|]. by apply wp_modify. Qed.

Lemma wp_update_proc p f x (Q : unit → procs → Prop) s :
  datas s !! p = Some x →
  (∀ m, links (set_nodes m s) = links s → datas (set_nodes m s) = <[p := f x]> (datas s) → Q tt (set_nodes m s)) →
  wp (update_proc p f) Q s.
Proof.
  rewrite datas_lookup. intros (n & En & ->)%fmap_Some HQ.
  eapply wp_update_node; [done|]. apply HQ; [by apply links_proc|apply datas_proc].
Qed.

Lemma wp_proc p x (Q : process_node → procs → Prop) s :
  datas s !! p = Some x → (∀ n, nodes s !! p = Some n → proc n = x → Q n s) → wp (node p) Q s.
Proof. rewrite datas_lookup. intros (n & En & ->)%fmap_Some HQ. eapply wp_node; [done|]. by apply HQ. Qed.

(** The list depends on the pointers only. *)
Lemma plist_ext s s' ps :
  plist s ps → process_list_head s' = process_list_head s → process_list_tail s' = process_list_tail s →
  links s' = links s → plist s' ps.
Proof. intros [] ? ? El. split; rewrite ?El; congruence || auto. Qed.
Lemma ring_ext s s' c qs :
  ring s c qs → process_list_head s' = process_list_head s → process_list_tail s' = process_list_tail s →
  links s' = links s → ring s' c qs.
Proof. intros (l & r & Hp & ->) ???. exists l, r. split; [by eapply plist_ext|done]. Qed.

Lemma node_seg_app m pp xs ys nx : seg m pp (xs ++ ys) nx ↔ seg m pp xs (hd nx ys) ∧ seg m (last_node pp xs) ys nx.
Proof.
  revert pp. induction xs as [|x xs IH]; intros pp; cbn [app seg last_node]; [naive_solver|].
  rewrite IH. assert (hd nx (xs ++ ys) = hd (hd nx ys) xs) as -> by (by destruct xs). naive_solver.
Qed.
Lemma node_seg_frame m pp ps nx p v : p ∉ ps → seg m pp ps nx → seg (<[p := v]> m) pp ps nx.
Proof.
  revert pp. induction ps as [|q ps IH]; intros pp Hp; cbn [seg]; [done|]. intros [Hq Hs].
  split; [rewrite lookup_insert_ne by set_solver; done|]. apply IH; set_solver.
Qed.
Lemma seg_member m pp ps nx p : seg m pp ps nx → p ∈ ps → is_Some (m !! p).
Proof.
  revert pp. induction ps as [|q ps IH]; intros pp; cbn [seg]; [set_solver|]. intros [Hq Hs].
  rewrite elem_of_cons. intros [->|?]; eauto.
Qed.
Lemma last_node_app pp xs ys : last_node pp (xs ++ ys) = last_node (last_node pp xs) ys.
Proof. revert pp. induction xs; intros; cbn; auto. Qed.

(** A member of the ring, its successor, and the wrap. *)
Lemma ring_member s c qs p : ring s c qs → p ∈ c :: qs → p ≠ 0 ∧ is_Some (datas s !! p).
Proof.
  intros (l & r & Hp & ->) Hin.
  assert (p ∈ l ++ c :: r) as Hin' by set_solver. split.
  - intros ->. by apply (pl_null _ _ Hp).
  - destruct (seg_member _ _ _ _ _ (pl_links _ _ Hp) Hin') as [v Hl].
    rewrite links_lookup in Hl. apply fmap_Some in Hl as (n & En & _).
    rewrite datas_lookup, En. eauto.
Qed.

Lemma ring_nodup s c qs : ring s c qs → NoDup (c :: qs).
Proof.
  intros (l & r & Hp & ->). pose proof (pl_nodup _ _ Hp) as Hn.
  assert (c :: r ++ l ≡ₚ l ++ c :: r) as -> by solve_Permutation. done.
Qed.

Lemma wp_step_round s l p r (Q : Z → procs → Prop) :
  plist s (l ++ p :: r) → Q (hd p (r ++ l)) s → wp (step_round p) Q s.
Proof.
  intros Hp HQ. pose proof (pl_links _ _ Hp) as Hl. apply node_seg_app in Hl as [_ [Hl _]].
  rewrite links_lookup in Hl. apply fmap_Some in Hl as (n & En & [= Hnext _]).
  apply wp_bind. eapply wp_node; [done|]. rewrite <-Hnext.
  destruct r as [|q r]; cbn [hd app] in *.
  - rewrite decide_False by lia. apply wp_gets. rewrite (pl_head _ _ Hp). by destruct l.
  - rewrite decide_True; [apply wp_ret; exact HQ|]. intros ->. apply (pl_null _ _ Hp). set_solver.
Qed.

(** The ring turned by one. *)
Lemma ring_turn s c q qs : ring s c (q :: qs) → ring s q (qs ++ [c]).
Proof.
  intros (l & r & Hp & E). destruct r as [|q' r]; simpl in E.
  - destruct l as [|q' l]; simplify_eq. exists [], (l ++ [c]). split; [done|]. by rewrite app_nil_r.
  - injection E as <- ->. exists (l ++ [c]), r. split; [by rewrite <-app_assoc|]. by rewrite app_assoc.
Qed.

Lemma wp_ring_step s c qs (Q : Z → procs → Prop) :
  ring s c qs → Q (hd c qs) s → wp (step_round c) Q s.
Proof. intros (l & r & Hp & ->) HQ. by eapply wp_step_round. Qed.

(** *** Waking *)

Section wake.
Context (woken : process_t → bool) (wake : process_t → process_t).

Lemma woken_all_lookup ps m p :
  woken_all woken wake ps m !! p =
    (λ x, if decide (p ∈ ps) then wake_if woken wake x else x) <$> m !! p.
Proof. unfold woken_all. rewrite map_lookup_imap. by destruct (m !! p). Qed.

Lemma woken_all_nil m : woken_all woken wake [] m = m.
Proof.
  apply map_eq. intros p. rewrite woken_all_lookup. destruct (m !! p) as [x|]; [|done].
  cbn. rewrite decide_False by set_solver. done.
Qed.

Lemma woken_all_snoc ps m p x :
  m !! p = Some x → p ∉ ps →
  woken_all woken wake (ps ++ [p]) m = <[p := wake_if woken wake x]> (woken_all woken wake ps m).
Proof.
  intros Hx Hp. apply map_eq. intros q. rewrite lookup_insert, !woken_all_lookup.
  destruct (decide (p = q)) as [<-|Hne].
  - rewrite Hx. cbn. by rewrite decide_True by set_solver.
  - destruct (m !! q) as [y|]; [|done]. cbn. f_equal. by apply decide_ext; set_solver.
Qed.

Lemma woken_all_perm ps ps' m :
  (∀ p, p ∈ ps ↔ p ∈ ps') → woken_all woken wake ps m = woken_all woken wake ps' m.
Proof.
  intros E. apply map_eq. intros q. rewrite !woken_all_lookup. destruct (m !! q); [|done]. cbn. f_equal.
  by apply decide_ext.
Qed.

(** The loop has seen [seen] and stands at [p]. *)
Lemma wp_wake_rounds s0 c p seen rest fuel (Q : unit → procs → Prop) s :
  ring s0 p (rest ++ seen) → hd p (seen) = c → NoDup (seen ++ p :: rest) →
  current_process_g s = c →
  (∃ m, s = set_nodes m s0 ∧ links s = links s0 ∧ datas s = woken_all woken wake seen (datas s0)) →
  (length rest < fuel)%nat →
  (∀ m, links (set_nodes m s0) = links s0 →
     datas (set_nodes m s0) = woken_all woken wake (seen ++ p :: rest) (datas s0) → Q tt (set_nodes m s0)) →
  wp (iter fuel (wake_round woken wake) p) Q s.
Proof.
  revert p seen rest s. induction fuel as [|fuel IH]; intros p seen rest s Hr Hc Hnd Hcur (m & -> & Hl & Hd) Hf HQ; [lia|].
  destruct (ring_member _ _ _ p Hr) as [Hp0 [x Hx]]; [set_solver|].
  assert (p ∉ seen) as Hps by (apply list.NoDup_app in Hnd; set_solver).
  assert (datas (set_nodes m s0) !! p = Some x) as Hx'.
  { rewrite Hd, woken_all_lookup, Hx. cbn. by rewrite decide_False by done. }
  cbn [iter]. apply wp_bind. unfold wake_round at 1. apply wp_bind. eapply wp_proc; [done|].
  intros n En Ex. apply wp_bind.
  apply (wp_mono _ (λ _ s', ∃ m, s' = set_nodes m s0 ∧ links s' = links s0 ∧
      datas s' = woken_all woken wake (seen ++ [p]) (datas s0))).
  { rewrite (woken_all_snoc _ _ _ x) by done. unfold wake_if. rewrite Ex. destruct (woken x) eqn:E.
    - eapply wp_update_proc; [done|]. intros m' Hl' Hd'. exists m'. split; [done|]. split; [by rewrite <-Hl|].
      rewrite <-Hd. done.
    - apply wp_ret. exists m. split; [done|]. split; [done|]. rewrite Hd. symmetry. apply insert_id.
      by rewrite <-Hd. }
  intros [] s1 (m' & -> & Hl' & Hd'). apply wp_bind.
  eapply wp_ring_step; [by eapply ring_ext|].
  apply wp_bind, wp_gets. cbn [current_process_g set_nodes] in Hcur |- *. rewrite Hcur.
  destruct rest as [|q rest].
  - assert (hd p ([] ++ seen) = c) as -> by done.
    rewrite decide_False by naive_solver. apply wp_ret, wp_ret. apply HQ; [done|]. by rewrite Hd'.
  - cbn [app hd]. rewrite decide_True.
    + apply wp_ret. apply (IH q (seen ++ [p]) rest); [..|simpl in Hf; lia|].
      * rewrite app_assoc. by apply ring_turn.
      * destruct seen; done.
      * by rewrite <-app_assoc.
      * done.
      * by eauto.
      * intros m2. rewrite <-app_assoc. apply HQ.
    + intros E. apply list.NoDup_app in Hnd as (_ & Hnd & Hnd'). destruct seen as [|a seen]; cbn in Hc.
      * apply NoDup_cons in Hnd' as [Hnd' _]. apply Hnd'. set_solver.
      * apply (Hnd q); set_solver.
Qed.

Lemma wp_wake_ring s c qs (Q : unit → procs → Prop) :
  ring s c qs → current_process_g s = c → (length qs < WALK_FUEL)%nat →
  (∀ m, links (set_nodes m s) = links s →
     datas (set_nodes m s) = woken_all woken wake (c :: qs) (datas s) → Q tt (set_nodes m s)) →
  wp (iter WALK_FUEL (wake_round woken wake) c) Q s.
Proof.
  intros Hr Hc Hl HQ. apply (wp_wake_rounds s c c [] qs); try done.
  - by rewrite app_nil_r.
  - by apply (ring_nodup s).
  - exists (nodes s). split; [by destruct s|]. split; [done|]. by rewrite woken_all_nil.
Qed.
End wake.

(** *** Choosing *)

(** Every element of the ring can be its head. *)
Lemma ring_turns s c qs pre p post :
  ring s c qs → qs ++ [c] = pre ++ p :: post → ring s p (post ++ pre).
Proof.
  revert c qs post. induction pre as [|a pre IH]; intros c qs post Hr E; rewrite ?app_nil_r.
  - destruct qs as [|q qs]; simpl in E; simplify_eq; [done|]. by apply ring_turn.
  - destruct qs as [|q qs]; simpl in E.
    + by destruct pre.
    + injection E as -> E. replace (post ++ a :: pre) with ((post ++ [a]) ++ pre) by (by rewrite <-app_assoc).
      apply (IH a (qs ++ [c])); [by apply ring_turn|]. rewrite E, <-app_assoc. done.
Qed.

Definition is_ready (m : gmap Z process_t) (p : Z) : Prop := ∃ x, m !! p = Some x ∧ state x = PROCESS_READY.
#[export] Instance is_ready_dec m p : Decision (is_ready m p).
Proof.
  destruct (m !! p) as [x|] eqn:E; [|right; intros (x & ? & _); congruence].
  destruct (decide (state x = PROCESS_READY)); [left; by exists x|right; intros (y & ? & ?); congruence].
Defined.

Lemma ring_current s c c' qs : ring s c qs → ring (set_current c' s) c qs.
Proof. intros. by eapply ring_ext. Qed.

Lemma wp_next_ready_rounds s c qs pre p post fuel (Q : unit → procs → Prop) :
  ring s c qs → current_process_g s = c → qs ++ [c] = pre ++ p :: post →
  Forall (λ q, ¬ is_ready (datas s) q) pre → is_ready (datas s) p → (length pre < fuel)%nat →
  Q tt (set_current p s) → wp (iter fuel next_ready_round tt) Q s.
Proof.
  revert c qs pre post s. induction fuel as [|fuel IH]; intros c qs pre post s Hr Hc E Hpre Hp Hf HQ; [lia|].
  cbn [iter]. apply wp_bind. unfold next_ready_round at 1. apply wp_bind, wp_gets. rewrite Hc.
  apply wp_bind. eapply wp_ring_step; [done|]. apply wp_bind, wp_modify, wp_bind.
  destruct pre as [|a pre].
  - assert (hd c qs = p) as -> by (by destruct qs; simplify_eq/=).
    destruct Hp as (x & Hx & Hs). eapply wp_proc; [exact Hx|]. intros n _ ->.
    rewrite decide_False by naive_solver. by apply wp_ret, wp_ret.
  - destruct qs as [|q qs]; simpl in E; [by destruct pre|]. injection E as -> E. cbn [hd].
    apply Forall_cons_iff in Hpre as [Ha Hpre].
    destruct (ring_member _ _ _ a Hr) as [_ [x Hx]]; [set_solver|].
    eapply wp_proc; [exact Hx|]. intros n _ ->.
    rewrite decide_True by (intros Hs; apply Ha; by exists x). apply wp_ret.
    apply (IH a (qs ++ [c]) pre (post ++ [a])); try done.
    + by apply ring_current, ring_turn.
    + rewrite E, <-app_assoc. done.
    + simpl in Hf. lia.
Qed.

(** What a process resumes with when it was interrupted with the frame [r]: every
    register under its own name. *)
Definition saved_registers (r : int_registers) : process_registers_t := {|
  eip := r_eip r; esp := r_esp r; ebp := r_ebp r; eflags := r_eflags r;
  eax := r_eax r; ebx := r_ebx r; ecx := r_ecx r; edx := r_edx r; esi := r_esi r; edi := r_edi r;
  cs := r_cs r; ss := r_ss r; unused := 0
|}.
Lemma copied_saved r : copy_registers r = saved_registers r.
Proof. reflexivity. Qed.

(** What switch_process makes of the process it leaves. *)
Definition paused (r : int_registers) (x : process_t) : process_t :=
  set_regs (saved_registers r) (if decide (state x = PROCESS_RUNNING) then set_state PROCESS_READY x else x).
Definition leave (r : int_registers) (c : Z) (m : gmap Z process_t) : gmap Z process_t := alter (paused r) c m.

Lemma leave_eq r c m x : m !! c = Some x → leave r c m = <[c := paused r x]> m.
Proof. intros E. unfold leave. apply map_eq. intros q. rewrite lookup_alter, lookup_insert. case_decide; subst; by rewrite ?E. Qed.

Lemma update_proc_done p f x s :
  datas s !! p = Some x →
  ∃ m, update_proc p f s = Done (tt, set_nodes m s) ∧ links (set_nodes m s) = links s ∧
       datas (set_nodes m s) = <[p := f x]> (datas s).
Proof.
  intros Hx. assert (wp (update_proc p f) (λ _ s', ∃ m, s' = set_nodes m s ∧ links s' = links s ∧
    datas s' = <[p := f x]> (datas s)) s) as (a & s' & E & m & -> & Hl & Hd)%wp_done.
  { eapply wp_update_proc; [done|]. eauto. }
  destruct a. by exists m.
Qed.

(** Up to the walk: the current process is put aside. *)
Lemma choose_leave fuel r s c qs :
  ring s c qs → current_process_g s = c →
  ∃ m, choose_process_within fuel r s =
         (_ ← next_ready fuel; current ← gets current_process_g;
          _ ← update_proc current (set_state PROCESS_RUNNING); mret true) (set_nodes m s) ∧
       links (set_nodes m s) = links s ∧ datas (set_nodes m s) = leave r c (datas s).
Proof.
  intros Hr Hc. destruct (ring_member _ _ _ c Hr) as [Hc0 [x Hx]]; [set_solver|].
  assert (process_list_head s ≠ 0) as Hh.
  { destruct Hr as (l & q & Hl & _). rewrite (pl_head _ _ Hl). pose proof (pl_null _ _ Hl).
    destruct l as [|a l]; cbn; set_solver. }
  set (y := if decide (state x = PROCESS_RUNNING) then set_state PROCESS_READY x else x).
  assert (∃ n m1, node c s = Done (n, s) ∧
    (if decide (state (proc n) = PROCESS_RUNNING) then update_proc c (set_state PROCESS_READY) else mret tt) s
      = Done (tt, set_nodes m1 s) ∧
    links (set_nodes m1 s) = links s ∧ datas (set_nodes m1 s) = <[c := y]> (datas s)) as (n & m1 & En & E1 & L1 & D1).
  { pose proof Hx as Hx'. rewrite datas_lookup in Hx'. apply fmap_Some in Hx' as (n & Hn & ->). exists n. subst y.
    assert (node c s = Done (n, s)) as En by (unfold node; by rewrite Hn). destruct (decide _).
    - destruct (update_proc_done c (set_state PROCESS_READY) _ s Hx) as (m & ? & ? & ?). by exists m.
    - exists (nodes s). rewrite insert_id by done. by destruct s. }
  destruct (update_proc_done c (set_regs (copy_registers r)) y (set_nodes m1 s)) as (m2 & E2 & L2 & D2).
  { rewrite D1. apply lookup_insert_eq. }
  rewrite copied_saved in E2, D2. exists m2. split; [|split].
  - unfold choose_process_within. rewrite (bind_done _ _ s _ s eq_refl), decide_False by done.
    rewrite (bind_done _ _ s _ s eq_refl), Hc, decide_False by done. unfold mbind, M_bind.
    unfold mbind, M_bind in *. rewrite copied_saved, En, E1, E2. done.
  - etrans; [exact L2|exact L1].
  - etrans; [exact D2|]. by rewrite D1, insert_insert_eq, (leave_eq _ _ _ _ Hx).
Qed.

Lemma wp_choose fuel r s c qs pre p post (Q : bool → procs → Prop) :
  ring s c qs → current_process_g s = c → qs ++ [c] = pre ++ p :: post →
  Forall (λ q, ¬ is_ready (leave r c (datas s)) q) pre → is_ready (leave r c (datas s)) p →
  (length pre < fuel)%nat →
  (∀ s', ring s' p (post ++ pre) → current_process_g s' = p →
     datas s' = alter (set_state PROCESS_RUNNING) p (leave r c (datas s)) → Q true s') →
  wp (choose_process_within fuel r) Q s.
Proof.
  intros Hr Hc E Hpre Hp Hf HQ. destruct (choose_leave fuel r s c qs) as (m & Em & Hl & Hd); [done..|].
  unfold wp. rewrite Em. apply wp_bind.
  rewrite <-Hd in Hpre, Hp, HQ.
  assert (ring (set_nodes m s) c qs) as Hr' by (by eapply ring_ext).
  eapply (wp_next_ready_rounds _ c qs pre p post); try done.
  apply wp_bind, wp_gets, wp_bind. destruct Hp as (y & Hy & _). cbn [current_process_g set_current].
  eapply wp_update_proc; [exact Hy|]. intros m3 Hl3 Hd3. apply wp_ret. apply HQ; [|done|].
  - eapply ring_turns; [|done]. by eapply ring_ext.
  - etrans; [exact Hd3|]. change (datas (set_current p (set_nodes m s))) with (datas (set_nodes m s)).
    apply map_eq. intros q. rewrite lookup_alter, lookup_insert. by rewrite Hy.
Qed.

(** With no READY process in the ring the walk never ends. *)
Lemma next_ready_never s c qs fuel :
  ring s c qs → current_process_g s = c → Forall (λ q, ¬ is_ready (datas s) q) (c :: qs) →
  next_ready fuel s = Timeout.
Proof.
  unfold next_ready. revert s c qs. induction fuel as [|fuel IH]; intros s c qs Hr Hc Hn; [done|].
  assert (∃ q qs', hd c qs = q ∧ ring s q qs' ∧ Forall (λ q, ¬ is_ready (datas s) q) (q :: qs')) as (q & qs' & E & Hr' & Hn').
  { destruct qs as [|q qs]; [by exists c, []|]. exists q, (qs ++ [c]). split; [done|].
    split; [by apply ring_turn|]. rewrite !Forall_cons_iff, Forall_app in *. naive_solver. }
  assert (next_ready_round tt s = Done (inl tt, set_current q s)) as Eq.
  { assert (wp (next_ready_round tt) (λ x s', x = inl tt ∧ s' = set_current q s) s) as (a & s' & -> & -> & ->)%wp_done; [|done].
    unfold next_ready_round. apply wp_bind, wp_gets, wp_bind. rewrite Hc. eapply wp_ring_step; [done|].
    rewrite E. apply wp_bind, wp_modify, wp_bind. destruct (ring_member _ _ _ q Hr') as [_ [x Hx]]; [set_solver|].
    eapply wp_proc; [exact Hx|]. intros n _ ->. rewrite decide_True; [by apply wp_ret|].
    intros Hs. apply Forall_cons_iff in Hn' as [Hq _]. apply Hq. by exists x. }
  rewrite (iter_step _ _ _ _ _ _ Eq). apply (IH _ q qs'); [by apply ring_current|done|done].
Qed.

(** *** The list *)

(** Nothing but the list has changed. *)
Record relinked (s s' : procs) : Prop := {
  rl_datas : datas s' = datas s;
  rl_next_pid : next_pid s' = next_pid s;
  rl_current : current_process_g s' = current_process_g s;
  rl_run : run_processes s' = run_processes s;
  rl_initialized : manage_initialized s' = manage_initialized s;
}.

Lemma wp_relink p f n (Q : unit → procs → Prop) s :
  nodes s !! p = Some n → proc (f n) = proc n →
  (∀ m, m !! p = Some (f n) → links (set_nodes m s) = <[p := (next (f n), prev (f n))]> (links s) →
        datas (set_nodes m s) = datas s → (∀ q, q ≠ p → m !! q = nodes s !! q) → Q tt (set_nodes m s)) →
  wp (update_node p f) Q s.
Proof.
  intros En Ep HQ. eapply wp_update_node; [done|]. apply HQ.
  - apply lookup_insert_eq.
  - apply links_link.
  - by apply (datas_link _ _ n).
  - intros q Hq. by apply lookup_insert_ne.
Qed.

Lemma wp_add s ps p n (Q : unit → procs → Prop) :
  plist s ps → p ≠ 0 → p ∉ ps → nodes s !! p = Some n →
  (∀ s', plist s' (ps ++ [p]) → relinked s s' → Q tt s') →
  wp (add_to_linked_list p) Q s.
Proof.
  intros Hp Hp0 Hin En HQ. unfold add_to_linked_list. rewrite decide_False by done. apply wp_bind.
  eapply wp_relink; [done..|]. intros m1 E1 L1 D1 K1. apply wp_bind.
  eapply wp_relink; [exact E1|done|]. intros m2 E2 L2 D2 K2. rewrite L1, insert_insert_eq in L2.
  change (set_nodes m2 (set_nodes m1 s)) with (set_nodes m2 s) in *. cbn [set_prev set_next next prev] in *.
  apply wp_bind, wp_gets. change (process_list_head (set_nodes m2 s)) with (process_list_head s).
  pose proof (pl_null _ _ Hp) as Hnull.
  assert (NoDup (ps ++ [p])) as Hnd.
  { apply list.NoDup_app. split; [apply (pl_nodup _ _ Hp)|]. split; [set_solver|]. apply NoDup_singleton. }
  assert (0 ∉ ps ++ [p]) as Hnz by set_solver. rewrite (pl_head _ _ Hp).
  destruct ps as [|z qs _] using rev_ind; cbn [hd].
  - rewrite decide_True by done. apply wp_bind, wp_modify, wp_modify.
    apply HQ; split; try done; [|rewrite <-D1; exact D2]. split; [|done].
    change (links (set_nodes m2 s) !! p = Some (0, 0)). rewrite L2. apply lookup_insert_eq.
  - rewrite decide_False by (destruct qs; cbn; set_solver). apply wp_bind, wp_gets.
    change (process_list_tail (set_nodes m2 s)) with (process_list_tail s).
    rewrite (pl_tail _ _ Hp), last_node_app. cbn [last_node].
    pose proof (pl_links _ _ Hp) as [Hqs [Hz _]]%node_seg_app. cbn [hd] in Hqs, Hz.
    pose proof Hz as Hz'. rewrite links_lookup in Hz'. apply fmap_Some in Hz' as (nz & Enz & [= Nz Pz]).
    apply wp_bind. eapply wp_relink; [cbn; rewrite K2, K1 by set_solver; exact Enz|done|]. intros m3 E3 L3 D3 K3.
    apply wp_bind. eapply wp_relink; [cbn; rewrite K3 by set_solver; exact E2|done|]. intros m4 E4 L4 D4 K4.
    rewrite L3, L2 in L4. cbn [set_prev set_next next prev] in *.
    apply wp_modify. apply HQ; [|split; [|done..]; by trans (datas (set_nodes m3 (set_nodes m2 s))); [exact D4|rewrite D3, D2]].
    pose proof (pl_nodup _ _ Hp) as (_ & Hzq & _)%list.NoDup_app.
    split; [done|done|by cbn; rewrite (pl_head _ _ Hp); destruct qs|by rewrite last_node_app|].
    change (links (set_tail p _)) with (links (set_nodes m4 (set_nodes m3 (set_nodes m2 s)))). rewrite L4.
    rewrite <-app_assoc. apply node_seg_app. cbn [app seg hd]. rewrite <-Pz.
    split; [by repeat (apply node_seg_frame; [set_solver|])|].
    rewrite lookup_insert_ne, !lookup_insert_eq by set_solver. done.
Qed.

(** Only pointers of nodes of [ps] have changed. *)
Record patched (ps : list Z) (s s' : procs) : Prop := {
  pa_relinked : relinked s s';
  pa_head : process_list_head s' = process_list_head s;
  pa_tail : process_list_tail s' = process_list_tail s;
  pa_others q : q ∉ ps → nodes s' !! q = nodes s !! q;
}.
#[export] Instance relinked_refl : Reflexive relinked.
Proof. done. Qed.
#[export] Instance relinked_trans : Transitive relinked.
Proof. intros s t u [] []. split; congruence. Qed.

Lemma node_seg_ext m m' pp ps nx : (∀ q, q ∈ ps → m' !! q = m !! q) → seg m pp ps nx → seg m' pp ps nx.
Proof.
  revert pp. induction ps as [|q ps IH]; intros pp Hm; cbn [seg]; [done|]. intros [Hq Hs].
  split; [rewrite Hm by set_solver; done|]. apply IH; [set_solver|done].
Qed.
Lemma seg_patched ps qs pp nx s s' : patched ps s s' → (∀ q, q ∈ qs → q ∉ ps) → seg (links s) pp qs nx → seg (links s') pp qs nx.
Proof.
  intros Hpa Hd. apply node_seg_ext. intros q Hq. rewrite !links_lookup. f_equal. apply (pa_others _ _ _ Hpa). auto.
Qed.

Lemma patched_set_nodes ps p m s :
  p ∈ ps → datas (set_nodes m s) = datas s → (∀ q, q ≠ p → m !! q = nodes s !! q) → patched ps s (set_nodes m s).
Proof. intros Hp Hd Hm. split; [split; done|done..|]. intros q Hq. apply Hm. set_solver. Qed.

(** [if (prev) prev->next = x], and [if (next) next->prev = x]. *)
Lemma wp_patch_next l nx x (Q : unit → procs → Prop) s :
  seg (links s) 0 l nx → NoDup l → 0 ∉ l →
  (∀ s', patched l s s' → seg (links s') 0 l x → Q tt s') →
  wp (if decide (last_node 0 l ≠ 0) then update_node (last_node 0 l) (set_next x) else mret tt) Q s.
Proof.
  intros Hs Hn H0 HQ. destruct l as [|z l _] using rev_ind.
  - rewrite decide_False by (cbn; lia). apply wp_ret, HQ; [|done]. split; done.
  - rewrite last_node_app. cbn [last_node]. rewrite decide_True by set_solver.
    apply node_seg_app in Hs as [Hl [Hz _]]. cbn [hd] in *.
    rewrite links_lookup in Hz. apply fmap_Some in Hz as (n & En & [= _ Hpv]).
    apply list.NoDup_app in Hn as (_ & Hzl & _).
    eapply wp_relink; [done..|]. intros m Em Lm Dm Km. apply HQ.
    + apply (patched_set_nodes _ z); [set_solver|done..].
    + rewrite Lm. apply node_seg_app. split; [apply node_seg_frame; [set_solver|done]|].
      cbn [seg hd]. rewrite lookup_insert_eq. cbn. by rewrite <-Hpv.
Qed.

Lemma wp_patch_prev r pp x (Q : unit → procs → Prop) s :
  seg (links s) pp r 0 → NoDup r → 0 ∉ r →
  (∀ s', patched r s s' → seg (links s') x r 0 → Q tt s') →
  wp (if decide (hd 0 r ≠ 0) then update_node (hd 0 r) (set_prev x) else mret tt) Q s.
Proof.
  intros Hs Hn H0 HQ. destruct r as [|y r]; cbn [hd].
  - rewrite decide_False by lia. apply wp_ret, HQ; [|done]. split; done.
  - rewrite decide_True by set_solver. destruct Hs as [Hy Hr].
    rewrite links_lookup in Hy. apply fmap_Some in Hy as (n & En & [= Hnx _]).
    apply NoDup_cons in Hn as [Hyr _].
    eapply wp_relink; [done..|]. intros m Em Lm Dm Km. apply HQ.
    + apply (patched_set_nodes _ y); [set_solver|done..].
    + rewrite Lm. cbn [seg]. rewrite lookup_insert_eq. cbn. rewrite <-Hnx. split; [done|].
      by apply node_seg_frame.
Qed.

(** The head and the tail of the list without [p]. *)
Lemma wp_unhead s l p r (Q : unit → procs → Prop) :
  plist s (l ++ p :: r) → Q tt (set_head (hd 0 (l ++ r)) s) →
  wp (if decide (p = process_list_head s) then modify (set_head (hd 0 r)) else mret tt) Q s.
Proof.
  intros Hp HQ. pose proof (pl_head _ _ Hp) as E. rewrite E. destruct l as [|a l]; cbn [app hd] in *.
  - rewrite decide_True by done. by apply wp_modify.
  - pose proof (pl_nodup _ _ Hp) as [Ha _]%NoDup_cons. rewrite decide_False by set_solver.
    apply wp_ret. rewrite <-E in HQ. by destruct s.
Qed.
Lemma wp_untail s l p r (Q : unit → procs → Prop) s1 :
  plist s (l ++ p :: r) → (let s1 := set_head s1 s in Q tt (set_tail (last_node 0 (l ++ r)) s1)) →
  wp (if decide (p = process_list_tail (set_head s1 s)) then modify (set_tail (last_node 0 l)) else mret tt) Q
    (set_head s1 s).
Proof.
  intros Hp HQ. cbn [process_list_tail set_head]. pose proof (pl_tail _ _ Hp) as E. rewrite E.
  pose proof (pl_nodup _ _ Hp) as Hn. rewrite !last_node_app in *. cbn [last_node] in *.
  destruct r as [|b r _] using rev_ind; rewrite ?last_node_app in *; cbn [last_node] in *.
  - rewrite decide_True by done. by apply wp_modify.
  - apply list.NoDup_app in Hn as (_ & _ & [Hn _]%NoDup_cons). rewrite decide_False by set_solver.
    apply wp_ret. rewrite <-E in HQ. by destruct s.
Qed.

Lemma wp_remove s l p r (Q : Z → procs → Prop) :
  plist s (l ++ p :: r) → (∀ s', plist s' (l ++ r) → relinked s s' → Q 0 s') →
  wp (remove_from_linked_list p) Q s.
Proof.
  intros Hp HQ. pose proof (pl_null _ _ Hp) as H0. pose proof (pl_nodup _ _ Hp) as Hn.
  pose proof (pl_links _ _ Hp) as [Hl [Hx Hr]]%node_seg_app. cbn [hd] in Hl.
  pose proof Hx as Hx'. rewrite links_lookup in Hx'. apply fmap_Some in Hx' as (n & En & [= Enx Epv]).
  apply list.NoDup_app in Hn as (Hnl & Hd & [Hpr Hnr]%NoDup_cons).
  assert (p ∉ l) as Hpl by set_solver.
  unfold remove_from_linked_list. rewrite decide_False by set_solver. apply wp_bind, wp_gets.
  apply wp_bind. eapply wp_node; [done|]. apply wp_bind.
  rewrite <-Enx, <-Epv. eapply (wp_unhead s l p r); [done|]. apply wp_bind, wp_gets, wp_bind.
  eapply (wp_untail s l p r); [done|]. cbv zeta; set (s2 := set_tail (last_node 0 (l ++ r)) (set_head (hd 0 (l ++ r)) s)). apply wp_bind.
  eapply (wp_patch_next l p); [done|done|set_solver|].
  intros s3 Hpa Hl3. apply wp_bind. eapply wp_node; [rewrite (pa_others _ _ _ Hpa) by done; exact En|].
  rewrite <-Epv, <-Enx. apply wp_bind. eapply (wp_patch_prev r p).
  { eapply seg_patched; [exact Hpa|set_solver|done]. }
  { done. } { set_solver. }
  intros s4 Hpb Hr4. apply wp_ret. apply HQ.
  - split.
    + apply list.NoDup_app. set_solver.
    + set_solver.
    + rewrite (pa_head _ _ _ Hpb), (pa_head _ _ _ Hpa). done.
    + rewrite (pa_tail _ _ _ Hpb), (pa_tail _ _ _ Hpa). done.
    + apply node_seg_app. split; [|done]. eapply seg_patched; [exact Hpb|set_solver|done].
  - trans s2; [done|]. trans s3; [apply Hpa|apply Hpb].
Qed.

(** ** Bounded waiting

    A process that is READY and stays so is run after at most as many switches
    as there are processes before it.  Between two switches the processes may do
    anything that leaves the list, the current process and the watched process's
    readiness alone. *)

Record quiet (p : Z) (s t : procs) : Prop := {
  qu_links : links t = links s;
  qu_head : process_list_head t = process_list_head s;
  qu_tail : process_list_tail t = process_list_tail s;
  qu_current : current_process_g t = current_process_g s;
  qu_ready : is_ready (datas t) p;
}.

(** [n] switches, none of which ran [p]. *)
Inductive passes_over (p : Z) : nat → procs → procs → Prop :=
| passes_none s : passes_over p 0 s s
| passes_switch n s t u r v :
    passes_over p n s t → quiet p t u → choose_process r u = Done (true, v) →
    current_process_g v ≠ p → passes_over p (S n) s v.

(** The first READY process of a list that has one. *)
Lemma first_ready m (p : Z) qs :
  is_ready m p → p ∈ qs →
  ∃ pre q post, qs = pre ++ q :: post ∧ is_ready m q ∧ Forall (λ q, ¬ is_ready m q) pre.
Proof.
  intros Hp. induction qs as [|q qs IH]; [set_solver|]. intros Hin.
  destruct (decide (is_ready m q)) as [Hq|Hq]; [by exists [], q, qs|].
  destruct IH as (pre & q' & post & -> & Hq' & Hpre).
  - apply elem_of_cons in Hin as [->|?]; done.
  - exists (q :: pre), q', post. auto.
Qed.

Lemma is_ready_alter_ne f q p m : q ≠ p → is_ready (alter f q m) p ↔ is_ready m p.
Proof. intros. unfold is_ready. by rewrite lookup_alter_ne. Qed.

(** One switch with a READY process at distance [length pre]: it runs, or
    someone before it does and the distance shrinks. *)
Lemma wp_choose_ready r s c pre p post (Q : bool → procs → Prop) :
  ring s c (pre ++ p :: post) → current_process_g s = c → is_ready (datas s) p → (length pre < WALK_FUEL)%nat →
  (∀ s' q, current_process_g s' = q →
     (q = p ∨ ∃ pre' post', ring s' q (pre' ++ p :: post') ∧ is_ready (datas s') p ∧ (length pre' < length pre)%nat) →
     Q true s') →
  wp (choose_process r) Q s.
Proof.
  intros Hr Hc Hp Hf HQ. pose proof (ring_nodup _ _ _ Hr) as [Hcp Hnd]%NoDup_cons.
  assert (is_ready (leave r c (datas s)) p) as Hp' by (apply is_ready_alter_ne; [set_solver|done]).
  destruct (first_ready _ p (pre ++ [p]) Hp') as (a & q & b & E & Hq & Ha); [set_solver|].
  assert (length a ≤ length pre)%nat as Hla.
  { apply (f_equal length) in E. rewrite !length_app in E. simpl in E. lia. }
  unfold choose_process. eapply (wp_choose _ r s c _ a q (b ++ post ++ [c])); try done.
  - change (p :: post) with ([p] ++ post). rewrite !app_assoc, E, <-!app_assoc. done.
  - lia.
  - intros s' Hr' Hc' Hd'. apply (HQ s' q Hc').
    destruct b as [|x b _] using rev_ind; [left; by apply app_inj_tail in E as [_ ->]|right].
    change (a ++ q :: b ++ [x]) with (a ++ (q :: b) ++ [x]) in E. rewrite app_assoc in E.
    apply app_inj_tail in E as [-> <-]. exists b, (post ++ [c] ++ a). split; [|split].
    + rewrite <-!app_assoc in Hr'. done.
    + rewrite Hd'. apply is_ready_alter_ne; [|done]. apply list.NoDup_app in Hnd. set_solver.
    + rewrite length_app. simpl. lia.
Qed.

Lemma passes_over_distance p n s v c pre post :
  passes_over p n s v → ring s c (pre ++ p :: post) → current_process_g s = c → (length pre < WALK_FUEL)%nat →
  is_ready (datas s) p →
  ∃ pre' post', ring v (current_process_g v) (pre' ++ p :: post') ∧ is_ready (datas v) p ∧ (length pre' + n ≤ length pre)%nat.
Proof.
  intros Hpo Hr Hc Hl Hp. induction Hpo as [s|n s t u r v Hpo IH Hq E Hne].
  - exists pre, post. rewrite Hc. split; [done|]. split; [done|lia].
  - destruct IH as (pre' & post' & Hr' & Hp' & Hl'); [done..|].
    assert (wp (choose_process r) (λ _ v, current_process_g v = p ∨ ∃ pre'' post'',
      ring v (current_process_g v) (pre'' ++ p :: post'') ∧ is_ready (datas v) p ∧ (length pre'' < length pre')%nat) u) as Hw.
    { eapply (wp_choose_ready r u (current_process_g t) pre' p post').
      - eapply ring_ext; [done|apply Hq..].
      - apply Hq.
      - apply Hq.
      - lia.
      - intros s' q Hcur [->|Hx]; [by left|right]. by rewrite Hcur. }
    unfold wp in Hw. rewrite E in Hw. destruct Hw as [?|(pre'' & post'' & ?&?&?)]; [done|].
    exists pre'', post''. split; [done|]. split; [done|lia].
Qed.

(** ** Properties *)

(** C29: wake_up_terminal_processes goes once round the list and ends: every process
    of the list that was blocked on the terminal is READY, every other process,
    the list and the current process are as before. *)
Theorem wake_up_terminal_processes_wakes s c qs tid :
  ring s c qs → current_process_g s = c → (length qs < WALK_FUEL)%nat →
  wp (wake_up_terminal_processes tid)
     (λ _ s', ring s' c qs ∧ current_process_g s' = c ∧
        ∀ p, datas s' !! p = (λ x, if bool_decide (p ∈ c :: qs) && blocked_on tid x
                                   then set_state PROCESS_READY x else x) <$> datas s !! p) s.
Proof.
  intros Hr Hc Hl. unfold wake_up_terminal_processes. wp_steps. rewrite Hc.
  apply (wp_wake_ring _ _ s c qs); try done. intros m Hlk Hd. split; [by eapply ring_ext|]. split; [done|].
  intros p. rewrite Hd, woken_all_lookup. destruct (datas s !! p) as [x|]; [|done]. cbn. unfold wake_if.
  by case_bool_decide; case_decide.
Qed.

(** C26: add_to_linked_list puts a node that is not in the list at its end, and
    remove_from_linked_list takes a node out wherever it stands: head, tail and
    the pointers both ways are those of the resulting list, and no process
    changes. *)
Theorem process_list_operations s l r p n :
  p ≠ 0 → nodes s !! p = Some n →
  (plist s (l ++ r) → p ∉ l ++ r →
     wp (add_to_linked_list p) (λ _ s', plist s' ((l ++ r) ++ [p]) ∧ relinked s s') s) ∧
  (plist s (l ++ p :: r) →
     wp (remove_from_linked_list p) (λ z s', z = 0 ∧ plist s' (l ++ r) ∧ relinked s s') s).
Proof.
  intros Hp0 En. split.
  - intros Hp Hin. by eapply wp_add.
  - intros Hp. by eapply wp_remove.
Qed.

(** A switch is round robin: it saves the registers of the current process,
    makes it READY if it was running, and runs the first READY process after it
    in the order of the list, which becomes the current one and RUNNING; no other
    process changes, and the list seen from the new process is the old one
    turned. *)
Theorem choose_process_round_robin r s c qs pre p post :
  ring s c qs → current_process_g s = c → qs ++ [c] = pre ++ p :: post →
  Forall (λ q, ¬ is_ready (leave r c (datas s)) q) pre → is_ready (leave r c (datas s)) p →
  (length pre < WALK_FUEL)%nat →
  wp (choose_process r)
     (λ b s', b = true ∧ ring s' p (post ++ pre) ∧ current_process_g s' = p ∧
              datas s' = alter (set_state PROCESS_RUNNING) p (leave r c (datas s))) s.
Proof. intros. unfold choose_process. by eapply wp_choose. Qed.

(** C25: Bounded waiting, as long as no process is created or exits: when [p] is
    READY and [k] processes stand between the current one and it, at most [k]
    switches pass over it, and the next switch never hangs and, after [k] of them,
    runs [p].  Between two switches the state and the data of any process may change,
    as long as [p] stays READY; the list and the current process may not ([quiet]):
    a process appended in front of [p] would come before it. *)
Theorem ready_process_is_run s c pre p post n v u r :
  ring s c (pre ++ p :: post) → current_process_g s = c → (length pre < WALK_FUEL)%nat → is_ready (datas s) p →
  passes_over p n s v → quiet p v u →
  (n ≤ length pre)%nat ∧ wp (choose_process r) (λ b w, b = true ∧ (n = length pre → current_process_g w = p)) u.
Proof.
  intros Hr Hc Hl Hp Hpo Hq.
  destruct (passes_over_distance _ _ _ _ _ _ _ Hpo Hr Hc Hl Hp) as (pre' & post' & Hr' & Hp' & Hl').
  split; [lia|]. eapply (wp_choose_ready r u (current_process_g v) pre' p post'); [|apply Hq..|lia|].
  - eapply ring_ext; [done|apply Hq..].
  - intros s' q Hcur Hx. split; [done|]. intros ->. destruct Hx as [->|(? & ? & _ & _ & ?)]; [done|lia].
Qed.

(** When no process of the list is READY after the current one is put aside,
    switch_process never returns, whatever the bound on its loop: a process that
    blocks for input while every other one waits stops the machine, since the
    loop runs inside an interrupt handler. *)
Theorem switch_process_hangs r s c qs fuel :
  ring s c qs → current_process_g s = c →
  Forall (λ q, ¬ is_ready (leave r c (datas s)) q) (c :: qs) →
  choose_process_within fuel r s = Timeout.
Proof.
  intros Hr Hc Hn. destruct (choose_leave fuel r s c qs) as (m & E & Hl & Hd); [done..|].
  rewrite E. unfold mbind, M_bind. erewrite (next_ready_never _ c qs); [done|by eapply ring_ext|done|by rewrite Hd].
Qed.

(** ** Witnesses: a shell that runs, a process blocked on the terminal, one that
    is ready and one that waits for process 3 *)

Lemma WALK_FUEL_big n : (n ≤ 1000)%nat → (n < WALK_FUEL)%nat.
Proof. intros. unfold WALK_FUEL. lia. Qed.

Module Demo.
Definition process (i w : Z) (t : process_state_t) : process_t :=
  Proc i 1 w false (47 :: replicate 255 0) (0xC2000000 + 4096 * i) (0xC3000000 + 8192 * i) 0x8000 t
    (replicate 128 zero_fd) zero_regs.
Definition state : procs := Procs
  (list_to_map [(1000, Node (process 1 0 PROCESS_RUNNING) 2000 0); (2000, Node (process 2 0 PROCESS_BLOCKED) 3000 1000);
                (3000, Node (process 3 0 PROCESS_READY) 4000 2000); (4000, Node (process 4 3 PROCESS_WAITING) 0 3000);
                (5000, Node (process 5 0 PROCESS_READY) 7 9)])
  1000 4000 6 1000 true true.
(** The same list after a line was typed: process 2 is READY. *)
Definition typed : procs := Procs
  (list_to_map [(1000, Node (process 1 0 PROCESS_RUNNING) 2000 0); (2000, Node (process 2 0 PROCESS_READY) 3000 1000);
                (3000, Node (process 3 0 PROCESS_READY) 4000 2000); (4000, Node (process 4 3 PROCESS_WAITING) 0 3000);
                (5000, Node (process 5 0 PROCESS_READY) 7 9)])
  1000 4000 6 1000 true true.
(** The same list when the running process has just blocked and no other is ready. *)
Definition stuck : procs := Procs
  (list_to_map [(1000, Node (process 1 0 PROCESS_BLOCKED) 2000 0); (2000, Node (process 2 1 PROCESS_WAITING) 0 1000)])
  1000 2000 3 1000 true true.
Definition timer_frame : int_registers := IntRegs 16 1 2 3 0xC3002000 4 5 6 7 32 0 0x8000 0x1B 0x202 0xBFFFE000 0x23.

(** The switch after it. *)
Definition switched : procs := match choose_process timer_frame typed with Done (_, s) => s | _ => typed end.

Lemma state_list : plist state [1000; 2000; 3000; 4000].
Proof.
  split; [by_decide|by_decide|done|done|]. cbn [seg hd]. split_and!; by_decide || done.
Qed.
Lemma state_ring : ring state 1000 [2000; 3000; 4000].
Proof. exists [], [2000; 3000; 4000]. split; [apply state_list|done]. Qed.
Lemma stuck_ring : ring stuck 1000 [2000].
Proof.
  exists [], [2000]. split; [|done]. split; [by_decide|by_decide|done|done|]. cbn [seg hd]. split_and!; by_decide || done.
Qed.
Lemma ready_3 : is_ready (datas state) 3000.
Proof. eexists. split; [vm_compute; reflexivity|done]. Qed.
End Demo.

Lemma wake_up_terminal_processes_wakes_witness :
  (length [2000; 3000; 4000] < WALK_FUEL)%nat ∧
  wp (wake_up_terminal_processes 1)
     (λ _ s', ring s' 1000 [2000; 3000; 4000] ∧ current_process_g s' = 1000 ∧
        ∀ p, datas s' !! p = (λ x, if bool_decide (p ∈ [1000; 2000; 3000; 4000]) && blocked_on 1 x
                                   then set_state PROCESS_READY x else x) <$> datas Demo.state !! p) Demo.state.
Proof.
  split; [apply WALK_FUEL_big; simpl; lia|].
  apply (wake_up_terminal_processes_wakes Demo.state 1000 [2000; 3000; 4000] 1 Demo.state_ring eq_refl).
  apply WALK_FUEL_big. simpl. lia.
Defined.

Lemma process_list_operations_witness :
  (5000 ∉ [1000; 2000] ++ [3000; 4000]) ∧
  wp (add_to_linked_list 5000)
    (λ _ s', plist s' (([1000; 2000] ++ [3000; 4000]) ++ [5000]) ∧ relinked Demo.state s') Demo.state ∧
  wp (remove_from_linked_list 3000) (λ z s', z = 0 ∧ plist s' ([1000; 2000] ++ [4000]) ∧ relinked Demo.state s') Demo.state.
Proof.
  assert (5000 ∉ [1000; 2000] ++ [3000; 4000]) as Hin by by_decide. split; [exact Hin|]. split.
  - refine (proj1 (process_list_operations Demo.state [1000; 2000] [3000; 4000] 5000 _ ltac:(lia) _) Demo.state_list Hin).
    vm_compute. reflexivity.
  - refine (proj2 (process_list_operations Demo.state [1000; 2000] [4000] 3000 _ ltac:(lia) _) Demo.state_list).
    vm_compute. reflexivity.
Defined.

Lemma choose_process_round_robin_witness :
  wp (choose_process Demo.timer_frame)
     (λ b s', b = true ∧ ring s' 3000 ([4000; 1000] ++ [2000]) ∧ current_process_g s' = 3000 ∧
        datas s' = alter (set_state PROCESS_RUNNING) 3000 (leave Demo.timer_frame 1000 (datas Demo.state))) Demo.state.
Proof.
  apply (choose_process_round_robin Demo.timer_frame Demo.state 1000 [2000; 3000; 4000] [2000] 3000 [4000; 1000]
    Demo.state_ring eq_refl eq_refl).
  - repeat constructor. by_decide.
  - by_decide.
  - apply WALK_FUEL_big. simpl. lia.
Defined.

(** Process 2 is READY at the first switch and runs; process 3 is next. *)
Lemma ready_process_is_run_witness :
  (1 ≤ length [2000])%nat ∧
  wp (choose_process Demo.timer_frame) (λ b w, b = true ∧ (1%nat = length [2000] → current_process_g w = 3000)) Demo.switched.
Proof.
  apply (ready_process_is_run Demo.state 1000 [2000] 3000 [4000] 1 Demo.switched Demo.switched Demo.timer_frame
    Demo.state_ring eq_refl).
  - apply WALK_FUEL_big. simpl. lia.
  - apply Demo.ready_3.
  - apply (passes_switch 3000 0 Demo.state Demo.state Demo.typed Demo.timer_frame Demo.switched).
    + apply passes_none.
    + split; [by vm_compute|done|done|done|by_decide].
    + vm_compute. reflexivity.
    + by vm_compute.
  - split; [done..|by_decide].
Defined.

Lemma switch_process_hangs_witness :
  choose_process_within 100 Demo.timer_frame Demo.stuck = Timeout.
Proof.
  apply (switch_process_hangs Demo.timer_frame Demo.stuck 1000 [2000] 100 Demo.stuck_ring eq_refl).
  by_decide.
Defined.
