(* ===== verification/Vfs.v ===== *)
(** * The table of open files: filesystem/vfs/file.c and process_manager.h

    One entry per open file or device, shared by the descriptors of all
    processes; a pointer into the table is an index.  The function pointer
    [_read] is one of the two functions the kernel stores in it. *)

From S2P Require Import Prelude CString FatTable FatPath.

(** ** Definitions *)

Definition MAX_FD : Z := 256.

Inductive read_function := read_fat_fs | read_terminal_input.
#[export] Instance read_function_eq_dec : EqDecision read_function.
Proof. solve_decision. Defined.

Record global_file_descriptor := GlobalFd {
  g_read : option read_function;
  g_file : FileData;
  ref_count : Z;
  g_path : list Z;
  is_dir : bool;
  is_used : bool;
  is_device : bool }.

Definition zero_file : FileData := mkFileData FatTable.zero_entry FatTable.zero_entry.
Definition zero_global_fd : global_file_descriptor :=
  GlobalFd None zero_file 0 (replicate 256 0) false false false.
Definition global_fd_statics : list global_file_descriptor := replicate 256 zero_global_fd.

Definition gset_read (r : read_function) (g : global_file_descriptor) : global_file_descriptor :=
  GlobalFd (Some r) (g_file g) (ref_count g) (g_path g) (is_dir g) (is_used g) (is_device g).
Definition gset_file (f : FileData) (g : global_file_descriptor) : global_file_descriptor :=
  GlobalFd (g_read g) f (ref_count g) (g_path g) (is_dir g) (is_used g) (is_device g).
Definition gset_ref (n : Z) (g : global_file_descriptor) : global_file_descriptor :=
  GlobalFd (g_read g) (g_file g) n (g_path g) (is_dir g) (is_used g) (is_device g).
Definition gset_path (p : list Z) (g : global_file_descriptor) : global_file_descriptor :=
  GlobalFd (g_read g) (g_file g) (ref_count g) p (is_dir g) (is_used g) (is_device g).
Definition gset_dir (b : bool) (g : global_file_descriptor) : global_file_descriptor :=
  GlobalFd (g_read g) (g_file g) (ref_count g) (g_path g) b (is_used g) (is_device g).
Definition gset_used (b : bool) (g : global_file_descriptor) : global_file_descriptor :=
  GlobalFd (g_read g) (g_file g) (ref_count g) (g_path g) (is_dir g) b (is_device g).
Definition gset_device (b : bool) (g : global_file_descriptor) : global_file_descriptor :=
  GlobalFd (g_read g) (g_file g) (ref_count g) (g_path g) (is_dir g) (is_used g) b.

Abbreviation fds := (list global_file_descriptor).

(** [global_fd_table[i]], read and written. *)
Definition gfd (i : Z) : M fds global_file_descriptor := reads id i.
Definition update_gfd (i : Z) (f : global_file_descriptor → global_file_descriptor) : M fds unit :=
  g ← gfd i; writes id (λ t _, t) i (f g).

(** [for (int i = start; i < MAX_FD; i++)], [n] rounds to go. *)
Fixpoint find_opened (path : list Z) (i : Z) (n : nat) : M fds (option Z) :=
  match n with
  | O => mret None
  | S n' =>
      g ← gfd i;
      if is_used g then
        d ← liftO (strncmp (g_path g) path 256);
        if decide (d = 0) then mret (Some i) else find_opened path (i + 1) n'
      else find_opened path (i + 1) n'
  end.
Definition get_opened_fd (path : list Z) : M fds (option Z) := find_opened path 0 (Z.to_nat MAX_FD).

Fixpoint find_unused (i : Z) (n : nat) : M fds (option Z) :=
  match n with
  | O => mret None
  | S n' => g ← gfd i; if negb (is_used g) then mret (Some i) else find_unused (i + 1) n'
  end.

Definition allocate_global_fd (path : list Z) : M fds (option Z) :=
  found ← find_unused 0 (Z.to_nat MAX_FD);
  match found with
  | None => mret None
  | Some i =>
      _ ← update_gfd i (λ _, zero_global_fd);
      g ← gfd i;
      p ← liftO (strncpy (g_path g) path 255);
      _ ← update_gfd i (gset_path p);
      _ ← update_gfd i (gset_read read_fat_fs);
      _ ← update_gfd i (gset_device false);
      _ ← update_gfd i (gset_ref 1);
      mret (Some i)
  end.

Definition allocate_device_fd : M fds (option Z) :=
  found ← find_unused 0 (Z.to_nat MAX_FD);
  match found with
  | None => mret None
  | Some i =>
      _ ← update_gfd i (λ _, zero_global_fd);
      _ ← update_gfd i (gset_ref 1);
      _ ← update_gfd i (gset_device true);
      _ ← update_gfd i (gset_used true);
      mret (Some i)
  end.

(** ** Lemmas *)

Lemma wp_gfd i g (Q : global_file_descriptor → fds → Prop) t : aget t i = Some g → Q g t → wp (gfd i) Q t.
Proof. apply (wp_reads id). Qed.
Lemma wp_update_gfd i f g (Q : unit → fds → Prop) t :
  aget t i = Some g → Q tt (<[Z.to_nat i := f g]> t) → wp (update_gfd i f) Q t.
Proof.
  intros E HQ. apply wp_bind. eapply wp_gfd; [done|]. apply (wp_writes id); [|done]. by eapply (aget_lt_Some t).
Qed.
(** The same, when the entry was written last. *)
Lemma wp_update_last i f g (Q : unit → fds → Prop) t :
  0 ≤ i < zlen t → Q tt (<[Z.to_nat i := f g]> t) → wp (update_gfd i f) Q (<[Z.to_nat i := g]> t).
Proof.
  intros Hi HQ. eapply wp_update_gfd.
  - rewrite aget_insert by done. by rewrite decide_True.
  - by rewrite list_insert_insert_eq.
Qed.

Lemma find_unused_spec t i n :
  0 ≤ i → i + Z.of_nat n ≤ zlen t →
  ∃ r, find_unused i n t = Done (r, t) ∧
    match r with
    | Some k => i ≤ k < i + Z.of_nat n ∧ ∃ g, aget t k = Some g ∧ is_used g = false
    | None => True
    end ∧
    ∀ j g, i ≤ j < default (i + Z.of_nat n) r → aget t j = Some g → is_used g = true.
Proof.
  revert i. induction n as [|n IH]; intros i Hi Hl; cbn [find_unused].
  - exists None. split; [done|]. split; [done|]. simpl. lia.
  - destruct (aget_is_Some t i) as [g Hg]; [lia|]. unfold mbind, M_bind, gfd, reads, id. rewrite Hg.
    destruct (is_used g) eqn:E; cbn [negb].
    + destruct (IH (i + 1)) as (r & -> & Hr & Hall); [lia..|]. exists r. split; [done|]. split.
      * destruct r; [|done]. destruct Hr as [? ?]. split; [lia|done].
      * intros j g' Hj Hg'. destruct (decide (j = i)) as [->|]; [congruence|]. apply (Hall j); [|done].
        destruct r; simpl in *; lia.
    + exists (Some i). split; [done|]. split; [split; [lia|by exists g]|]. simpl. lia.
Qed.

(** What a new entry for a path looks like. *)
Definition file_fd (p : list Z) : global_file_descriptor :=
  GlobalFd (Some read_fat_fs) zero_file 1 p false false false.
Definition device_fd : global_file_descriptor := GlobalFd None zero_file 1 (replicate 256 0) false true true.

Lemma wp_allocate_global_fd path p (Q : option Z → fds → Prop) t :
  length t = 256%nat → strncpy (replicate 256 0) path 255 = Done p →
  (∀ k g, aget t k = Some g → is_used g = false → (∀ j h, 0 ≤ j < k → aget t j = Some h → is_used h = true) →
     Q (Some k) (<[Z.to_nat k := file_fd p]> t)) →
  ((∀ j g, aget t j = Some g → is_used g = true) → Q None t) →
  wp (allocate_global_fd path) Q t.
Proof.
  intros Hl Hp HS HN. unfold allocate_global_fd. apply wp_bind.
  destruct (find_unused_spec t 0 (Z.to_nat MAX_FD)) as (r & E & Hr & Hall); [lia|unfold MAX_FD; lia|].
  apply (wp_of_done _ _ _ _ _ E). destruct r as [k|].
  - destruct Hr as (Hk & g & Hg & Hu). unfold MAX_FD in *. assert (0 ≤ k < zlen t) by lia.
    apply wp_bind. eapply wp_update_gfd; [done|]. apply wp_bind.
    eapply wp_gfd; [rewrite aget_insert, decide_True by done; done|]. apply wp_bind. eapply wp_liftO; [exact Hp|].
    do 4 (apply wp_bind; apply wp_update_last; [done|]). apply wp_ret. by eapply HS.
  - apply wp_ret, HN. intros j g Hg. pose proof (aget_lt_Some _ _ _ Hg). apply (Hall j); [|done].
    unfold MAX_FD. simpl. lia.
Qed.

Lemma wp_allocate_device_fd (Q : option Z → fds → Prop) t :
  length t = 256%nat →
  (∀ k g, aget t k = Some g → is_used g = false → (∀ j h, 0 ≤ j < k → aget t j = Some h → is_used h = true) →
     Q (Some k) (<[Z.to_nat k := device_fd]> t)) →
  ((∀ j g, aget t j = Some g → is_used g = true) → Q None t) →
  wp allocate_device_fd Q t.
Proof.
  intros Hl HS HN. unfold allocate_device_fd. apply wp_bind.
  destruct (find_unused_spec t 0 (Z.to_nat MAX_FD)) as (r & E & Hr & Hall); [lia|unfold MAX_FD; lia|].
  apply (wp_of_done _ _ _ _ _ E). destruct r as [k|].
  - destruct Hr as (Hk & g & Hg & Hu). unfold MAX_FD in *. assert (0 ≤ k < zlen t) by lia.
    apply wp_bind. eapply wp_update_gfd; [done|].
    do 3 (apply wp_bind; apply wp_update_last; [done|]). apply wp_ret. by eapply HS.
  - apply wp_ret, HN. intros j g Hg. pose proof (aget_lt_Some _ _ _ Hg). apply (Hall j); [|done].
    unfold MAX_FD. simpl. lia.
Qed.

(** Entries whose path is a terminated string. *)
Definition path_of (g : global_file_descriptor) : list Z := cstr (g_path g).
Definition paths_ok (t : fds) : Prop :=
  ∀ j g, aget t j = Some g → ∃ s r, str_ok s ∧ g_path g = s ++ 0 :: r ∧ (length s < 256)%nat.

Lemma find_opened_spec t s rest i n :
  str_ok s → (length s < 256)%nat → paths_ok t → 0 ≤ i → i + Z.of_nat n ≤ zlen t →
  ∃ r, find_opened (s ++ 0 :: rest) i n t = Done (r, t) ∧
    match r with
    | Some k => i ≤ k < i + Z.of_nat n ∧ ∃ g, aget t k = Some g ∧ is_used g = true ∧ path_of g = s
    | None => True
    end ∧
    ∀ j g, i ≤ j < default (i + Z.of_nat n) r → aget t j = Some g → is_used g = true → path_of g ≠ s.
Proof.
  intros Hs Hls Ht. revert i. induction n as [|n IH]; intros i Hi Hl; cbn [find_opened].
  - exists None. split; [done|]. split; [done|]. simpl. lia.
  - destruct (aget_is_Some t i) as [g Hg]; [lia|]. unfold mbind, M_bind. unfold gfd at 1, reads, id. rewrite Hg.
    destruct (Ht _ _ Hg) as (s' & r' & Hs' & Ep & Hls').
    assert (path_of g = s') as Epath by (unfold path_of; rewrite Ep; by apply cstr_terminated).
    destruct (strncmp_cstr s' s r' rest 256 Hs' Hs) as (d & Ed & Hd).
    rewrite !take_ge in Hd by lia.
    assert (is_used g = false ∨ s' ≠ s →
      ∃ r, find_opened (s ++ 0 :: rest) (i + 1) n t = Done (r, t) ∧
        match r with
        | Some k => i ≤ k < i + Z.of_nat (S n) ∧ ∃ g, aget t k = Some g ∧ is_used g = true ∧ path_of g = s
        | None => True
        end ∧
        ∀ j g, i ≤ j < default (i + Z.of_nat (S n)) r → aget t j = Some g → is_used g = true → path_of g ≠ s) as Hnext.
    { intros Hno. destruct (IH (i + 1)) as (r & -> & Hr & Hall); [lia..|]. exists r. split; [done|]. split.
      - destruct r; [|done]. destruct Hr as [? ?]. split; [lia|done].
      - intros j h Hj Hh Hu. destruct (decide (j = i)) as [->|].
        { rewrite Hg in Hh. injection Hh as <-. destruct Hno; congruence. }
        apply (Hall j); [|done..]. destruct r; simpl in *; lia. }
    destruct (is_used g) eqn:Eu; [|auto].
    rewrite Ep, Ed. cbn [liftO]. case_decide as Hd0.
    + exists (Some i). split; [done|]. split; [split; [lia|]|simpl; lia].
      exists g. split; [done|]. split; [done|]. rewrite Epath. by apply Hd.
    + apply Hnext. right. intros ->. apply Hd0. by apply Hd.
Qed.

(** ** Properties *)

(** get_opened_fd returns the lowest used entry whose path is the one asked
    for, and NULL exactly when there is none; the table is not changed. *)
Theorem get_opened_fd_finds t s rest :
  length t = 256%nat → paths_ok t → str_ok s → (length s < 256)%nat →
  wp (get_opened_fd (s ++ 0 :: rest))
     (λ r t', t' = t ∧
        match r with
        | Some k => ∃ g, aget t k = Some g ∧ is_used g = true ∧ path_of g = s ∧
                    ∀ j h, 0 ≤ j < k → aget t j = Some h → is_used h = true → path_of h ≠ s
        | None => ∀ j h, aget t j = Some h → is_used h = true → path_of h ≠ s
        end) t.
Proof.
  intros Hl Ht Hs Hls. destruct (find_opened_spec t s rest 0 256 Hs Hls Ht) as (r & E & Hr & Hall); [lia..|].
  apply (wp_of_done _ _ _ _ _ E). split; [done|]. destruct r as [k|]; simpl in Hall.
  - destruct Hr as (Hk & g & ? & ? & ?). exists g. split_and!; try done.
  - intros j h Hh. pose proof (aget_lt_Some _ _ _ Hh). apply (Hall j); [lia|done].
Qed.

Module Demo.
Definition entry (p : list Z) : global_file_descriptor :=
  GlobalFd (Some read_fat_fs) zero_file 1 (p ++ replicate (256 - length p) 0) false true false.
Definition table : fds := device_fd :: entry (lit "/main") :: entry (lit "/dummy") :: replicate 253 zero_global_fd.
End Demo.

Lemma get_opened_fd_finds_witness :
  wp (get_opened_fd (lit "/dummy" ++ 0 :: []))
     (λ r t', t' = Demo.table ∧
        match r with
        | Some k => ∃ g, aget Demo.table k = Some g ∧ is_used g = true ∧ path_of g = lit "/dummy" ∧
                    ∀ j h, 0 ≤ j < k → aget Demo.table j = Some h → is_used h = true → path_of h ≠ lit "/dummy"
        | None => ∀ j h, aget Demo.table j = Some h → is_used h = true → path_of h ≠ lit "/dummy"
        end) Demo.table.
Proof.
  apply (get_opened_fd_finds Demo.table (lit "/dummy") []); [done| |by_decide|simpl; lia].
  intros j g Hg. apply aget_Some in Hg as [_ Hg]. apply list_elem_of_lookup_2 in Hg.
  unfold Demo.table in Hg. rewrite !elem_of_cons, elem_of_replicate in Hg.
  destruct Hg as [->|[->|[->|[-> _]]]].
  - exists [], (replicate 255 0). split_and!; [apply str_ok_nil|done|simpl; lia].
  - exists (lit "/main"), (replicate 250 0). split; [by_decide|]. split; [done|simpl; lia].
  - exists (lit "/dummy"), (replicate 249 0). split; [by_decide|]. split; [done|simpl; lia].
  - exists [], (replicate 255 0). split_and!; [apply str_ok_nil|done|simpl; lia].
Defined.
