(* ===== verification/Kernel.v ===== *)
(** * The kernel's state, and running a component on its part of it

    The components above work on their own globals; the files that follow model
    the code that ties them together, on the record [kernel] of all of them.
    [D] is the disk, [H] the heap allocator, [V] the devices behind the ports. *)

From S2P Require Import Prelude Interfaces Io Vga Gdt Pmm Paging FatTable Vfs Process.

(** ** The globals of the remaining components *)

Definition INPUT_BUFFER_SIZE : Z := 256.
Definition TERMINAL_AMMOUNT : Z := 4.

Record terminal_file_descriptors_t := TerminalFds {
  t_stdin : option Z; t_stdout : option Z; t_stderr : option Z }.

Record terminal_struct_t := Terminal {
  t_id : Z;
  input_buf : list Z;
  input_len : Z;
  is_input_ready : bool;
  parent_process_pid : Z;
  terminal_fds : terminal_file_descriptors_t }.

Definition zero_terminal : terminal_struct_t :=
  Terminal 0 (replicate 256 0) 0 false 0 (TerminalFds None None None).

(** terminal_manager.c: [terminals] and [current_active_terminal_id] *)
Record terminals_t := Terminals { terminals : list terminal_struct_t; current_active_terminal_id : Z }.
Definition terminals_statics : terminals_t := Terminals (replicate 4 zero_terminal) 0.

(** keyboard.h; the flags no code sets are left out *)
Record keyboard_state_flags := Keys {
  right_shift_pressed : Z; left_shift_pressed : Z; ctrl_pressed : Z; alt_pressed : Z;
  scroll_lock_pressed : Z; num_lock_pressed : Z; caps_lock_pressed : Z }.
Definition keyboard_statics : keyboard_state_flags := Keys 0 0 0 0 0 0 0.

(** pit.c *)
Record pit_state := Pit {
  expected_clock_fraction : Z;
  reload_time : Z;
  system_time : Z;
  system_clock_fractions : Z;
  context_switch : Z }.
Definition pit_statics : pit_state := Pit 0 0 0 0 0.

(** isr.c: a function pointer is one of the handlers the kernel registers. *)
Inductive isr_handler := h_timer_irq | h_keyboard_irq | h_switch_process | h_handle_syscall | h_example_irq.
#[export] Instance isr_handler_eq_dec : EqDecision isr_handler.
Proof. solve_decision. Defined.

(** syscalls.c: likewise, an entry of [syscall_handler_array] is one of the
    functions sys.h declares for it. *)
Inductive syscall_handler :=
| h_sys_exit | h_sys_read | h_sys_write | h_sys_open | h_sys_close | h_sys_unlink | h_sys_chdir | h_sys_lseek | h_sys_getpid
| h_sys_rename | h_sys_mkdir | h_sys_rmdir | h_sys_times | h_sys_gettimeofday | h_sys_truncate | h_sys_ftruncate
| h_sys_stat | h_sys_fstat | h_sys_getdents | h_sys_getcwd | h_sys_execve | h_sys_sbrk | h_print_logo | h_print_bye.
#[export] Instance syscall_handler_eq_dec : EqDecision syscall_handler.
Proof. solve_decision. Defined.

(** ** The whole state *)

Record kernel (D H V : Type) := Kernel {
  k_fs : fat_state D H;
  k_vm : vm;
  k_gdt : gdt;
  k_screen : vga V;
  k_ports : V;
  k_procs : procs;
  k_fds : list global_file_descriptor;
  k_terminals : terminals_t;
  k_keys : keyboard_state_flags;
  k_pit : pit_state;
  k_handlers : list (option isr_handler);
  syscall_handler_array : list (option syscall_handler) }.
Arguments Kernel {D H V}.
Arguments k_fs {D H V}.
Arguments k_vm {D H V}.
Arguments k_gdt {D H V}.
Arguments k_screen {D H V}.
Arguments k_ports {D H V}.
Arguments k_procs {D H V}.
Arguments k_fds {D H V}.
Arguments k_terminals {D H V}.
Arguments k_keys {D H V}.
Arguments k_pit {D H V}.
Arguments k_handlers {D H V}.
Arguments syscall_handler_array {D H V}.

(** How a handler ends: it returns to the code it interrupted, or it jumps into a
    process and never returns. *)
Inductive control :=
| Returns
| Jumps (kernel_mode : bool) (r : process_registers_t).

Section lifts.
Context {D H V : Type}.
Implicit Types k : kernel D H V.

Definition kset_fs (x : fat_state D H) k : kernel D H V :=
  Kernel x (k_vm k) (k_gdt k) (k_screen k) (k_ports k) (k_procs k) (k_fds k) (k_terminals k) (k_keys k)
    (k_pit k) (k_handlers k) (syscall_handler_array k).
Definition kset_vm (x : vm) k : kernel D H V :=
  Kernel (k_fs k) x (k_gdt k) (k_screen k) (k_ports k) (k_procs k) (k_fds k) (k_terminals k) (k_keys k)
    (k_pit k) (k_handlers k) (syscall_handler_array k).
Definition kset_gdt (x : gdt) k : kernel D H V :=
  Kernel (k_fs k) (k_vm k) x (k_screen k) (k_ports k) (k_procs k) (k_fds k) (k_terminals k) (k_keys k)
    (k_pit k) (k_handlers k) (syscall_handler_array k).
Definition kset_screen (x : vga V) k : kernel D H V :=
  Kernel (k_fs k) (k_vm k) (k_gdt k) x (k_ports k) (k_procs k) (k_fds k) (k_terminals k) (k_keys k)
    (k_pit k) (k_handlers k) (syscall_handler_array k).
Definition kset_ports (x : V) k : kernel D H V :=
  Kernel (k_fs k) (k_vm k) (k_gdt k) (k_screen k) x (k_procs k) (k_fds k) (k_terminals k) (k_keys k)
    (k_pit k) (k_handlers k) (syscall_handler_array k).
Definition kset_procs (x : procs) k : kernel D H V :=
  Kernel (k_fs k) (k_vm k) (k_gdt k) (k_screen k) (k_ports k) x (k_fds k) (k_terminals k) (k_keys k)
    (k_pit k) (k_handlers k) (syscall_handler_array k).
Definition kset_fds (x : list global_file_descriptor) k : kernel D H V :=
  Kernel (k_fs k) (k_vm k) (k_gdt k) (k_screen k) (k_ports k) (k_procs k) x (k_terminals k) (k_keys k)
    (k_pit k) (k_handlers k) (syscall_handler_array k).
Definition kset_terminals (x : terminals_t) k : kernel D H V :=
  Kernel (k_fs k) (k_vm k) (k_gdt k) (k_screen k) (k_ports k) (k_procs k) (k_fds k) x (k_keys k)
    (k_pit k) (k_handlers k) (syscall_handler_array k).
Definition kset_keys (x : keyboard_state_flags) k : kernel D H V :=
  Kernel (k_fs k) (k_vm k) (k_gdt k) (k_screen k) (k_ports k) (k_procs k) (k_fds k) (k_terminals k) x
    (k_pit k) (k_handlers k) (syscall_handler_array k).
Definition kset_pit (x : pit_state) k : kernel D H V :=
  Kernel (k_fs k) (k_vm k) (k_gdt k) (k_screen k) (k_ports k) (k_procs k) (k_fds k) (k_terminals k) (k_keys k)
    x (k_handlers k) (syscall_handler_array k).
Definition kset_handlers (x : list (option isr_handler)) k : kernel D H V :=
  Kernel (k_fs k) (k_vm k) (k_gdt k) (k_screen k) (k_ports k) (k_procs k) (k_fds k) (k_terminals k) (k_keys k)
    (k_pit k) x (syscall_handler_array k).
Definition kset_syscalls (x : list (option syscall_handler)) k : kernel D H V :=
  Kernel (k_fs k) (k_vm k) (k_gdt k) (k_screen k) (k_ports k) (k_procs k) (k_fds k) (k_terminals k) (k_keys k)
    (k_pit k) (k_handlers k) x.

Definition on_fs {A} (m : M (fat_state D H) A) : M (kernel D H V) A := zoom k_fs kset_fs m.
Definition on_vm {A} (m : M vm A) : M (kernel D H V) A := zoom k_vm kset_vm m.
Definition on_gdt {A} (m : M gdt A) : M (kernel D H V) A := zoom k_gdt kset_gdt m.
Definition on_screen {A} (m : M (vga V) A) : M (kernel D H V) A := zoom k_screen kset_screen m.
Definition on_ports {A} (m : M V A) : M (kernel D H V) A := zoom k_ports kset_ports m.
Definition on_procs {A} (m : M procs A) : M (kernel D H V) A := zoom k_procs kset_procs m.
Definition on_fds {A} (m : M (list global_file_descriptor) A) : M (kernel D H V) A := zoom k_fds kset_fds m.
Definition on_terminals {A} (m : M terminals_t A) : M (kernel D H V) A := zoom k_terminals kset_terminals m.
Definition on_keys {A} (m : M keyboard_state_flags A) : M (kernel D H V) A := zoom k_keys kset_keys m.
Definition on_pit {A} (m : M pit_state A) : M (kernel D H V) A := zoom k_pit kset_pit m.

Lemma kset_fs_same k : kset_fs (k_fs k) k = k.
Proof using Type. by destruct k. Qed.
Lemma kset_screen_same k : kset_screen (k_screen k) k = k.
Proof using Type. by destruct k. Qed.
Lemma kset_procs_same k : kset_procs (k_procs k) k = k.
Proof using Type. by destruct k. Qed.
Lemma kset_fds_same k : kset_fds (k_fds k) k = k.
Proof using Type. by destruct k. Qed.
Lemma kset_terminals_same k : kset_terminals (k_terminals k) k = k.
Proof using Type. by destruct k. Qed.

Context `{KernelHeap H}.
Definition k_kmalloc (size : Z) : M (kernel D H V) Z := on_fs (heap_alloc size).
Definition k_kfree (p : Z) : M (kernel D H V) unit := on_fs (heap_free p).
End lifts.

(** Running a component that is known to return, on its part of the state. *)
Section zooms.
Context {S T A : Type} (sel : S → T) (upd : T → S → S).
Lemma zoom_done (m : M T A) (s : S) a t : m (sel s) = Done (a, t) → zoom sel upd m s = Done (a, upd t s).
Proof using Type. unfold zoom. by intros ->. Qed.
Lemma wp_zoom_done (m : M T A) (Q : A → S → Prop) (s : S) a t :
  m (sel s) = Done (a, t) → Q a (upd t s) → wp (zoom sel upd m) Q s.
Proof using Type. intros E HQ. eapply wp_of_done; [by eapply zoom_done|done]. Qed.
Lemma zoom_fault (m : M T A) (s : S) : m (sel s) = Fault → zoom sel upd m s = Fault.
Proof using Type. unfold zoom. by intros ->. Qed.
End zooms.

(** ** A sample state, for the examples of the files that follow *)

Module Sample.
Definition terminal_1 : terminal_struct_t :=
  Terminal 1 (replicate 256 0) 0 false 1 (TerminalFds (Some 0) (Some 1) (Some 2)).
(** The kernel's directory in frame 6, and the directories of processes 1 to 4 in
    the frames 0x31 to 0x34, mapped from 0xC2001000 on; every directory maps itself
    in its last entry. *)
Definition directory (frame : Z) : list (Z * Z) :=
  [(entry_index frame 1023, frame * 4096 + 3); (entry_index frame 768, 0x1100003); (entry_index frame 776, 0x1108003)].
Definition memory : gmap Z Z := list_to_map (
  directory 6 ++ [(entry_index 0x1100 6, 0x6003); (entry_index 0x1100 5, 0x5003)] ++
  concat ((λ i, (entry_index 0x1108 i, (0x30 + i) * 4096 + 3) :: directory (0x30 + i)) <$> [1; 2; 3; 4])).
(** Process [i] runs: its directory is loaded. *)
Definition machine_of (i : Z) : vm := Vm Pmm.demo_pmm ((0x30 + i) * 4096) (0xC2000000 + 4096 * i) memory.
Definition kernel_machine : vm := Vm Pmm.demo_pmm 0x6000 0xC0006000 memory.

Definition state : kernel ramdisk bump latches := Kernel
  FatTable.Demo.state (machine_of 1) gdt_statics (screen 0 0) (Latches ∅ []) Process.Demo.state
  Vfs.Demo.table (Terminals [terminal_1; zero_terminal; zero_terminal; zero_terminal] 1) keyboard_statics pit_statics
  (replicate 256 None) (replicate 256 None).

Lemma load_checks p i j : i ∈ [1; 2; 3; 4] → j ∈ [1; 2; 3; 4] →
  let of_process i := Vm p ((0x30 + i) * 4096) (0xC2000000 + 4096 * i) memory in
  load_pd get_kernel_pd (of_process i) = Done (tt, Vm p 0x6000 0xC0006000 memory) ∧
  load_pd (0xC2000000 + 4096 * i) (Vm p 0x6000 0xC0006000 memory) = Done (tt, of_process i) ∧
  load_pd (0xC2000000 + 4096 * j) (of_process i) = Done (tt, of_process j).
Proof.
  rewrite !elem_of_cons, !elem_of_nil.
  intros [->|[->|[->|[->|[]]]]] [->|[->|[->|[->|[]]]]]; split_and!; by vm_compute.
Qed.
Lemma load_kernel i : i ∈ [1; 2; 3; 4] → load_pd get_kernel_pd (machine_of i) = Done (tt, kernel_machine).
Proof. intros Hi. apply (load_checks Pmm.demo_pmm i i Hi Hi). Qed.
Lemma load_process i : i ∈ [1; 2; 3; 4] → load_pd (0xC2000000 + 4096 * i) kernel_machine = Done (tt, machine_of i).
Proof. intros Hi. apply (load_checks Pmm.demo_pmm i i Hi Hi). Qed.
Lemma switch_process_pd i j : i ∈ [1; 2; 3; 4] → j ∈ [1; 2; 3; 4] →
  load_pd (0xC2000000 + 4096 * j) (machine_of i) = Done (tt, machine_of j).
Proof. intros Hi Hj. apply (load_checks Pmm.demo_pmm i j Hi Hj). Qed.
End Sample.
