(* ===== verification/Terminal.v ===== *)
(** * Terminals and the keyboard: terminal/terminal_manager.c, drivers/keyboard/keyboard.c

    The keyboard's interrupt handler fills the line buffer of the active terminal;
    a process that reads its terminal blocks until the line is complete.  While it
    is blocked other processes run: what they do is the parameter [others] of
    [read_terminal_input]. *)

From S2P Require Import Prelude CString Interfaces Io Vga Idt FatTable Vfs Process Kernel.

(** ** Terminals *)

Section terminals.
Context {D H V : Type}.
Implicit Types k : kernel D H V.

Definition tset_id (i : Z) (t : terminal_struct_t) : terminal_struct_t :=
  Terminal i (input_buf t) (input_len t) (is_input_ready t) (parent_process_pid t) (terminal_fds t).
Definition tset_buf (b : list Z) (t : terminal_struct_t) : terminal_struct_t :=
  Terminal (t_id t) b (input_len t) (is_input_ready t) (parent_process_pid t) (terminal_fds t).
Definition tset_len (n : Z) (t : terminal_struct_t) : terminal_struct_t :=
  Terminal (t_id t) (input_buf t) (u32 n) (is_input_ready t) (parent_process_pid t) (terminal_fds t).
Definition tset_ready (b : bool) (t : terminal_struct_t) : terminal_struct_t :=
  Terminal (t_id t) (input_buf t) (input_len t) b (parent_process_pid t) (terminal_fds t).
Definition tset_parent (p : Z) (t : terminal_struct_t) : terminal_struct_t :=
  Terminal (t_id t) (input_buf t) (input_len t) (is_input_ready t) p (terminal_fds t).
Definition tset_fds (f : terminal_file_descriptors_t) (t : terminal_struct_t) : terminal_struct_t :=
  Terminal (t_id t) (input_buf t) (input_len t) (is_input_ready t) (parent_process_pid t) f.

Definition set_terminals (l : list terminal_struct_t) (s : terminals_t) : terminals_t :=
  Terminals l (current_active_terminal_id s).
Definition set_active (i : Z) (s : terminals_t) : terminals_t := Terminals (terminals s) i.

(** [terminals[i]] *)
Definition terminal (i : Z) : M (kernel D H V) terminal_struct_t := on_terminals (reads terminals i).
Definition update_terminal (i : Z) (f : terminal_struct_t → terminal_struct_t) : M (kernel D H V) unit :=
  t ← terminal i; on_terminals (writes terminals set_terminals i (f t)).

(** [fd_table[i].global_fd = g] *)
Definition set_global_fd (i : Z) (g : option Z) (p : Z) : M (kernel D H V) unit :=
  n ← on_procs (node p);
  f ← liftO (of_option (aget (fd_table (proc n)) i));
  t ← liftO (of_option (aset (fd_table (proc n)) i (FileDesc g (fd_flags f) (fd_offset f) (fd_is_used f))));
  on_procs (update_proc p (set_fd_table t)).

(** The range check of the code has no effect: it computes [false] and goes on. *)
Definition attach_process_to_terminal (tid : Z) (proc_info : Z) : M (kernel D H V) bool :=
  t ← terminal (u32 (tid - 1));
  if decide (t_id t ≠ tid) then mret false else
  _ ← on_procs (update_proc proc_info (set_terminal_id tid));
  _ ← set_global_fd 0 (t_stdin (terminal_fds t)) proc_info;
  _ ← set_global_fd 1 (t_stdout (terminal_fds t)) proc_info;
  _ ← set_global_fd 2 (t_stderr (terminal_fds t)) proc_info;
  mret true.

(** [while (terminals[i].id != 0)]: the element is read before [i] is checked. *)
Fixpoint free_terminal (i : Z) (fuel : nat) : M (kernel D H V) (option Z) :=
  match fuel with
  | O => λ _, Timeout
  | S fuel =>
      t ← terminal i;
      if decide (t_id t ≠ 0) then
        if decide (TERMINAL_AMMOUNT ≤ i) then mret None else free_terminal (i + 1) fuel
      else mret (Some i)
  end.

Definition create_terminal (parent_process_id : Z) : M (kernel D H V) Z :=
  found ← free_terminal 0 6;
  match found with
  | None => mret 0
  | Some i =>
      _ ← update_terminal i (tset_id (i + 1));
      t ← terminal i;
      buf ← liftO (memset (input_buf t) 0 INPUT_BUFFER_SIZE);
      _ ← update_terminal i (tset_buf buf);
      _ ← update_terminal i (tset_ready false);
      _ ← update_terminal i (tset_parent parent_process_id);
      stdin ← on_fds allocate_device_fd;
      stdout ← on_fds allocate_device_fd;
      stderr ← on_fds allocate_device_fd;
      _ ← update_terminal i (tset_fds (TerminalFds stdin stdout stderr));
      _ ← update_terminal i (tset_len 0);
      (* stdin->_read = ...: NULL when the table is full *)
      stdin ← liftO (of_option stdin);
      _ ← on_fds (update_gfd stdin (gset_read read_terminal_input));
      mret (i + 1)
  end.

(** NULL, or the index of the terminal. *)
Definition get_active_terminal_struct : M (kernel D H V) (option Z) :=
  a ← on_terminals (gets current_active_terminal_id);
  mret (if decide (a = 0) then None else Some (u32 (a - 1))).
Definition get_active_terminal_id : M (kernel D H V) Z := on_terminals (gets current_active_terminal_id).

Definition set_active_terminal (tid : Z) : M (kernel D H V) bool :=
  t ← terminal (u32 (tid - 1));
  if decide (t_id t ≠ tid) then mret false else
  _ ← on_terminals (modify (set_active tid));
  mret true.

(** The active terminal, dereferenced. *)
Definition active_index : M (kernel D H V) Z :=
  a ← get_active_terminal_struct; liftO (of_option a).
Definition active_terminal : M (kernel D H V) terminal_struct_t := i ← active_index; terminal i.
Definition update_active (f : terminal_struct_t → terminal_struct_t) : M (kernel D H V) unit :=
  i ← active_index; update_terminal i f.

(** One round of the wait: the process blocks and the others run. *)
Definition await_input (others : M (kernel D H V) unit) (_ : unit) : M (kernel D H V) (unit + unit) :=
  t ← active_terminal;
  if negb (is_input_ready t) then
    current ← on_procs get_current_process;
    _ ← on_procs (update_proc current (set_state PROCESS_BLOCKED));
    _ ← others;
    mret (inl tt)
  else mret (inr tt).

(** [fuel] bounds how often the process is resumed before its line is complete. *)
Definition read_terminal_input (fuel : nat) (others : M (kernel D H V) unit) (buf : list Z) (count : Z) :
    M (kernel D H V) (Z * list Z) :=
  _ ← iter fuel (await_input others) tt;
  _ ← update_active (tset_ready false);
  t ← active_terminal;
  let copy_len := if decide (input_len t < count) then s32 (input_len t) else s32 count in
  buf ← liftO (memcpy buf (input_buf t) (Z.to_nat (u32 copy_len)));
  b ← liftO (memset (input_buf t) 0 INPUT_BUFFER_SIZE);
  _ ← update_active (tset_buf b);
  _ ← update_active (tset_len 0);
  mret (copy_len, buf).
End terminals.

(** ** The keyboard *)

Definition key_map : list Z :=
  [0; 27] ++ lit "1234567890-=" ++ [8; 9] ++ lit "qwertyuiop[]" ++ [10; 0] ++ lit "asdfghjkl;'`" ++ [0] ++
  lit "\zxcvbnm,./" ++ [0] ++ lit "*" ++ [0] ++ lit " " ++ [0; 0; 0; 0; 0; 0; 0; 0; 0; 0; 0; 0; 0; 0; 0; 0] ++
  lit "-" ++ [0; 0; 0] ++ lit "+" ++ replicate 49 0.

Definition key_map_shift : list Z :=
  [0; 27] ++ lit "!@#$%^&*()_+" ++ [8; 9] ++ lit "QWERTYUIOP{}" ++ [10; 0] ++ lit "ASDFGHJKL:" ++ [34] ++ lit "~" ++ [0] ++
  lit "|ZXCVBNM<>?" ++ [0] ++ lit "*" ++ [0] ++ lit " " ++ [0; 0; 0; 0; 0; 0; 0; 0; 0; 0; 0; 0; 0] ++
  lit "789-456+1230," ++ replicate 44 0.

Definition set_left_shift (b : Z) (f : keyboard_state_flags) : keyboard_state_flags :=
  Keys (right_shift_pressed f) b (ctrl_pressed f) (alt_pressed f) (scroll_lock_pressed f) (num_lock_pressed f)
    (caps_lock_pressed f).
Definition set_right_shift (b : Z) (f : keyboard_state_flags) : keyboard_state_flags :=
  Keys b (left_shift_pressed f) (ctrl_pressed f) (alt_pressed f) (scroll_lock_pressed f) (num_lock_pressed f)
    (caps_lock_pressed f).
Definition set_ctrl (b : Z) (f : keyboard_state_flags) : keyboard_state_flags :=
  Keys (right_shift_pressed f) (left_shift_pressed f) b (alt_pressed f) (scroll_lock_pressed f)
    (num_lock_pressed f) (caps_lock_pressed f).
Definition set_alt (b : Z) (f : keyboard_state_flags) : keyboard_state_flags :=
  Keys (right_shift_pressed f) (left_shift_pressed f) (ctrl_pressed f) b (scroll_lock_pressed f)
    (num_lock_pressed f) (caps_lock_pressed f).
Definition set_scroll_lock (b : Z) (f : keyboard_state_flags) : keyboard_state_flags :=
  Keys (right_shift_pressed f) (left_shift_pressed f) (ctrl_pressed f) (alt_pressed f) b (num_lock_pressed f)
    (caps_lock_pressed f).
Definition set_num_lock (b : Z) (f : keyboard_state_flags) : keyboard_state_flags :=
  Keys (right_shift_pressed f) (left_shift_pressed f) (ctrl_pressed f) (alt_pressed f) (scroll_lock_pressed f) b
    (caps_lock_pressed f).
Definition set_caps_lock (b : Z) (f : keyboard_state_flags) : keyboard_state_flags :=
  Keys (right_shift_pressed f) (left_shift_pressed f) (ctrl_pressed f) (alt_pressed f) (scroll_lock_pressed f)
    (num_lock_pressed f) b.

Definition KEYBOARD_IRQ : Z := 1.

Section keyboard.
Context {D H V : Type} `{Ports V}.
Implicit Types k : kernel D H V.

(** The cases of a release; the codes below 0x80 cannot occur here. *)
Definition key_released (scan_code : Z) (f : keyboard_state_flags) : keyboard_state_flags :=
  if decide (scan_code = 0xAA) then set_left_shift 0 f else
  if decide (scan_code = 0xB6) then set_right_shift 0 f else
  if decide (scan_code = 0x9D) then set_ctrl 0 f else
  if decide (scan_code = 0xB8) then set_alt 0 f else
  if decide (scan_code = 0x45) then set_num_lock 0 f else
  if decide (scan_code = 0x3A) then set_caps_lock 0 f else
  if decide (scan_code = 0x46) then set_scroll_lock 0 f else f.

(** The condition under which the shifted map is used. *)
Definition is_shifted (f : keyboard_state_flags) (c : Z) : bool :=
  let shift := bool_decide (left_shift_pressed f ≠ 0) || bool_decide (right_shift_pressed f ≠ 0) in
  (bool_decide (caps_lock_pressed f ≠ 0) && bool_decide (97 ≤ c ≤ 122) && negb shift)
  || bool_decide (left_shift_pressed f ≠ 0) || bool_decide (right_shift_pressed f ≠ 0).

(** [input_buf[input_len++] = c; vga_putchar(c);] *)
Definition type_char (c : Z) : M (kernel D H V) unit :=
  t ← active_terminal;
  b ← liftO (of_option (aset (input_buf t) (input_len t) c));
  _ ← update_active (tset_len (input_len t + 1));
  _ ← update_active (tset_buf b);
  on_screen (vga_putchar c).

(** The default case: a key that is not a modifier. *)
Definition key_typed (scan_code : Z) : M (kernel D H V) unit :=
  c ← liftO (of_option (aget key_map scan_code));
  if decide (c = 8) then
    t ← active_terminal;
    if decide (0 < input_len t) then
      _ ← update_active (tset_len (input_len t - 1));
      b ← liftO (of_option (aset (input_buf t) (input_len t - 1) 0));
      _ ← update_active (tset_buf b);
      on_screen (vga_putchar 8)
    else mret tt
  else
    flags ← on_keys get;
    upper ← liftO (of_option (aget key_map_shift scan_code));
    _ ← (if is_shifted flags c then type_char upper else type_char c);
    if decide (c = 10) then
      _ ← update_active (tset_ready true);
      tid ← get_active_terminal_id;
      on_procs (wake_up_terminal_processes tid)
    else mret tt.

Definition keyboard_handler (scan_code : Z) : M (kernel D H V) unit :=
  if decide (Z.land scan_code 0x80 ≠ 0) then on_keys (modify (key_released scan_code)) else
  if decide (scan_code = 0x2A) then on_keys (modify (set_left_shift 1)) else
  if decide (scan_code = 0x36) then on_keys (modify (set_right_shift 1)) else
  if decide (scan_code = 0x1D) then on_keys (modify (set_ctrl 1)) else
  if decide (scan_code = 0x38) then on_keys (modify (set_alt 1)) else
  if decide (scan_code = 0x45) then on_keys (modify (set_num_lock 1)) else
  if decide (scan_code = 0x3A) then
    on_keys (modify (λ f, set_caps_lock (Z.lxor (caps_lock_pressed f) 1) f)) else
  if decide (scan_code = 0x46) then on_keys (modify (set_scroll_lock 1)) else
  key_typed scan_code.

Definition get_scan_code : M (kernel D H V) Z := on_ports (io_in_byte 0x60).

Definition keyboard_irq (r : int_registers) : M (kernel D H V) unit :=
  scan_code ← get_scan_code;
  _ ← keyboard_handler scan_code;
  on_ports (irq_exit KEYBOARD_IRQ).

(** isr.c, and the registration of the keyboard's handler *)
Definition register_isr_handler (index : Z) (handler : isr_handler) : M (kernel D H V) bool :=
  if decide (IDT_SIZE ≤ index) then mret false else
  _ ← writes k_handlers kset_handlers index (Some handler);
  mret true.

Definition keyboard_init : M (kernel D H V) unit :=
  _ ← on_ports (pic_toggle_irq KEYBOARD_IRQ true);
  _ ← register_isr_handler (PIC1_IRQ_INDEX + KEYBOARD_IRQ) h_keyboard_irq;
  mret tt.
End keyboard.

(** ** The line editor

    What the handler does to the active terminal is editing a line: a key
    appends its character, backspace takes the last one away. *)

Definition line_ok (t : terminal_struct_t) (line : list Z) : Prop :=
  input_buf t = line ++ replicate (256 - length line) 0 ∧ input_len t = zlen line ∧ (length line ≤ 256)%nat ∧ Forall is_byte line.

Definition key_code (scan_code : Z) : Z := default 0 (aget key_map scan_code).
Definition key_char (f : keyboard_state_flags) (scan_code : Z) : Z :=
  if is_shifted f (key_code scan_code) then default 0 (aget key_map_shift scan_code) else key_code scan_code.
Definition edit (f : keyboard_state_flags) (line : list Z) (scan_code : Z) : list Z :=
  if decide (key_code scan_code = 8) then take (length line - 1) line else line ++ [key_char f scan_code].

(** A key that types: not a modifier and not Enter. *)
Definition modifiers : list Z := [0x2A; 0x36; 0x1D; 0x38; 0x45; 0x3A; 0x46].
Definition types (scan_code : Z) : Prop :=
  0 ≤ scan_code < 128 ∧ scan_code ∉ modifiers ∧ key_code scan_code ≠ 10.
#[export] Instance types_dec s : Decision (types s).
Proof. unfold types. apply _. Defined.

Section specs.
Context {D H V : Type} `{Ports V}.
Implicit Types k : kernel D H V.

(** The state with another terminal [i]. *)
Definition with_terminal (i : Z) (t : terminal_struct_t) k : kernel D H V :=
  kset_terminals (set_terminals (<[Z.to_nat i := t]> (terminals (k_terminals k))) (k_terminals k)) k.

(** Terminal [i] is the active one. *)
Record console k (i : Z) (t : terminal_struct_t) : Prop := {
  co_range : 0 ≤ i < 4;
  co_active : current_active_terminal_id (k_terminals k) = i + 1;
  co_terminal : aget (terminals (k_terminals k)) i = Some t;
}.

Lemma console_with k i t t' : console k i t → console (with_terminal i t' k) i t'.
Proof.
  intros [Hi Ha Ht]. split; try done. cbn. apply aget_lt_Some in Ht as Hr.
  rewrite aget_insert by done. by rewrite decide_True.
Qed.
Lemma console_screen k i t v : console k i t → console (kset_screen v k) i t.
Proof. by intros []. Qed.
Lemma console_procs k i t p : console k i t → console (kset_procs p k) i t.
Proof. by intros []. Qed.
Lemma with_with k i t t' : with_terminal i t' (with_terminal i t k) = with_terminal i t' k.
Proof. unfold with_terminal, kset_terminals, set_terminals. cbn. by rewrite list_insert_insert_eq. Qed.
Lemma with_same k i t : console k i t → with_terminal i t k = k.
Proof.
  intros [_ _ Ht]. apply aget_Some in Ht as [_ Ht]. unfold with_terminal, kset_terminals, set_terminals.
  rewrite list_insert_id by done. by destruct k as [? ? ? ? ? ? ? [] ? ? ?].
Qed.

Lemma wp_active_terminal (Q : terminal_struct_t → kernel D H V → Prop) k i t :
  console k i t → Q t k → wp active_terminal Q k.
Proof.
  intros [Hi Ha Ht] HQ. apply wp_bind, wp_bind, wp_bind, wp_zoom, wp_gets. rewrite Ha, kset_terminals_same.
  rewrite decide_False by lia. apply wp_ret. eapply wp_liftO; [done|]. rewrite u32_small by lia.
  apply wp_zoom. replace (i + 1 - 1) with i by lia. eapply wp_reads; [done|]. by rewrite kset_terminals_same.
Qed.
Lemma wp_update_active f (Q : unit → kernel D H V → Prop) k i t :
  console k i t → Q tt (with_terminal i (f t) k) → wp (update_active f) Q k.
Proof.
  intros [Hi Ha Ht] HQ. apply wp_bind, wp_bind, wp_bind, wp_zoom, wp_gets. rewrite Ha, kset_terminals_same.
  rewrite decide_False by lia. apply wp_ret. eapply wp_liftO; [done|]. rewrite u32_small by lia.
  replace (i + 1 - 1) with i by lia. apply wp_bind, wp_zoom. eapply wp_reads; [done|]. rewrite kset_terminals_same.
  apply wp_zoom, wp_writes; [by eapply aget_lt_Some|done].
Qed.
(** The terminal was just written. *)
Lemma wp_update_again f (Q : unit → kernel D H V → Prop) k i t t' :
  console k i t → Q tt (with_terminal i (f t') k) → wp (update_active f) Q (with_terminal i t' k).
Proof. intros Hc HQ. eapply wp_update_active; [by eapply console_with|]. by rewrite with_with. Qed.
Lemma wp_active_id (Q : Z → kernel D H V → Prop) k i t :
  console k i t → Q (i + 1) k → wp get_active_terminal_id Q k.
Proof. intros [Hi Ha _] HQ. apply wp_zoom, wp_gets. by rewrite Ha, kset_terminals_same. Qed.

(** *** One key *)

Definition typed_in (line : list Z) (t : terminal_struct_t) : terminal_struct_t :=
  tset_buf (line ++ replicate (256 - length line) 0) (tset_len (zlen line) t).
Lemma typed_in_ok line t : (length line ≤ 256)%nat → Forall is_byte line → line_ok (typed_in line t) line.
Proof. intros Hl Hb. split_and!; try done. cbn. apply u32_small. lia. Qed.
Lemma typed_in_same line t : line_ok t line → typed_in line t = t.
Proof.
  intros (Eb & El & Hl & _). unfold typed_in, tset_buf, tset_len. rewrite u32_small by lia. cbn.
  rewrite <-Eb, <-El. by destruct t.
Qed.

Lemma map_byte (l : list Z) i : Forall is_byte l → is_byte (default 0 (aget l i)).
Proof.
  intros Hl. destruct (aget l i) as [c|] eqn:E; [|unfold is_byte; simpl; lia].
  apply aget_Some in E as [_ E]. apply (Forall_lookup_1 _ _ _ _ Hl E).
Qed.
Lemma key_maps_bytes : Forall is_byte key_map ∧ Forall is_byte key_map_shift.
Proof. split; by_decide. Qed.
Lemma key_char_byte f s : is_byte (key_char f s).
Proof. unfold key_char, key_code. case_match; apply map_byte; apply key_maps_bytes. Qed.
Lemma edit_byte f line s : Forall is_byte line → Forall is_byte (edit f line s).
Proof.
  intros. unfold edit. case_decide; [by apply Forall_take|].
  apply Forall_app_2; [done|]. constructor; [apply key_char_byte|constructor].
Qed.
Lemma lookup_map (l : list Z) i : length l = 128%nat → 0 ≤ i < 128 → of_option (aget l i) = Done (default 0 (aget l i)).
Proof. intros Hl Hi. destruct (aget_is_Some l i) as [c ->]; [lia|done]. Qed.

Lemma wp_type_char c (Q : unit → kernel D H V → Prop) k i t line :
  console k i t → line_ok t line → vga_ok (k_screen k) → (length line < 256)%nat →
  (∀ v, vga_ok v → Q tt (kset_screen v (with_terminal i (typed_in (line ++ [c]) t) k))) →
  wp (type_char c) Q k.
Proof.
  intros Hc (Eb & El & _ & _) Hs Hl HQ.
  apply wp_bind. eapply wp_active_terminal; [done|]. apply wp_bind. eapply wp_liftO.
  { rewrite aset_in; [done|]. rewrite Eb, length_app, length_replicate. lia. }
  apply wp_bind. eapply wp_update_active; [done|]. apply wp_bind. eapply wp_update_again; [done|].
  apply wp_zoom, wp_putchar_any; [done|]. intros v Hv _.
  assert (tset_buf (<[Z.to_nat (input_len t) := c]> (input_buf t)) (tset_len (input_len t + 1) t) = typed_in (line ++ [c]) t) as E;
    [|rewrite E; by apply HQ].
  unfold typed_in. rewrite Eb, El, Nat2Z.id, length_app. f_equal; [|f_equal; simpl; lia].
  rewrite insert_app_r_alt by lia. rewrite Nat.sub_diag, <-app_assoc. f_equal.
  replace (256 - length line)%nat with (S (256 - (length line + length [c]))) by (simpl; lia). done.
Qed.

Lemma wp_backspace (Q : unit → kernel D H V → Prop) k i t line :
  console k i t → line_ok t line → vga_ok (k_screen k) →
  (∀ v, vga_ok v → Q tt (kset_screen v (with_terminal i (typed_in (take (length line - 1) line) t) k))) →
  wp (t ← active_terminal;
      if decide (0 < input_len t) then
        _ ← update_active (tset_len (input_len t - 1));
        b ← liftO (of_option (aset (input_buf t) (input_len t - 1) 0));
        _ ← update_active (tset_buf b);
        on_screen (vga_putchar 8)
      else mret tt) Q k.
Proof.
  intros Hc Hl Hs HQ. pose proof Hl as (Eb & El & Hle & _).
  apply wp_bind. eapply wp_active_terminal; [done|]. case_decide as Hpos.
  - apply wp_bind. eapply wp_update_active; [done|]. apply wp_bind. eapply wp_liftO.
    { rewrite aset_in; [done|]. rewrite Eb, length_app, length_replicate. lia. }
    apply wp_bind. eapply wp_update_again; [done|]. apply wp_zoom, wp_putchar_any; [done|]. intros v Hv _.
    destruct line as [|x line _] using rev_ind; [simpl in El; lia|].
    rewrite length_app in *. simpl in Hle, El. cbn [length] in *.
    replace (length line + 1 - 1)%nat with (length line) in HQ by lia. rewrite take_app_length in HQ.
    assert (tset_buf (<[Z.to_nat (input_len t - 1) := 0]> (input_buf t)) (tset_len (input_len t - 1) t) = typed_in line t) as E;
      [|rewrite E; by apply HQ].
    unfold typed_in. rewrite El, Eb. f_equal; [|f_equal; lia].
    replace (Z.to_nat (Z.of_nat (length line + 1) - 1)) with (length line) by lia.
    rewrite <-app_assoc, insert_app_r_alt by lia. rewrite Nat.sub_diag. cbn. f_equal.
    by replace (256 - length line)%nat with (S (256 - (length line + 1))) by lia.
  - assert (line = []) as -> by (destruct line; [done|simpl in El; lia]).
    specialize (HQ (k_screen k) Hs). cbn [take] in HQ. simpl in HQ. rewrite typed_in_same in HQ by done.
    rewrite (with_same _ _ _ Hc), kset_screen_same in HQ. by apply wp_ret.
Qed.

Lemma wp_key_typed s (Q : unit → kernel D H V → Prop) k i t line :
  console k i t → line_ok t line → vga_ok (k_screen k) → 0 ≤ s < 128 →
  (key_code s = 8 ∨ (length line < 256)%nat) →
  (∀ v, vga_ok v → let k' := kset_screen v (with_terminal i (typed_in (edit (k_keys k) line s) t) k) in
     if decide (key_code s = 10) then
       wp (_ ← update_active (tset_ready true);
           tid ← get_active_terminal_id; on_procs (wake_up_terminal_processes tid)) Q k'
     else Q tt k') →
  wp (key_typed s) Q k.
Proof.
  intros Hc Hl Hs Hsc Hroom HQ. unfold key_typed. apply wp_bind.
  eapply wp_liftO; [by apply lookup_map|]. fold (key_code s). unfold edit in HQ.
  destruct (decide (key_code s = 8)) as [E8|E8].
  - eapply wp_backspace; [done..|]. intros v Hv. specialize (HQ v Hv). cbv zeta in HQ.
    by rewrite decide_False in HQ by (rewrite E8; done).
  - destruct Hroom as [|Hroom]; [done|]. apply wp_bind, wp_zoom, wp_get.
    assert (∀ k : kernel D H V, kset_keys (k_keys k) k = k) as -> by (by intros []). apply wp_bind.
    eapply wp_liftO; [by apply lookup_map|]. apply wp_bind.
    apply (wp_mono _ (λ _ k', ∃ v, vga_ok v ∧ k' = kset_screen v
      (with_terminal i (typed_in (line ++ [key_char (k_keys k) s]) t) k))).
    { unfold key_char. destruct (is_shifted _ _); eapply wp_type_char; try done; eauto. }
    intros [] k' (v & Hv & ->). specialize (HQ v Hv). cbv zeta in HQ. by case_decide; [|apply wp_ret].
Qed.

Lemma with_screen k i t v : with_terminal i t (kset_screen v k) = kset_screen v (with_terminal i t k).
Proof. done. Qed.

(** Enter: the line is complete and the readers are woken. *)
Lemma wp_complete (Q : unit → kernel D H V → Prop) k i t c qs :
  console k i t → ring (k_procs k) c qs → current_process_g (k_procs k) = c → (length qs < WALK_FUEL)%nat →
  (∀ m, ring (set_nodes m (k_procs k)) c qs →
     datas (set_nodes m (k_procs k)) =
       woken_all (blocked_on (i + 1)) (set_state PROCESS_READY) (c :: qs) (datas (k_procs k)) →
     Q tt (kset_procs (set_nodes m (k_procs k)) (with_terminal i (tset_ready true t) k))) →
  wp (_ ← update_active (tset_ready true);
      tid ← get_active_terminal_id; on_procs (wake_up_terminal_processes tid)) Q k.
Proof.
  intros Hc Hr Hcur Hl HQ. apply wp_bind. eapply wp_update_active; [done|]. apply wp_bind.
  eapply wp_active_id; [by eapply console_with|]. apply wp_zoom. unfold wake_up_terminal_processes.
  apply wp_bind, wp_gets. change (k_procs (with_terminal i (tset_ready true t) k)) with (k_procs k).
  rewrite Hcur. eapply wp_wake_ring; [done..|]. intros m Hlk Hd. apply HQ; [|done]. by eapply ring_ext.
Qed.

(** Reading a complete line. *)
Lemma wp_read_line n others buf count (Q : Z * list Z → kernel D H V → Prop) k i t line :
  console k i t → line_ok t line → is_input_ready t = true →
  0 ≤ count → Z.min count (zlen line) ≤ zlen buf →
  (let n := Z.to_nat (Z.min count (zlen line)) in
   Q (Z.min count (zlen line), take n line ++ drop n buf)
     (with_terminal i (tset_ready false (typed_in [] t)) k)) →
  wp (read_terminal_input (S n) others buf count) Q k.
Proof.
  intros Hc Hl Hready Hcount Hbuf HQ. pose proof Hl as (Eb & El & Hle & Hby).
  unfold read_terminal_input. apply wp_bind. cbn [iter]. apply wp_bind, wp_bind.
  eapply wp_active_terminal; [done|]. rewrite Hready. apply wp_ret, wp_ret. apply wp_bind.
  eapply wp_update_active; [done|]. apply wp_bind.
  eapply wp_active_terminal; [by eapply console_with|]. cbn [input_len tset_ready input_buf].
  assert ((if decide (input_len t < count) then s32 (input_len t) else s32 count) = Z.min count (zlen line)) as ->.
  { rewrite El. case_decide; rewrite s32_small by lia; lia. }
  set (n' := Z.min count (zlen line)) in *. cbv zeta in HQ.
  assert (Forall is_byte (input_buf t) ∧ length (input_buf t) = 256%nat) as [Hbb Hlb].
  { rewrite Eb. split; [|rewrite length_app, length_replicate; lia].
    apply Forall_app_2; [done|]. apply Forall_replicate. unfold is_byte. lia. }
  apply wp_bind. eapply wp_liftO; [rewrite u32_small by lia; apply memcpy_spec; [done|lia|lia]|].
  apply wp_bind. eapply wp_liftO.
  { replace INPUT_BUFFER_SIZE with (zlen (input_buf t)) by (unfold INPUT_BUFFER_SIZE; lia). apply memset_all. lia. }
  apply wp_bind. eapply wp_update_again; [done|]. apply wp_bind. eapply wp_update_again; [done|]. apply wp_ret.
  rewrite Hlb, Eb, take_app_le by lia. exact HQ.
Qed.

(** ** Typing and reading *)

Fixpoint press (ss : list Z) : M (kernel D H V) unit :=
  match ss with [] => mret tt | s :: ss => _ ← keyboard_handler s; press ss end.

Lemma handler_types s k : types s → keyboard_handler s k = key_typed s k.
Proof.
  intros (Hs & Hm & _). unfold keyboard_handler. rewrite decide_False.
  - unfold modifiers in Hm. rewrite !not_elem_of_cons in Hm. destruct Hm as (? & ? & ? & ? & ? & ? & ? & _).
    by rewrite !decide_False by done.
  - intros Hn. apply Hn. change 0x80 with (2 ^ 7). apply Z.bits_inj'. intros j Hj.
    rewrite Z.land_spec, Z.bits_0, Z.pow2_bits_eqb by lia. destruct (Z.eqb_spec 7 j) as [<-|]; [|by rewrite andb_false_r].
    rewrite (testbit_above s 7 7) by lia. done.
Qed.
Lemma wp_handler_types s Q k : types s → wp (key_typed s) Q k → wp (keyboard_handler s) Q k.
Proof. intros Hs. unfold wp. by rewrite handler_types. Qed.
Lemma wp_handler_enter Q k : wp (key_typed 0x1C) Q k → wp (keyboard_handler 0x1C) Q k.
Proof. done. Qed.

Lemma wp_press ss (Q : unit → kernel D H V → Prop) k i t line :
  console k i t → line_ok t line → vga_ok (k_screen k) → Forall types ss → (length line + length ss ≤ 256)%nat →
  (∀ v line', vga_ok v → line' = fold_left (edit (k_keys k)) ss line → (length line' ≤ length line + length ss)%nat →
     Forall is_byte line' → Q tt (kset_screen v (with_terminal i (typed_in line' t) k))) →
  wp (press ss) Q k.
Proof.
  revert k t line. induction ss as [|s ss IH]; intros k t line Hc Hl Hs Ht Hlen HQ; cbn [press].
  - apply wp_ret. specialize (HQ _ line Hs eq_refl). rewrite typed_in_same, (with_same _ _ _ Hc), kset_screen_same in HQ by done.
    apply HQ; [simpl; lia|apply Hl].
  - apply Forall_cons_iff in Ht as [Hts Ht]. simpl in Hlen. apply wp_bind, wp_handler_types; [done|].
    assert (length (edit (k_keys k) line s) ≤ S (length line))%nat as Hle.
    { unfold edit. case_decide; rewrite ?length_take, ?length_app; simpl; lia. }
    eapply wp_key_typed; [done..|apply Hts|lia|]. intros v Hv k'. rewrite decide_False by apply Hts.
    eapply (IH k' (typed_in (edit (k_keys k) line s) t)).
    + by apply console_screen, (console_with k i t).
    + apply typed_in_ok; [lia|]. apply edit_byte. apply Hl.
    + done.
    + done.
    + lia.
    + intros v' line' Hv' El Hl' Hb. specialize (HQ v' line' Hv' El ltac:(simpl; lia) Hb).
      subst k'. cbn [k_keys] in *. rewrite with_screen, with_with. exact HQ.
Qed.
End specs.

(** ** Properties *)

(** C27: Typing a line and reading it back: after any sequence of typing keys,
    backspaces among them, that fits the buffer, Enter makes every process
    blocked on the terminal READY and a read with room for it returns exactly the
    line the line editor computes, with its newline; the terminal is empty and
    not ready afterwards. *)
Theorem typed_line_is_read {D H V} `{Ports V} (k : kernel D H V) i t ss c qs n others buf count :
  console k i t → line_ok t [] → vga_ok (k_screen k) → Forall types ss → (length ss < 256)%nat →
  ring (k_procs k) c qs → current_process_g (k_procs k) = c → (length qs < WALK_FUEL)%nat →
  let line := fold_left (edit (k_keys k)) ss [] ++ [10] in
  zlen line ≤ count → zlen line ≤ zlen buf →
  wp (_ ← press ss; _ ← keyboard_handler 0x1C; read_terminal_input (S n) others buf count)
     (λ r k', r = (zlen line, line ++ drop (length line) buf) ∧
        (∃ t', console k' i t' ∧ line_ok t' [] ∧ is_input_ready t' = false) ∧
        datas (k_procs k') =
          woken_all (blocked_on (i + 1)) (set_state PROCESS_READY) (c :: qs) (datas (k_procs k))) k.
Proof.
  intros Hc Hl Hs Ht Hlen Hr Hcur Hq line Hcount Hbuf.
  apply wp_bind. eapply wp_press; [done..|simpl; lia|]. intros v line' Hv El Hle Hb. simpl in Hle.
  assert (line = line' ++ [10]) as Eline by (subst line; by rewrite El).
  assert (key_char (k_keys k) 0x1C = 10) as E10 by (unfold key_char; by destruct (is_shifted _ _)).
  set (k1 := kset_screen v (with_terminal i (typed_in line' t) k)).
  assert (console k1 i (typed_in line' t)) as Hc1 by (by apply console_screen, (console_with k i t)).
  apply wp_bind, wp_handler_enter. eapply (wp_key_typed 0x1C _ k1 i _ line'); [done| | |lia|right; lia|].
  { by apply typed_in_ok; [lia|]. } { done. }
  intros v2 Hv2. cbv zeta. rewrite decide_True by done. unfold edit. rewrite decide_False by done.
  change (k_keys k1) with (k_keys k). rewrite E10, <-Eline.
  assert (length line ≤ 256)%nat as Hl256 by (rewrite Eline, length_app; simpl; lia).
  assert (Forall is_byte line) as Hbl.
  { rewrite Eline. apply Forall_app_2; [done|]. repeat constructor. unfold is_byte; lia. }
  set (t2 := typed_in line _). set (k2 := kset_screen v2 _).
  assert (console k2 i t2) as Hc2 by (apply console_screen; by eapply console_with).
  eapply (wp_complete _ k2); [done..|]. intros m Hr' Hd.
  set (k3 := kset_procs _ _). assert (console k3 i (tset_ready true t2)) as Hc3 by (by eapply console_procs, console_with).
  assert (line_ok (tset_ready true t2) line) as Hl3 by (by apply (typed_in_ok line t)).
  eapply (wp_read_line _ _ _ _ _ k3); [done..|lia|lia|].
  cbv zeta. rewrite Z.min_r, Nat2Z.id, (take_ge line) by lia. split; [done|]. split; [|done].
  eexists. split; [by eapply console_with|]. split; [|done]. apply (typed_in_ok []); [simpl; lia|constructor].
Qed.

(** The buffer has no bound check: with a full line the next key that types
    writes past it. *)
Theorem keyboard_overflows {D H V} `{Ports V} (k : kernel D H V) i t line s :
  console k i t → line_ok t line → length line = 256%nat → types s → key_code s ≠ 8 →
  keyboard_handler s k = Fault.
Proof.
  intros Hc (Eb & El & _ & _) Hl Ht H8.
  rewrite handler_types by done. destruct Ht as (Hs & _ & _).
  assert (active_terminal k = Done (t, k)) as Ea.
  { assert (wp active_terminal (λ a s', a = t ∧ s' = k) k) as (a & s' & -> & -> & ->)%wp_done; [|done].
    by eapply wp_active_terminal. }
  assert (∀ c, type_char c k = Fault) as Hf.
  { intros c. unfold type_char. rewrite (bind_done _ _ _ _ _ Ea). unfold mbind, M_bind, liftO, aset.
    rewrite decide_False; [done|]. rewrite Eb, El, length_app, length_replicate. lia. }
  unfold key_typed. rewrite !lookup_map by done. fold (key_code s).
  rewrite (bind_done _ _ k (key_code s) k eq_refl), decide_False by done. unfold mbind, M_bind. cbn [liftO].
  unfold on_keys, zoom, get. cbn [k_keys kset_keys]. assert (kset_keys (k_keys k) k = k) as -> by (by destruct k).
  destruct (is_shifted _ _); by rewrite Hf.
Qed.

(** ** Witnesses *)

(** The keys of "ls", a mistake and a backspace. *)
Lemma typed_line_is_read_witness :
  wp (_ ← press [0x26; 0x2D; 0x0E; 0x1F]; _ ← keyboard_handler 0x1C; read_terminal_input 1 fault (replicate 80 7) 80)
     (λ r k', r = (3, [108; 115; 10] ++ drop 3 (replicate 80 7)) ∧
        (∃ t', console k' 0 t' ∧ line_ok t' [] ∧ is_input_ready t' = false) ∧
        datas (k_procs k') = woken_all (blocked_on 1) (set_state PROCESS_READY) [1000; 2000; 3000; 4000]
                               (datas (k_procs Sample.state))) Sample.state.
Proof.
  apply (typed_line_is_read Sample.state 0 Sample.terminal_1 [0x26; 0x2D; 0x0E; 0x1F] 1000 [2000; 3000; 4000] 0 fault
    (replicate 80 7) 80).
  - by split.
  - split_and!; [done|done|simpl; lia|constructor].
  - apply screen_ok; lia.
  - by_decide.
  - simpl; lia.
  - apply Process.Demo.state_ring.
  - done.
  - apply WALK_FUEL_big. simpl. lia.
  - by_decide.
  - by_decide.
Defined.

Definition full_terminal : terminal_struct_t :=
  Terminal 1 (replicate 256 97) 256 false 1 (TerminalFds (Some 0) (Some 1) (Some 2)).
Lemma keyboard_overflows_witness :
  keyboard_handler 0x1E (kset_terminals (Terminals [full_terminal; zero_terminal; zero_terminal; zero_terminal] 1) Sample.state) = Fault.
Proof.
  apply (keyboard_overflows _ 0 full_terminal (replicate 256 97)).
  - by split.
  - split_and!; [done|done|by_decide|by_decide].
  - done.
  - by_decide.
  - done.
Defined.
