(* ===== verification/Sched.v ===== *)
(** * Switching processes, the timer and the dispatch of interrupts

    process_manager.c (switch_process, exit_proc), cpu/pit/pit.c, cpu/idt/isr.c.
    A handler runs on the interrupted registers and ends by returning to the
    interrupted code, with the registers as it left them on the stack, or by
    jumping into a process ([control]).  What a system call does is a parameter
    here; Syscalls.v supplies it. *)

From S2P Require Import Prelude Interfaces Io Vga Gdt Idt Paging FatTable Vfs Process Kernel Terminal.

(** ** Definitions *)

Definition PIT_IRQ : Z := 0.
Definition CHANNEL0_PORT : Z := 0x40.
Definition MODE_COMMAND_REGISTER : Z := 0x43.
Definition FREQ_HZ : Z := 1193182.
Definition TARGET_FREQ_HZ : Z := 1000.
Definition EINVAL : Z := 22.

(** *** The clock *)

Definition get_reload_time : Z := u16 (FREQ_HZ / TARGET_FREQ_HZ).
Definition get_expected_clock_fraction (p : pit_state) : Z := u32 (FREQ_HZ - reload_time p * TARGET_FREQ_HZ).
Definition get_system_time : M pit_state Z := gets system_time.

(** The counters of timer_irq, before it acknowledges the interrupt. *)
Definition tick (p : pit_state) : pit_state :=
  let time := u32 (system_time p + 1) in
  let fractions := u32 (system_clock_fractions p + expected_clock_fraction p) in
  if decide (TARGET_FREQ_HZ < fractions)
  then Pit (expected_clock_fraction p) (reload_time p) (u32 (time + 1)) (fractions - TARGET_FREQ_HZ)
         (u32 (context_switch p + 1))
  else Pit (expected_clock_fraction p) (reload_time p) time fractions (u32 (context_switch p + 1)).
Definition reset_context_switch (p : pit_state) : pit_state :=
  Pit (expected_clock_fraction p) (reload_time p) (system_time p) (system_clock_fractions p) 0.
Definition program_pit (p : pit_state) : pit_state :=
  let p := Pit (expected_clock_fraction p) get_reload_time (system_time p) (system_clock_fractions p) (context_switch p) in
  Pit (get_expected_clock_fraction p) (reload_time p) (system_time p) (system_clock_fractions p) (context_switch p).

Definition exception_messages : list string :=
  ["Divide by zero error"; "Debug"; "Non-maskable Interrupt"; "Breakpoint"; "Overflow"; "Bound Range Exceeded";
   "Invalid Opcode"; "Device Not Available"; "Double Fault"; "Coprocessor Segment Overrun"; "Invalid TSS";
   "Segment Not Present"; "Stack-Segment Fault"; "General Protection Fault"; "Page Fault"; "";
   "x87 Floating-Point Exception"; "Alignment Check"; "Machine Check"; "SIMD Floating-Point Exception";
   "Virtualization Exception"; "Control Protection Exception "; ""; ""; ""; ""; ""; "";
   "Hypervisor Injection Exception"; "VMM Communication Exception"; "Security Exception"; ""]%string.

Section operations.
Context {D H V : Type} `{Ports V} `{KernelHeap H}.
(** The address of [tss], which the linker chooses, and the system calls. *)
Context (tss_address : Z) (syscall : int_registers → M (kernel D H V) (control * int_registers)).
Implicit Types k : kernel D H V.

(** *** Processes *)

(** The jump itself is the last step of the model. *)
Definition jump_proc_wrapper (p : Z) : M (kernel D H V) control :=
  n ← on_procs (node p);
  _ ← on_vm (load_pd (page_directory (proc n)));
  _ ← on_gdt (tss_fill_esp0 tss_address (u32 (kernel_stack (proc n))));
  n ← on_procs (node p);
  mret (Jumps (is_kernel_mode (proc n)) (regs (proc n))).

Definition switch_process (r : int_registers) : M (kernel D H V) control :=
  chosen ← on_procs (choose_process r);
  if negb chosen then mret Returns else
  current ← on_procs get_current_process;
  jump_proc_wrapper current.

(** The node is gone once it is freed. *)
Definition free_proc_node (p : Z) : M (kernel D H V) unit :=
  n ← on_procs (node p);
  _ ← k_kfree (page_directory (proc n));
  _ ← k_kfree p;
  on_procs (modify (λ s, set_nodes (delete p (nodes s)) s)).

(** exit_proc up to its jump; the result is the process that runs next. *)
Definition retire_proc (exiting_proc : Z) : M (kernel D H V) Z :=
  head ← on_procs (gets process_list_head);
  _ ← (if decide (head = 0) then on_screen (panic_screen (lit "No process running, Reboot PC1!!!" ++ [0]))
       else mret tt);
  n ← on_procs (node exiting_proc);
  _ ← on_procs (wake_up_waiting_processes (pid (proc n)));
  current ← on_procs (gets current_process_g);
  next_proc ← on_procs (step_round current);
  _ ← on_procs (modify (set_current next_proc));
  _ ← (if decide (next_proc = 0) then on_screen (panic_screen (lit "No process running, Reboot PC2!!!" ++ [0]))
       else mret tt);
  _ ← on_vm (load_pd get_kernel_pd);
  _ ← on_procs (remove_from_linked_list exiting_proc);
  _ ← free_proc_node exiting_proc;
  mret next_proc.

(** A NULL argument is the only one for which the function returns. *)
Definition exit_proc (exiting_proc : Z) : M (kernel D H V) control :=
  if decide (exiting_proc = 0) then mret Returns else
  next_proc ← retire_proc exiting_proc;
  jump_proc_wrapper next_proc.

Definition exit_current_process : M (kernel D H V) control :=
  current ← on_procs (gets current_process_g); exit_proc current.

(** *** The timer *)

Definition pit_init : M (kernel D H V) unit :=
  _ ← on_ports (io_out_byte MODE_COMMAND_REGISTER 0x36);
  _ ← on_pit (modify program_pit);
  p ← on_pit get;
  _ ← on_ports (io_out_byte CHANNEL0_PORT (Z.land (reload_time p) 0xFF));
  _ ← on_ports (io_out_byte CHANNEL0_PORT (Z.shiftr (reload_time p) 8));
  _ ← register_isr_handler (PIC1_IRQ_INDEX + PIT_IRQ) h_timer_irq;
  on_ports (pic_toggle_irq PIT_IRQ true).

Definition timer_irq (r : int_registers) : M (kernel D H V) control :=
  _ ← on_pit (modify tick);
  _ ← on_ports (irq_exit PIT_IRQ);
  p ← on_pit get;
  if decide (context_switch p = 1) then
    _ ← on_pit (modify reset_context_switch);
    scheduling ← on_procs is_schduling;
    if (scheduling : bool) then switch_process r else mret Returns
  else mret Returns.

(** *** Dispatch *)

Definition example_irq_handler (r : int_registers) : M (kernel D H V) unit :=
  on_screen (vga_printf (lit "IRQ TRIGGERED %d" ++ [10; 0]) [VaInt (s32 (r_interrupt r - PIC1_IRQ_INDEX))]).

Definition run_handler (h : isr_handler) (r : int_registers) : M (kernel D H V) (control * int_registers) :=
  match h with
  | h_timer_irq => c ← timer_irq r; mret (c, r)
  | h_keyboard_irq => _ ← keyboard_irq r; mret (Returns, r)
  | h_switch_process => c ← switch_process r; mret (c, r)
  | h_handle_syscall => syscall r
  | h_example_irq => _ ← example_irq_handler r; mret (Returns, r)
  end.

Definition isr_wrapper (r : int_registers) : M (kernel D H V) (control * int_registers) :=
  h ← reads k_handlers (r_interrupt r);
  match h with
  | Some h => run_handler h r
  | None =>
      if decide (PIC1_IRQ_INDEX ≤ r_interrupt r) then
        _ ← on_screen (vga_printf (lit "Unhandled interrupt %d" ++ [10; 0]) [VaInt (s32 (r_interrupt r))]);
        mret (Returns, r)
      else
        c ← (if decide (r_interrupt r = 14) then
               _ ← on_screen (vga_printf (lit "Segmentation fault" ++ [10] ++ lit "regs->eip=%x" ++ [10] ++
                                          lit "regs->eax=%x" ++ [10; 0]) [VaInt (s32 (r_eip r)); VaInt (s32 (r_eax r))]);
               exit_current_process
             else mret Returns : M (kernel D H V) control);
        match c with
        | Jumps b g => mret (Jumps b g, r)
        | Returns =>
            m ← liftO (of_option (aget exception_messages (r_interrupt r)));
            _ ← on_screen (panic_screen (lit m ++ [0]));
            mret (Returns, r)
        end
  end.
End operations.

(** ** Lemmas *)

Lemma bind_wp {S A B} (m : M S A) (f : A → M S B) (P : A → S → Prop) (s : S) :
  wp m P s → ∃ a s', P a s' ∧ (m ≫= f) s = f a s'.
Proof. intros (a & s' & E & HP)%wp_done. exists a, s'. split; [done|]. by apply bind_done. Qed.

(** Taking a process out of the ring. *)
Lemma ring_remove (s' : procs) q qs l r :
  q :: qs = r ++ l → plist s' (l ++ r) → ring s' q qs.
Proof.
  intros E Hp. destruct r as [|q' r]; simpl in E.
  - exists [], qs. rewrite app_nil_r in Hp. split; [by rewrite E|by rewrite app_nil_r].
  - injection E as <- ->. by exists l, r.
Qed.

Lemma plist_delete (s : procs) ps p : plist s ps → p ∉ ps → plist (set_nodes (delete p (nodes s)) s) ps.
Proof.
  intros [] Hp. split; try done. eapply node_seg_ext; [|done]. intros q Hq. rewrite !links_lookup. cbn.
  rewrite lookup_delete_ne by set_solver. done.
Qed.
Lemma datas_delete (s : procs) p : datas (set_nodes (delete p (nodes s)) s) = delete p (datas s).
Proof. unfold datas. cbn. by rewrite fmap_delete. Qed.

Lemma tss_fill_done a e g : length (gdt_table g) = 6%nat → ∃ g', tss_fill_esp0 a e g = Done (tt, g') ∧ length (gdt_table g') = 6%nat.
Proof.
  intros Hl. unfold tss_fill_esp0, tss_fill_entry, gdt_fill_entry_as_tss, set_entry, mbind, M_bind, modify, reads, writes.
  cbn [gdt_table Gdt.set_tss]. destruct (aget_is_Some (gdt_table g) 5) as [x ->]; [lia|].
  rewrite aset_in by (cbn; lia). eexists. split; [done|]. cbn. by rewrite length_insert.
Qed.

Section specs.
Context {D H V : Type} `{Ports V} `{KernelHeapLaws H}.
Context (tss_address : Z).
Implicit Types k : kernel D H V.


Lemma wp_on_procs {A} (m : M procs A) (P : A → procs → Prop) (Q : A → kernel D H V → Prop) k :
  wp m P (k_procs k) → (∀ a s, P a s → Q a (kset_procs s k)) → wp (on_procs m) Q k.
Proof. intros Hm HQ. apply wp_zoom. by eapply wp_mono. Qed.

Lemma wp_k_kfree p n (Q : unit → kernel D H V → Prop) k :
  heap_room n (heap (k_fs k)) →
  (∀ h, heap_room n h → Q tt (kset_fs (set_heap h (k_fs k)) k)) → wp (k_kfree p) Q k.
Proof.
  intros Hh HQ. destruct (kfree_ok _ p _ Hh) as (h & E & Hh'). apply wp_zoom, wp_zoom.
  eapply wp_of_done; [exact E|]. by apply HQ.
Qed.

(** Loading the process's address space and stack, then its registers. *)
Lemma wp_jump k p x vm' (Q : control → kernel D H V → Prop) :
  datas (k_procs k) !! p = Some x → load_pd (page_directory x) (k_vm k) = Done (tt, vm') →
  length (gdt_table (k_gdt k)) = 6%nat →
  (∀ g, Q (Jumps (is_kernel_mode x) (regs x)) (kset_gdt g (kset_vm vm' k))) →
  wp (jump_proc_wrapper tss_address p) Q k.
Proof.
  intros Hx Hl Hg HQ. apply wp_bind, wp_zoom. eapply wp_proc; [done|]. intros n En Ex.
  rewrite kset_procs_same, Ex. apply wp_bind. eapply wp_zoom_done; [exact Hl|]. apply wp_bind.
  destruct (tss_fill_done tss_address (u32 (kernel_stack x)) (k_gdt k) Hg) as (g & Eg & _).
  eapply wp_zoom_done; [exact Eg|]. apply wp_bind, wp_zoom.
  eapply wp_proc; [exact Hx|]. intros n' _ ->. apply wp_ret.
  specialize (HQ g). by destruct k.
Qed.

(** Woken processes keep everything but their state. *)
Lemma woken_waiting w ps m p x :
  m !! p = Some x →
  ∃ y, woken_all (waits_for w) (λ x, set_waiting_for 0 (set_state PROCESS_READY x)) ps m !! p = Some y ∧
       page_directory y = page_directory x ∧ is_kernel_mode y = is_kernel_mode x ∧ regs y = regs x ∧
       pid y = pid x.
Proof.
  intros Hx. rewrite woken_all_lookup, Hx. eexists. split; [done|]. case_decide; [|done].
  unfold wake_if. by destruct (waits_for w x).
Qed.

(** exit_proc up to its jump. *)
Record retired (p : Z) (x : process_t) (qs : list Z) (vm1 : vm) (n : Z) k k' : Prop := {
  re_datas : datas (k_procs k') = delete p
    (woken_all (waits_for (pid x)) (λ x, set_waiting_for 0 (set_state PROCESS_READY x)) (p :: qs) (datas (k_procs k)));
  re_list : ∃ l r, qs = r ++ l ∧ plist (k_procs k') (l ++ r);
  re_current : current_process_g (k_procs k') = hd p qs;
  re_vm : k_vm k' = vm1;
  re_gdt : k_gdt k' = k_gdt k;
  re_room : heap_room n (heap (k_fs k'));
}.

Lemma wp_retire k p qs x vm1 n :
  ring (k_procs k) p qs → current_process_g (k_procs k) = p → (length qs < WALK_FUEL)%nat →
  datas (k_procs k) !! p = Some x → load_pd get_kernel_pd (k_vm k) = Done (tt, vm1) →
  heap_room n (heap (k_fs k)) →
  wp (retire_proc p) (λ q k', q = hd p qs ∧ retired p x qs vm1 n k k') k.
Proof.
  intros Hr Hcur Hl Hx Hvm Hroom. destruct (ring_member _ _ _ p Hr) as [Hp0 _]; [set_solver|].
  assert (hd p qs ≠ 0) as Hq0 by (apply (ring_member _ _ _ _ Hr); destruct qs; set_solver).
  assert (process_list_head (k_procs k) ≠ 0) as Hh.
  { destruct Hr as (l & r & Hpl & _). rewrite (pl_head _ _ Hpl). pose proof (pl_null _ _ Hpl). destruct l; cbn; set_solver. }
  unfold retire_proc. apply wp_bind, wp_zoom, wp_gets. rewrite kset_procs_same, decide_False by done.
  apply wp_bind, wp_ret, wp_bind, wp_zoom. eapply wp_proc; [done|]. intros nd _ ->. rewrite kset_procs_same.
  apply wp_bind, wp_zoom, wp_bind, wp_gets. rewrite Hcur. eapply wp_wake_ring; [done..|]. intros m Hlm Hdm.
  set (s1 := set_nodes m (k_procs k)) in *. assert (ring s1 p qs) as Hr1 by (by eapply ring_ext).
  apply wp_bind, wp_zoom, wp_gets, wp_bind, wp_zoom. cbn [k_procs kset_procs].
  change (current_process_g s1) with (current_process_g (k_procs k)). rewrite Hcur.
  eapply wp_ring_step; [done|]. apply wp_bind, wp_zoom, wp_modify. rewrite decide_False by done.
  apply wp_bind, wp_ret, wp_bind. eapply wp_zoom_done; [exact Hvm|].
  destruct Hr1 as (l & r & Hpl & Eqs). apply wp_bind, wp_zoom. cbn [k_procs kset_procs kset_vm].
  eapply wp_remove; [by eapply plist_ext|]. intros s2 Hp2 Hre. apply wp_bind, wp_bind, wp_zoom.
  destruct (woken_waiting (pid x) (p :: qs) _ _ _ Hx) as (y & Hy & _). rewrite <-Hdm in Hy.
  eapply (wp_proc p y); [cbn; by rewrite (rl_datas _ _ Hre)|]. intros nd' _ ->.
  apply wp_bind. eapply wp_k_kfree; [exact Hroom|]. intros h1 Hh1. apply wp_bind. eapply wp_k_kfree; [exact Hh1|]. intros h2 Hh2.
  apply wp_zoom, wp_modify, wp_ret. split; [done|]. pose proof (pl_nodup _ _ Hpl) as (_ & Hd & [Hpr _]%NoDup_cons)%list.NoDup_app.
  split; cbn [k_procs k_vm k_gdt k_fs kset_procs kset_fs kset_vm].
  - rewrite datas_delete, (rl_datas _ _ Hre). change (datas (set_current (hd p qs) s1)) with (datas s1). by rewrite Hdm.
  - exists l, r. split; [done|]. apply plist_delete; [done|]. set_solver.
  - exact (rl_current _ _ Hre).
  - done.
  - done.
  - done.
Qed.

(** ** The system clock *)

Lemma tick_step p n :
  expected_clock_fraction p = 182 → 0 ≤ n → 2 * n + 2 < 4294967296 →
  (0 < n ∧ 0 < system_clock_fractions p ≤ 1000) ∨ (n = 0 ∧ system_clock_fractions p = 0) →
  1000 * (system_time p - n) + system_clock_fractions p = 182 * n →
  expected_clock_fraction (tick p) = 182 ∧ 0 < system_clock_fractions (tick p) ≤ 1000 ∧
  1000 * (system_time (tick p) - (n + 1)) + system_clock_fractions (tick p) = 182 * (n + 1).
Proof.
  intros He Hn Hb Hf Ht. assert (0 ≤ system_clock_fractions p ≤ 1000) by lia.
  assert (0 ≤ system_time p ≤ 2 * n) by lia. unfold tick. rewrite He, (u32_small (system_time p + 1)), (u32_small (system_clock_fractions p + 182)),
    (u32_small (system_time p + 1 + 1)) by lia.
  unfold TARGET_FREQ_HZ. case_decide; cbn; lia.
Qed.
End specs.

(** ** Properties *)

(** C28: A process that exits while there are others: the processes waiting for it are
    READY, it is out of the list and its node is freed, and the kernel jumps into
    the process after it with the registers and the address space that process
    was left with.  The jump does not look at that process's state: it resumes
    even if it is blocked or waiting, and it is not marked as running. *)
Theorem exit_current_process_resumes_next {D H V} `{Ports V} `{KernelHeapLaws H} a (k : kernel D H V) p q qs x y vm1 vm2 n :
  ring (k_procs k) p (q :: qs) → current_process_g (k_procs k) = p → (length (q :: qs) < WALK_FUEL)%nat →
  datas (k_procs k) !! p = Some x → datas (k_procs k) !! q = Some y →
  load_pd get_kernel_pd (k_vm k) = Done (tt, vm1) → load_pd (page_directory y) vm1 = Done (tt, vm2) →
  heap_room n (heap (k_fs k)) → length (gdt_table (k_gdt k)) = 6%nat →
  wp (exit_current_process a)
     (λ c k', c = Jumps (is_kernel_mode y) (regs y) ∧ k_vm k' = vm2 ∧
        ring (k_procs k') q qs ∧ current_process_g (k_procs k') = q ∧
        datas (k_procs k') = delete p (woken_all (waits_for (pid x))
          (λ x, set_waiting_for 0 (set_state PROCESS_READY x)) (p :: q :: qs) (datas (k_procs k)))) k.
Proof.
  intros Hr Hcur Hl Hx Hy Hvm1 Hvm2 Hroom Hg. destruct (ring_member _ _ _ p Hr) as [Hp0 _]; [set_solver|].
  pose proof (ring_nodup _ _ _ Hr) as [Hpq _]%NoDup_cons.
  apply wp_bind, wp_zoom, wp_gets. rewrite kset_procs_same, Hcur. unfold exit_proc. rewrite decide_False by done.
  apply wp_bind. eapply wp_mono; [by eapply wp_retire|]. intros q' k1 [-> [Hd (l & r & Eqs & Hpl) Hc Hv Hg1 _]].
  cbn [hd] in *. destruct (woken_waiting (pid x) (p :: q :: qs) _ _ _ Hy) as (y' & Hy' & Epd & Em & Er & _).
  eapply (wp_jump _ _ _ y' vm2).
  - rewrite Hd, lookup_delete_ne by set_solver. exact Hy'.
  - by rewrite Epd, Hv.
  - by rewrite Hg1.
  - intros g. rewrite Em, Er. split_and!; try done. by eapply ring_remove.
Qed.

(** The last process must not exit: the kernel frees it and then jumps into it. *)
Theorem last_process_exit_faults {D H V} `{Ports V} `{KernelHeapLaws H} a (k : kernel D H V) p x vm1 n :
  ring (k_procs k) p [] → current_process_g (k_procs k) = p → datas (k_procs k) !! p = Some x →
  load_pd get_kernel_pd (k_vm k) = Done (tt, vm1) → heap_room n (heap (k_fs k)) →
  exit_current_process a k = Fault.
Proof.
  intros Hr Hcur Hx Hvm Hroom. destruct (ring_member _ _ _ p Hr) as [Hp0 _]; [set_solver|].
  unfold exit_current_process. erewrite bind_done by (by apply zoom_done). rewrite kset_procs_same, Hcur.
  unfold exit_proc. rewrite decide_False by done.
  assert (length (@nil Z) < WALK_FUEL)%nat as Hl by (unfold WALK_FUEL; simpl; lia).
  destruct (bind_wp _ (jump_proc_wrapper a) _ k (wp_retire k p [] x vm1 n Hr Hcur Hl Hx Hvm Hroom)) as (q & k1 & [-> Hre] & E).
  etrans; [exact E|]. clear E. cbn [hd].
  unfold jump_proc_wrapper, mbind, M_bind, on_procs, zoom, node.
  assert (nodes (k_procs k1) !! p = None) as ->; [|done].
  pose proof (re_datas _ _ _ _ _ _ _ Hre) as Hd. apply (f_equal (.!! p)) in Hd.
  rewrite lookup_delete_eq, datas_lookup in Hd. by destruct (nodes (k_procs k1) !! p).
Qed.

(** C24: A switch runs the first READY process after the current one: it loads that
    process's address space and jumps to its saved registers; the registers of
    the process it leaves are saved in its node, each under its own name
    ([saved_registers]), and that process is READY when it was running. *)
Theorem switch_process_switches {D H V} `{Ports V} `{KernelHeapLaws H} a (k : kernel D H V) r c qs pre p post y vm' :
  ring (k_procs k) c qs → current_process_g (k_procs k) = c → qs ++ [c] = pre ++ p :: post →
  Forall (λ q, ¬ is_ready (leave r c (datas (k_procs k))) q) pre → is_ready (leave r c (datas (k_procs k))) p →
  (length pre < WALK_FUEL)%nat → leave r c (datas (k_procs k)) !! p = Some y →
  load_pd (page_directory y) (k_vm k) = Done (tt, vm') → length (gdt_table (k_gdt k)) = 6%nat →
  wp (switch_process a r)
     (λ ctl k', ctl = Jumps (is_kernel_mode y) (regs y) ∧ k_vm k' = vm' ∧
        ring (k_procs k') p (post ++ pre) ∧ current_process_g (k_procs k') = p ∧
        datas (k_procs k') = alter (set_state PROCESS_RUNNING) p (leave r c (datas (k_procs k))) ∧
        (c ≠ p → regs <$> datas (k_procs k') !! c = Some (saved_registers r))) k.
Proof.
  intros Hr Hcur E Hpre Hp Hf Hy Hvm Hg. destruct (ring_member _ _ _ c Hr) as [_ [z Hz]]; [set_solver|].
  apply wp_bind, wp_zoom. unfold choose_process. eapply (wp_choose _ r _ c qs); try done.
  intros s' Hr' Hc' Hd'. cbn [negb]. apply wp_bind, wp_zoom, wp_gets.
  change (kset_procs (k_procs (kset_procs s' k)) (kset_procs s' k)) with (kset_procs s' k).
  cbn [k_procs kset_procs]. rewrite Hc'.
  eapply (wp_jump _ _ _ (set_state PROCESS_RUNNING y) vm').
  - cbn. rewrite Hd', lookup_alter. by rewrite decide_True, Hy.
  - done.
  - done.
  - intros g. split_and!; try done. intros Hcp. cbn. rewrite Hd', lookup_alter_ne by done.
    unfold leave. rewrite lookup_alter, decide_True, Hz by done. done.
Qed.

(** C30: The clock: [n] timer interrupts after [pit_init], the system time is [n] plus
    182 thousandths of [n], rounded so that the fractions stay between 1 and 1000:
    the correction the code adds makes the clock run 18 % fast. *)
Theorem system_time_runs n :
  0 < n < 2147483647 →
  let p := Nat.iter (Z.to_nat n) tick (program_pit pit_statics) in
  system_time p = n + (182 * n - 1) / 1000 ∧ 0 < system_clock_fractions p ≤ 1000.
Proof.
  intros Hn. assert (∀ m, (m < 2147483647)%Z → 0 ≤ m → let p := Nat.iter (Z.to_nat m) tick (program_pit pit_statics) in
    expected_clock_fraction p = 182 ∧ ((0 < m ∧ 0 < system_clock_fractions p ≤ 1000) ∨ (m = 0 ∧ system_clock_fractions p = 0)) ∧
    1000 * (system_time p - m) + system_clock_fractions p = 182 * m) as Hall.
  { intros m Hm Hm0. revert Hm. pattern m. apply natlike_ind; [| |done].
    - intros _. split; [done|]. split; [by right|done].
    - intros j Hj IH Hb. rewrite Z2Nat.inj_succ by done. cbn [Nat.iter nat_rect].
      destruct IH as (He & Hf & Ht); [lia|].
      destruct (tick_step _ j He Hj ltac:(lia) Hf Ht) as (He' & Hf' & Ht'). cbv zeta. unfold Z.succ.
      split; [done|]. split; [left; split; [lia|done]|done]. }
  destruct (Hall n) as (_ & Hf & Ht); [lia..|]. intros p. fold p in Hf, Ht. clearbody p.
  destruct Hf as [[_ Hf]|[-> _]]; [|lia].
  split; [|done]. assert ((182 * n - 1) / 1000 = system_time p - n) as ->; [|lia].
  symmetry. apply (Z.div_unique _ _ _ (system_clock_fractions p - 1)); [lia|]. lia.
Qed.

(** ** Witnesses *)

Lemma sample_room : heap_room 0 (heap (k_fs Sample.state)).
Proof. split; by vm_compute. Qed.

(** Process 2 is blocked on the terminal, and is resumed all the same. *)
Lemma exit_current_process_resumes_next_witness :
  state (Process.Demo.process 2 0 PROCESS_BLOCKED) = PROCESS_BLOCKED ∧
  wp (exit_current_process 0xC0200000)
     (λ c k', c = Jumps false zero_regs ∧ k_vm k' = Sample.machine_of 2 ∧
        ring (k_procs k') 2000 [3000; 4000] ∧ current_process_g (k_procs k') = 2000 ∧
        datas (k_procs k') = delete 1000 (woken_all (waits_for 1)
          (λ x, set_waiting_for 0 (set_state PROCESS_READY x)) [1000; 2000; 3000; 4000]
          (datas (k_procs Sample.state)))) Sample.state.
Proof.
  split; [reflexivity|].
  apply (exit_current_process_resumes_next 0xC0200000 Sample.state 1000 2000 [3000; 4000]
    (Process.Demo.process 1 0 PROCESS_RUNNING) (Process.Demo.process 2 0 PROCESS_BLOCKED)
    Sample.kernel_machine (Sample.machine_of 2) 0).
  - apply Process.Demo.state_ring.
  - reflexivity.
  - apply WALK_FUEL_big. simpl. lia.
  - vm_compute. reflexivity.
  - vm_compute. reflexivity.
  - apply Sample.load_kernel. by_decide.
  - apply (Sample.load_process 2). by_decide.
  - apply sample_room.
  - reflexivity.
Defined.

Definition alone : procs := Procs (list_to_map [(1000, Node (Process.Demo.process 1 0 PROCESS_RUNNING) 0 0)])
  1000 1000 2 1000 true true.
Lemma alone_ring : ring alone 1000 [].
Proof. exists [], []. split; [|done]. split; [by_decide|by_decide|done|done|]. cbn [seg hd]. split_and!; by_decide || done. Qed.
Lemma last_process_exit_faults_witness : exit_current_process 0xC0200000 (kset_procs alone Sample.state) = Fault.
Proof.
  apply (last_process_exit_faults 0xC0200000 (kset_procs alone Sample.state) 1000
    (Process.Demo.process 1 0 PROCESS_RUNNING) Sample.kernel_machine 0).
  - apply alone_ring.
  - reflexivity.
  - vm_compute. reflexivity.
  - apply (Sample.load_kernel 1). by_decide.
  - apply sample_room.
Defined.

Lemma switch_process_switches_witness :
  wp (switch_process 0xC0200000 Process.Demo.timer_frame)
     (λ ctl k', ctl = Jumps false zero_regs ∧ k_vm k' = Sample.machine_of 3 ∧
        ring (k_procs k') 3000 ([4000; 1000] ++ [2000]) ∧ current_process_g (k_procs k') = 3000 ∧
        datas (k_procs k') =
          alter (set_state PROCESS_RUNNING) 3000 (leave Process.Demo.timer_frame 1000 (datas (k_procs Sample.state))) ∧
        (1000 ≠ 3000 → regs <$> datas (k_procs k') !! 1000 = Some (saved_registers Process.Demo.timer_frame))) Sample.state.
Proof.
  apply (switch_process_switches 0xC0200000 Sample.state Process.Demo.timer_frame 1000 [2000; 3000; 4000] [2000] 3000
    [4000; 1000] (Process.Demo.process 3 0 PROCESS_READY) (Sample.machine_of 3)).
  - apply Process.Demo.state_ring.
  - reflexivity.
  - reflexivity.
  - repeat constructor. by_decide.
  - by_decide.
  - apply WALK_FUEL_big. simpl. lia.
  - vm_compute. reflexivity.
  - apply (Sample.switch_process_pd 1 3); by_decide.
  - reflexivity.
Defined.

Lemma system_time_runs_witness :
  let p := Nat.iter (Z.to_nat 1000) tick (program_pit pit_statics) in
  system_time p = 1181 ∧ 0 < system_clock_fractions p ≤ 1000.
Proof. apply (system_time_runs 1000). lia. Defined.
