(* ===== verification/Elf.v ===== *)
(** * ELF files: process/elf/parser.c, process/elf/elf_header.h

    The parser casts pointers into the file to structures; here a structure is
    decoded from the bytes at the pointer, and a read past the end of the file is
    a [Fault].  A pointer into the file is its offset. *)

From S2P Require Import Prelude.

(** ** Definitions *)

Definition EI_NIDENT : Z := 16.
Definition sizeof_elf_hdr : Z := 52.
Definition sizeof_elf_Shdr : Z := 40.

Record elf_hdr := ElfHdr {
  e_ident : list Z; e_type : Z; e_machine : Z; e_version : Z; e_entry : Z; e_phoff : Z; e_shoff : Z; e_flags : Z;
  e_ehsize : Z; e_phentsize : Z; e_phnum : Z; e_shentsize : Z; e_shnum : Z; e_shstrndx : Z }.

Record elf_Shdr := ElfShdr {
  name_offset : Z; sh_type : Z; sh_flags : Z; virtual_address : Z; file_offset : Z; sh_size : Z;
  associated_section_index : Z; extra_information : Z; alignment : Z; entry_size : Z }.

Definition elf_section_header_type_program_data : Z := 1.
Definition elf_section_header_type_bss : Z := 8.
(** [flags.occupies_memory_during_execution] *)
Definition occupies_memory (s : elf_Shdr) : bool := Z.testbit (sh_flags s) 1.

(** The [n]-byte little-endian field at [off]. *)
Definition bytes_field (b : list Z) (off n : nat) : Z := le_val (take n (drop off b)).

(** The structure at offset [off] of the file. *)
Definition struct_at (content : list Z) (off size : Z) : outcome (list Z) :=
  if decide (0 ≤ off ∧ off + size ≤ zlen content)
  then Done (take (Z.to_nat size) (drop (Z.to_nat off) content)) else Fault.

Definition elf_get_header (content : list Z) : outcome elf_hdr :=
  b ← struct_at content 0 sizeof_elf_hdr;
  Done {| e_ident := take 16 b; e_type := bytes_field b 16 2; e_machine := bytes_field b 18 2;
          e_version := bytes_field b 20 4; e_entry := bytes_field b 24 4; e_phoff := bytes_field b 28 4;
          e_shoff := bytes_field b 32 4; e_flags := bytes_field b 36 4; e_ehsize := bytes_field b 40 2;
          e_phentsize := bytes_field b 42 2; e_phnum := bytes_field b 44 2; e_shentsize := bytes_field b 46 2;
          e_shnum := bytes_field b 48 2; e_shstrndx := bytes_field b 50 2 |}.

Definition elf_Shdr_at (content : list Z) (off : Z) : outcome elf_Shdr :=
  b ← struct_at content off sizeof_elf_Shdr;
  Done {| name_offset := bytes_field b 0 4; sh_type := bytes_field b 4 4; sh_flags := bytes_field b 8 4;
          virtual_address := bytes_field b 12 4; file_offset := bytes_field b 16 4; sh_size := bytes_field b 20 4;
          associated_section_index := bytes_field b 24 4; extra_information := bytes_field b 28 4;
          alignment := bytes_field b 32 4; entry_size := bytes_field b 36 4 |}.

Definition elf_is_valid_and_loadable (content : list Z) (content_len : Z) : outcome bool :=
  if decide (content_len < sizeof_elf_hdr) then Done false else
  hdr ← elf_get_header content;
  if decide (e_entry hdr = 0) then Done false else
  if decide (take 4 (e_ident hdr) ≠ 0x7f :: lit "ELF") then Done false else Done true.

Definition elf_get_program_header (content : list Z) (content_len : Z) : outcome (option Z) :=
  header ← elf_get_header content;
  if decide (content_len ≤ e_phoff header) then Done None else Done (Some (e_phoff header)).

(** The index is a [uint8_t]; only the start of the header is checked. *)
Definition elf_get_indexed_section_header (content : list Z) (content_len index : Z) : outcome (option Z) :=
  header ← elf_get_header content;
  let off := u32 (e_shoff header + u8 index * sizeof_elf_Shdr) in
  if decide (content_len ≤ off) then Done None else Done (Some off).

(** [n] sections to go from section [i] on. *)
Fixpoint size_from (content : list Z) (content_len i : Z) (n : nat) (size : Z) : outcome Z :=
  match n with
  | O => Done size
  | S n' =>
      p ← elf_get_indexed_section_header content content_len i;
      match p with
      | None => Done size
      | Some off =>
          section_header ← elf_Shdr_at content off;
          size_from content content_len (i + 1) n'
            (if decide (virtual_address section_header ≠ 0) then u32 (size + sh_size section_header) else size)
      end
  end.
Definition elf_get_size_in_mem (content : list Z) (content_len : Z) : outcome Z :=
  header ← elf_get_header content;
  size_from content content_len 0 (Z.to_nat (e_shnum header)) 0.

(** ** Well-formed files

    The header and every section header lie in the file, and there are at most
    256 sections. *)

Definition section (content : list Z) (h : elf_hdr) (i : Z) : outcome elf_Shdr :=
  elf_Shdr_at content (e_shoff h + i * sizeof_elf_Shdr).

Record elf_ok (content : list Z) (h : elf_hdr) (ss : list elf_Shdr) : Prop := {
  eo_header : elf_get_header content = Done h;
  eo_count : e_shnum h = zlen ss;
  eo_sections i s : ss !! i = Some s → section content h (Z.of_nat i) = Done s;
  eo_few : (length ss ≤ 256)%nat;
  eo_length : zlen content < 4294967296;
}.

(** The sizes of the sections that have an address. *)
Definition in_memory (ss : list elf_Shdr) : Z :=
  foldr (λ s acc, if decide (virtual_address s ≠ 0) then sh_size s + acc else acc) 0 ss.

(** ** Lemmas *)

Lemma struct_at_done content off size b :
  struct_at content off size = Done b → 0 ≤ off ∧ off + size ≤ zlen content ∧
  b = take (Z.to_nat size) (drop (Z.to_nat off) content).
Proof. unfold struct_at. case_decide; [|done]. intros [= <-]. split_and!; [lia|lia|done]. Qed.

Lemma elf_Shdr_at_in content off s : elf_Shdr_at content off = Done s → 0 ≤ off ∧ off + 40 ≤ zlen content.
Proof.
  unfold elf_Shdr_at. destruct (struct_at content off sizeof_elf_Shdr) as [b| |] eqn:E; [|done..].
  intros _. apply struct_at_done in E as (? & ? & _). done.
Qed.

Lemma indexed_section content h ss i s :
  elf_ok content h ss → ss !! i = Some s →
  ∃ off, elf_get_indexed_section_header content (zlen content) (Z.of_nat i) = Done (Some off) ∧
         elf_Shdr_at content off = Done s.
Proof.
  intros Hok Hi. pose proof (eo_sections _ _ _ Hok _ _ Hi) as Hs. unfold section in Hs.
  pose proof (lookup_lt_Some _ _ _ Hi). pose proof (eo_few _ _ _ Hok). pose proof (eo_length _ _ _ Hok).
  destruct (elf_Shdr_at_in _ _ _ Hs). unfold sizeof_elf_Shdr in *.
  exists (e_shoff h + Z.of_nat i * 40). split; [|done].
  unfold elf_get_indexed_section_header. rewrite (eo_header _ _ _ Hok). cbn [mbind outcome_bind].
  unfold sizeof_elf_Shdr. rewrite u8_small, u32_small by lia. by rewrite decide_False by lia.
Qed.

Lemma size_from_spec content h ss i n size :
  elf_ok content h ss → (i + n = length ss)%nat →
  size_from content (zlen content) (Z.of_nat i) n (u32 size) = Done (u32 (size + in_memory (drop i ss))).
Proof.
  intros Hok. revert i size. induction n as [|n IH]; intros i size Hn; cbn [size_from].
  - rewrite drop_ge by lia. by rewrite Z.add_0_r.
  - destruct (lookup_lt_is_Some_2 ss i) as [s Hs]; [lia|].
    destruct (indexed_section _ _ _ _ _ Hok Hs) as (off & Ei & Es). rewrite Ei. cbn [mbind outcome_bind]. rewrite Es.
    cbn [mbind outcome_bind]. replace (Z.of_nat i + 1) with (Z.of_nat (S i)) by lia.
    rewrite (drop_S _ _ _ Hs). unfold in_memory at 1. cbn [foldr].
    fold (in_memory (drop (S i) ss)). case_decide.
    + rewrite u32_add_l, IH by lia. by rewrite Z.add_assoc.
    + by rewrite IH by lia.
Qed.

(** ** Properties *)

(** elf_is_valid_and_loadable accepts exactly the files that have room for a
    header, an entry point other than 0 and the magic number 7F 'E' 'L' 'F', and
    it never reads past the end of the file. *)
Theorem elf_is_valid_and_loadable_checks content :
  elf_is_valid_and_loadable content (zlen content) =
    Done (bool_decide (sizeof_elf_hdr ≤ zlen content ∧
                       bytes_field content 24 4 ≠ 0 ∧ take 4 content = 0x7f :: lit "ELF")).
Proof.
  unfold elf_is_valid_and_loadable. destruct (decide (zlen content < sizeof_elf_hdr)) as [Hs|Hs].
  - rewrite bool_decide_eq_false_2; [done|lia].
  - assert (struct_at content 0 sizeof_elf_hdr = Done (take 52 content)) as E.
    { unfold struct_at. rewrite decide_True by lia. by rewrite drop_0. }
    unfold elf_get_header. rewrite E. cbn [mbind outcome_bind e_entry e_ident].
    assert (bytes_field (take 52 content) 24 4 = bytes_field content 24 4) as ->.
    { unfold bytes_field. by rewrite !take_drop_commute, take_take. }
    assert (take 4 (take 16 (take 52 content)) = take 4 content) as -> by (by rewrite !take_take).
    destruct (decide (bytes_field content 24 4 = 0)); [by rewrite bool_decide_eq_false_2 by tauto|].
    case_decide; [by rewrite bool_decide_eq_false_2 by tauto|].
    rewrite bool_decide_eq_true_2; [done|]. split_and!; [lia|done|done].
Qed.

(** On a well-formed file elf_get_size_in_mem is the sum, modulo 2^32, of the sizes
    of the sections that have an address. *)
Theorem elf_get_size_in_mem_sums content h ss :
  elf_ok content h ss → elf_get_size_in_mem content (zlen content) = Done (u32 (in_memory ss)).
Proof.
  intros Hok. unfold elf_get_size_in_mem. rewrite (eo_header _ _ _ Hok). cbn [mbind outcome_bind].
  rewrite (eo_count _ _ _ Hok), Nat2Z.id. change 0 with (u32 0) at 2. change 0 with (Z.of_nat 0).
  rewrite (size_from_spec _ h ss) by done. done.
Qed.

(** The index of a section is cut to eight bits: the header returned for section
    256 is that of section 0. *)
Theorem elf_section_index_wraps content content_len i :
  elf_get_indexed_section_header content content_len (i + 256) = elf_get_indexed_section_header content content_len i.
Proof.
  unfold elf_get_indexed_section_header. assert (u8 (i + 256) = u8 i) as ->; [|done].
  unfold u8. by rewrite <-(Z.mod_add i 1 256) by lia.
Qed.

(** ** Witnesses *)

Module Demo.
Definition shdr (addr size ty : Z) : list Z :=
  le_bytes 4 0 ++ le_bytes 4 ty ++ le_bytes 4 2 ++ le_bytes 4 addr ++ le_bytes 4 0 ++ le_bytes 4 size ++
  le_bytes 4 0 ++ le_bytes 4 0 ++ le_bytes 4 4 ++ le_bytes 4 0.
(** A header and three sections: text, bss and one without an address. *)
Definition file : list Z :=
  (0x7f :: lit "ELF") ++ replicate 12 0 ++ le_bytes 2 2 ++ le_bytes 2 3 ++ le_bytes 4 1 ++ le_bytes 4 0x8048000 ++
  le_bytes 4 52 ++ le_bytes 4 52 ++ le_bytes 4 0 ++ le_bytes 2 52 ++ le_bytes 2 32 ++ le_bytes 2 0 ++
  le_bytes 2 40 ++ le_bytes 2 3 ++ le_bytes 2 0 ++
  shdr 0x8048000 5000 1 ++ shdr 0x804a000 300 8 ++ shdr 0 77 3.
Definition header : elf_hdr :=
  ElfHdr ((0x7f :: lit "ELF") ++ replicate 12 0) 2 3 1 0x8048000 52 52 0 52 32 0 40 3 0.
Definition sections : list elf_Shdr :=
  [ElfShdr 0 1 2 0x8048000 0 5000 0 0 4 0; ElfShdr 0 8 2 0x804a000 0 300 0 0 4 0; ElfShdr 0 3 2 0 0 77 0 0 4 0].
Lemma file_ok : elf_ok file header sections.
Proof.
  split; [reflexivity|reflexivity| |simpl; lia|by vm_compute].
  intros i s Hs. destruct i as [|[|[|i]]]; simplify_eq/=; reflexivity.
Qed.
End Demo.

Lemma elf_get_size_in_mem_sums_witness :
  elf_get_size_in_mem Demo.file (zlen Demo.file) = Done (u32 (in_memory Demo.sections)) ∧ in_memory Demo.sections = 5300.
Proof. split; [apply (elf_get_size_in_mem_sums Demo.file Demo.header), Demo.file_ok|reflexivity]. Defined.
