(* ===== verification/Loader.v ===== *)
(** * Creating a process: process/loader/elf_loader.c, process_manager.c

    The loader maps the pages of a process and copies the sections of its file to
    their addresses, through the address space that is loaded at that moment.
    Memory the heap hands out is not cleared: what it holds is a parameter. *)

From S2P Require Import Prelude CString Interfaces Io Vga Gdt Paging FatTable FatPath FatFile Heap Vfs Process Kernel.
From S2P Require Import Terminal Elf.

(** ** The page side of the heap's interface *)

Class PageHeap (H : Type) := { heap_kmalloc_pages : Z → M H Z }.

(** The kernel's heap is what the interfaces ask for. *)
#[export] Instance heap_kernel_heap P `{PageAllocator P} : KernelHeap (Heap.heap P) := {
  Interfaces.kmalloc := Heap.kmalloc; Interfaces.kfree := Heap.kfree }.
#[export] Instance heap_page_heap P `{PageAllocator P} : PageHeap (Heap.heap P) := {
  heap_kmalloc_pages := Heap.kmalloc_pages }.

(** ** Definitions *)

Definition PAGES_PER_DIR : Z := 1024.
Definition HIGHER_HALF_START : Z := 0xC0000000.
Definition DEFAULT_STACK_PAGE_AMOUNT : Z := 0x100.
Definition USER_STACK_TOP : Z := 0xC0000000 - 0x1000.
Definition GDT_USER_CODE_INDEX : Z := 3 * 8.
Definition GDT_USER_DATA_INDEX : Z := 4 * 8.
Definition sizeof_process_node : Z := 2396.

(** *** Bytes of memory, through the loaded address space *)

Definition byte_at (s : vm) (pa : Z) : Z := get_field (8 * (pa mod 4)) 8 (word s (pa / 4)).
Definition load8 (va : Z) : M vm Z := λ s,
  match walk s va with
  | Some pa => Done (byte_at s pa, s)
  | None => Fault
  end.
Definition store8 (va b : Z) : M vm unit := λ s,
  match walk s va with
  | Some pa => Done (tt, set_ram (<[pa / 4 := set_field (8 * (pa mod 4)) 8 b (word s (pa / 4))]> (ram s)) s)
  | None => Fault
  end.

(** [memcpy] to memory, byte by byte. *)
Fixpoint copy_out (va : Z) (bytes : list Z) : M vm unit :=
  match bytes with
  | [] => mret tt
  | b :: bytes => _ ← store8 va b; copy_out (va + 1) bytes
  end.

(** [n] words from [src] to [dst]. *)
Fixpoint copy_words32 (dst src : Z) (n : nat) : M vm unit :=
  match n with
  | O => mret tt
  | S n => w ← load32 src; _ ← store32 dst w; copy_words32 (dst + 4) (src + 4) n
  end.

(** [&content[off]], [size] bytes. *)
Definition file_bytes_at (content : list Z) (off size : Z) : outcome (list Z) :=
  if decide (0 ≤ off ∧ off + size ≤ zlen content)
  then Done (take (Z.to_nat size) (drop (Z.to_nat off) content)) else Fault.

(** One section; the result is the new program break, if the section sets it. *)
Definition load_section (content : list Z) (s : elf_Shdr) : M vm (option Z) :=
  if decide (sh_size s = 0) then mret None else
  if negb (occupies_memory s) then mret None else
  if decide (sh_type s = elf_section_header_type_program_data) then
    bytes ← liftO (file_bytes_at content (file_offset s) (sh_size s));
    _ ← copy_out (virtual_address s) bytes;
    mret (Some (u32 (virtual_address s + sh_size s)))
  else if decide (sh_type s = elf_section_header_type_bss) then
    _ ← copy_out (virtual_address s) (replicate (Z.to_nat (sh_size s)) 0);
    mret (Some (u32 (virtual_address s + sh_size s)))
  else mret None.

(** The header is used without a check for NULL; [program_break] starts
    uninitialised ([None]). *)
Fixpoint load_sections (content : list Z) (content_len i : Z) (n : nat) (program_break : option Z) : M vm (option Z) :=
  match n with
  | O => mret program_break
  | S n =>
      p ← liftO (elf_get_indexed_section_header content content_len i);
      off ← liftO (of_option p);
      s ← liftO (elf_Shdr_at content off);
      b ← load_section content s;
      load_sections content content_len (i + 1) n (match b with Some _ => b | None => program_break end)
  end.

Section operations.
Context {D H V : Type} `{BlockDevice D} `{KernelHeap H} `{PageHeap H}.
Implicit Types k : kernel D H V.

Definition k_kmalloc_pages (page_amount : Z) : M (kernel D H V) Z :=
  on_fs (zoom FatTable.heap FatTable.set_heap (heap_kmalloc_pages page_amount)).

(** Returning an uninitialised program break is a [Fault]. *)
Definition elf_load_process (elf_content : list Z) (elf_len : Z) (process_page_dir : Z) (is_kernel_mode : bool) :
    M (kernel D H V) Z :=
  header ← liftO (elf_get_header elf_content);
  process_size ← liftO (elf_get_size_in_mem elf_content elf_len);
  process_page_tables ← k_kmalloc_pages (process_size / PAGE_SIZE / PAGES_PER_DIR + 1);
  page_tables_phys_addr ← on_vm (get_physical_address process_page_tables);
  ok ← on_vm (allocate_multiple_pages (e_entry header / PAGE_SIZE) (process_size / PAGE_SIZE + 2) is_kernel_mode
                page_tables_phys_addr);
  if negb ok then _ ← k_kfree process_page_tables; mret 0 else
  ok ← on_vm (allocate_multiple_pages (USER_STACK_TOP / PAGE_SIZE - DEFAULT_STACK_PAGE_AMOUNT)
                DEFAULT_STACK_PAGE_AMOUNT is_kernel_mode page_tables_phys_addr);
  if negb ok then
    _ ← on_vm (for_from 0 (Z.to_nat (process_size / PAGE_SIZE + 1)) (λ i,
          deallocate_virtual_page (e_entry header / PAGE_SIZE + i)));
    _ ← k_kfree process_page_tables;
    mret 0
  else
  program_break ← on_vm (load_sections elf_content elf_len 0 (Z.to_nat (e_shnum header)) None);
  liftO (of_option program_break).

(** [raw] is what the block the heap returned held before. *)
Definition create_process_from_elf (raw : process_node) (elf_content : list Z) (elf_len : Z) (is_kernel_mode : bool) :
    M (kernel D H V) bool :=
  ready ← on_procs (gets manage_initialized);
  if negb ready then mret false else
  valid ← liftO (elf_is_valid_and_loadable elf_content elf_len);
  if negb valid then mret false else
  prev_pd ← on_vm get_current_pd;
  _ ← on_vm (load_pd get_kernel_pd);
  p ← k_kmalloc sizeof_process_node;
  if decide (p = 0) then mret false else
  _ ← on_procs (modify (λ s, set_nodes (<[p := raw]> (nodes s)) s));
  cwd0 ← liftO (memset (cwd (proc raw)) 0 256);
  cwd0 ← liftO (strcpy cwd0 [SLASH; 0]);
  _ ← on_procs (update_proc p (set_cwd cwd0));
  elf_header ← liftO (elf_get_header elf_content);
  id ← on_procs (gets next_pid);
  _ ← on_procs (modify (set_next_pid (id + 1)));
  _ ← on_procs (update_proc p (set_pid id));
  _ ← on_procs (update_proc p (set_state PROCESS_READY));
  _ ← on_procs (update_proc p (set_regs zero_regs));
  stack ← k_kmalloc_pages PROC_KERNEL_STACK_SIZE;
  _ ← on_procs (update_proc p (set_kernel_stack (stack + PAGE_SIZE * PROC_KERNEL_STACK_SIZE)));
  pd ← k_kmalloc_pages 1;
  _ ← on_procs (update_proc p (set_page_directory pd));
  if decide (pd = 0) then
    _ ← k_kfree p;
    _ ← on_procs (modify (λ s, set_nodes (delete p (nodes s)) s));
    mret false
  else
  let kernel_half := HIGHER_HALF_START / PAGE_SIZE / PAGES_PER_DIR in
  _ ← on_vm (copy_words32 (pd + 4 * kernel_half) (get_kernel_pd + 4 * kernel_half)
               (Z.to_nat (PAGES_PER_DIR - kernel_half)));
  pa ← on_vm (get_physical_address pd);
  _ ← on_vm (put (pd + 4 * (PAGES_PER_DIR - 1)) f_address (Z.shiftr pa 12));
  _ ← on_vm (load_pd pd);
  process_break ← elf_load_process elf_content elf_len pd is_kernel_mode;
  _ ← on_vm (load_pd get_kernel_pd);
  if decide (process_break = 0) then
    _ ← k_kfree pd;
    _ ← k_kfree p;
    _ ← on_procs (modify (λ s, set_nodes (delete p (nodes s)) s));
    mret false
  else
  _ ← on_procs (update_proc p (set_process_break process_break));
  n ← on_procs (node p);
  fds ← liftO (init_proc_fd (fd_table (proc n)));
  _ ← on_procs (update_proc p (set_fd_table fds));
  tid ← get_active_terminal_id;
  _ ← attach_process_to_terminal tid p;
  _ ← on_procs (update_proc p (set_kernel_mode is_kernel_mode));
  let code := if is_kernel_mode then GDT_KERNEL_CODE_INDEX else Z.lor GDT_USER_CODE_INDEX 3 in
  let data := if is_kernel_mode then GDT_KERNEL_DATA_INDEX else Z.lor GDT_USER_DATA_INDEX 3 in
  _ ← on_procs (update_proc p (set_regs
        (ProcRegs 0 0 0 0 0 0 0 0 (e_entry elf_header) code 0x0202 (USER_STACK_TOP - 4) data)));
  _ ← on_procs (add_to_linked_list p);
  _ ← on_vm (load_pd prev_pd);
  current ← on_procs get_current_process;
  _ ← (if decide (current ≠ 0) then
         _ ← on_procs (update_proc current (set_waiting_for id));
         on_procs (update_proc current (set_state PROCESS_WAITING))
       else mret tt);
  mret true.

(** A failed allocation of the buffer is only noticed when it is written. *)
Definition create_process (raw : process_node) (path : list Z) (is_kernel_mode : bool) : M (kernel D H V) Z :=
  ready ← on_procs (gets manage_initialized);
  if negb ready then mret 0 else
  '(r, data) ← on_fs (fat_get_file_data path);
  match data with
  | None => mret r
  | Some data =>
      _ ← k_kmalloc 1;
      let elf_len := file_size (file_entry data) in
      elf_content ← k_kmalloc elf_len;
      buffer ← (if decide (elf_content = 0 ∧ elf_len ≠ 0) then fault
                else mret (replicate (Z.to_nat elf_len) 0));
      '(_, content) ← on_fs (fat_read (file_entry data) 0 elf_len buffer);
      valid ← liftO (elf_is_valid_and_loadable content elf_len);
      if (valid : bool) then
        ok ← create_process_from_elf raw content elf_len is_kernel_mode;
        _ ← k_kfree elf_content;
        mret (if (ok : bool) then 0 else -1)
      else _ ← k_kfree elf_content; mret (-1)
  end.
Definition create_usermode_process (raw : process_node) (path : list Z) : M (kernel D H V) Z :=
  create_process raw path false.
Definition create_kernelmode_process (raw : process_node) (path : list Z) : M (kernel D H V) Z :=
  create_process raw path true.
End operations.

(** ** Lemmas *)

Lemma get_set_eq pos width v w : 0 ≤ pos → 0 ≤ width → get_field pos width (set_field pos width v w) = v mod 2 ^ width.
Proof.
  intros Hp Hw. apply Z.bits_inj'. intros j Hj. rewrite testbit_get_field by lia. case_decide.
  - rewrite testbit_set_field, decide_True by lia. rewrite Z.mod_pow2_bits_low by lia. f_equal. lia.
  - symmetry. apply Z.mod_pow2_bits_high. lia.
Qed.
Lemma get_set_ne pos pos' width v w :
  0 ≤ pos → 0 ≤ pos' → 0 ≤ width → pos + width ≤ pos' ∨ pos' + width ≤ pos →
  get_field pos width (set_field pos' width v w) = get_field pos width w.
Proof.
  intros Hp Hp' Hw Hd. apply Z.bits_inj'. intros j Hj. rewrite !testbit_get_field by lia. case_decide; [|done].
  by rewrite testbit_set_field, decide_False by lia.
Qed.

(** One byte of physical memory changed. *)
Definition with_byte (pa b : Z) (s : vm) : vm :=
  upd (pa / 4) (set_field (8 * (pa mod 4)) 8 b (word s (pa / 4))) s.

Lemma store8_done va pa b s : walk s va = Some pa → store8 va b s = Done (tt, with_byte pa b s).
Proof. intros E. unfold store8. by rewrite E. Qed.

Lemma byte_at_with pa b s q : is_byte b → byte_at (with_byte pa b s) q = if decide (q = pa) then b else byte_at s q.
Proof.
  intros Hb. unfold is_byte in Hb. unfold byte_at, with_byte. rewrite word_upd.
  pose proof (Z.mod_pos_bound pa 4 ltac:(lia)). pose proof (Z.mod_pos_bound q 4 ltac:(lia)). case_decide as E4.
  - case_decide as E.
    + subst. rewrite get_set_eq by lia. by apply Z.mod_small.
    + rewrite get_set_ne by (lia || (Z.div_mod_to_equations; lia)). by rewrite E4.
  - rewrite decide_False; [done|congruence].
Qed.

(** The frames that hold the directory and the tables. *)
Definition paging_frame (s : vm) (f : Z) : Prop :=
  f = dir s ∨ ∃ j, 0 ≤ j < 1024 ∧ has_table s j ∧ Paging.table s j = f.

Lemma walk_upd_data k w s va :
  ¬ paging_frame s (k / 1024) → 0 ≤ va < 4294967296 → walk (upd k w s) va = walk s va.
Proof.
  intros Hf Hva. assert (0 ≤ va / 4194304 < 1024) as Hi by (Z.div_mod_to_equations; lia).
  pose proof (Z.mod_pos_bound (va / 4096) 1024 ltac:(lia)) as Hm.
  assert (∀ f i, 0 ≤ i < 1024 → entry_index f i / 1024 = f) as Hdiv by (unfold entry_index; intros; Z.div_mod_to_equations; lia).
  unfold walk. assert (pde (upd k w s) (va / 4194304) = pde s (va / 4194304)) as ->.
  { rewrite pde_upd, decide_False; [done|]. intros E. apply Hf. left. rewrite <-E. unfold pde_index. by apply Hdiv. }
  destruct (decide (fget f_present (pde s (va / 4194304)) = 0)) as [|Hp]; [done|].
  set (i := entry_index _ _). assert (word (upd k w s) i = word s i) as ->; [|done].
  rewrite word_upd. destruct (decide (i = k)) as [E|]; [|done]. exfalso. apply Hf. right. exists (va / 4194304).
  split; [done|]. split; [done|]. rewrite <-E. symmetry. by apply Hdiv.
Qed.

Lemma paging_frame_upd k w s f :
  ¬ paging_frame s (k / 1024) → paging_frame (upd k w s) f ↔ paging_frame s f.
Proof.
  intros Hf. assert (∀ j, 0 ≤ j < 1024 → pde (upd k w s) j = pde s j) as Hpde.
  { intros j Hj. rewrite pde_upd, decide_False; [done|]. intros E. apply Hf. left. rewrite <-E.
    unfold pde_index, entry_index. Z.div_mod_to_equations; lia. }
  unfold paging_frame, has_table, Paging.table. change (dir (upd k w s)) with (dir s).
  split; (intros [->|(j & Hj & H1 & H2)]; [by left|right; exists j; rewrite Hpde in * by done; done]).
Qed.

(** Pages of memory at [va] that hold data: mapped, each byte once, and not
    the paging structures themselves. *)
Record data_range (s : vm) (va n : Z) : Prop := {
  dr_low : 0 ≤ va;
  dr_high : va + n ≤ 4294967296;
  dr_mapped i : 0 ≤ i < n → ∃ pa, walk s (va + i) = Some pa ∧ ¬ paging_frame s (pa / 4096);
  dr_once i j pa : 0 ≤ i < n → 0 ≤ j < n → walk s (va + i) = Some pa → walk s (va + j) = Some pa → i = j;
}.

(** [bytes] are in memory at [va], and nothing else has changed. *)
Record copied (s : vm) (va : Z) (bytes : list Z) (s' : vm) : Prop := {
  cp_walk va' : 0 ≤ va' < 4294967296 → walk s' va' = walk s va';
  cp_bytes i b pa : bytes !! i = Some b → walk s (va + Z.of_nat i) = Some pa → byte_at s' pa = b;
  cp_others pa : (∀ i, 0 ≤ i < zlen bytes → walk s (va + i) ≠ Some pa) → byte_at s' pa = byte_at s pa;
}.

Lemma data_range_step s va n pa b :
  data_range s va (n + 1) → 0 ≤ n → walk s va = Some pa → data_range (with_byte pa b s) (va + 1) n.
Proof.
  intros [Hl Hh Hm Ho] Hn Hw.
  assert (¬ paging_frame s (pa / 4 / 1024)) as Hpf.
  { destruct (Hm 0) as (pa' & E & Hf); [lia|]. rewrite Z.add_0_r, Hw in E. injection E as <-.
    rewrite Z.div_div by lia. done. }
  assert (∀ v, 0 ≤ v < 4294967296 → walk (with_byte pa b s) v = walk s v) as Hwalk by (intros; by apply walk_upd_data).
  split; [lia|lia| |].
  - intros i Hi. rewrite Hwalk by lia. destruct (Hm (i + 1)) as (q & E & Hf); [lia|]. exists q.
    split; [by rewrite <-E; f_equal; lia|]. unfold with_byte. by rewrite paging_frame_upd.
  - intros i j q Hi Hj. rewrite !Hwalk by lia. intros E1 E2.
    assert (i + 1 = j + 1); [|lia]. apply (Ho _ _ q); [lia|lia| |]; [rewrite <-E1|rewrite <-E2]; f_equal; lia.
Qed.

(** One byte more in front. *)
Lemma copied_step s s1 va b bytes pa s' :
  data_range s va (zlen bytes + 1) → walk s va = Some pa →
  (∀ v, 0 ≤ v < 4294967296 → walk s1 v = walk s v) →
  (∀ q, byte_at s1 q = if decide (q = pa) then b else byte_at s q) →
  copied s1 (va + 1) bytes s' → copied s va (b :: bytes) s'.
Proof.
  intros [Hl Hh _ Ho] Ew Hwalk Hbyte [Hw' Hb' Ho']. split.
  - intros v Hv. rewrite Hw' by done. by apply Hwalk.
  - intros i c q Hc Hq. destruct i as [|i]; simpl in Hc.
    + injection Hc as <-. rewrite Z.add_0_r, Ew in Hq. injection Hq as <-.
      rewrite Ho'; [by rewrite Hbyte, decide_True|]. intros j Hj. rewrite Hwalk by lia. intros E.
      assert (j + 1 = 0); [|lia]. apply (Ho _ _ pa); [lia|lia|rewrite <-E; f_equal; lia|by rewrite Z.add_0_r].
    + apply (Hb' i c q Hc). apply lookup_lt_Some in Hc. rewrite Hwalk by lia. rewrite <-Hq. f_equal. lia.
  - intros q Hq. rewrite Ho'.
    + rewrite Hbyte, decide_False; [done|]. intros ->. apply (Hq 0); [simpl; lia|]. by rewrite Z.add_0_r.
    + intros i Hi. rewrite Hwalk by lia. specialize (Hq (i + 1) ltac:(simpl; lia)). intros E. apply Hq. rewrite <-E. f_equal. lia.
Qed.

Lemma data_range_head s va n : data_range s va (n + 1) → 0 ≤ n → ∃ pa, walk s va = Some pa ∧ ¬ paging_frame s (pa / 4 / 1024).
Proof.
  intros Hd Hn. destruct (dr_mapped _ _ _ Hd 0) as (pa & Ew & Hf); [lia|]. rewrite Z.add_0_r in Ew.
  exists pa. by rewrite Z.div_div by lia.
Qed.

Lemma wp_copy_out s va bytes (Q : unit → vm → Prop) :
  data_range s va (zlen bytes) → Forall is_byte bytes →
  (∀ s', copied s va bytes s' → Q tt s') → wp (copy_out va bytes) Q s.
Proof.
  revert s va. induction bytes as [|b bytes IH]; intros s va Hd Hb HQ; cbn [copy_out].
  { apply wp_ret, HQ. split; done. }
  apply Forall_cons_iff in Hb as [Hb Hbs].
  replace (zlen (b :: bytes)) with (zlen bytes + 1) in Hd by (simpl; lia).
  destruct (data_range_head _ _ _ Hd) as (pa & Ew & Hpf); [lia|].
  apply wp_bind. eapply wp_of_done; [by apply store8_done|].
  apply IH; [apply data_range_step; [done|lia|done]|done|].
  intros s' Hs'. apply HQ. eapply copied_step; [done|done| | |exact Hs'].
  - intros v Hv. by apply walk_upd_data.
  - intros q. by apply byte_at_with.
Qed.

(** ** Properties *)

(** What a section is to hold. *)
Definition section_bytes (content : list Z) (s : elf_Shdr) : list Z :=
  if decide (sh_type s = elf_section_header_type_bss) then replicate (Z.to_nat (sh_size s)) 0
  else take (Z.to_nat (sh_size s)) (drop (Z.to_nat (file_offset s)) content).

(** C21: A section that occupies memory is loaded at its address: every byte the
    process reads there is the byte of the file, or zero for a bss section, the
    new program break is the end of the section, no translation changes and no
    other byte of memory changes. *)
Theorem load_section_loads content sec (s : vm) :
  Forall is_byte content → occupies_memory sec = true → 0 < sh_size sec →
  sh_type sec = elf_section_header_type_program_data ∨ sh_type sec = elf_section_header_type_bss →
  0 ≤ file_offset sec → file_offset sec + sh_size sec ≤ zlen content ∨ sh_type sec = elf_section_header_type_bss →
  data_range s (virtual_address sec) (sh_size sec) →
  wp (load_section content sec)
     (λ r s', r = Some (u32 (virtual_address sec + sh_size sec)) ∧
        (∀ i b, section_bytes content sec !! i = Some b → load8 (virtual_address sec + Z.of_nat i) s' = Done (b, s')) ∧
        (∀ va, 0 ≤ va < 4294967296 → walk s' va = walk s va) ∧
        (∀ pa, (∀ i, 0 ≤ i < sh_size sec → walk s (virtual_address sec + i) ≠ Some pa) → byte_at s' pa = byte_at s pa)) s.
Proof.
  intros Hc Hocc Hsz Hty Hoff Hin Hd. set (bs := section_bytes content sec).
  assert (zlen bs = sh_size sec ∧ Forall is_byte bs) as [Hlen Hb].
  { subst bs. unfold section_bytes. case_decide.
    - rewrite length_replicate. split; [lia|]. apply Forall_replicate. unfold is_byte. lia.
    - rewrite length_take, length_drop. destruct Hin as [Hin|]; [|done]. split; [lia|]. by apply Forall_take, Forall_drop. }
  assert (wp (copy_out (virtual_address sec) bs) (λ _ s', copied s (virtual_address sec) bs s') s) as Hcopy.
  { apply wp_copy_out; [by rewrite Hlen|done|done]. }
  assert (∀ s', copied s (virtual_address sec) bs s' →
    (∀ i b, bs !! i = Some b → load8 (virtual_address sec + Z.of_nat i) s' = Done (b, s')) ∧
    (∀ va, 0 ≤ va < 4294967296 → walk s' va = walk s va) ∧
    (∀ pa, (∀ i, 0 ≤ i < sh_size sec → walk s (virtual_address sec + i) ≠ Some pa) → byte_at s' pa = byte_at s pa)) as Hfin.
  { intros s' [Hw Hbt Ho]. split_and!; [|done|by rewrite <-Hlen]. intros i b Hi. pose proof (lookup_lt_Some _ _ _ Hi).
    destruct (dr_mapped _ _ _ Hd (Z.of_nat i)) as (pa & Ew & _); [lia|].
    pose proof (dr_low _ _ _ Hd). pose proof (dr_high _ _ _ Hd).
    unfold load8. rewrite Hw, Ew by lia. do 2 f_equal. by apply (Hbt i b). }
  unfold load_section. rewrite decide_False by lia. rewrite Hocc. cbn [negb]. destruct (decide _) as [Ep|Ep].
  - apply wp_bind. eapply wp_liftO.
    { unfold file_bytes_at. rewrite decide_True; [done|]. destruct Hin as [|Hin]; [lia|]. rewrite Hin in Ep. done. }
    assert (take (Z.to_nat (sh_size sec)) (drop (Z.to_nat (file_offset sec)) content) = bs) as ->.
    { subst bs. unfold section_bytes. rewrite decide_False; [done|]. rewrite Ep. done. }
    apply wp_bind. eapply wp_mono; [exact Hcopy|]. intros [] s' Hs'. apply wp_ret. split; [done|]. by apply Hfin.
  - destruct Hty as [|Hty]; [done|]. rewrite decide_True by done.
    assert (replicate (Z.to_nat (sh_size sec)) 0 = bs) as -> by (subst bs; unfold section_bytes; by rewrite decide_True).
    apply wp_bind. eapply wp_mono; [exact Hcopy|]. intros [] s' Hs'. apply wp_ret. split; [done|]. by apply Hfin.
Qed.

(** ** Witnesses *)

Module Demo.
(** A directory in frame 6 with one table, in frame 0x20, that maps the page at
    0x8048000 to frame 0x40. *)
Definition machine : vm := Vm Pmm.demo_pmm 0x6000 0xC0006000
  (list_to_map [(entry_index 6 1023, 0x6003); (entry_index 6 32, 0x20007); (entry_index 0x20 0x48, 0x40007)]).
Definition text : elf_Shdr := ElfShdr 0 1 2 0x8048000 0 4 0 0 4 0.

Lemma no_paging_frame f :
  bool_decide (Forall (λ j, fget f_present (pde machine j) = 0 ∨ Paging.table machine j ≠ f) (seqZ 0 1024)) = true →
  f ≠ 6 → ¬ paging_frame machine f.
Proof.
  intros Hc%bool_decide_eq_true Hne [->|(j & Hj & Hh & Ht)]; [done|]. rewrite list.Forall_forall in Hc.
  destruct (Hc j) as [H|H]; [apply elem_of_seqZ; lia|done|done].
Qed.
Lemma walk_page i : 0 ≤ i < 4096 → walk machine (0x8048000 + i) = Some (0x40000 + i).
Proof.
  intros Hi. unfold walk.
  assert ((0x8048000 + i) / 4194304 = 32 ∧ (0x8048000 + i) / 4096 = 0x8048 ∧ (0x8048000 + i) mod 4096 = i) as (-> & -> & ->).
  { split_and!; Z.div_mod_to_equations; lia. }
  rewrite !decide_False by (by vm_compute). f_equal.
Qed.
Lemma text_range : data_range machine 0x8048000 4.
Proof.
  split; [lia|lia| |].
  - intros i Hi. rewrite walk_page by lia. eexists. split; [done|].
    assert ((0x40000 + i) / 4096 = 0x40) as -> by (Z.div_mod_to_equations; lia).
    apply no_paging_frame; [by vm_compute|done].
  - intros i j pa Hi Hj. rewrite !walk_page by lia. intros [= <-] [=]. lia.
Qed.
End Demo.

Lemma load_section_loads_witness :
  wp (load_section Elf.Demo.file Demo.text)
     (λ r s', r = Some (u32 (0x8048000 + 4)) ∧
        (∀ i b, section_bytes Elf.Demo.file Demo.text !! i = Some b → load8 (0x8048000 + Z.of_nat i) s' = Done (b, s')) ∧
        (∀ va, 0 ≤ va < 4294967296 → walk s' va = walk Demo.machine va) ∧
        (∀ pa, (∀ i, 0 ≤ i < 4 → walk Demo.machine (0x8048000 + i) ≠ Some pa) → byte_at s' pa = byte_at Demo.machine pa))
     Demo.machine.
Proof.
  apply (load_section_loads Elf.Demo.file Demo.text Demo.machine).
  - by_decide.
  - reflexivity.
  - simpl; lia.
  - left; reflexivity.
  - simpl; lia.
  - left. by_decide.
  - exact Demo.text_range.
Defined.
