(* ===== verification/Paths.v ===== *)
(** * Joining paths: process/syscalls/handlers/dir/dir.c

    [join_path] makes an absolute path of the working directory and a relative
    path, in a buffer of the caller. *)

From S2P Require Import Prelude CString FatTable FatPath.

(** ** Definitions *)

(** [full_path[i] = c] and [full_path[i]]: an index outside the buffer is a
    [Fault], also one that wrapped below zero. *)
Definition char_at (b : list Z) (i : Z) : outcome Z := of_option (aget b i).
Definition put_char (b : list Z) (i c : Z) : outcome (list Z) := of_option (aset b i c).
(** [strncpy(full_path + i, source, n)] *)
Definition strncpy_at (b : list Z) (i : Z) (source : list Z) (n : Z) : outcome (list Z) :=
  if decide (0 ≤ i ≤ zlen b) then
    r ← strncpy (drop (Z.to_nat i) b) source (Z.to_nat n); Done (take (Z.to_nat i) b ++ r)
  else Fault.

(** The buffer after the call; [total_len - 2 >= 0] compares unsigned numbers
    and is always true. *)
Definition join_path (cwd pathname full_path : list Z) (size : Z) : outcome (list Z) :=
  cwd_len ← strlen cwd;
  path_len ← strlen pathname;
  let total_len := cwd_len + path_len + 2 in
  if decide (size < total_len) then put_char full_path 0 0 else
  full_path ← memset full_path 0 size;
  c ← char_at pathname 0;
  if decide (c = SLASH) then strncpy full_path pathname (Z.to_nat (path_len + 1)) else
  full_path ← strncpy full_path cwd (Z.to_nat cwd_len);
  c ← char_at full_path (u32 (cwd_len - 1));
  '(full_path, cwd_len) ← (if decide (c ≠ SLASH) then b ← put_char full_path cwd_len SLASH; Done (b, cwd_len)
                           else Done (full_path, cwd_len - 1));
  full_path ← strncpy_at full_path (cwd_len + 1) pathname (path_len + 1);
  let total_len := cwd_len + path_len + 1 in
  c ← char_at full_path (u32 (total_len - 1));
  full_path ← (if decide (c = DOT) then
                 d ← char_at full_path (u32 (total_len - 2));
                 if decide (d = SLASH) then
                   b ← put_char full_path (total_len - 2) 0; put_char b (total_len - 1) 0
                 else Done full_path
               else Done full_path);
  c ← char_at full_path 0;
  if decide (c = 0) then put_char full_path 0 SLASH else Done full_path.

(** ** What the join is *)

(** The directory without its final slash, if it ends in one. *)
Definition as_prefix (cwd : list Z) : list Z :=
  match last cwd with Some c => if decide (c = SLASH) then take (length cwd - 1) cwd else cwd | None => cwd end.
(** A lone dot at the end goes, with its slash. *)
Definition drop_dot (s : list Z) : list Z :=
  if decide (drop (length s - 2) s = [SLASH; DOT]) then take (length s - 2) s else s.
Definition joined (cwd path : list Z) : list Z :=
  match drop_dot (as_prefix cwd ++ SLASH :: path) with [] => [SLASH] | s => s end.

(** ** Lemmas *)

(** A string in a buffer of [n] bytes, the rest zero. *)
Definition padded (n : nat) (s : list Z) : list Z := s ++ replicate (n - length s) 0.

Lemma char_at_padded n s i c : s !! i = Some c → char_at (padded n s) (Z.of_nat i) = Done c.
Proof. intros H. unfold char_at, padded. rewrite aget_of_nat, lookup_app_l by (by eapply lookup_lt_Some). by rewrite H. Qed.
Lemma put_char_end n s c : (length s < n)%nat → put_char (padded n s) (zlen s) c = Done (padded n (s ++ [c])).
Proof.
  intros Hl. unfold put_char, padded. rewrite aset_in by (rewrite length_app, length_replicate; lia).
  rewrite Nat2Z.id, insert_app_r_alt, Nat.sub_diag by lia. cbn [of_option]. f_equal. rewrite <-app_assoc, length_app. f_equal.
  replace (n - length s)%nat with (S (n - (length s + length [c]))) by (simpl; lia). done.
Qed.
Lemma put_char_last n s c : (length s < n)%nat → put_char (padded n (s ++ [c])) (zlen s) 0 = Done (padded n s).
Proof.
  intros Hl. unfold put_char, padded. rewrite aset_in by (rewrite !length_app, length_replicate; simpl; lia).
  rewrite Nat2Z.id, <-app_assoc, insert_app_r_alt, Nat.sub_diag by lia. cbn [of_option]. f_equal. f_equal.
  rewrite length_app. replace (n - length s)%nat with (S (n - (length s + length [c]))) by (simpl; lia). done.
Qed.

Lemma strncpy_padded n s t r :
  str_ok t → t ≠ [] → (length s + length t ≤ n)%nat →
  strncpy_at (padded n s) (zlen s) (t ++ 0 :: r) (zlen t + 1) = Done (padded n (s ++ t)).
Proof.
  intros Ht Hne Hl. unfold strncpy_at, padded. rewrite decide_True by (rewrite length_app; lia).
  rewrite Nat2Z.id, drop_app_length, take_app_length.
  replace (Z.to_nat (zlen t + 1)) with (S (length t)) by lia.
  rewrite strncpy_cstr by (rewrite ?length_take, ?length_replicate; done || lia). cbn [mbind outcome_bind].
  rewrite take_ge by lia. rewrite drop_replicate, <-app_assoc. do 3 f_equal. rewrite length_app. f_equal. lia.
Qed.

(** Regrouping two steps whose result is known. *)
Lemma bind_assoc_done {A B C} (m : outcome A) (f : A → outcome B) (k : B → outcome C) r :
  m ≫= f = Done r → (m ≫= λ a, f a ≫= k) = k r.
Proof. destruct m; simpl; intros H; try done. by rewrite H. Qed.

(** The last two characters. *)
Lemma drop_dot_spec s n :
  (2 ≤ length s)%nat → (length s ≤ n)%nat →
  (c ← char_at (padded n s) (zlen s - 1);
   if decide (c = DOT) then
     d ← char_at (padded n s) (zlen s - 2);
     if decide (d = SLASH) then b ← put_char (padded n s) (zlen s - 2) 0; put_char b (zlen s - 1) 0
     else Done (padded n s)
   else Done (padded n s)) = Done (padded n (drop_dot s)).
Proof.
  intros Hl Hn. destruct s as [|y s _] using rev_ind; [simpl in Hl; lia|].
  destruct s as [|x s _] using rev_ind; [simpl in Hl; lia|].
  rewrite <-app_assoc in *. cbn [app] in *. rewrite length_app in Hn |- *. cbn [length] in *.
  replace (Z.of_nat (length s + 2) - 1) with (Z.of_nat (S (length s))) by lia.
  replace (Z.of_nat (length s + 2) - 2) with (Z.of_nat (length s)) by lia.
  assert ((s ++ [x; y]) !! S (length s) = Some y) as Hy
    by (rewrite lookup_app_r by lia; by replace (S (length s) - length s)%nat with 1%nat by lia).
  assert ((s ++ [x; y]) !! length s = Some x) as Hx by (by apply list_lookup_middle).
  rewrite (char_at_padded _ _ _ _ Hy), (char_at_padded _ _ _ _ Hx).
  cbn [mbind outcome_bind]. unfold drop_dot. rewrite length_app. cbn [length].
  replace (length s + 2 - 2)%nat with (length s) by lia. rewrite drop_app_length, take_app_length.
  case_decide as Ey; [case_decide as Ex|].
  - subst. rewrite decide_True by done. unfold put_char, padded.
    rewrite aset_in by (rewrite !length_app, length_replicate; simpl; lia). cbn [of_option mbind outcome_bind].
    rewrite aset_in by (rewrite length_insert, !length_app, length_replicate; simpl; lia). cbn [of_option]. f_equal.
    rewrite !Nat2Z.id, <-app_assoc, insert_app_r_alt, Nat.sub_diag by lia. cbn [insert list_insert app].
    rewrite insert_app_r_alt by lia. replace (S (length s) - length s)%nat with 1%nat by lia. cbn [insert list_insert]. f_equal.
    rewrite length_app. cbn [length]. by replace (n - length s)%nat with (S (S (n - (length s + 2)))) by lia.
  - by rewrite decide_False by congruence.
  - by rewrite decide_False by congruence.
Qed.

Lemma root_if_empty n s : (0 < n)%nat → str_ok s →
  (c ← char_at (padded n s) 0; if decide (c = 0) then put_char (padded n s) 0 SLASH else Done (padded n s)) =
  Done (padded n (match s with [] => [SLASH] | s => s end)).
Proof.
  intros Hn Hs. destruct s as [|c s].
  - destruct n; [lia|]. apply (put_char_end (S n) [] SLASH). simpl. lia.
  - apply str_ok_cons in Hs as [? _]. assert (char_at (padded n (c :: s)) 0 = Done c) as -> by done.
    cbn [mbind outcome_bind]. by rewrite decide_False by lia.
Qed.
Lemma drop_dot_ok s : str_ok s → str_ok (drop_dot s).
Proof. intros. unfold drop_dot. case_decide; auto with cstr. Qed.
Lemma as_prefix_ok s : str_ok s → str_ok (as_prefix s ++ [SLASH]).
Proof.
  intros. apply str_ok_app. split; [|apply str_ok_cons; split; [done|auto with cstr]].
  unfold as_prefix. destruct (last s); [case_decide|]; auto with cstr.
Qed.
Lemma as_prefix_slash s : s ≠ [] → zlen (as_prefix s ++ [SLASH]) ≤ zlen s + 1 ∧ as_prefix s ++ [SLASH] ≠ [].
Proof.
  intros _. rewrite length_app. simpl. split; [|by destruct (as_prefix s)].
  unfold as_prefix. destruct (last s); [case_decide|]; rewrite ?length_take; lia.
Qed.
Lemma zlen_pos {A} (s : list A) : s ≠ [] → 0 < zlen s.
Proof. destruct s; [done|simpl; lia]. Qed.

Lemma join_path_spec cwd path r1 r2 buf :
  str_ok cwd → cwd ≠ [] → str_ok path → path ≠ [] → hd 0 path ≠ SLASH → zlen buf < 2147483648 → buf ≠ [] →
  join_path (cwd ++ 0 :: r1) (path ++ 0 :: r2) buf (zlen buf) =
    Done (if decide (zlen cwd + zlen path + 2 ≤ zlen buf) then padded (length buf) (joined cwd path)
          else <[0%nat := 0]> buf).
Proof.
  intros Hc Hcne Hp Hpne Hps Hb Hbne. unfold join_path. rewrite !strlen_cstr by done. cbn [mbind outcome_bind].
  destruct (decide (zlen buf < zlen cwd + zlen path + 2)) as [Hs|Hs].
  { rewrite decide_False by lia. unfold put_char. rewrite aset_in by (destruct buf; [done|simpl; lia]). done. }
  rewrite (decide_True _ _ (P := zlen cwd + zlen path + 2 ≤ zlen buf)) by lia.
  rewrite memset_all by done. cbn [mbind outcome_bind]. change (u8 0) with 0.
  assert (char_at (path ++ 0 :: r2) 0 = Done (hd 0 path)) as -> by (by destruct path). cbn [mbind outcome_bind].
  rewrite decide_False by done. rewrite Nat2Z.id.
  rewrite strncpy_cstr by (rewrite ?length_take, ?length_replicate; done || lia). cbn [mbind outcome_bind].
  rewrite take_ge, drop_replicate by lia. change (cwd ++ replicate (length buf - length cwd) 0) with (padded (length buf) cwd).
  set (n := length buf) in *. set (q := as_prefix cwd ++ [SLASH]).
  assert (∃ cl, (c ← char_at (padded n cwd) (u32 (zlen cwd - 1));
    if decide (c ≠ SLASH) then b ← put_char (padded n cwd) (zlen cwd) SLASH; Done (b, zlen cwd)
    else Done (padded n cwd, zlen cwd - 1)) = Done (padded n q, cl) ∧ cl + 1 = zlen q) as (cl & Ecl & Hcl).
  { subst q. destruct cwd as [|x pre _] using rev_ind; [done|]. rewrite length_app in *. simpl in Hs.
    unfold as_prefix. rewrite last_snoc, length_app. cbn [length].
    replace (u32 _) with (Z.of_nat (length pre)) by (rewrite u32_small; lia).
    rewrite (char_at_padded _ _ _ x) by (by apply list_lookup_middle). cbn [mbind outcome_bind].
    destruct (decide (x = SLASH)) as [->|Hx].
    - rewrite decide_False by tauto. rewrite Nat.add_sub, take_app_length. eexists. split; [done|].
      rewrite length_app. simpl. lia.
    - rewrite decide_True by done. replace (length pre + 1)%nat with (length (pre ++ [x])) by (rewrite length_app; simpl; lia).
      rewrite put_char_end by (rewrite length_app; simpl; lia). eexists. split; [done|]. rewrite !length_app. simpl. lia. }
  rewrite (bind_assoc_done _ _ _ _ Ecl). rewrite Hcl.
  assert (zlen q ≤ zlen cwd + 1 ∧ q ≠ []) as [Hq Hqne] by (by apply as_prefix_slash).
  assert (str_ok q) as Hqs by (by apply as_prefix_ok).
  assert (0 < zlen q ∧ 0 < zlen path) as [Hq0 Hp0] by (split; apply zlen_pos; done).
  rewrite strncpy_padded by (done || lia). cbn [mbind outcome_bind].
  assert (zlen (q ++ path) = zlen q + zlen path) as Hqp by (rewrite length_app; lia).
  rewrite !u32_small by lia.
  replace (cl + zlen path + 1 - 1) with (zlen (q ++ path) - 1) by lia.
  replace (cl + zlen path + 1 - 2) with (zlen (q ++ path) - 2) by lia.
  rewrite (bind_assoc_done _ _ _ _ (drop_dot_spec (q ++ path) n ltac:(lia) ltac:(lia))).
  rewrite root_if_empty.
  - unfold joined. f_equal. subst q. rewrite <-app_assoc. by destruct (drop_dot _).
  - lia.
  - by apply drop_dot_ok, str_ok_app.
Qed.

Lemma drop_dot_length s : (length (drop_dot s) ≤ length s)%nat.
Proof. unfold drop_dot. case_decide; rewrite ?length_take; lia. Qed.
Lemma joined_ok cwd path :
  str_ok cwd → cwd ≠ [] → str_ok path → path ≠ [] →
  str_ok (joined cwd path) ∧ joined cwd path ≠ [] ∧ zlen (joined cwd path) ≤ zlen cwd + zlen path + 1.
Proof.
  intros Hc Hcn Hp Hpn. set (s := as_prefix cwd ++ SLASH :: path).
  assert (str_ok s) as Hs.
  { pose proof (as_prefix_ok cwd Hc) as [Ha _]%str_ok_app. apply str_ok_app. split; [done|]. by apply str_ok_cons. }
  pose proof (drop_dot_ok s Hs) as Hd. pose proof (drop_dot_length s) as Hdl.
  assert (zlen s ≤ zlen cwd + zlen path + 1) as Hsl.
  { pose proof (as_prefix_slash cwd Hcn) as [Hq _]. rewrite length_app in Hq. subst s. rewrite length_app. cbn [length] in *. lia. }
  pose proof (zlen_pos cwd Hcn). unfold joined. fold s. destruct (drop_dot s) as [|x l] eqn:E.
  - split; [by apply str_ok_cons|]. split; [done|]. simpl. lia.
  - split; [done|]. split; [done|]. simpl in *. lia.
Qed.

(** ** Properties *)

(** join_path with room in the buffer puts the directory, one slash and the path
    there and zeros after them, without a lone dot at the end, and the root
    directory when nothing is left; without room it empties the string. *)
Theorem join_path_joins cwd path r1 r2 buf :
  str_ok cwd → cwd ≠ [] → str_ok path → path ≠ [] → hd 0 path ≠ SLASH → zlen buf < 2147483648 → buf ≠ [] →
  join_path (cwd ++ 0 :: r1) (path ++ 0 :: r2) buf (zlen buf) =
    Done (if decide (zlen cwd + zlen path + 2 ≤ zlen buf) then padded (length buf) (joined cwd path)
          else <[0%nat := 0]> buf).
Proof. apply join_path_spec. Qed.

Lemma join_path_joins_witness :
  join_path (lit "/usr" ++ [0]) (lit "bin/." ++ [0]) (replicate 16 7) 16 = Done (lit "/usr/bin" ++ replicate 8 0).
Proof.
  etransitivity; [apply (join_path_joins (lit "/usr") (lit "bin/.") [] [] (replicate 16 7))|by vm_compute]; try done;
    repeat constructor.
Defined.

Example join_relative : join_path (lit "/bin" ++ [0]) (lit "ls" ++ [0]) (replicate 16 7) 16 = Done (lit "/bin/ls" ++ replicate 9 0).
Proof. reflexivity. Qed.
Example join_root : join_path (lit "/" ++ [0; 0]) (lit "ls" ++ [0]) (replicate 16 7) 16 = Done (lit "/ls" ++ replicate 13 0).
Proof. reflexivity. Qed.
Example join_dot : join_path (lit "/bin" ++ [0]) (lit "." ++ [0]) (replicate 16 7) 16 = Done (lit "/bin" ++ replicate 12 0).
Proof. reflexivity. Qed.
Example join_root_dot : join_path (lit "/" ++ [0; 0]) (lit "." ++ [0;0]) (replicate 16 7) 16 = Done (lit "/" ++ replicate 15 0).
Proof. reflexivity. Qed.
