(* ===== verification/FileCalls.v ===== *)
(** * The calls on files: process/syscalls/handlers/file/file.c

    The descriptors of a process point into the table of open files; the calls
    check the descriptor, run the file system on the entry it points to and move
    the offset.  A descriptor beyond the table of the process is a [Fault]: the
    code's bound is that of the other table. *)

From S2P Require Import Prelude CString Interfaces Io Vga FatTable FatPath FatFile Vfs Process Kernel Terminal Paths.

(** ** Constants *)

Definition EPERM : Z := 1.
Definition ENOENT : Z := 2.
Definition ESRCH : Z := 3.
Definition EBADF : Z := 9.
Definition EAGAIN : Z := 11.
Definition ENOMEM : Z := 12.
Definition EEXIST : Z := 17.
Definition ENOTDIR : Z := 20.
Definition EISDIR : Z := 21.
Definition EINVAL : Z := 22.
Definition EMFILE : Z := 24.

(** lib/src/fcntl.h *)
Definition O_RDONLY : Z := 0.
Definition O_CREAT : Z := 0x40.
Definition O_EXCL : Z := 0x80.
Definition O_TRUNC : Z := 0x200.
Definition O_APPEND : Z := 0x400.
Definition O_DIRECTORY : Z := 0x10000.

Definition SEEK_SET : Z := 0.
Definition SEEK_CUR : Z := 1.
Definition SEEK_END : Z := 2.

Definition FILE_TYPE_REGULAR : Z := 1.
Definition FILE_TYPE_DIRECTORY : Z := 2.
Definition FILE_TYPE_CHAR_DEVICE : Z := 3.

Record stat := Stat {
  st_dev : Z; st_ino : Z; st_mode : Z; st_nlink : Z; st_uid : Z; st_gid : Z; st_rdev : Z; st_size : Z;
  st_blksize : Z; st_blocks : Z; st_atime : Z * Z; st_mtime : Z * Z; st_ctime : Z * Z }.

(** [flags & f] *)
Definition has (flags f : Z) : bool := bool_decide (Z.land flags f ≠ 0).

Definition fset_global (g : option Z) (d : file_descriptor) : file_descriptor :=
  FileDesc g (fd_flags d) (fd_offset d) (fd_is_used d).
Definition fset_flags (f : Z) (d : file_descriptor) : file_descriptor :=
  FileDesc (global_fd d) f (fd_offset d) (fd_is_used d).
Definition fset_offset (o : Z) (d : file_descriptor) : file_descriptor :=
  FileDesc (global_fd d) (fd_flags d) (u32 o) (fd_is_used d).
Definition fset_used (b : bool) (d : file_descriptor) : file_descriptor :=
  FileDesc (global_fd d) (fd_flags d) (fd_offset d) b.

Section operations.
Context {D H V : Type} `{BlockDevice D} `{KernelHeap H} `{Ports V}.
(** What is left in the result register where fat_create_file ends without a
    return; how often a reader of the terminal is resumed, and what the others do
    meanwhile. *)
Context (no_return : kernel D H V → Z) (fuel : nat) (others : M (kernel D H V) unit).
Implicit Types k : kernel D H V.

(** ** Descriptors *)

(** [current_process->fd_table[i]], read and written. *)
Definition fd_entry (p i : Z) : M (kernel D H V) file_descriptor :=
  n ← on_procs (node p); liftO (of_option (aget (fd_table (proc n)) i)).
Definition update_fd (p i : Z) (f : file_descriptor → file_descriptor) : M (kernel D H V) unit :=
  n ← on_procs (node p);
  d ← liftO (of_option (aget (fd_table (proc n)) i));
  t ← liftO (of_option (aset (fd_table (proc n)) i (f d)));
  on_procs (update_proc p (set_fd_table t)).
(** [current_process->fd_table[i].global_fd], dereferenced. *)
Definition fd_global (p i : Z) : M (kernel D H V) Z := d ← fd_entry p i; liftO (of_option (global_fd d)).
Definition fd_file (p i : Z) : M (kernel D H V) FileData := g ← fd_global p i; e ← on_fds (gfd g); mret (g_file e).
(** [global_fd->file] after a call that was given a pointer to it; [None]: not written. *)
Definition store_file (g : option Z) (f : option FileData) : M (kernel D H V) unit :=
  match f with
  | None => mret tt
  | Some f => i ← liftO (of_option g); on_fds (update_gfd i (gset_file f))
  end.

(** [full_path], made of the array [full_path] held before. *)
Definition full_path_of (p : Z) (path full_path : list Z) (size : Z) : M (kernel D H V) (list Z) :=
  c ← liftO (char_at path 0);
  if decide (c = SLASH) then liftO (strncpy full_path path (Z.to_nat size)) else
  n ← on_procs (node p);
  liftO (join_path (cwd (proc n)) path full_path 256).
(** [path[0] != '/' && full_path[0] == '\0']: the join had no room. *)
Definition no_room (path full_path : list Z) : outcome bool :=
  c ← char_at path 0; d ← char_at full_path 0; Done (bool_decide (c ≠ SLASH ∧ d = 0)).

(** filesystem/vfs/file.c *)
Definition read_fat_fs (g count off : Z) (buf : list Z) : M (kernel D H V) (Z * list Z) :=
  e ← on_fds (gfd g);
  on_fs (fat_read (file_entry (g_file e)) off count buf).
(** [global_fd->_read(...)] *)
Definition call_read (g count off : Z) (buf : list Z) : M (kernel D H V) (Z * list Z) :=
  e ← on_fds (gfd g);
  match g_read e with
  | None => fault
  | Some Vfs.read_fat_fs => read_fat_fs g count off buf
  | Some Vfs.read_terminal_input => read_terminal_input fuel others buf count
  end.

(** ** The calls *)

Fixpoint find_free_fd (p i : Z) (n : nat) : M (kernel D H V) (option Z) :=
  match n with
  | O => mret None
  | S n => d ← fd_entry p i; if negb (fd_is_used d) then mret (Some i) else find_free_fd p (i + 1) n
  end.

(** An entry for a file that is not open yet; the result is the error, if any. *)
Definition open_new (p i : Z) (full_path : list Z) (flags : Z) : M (kernel D H V) (option Z) :=
  g ← on_fds (allocate_global_fd full_path);
  _ ← update_fd p i (fset_global g);
  if negb (has flags O_DIRECTORY) then
    '(r, f) ← on_fs (fat_get_file_data full_path);
    _ ← store_file g f;
    if decide (r ≠ 0) then
      if has flags O_CREAT then
        _ ← on_fs (fat_create_file full_path);
        created ← gets no_return;
        if decide (created ≠ 0) then mret (Some (- ENOENT)) else
        '(r, f) ← on_fs (fat_get_file_data full_path);
        _ ← store_file g f;
        mret (if decide (r ≠ 0) then Some (- ENOENT) else None)
      else mret (Some (- ENOENT))
    else mret None
  else
    '(r, f) ← on_fs (fat_get_dir_data full_path);
    _ ← store_file g f;
    mret (if decide (r ≠ 0) then Some (- ENOENT) else None).
(** One more reference to an open file. *)
Definition open_again (g : Z) (flags : Z) : M (kernel D H V) (option Z) :=
  e ← on_fds (gfd g);
  if is_dir e && negb (has flags O_DIRECTORY) then mret (Some (- EISDIR)) else
  if negb (is_dir e) && has flags O_DIRECTORY then mret (Some (- ENOTDIR)) else
  _ ← on_fds (update_gfd g (gset_ref (ref_count e + 1)));
  mret None.
(** The end of the call: the offset, and the entries are in use. *)
Definition open_mark (p i : Z) (flags : Z) : M (kernel D H V) Z :=
  g ← fd_global p i;
  _ ← on_fds (update_gfd g (gset_used true));
  _ ← update_fd p i (fset_used true);
  _ ← update_fd p i (fset_flags flags);
  f ← fd_file p i;
  let d := bool_decide (Z.land (attr (file_entry f)) FAT_ATTR_DIRECTORY ≠ 0) in
  _ ← on_fds (update_gfd g (gset_dir d));
  _ ← (if d then update_fd p i (fset_flags (Z.lor flags O_DIRECTORY)) else mret tt);
  mret i.
Definition open_finish (p i : Z) (flags : Z) : M (kernel D H V) Z :=
  if negb (has flags O_DIRECTORY) then
    if has flags O_EXCL then mret (- EEXIST) else
    _ ← (if has flags O_TRUNC then
           f ← fd_file p i;
           g ← fd_global p i;
           '(_, f) ← on_fs (fat_truncate f 0);
           store_file (Some g) (Some f)
         else mret tt);
    _ ← (if has flags O_APPEND then
           f ← fd_file p i; update_fd p i (fset_offset (file_size (file_entry f)))
         else update_fd p i (fset_offset 0));
    open_mark p i flags
  else open_mark p i flags.

Definition _open (path : list Z) (flags : Z) : M (kernel D H V) Z :=
  p ← on_procs get_current_process;
  if decide (p = 0) then mret (- ESRCH) else
  full_path ← full_path_of p path (replicate 256 0) 255;
  failed ← liftO (no_room path full_path);
  if (failed : bool) then mret (- ENOMEM) else
  found ← find_free_fd p 0 (Z.to_nat MAX_FD);
  match found with
  | None => mret (- EMFILE)
  | Some i =>
      _ ← update_fd p i (λ _, zero_fd);
      g ← on_fds (get_opened_fd full_path);
      _ ← update_fd p i (fset_global g);
      err ← match g with
            | None => open_new p i full_path flags
            | Some g => open_again g flags
            end;
      match err with
      | Some err => mret err
      | None => open_finish p i flags
      end
  end.

(** The checks most of the calls share: the descriptor is in range and in use. *)
Definition in_use (p fd : Z) : M (kernel D H V) bool :=
  if decide (fd < 0 ∨ MAX_FD ≤ fd) then mret false else
  d ← fd_entry p fd; mret (fd_is_used d).

Definition _close (fd : Z) : M (kernel D H V) Z :=
  p ← on_procs get_current_process;
  if decide (p = 0) then mret (- ESRCH) else
  if decide (fd < 0 ∨ MAX_FD ≤ fd) then mret (- EBADF) else
  if decide (fd = 0 ∨ fd = 1) then mret (- EBADF) else
  used ← in_use p fd;
  if negb used then mret (- EBADF) else
  g ← fd_global p fd;
  e ← on_fds (gfd g);
  _ ← on_fds (update_gfd g (gset_ref (ref_count e - 1)));
  e ← on_fds (gfd g);
  _ ← (if decide (ref_count e = 0) then on_fds (update_gfd g (λ _, zero_global_fd)) else mret tt);
  _ ← update_fd p fd (λ _, zero_fd);
  mret 0.

(** The result of the read is added to the offset also when it is an error. *)
Definition _read (fd : Z) (buf : list Z) (count : Z) : M (kernel D H V) (Z * list Z) :=
  p ← on_procs get_current_process;
  if decide (p = 0) then mret (- ESRCH, buf) else
  used ← in_use p fd;
  if negb used then mret (- EBADF, buf) else
  d ← fd_entry p fd;
  if has (fd_flags d) O_DIRECTORY then mret (- EISDIR, buf) else
  if has (fd_flags d) O_RDONLY then mret (- EPERM, buf) else
  match global_fd d with
  | None => mret (- EBADF, buf)
  | Some g =>
      '(bytes_read, buf) ← call_read g count (fd_offset d) buf;
      d ← fd_entry p fd;
      _ ← update_fd p fd (fset_offset (fd_offset d + bytes_read));
      mret (s32 bytes_read, buf)
  end.

(** [vga_putchar(str[i])] for [i] from 0 on. *)
Fixpoint put_chars (str : list Z) (i : Z) (n : nat) : M (kernel D H V) unit :=
  match n with
  | O => mret tt
  | S n => c ← liftO (char_at str i); _ ← on_screen (vga_putchar c); put_chars str (i + 1) n
  end.

Definition _write (fd : Z) (buf : list Z) (count : Z) : M (kernel D H V) Z :=
  p ← on_procs get_current_process;
  if decide (p = 0) then mret (- ESRCH) else
  if decide (fd = 0 ∨ fd = 2) then mret (- EBADF) else
  if decide (fd = 1) then _ ← put_chars buf 0 (Z.to_nat count); mret (s32 count) else
  used ← in_use p fd;
  if negb used then mret (- EBADF) else
  d ← fd_entry p fd;
  if has (fd_flags d) O_DIRECTORY then mret (- EISDIR) else
  if has (fd_flags d) O_RDONLY then mret (- EPERM) else
  g ← fd_global p fd;
  f ← fd_file p fd;
  '(bytes_written, e) ← on_fs (fat_write (file_entry f) (parent_entry f) (fd_offset d) count buf);
  _ ← store_file (Some g) (Some (mkFileData e (parent_entry f)));
  if decide (bytes_written < 0) then mret EAGAIN else
  _ ← update_fd p fd (fset_offset (fd_offset d + bytes_written));
  mret bytes_written.

Definition _lseek (fd offset whence : Z) : M (kernel D H V) Z :=
  p ← on_procs get_current_process;
  if decide (p = 0) then mret (- ESRCH) else
  if decide (fd = 0 ∨ fd = 1 ∨ fd = 2) then mret (- EBADF) else
  used ← in_use p fd;
  if negb used then mret (- EBADF) else
  d ← fd_entry p fd;
  new_offset ← (if decide (whence = SEEK_SET) then mret (Some 0)
                else if decide (whence = SEEK_CUR) then mret (Some (s32 (fd_offset d + offset)))
                else if decide (whence = SEEK_END) then f ← fd_file p fd; mret (Some (s32 (file_size (file_entry f))))
                else mret None);
  match new_offset with
  | None => mret (- EINVAL)
  | Some new_offset =>
      if decide (new_offset < 0) then mret (- EINVAL) else
      past ← (if has (fd_flags d) O_DIRECTORY then
                f ← fd_file p fd; mret (bool_decide (file_size (file_entry f) < u32 new_offset))
              else mret false);
      if (past : bool) then mret (- EINVAL) else
      _ ← update_fd p fd (fset_offset new_offset);
      d ← fd_entry p fd;
      mret (s32 (fd_offset d))
  end.

Definition fill_stat (size mode : Z) (s : stat) : stat :=
  Stat (st_dev s) (st_ino s) mode 1 0 0 (st_rdev s) size 512 (u32 (size + 511) / 512)
    (st_atime s) (st_mtime s) (st_ctime s).

(** [tmp_file] is the first successful query's. *)
Definition _stat (path : list Z) (statbuf : stat) : M (kernel D H V) (Z * stat) :=
  p ← on_procs get_current_process;
  full_path ← full_path_of p path (replicate 256 0) 256;
  failed ← liftO (no_room path full_path);
  if (failed : bool) then mret (- ENOMEM, statbuf) else
  '(r, f) ← on_fs (fat_get_file_data full_path);
  '(r, f) ← (if decide (r ≠ 0) then on_fs (fat_get_dir_data full_path) else mret (r, f));
  if decide (r ≠ 0) then mret (- ENOENT, statbuf) else
  f ← liftO (of_option f);
  mret (0, fill_stat (file_size (file_entry f)) (attr (file_entry f)) statbuf).

Definition _fstat (fd : Z) (statbuf : stat) : M (kernel D H V) (Z * stat) :=
  p ← on_procs get_current_process;
  if decide (p = 0) then mret (- ESRCH, statbuf) else
  if decide (fd = 0 ∨ fd = 1 ∨ fd = 2) then mret (- EBADF, statbuf) else
  used ← in_use p fd;
  if negb used then mret (- EBADF, statbuf) else
  g ← fd_global p fd;
  e ← on_fds (gfd g);
  let mode := if is_device e then FILE_TYPE_CHAR_DEVICE
              else if decide (Z.land (attr (file_entry (g_file e))) FAT_ATTR_DIRECTORY ≠ 0)
              then FILE_TYPE_DIRECTORY else FILE_TYPE_REGULAR in
  mret (0, fill_stat (file_size (file_entry (g_file e))) mode statbuf).

(** The entry of an open file is not told of the new size. *)
Definition _truncate (path : list Z) (length : Z) : M (kernel D H V) Z :=
  p ← on_procs get_current_process;
  full_path ← full_path_of p path (replicate 256 0) 256;
  '(r, f) ← on_fs (fat_get_file_data full_path);
  if decide (r ≠ 0) then mret (- ENOENT) else
  f ← liftO (of_option f);
  '(r, _) ← on_fs (fat_truncate f (u32 length));
  mret r.

Definition _ftruncate (fd length : Z) : M (kernel D H V) Z :=
  p ← on_procs get_current_process;
  if decide (p = 0) then mret (- ESRCH) else
  if decide (fd = 0 ∨ fd = 1 ∨ fd = 2) then mret (- EBADF) else
  used ← in_use p fd;
  if negb used then mret (- EBADF) else
  g ← fd_global p fd;
  f ← fd_file p fd;
  '(r, f) ← on_fs (fat_truncate f (u32 length));
  _ ← store_file (Some g) (Some f);
  _ ← (if decide (r = 0) then
         store_file (Some g) (Some (mkFileData (set_size length (file_entry f)) (parent_entry f)))
       else mret tt);
  mret r.
End operations.

(** ** Lemmas *)

(** Entry [fd] of the running process [p] is [d]. *)
Record descriptor {D H V} (k : kernel D H V) (p fd : Z) (d : file_descriptor) : Prop := {
  de_current : current_process_g (k_procs k) = p;
  de_null : p ≠ 0;
  de_node : ∃ n, nodes (k_procs k) !! p = Some n ∧ aget (fd_table (proc n)) fd = Some d;
}.

Section states.
Context {D H V : Type}.
Implicit Types k : kernel D H V.

Definition fd_put (fd : Z) (d : file_descriptor) (n : process_node) : process_node :=
  set_proc (set_fd_table (<[Z.to_nat fd := d]> (fd_table (proc n))) (proc n)) n.
Definition with_fd (p fd : Z) (d : file_descriptor) k : kernel D H V :=
  kset_procs (set_nodes (alter (fd_put fd d) p (nodes (k_procs k))) (k_procs k)) k.
Definition with_global (g : Z) (e : global_file_descriptor) k : kernel D H V :=
  kset_fds (<[Z.to_nat g := e]> (k_fds k)) k.


Lemma descriptor_range k p fd d : descriptor k p fd d → 0 ≤ fd.
Proof. intros [_ _ (n & _ & E)]. apply aget_lt_Some in E. lia. Qed.
Lemma descriptor_with k p fd d d' : descriptor k p fd d → descriptor (with_fd p fd d' k) p fd d'.
Proof.
  intros [Hc Hp (n & En & Ed)]. split; [done|done|]. exists (fd_put fd d' n). split.
  - cbn. by rewrite lookup_alter_eq, En.
  - cbn. rewrite aget_insert by (by eapply aget_lt_Some). by rewrite decide_True.
Qed.
Lemma descriptor_fs k p fd d x : descriptor k p fd d → descriptor (kset_fs x k) p fd d.
Proof. by intros []. Qed.
Lemma descriptor_global k p fd d g e : descriptor k p fd d → descriptor (with_global g e k) p fd d.
Proof. by intros []. Qed.
Lemma with_fd_with_fd k p fd d d' : with_fd p fd d' (with_fd p fd d k) = with_fd p fd d' k.
Proof.
  unfold with_fd, kset_procs, set_nodes. cbn. do 2 f_equal. apply map_eq. intros q.
  destruct (decide (q = p)) as [->|]; [|by rewrite !lookup_alter_ne].
  rewrite !lookup_alter_eq. destruct (nodes (k_procs k) !! p) as [n|]; [|done]. cbn. f_equal.
  unfold fd_put, set_proc, set_fd_table. cbn. by rewrite list_insert_insert_eq.
Qed.
Lemma with_fd_same k p fd d : descriptor k p fd d → with_fd p fd d k = k.
Proof.
  intros [_ _ (n & En & Ed)]. unfold with_fd.
  assert (alter (fd_put fd d) p (nodes (k_procs k)) = nodes (k_procs k)) as ->.
  { apply map_eq. intros q. destruct (decide (q = p)) as [->|]; [|by rewrite lookup_alter_ne].
    rewrite lookup_alter_eq, En. cbn. f_equal. unfold fd_put. apply aget_Some in Ed as [_ Ed].
    rewrite list_insert_id by done. destruct n as [x ? ?]. unfold set_proc, set_fd_table. cbn. by destruct x. }
  unfold set_nodes. destruct k as [? ? ? ? ? [] ? ? ? ? ?]. done.
Qed.
Lemma with_global_with_global k g e e' : with_global g e' (with_global g e k) = with_global g e' k.
Proof. unfold with_global, kset_fds. cbn. by rewrite list_insert_insert_eq. Qed.
Lemma with_global_same k g e : aget (k_fds k) g = Some e → with_global g e k = k.
Proof. intros [_ E]%aget_Some. unfold with_global. rewrite list_insert_id by done. apply kset_fds_same. Qed.
Lemma global_with k g e : 0 ≤ g < zlen (k_fds k) → aget (k_fds (with_global g e k)) g = Some e.
Proof. intros Hg. cbn. rewrite aget_insert by done. by rewrite decide_True. Qed.

(** *** The steps on descriptors and entries *)

Lemma wp_current_process (Q : Z → kernel D H V → Prop) k :
  Q (current_process_g (k_procs k)) k → wp (on_procs get_current_process) Q k.
Proof. intros HQ. apply wp_zoom, wp_gets. by rewrite kset_procs_same. Qed.
Lemma wp_fd_entry (Q : file_descriptor → kernel D H V → Prop) k p fd d :
  descriptor k p fd d → Q d k → wp (fd_entry p fd) Q k.
Proof.
  intros [_ _ (n & En & Ed)] HQ. apply wp_bind, wp_zoom. eapply wp_node; [done|]. rewrite kset_procs_same.
  eapply wp_liftO; [|done]. by rewrite Ed.
Qed.
Lemma wp_update_fd f (Q : unit → kernel D H V → Prop) k p fd d :
  descriptor k p fd d → Q tt (with_fd p fd (f d) k) → wp (update_fd p fd f) Q k.
Proof.
  intros [_ _ (n & En & Ed)] HQ. apply wp_bind, wp_zoom. eapply wp_node; [done|]. rewrite kset_procs_same.
  apply wp_bind. eapply wp_liftO; [by rewrite Ed|]. apply wp_bind. eapply wp_liftO.
  { rewrite aset_in; [done|]. by eapply aget_lt_Some. }
  apply wp_zoom. eapply wp_update_node; [done|].
  assert (insert p (set_proc (set_fd_table (<[Z.to_nat fd:=f d]> (fd_table (proc n))) (proc n)) n) (nodes (k_procs k))
          = alter (fd_put fd (f d)) p (nodes (k_procs k))) as ->; [|done].
  apply map_eq. intros q. destruct (decide (q = p)) as [->|].
  - by rewrite lookup_insert_eq, lookup_alter_eq, En.
  - by rewrite lookup_insert_ne, lookup_alter_ne.
Qed.
Lemma wp_entry (Q : global_file_descriptor → kernel D H V → Prop) k g e :
  aget (k_fds k) g = Some e → Q e k → wp (on_fds (gfd g)) Q k.
Proof. intros E HQ. apply wp_zoom. eapply wp_gfd; [done|]. by rewrite kset_fds_same. Qed.
Lemma wp_update_entry f (Q : unit → kernel D H V → Prop) k g e :
  aget (k_fds k) g = Some e → Q tt (with_global g (f e) k) → wp (on_fds (update_gfd g f)) Q k.
Proof. intros E HQ. apply wp_zoom. by eapply wp_update_gfd. Qed.
Lemma wp_fd_global (Q : Z → kernel D H V → Prop) k p fd d g :
  descriptor k p fd d → global_fd d = Some g → Q g k → wp (fd_global p fd) Q k.
Proof. intros Hd Hg HQ. apply wp_bind. eapply wp_fd_entry; [done|]. eapply wp_liftO; [by rewrite Hg|done]. Qed.
Lemma wp_fd_file (Q : FileData → kernel D H V → Prop) k p fd d g e :
  descriptor k p fd d → global_fd d = Some g → aget (k_fds k) g = Some e → Q (g_file e) k → wp (fd_file p fd) Q k.
Proof.
  intros Hd Hg He HQ. apply wp_bind. eapply wp_fd_global; [done..|]. apply wp_bind. by eapply wp_entry.
Qed.
Lemma wp_in_use (Q : bool → kernel D H V → Prop) k p fd d :
  descriptor k p fd d → fd < MAX_FD → Q (fd_is_used d) k → wp (in_use p fd) Q k.
Proof.
  intros Hd Hfd HQ. pose proof (descriptor_range _ _ _ _ Hd). unfold in_use. rewrite decide_False by lia.
  apply wp_bind. by eapply wp_fd_entry.
Qed.
End states.

(** *** Opening and closing *)

Section opening.
Context {D H V : Type} `{BlockDevice D} `{KernelHeap H}.
Implicit Types k : kernel D H V.

Definition closed (e : global_file_descriptor) : global_file_descriptor :=
  if decide (ref_count e = 1) then zero_global_fd else gset_ref (ref_count e - 1) e.
Definition dir_bit (f : FileData) : bool := bool_decide (Z.land (attr (file_entry f)) FAT_ATTR_DIRECTORY ≠ 0).
Definition marked (e : global_file_descriptor) : global_file_descriptor := gset_dir (dir_bit (g_file e)) (gset_used true e).
Definition marked_fd (flags : Z) (e : global_file_descriptor) (d : file_descriptor) : file_descriptor :=
  FileDesc (global_fd d) (if dir_bit (g_file e) then Z.lor flags O_DIRECTORY else flags) (fd_offset d) true.

Lemma wp_close_call k p fd d g e (Q : Z → kernel D H V → Prop) :
  descriptor k p fd d → 2 ≤ fd < MAX_FD → fd_is_used d = true → global_fd d = Some g → aget (k_fds k) g = Some e →
  Q 0 (with_fd p fd zero_fd (with_global g (closed e) k)) → wp (_close fd) Q k.
Proof.
  intros Hd Hr Hu Hg He HQ. apply wp_bind, wp_current_process.
  rewrite (de_current _ _ _ _ Hd), (decide_False (P := p = 0)) by (exact (de_null _ _ _ _ Hd)).
  rewrite !decide_False by lia. apply wp_bind. eapply wp_in_use; [done|lia|]. rewrite Hu. cbn [negb].
  apply wp_bind. eapply wp_fd_global; [done..|]. apply wp_bind. eapply wp_entry; [done|].
  pose proof (aget_lt_Some _ _ _ He) as Hgr.
  apply wp_bind. eapply wp_update_entry; [done|]. apply wp_bind. eapply wp_entry; [by apply global_with|].
  cbn [ref_count gset_ref]. unfold closed in HQ. apply wp_bind. destruct (decide (ref_count e = 1)) as [E|E].
  - rewrite decide_True by lia. eapply wp_update_entry; [by apply global_with|]. rewrite with_global_with_global.
    apply wp_bind. eapply wp_update_fd; [by apply descriptor_global|]. by apply wp_ret.
  - rewrite decide_False by lia. apply wp_ret, wp_bind.
    eapply wp_update_fd; [by apply descriptor_global|]. by apply wp_ret.
Qed.

Lemma wp_open_mark k p i d g e flags (Q : Z → kernel D H V → Prop) :
  descriptor k p i d → global_fd d = Some g → aget (k_fds k) g = Some e →
  Q i (with_fd p i (marked_fd flags e d) (with_global g (marked e) k)) → wp (open_mark p i flags) Q k.
Proof.
  intros Hd Hg He HQ. pose proof (aget_lt_Some _ _ _ He) as Hgr.
  apply wp_bind. eapply wp_fd_global; [done..|]. apply wp_bind. eapply wp_update_entry; [done|].
  set (k1 := with_global g (gset_used true e) k). assert (descriptor k1 p i d) as Hd1 by (by apply descriptor_global).
  apply wp_bind. eapply wp_update_fd; [done|]. apply wp_bind. eapply wp_update_fd; [by eapply descriptor_with|].
  rewrite with_fd_with_fd. set (d2 := fset_flags flags (fset_used true d)).
  assert (descriptor (with_fd p i d2 k1) p i d2) as Hd2 by (by eapply descriptor_with).
  assert (aget (k_fds (with_fd p i d2 k1)) g = Some (gset_used true e)) as He2 by (by apply global_with).
  apply wp_bind. eapply wp_fd_file; [exact Hd2|done|exact He2|]. apply wp_bind.
  eapply wp_update_entry; [exact He2|]. fold (dir_bit (g_file (gset_used true e))).
  assert (with_global g (marked e) (with_fd p i d2 k1) = with_fd p i d2 (with_global g (marked e) k)) as E.
  { trans (with_fd p i d2 (with_global g (marked e) k1)); [done|]. subst k1. by rewrite with_global_with_global. }
  lazymatch goal with |- wp _ _ ?s => change s with (with_global g (marked e) (with_fd p i d2 k1)) end.
  rewrite E. unfold marked_fd in HQ. apply wp_bind. cbn [g_file gset_used]. destruct (dir_bit (g_file e)).
  - eapply wp_update_fd; [eapply descriptor_with; by apply descriptor_global|]. rewrite with_fd_with_fd. by apply wp_ret.
  - apply wp_ret, wp_ret. done.
Qed.

Lemma find_free_fd_spec k p i n j :
  current_process_g (k_procs k) = p → p ≠ 0 → nodes (k_procs k) !! p = Some n → 0 ≤ j ≤ i →
  aget (fd_table (proc n)) i = Some zero_fd →
  (∀ x d, 0 ≤ x < i → aget (fd_table (proc n)) x = Some d → fd_is_used d = true) →
  ∀ m, i < j + Z.of_nat m → find_free_fd p j m k = Done (Some i, k).
Proof.
  intros Hc Hp Hn Hj Hi Hall m. revert j Hj. induction m as [|m IH]; intros j Hj Hm; [lia|]. cbn [find_free_fd].
  destruct (aget_is_Some (fd_table (proc n)) j) as [d Hd]; [pose proof (aget_lt_Some _ _ _ Hi); lia|].
  assert (fd_entry p j k = Done (d, k)) as E.
  { assert (wp (fd_entry p j) (λ a k', (a, k') = (d, k)) k) as Hwp.
    { eapply wp_fd_entry; [|done]. split; [done|done|]. by exists n. }
    apply wp_done in Hwp as (a & k' & -> & [= -> ->]). done. }
  rewrite (bind_done _ _ _ _ _ E). destruct (decide (j = i)) as [->|].
  - assert (d = zero_fd) as -> by congruence. done.
  - rewrite (Hall j d) by (done || lia). cbn [negb]. apply IH; lia.
Qed.
End opening.

(** *** Opening an absolute path *)

Section opening_path.
Context {D H V : Type} `{BlockDevice D} `{KernelHeap H}.
Implicit Types k : kernel D H V.

(** Entry [i] is the lowest free one of process [p]. *)
Record free_fd k (p i : Z) : Prop := {
  ff_fd : descriptor k p i zero_fd;
  ff_lowest n x d : nodes (k_procs k) !! p = Some n → 0 ≤ x < i → aget (fd_table (proc n)) x = Some d → fd_is_used d = true;
}.
(** The file call's array holds the path. *)
Definition path_array (s : list Z) : list Z := padded 256 s.

(** The table of open files, and an entry that has the path or the lowest free one. *)
Definition already_open k (s : list Z) (g : Z) (e : global_file_descriptor) : Prop :=
  aget (k_fds k) g = Some e ∧ is_used e = true ∧ path_of e = s ∧
  ∀ j h, 0 ≤ j < g → aget (k_fds k) j = Some h → is_used h = true → path_of h ≠ s.
Definition not_open k (s : list Z) (g : Z) (e : global_file_descriptor) : Prop :=
  aget (k_fds k) g = Some e ∧ is_used e = false ∧ (∀ j h, 0 ≤ j < g → aget (k_fds k) j = Some h → is_used h = true) ∧
  ∀ j h, aget (k_fds k) j = Some h → is_used h = true → path_of h ≠ s.
Record fds_ok k : Prop := { fk_length : length (k_fds k) = 256%nat; fk_paths : paths_ok (k_fds k) }.

Lemma padded_cstr s : (length s < 256)%nat → padded 256 s = s ++ 0 :: replicate (255 - length s) 0.
Proof. intros Hl. unfold padded. f_equal. by replace (256 - length s)%nat with (S (255 - length s)) by lia. Qed.

(** What [get_opened_fd] and [allocate_global_fd] do for the path. *)
Lemma wp_get_opened k s (Q : option Z → kernel D H V → Prop) r :
  fds_ok k → str_ok s → (length s < 256)%nat →
  match r with Some g => ∃ e, already_open k s g e | None => ∀ j h, aget (k_fds k) j = Some h → is_used h = true → path_of h ≠ s end →
  Q r k → wp (on_fds (get_opened_fd (padded 256 s))) Q k.
Proof.
  intros [Hl Hp] Hs Hls Hr HQ. apply wp_zoom. rewrite padded_cstr by done.
  destruct (find_opened_spec (k_fds k) s (replicate (255 - length s) 0) 0 256 Hs Hls Hp) as (r' & E & Hr' & Hall); [lia..|].
  apply (wp_of_done _ _ _ _ _ E). rewrite kset_fds_same.
  assert (r' = r) as ->; [|done]. destruct r' as [a|], r as [b|]; try done.
  - destruct Hr' as (Ha & x & Hx & Hux & Hpx). destruct Hr as (y & Hy & Huy & Hpy & Hlow). f_equal.
    destruct (Z.lt_trichotomy a b) as [Hlt|[?|Hlt]]; [|done|].
    + exfalso. apply (Hlow a x); [lia|done..].
    + exfalso. apply aget_Some in Hy as Hy'. apply (Hall b y); [simpl; lia|done..].
  - destruct Hr' as (Ha & x & Hx & Hux & Hpx). exfalso. by apply (Hr a x).
  - destruct Hr as (y & Hy & Huy & Hpy & _). exfalso. pose proof (aget_lt_Some _ _ _ Hy).
    apply (Hall b y); [simpl; lia|done..].
Qed.

Lemma wp_allocate k s g e (Q : option Z → kernel D H V → Prop) :
  fds_ok k → str_ok s → s ≠ [] → (length s < 255)%nat → not_open k s g e →
  Q (Some g) (with_global g (file_fd (padded 256 s)) k) → wp (on_fds (allocate_global_fd (padded 256 s))) Q k.
Proof.
  intros [Hl _] Hs Hne Hls (Hg & Hu & Hlow & _) HQ. apply wp_zoom.
  eapply (wp_allocate_global_fd _ (padded 256 s)); [done| | |].
  - rewrite padded_cstr by lia. rewrite strncpy_cstr by (rewrite ?length_take, ?length_replicate; done || lia).
    rewrite take_ge, drop_replicate by lia. f_equal. f_equal. by replace (256 - length s)%nat with (S (255 - length s)) by lia.
  - intros a x Hx Hux Ha. assert (a = g) as ->; [|done].
    pose proof (aget_lt_Some _ _ _ Hx). pose proof (aget_lt_Some _ _ _ Hg).
    destruct (Z.lt_trichotomy a g) as [Hlt|[?|Hlt]]; [|done|].
    + by rewrite (Hlow a x) in Hux by (done || lia).
    + by rewrite (Ha g e) in Hu by (done || lia).
  - intros Hall. by rewrite (Hall _ _ Hg) in Hu.
Qed.

Record plain_flags (flags : Z) : Prop := {
  pf_dir : has flags O_DIRECTORY = false; pf_excl : has flags O_EXCL = false; pf_trunc : has flags O_TRUNC = false }.
Definition start_offset (flags : Z) (e : global_file_descriptor) : Z :=
  if has flags O_APPEND then file_size (file_entry (g_file e)) else 0.

Lemma wp_open_finish k p i d g e flags (Q : Z → kernel D H V → Prop) :
  plain_flags flags → descriptor k p i d → global_fd d = Some g → aget (k_fds k) g = Some e →
  Q i (with_fd p i (marked_fd flags e (fset_offset (start_offset flags e) d)) (with_global g (marked e) k)) →
  wp (open_finish p i flags) Q k.
Proof.
  intros [Ed Ee Et] Hd Hg He HQ. unfold open_finish, start_offset in *. rewrite Ed, Ee, Et. cbn [negb].
  apply wp_bind, wp_ret, wp_bind.
  assert (wp (if has flags O_APPEND then f ← fd_file p i; update_fd p i (fset_offset (file_size (file_entry f)))
              else update_fd p i (fset_offset 0))
    (λ _ k', k' = with_fd p i (fset_offset (start_offset flags e) d) k) k) as Hoff.
  { unfold start_offset. destruct (has flags O_APPEND).
    - apply wp_bind. eapply wp_fd_file; [done..|]. by eapply wp_update_fd.
    - by eapply wp_update_fd. }
  eapply wp_mono; [exact Hoff|]. intros [] k' ->. unfold start_offset.
  eapply wp_open_mark; [by eapply descriptor_with|done|done|].
  assert (∀ x, with_fd p i x (with_global g (marked e) (with_fd p i (fset_offset (start_offset flags e) d) k)) =
          with_fd p i x (with_global g (marked e) k)) as E.
  { intros x. trans (with_fd p i x (with_fd p i (fset_offset (start_offset flags e) d) (with_global g (marked e) k))); [done|].
    apply with_fd_with_fd. }
  unfold start_offset in E. by rewrite E.
Qed.

Lemma wp_full_path k p s r (Q : list Z → kernel D H V → Prop) :
  str_ok (SLASH :: s) → (length s < 254)%nat → Q (padded 256 (SLASH :: s)) k →
  wp (full_path_of p (SLASH :: s ++ 0 :: r) (replicate 256 0) 255) Q k.
Proof.
  intros Hs Hl HQ. apply wp_bind. eapply wp_liftO; [done|]. rewrite decide_True by done. eapply wp_liftO; [|exact HQ].
  change (SLASH :: s ++ 0 :: r) with ((SLASH :: s) ++ 0 :: r). change (Z.to_nat 255) with 255%nat.
  rewrite strncpy_cstr; [|done|done|rewrite length_take, length_replicate; lia].
  rewrite take_ge by (simpl; lia). by rewrite drop_replicate.
Qed.

(** The start of the call, up to the search of the table. *)
Lemma wp_open_start no_return k p i s r flags g0 (Q : Z → kernel D H V → Prop) :
  free_fd k p i → i < MAX_FD → fds_ok k → str_ok (SLASH :: s) → (length s < 254)%nat →
  match g0 with
  | Some g => ∃ e, already_open k (SLASH :: s) g e
  | None => ∀ j h, aget (k_fds k) j = Some h → is_used h = true → path_of h ≠ SLASH :: s
  end →
  wp (err ← match g0 with
            | None => open_new no_return p i (padded 256 (SLASH :: s)) flags
            | Some g => open_again g flags
            end;
      match err with Some err => mret err | None => open_finish p i flags end) Q
     (with_fd p i (FileDesc g0 0 0 false) k) →
  wp (_open no_return (SLASH :: s ++ 0 :: r) flags) Q k.
Proof.
  intros [Hd Hlow] Hi Hfds Hs Hl Hg0 HQ. pose proof (de_null _ _ _ _ Hd) as Hp.
  apply wp_bind, wp_current_process. rewrite (de_current _ _ _ _ Hd), decide_False by done.
  apply wp_bind, wp_full_path; [done..|]. apply wp_bind. eapply wp_liftO; [done|].
  rewrite bool_decide_eq_false_2 by (intros [Hne _]; by apply Hne).
  destruct (de_node _ _ _ _ Hd) as (n & En & Ed). pose proof (descriptor_range _ _ _ _ Hd).
  apply wp_bind. eapply wp_of_done.
  { eapply find_free_fd_spec; [apply (de_current _ _ _ _ Hd)|done|done| |done| |]; [lia|by intros; eapply Hlow|unfold MAX_FD in *; lia]. }
  cbv beta iota. apply wp_bind. eapply wp_update_fd; [done|]. rewrite (with_fd_same _ _ _ _ Hd).
  apply wp_bind. eapply (wp_get_opened _ _ _ g0); [done|done|simpl; lia|done|].
  apply wp_bind. eapply wp_update_fd; [done|]. exact HQ.
Qed.

Lemma wp_open_file no_return k p i s r flags g e f fs' (Q : Z → kernel D H V → Prop) :
  let en := gset_file f (file_fd (padded 256 (SLASH :: s))) in
  free_fd k p i → i < MAX_FD → fds_ok k → str_ok (SLASH :: s) → (length s < 254)%nat → plain_flags flags →
  not_open k (SLASH :: s) g e → fat_get_file_data (padded 256 (SLASH :: s)) (k_fs k) = Done ((0, Some f), fs') →
  Q i (with_fd p i (marked_fd flags en (fset_offset (start_offset flags en) (FileDesc (Some g) 0 0 false)))
         (with_global g (marked en) (kset_fs fs' k))) →
  wp (_open no_return (SLASH :: s ++ 0 :: r) flags) Q k.
Proof.
  intros en Hff Hi Hfds Hs Hl Hpf Hno Hdata HQ. pose proof (ff_fd _ _ _ Hff) as Hd.
  pose proof Hno as (Hg & _ & _ & Hnone). pose proof (aget_lt_Some _ _ _ Hg) as Hgr.
  eapply (wp_open_start _ _ _ _ _ _ _ None); [done..|]. apply wp_bind, wp_bind.
  eapply (wp_allocate _ _ g e); [by split; apply Hfds|done|done|simpl; lia|exact Hno|].
  set (k1 := with_global g (file_fd (padded 256 (SLASH :: s))) (with_fd p i (FileDesc None 0 0 false) k)).
  assert (descriptor k1 p i (FileDesc None 0 0 false)) as Hd1 by (apply descriptor_global; by eapply descriptor_with).
  apply wp_bind. eapply wp_update_fd; [exact Hd1|]. rewrite (pf_dir _ Hpf). cbn [negb].
  apply wp_bind. eapply wp_zoom_done; [exact Hdata|]. apply wp_bind. apply wp_bind. eapply wp_liftO; [done|].
  eapply wp_update_entry; [by apply global_with|]. rewrite decide_False by tauto. apply wp_ret.
  set (dd := FileDesc (Some g) 0 0 false).
  lazymatch goal with |- wp _ _ ?s => assert (s = with_fd p i dd (with_global g en (kset_fs fs' k))) as -> end.
  { trans (with_fd p i dd (with_fd p i (FileDesc None 0 0 false)
      (with_global g en (with_global g (file_fd (padded 256 (SLASH :: s))) (kset_fs fs' k))))); [done|].
    by rewrite with_global_with_global, with_fd_with_fd. }
  eapply (wp_open_finish _ p i dd g en); [done| |done| |].
  - eapply descriptor_with, descriptor_global, descriptor_fs. exact Hd.
  - by apply global_with.
  - lazymatch goal with |- Q _ ?s => assert (s =
      with_fd p i (marked_fd flags en (fset_offset (start_offset flags en) dd))
        (with_fd p i dd (with_global g (marked en) (with_global g en (kset_fs fs' k))))) as -> by done end.
    by rewrite with_fd_with_fd, with_global_with_global.
Qed.

Lemma wp_open_shared no_return k p i s r flags g e (Q : Z → kernel D H V → Prop) :
  let en := gset_ref (ref_count e + 1) e in
  free_fd k p i → i < MAX_FD → fds_ok k → str_ok (SLASH :: s) → (length s < 254)%nat → plain_flags flags →
  already_open k (SLASH :: s) g e → is_dir e = false →
  Q i (with_fd p i (marked_fd flags en (fset_offset (start_offset flags en) (FileDesc (Some g) 0 0 false)))
         (with_global g (marked en) k)) →
  wp (_open no_return (SLASH :: s ++ 0 :: r) flags) Q k.
Proof.
  intros en Hff Hi Hfds Hs Hl Hpf Ho Hdir HQ. pose proof (ff_fd _ _ _ Hff) as Hd.
  pose proof Ho as (Hg & _). pose proof (aget_lt_Some _ _ _ Hg) as Hgr.
  eapply (wp_open_start _ _ _ _ _ _ _ (Some g)); [done..|by exists e|]. apply wp_bind. unfold open_again.
  apply wp_bind. eapply wp_entry; [exact Hg|]. rewrite Hdir, (pf_dir _ Hpf). cbn [negb andb].
  apply wp_bind. eapply wp_update_entry; [exact Hg|]. apply wp_ret. set (dd := FileDesc (Some g) 0 0 false).
  eapply (wp_open_finish _ p i dd g en); [done| |done| |].
  - eapply descriptor_global, descriptor_with. exact Hd.
  - by apply global_with.
  - lazymatch goal with |- Q _ ?s => assert (s =
      with_fd p i (marked_fd flags en (fset_offset (start_offset flags en) dd))
        (with_fd p i dd (with_global g (marked en) (with_global g en k)))) as -> by done end.
    by rewrite with_fd_with_fd, with_global_with_global.
Qed.
End opening_path.

(** A block of a list and what follows it. *)
Lemma blocks_app (l buf : list Z) (off w size : Z) :
  0 ≤ w → 0 ≤ off ∧ off + w ≤ size ≤ zlen l →
  take (Z.to_nat w) (splice buf 0 (take (Z.to_nat w) (drop (Z.to_nat off) l))) ++
  take (Z.to_nat (size - (off + w))) (drop (Z.to_nat (off + w)) l) =
  take (Z.to_nat (size - off)) (drop (Z.to_nat off) l).
Proof.
  intros Hw (Ho & Hs & Hl). unfold splice. rewrite take_0, app_nil_l.
  rewrite take_app_le by (rewrite length_take, length_drop; lia). rewrite take_take, Nat.min_id.
  replace (drop (Z.to_nat (off + w)) l) with (drop (Z.to_nat w) (drop (Z.to_nat off) l)) by (rewrite drop_drop; f_equal; lia).
  rewrite take_take_drop. f_equal. lia.
Qed.

Section files.
Context {D H V : Type} `{BlockDeviceLaws D} `{KernelHeapLaws H} `{Ports V}.
Implicit Types k : kernel D H V.

(** A used descriptor of a regular file of the volume, whatever its access mode. *)
Record regular_fd k (p fd : Z) (d : file_descriptor) (g : Z) (e : global_file_descriptor) (cs : list Z) : Prop := {
  of_fd : descriptor k p fd d;
  of_range : fd < MAX_FD;
  of_used : fd_is_used d = true;
  of_flags : has (fd_flags d) O_DIRECTORY = false;
  of_global : global_fd d = Some g;
  of_entry : aget (k_fds k) g = Some e;
  of_read : g_read e = Some Vfs.read_fat_fs;
  of_fat : fat_ok (k_fs k);
  of_file : file_ok (k_fs k) (file_entry (g_file e)) cs;
}.

Lemma fset_offset_same d : 0 ≤ fd_offset d < 4294967296 → fset_offset (fd_offset d) d = d.
Proof. intros Hd. unfold fset_offset. rewrite u32_small by done. by destruct d. Qed.
Lemma file_ok_same (s s' : fat_state D H) f cs : fat_same s s' → file_ok s f cs → file_ok s' f cs.
Proof.
  intros Hs [? Hc ? ? ?]. split; try done; [by rewrite (fat_same_table _ _ Hs)|by rewrite (file_bytes_same _ _ _ Hs)].
Qed.
(** The access mode of the flags (lib/src/fcntl.h). *)
Definition access_mode (flags : Z) : Z := Z.land flags 3.
Definition O_WRONLY : Z := 1.
(** A descriptor of a regular file of the volume that is open for reading. *)
Record open_file k (p fd : Z) (d : file_descriptor) (g : Z) (e : global_file_descriptor) (cs : list Z) : Prop := {
  of_regular : regular_fd k p fd d g e cs;
  of_readable : access_mode (fd_flags d) ≠ O_WRONLY;
}.

(** It stays one after a read. *)
Lemma regular_fd_read k p fd d g e cs o fs' :
  regular_fd k p fd d g e cs → fat_same (k_fs k) fs' →
  regular_fd (with_fd p fd (fset_offset o d) (kset_fs fs' k)) p fd (fset_offset o d) g e cs.
Proof.
  intros [Hd Hr Hu Hf Hg He Hrd Hok Hfile] Hs. split; try done.
  - eapply descriptor_with. by apply descriptor_fs.
  - by eapply fat_same_ok.
  - by eapply file_ok_same.
Qed.

Lemma wp_read_file fuel others k p fd d g e cs buf count n (Q : Z * list Z → kernel D H V → Prop) :
  regular_fd k p fd d g e cs → let f := file_entry (g_file e) in
  0 ≤ fd_offset d → 0 ≤ count → fd_offset d + count < 2147483648 → bytes_wanted f (fd_offset d) count ≤ zlen buf →
  0 ≤ n → heap_room (heap_cost (512 * spc (k_fs k)) + n) (FatTable.heap (k_fs k)) →
  (∀ fs', fat_same (k_fs k) fs' → heap_room n (FatTable.heap fs') →
     Q (bytes_wanted f (fd_offset d) count,
        splice buf 0 (take (Z.to_nat (bytes_wanted f (fd_offset d) count)) (drop (Z.to_nat (fd_offset d)) (file_bytes (k_fs k) cs))))
       (with_fd p fd (fset_offset (fd_offset d + bytes_wanted f (fd_offset d) count) d) (kset_fs fs' k))) →
  wp (_read fuel others fd buf count) Q k.
Proof.
  intros [Hd Hr Hu Hf Hg He Hrd Hok Hfile] f Ho Hc Hsum Hb Hn Hroom HQ.
  pose proof (fo_size _ _ _ Hfile) as Hsz. fold f in Hsz.
  assert (0 ≤ bytes_wanted f (fd_offset d) count ≤ count) as Hbw by (unfold bytes_wanted; case_decide; lia).
  apply wp_bind, wp_current_process. rewrite (de_current _ _ _ _ Hd), (decide_False (P := p = 0)) by (exact (de_null _ _ _ _ Hd)).
  apply wp_bind. eapply wp_in_use; [done..|]. rewrite Hu. cbn [negb].
  apply wp_bind. eapply wp_fd_entry; [done|]. rewrite Hf.
  assert (has (fd_flags d) O_RDONLY = false) as ->.
  { unfold has. rewrite Z.land_0_r. apply bool_decide_eq_false_2. intros Hne. by apply Hne. }
  rewrite Hg. apply wp_bind, wp_bind. eapply wp_entry; [done|]. rewrite Hrd.
  apply wp_bind. eapply wp_entry; [done|]. fold f. apply wp_zoom.
  eapply wp_fat_read; try done; try lia. intros fs' Hs' Hr'.
  apply wp_bind. eapply wp_fd_entry; [by apply descriptor_fs|].
  apply wp_bind. eapply wp_update_fd; [by apply descriptor_fs|].
  apply wp_ret. rewrite s32_small by lia. by apply HQ.
Qed.

(** ** Properties *)

(** A program that reads [n] blocks, one after the other, and keeps what it got. *)
Fixpoint read_blocks fuel (others : M (kernel D H V) unit) (fd block : Z) (n : nat) : M (kernel D H V) (list Z) :=
  match n with
  | O => mret []
  | S n =>
      '(r, buf) ← _read fuel others fd (replicate (Z.to_nat block) 0) block;
      rest ← read_blocks fuel others fd block n;
      mret (take (Z.to_nat r) buf ++ rest)
  end.

Lemma wp_read_blocks fuel others k p fd d g e cs block n :
  regular_fd k p fd d g e cs → let f := file_entry (g_file e) in
  0 < block → 0 ≤ fd_offset d ≤ file_size f → file_size f + block < 2147483648 →
  file_size f ≤ fd_offset d + Z.of_nat n * block →
  heap_room (Z.of_nat n * heap_cost (512 * spc (k_fs k))) (FatTable.heap (k_fs k)) →
  wp (read_blocks fuel others fd block n)
     (λ bytes k', bytes = take (Z.to_nat (file_size f - fd_offset d)) (drop (Z.to_nat (fd_offset d)) (file_bytes (k_fs k) cs)) ∧
        k' = with_fd p fd (fset_offset (file_size f) d) (kset_fs (k_fs k') k) ∧ fat_same (k_fs k) (k_fs k')) k.
Proof.
  intros Hof f Hblk. revert k d Hof. induction n as [|n IH]; intros k d Hof Ho Hsum Hn Hroom; cbn [read_blocks].
  - assert (file_size f = fd_offset d) as -> by lia. apply wp_ret.
    rewrite Z.sub_diag, take_0. split; [done|]. split; [|done]. rewrite kset_fs_same.
    assert (fset_offset (fd_offset d) d = d) as -> by (by apply fset_offset_same; lia).
    symmetry. apply with_fd_same, (of_fd _ _ _ _ _ _ _ Hof).
  - set (c := heap_cost (512 * spc (k_fs k))) in *. pose proof (heap_cost_nonneg (512 * spc (k_fs k))) as Hc0. fold c in Hc0.
    apply wp_bind. eapply (wp_read_file _ _ k p fd d g e cs _ block (Z.of_nat n * c)); try done; try lia.
    { rewrite length_replicate. fold f. unfold bytes_wanted. case_decide; lia. }
    { fold c. eapply heap_room_le; [|exact Hroom]. lia. }
    intros fs' Hs' Hr'. fold f. set (w := bytes_wanted f (fd_offset d) block).
    assert (0 ≤ w ∧ fd_offset d + w ≤ file_size f ∧ (w = block ∨ fd_offset d + w = file_size f)) as (Hw & Hw' & Hw'').
    { unfold w, bytes_wanted. case_decide; lia. }
    set (d' := fset_offset (fd_offset d + w) d). assert (fd_offset d' = fd_offset d + w) as Ed' by (apply u32_small; lia).
    apply wp_bind. eapply wp_mono.
    { apply (IH _ d'); rewrite ?Ed'; [by apply regular_fd_read|lia|done|lia|].
      cbn. by rewrite (fat_same_spc _ _ Hs'). }
    intros rest k' (-> & -> & Hs2). apply wp_ret. rewrite Ed'. split; [|split].
    + change (k_fs (with_fd p fd d' (kset_fs fs' k))) with fs'. rewrite (file_bytes_same _ _ _ Hs').
      apply blocks_app; [lia|]. pose proof (fo_long _ _ _ (of_file _ _ _ _ _ _ _ Hof)) as Hlong. fold f in Hlong. lia.
    + trans (with_fd p fd (fset_offset (file_size f) d') (with_fd p fd d' (kset_fs (k_fs k') k))); [done|].
      by rewrite with_fd_with_fd.
    + cbn in *. by etrans.
Qed.

(** C13: Reading an open file block by block, with any block size, gives the bytes of
    its clusters from the offset of the descriptor to the end of the file, each
    once and in order: the descriptor is open for reading, the offset moves on by
    what every call returned, calls past the end return nothing, and at the end the
    descriptor stands at the end of the file while no other part of the kernel's
    tables has changed. *)
Theorem read_blocks_reads fuel others k p fd d g e cs block n :
  open_file k p fd d g e cs → let f := file_entry (g_file e) in
  0 < block → 0 ≤ fd_offset d ≤ file_size f → file_size f + block < 2147483648 →
  file_size f ≤ fd_offset d + Z.of_nat n * block →
  heap_room (Z.of_nat n * heap_cost (512 * spc (k_fs k))) (FatTable.heap (k_fs k)) →
  wp (read_blocks fuel others fd block n)
     (λ bytes k', bytes = take (Z.to_nat (file_size f - fd_offset d)) (drop (Z.to_nat (fd_offset d)) (file_bytes (k_fs k) cs)) ∧
        k' = with_fd p fd (fset_offset (file_size f) d) (kset_fs (k_fs k') k) ∧ fat_same (k_fs k) (k_fs k')) k.
Proof. intros [Hof _] f. by apply (wp_read_blocks _ _ k p fd d g e cs). Qed.

(** The access mode is not looked at: a descriptor that is open for writing only
    is read all the same, where file.h promises -EPERM. *)
Theorem write_only_is_read fuel others k p fd d g e cs buf count n :
  regular_fd k p fd d g e cs → access_mode (fd_flags d) = O_WRONLY → let f := file_entry (g_file e) in
  0 ≤ fd_offset d → 0 ≤ count → fd_offset d + count < 2147483648 → bytes_wanted f (fd_offset d) count ≤ zlen buf →
  0 ≤ n → heap_room (heap_cost (512 * spc (k_fs k)) + n) (FatTable.heap (k_fs k)) →
  wp (_read fuel others fd buf count)
     (λ res _, res = (bytes_wanted f (fd_offset d) count,
        splice buf 0 (take (Z.to_nat (bytes_wanted f (fd_offset d) count)) (drop (Z.to_nat (fd_offset d)) (file_bytes (k_fs k) cs))))) k.
Proof. intros Hof _ f Ho Hc Hsum Hb Hn Hroom. by eapply (wp_read_file _ _ k p fd d g e cs _ count n). Qed.
End files.

Section calls.
Context {D H V : Type} `{BlockDevice D} `{KernelHeap H}.
Implicit Types k : kernel D H V.

(** The file of the path is not open yet and exists, the first unused entry being
    clear; or it is open already, by anyone. *)
Definition can_open k (s : list Z) (g : Z) (fs' : fat_state D H) : Prop :=
  (∃ f, not_open k s g zero_global_fd ∧ fat_get_file_data (padded 256 s) (k_fs k) = Done ((0, Some f), fs')) ∨
  (∃ e, already_open k s g e ∧ is_dir e = false ∧ dir_bit (g_file e) = false ∧ 0 < ref_count e ∧ fs' = k_fs k).

(** C14: Opening an existing file by an absolute path and closing the descriptor,
    with flags that have none of O_EXCL, O_TRUNC and O_DIRECTORY ([plain_flags]),
    gives the lowest free descriptor and leaves every table as it was, whether the
    file was open before (its reference count goes up and down again) or not (its
    entry is cleared again); only the file system has run. *)
Theorem open_then_close no_return k p i s r flags g fs' :
  free_fd k p i → 2 ≤ i < MAX_FD → fds_ok k → str_ok (SLASH :: s) → (length s < 254)%nat → plain_flags flags →
  can_open k (SLASH :: s) g fs' →
  wp (fd ← _open no_return (SLASH :: s ++ 0 :: r) flags; code ← _close fd; mret (fd, code))
     (λ res k', res = (i, 0) ∧ k' = kset_fs fs' k) k.
Proof.
  intros Hff Hi Hfds Hs Hl Hpf Hcan. pose proof (ff_fd _ _ _ Hff) as Hd. apply wp_bind.
  destruct Hcan as [(f & Hno & Hdata)|(e & Ho & Hdir & Hbit & Href & ->)].
  - eapply (wp_open_file _ _ _ _ _ _ _ g); try done; [lia|]. pose proof Hno as (Hg & _). pose proof (aget_lt_Some _ _ _ Hg).
    apply wp_bind. eapply wp_close_call; [eapply descriptor_with, descriptor_global, descriptor_fs; exact Hd|lia|done|done|by apply global_with|].
    apply wp_ret. split; [done|]. set (D1 := marked_fd _ _ _). set (E1 := marked _).
    trans (with_fd p i zero_fd (with_fd p i D1 (with_global g (closed E1) (with_global g E1 (kset_fs fs' k))))); [done|].
    rewrite with_fd_with_fd, with_global_with_global. change (closed E1) with zero_global_fd.
    rewrite with_global_same by done. apply with_fd_same. by apply descriptor_fs.
  - eapply (wp_open_shared _ _ _ _ _ _ _ g); try done; [lia|]. pose proof Ho as (Hg & Hu & _). pose proof (aget_lt_Some _ _ _ Hg).
    apply wp_bind. eapply wp_close_call; [eapply descriptor_with, descriptor_global; exact Hd|lia|done|done|by apply global_with|].
    apply wp_ret. split; [done|]. set (D1 := marked_fd _ _ _). set (E1 := marked _).
    trans (with_fd p i zero_fd (with_fd p i D1 (with_global g (closed E1) (with_global g E1 k)))); [done|].
    rewrite with_fd_with_fd, with_global_with_global, kset_fs_same.
    assert (closed E1 = e) as ->.
    { assert (E1 = gset_ref (ref_count e + 1) e) as ->.
      { unfold E1, marked. cbn [g_file gset_ref gset_used]. rewrite Hbit. destruct e. cbn in *. by subst. }
      unfold closed. change (ref_count (gset_ref (ref_count e + 1) e)) with (ref_count e + 1).
      rewrite decide_False by lia. replace (ref_count e + 1 - 1) with (ref_count e) by lia. by destruct e. }
    rewrite with_global_same by done. by apply with_fd_same.
Qed.

(** Where a seek ends; the offset only counts for SEEK_CUR. *)
Definition seek_target (d : file_descriptor) (f : FAT16_DirEntry) (offset whence : Z) : option Z :=
  if decide (whence = SEEK_SET) then Some 0
  else if decide (whence = SEEK_CUR) then Some (s32 (fd_offset d + offset))
  else if decide (whence = SEEK_END) then Some (file_size f) else None.

(** _lseek on an open file: SEEK_SET goes to the start and SEEK_END to the end
    of the file whatever the offset argument is, SEEK_CUR moves by it; a position
    below zero and an unknown whence are errors that leave the descriptor alone. *)
Theorem lseek_positions k p fd d g e offset whence :
  descriptor k p fd d → 3 ≤ fd < MAX_FD → fd_is_used d = true → has (fd_flags d) O_DIRECTORY = false →
  global_fd d = Some g → aget (k_fds k) g = Some e → 0 ≤ file_size (file_entry (g_file e)) < 2147483648 →
  wp (_lseek fd offset whence)
     (λ r k', match seek_target d (file_entry (g_file e)) offset whence with
              | Some o => if decide (0 ≤ o) then r = o ∧ k' = with_fd p fd (fset_offset o d) k else r = - EINVAL ∧ k' = k
              | None => r = - EINVAL ∧ k' = k
              end) k.
Proof.
  intros Hd Hr Hu Hf Hg He Hsz. apply wp_bind, wp_current_process.
  rewrite (de_current _ _ _ _ Hd), (decide_False (P := p = 0)) by (exact (de_null _ _ _ _ Hd)).
  rewrite decide_False by lia. apply wp_bind. eapply wp_in_use; [done|lia|]. rewrite Hu. cbn [negb].
  apply wp_bind. eapply wp_fd_entry; [done|]. rewrite Hf. apply wp_bind.
  assert (∀ o, s32 o = o → wp (if decide (o < 0) then mret (- EINVAL) else
      past ← mret false;
      if (past : bool) then mret (- EINVAL) else
      _ ← update_fd p fd (fset_offset o); d ← fd_entry p fd; mret (s32 (fd_offset d)))
     (λ r k', if decide (0 ≤ o) then r = o ∧ k' = with_fd p fd (fset_offset o d) k else r = - EINVAL ∧ k' = k) k) as Hend.
  { intros o Ho. destruct (decide (0 ≤ o)) as [Hp|Hp].
    - rewrite decide_False by lia. apply wp_bind, wp_ret, wp_bind. eapply wp_update_fd; [done|].
      apply wp_bind. eapply wp_fd_entry; [by eapply descriptor_with|]. apply wp_ret.
      change (s32 (fd_offset (fset_offset o d))) with (s32 (u32 o)). split; [|done]. unfold s32 in *. by rewrite (u32_small (u32 o)) by apply u32_range.
    - rewrite decide_True by lia. by apply wp_ret. }
  unfold seek_target. case_decide; [apply wp_ret; by apply Hend|].
  case_decide; [apply wp_ret, Hend, s32_small, s32_range|].
  case_decide; [|by apply wp_ret, wp_ret].
  apply wp_bind. eapply wp_fd_file; [done..|]. apply wp_ret. rewrite s32_small by lia. apply Hend, s32_small. lia.
Qed.
End calls.

(** ** Witnesses *)

Module Demo.
Definition console : file_descriptor := FileDesc (Some 0) 0 0 true.
(** Process 1 with its three standard descriptors. *)
Definition start : kernel ramdisk bump latches :=
  with_fd 1000 2 console (with_fd 1000 1 console (with_fd 1000 0 console Sample.state)).
(** The file "A" opened at offset 500, as descriptor 3 and entry 3. *)
Definition file_a : FileData := mkFileData FatTable.Demo.file_a FatTable.Demo.root.
Definition entry_a : global_file_descriptor := gset_file file_a (Vfs.Demo.entry (lit "/A")).
Definition fd_a : file_descriptor := FileDesc (Some 3) 0 500 true.
Definition reading : kernel ramdisk bump latches := with_fd 1000 3 fd_a (with_global 3 entry_a start).

(** The same with the access mode O_WRONLY. *)
Definition fd_w : file_descriptor := FileDesc (Some 3) O_WRONLY 500 true.
Definition writing : kernel ramdisk bump latches := with_fd 1000 3 fd_w (with_global 3 entry_a start).

Lemma start_fd : free_fd start 1000 3.
Proof.
  split.
  - split; [done|done|]. eexists. split; by vm_compute.
  - intros n x d Hn Hx Hd. injection Hn as <-. assert (x = 0 ∨ x = 1 ∨ x = 2) as [->|[->| ->]] by lia;
      by injection Hd as <-.
Qed.
Lemma reading_fd : descriptor reading 1000 3 fd_a.
Proof. eapply descriptor_with, descriptor_global. apply start_fd. Qed.
Lemma writing_fd : descriptor writing 1000 3 fd_w.
Proof. eapply descriptor_with, descriptor_global. apply start_fd. Qed.
Lemma paths : paths_ok (k_fds start).
Proof.
  intros j g Hg. apply aget_Some in Hg as [_ Hg]. apply list_elem_of_lookup_2 in Hg.
  change (k_fds start) with Vfs.Demo.table in Hg. unfold Vfs.Demo.table in Hg. rewrite !elem_of_cons, elem_of_replicate in Hg.
  destruct Hg as [->|[->|[->|[-> _]]]].
  - exists [], (replicate 255 0). split_and!; [apply str_ok_nil|done|simpl; lia].
  - exists (lit "/main"), (replicate 250 0). split; [by_decide|]. split; [done|simpl; lia].
  - exists (lit "/dummy"), (replicate 249 0). split; [by_decide|]. split; [done|simpl; lia].
  - exists [], (replicate 255 0). split_and!; [apply str_ok_nil|done|simpl; lia].
Qed.
Lemma a_not_open : not_open start (lit "/A") 3 zero_global_fd.
Proof.
  split; [done|]. split; [done|]. split.
  - intros j h Hj Hh. assert (j = 0 ∨ j = 1 ∨ j = 2) as [->|[->| ->]] by lia; by injection Hh as <-.
  - intros j h Hh. apply aget_Some in Hh as [_ Hh]. apply list_elem_of_lookup_2 in Hh.
    change (k_fds start) with Vfs.Demo.table in Hh. unfold Vfs.Demo.table in Hh. rewrite !elem_of_cons, elem_of_replicate in Hh.
    destruct Hh as [->|[->|[->|[-> _]]]]; by vm_compute.
Qed.
Lemma a_open : open_file reading 1000 3 fd_a 3 entry_a [2; 3].
Proof.
  split; [|by vm_compute]. split; try done; [apply reading_fd|apply FatTable.Demo.state_ok|].
  exact FatFile.demo_file.
Qed.
End Demo.

Definition fs_after (m : outcome (Z * option FileData * fat_state ramdisk bump)) : fat_state ramdisk bump :=
  match m with Done (_, s) => s | _ => FatTable.Demo.state end.
Lemma open_then_close_witness :
  wp (fd ← _open (λ _, 0) (SLASH :: lit "A" ++ 0 :: []) O_RDONLY; code ← _close fd; mret (fd, code))
     (λ res k', res = (3, 0) ∧
        k' = kset_fs (fs_after (fat_get_file_data (padded 256 (SLASH :: lit "A")) FatTable.Demo.state)) Demo.start) Demo.start.
Proof.
  apply (open_then_close (λ _, 0) Demo.start 1000 3 (lit "A") [] O_RDONLY 3).
  - exact Demo.start_fd.
  - unfold MAX_FD; lia.
  - split; [reflexivity|exact Demo.paths].
  - by_decide.
  - simpl; lia.
  - split; reflexivity.
  - left. exists Demo.file_a. split; [exact Demo.a_not_open|]. vm_compute; reflexivity.
Defined.

Lemma read_blocks_reads_witness :
  wp (read_blocks 0 fault 3 60 2)
     (λ bytes k', bytes = take (Z.to_nat 100) (drop (Z.to_nat 500) (file_bytes FatTable.Demo.state [2; 3])) ∧
        k' = with_fd 1000 3 (fset_offset 600 Demo.fd_a) (kset_fs (k_fs k') Demo.reading) ∧
        fat_same FatTable.Demo.state (k_fs k')) Demo.reading.
Proof.
  apply (read_blocks_reads 0 fault Demo.reading 1000 3 Demo.fd_a 3 Demo.entry_a [2; 3] 60 2).
  - exact Demo.a_open.
  - lia.
  - simpl; lia.
  - simpl; lia.
  - simpl; lia.
  - vm_compute; split; [congruence|reflexivity].
Defined.

(** [read(fd, buf, 4)] on a descriptor opened with O_WRONLY. *)
Lemma write_only_is_read_witness :
  wp (_read 0 fault 3 [1; 2; 3; 4] 4)
     (λ res _, res = (4, splice [1; 2; 3; 4] 0 (take (Z.to_nat 4) (drop (Z.to_nat 500) (file_bytes FatTable.Demo.state [2; 3]))))) Demo.writing.
Proof.
  apply (write_only_is_read 0 fault Demo.writing 1000 3 Demo.fd_w 3 Demo.entry_a [2; 3] [1; 2; 3; 4] 4 0).
  - split; try done; [apply Demo.writing_fd|apply FatTable.Demo.state_ok|exact FatFile.demo_file].
  - reflexivity.
  - simpl; lia.
  - lia.
  - simpl; lia.
  - by vm_compute.
  - lia.
  - vm_compute; split; [congruence|reflexivity].
Defined.

Lemma lseek_positions_witness :
  seek_target Demo.fd_a FatTable.Demo.file_a 42 SEEK_SET = Some 0 ∧
  wp (_lseek 3 42 SEEK_SET)
     (λ r k', match seek_target Demo.fd_a FatTable.Demo.file_a 42 SEEK_SET with
              | Some o => if decide (0 ≤ o) then r = o ∧ k' = with_fd 1000 3 (fset_offset o Demo.fd_a) Demo.reading
                          else r = - EINVAL ∧ k' = Demo.reading
              | None => r = - EINVAL ∧ k' = Demo.reading
              end) Demo.reading.
Proof.
  split; [reflexivity|].
  apply (lseek_positions Demo.reading 1000 3 Demo.fd_a 3 Demo.entry_a 42 SEEK_SET).
  - exact Demo.reading_fd.
  - unfold MAX_FD; lia.
  - reflexivity.
  - reflexivity.
  - reflexivity.
  - reflexivity.
  - simpl; lia.
Defined.
