(* ===== verification/Simplify.v ===== *)
(** * Normalising paths: simplify_path of process/syscalls/handlers/dir/dir.c

    The path is cut at its slashes, "." and ".." are resolved on a stack, and the
    pieces left are joined again.  Every piece, both arrays of pieces and the
    result are blocks of the kernel heap. *)

From S2P Require Import Prelude CString Interfaces FatPath Paths.

(** ** Definitions *)

(** A piece: its block, and the string in it. *)
Abbreviation piece := (Z * list Z)%type.
(** An array of pieces that grows: its block, its capacity, the pieces in it. *)
Record pieces := Pieces { p_block : Z; p_capacity : Z; p_items : list piece }.
Definition no_pieces : pieces := Pieces 0 0 [].

Definition DOTDOT : list Z := [DOT; DOT; 0].

(** [strcpy(b + i, source)] *)
Definition strcpy_at (b : list Z) (i : Z) (source : list Z) : outcome (list Z) :=
  if decide (0 ≤ i ≤ zlen b) then
    r ← strcpy (drop (Z.to_nat i) b) source; Done (take (Z.to_nat i) b ++ r)
  else Fault.

Section operations.
Context {H : Type} `{KernelHeap H}.
(** What the heap holds behind a block. *)
Context (behind : Z → list Z).

Fixpoint free_pieces (l : list piece) : M H unit :=
  match l with [] => mret tt | c :: l => _ ← kfree c.1; free_pieces l end.

(** [a[size++] = c], with a larger array when it is full; [None]: no memory. *)
Definition push_piece (a : pieces) (c : piece) : M H (option pieces) :=
  let size := zlen (p_items a) in
  if decide (p_capacity a ≤ size) then
    let new_capacity := if decide (p_capacity a = 0) then 4 else u32 (p_capacity a * 2) in
    p ← kmalloc (u32 (new_capacity * 4));
    if decide (p = 0) then mret None else
    _ ← kfree (p_block a);
    mret (Some (Pieces p new_capacity (p_items a ++ [c])))
  else mret (Some (Pieces (p_block a) (p_capacity a) (p_items a ++ [c]))).

(** The string of a new piece. *)
Definition piece_string (path : list Z) (start comp_len p : Z) : outcome (list Z) :=
  s ← strncpy (replicate (Z.to_nat comp_len + 1) 0) (drop (Z.to_nat start) path) (Z.to_nat comp_len);
  s ← put_char s comp_len 0;
  Done (s ++ behind p).

(** The piece that ends before [i]; [None]: NULL is returned. *)
Definition end_piece (path : list Z) (i start : Z) (a : pieces) : M H (option pieces) :=
  let end_ := u32 (i - 1) in
  if decide (start ≤ end_) then
    let comp_len := u32 (end_ - start + 1) in
    comp ← kmalloc (u32 (comp_len + 1));
    if decide (comp = 0) then _ ← free_pieces (p_items a); _ ← kfree (p_block a); mret None else
    s ← liftO (piece_string path start comp_len comp);
    r ← push_piece a (comp, s);
    match r with
    | None => _ ← kfree comp; _ ← free_pieces (p_items a); _ ← kfree (p_block a); mret None
    | Some a => mret (Some a)
    end
  else mret (Some a).
(** [for (size_t i = ...; i <= len; i++)], [n] rounds to go. *)
Fixpoint split_pieces (path : list Z) (i start : Z) (a : pieces) (n : nat) : M H (option pieces) :=
  match n with
  | O => mret (Some a)
  | S n =>
      c ← liftO (char_at path i);
      if decide (c = SLASH ∨ c = 0) then
        r ← end_piece path i start a;
        match r with
        | None => mret None
        | Some a => split_pieces path (i + 1) (i + 1) a n
        end
      else split_pieces path (i + 1) start a n
  end.

(** [stack[--stack_size]] freed. *)
Definition pop_piece (stack : pieces) : M H pieces :=
  c ← liftO (of_option (aget (p_items stack) (zlen (p_items stack) - 1)));
  _ ← kfree c.1;
  mret (Pieces (p_block stack) (p_capacity stack) (take (length (p_items stack) - 1) (p_items stack))).
(** A piece that goes on the stack; [inl]: no memory, and the stack as it was. *)
Definition push_or_fail (stack : pieces) (c : piece) : M H (pieces + pieces) :=
  r ← push_piece stack c;
  match r with
  | None => _ ← kfree c.1; mret (inl stack)
  | Some stack => mret (inr stack)
  end.
Definition resolve_piece (is_absolute : bool) (stack : pieces) (c : piece) : M H (pieces + pieces) :=
  d ← liftO (strcmp c.2 [DOT; 0]);
  if decide (d = 0) then _ ← kfree c.1; mret (inr stack) else
  d ← liftO (strcmp c.2 DOTDOT);
  if decide (d = 0) then
    if is_absolute then
      stack ← (if decide (0 < zlen (p_items stack)) then pop_piece stack else mret stack);
      _ ← kfree c.1;
      mret (inr stack)
    else
      top ← liftO (if decide (0 < zlen (p_items stack)) then
                     t ← of_option (aget (p_items stack) (zlen (p_items stack) - 1)); strcmp t.2 DOTDOT
                   else Done 0);
      if decide (0 < zlen (p_items stack) ∧ top ≠ 0) then
        stack ← pop_piece stack;
        _ ← kfree c.1;
        mret (inr stack)
      else push_or_fail stack c
  else push_or_fail stack c.
Fixpoint resolve_pieces (is_absolute : bool) (stack : pieces) (l : list piece) : M H (pieces + pieces) :=
  match l with
  | [] => mret (inr stack)
  | c :: l =>
      r ← resolve_piece is_absolute stack c;
      match r with
      | inl stack => mret (inl stack)
      | inr stack => resolve_pieces is_absolute stack l
      end
  end.

Fixpoint lengths (l : list piece) : outcome Z :=
  match l with [] => Done 0 | c :: l => n ← strlen c.2; m ← lengths l; Done (n + m) end.
Definition result_length (is_absolute : bool) (l : list piece) : outcome Z :=
  if decide (zlen l = 0) then Done 1 else
  n ← lengths l;
  Done ((if is_absolute then 1 else 0) + n + (zlen l - 1)).

(** [for (size_t i = 1; i < stack_size; i++)]: a slash and the piece. *)
Fixpoint append_pieces (result : list Z) (pos : Z) (l : list piece) : outcome (list Z * Z) :=
  match l with
  | [] => Done (result, pos)
  | c :: l =>
      result ← put_char result pos SLASH;
      result ← strcpy_at result (pos + 1) c.2;
      n ← strlen c.2;
      append_pieces result (pos + 1 + n) l
  end.
Definition first_and_rest (result : list Z) (pos : Z) (l : list piece) : outcome (list Z * Z) :=
  match l with
  | [] => Done (result, pos)
  | c :: l =>
      result ← strcpy_at result pos c.2;
      n ← strlen c.2;
      append_pieces result (pos + n) l
  end.
Definition build_result (is_absolute : bool) (total_len : Z) (l : list piece) : outcome (list Z) :=
  let result := replicate (Z.to_nat total_len + 1) 0 in
  '(result, pos) ← (if is_absolute then result ← put_char result 0 SLASH; first_and_rest result 1 l
                    else if decide (zlen l = 0) then result ← put_char result 0 DOT; Done (result, 1)
                    else first_and_rest result 0 l);
  put_char result pos 0.

(** The [error] label: the components are freed also when the stack owns them. *)
Definition free_array (a : pieces) : M H unit :=
  if decide (p_block a ≠ 0) then _ ← free_pieces (p_items a); kfree (p_block a) else mret tt.
Definition fail (components stack : pieces) : M H unit := _ ← free_array components; free_array stack.

(** NULL, or the block and the string. *)
Definition simplify_path (path : list Z) : M H (option piece) :=
  c ← liftO (char_at path 0);
  let is_absolute := bool_decide (c = SLASH) in
  len ← liftO (strlen path);
  a ← split_pieces path 0 0 no_pieces (Z.to_nat len + 1);
  match a with
  | None => mret None
  | Some a =>
      r ← resolve_pieces is_absolute no_pieces (p_items a);
      match r with
      | inl stack => _ ← fail a stack; mret None
      | inr stack =>
          _ ← kfree (p_block a);
          total_len ← liftO (result_length is_absolute (p_items stack));
          result ← kmalloc (u32 (total_len + 1));
          if decide (result = 0) then _ ← fail a stack; mret None else
          s ← liftO (build_result is_absolute total_len (p_items stack));
          _ ← free_pieces (p_items stack);
          _ ← kfree (p_block stack);
          mret (Some (result, s))
      end
  end.
End operations.

(** ** What the result is *)

Fixpoint split_slash (s : list Z) : list (list Z) :=
  match s with
  | [] => [[]]
  | c :: s =>
      if decide (c = SLASH) then [] :: split_slash s
      else match split_slash s with p :: ps => (c :: p) :: ps | [] => [[c]] end
  end.
(** Empty pieces are dropped, but not at the very start of the path ([first]). *)
Definition kept (first : bool) (l : list (list Z)) : list (list Z) :=
  match l with
  | p :: ps => (if first || bool_decide (p ≠ []) then [p] else []) ++ filter (λ q, q ≠ []) ps
  | [] => []
  end.

Definition resolve (is_absolute : bool) (st : list (list Z)) (c : list Z) : list (list Z) :=
  if decide (c = [DOT]) then st
  else if decide (c = [DOT; DOT]) then
    if is_absolute || bool_decide (st ≠ [] ∧ last st ≠ Some [DOT; DOT]) then take (length st - 1) st else st ++ [c]
  else st ++ [c].
Definition resolved (is_absolute : bool) (l : list (list Z)) : list (list Z) := foldl (resolve is_absolute) [] l.

Fixpoint join_slash (l : list (list Z)) : list Z :=
  match l with
  | [] => []
  | p :: l => match l with [] => p | _ => p ++ SLASH :: join_slash l end
  end.
Definition render (is_absolute : bool) (st : list (list Z)) : list Z :=
  if is_absolute then SLASH :: join_slash st else match st with [] => [DOT] | _ => join_slash st end.

Definition absolute (path : list Z) : bool := bool_decide (hd 0 path = SLASH).
Definition stack_of (path : list Z) : list (list Z) := resolved (absolute path) (kept true (split_slash path)).
Definition simplified (path : list Z) : list Z := render (absolute path) (stack_of path).

(** ** Lemmas *)

Definition no_slash (s : list Z) : Prop := SLASH ∉ s.

Lemma split_slash_cons s : ∃ p ps, split_slash s = p :: ps.
Proof. destruct s as [|c s]; cbn; [eauto|]. case_decide; [eauto|]. destruct (split_slash s); eauto. Qed.
Lemma split_slash_run cur s : no_slash cur →
  split_slash (cur ++ s) = match split_slash s with p :: ps => (cur ++ p) :: ps | [] => [] end.
Proof.
  intros Hc. induction cur as [|c cur IH]; cbn [app split_slash].
  - by destruct (split_slash s).
  - unfold no_slash in *. rewrite not_elem_of_cons in Hc. destruct Hc as [Hne Hc].
    rewrite decide_False by congruence. rewrite IH by done.
    destruct (split_slash_cons s) as (p & ps & ->). done.
Qed.
Lemma split_slash_sep cur s : no_slash cur → split_slash (cur ++ SLASH :: s) = cur :: split_slash s.
Proof. intros Hc. rewrite split_slash_run by done. cbn [split_slash]. by rewrite decide_True, app_nil_r. Qed.
Lemma split_slash_end cur : no_slash cur → split_slash cur = [cur].
Proof. intros Hc. rewrite <-(app_nil_r cur) at 1. rewrite split_slash_run by done. cbn. by rewrite app_nil_r. Qed.

(** Lengths of pieces with their slashes. *)
Definition weight (l : list (list Z)) : Z := foldr (λ p n, zlen p + 1 + n) 0 l.
Lemma weight_app l1 l2 : weight (l1 ++ l2) = weight l1 + weight l2.
Proof. unfold weight. induction l1 as [|p l1 IH]; cbn [app foldr]; lia. Qed.
Lemma weight_length l : zlen l ≤ weight l.
Proof. induction l as [|p l IH]; cbn [length weight foldr]; [lia|]. unfold weight in IH. lia. Qed.
Lemma weight_nonneg l : 0 ≤ weight l.
Proof. pose proof (weight_length l). lia. Qed.
Lemma weight_split s : weight (split_slash s) = zlen s + 1.
Proof.
  induction s as [|c s IH]; cbn [split_slash]; [done|]. case_decide.
  - cbn [weight foldr length]. unfold weight in IH. rewrite IH. lia.
  - destruct (split_slash_cons s) as (p & ps & E). rewrite E in *. cbn [weight foldr length] in *. lia.
Qed.
Lemma weight_filter (P : list Z → Prop) `{∀ x, Decision (P x)} l : weight (filter P l) ≤ weight l.
Proof.
  induction l as [|p l IH]; [done|]. rewrite filter_cons. case_decide; cbn [weight foldr] in *; unfold weight in *; lia.
Qed.
Lemma weight_kept b l : weight (kept b l) ≤ weight l.
Proof.
  destruct l as [|p l]; [done|]. cbn [kept]. rewrite weight_app.
  pose proof (weight_filter (λ q, q ≠ []) l). destruct (b || _); cbn [weight foldr] in *; unfold weight in *; lia.
Qed.
Lemma weight_take n l : weight (take n l) ≤ weight l.
Proof. rewrite <-(take_drop n l) at 2. rewrite weight_app. pose proof (weight_nonneg (drop n l)). lia. Qed.
Lemma weight_resolve b st c : weight (resolve b st c) ≤ weight st + (zlen c + 1).
Proof.
  assert (weight (st ++ [c]) = weight st + (zlen c + 1)) as E by (rewrite weight_app; cbn; lia).
  pose proof (weight_take (length st - 1) st). unfold resolve.
  repeat (case_decide || case_match); rewrite ?E; lia.
Qed.

(** *** Blocks of the heap: [n] more of them, none of more than [max] bytes *)

Section specs.
Context {H : Type} `{KernelHeapLaws H} (behind : Z → list Z).

Record room (max cost n : Z) (h : H) : Prop := {
  ro_cost size : 0 < size ≤ max → heap_cost size ≤ cost;
  ro_room : heap_room (n * cost) h;
}.
Lemma room_le max cost n m h : 0 < max → m ≤ n → room max cost n h → room max cost m h.
Proof.
  intros Hm Hle [Hc Hr]. split; [done|]. eapply heap_room_le; [|exact Hr].
  pose proof (heap_cost_nonneg 1). specialize (Hc 1 ltac:(lia)). nia.
Qed.
Lemma wp_block size max cost n (Q : Z → H → Prop) h :
  0 < size ≤ max → 0 ≤ n → room max cost (n + 1) h → (∀ p h', p ≠ 0 → room max cost n h' → Q p h') → wp (kmalloc size) Q h.
Proof.
  intros Hs Hn [Hc Hr] HQ. pose proof (Hc size Hs) as Hsz. pose proof (heap_cost_nonneg size).
  destruct (kmalloc_ok h size (n * cost)) as (p & h' & E & Hp & Hr'); [lia|nia| |].
  - eapply heap_room_le; [|exact Hr]. lia.
  - apply (wp_of_done _ _ _ _ _ E). apply HQ; [done|]. by split.
Qed.
Lemma wp_release p max cost n (Q : unit → H → Prop) h :
  room max cost n h → (∀ h', room max cost n h' → Q tt h') → wp (kfree p) Q h.
Proof. intros [Hc Hr] HQ. destruct (kfree_ok h p _ Hr) as (h' & E & Hr'). apply (wp_of_done _ _ _ _ _ E). apply HQ. by split. Qed.
Lemma wp_free_pieces l max cost n (Q : unit → H → Prop) h :
  room max cost n h → (∀ h', room max cost n h' → Q tt h') → wp (free_pieces l) Q h.
Proof.
  revert h. induction l as [|c l IH]; intros h Hr HQ; cbn [free_pieces]; [by apply wp_ret, HQ|].
  apply wp_bind. eapply wp_release; [done|]. intros h' Hr'. by apply IH.
Qed.

(** The array holds the strings, and has not grown past [2 * b + 4] pieces. *)
Definition holds (c : piece) (s : list Z) : Prop := c.2 = s ++ 0 :: behind c.1.
Record array_ok (b : Z) (a : pieces) (ss : list (list Z)) : Prop := {
  ar_items : Forall2 holds (p_items a) ss;
  ar_room : 0 ≤ p_capacity a ≤ 2 * b + 4;
}.

Lemma wp_push b a ss c s max cost n (Q : option pieces → H → Prop) h :
  array_ok b a ss → holds c s → zlen ss ≤ b → 8 * b + 16 ≤ max → max < 4294967296 → 0 ≤ n → room max cost (n + 1) h →
  (∀ a' h', array_ok b a' (ss ++ [s]) → room max cost n h' → Q (Some a') h') → wp (push_piece a c) Q h.
Proof.
  intros [Hi Hc] Hs Hb Hmax Hlim Hn Hr HQ. pose proof (list.Forall2_length _ _ _ Hi) as Hl.
  assert (Forall2 holds (p_items a ++ [c]) (ss ++ [s])) as Hi' by (apply Forall2_app; [done|by repeat constructor]).
  unfold push_piece. case_decide as Hfull.
  - set (nc := if decide _ then 4 else _). assert (0 < nc ≤ 2 * b + 4) as Hnc.
    { subst nc. case_decide; [lia|]. rewrite u32_small by lia. lia. }
    rewrite u32_small by lia. apply wp_bind. eapply (wp_block _ max cost n); [lia|lia|done|].
    intros p h' Hp Hr'. rewrite decide_False by done. apply wp_bind. eapply wp_release; [done|].
    intros h2 Hr2. apply wp_ret, HQ; [|done]. by split; [|cbn; lia].
  - apply wp_ret, HQ; [by split|]. eapply room_le; [|idtac|exact Hr]; lia.
Qed.

Lemma wp_piece_string pre cur rest tail p :
  str_ok cur → str_ok rest →
  piece_string behind ((pre ++ cur ++ rest) ++ 0 :: tail) (zlen pre) (zlen cur) p = Done (cur ++ 0 :: behind p).
Proof.
  intros Hc Hr. unfold piece_string. rewrite !Nat2Z.id, <-!app_assoc, drop_app_length.
  assert (strncpy (replicate (length cur + 1) 0) (cur ++ rest ++ 0 :: tail) (length cur) = Done (cur ++ [0])) as ->.
  { destruct cur as [|x cur]; [done|]. set (cc := x :: cur) in *.
    rewrite app_assoc.
    rewrite strncpy_cstr; [|by apply str_ok_app|done|].
    - rewrite take_app_length. f_equal. f_equal. rewrite drop_replicate. f_equal.
      by replace (length cc + 1 - length cc)%nat with 1%nat by lia.
    - rewrite take_app_length, length_replicate. lia. }
  cbn [mbind outcome_bind]. unfold put_char. rewrite aset_in by (rewrite length_app; simpl; lia).
  rewrite Nat2Z.id, insert_app_r_alt by lia. rewrite Nat.sub_diag. cbn [of_option]. cbn [mbind outcome_bind insert list_insert].
  by rewrite <-app_assoc.
Qed.

Lemma wp_end_piece pre cur rest tail a ss b max cost n (Q : option pieces → H → Prop) h :
  str_ok cur → str_ok rest → zlen (pre ++ cur ++ rest) < max → zlen ss < b →
  array_ok b a ss → 8 * b + 16 ≤ max → max < 4294967296 → 0 ≤ n → room max cost (n + 2) h →
  (∀ a' h', array_ok b a' (ss ++ if bool_decide (zlen pre = 0) || bool_decide (cur ≠ []) then [cur] else []) →
     room max cost n h' → Q (Some a') h') →
  wp (end_piece behind ((pre ++ cur ++ rest) ++ 0 :: tail) (zlen pre + zlen cur) (zlen pre) a) Q h.
Proof.
  intros Hc Hs Hlen Hss Ha Hmax Hlim Hn Hr HQ. rewrite !length_app in Hlen. unfold end_piece.
  destruct (decide (zlen pre = 0 ∨ cur ≠ [])) as [Hemit|Hskip].
  - assert (zlen pre ≤ u32 (zlen pre + zlen cur - 1) ∧ u32 (u32 (zlen pre + zlen cur - 1) - zlen pre + 1) = zlen cur) as [Hle Hcl].
    { destruct cur as [|x cur].
      - assert (zlen pre = 0) as -> by (destruct Hemit; done). by vm_compute.
      - rewrite (u32_small (_ - 1)) by (simpl in *; lia). rewrite u32_small by (simpl in *; lia). simpl. lia. }
    rewrite decide_True by done. rewrite Hcl, u32_small by lia.
    apply wp_bind. eapply (wp_block _ max cost (n + 1)); [lia|lia|by replace (n + 1 + 1) with (n + 2) by lia|].
    intros p h1 Hp Hr1. rewrite decide_False by done. apply wp_bind. eapply wp_liftO; [by apply wp_piece_string|].
    apply wp_bind. eapply (wp_push b a ss (p, cur ++ 0 :: behind p) cur max cost n); try done; [lia|].
    intros a' h' Ha' Hr'. apply wp_ret, HQ; [|done].
    assert (bool_decide (zlen pre = 0) || bool_decide (cur ≠ []) = true) as -> by (apply orb_true_iff; rewrite !bool_decide_eq_true; tauto).
    done.
  - assert (cur = [] ∧ zlen pre ≠ 0) as [-> Hpre] by (destruct cur; split; tauto || naive_solver).
    rewrite decide_False by (rewrite u32_small by (simpl; lia); simpl; lia). apply wp_ret, HQ.
    + rewrite bool_decide_eq_false_2 by done. cbn. by rewrite app_nil_r.
    + eapply room_le; [|idtac|exact Hr]; lia.
Qed.

Lemma wp_split pre cur rest tail a ss b max cost n (Q : option pieces → H → Prop) h :
  no_slash cur → str_ok cur → str_ok rest → zlen (pre ++ cur ++ rest) < max →
  zlen ss + zlen (split_slash (cur ++ rest)) ≤ b →
  array_ok b a ss → 8 * b + 16 ≤ max → max < 4294967296 → 0 ≤ n →
  room max cost (n + 2 * zlen (split_slash (cur ++ rest))) h →
  (∀ a' h', array_ok b a' (ss ++ kept (bool_decide (zlen pre = 0)) (split_slash (cur ++ rest))) →
     room max cost n h' → Q (Some a') h') →
  wp (split_pieces behind ((pre ++ cur ++ rest) ++ 0 :: tail) (zlen pre + zlen cur) (zlen pre) a (length rest + 1)) Q h.
Proof.
  revert pre cur a ss h. induction rest as [|c rest IH]; intros pre cur a ss h Hns Hc Hs Hlen Hb Ha Hmax Hlim Hn Hr HQ.
  - rewrite app_nil_r, split_slash_end in * by done. cbn [length] in *.
    replace (0 + 1)%nat with 1%nat by done. cbn [split_pieces]. apply wp_bind. eapply wp_liftO.
    { unfold char_at. replace (zlen pre + zlen cur) with (Z.of_nat (length (pre ++ cur))) by (rewrite length_app; lia).
      rewrite aget_of_nat, list_lookup_middle by done. done. }
    rewrite decide_True by (by right). apply wp_bind. rewrite <-(app_nil_r cur) at 1.
    eapply (wp_end_piece pre cur [] tail a ss b max cost n); try done; [by rewrite app_nil_r|lia|].
    intros a' h' Ha' Hr'. apply wp_ret, HQ; [|done]. cbn [kept]. by rewrite filter_nil, app_nil_r.
  - apply str_ok_cons in Hs as [Hc0 Hs]. cbn [length Nat.add split_pieces]. apply wp_bind. eapply wp_liftO.
    { unfold char_at. replace (zlen pre + zlen cur) with (Z.of_nat (length (pre ++ cur))) by (rewrite length_app; lia).
      rewrite aget_of_nat, !app_assoc, <-(app_assoc (pre ++ cur)). cbn [app]. rewrite list_lookup_middle by done. done. }
    destruct (decide (c = SLASH)) as [->|Hne].
    + rewrite split_slash_sep in * by done. rewrite decide_True by (by left). cbn [length] in Hb, Hr.
      apply wp_bind. eapply (wp_end_piece pre cur (SLASH :: rest) tail a ss b max cost (n + 2 * zlen (split_slash rest))); try done;
        [by apply str_ok_cons|lia|lia|eapply room_le; [|idtac|exact Hr]; lia|].
      intros a' h' Ha' Hr'.
      replace (pre ++ cur ++ SLASH :: rest) with ((pre ++ cur ++ [SLASH]) ++ [] ++ rest) by (by rewrite <-!app_assoc).
      replace (zlen pre + zlen cur + 1) with (zlen (pre ++ cur ++ [SLASH]) + zlen (@nil Z)) by (rewrite !length_app; simpl; lia).
      replace (zlen (pre ++ cur ++ [SLASH]) + zlen (@nil Z)) with (zlen (pre ++ cur ++ [SLASH])) at 2 by (simpl; lia).
      eapply (IH _ [] a' _); try done.
      * apply not_elem_of_nil.
      * constructor.
      * by rewrite <-!app_assoc.
      * cbn [app]. rewrite length_app. destruct (_ || _); simpl; lia.
      * intros a2 h2 Ha2 Hr2. apply HQ; [|done]. revert Ha2. cbn [app].
        rewrite (bool_decide_eq_false_2 (zlen (pre ++ cur ++ [SLASH]) = 0)) by (rewrite !length_app; simpl; lia).
        rewrite <-app_assoc. cbn [kept orb].
        assert (kept false (split_slash rest) = filter (λ q, q ≠ []) (split_slash rest)) as ->; [|done].
        destruct (split_slash_cons rest) as (p & ps & ->). cbn [kept orb]. rewrite filter_cons.
        destruct (decide (p ≠ [])); [by rewrite bool_decide_eq_true_2|by rewrite bool_decide_eq_false_2].
    + rewrite decide_False by lia.
      replace (cur ++ c :: rest) with ((cur ++ [c]) ++ rest) in * by (by rewrite <-app_assoc).
      replace (zlen pre + zlen cur + 1) with (zlen pre + zlen (cur ++ [c])) by (rewrite length_app; simpl; lia).
      apply (IH pre (cur ++ [c]) a ss); try done.
      * unfold no_slash in *. rewrite elem_of_app, list_elem_of_singleton. naive_solver.
      * apply str_ok_app. split; [done|]. apply str_ok_cons. split; [done|constructor].
Qed.
(** *** The stack *)

Lemma holds_lookup items ss i c : Forall2 holds items ss → items !! i = Some c → ∃ s, ss !! i = Some s ∧ holds c s.
Proof. intros Hf Hi. destruct (Forall2_lookup_l _ _ _ _ _ Hf Hi) as (s & ? & ?). eauto. Qed.

Lemma wp_pop b a ss max cost n (Q : pieces → H → Prop) h :
  array_ok b a ss → ss ≠ [] → room max cost n h →
  (∀ a' h', array_ok b a' (take (length ss - 1) ss) → room max cost n h' → Q a' h') → wp (pop_piece a) Q h.
Proof.
  intros [Hi Hc] Hne Hr HQ. pose proof (list.Forall2_length _ _ _ Hi) as Hl.
  destruct (aget_is_Some (p_items a) (zlen (p_items a) - 1)) as [c Ec]; [destruct ss; [done|simpl in Hl; lia]|].
  apply wp_bind. eapply wp_liftO; [by rewrite Ec|]. apply wp_bind. eapply wp_release; [done|].
  intros h' Hr'. apply wp_ret, HQ; [|done]. split; [|done]. cbn. rewrite Hl. by apply Forall2_take.
Qed.

Lemma wp_push_or_fail b a ss c s max cost n (Q : pieces + pieces → H → Prop) h :
  array_ok b a ss → holds c s → zlen ss ≤ b → 8 * b + 16 ≤ max → max < 4294967296 → 0 ≤ n → room max cost (n + 1) h →
  (∀ a' h', array_ok b a' (ss ++ [s]) → room max cost n h' → Q (inr a') h') → wp (push_or_fail a c) Q h.
Proof.
  intros. apply wp_bind. eapply wp_push; try done.
Qed.

Lemma strcmp_holds c s t : holds c s → str_ok s → str_ok t → ∃ d, strcmp c.2 (t ++ [0]) = Done d ∧ (d = 0 ↔ s = t).
Proof. intros -> Hs Ht. by apply strcmp_cstr. Qed.

Lemma last_at {A} (l : list A) : last l = l !! (length l - 1)%nat.
Proof. rewrite last_lookup. f_equal. lia. Qed.

(** The comparison with the top of the stack. *)
Lemma top_dots a ss b :
  array_ok b a ss → Forall str_ok ss →
  ∃ d, (if decide (0 < zlen (p_items a)) then
          t ← of_option (aget (p_items a) (zlen (p_items a) - 1)); strcmp t.2 DOTDOT
        else Done 0) = Done d ∧ (0 < zlen (p_items a) ∧ d ≠ 0 ↔ ss ≠ [] ∧ last ss ≠ Some [DOT; DOT]).
Proof.
  intros [Hi _] Hss. pose proof (list.Forall2_length _ _ _ Hi) as Hl. case_decide as Hp.
  - destruct (aget_is_Some (p_items a) (zlen (p_items a) - 1)) as [t Et]; [lia|]. rewrite Et.
    apply aget_Some in Et as [_ Et]. destruct (holds_lookup _ _ _ _ Hi Et) as (s & Es & Hs).
    destruct (strcmp_holds t s [DOT; DOT] Hs) as (d & Ed & Hd).
    { by eapply Forall_lookup_1 in Es. }
    { by_decide. }
    exists d. cbn [of_option mbind outcome_bind]. split; [done|]. rewrite last_at.
    replace (length ss - 1)%nat with (Z.to_nat (zlen (p_items a) - 1)) by lia. rewrite Es.
    destruct ss; [simpl in Hl; lia|]. naive_solver.
  - exists 0. split; [done|]. destruct ss; [|simpl in Hl; lia]. naive_solver.
Qed.

Lemma wp_resolve_piece is_abs b a ss c s max cost n (Q : pieces + pieces → H → Prop) h :
  array_ok b a ss → Forall str_ok ss → holds c s → str_ok s → zlen ss ≤ b → 8 * b + 16 ≤ max → max < 4294967296 → 0 ≤ n →
  room max cost (n + 1) h →
  (∀ a' h', array_ok b a' (resolve is_abs ss s) → room max cost n h' → Q (inr a') h') →
  wp (resolve_piece is_abs a c) Q h.
Proof.
  intros Ha Hss Hc Hs Hb Hmax Hlim Hn Hr HQ. pose proof (ar_items _ _ _ Ha) as Hi.
  pose proof (list.Forall2_length _ _ _ Hi) as Hl. unfold resolve_piece, resolve in *.
  assert (room max cost n h) as Hrn by (eapply room_le; [|idtac|exact Hr]; lia).
  destruct (strcmp_holds c s [DOT] Hc Hs) as (d1 & E1 & Hd1); [by_decide|].
  apply wp_bind. eapply wp_liftO; [exact E1|]. destruct (decide (d1 = 0)) as [D1|D1].
  { rewrite decide_True in HQ by tauto. apply wp_bind. eapply wp_release; [done|]. intros h' Hr'. by apply wp_ret, HQ. }
  rewrite (decide_False (P := s = [DOT])) in HQ by tauto.
  destruct (strcmp_holds c s [DOT; DOT] Hc Hs) as (d2 & E2 & Hd2); [by_decide|].
  apply wp_bind. eapply wp_liftO; [exact E2|]. destruct (decide (d2 = 0)) as [D2|D2].
  2:{ rewrite decide_False in HQ by tauto. by eapply wp_push_or_fail. }
  rewrite (decide_True (P := s = [DOT; DOT])) in HQ by tauto. destruct is_abs.
  - cbn [orb] in HQ. apply wp_bind. case_decide as Hp.
    + eapply (wp_pop b a ss max cost n); [done|intros ->; simpl in Hl; lia|done|]. intros a' h' Ha' Hr'.
      apply wp_bind. eapply wp_release; [done|]. intros h2 Hr2. by apply wp_ret, HQ.
    + assert (ss = []) as -> by (destruct ss; [done|simpl in Hl; lia]).
      apply wp_ret, wp_bind. eapply wp_release; [done|]. intros h2 Hr2. by apply wp_ret, HQ.
  - destruct (top_dots a ss b Ha Hss) as (d & Ed & Hd). apply wp_bind. eapply wp_liftO; [exact Ed|].
    destruct (decide (0 < zlen (p_items a) ∧ d ≠ 0)) as [Ht|Ht].
    + rewrite bool_decide_eq_true_2 in HQ by tauto. cbn [orb] in HQ.
      apply wp_bind. eapply (wp_pop b a ss max cost n); [done|tauto|done|]. intros a' h' Ha' Hr'.
      apply wp_bind. eapply wp_release; [done|]. intros h2 Hr2. by apply wp_ret, HQ.
    + rewrite bool_decide_eq_false_2 in HQ by tauto. cbn [orb] in HQ. by eapply wp_push_or_fail.
Qed.

Lemma length_resolve is_abs ss s : zlen (resolve is_abs ss s) ≤ zlen ss + 1.
Proof. unfold resolve. repeat (case_decide || case_match); rewrite ?length_app, ?length_take; simpl; lia. Qed.
Lemma resolve_ok (P : list Z → Prop) is_abs ss s : Forall P ss → P s → Forall P (resolve is_abs ss s).
Proof.
  intros Hss Hs. assert (Forall P (ss ++ [s])) by (apply Forall_app; by repeat constructor).
  assert (Forall P (take (length ss - 1) ss)) by (by apply Forall_take).
  unfold resolve. repeat (case_decide || case_match); done.
Qed.

Lemma wp_resolve_pieces is_abs b items ss : Forall2 holds items ss → Forall str_ok ss →
  ∀ a st max cost n (Q : pieces + pieces → H → Prop) h,
  array_ok b a st → Forall str_ok st → zlen st + zlen ss ≤ b → 8 * b + 16 ≤ max → max < 4294967296 → 0 ≤ n →
  room max cost (n + zlen ss) h →
  (∀ a' h', array_ok b a' (foldl (resolve is_abs) st ss) → room max cost n h' → Q (inr a') h') →
  wp (resolve_pieces is_abs a items) Q h.
Proof.
  induction 1 as [|c s items ss Hc _ IH]; intros Hss a st max cost n Q h Ha Hst Hb Hmax Hlim Hn Hr HQ;
    cbn [resolve_pieces length foldl] in *.
  - apply wp_ret, HQ; [done|]. eapply room_le; [|idtac|exact Hr]; lia.
  - apply Forall_cons_iff in Hss as [Hs Hss]. apply wp_bind.
    eapply (wp_resolve_piece is_abs b a st c s max cost (n + zlen ss)); try done; try lia.
    { eapply room_le; [|idtac|exact Hr]; lia. }
    intros a' h' Ha' Hr'. eapply IH; try done; [by apply resolve_ok|]. pose proof (length_resolve is_abs st s). lia.
Qed.
(** *** The result *)

Lemma strcpy_at_padded T q s r :
  str_ok s → s ≠ [] → (length q + length s < T)%nat →
  strcpy_at (padded T q) (zlen q) (s ++ 0 :: r) = Done (padded T (q ++ s)).
Proof.
  intros Hs Hne Hl. unfold strcpy_at, padded. rewrite decide_True by (rewrite length_app; lia).
  rewrite Nat2Z.id, drop_app_length, take_app_length.
  rewrite strcpy_cstr by (rewrite ?length_replicate; done || lia). cbn [mbind outcome_bind].
  rewrite drop_replicate, <-app_assoc, length_app. do 3 f_equal.
  by replace (T - (length q + length s))%nat with (S (T - length q - S (length s))) by lia.
Qed.
(** An empty string is copied with the byte behind it. *)
Lemma strcpy_at_empty T q r :
  (length q + 1 < T)%nat → strcpy_at (padded T q) (zlen q) (0 :: 0 :: r) = Done (padded T q).
Proof.
  intros Hl. unfold strcpy_at, padded. rewrite decide_True by (rewrite length_app; lia).
  rewrite Nat2Z.id, drop_app_length, take_app_length.
  by replace (T - length q)%nat with (S (S (T - length q - 2))) by lia.
Qed.

Definition with_slashes (l : list (list Z)) : list Z := concat ((λ s, SLASH :: s) <$> l).
Lemma join_slash_cons p l : join_slash (p :: l) = p ++ with_slashes l.
Proof.
  revert p. induction l as [|q l IH]; intros p; [by rewrite app_nil_r|].
  change (join_slash (p :: q :: l)) with (p ++ SLASH :: join_slash (q :: l)). rewrite IH. done.
Qed.
Lemma length_with_slashes l : zlen (with_slashes l) = weight l.
Proof.
  unfold with_slashes, weight. induction l as [|p l IH]; cbn [fmap list_fmap concat foldr]; [done|].
  rewrite length_app. cbn [length]. lia.
Qed.

Lemma append_pieces_padded T items ss : Forall2 holds items ss → Forall str_ok ss → Forall (λ s, s ≠ []) ss →
  ∀ q, zlen q + weight ss < Z.of_nat T →
  append_pieces (padded T q) (zlen q) items = Done (padded T (q ++ with_slashes ss), zlen (q ++ with_slashes ss)).
Proof.
  induction 1 as [|c s items ss Hc _ IH]; intros Hok Hne q Hl; cbn [append_pieces].
  - by rewrite app_nil_r.
  - apply Forall_cons_iff in Hok as [Hs Hok]. apply Forall_cons_iff in Hne as [Hsn Hne].
    pose proof (weight_nonneg ss). cbn [weight foldr] in Hl. fold (weight ss) in Hl.
    rewrite put_char_end by lia. cbn [mbind outcome_bind]. rewrite Hc.
    replace (zlen q + 1) with (zlen (q ++ [SLASH])) by (rewrite length_app; simpl; lia).
    rewrite strcpy_at_padded by (rewrite ?length_app; simpl; done || lia). rewrite Hc, strlen_cstr by done.
    cbn [mbind outcome_bind]. replace (zlen (q ++ [SLASH]) + zlen s) with (zlen ((q ++ [SLASH]) ++ s)) by (rewrite (length_app _ s); lia).
    rewrite IH by (rewrite ?length_app; simpl; done || lia). cbn [with_slashes fmap list_fmap concat].
    by rewrite <-!app_assoc.
Qed.

(** A stack as [resolved] leaves it: only its first piece can be empty, and then
    the byte behind every block is zero and it is not the only one. *)
Record printable (is_abs : bool) (ss : list (list Z)) : Prop := {
  pr_ok : Forall str_ok ss;
  pr_tail : Forall (λ s, s ≠ []) (tail ss);
  pr_head : head ss = Some [] → tail ss ≠ [] ∧ ∀ p, ∃ r, behind p = 0 :: r;
}.

Lemma first_and_rest_padded T is_abs items ss q :
  Forall2 holds items ss → printable is_abs ss → ss ≠ [] → zlen q + weight ss - 1 < Z.of_nat T →
  first_and_rest (padded T q) (zlen q) items = Done (padded T (q ++ join_slash ss), zlen (q ++ join_slash ss)).
Proof.
  intros Hi [Hok Htl Hhd] Hne Hl. destruct Hi as [|c s items ss Hc Hi]; [done|]. cbn [first_and_rest tail head] in *.
  apply Forall_cons_iff in Hok as [Hs Hok]. cbn [weight foldr] in Hl. fold (weight ss) in Hl.
  pose proof (weight_nonneg ss) as Hw. rewrite join_slash_cons.
  assert (strlen c.2 = Done (zlen s)) as -> by (rewrite Hc; by apply strlen_cstr). rewrite Hc.
  assert (strcpy_at (padded T q) (zlen q) (s ++ 0 :: behind c.1) = Done (padded T (q ++ s))) as ->.
  { destruct (decide (s = [])) as [->|Hsn]; [|apply strcpy_at_padded; [done|done|lia]].
    destruct (Hhd eq_refl) as [Htn Hb]. destruct (Hb c.1) as [r ->]. rewrite app_nil_r. cbn [app].
    apply strcpy_at_empty. destruct ss as [|s2 ss]; [done|]. apply Forall_cons_iff in Htl as [Hs2 _].
    cbn [weight foldr] in *. fold (weight ss) in *. pose proof (weight_nonneg ss). simpl in Hl. lia. }
  cbn [mbind outcome_bind]. replace (zlen q + zlen s) with (zlen (q ++ s)) by (rewrite length_app; lia).
  rewrite (append_pieces_padded T items ss Hi Hok Htl) by (rewrite length_app; lia). by rewrite <-!app_assoc.
Qed.

Lemma lengths_spec items ss : Forall2 holds items ss → Forall str_ok ss → lengths items = Done (weight ss - zlen ss).
Proof.
  induction 1 as [|c s items ss Hc _ IH]; intros Hok; cbn [lengths]; [done|].
  apply Forall_cons_iff in Hok as [Hs Hok]. rewrite Hc, strlen_cstr, IH by done. cbn [mbind outcome_bind weight foldr length].
  fold (weight ss). f_equal. lia.
Qed.
Lemma length_render is_abs ss :
  zlen (render is_abs ss) = if decide (ss = []) then 1 else (if is_abs then 1 else 0) + weight ss - 1.
Proof.
  unfold render. destruct ss as [|s ss]; [by destruct is_abs|]. cbn [decide]. rewrite decide_False by done.
  cbn [weight foldr]. fold (weight ss). rewrite join_slash_cons.
  destruct is_abs; cbn [length]; rewrite length_app, Nat2Z.inj_add || rewrite length_app; pose proof (length_with_slashes ss); lia.
Qed.
Lemma result_length_spec is_abs items ss :
  Forall2 holds items ss → Forall str_ok ss → result_length is_abs items = Done (zlen (render is_abs ss)).
Proof.
  intros Hi Hok. pose proof (list.Forall2_length _ _ _ Hi) as Hl. unfold result_length. rewrite length_render.
  destruct (decide (ss = [])) as [->|Hne]; [by rewrite decide_True by (simpl in *; lia)|].
  rewrite decide_False by (destruct ss; [done|simpl in *; lia]).
  rewrite (lengths_spec _ _ Hi Hok). cbn [mbind outcome_bind]. f_equal. destruct is_abs; lia.
Qed.

Lemma padded_full q c : padded (length q + 1) (q ++ [c]) = q ++ [c].
Proof. unfold padded. rewrite length_app. cbn [length]. rewrite Nat.sub_diag. apply app_nil_r. Qed.

Lemma build_result_spec is_abs items ss :
  Forall2 holds items ss → printable is_abs ss →
  build_result is_abs (zlen (render is_abs ss)) items = Done (render is_abs ss ++ [0]).
Proof.
  intros Hi Hp. pose proof (list.Forall2_length _ _ _ Hi) as Hl. unfold build_result. rewrite Nat2Z.id.
  set (R := render is_abs ss). set (T := (length R + 1)%nat).
  assert (∀ q, q = R → put_char (padded T q) (zlen q) 0 = Done (R ++ [0])) as Hend.
  { intros q ->. unfold T. rewrite put_char_end by lia. by rewrite padded_full. }
  change (replicate T 0) with (padded T []) || (assert (replicate T 0 = padded T []) as -> by (unfold padded; cbn; by rewrite Nat.sub_0_r)).
  pose proof (length_render is_abs ss) as HR. fold R in HR. destruct is_abs.
  - assert (put_char (padded T []) 0 SLASH = Done (padded T [SLASH])) as -> by (apply (put_char_end T [] SLASH); subst T; simpl; lia).
    cbn [mbind outcome_bind]. destruct (decide (ss = [])) as [->|Hne].
    + inversion Hi. cbn [first_and_rest]. apply (Hend [SLASH]). done.
    + pose proof (first_and_rest_padded T true items ss [SLASH] Hi Hp Hne ltac:(unfold T; cbn [length]; lia)) as E.
      change (zlen [SLASH]) with 1 in E. rewrite E.
      by apply Hend.
  - destruct (decide (ss = [])) as [->|Hne].
    + inversion Hi. rewrite decide_True by done.
      assert (put_char (padded T []) 0 DOT = Done (padded T [DOT])) as -> by (apply (put_char_end T [] DOT); subst T; simpl; lia).
      by apply (Hend [DOT]).
    + rewrite decide_False by (destruct ss; [done|simpl in *; lia]).
      pose proof (first_and_rest_padded T false items ss [] Hi Hp Hne ltac:(unfold T; cbn [length]; lia)) as E.
      change (zlen (@nil Z)) with 0 in E. rewrite E.
      apply Hend. subst R. by destruct ss.
Qed.
End specs.

(** *** The pieces of a path *)

Lemma split_slash_ok s : str_ok s → Forall str_ok (split_slash s) ∧ Forall no_slash (split_slash s).
Proof.
  induction s as [|c s IH]; intros Hs; cbn [split_slash].
  { split; repeat constructor. apply not_elem_of_nil. }
  apply str_ok_cons in Hs as [Hc Hs]. destruct (IH Hs) as [H1 H2]. case_decide as Ec.
  - split; constructor; try done; [constructor|apply not_elem_of_nil].
  - destruct (split_slash_cons s) as (p & ps & E). rewrite E in *.
    apply Forall_cons_iff in H1 as [Hp1 H1]. apply Forall_cons_iff in H2 as [Hp2 H2]. split; constructor; try done.
    + by apply str_ok_cons.
    + unfold no_slash in *. rewrite not_elem_of_cons. by split.
Qed.
Lemma kept_sub (P : list Z → Prop) b l : Forall P l → Forall P (kept b l).
Proof.
  intros Hl. destruct l as [|p l]; [done|]. apply Forall_cons_iff in Hl as [Hp Hl]. cbn [kept]. apply Forall_app. split.
  - case_match; by repeat constructor.
  - apply list.Forall_forall. intros x Hx%list_elem_of_filter. rewrite list.Forall_forall in Hl. apply Hl. tauto.
Qed.
Lemma kept_tail l : Forall (λ s, s ≠ []) (tail (kept true l)).
Proof.
  destruct l as [|p l]; [constructor|]. cbn. apply list.Forall_forall. by intros x [? _]%list_elem_of_filter.
Qed.
Lemma tail_resolve is_abs ss s : Forall (λ s, s ≠ []) (tail ss) → s ≠ [] → Forall (λ s, s ≠ []) (tail (resolve is_abs ss s)).
Proof.
  intros Hss Hs. assert (Forall (λ s, s ≠ []) (tail (ss ++ [s]))).
  { destruct ss as [|x ss]; [constructor|]. cbn in *. apply Forall_app. by repeat constructor. }
  assert (Forall (λ s, s ≠ []) (tail (take (length ss - 1) ss))).
  { destruct ss as [|x ss]; [constructor|]. cbn [length]. rewrite Nat.sub_succ, Nat.sub_0_r.
    destruct (length ss) as [|n]; [constructor|]. cbn in *. by apply Forall_take. }
  unfold resolve. repeat (case_decide || case_match); done.
Qed.
Lemma tail_resolved is_abs l : Forall (λ s, s ≠ []) (tail l) → Forall (λ s, s ≠ []) (tail (resolved is_abs l)).
Proof.
  destruct l as [|p l]; [constructor|]. intros Hl. unfold resolved. cbn [foldl tail] in *.
  assert (Forall (λ s, s ≠ []) (tail (resolve is_abs [] p))) as H0.
  { unfold resolve. cbn. repeat (case_decide || case_match); constructor. }
  revert H0. generalize (resolve is_abs [] p). induction Hl as [|q l Hq Hl IH]; intros st Hst; cbn [foldl]; [done|].
  apply IH. by apply tail_resolve.
Qed.
Lemma resolved_ok (P : list Z → Prop) is_abs l : Forall P l → Forall P (resolved is_abs l).
Proof.
  intros Hl. unfold resolved. assert (∀ st, Forall P st → Forall P (foldl (resolve is_abs) st l)) as Hf; [|by apply Hf].
  induction Hl as [|q l Hq Hl IH]; intros st Hst; cbn [foldl]; [done|]. apply IH. by apply resolve_ok.
Qed.

Lemma weight_resolved is_abs l : weight (resolved is_abs l) ≤ weight l.
Proof.
  unfold resolved. assert (∀ st, weight (foldl (resolve is_abs) st l) ≤ weight st + weight l) as Hf.
  { induction l as [|q l IH]; intros st; cbn [foldl]; [cbn; lia|]. specialize (IH (resolve is_abs st q)).
    pose proof (weight_resolve is_abs st q). cbn [weight foldr] in *. unfold weight in *. lia. }
  apply (Hf []).
Qed.

Lemma stack_printable behind path :
  str_ok path → path ≠ [] → stack_of path ≠ [[]] → (hd 0 path = SLASH → ∀ p, ∃ r, behind p = 0 :: r) →
  printable behind (absolute path) (stack_of path).
Proof.
  intros Hp Hne Hs Hb. destruct (split_slash_ok path Hp) as [H1 _]. split.
  - by apply resolved_ok, kept_sub.
  - apply tail_resolved, kept_tail.
  - intros Hh. split; [intros Ht; apply Hs; destruct (stack_of path); naive_solver|].
    apply Hb. destruct path as [|c path]; [done|]. cbn [hd]. destruct (decide (c = SLASH)) as [|Hc]; [done|]. exfalso.
    assert (Forall (λ s, s ≠ []) (stack_of (c :: path))) as Hall.
    { apply resolved_ok. cbn [split_slash]. rewrite decide_False by done.
      destruct (split_slash_cons path) as (p & ps & ->). cbn [kept orb app]. constructor; [done|].
      apply list.Forall_forall. by intros x [? _]%list_elem_of_filter. }
    destruct (stack_of (c :: path)) as [|x l]; [done|]. injection Hh as ->. by inversion Hall.
Qed.

(** A name that is not "." or "..". *)
Record plain_name (s : list Z) : Prop := {
  pn_ok : str_ok s; pn_nonempty : s ≠ []; pn_slash : no_slash s; pn_dot : s ≠ [DOT]; pn_dots : s ≠ [DOT; DOT] }.

Lemma split_join names : names ≠ [] → Forall plain_name names → split_slash (join_slash names) = names.
Proof.
  intros Hne. destruct names as [|s names]; [done|]. intros [Hs Hn]%Forall_cons_iff. clear Hne.
  revert s Hs. induction Hn as [|t names Ht Hn IH]; intros s Hs.
  - apply split_slash_end, Hs.
  - change (join_slash (s :: t :: names)) with (s ++ SLASH :: join_slash (t :: names)).
    rewrite split_slash_sep by apply Hs. by rewrite IH.
Qed.
Lemma filter_plain names : Forall plain_name names → filter (λ q, q ≠ []) names = names.
Proof.
  induction 1 as [|s names Hs _ IH]; [done|]. rewrite filter_cons. rewrite decide_True by apply Hs. by rewrite IH.
Qed.
Lemma resolve_plain is_abs st names : Forall plain_name names → foldl (resolve is_abs) st names = st ++ names.
Proof.
  intros Hn. revert st. induction Hn as [|s names Hs _ IH]; intros st; cbn [foldl]; [by rewrite app_nil_r|].
  unfold resolve at 2. rewrite !decide_False by apply Hs. by rewrite IH, <-app_assoc.
Qed.
Lemma join_ok names : Forall plain_name names → str_ok (join_slash names).
Proof.
  induction 1 as [|s names Hs Hn IH]; [constructor|]. cbn [join_slash]. destruct names; [apply Hs|].
  apply str_ok_app. split; [apply Hs|]. apply str_ok_cons. split; [done|exact IH].
Qed.
Lemma join_hd names : names ≠ [] → Forall plain_name names → join_slash names ≠ [] ∧ hd 0 (join_slash names) ≠ SLASH.
Proof.
  intros Hne Hn. destruct Hn as [|s names Hs Hn]; [done|]. destruct Hs as [_ Hsn Hsl _ _].
  destruct s as [|c s]; [done|]. cbn [join_slash]. unfold no_slash in Hsl. rewrite not_elem_of_cons in Hsl.
  destruct names; cbn; split; naive_solver.
Qed.

(** ** Properties *)

Section properties.
Context {H : Type} `{KernelHeapLaws H} (behind : Z → list Z).

Lemma wp_simplify path tail cost h :
  str_ok path → path ≠ [] → zlen path < 65536 → stack_of path ≠ [[]] →
  (hd 0 path = SLASH → ∀ p, ∃ r, behind p = 0 :: r) →
  room (8 * zlen path + 24) cost (3 * zlen path + 4) h →
  wp (simplify_path behind (path ++ 0 :: tail)) (λ r _, ∃ p, p ≠ 0 ∧ r = Some (p, simplified path ++ [0])) h.
Proof.
  intros Hp Hne Hl Hst Hb Hr. set (b := zlen path + 1). set (max := 8 * zlen path + 24) in *.
  pose proof (weight_split path) as Hw. pose proof (weight_length (split_slash path)) as Hwl.
  pose proof (stack_printable behind path Hp Hne Hst Hb) as Hpr.
  assert (char_at (path ++ 0 :: tail) 0 = Done (hd 0 path)) as Ec by (by destruct path).
  apply wp_bind. eapply wp_liftO; [exact Ec|]. apply wp_bind. eapply wp_liftO; [by apply strlen_cstr|]. rewrite Nat2Z.id.
  apply wp_bind.
  eapply (wp_split behind [] [] path tail no_pieces [] b max cost (zlen path + 2)); try done; try (unfold b, max; cbn; lia).
  { apply not_elem_of_nil. } { constructor. } { by split; cbn; [constructor|unfold b; lia]. }
  { eapply room_le; [|idtac|exact Hr]; unfold max; cbn; lia. }
  intros a h1 Ha Hr1. cbn [app] in Ha. change (bool_decide (zlen (@nil Z) = 0)) with true in Ha.
  pose proof (weight_kept true (split_slash path)) as Hwk. set (comps := kept true (split_slash path)) in *.
  assert (zlen comps ≤ b) as Hlc by (pose proof (weight_length comps); unfold b; lia).
  assert (Forall str_ok comps) as Hok by (apply kept_sub; by apply split_slash_ok).
  apply wp_bind. eapply (wp_resolve_pieces behind (absolute path) b (p_items a) comps (ar_items _ _ _ _ Ha) Hok no_pieces [] max cost 1);
    try done; try (unfold b, max; lia).
  - split; cbn; [constructor|unfold b; lia].
  - eapply (room_le max cost _ (1 + zlen comps)); [unfold max; lia| |exact Hr1]. unfold b in *. lia.
  - intros st h2 Hst2 Hr2. fold (resolved (absolute path) comps) in Hst2. fold (stack_of path) in Hst2.
    pose proof (ar_items _ _ _ _ Hst2) as Hi. apply wp_bind. eapply wp_release; [exact Hr2|]. intros h3 Hr3.
    apply wp_bind. eapply wp_liftO; [by eapply result_length_spec; [|apply Hpr]|].
    assert (zlen (render (absolute path) (stack_of path)) + 1 ≤ max) as Htot.
    { rewrite length_render. assert (weight (stack_of path) ≤ weight comps) as Hws by (apply weight_resolved).
      unfold max. case_decide; [lia|]. destruct (absolute path); lia. }
    fold (absolute path) (stack_of path) in *. rewrite u32_small by (unfold max in *; lia).
    apply wp_bind. eapply (wp_block _ max cost 0); [lia|lia|exact Hr3|]. intros p h4 Hp4 Hr4. rewrite decide_False by done.
    apply wp_bind. eapply wp_liftO; [by apply (build_result_spec behind)|]. apply wp_bind. eapply wp_free_pieces; [exact Hr4|].
    intros h5 Hr5. apply wp_bind. eapply wp_release; [exact Hr5|]. intros h6 Hr6. apply wp_ret. by exists p.
Qed.

(** A path of names only, none of them "." or "..": an absolute one gets a second
    slash. *)
Lemma simplified_plain names (is_abs : bool) path :
  Forall plain_name names → names ≠ [] → path = (if is_abs then SLASH :: join_slash names else join_slash names) →
  stack_of path = (if is_abs then [] :: names else names) ∧ simplified path = (if is_abs then SLASH :: path else path).
Proof.
  intros Hn Hne Epath. destruct (join_hd names Hne Hn) as [Hjn Hjs].
  assert (absolute path = is_abs) as Ea.
  { unfold absolute. subst path. destruct is_abs; [done|]. by apply bool_decide_eq_false_2. }
  assert (stack_of path = if is_abs then [] :: names else names) as Es.
  { unfold stack_of, resolved. rewrite Ea. subst path. destruct is_abs.
    - cbn [split_slash]. rewrite decide_True by done. rewrite split_join by done. cbn [kept orb app].
      rewrite filter_plain by done. cbn [foldl]. by rewrite resolve_plain.
    - rewrite split_join by done. destruct names as [|s names]; [done|]. cbn [kept orb app].
      apply Forall_cons_iff in Hn as [Hs Hn]. rewrite filter_plain by done. by rewrite resolve_plain by (by constructor). }
  split; [done|]. unfold simplified. rewrite Ea, Es. subst path. destruct is_abs; cbn [render]; [|by destruct names].
  rewrite join_slash_cons. destruct names as [|s names]; [done|]. cbn [with_slashes fmap list_fmap concat].
  by rewrite join_slash_cons.
Qed.

(** C17: What simplify_path returns for a non-empty path, on a heap with room for its
    blocks: a new block with the pieces that "." and ".." leave on the stack, joined
    by slashes, behind one more slash when the path is absolute.  The empty piece in
    front of the first slash of an absolute path is kept as a name, so the result is
    not the normal form: a path of plain names comes back with its slash doubled,
    "/usr/bin" as "//usr/bin" (a relative one comes back as it is).  Something other
    than the single empty piece has to be left, and for an absolute path the bytes
    behind the blocks must be zero. *)
Theorem simplify_path_computes path tail cost h :
  str_ok path → path ≠ [] → zlen path < 65536 → stack_of path ≠ [[]] →
  (hd 0 path = SLASH → ∀ p, ∃ r, behind p = 0 :: r) →
  room (8 * zlen path + 24) cost (3 * zlen path + 4) h →
  wp (simplify_path behind (path ++ 0 :: tail)) (λ r _, ∃ p, p ≠ 0 ∧ r = Some (p, simplified path ++ [0])) h ∧
  ∀ names, Forall plain_name names → names ≠ [] →
    (path = SLASH :: join_slash names → simplified path = SLASH :: path) ∧ (path = join_slash names → simplified path = path).
Proof.
  intros Hp Hne Hl Hst Hb Hr. split; [by apply (wp_simplify path tail cost h)|]. intros names Hn Hnn. split; intros Hj.
  - by apply (simplified_plain names true).
  - by apply (simplified_plain names false).
Qed.

(** A path of names only, none of them "." or "..", should come back as it is;
    a relative one does, but an absolute one comes back with a second slash in
    front: the empty piece before the first slash is kept as a name. *)
Theorem simplify_path_doubles_slash names (is_abs : bool) path tail cost h :
  Forall plain_name names → names ≠ [] → path = (if is_abs then SLASH :: join_slash names else join_slash names) →
  zlen path < 65536 → (is_abs = true → ∀ p, ∃ r, behind p = 0 :: r) →
  room (8 * zlen path + 24) cost (3 * zlen path + 4) h →
  wp (simplify_path behind (path ++ 0 :: tail))
     (λ r _, ∃ p, p ≠ 0 ∧ r = Some (p, (if is_abs then SLASH :: path else path) ++ [0])) h.
Proof.
  intros Hn Hne Epath Hl Hb Hr. destruct (join_hd names Hne Hn) as [Hjn Hjs]. pose proof (join_ok names Hn) as Hjo.
  destruct (simplified_plain names is_abs path) as [Es Esim]; [done..|].
  rewrite <-Esim. apply (wp_simplify path tail cost h).
  - subst path. destruct is_abs; [|done]. by apply str_ok_cons.
  - subst path. by destruct is_abs.
  - done.
  - rewrite Es. destruct is_abs; [by destruct names|]. intros ->. apply Forall_cons_iff in Hn as [[] _]. done.
  - intros Hh. apply Hb. subst path. by destruct is_abs.
  - done.
Qed.
End properties.

(** Without a piece behind it the empty one does not fit into the result. *)
Example simplify_root : simplify_path (λ _, replicate 8 0) (lit "/" ++ [0]) (Bump 4096 10000) = Fault.
Proof. vm_compute. reflexivity. Qed.

(** "/usr/./local/../bin", whose "." and ".." are resolved, and "/usr/bin". *)
Lemma simplify_path_computes_witness :
  let gives path res := wp (simplify_path (λ _, [0]) (path ++ [0])) (λ r _, ∃ p, p ≠ 0 ∧ r = Some (p, res ++ [0])) (Bump 4096 1000000) in
  gives (lit "/usr/./local/../bin") (lit "//usr/bin") ∧ gives (lit "/usr/bin") (SLASH :: lit "/usr/bin").
Proof.
  split.
  - refine (proj1 (simplify_path_computes (λ _, [0]) (lit "/usr/./local/../bin") [] 200 (Bump 4096 1000000) _ _ _ _ _ _)).
    + by_decide.
    + by vm_compute.
    + by vm_compute.
    + by vm_compute.
    + intros _ p. exists []. reflexivity.
    + split; [intros size Hs; cbn in *; lia|]. vm_compute. split; [congruence|reflexivity].
  - edestruct (simplify_path_computes (λ _, [0]) (lit "/usr/bin") [] 200 (Bump 4096 1000000)) as [Hwp Hsim].
    + by_decide.
    + by vm_compute.
    + by vm_compute.
    + by vm_compute.
    + intros _ p. exists []. reflexivity.
    + split; [intros size Hs; cbn in *; lia|]. vm_compute. split; [congruence|reflexivity].
    + destruct (Hsim [lit "usr"; lit "bin"]) as [Habs _]; [repeat constructor; by_decide|done|].
      cbv zeta. rewrite <-(Habs eq_refl). exact Hwp.
Defined.

Lemma simplify_path_doubles_slash_witness :
  wp (simplify_path (λ _, [0]) (lit "/usr/bin" ++ [0]))
     (λ r _, ∃ p, p ≠ 0 ∧ r = Some (p, lit "//usr/bin" ++ [0])) (Bump 4096 1000000).
Proof.
  apply (simplify_path_doubles_slash (λ _, [0]) [lit "usr"; lit "bin"] true (lit "/usr/bin") [] 200 (Bump 4096 1000000)).
  - repeat constructor; by_decide.
  - by vm_compute.
  - reflexivity.
  - by vm_compute.
  - intros _ p. exists []. reflexivity.
  - split; [intros size Hs; cbn in *; lia|]. vm_compute. split; [congruence|reflexivity].
Defined.
