(* ===== verification/DirCalls.v ===== *)
(** * The calls on directories: process/syscalls/handlers/dir/dir.c

    Most of these calls build a path in an array they do not clear, and the copies
    write no terminator: what the arrays hold before is the parameter [uninit]. *)

From S2P Require Import Prelude CString Interfaces Io Vga FatTable FatDir FatPath FatFile Vfs Process Kernel Terminal Paths.
From S2P Require Import Simplify FileCalls.

(** ** Constants *)

Definition EBUSY : Z := 16.
Definition ERANGE : Z := 34.
Definition DT_DIR : Z := 4.
Definition DT_REG : Z := 8.
(** d_ino, d_off, d_reclen, and two bytes up to the alignment of the struct. *)
Definition sizeof_linux_dirent : Z := 12.
Definition d_name_offset : Z := 10.

(** The arrays on the stack that are not initialised. *)
Inductive array := newPath | fullOldPath | fullNewPath | newName | oldDir | newDir | path_copy.

(** ** Names *)

Section names.
Context (uninit : array → list Z).

(** [path_copy] with its last slash replaced, and the place of that slash. *)
Definition cut_copy (path : list Z) : outcome (list Z * option nat) :=
  copy ← strncpy (uninit path_copy) path 256;
  last_slash ← strrchr copy SLASH;
  Done (match last_slash with Some i => <[i := 0]> copy | None => copy end, last_slash).

Definition get_parent_dir (path parent_dir : list Z) (size : Z) : outcome (list Z) :=
  '(directory, _) ← cut_copy path;
  n ← strlen directory;
  if decide (n = 0) then strncpy parent_dir [SLASH; 0] (Z.to_nat size) else strncpy parent_dir directory (Z.to_nat size).

Definition base_name (copy : list Z * option nat) : list Z :=
  match copy.2 with Some i => drop (S i) copy.1 | None => copy.1 end.
Definition get_base_name (path name : list Z) (size : Z) : outcome (list Z) :=
  copy ← cut_copy path; strncpy name (base_name copy) (Z.to_nat size).
Definition get_base_name_with_len (path name : list Z) (name_len : Z) : outcome (list Z) :=
  copy ← cut_copy path;
  n ← strlen (base_name copy);
  if decide (u32 name_len < n) then
    name ← strncpy name (base_name copy) (Z.to_nat name_len);
    put_char name name_len 0
  else strncpy name (base_name copy) (Z.to_nat name_len).
End names.

Section operations.
Context {D H V : Type} `{BlockDevice D} `{KernelHeap H} `{Ports V}.
(** [uninit]: see above; [no_return]: see [FileCalls]; [behind]: see [Simplify];
    [fresh]: what a new block of the heap holds. *)
Context (uninit : array → list Z) (no_return : kernel D H V → Z) (behind : Z → list Z) (fresh : Z → list Z).
Implicit Types k : kernel D H V.

Definition _chdir (pathname : list Z) : M (kernel D H V) Z :=
  p ← on_procs get_current_process;
  new_path ← full_path_of p pathname (uninit newPath) 256;
  '(r, f) ← on_fs (fat_get_dir_data new_path);
  if decide (r ≠ 0) then mret (- ENOENT) else
  tmp_dir ← liftO (of_option f);
  if decide (Z.land (attr (file_entry tmp_dir)) FAT_ATTR_DIRECTORY ≠ 0) then
    n ← on_procs (node p);
    c ← liftO (strncpy (cwd (proc n)) new_path 256);
    _ ← on_procs (update_proc p (set_cwd c));
    mret 0
  else mret (- ENOTDIR).

Definition _mkdir (pathname : list Z) (mode : Z) : M (kernel D H V) Z :=
  p ← on_procs get_current_process;
  new_path ← full_path_of p pathname (uninit newPath) 256;
  _ ← on_fs (fat_create_directory new_path);
  code ← gets no_return;
  if decide (code ≠ 0) then mret code else mret 0.

(** get_glob_fd takes no argument: it is the address of the table, never NULL. *)
Definition get_glob_fd : option Z := Some 0.
Definition _rmdir (pathname : list Z) : M (kernel D H V) Z :=
  p ← on_procs get_current_process;
  new_path ← full_path_of p pathname (uninit newPath) 256;
  match get_glob_fd with
  | Some _ => mret (- EBUSY)
  | None => code ← on_fs (fat_delete_dir new_path); if decide (code ≠ 0) then mret code else mret 0
  end.

(** A path that simplify_path could not make is used all the same. *)
Definition simplified_path (path : list Z) : M (kernel D H V) (list Z) :=
  r ← on_fs (zoom FatTable.heap FatTable.set_heap (simplify_path behind path));
  c ← liftO (of_option r);
  mret c.2.

Definition _rename (oldpath newpath : list Z) : M (kernel D H V) Z :=
  p ← on_procs get_current_process;
  full_old ← full_path_of p oldpath (uninit fullOldPath) 256;
  n ← on_procs (node p);
  full_new ← liftO (join_path (cwd (proc n)) newpath (uninit fullNewPath) 256);
  old_formatted ← simplified_path full_old;
  new_formatted ← simplified_path full_new;
  old_dir ← liftO (get_parent_dir uninit old_formatted (uninit oldDir) 256);
  new_dir ← liftO (get_parent_dir uninit new_formatted (uninit newDir) 256);
  d ← liftO (strcmp old_dir new_dir);
  if decide (d ≠ 0) then mret (- EINVAL) else
  new_name ← liftO (get_base_name_with_len uninit new_formatted (uninit newName) 11);
  r ← on_fs (fat_rename old_formatted new_name);
  if decide (r ≠ 0) then mret (- EINVAL) else
  file_fd ← on_fds (get_opened_fd old_formatted);
  match file_fd with
  | None => mret 0
  | Some g =>
      e ← on_fds (gfd g);
      path ← liftO (strncpy (g_path e) new_formatted 256);
      _ ← on_fds (update_gfd g (gset_path path));
      mret 0
  end.

Definition _unlink (path : list Z) : M (kernel D H V) Z :=
  p ← on_procs get_current_process;
  full_path ← full_path_of p path (replicate 256 0) 256;
  '(r, _) ← on_fs (fat_get_file_data full_path);
  if decide (r ≠ 0) then mret r else
  opened ← on_fds (get_opened_fd full_path);
  match opened with
  | None => on_fs (fat_delete_file full_path)
  | Some _ => mret (- EBUSY)
  end.

(** The bytes of one entry, in a block that held [block] before. *)
Definition dirent (entry : FAT16_DirEntry) (offset name_len entry_size : Z) (block : list Z) : outcome (list Z) :=
  let head := le_bytes 4 (start_cluster entry) ++ le_bytes 4 offset ++ le_bytes 2 entry_size in
  let d_name := drop 10 block in
  d_name ← strcpy d_name (encode entry);
  d_name ← put_char d_name name_len 0;
  d_name ← put_char d_name (name_len + 1) (if decide (Z.land (attr entry) FAT_ATTR_DIRECTORY ≠ 0) then DT_DIR else DT_REG);
  Done (head ++ d_name).

Record dents := Dents { dn_index : Z; dn_count : Z; dn_out : list Z; dn_entry : option FAT16_DirEntry }.

Definition dents_round (p fd : Z) (a : dents) : M (kernel D H V) (dents + (Z * list Z)) :=
  let '(Dents buff_index count out entry) := a in
  if decide (0 < count) then
    d ← fd_entry p fd;
    f ← fd_file p fd;
    if decide (file_size (file_entry f) ≤ fd_offset d) then mret (inr (buff_index, out)) else
    '(r, e) ← on_fs (fat_get_dir_entry (file_entry f) (s32 (fd_offset d)));
    if decide (r ≠ 0) then
      if decide (r = - ENOENT) then mret (inr (buff_index, out)) else mret (inr (r, out))
    else
    let entry := match e with Some e => Some e | None => entry end in
    e ← liftO (of_option entry);
    name_len ← liftO (strlen (encode e));
    let entry_size := sizeof_linux_dirent + name_len + 1 in
    if decide (count < u32 entry_size) then mret (inr (buff_index, out)) else
    tmp ← k_kmalloc entry_size;
    if decide (tmp = 0) then mret (inr (- ENOMEM, out)) else
    bytes ← liftO (dirent e (fd_offset d) name_len entry_size (take (Z.to_nat entry_size) (fresh tmp)));
    out ← liftO (memcpy_at out buff_index bytes entry_size);
    _ ← k_kfree tmp;
    _ ← update_fd p fd (fset_offset (fd_offset d + 1));
    mret (inl (Dents (buff_index + entry_size) (u32 (count - entry_size)) out entry))
  else mret (inr (buff_index, out)).

Definition _getdents (fd : Z) (dirp : list Z) (count : Z) : M (kernel D H V) (Z * list Z) :=
  p ← on_procs get_current_process;
  if decide (MAX_LOCAL_FD ≤ fd) then mret (- EBADF, dirp) else
  d ← fd_entry p fd;
  if negb (fd_is_used d) then mret (- EBADF, dirp) else
  if negb (has (fd_flags d) O_DIRECTORY) then mret (- ENOTDIR, dirp) else
  if has (fd_flags d) O_RDONLY then mret (- EPERM, dirp) else
  f ← fd_file p fd;
  if decide (file_size (file_entry f) ≤ fd_offset d) then mret (0, dirp) else
  iter (Z.to_nat count + 1) (dents_round p fd) (Dents 0 count dirp None).

Definition _getcwd (buf : list Z) (size : Z) : M (kernel D H V) (Z * list Z) :=
  p ← on_procs get_current_process;
  n ← on_procs (node p);
  len ← liftO (strlen (cwd (proc n)));
  if decide (size < u32 (len + 1)) then mret (- ERANGE, buf) else
  buf ← liftO (strcpy buf (cwd (proc n)));
  mret (0, buf).
End operations.

(** ** Lemmas *)

Section states.
Context {D H V : Type}.
Implicit Types k : kernel D H V.

(** The running process and its working directory. *)
Record working_dir k (p : Z) (c : list Z) : Prop := {
  wd_current : current_process_g (k_procs k) = p;
  wd_node : ∃ n, nodes (k_procs k) !! p = Some n ∧ cwd (proc n) = c;
}.
Definition with_cwd (p : Z) (c : list Z) k : kernel D H V :=
  kset_procs (set_nodes (alter (λ n, set_proc (set_cwd c (proc n)) n) p (nodes (k_procs k))) (k_procs k)) k.

Lemma working_dir_fs k p c x : working_dir k p c → working_dir (kset_fs x k) p c.
Proof. by intros []. Qed.
Lemma working_dir_with k p c c' : working_dir k p c → working_dir (with_cwd p c' k) p c'.
Proof. intros [Hp (n & En & _)]. split; [done|]. cbn. rewrite lookup_alter_eq, En. by eexists. Qed.

Lemma wp_cwd (Q : process_node → kernel D H V → Prop) k p c :
  working_dir k p c → (∀ n, cwd (proc n) = c → Q n k) → wp (on_procs (node p)) Q k.
Proof.
  intros [_ (n & En & Ec)] HQ. apply wp_zoom. eapply wp_node; [done|]. rewrite kset_procs_same. by apply HQ.
Qed.
Lemma wp_set_cwd c' (Q : unit → kernel D H V → Prop) k p c :
  working_dir k p c → Q tt (with_cwd p c' k) → wp (on_procs (update_proc p (set_cwd c'))) Q k.
Proof.
  intros [_ (n & En & _)] HQ. apply wp_zoom. eapply wp_update_node; [done|].
  assert (insert p (set_proc (set_cwd c' (proc n)) n) (nodes (k_procs k)) =
          alter (λ n, set_proc (set_cwd c' (proc n)) n) p (nodes (k_procs k))) as ->; [|done].
  apply map_eq. intros q. destruct (decide (q = p)) as [->|].
  - by rewrite lookup_insert_eq, lookup_alter_eq, En.
  - by rewrite lookup_insert_ne, lookup_alter_ne.
Qed.

(** The path of a call: an absolute one is copied over what the array held, a
    relative one is joined to the working directory. *)
Lemma wp_absolute_path k p s r u size (Q : list Z → kernel D H V → Prop) :
  str_ok (SLASH :: s) → (length (SLASH :: s) ≤ Z.to_nat size)%nat → (length (SLASH :: s) ≤ length u)%nat →
  Q ((SLASH :: s) ++ drop (length (SLASH :: s)) u) k →
  wp (full_path_of p (SLASH :: s ++ 0 :: r) u size) Q k.
Proof.
  intros Hs Hsz Hu HQ. apply wp_bind. eapply wp_liftO; [done|]. rewrite decide_True by done. eapply wp_liftO; [|exact HQ].
  change (SLASH :: s ++ 0 :: r) with ((SLASH :: s) ++ 0 :: r).
  rewrite strncpy_cstr by (rewrite ?length_take; done || lia). by rewrite take_ge by lia.
Qed.
Lemma wp_relative_path k p c path rc rp u size (Q : list Z → kernel D H V → Prop) :
  working_dir k p (c ++ 0 :: rc) → str_ok c → c ≠ [] → str_ok path → path ≠ [] → hd 0 path ≠ SLASH → length u = 256%nat →
  zlen c + zlen path + 2 ≤ 256 → Q (padded 256 (joined c path)) k →
  wp (full_path_of p (path ++ 0 :: rp) u size) Q k.
Proof.
  intros Hw Hc Hcn Hp Hpn Hps Hu Hl HQ. apply wp_bind. eapply (wp_liftO _ (hd 0 path)); [by destruct path|].
  rewrite decide_False by done. apply wp_bind. eapply wp_cwd; [done|]. intros n ->. eapply wp_liftO; [|exact HQ].
  change 256 with (Z.of_nat 256). rewrite <-Hu. rewrite join_path_spec by (rewrite ?Hu; try done; try lia; by intros ->).
  rewrite decide_True by lia. by rewrite Hu.
Qed.
End states.

(** ** Properties *)

Section calls.
Context {D H V : Type} `{BlockDevice D} `{KernelHeap H}.
Implicit Types k : kernel D H V.

(** C16: _chdir to a directory by its absolute path succeeds, but the working
    directory becomes the path followed by what the old one had behind it: the
    copy writes no terminator.  Even with a clear array on the stack a shorter
    path keeps the old tail, so a process cannot go back to "/". *)
Theorem chdir_keeps_old_tail uninit k p c s r f fs' :
  working_dir k p c → length c = 256%nat → str_ok (SLASH :: s) → (length s < 255)%nat →
  uninit newPath = replicate 256 0 →
  fat_get_dir_data (padded 256 (SLASH :: s)) (k_fs k) = Done ((0, Some f), fs') →
  Z.land (attr (file_entry f)) FAT_ATTR_DIRECTORY ≠ 0 →
  wp (_chdir uninit (SLASH :: s ++ 0 :: r))
     (λ res k', res = 0 ∧ k' = with_cwd p ((SLASH :: s) ++ drop (length (SLASH :: s)) c) (kset_fs fs' k)) k.
Proof.
  intros Hw Hc Hs Hl Hu Hdata Hdir. apply wp_bind, wp_current_process. rewrite (wd_current _ _ _ Hw).
  apply wp_bind, wp_absolute_path; [done|simpl; lia|rewrite Hu, length_replicate; simpl; lia|].
  rewrite Hu, drop_replicate. fold (padded 256 (SLASH :: s)).
  apply wp_bind. eapply wp_zoom_done; [exact Hdata|]. cbv beta iota. rewrite (decide_False (P := 0 ≠ 0)) by tauto.
  apply wp_bind. eapply wp_liftO; [done|]. rewrite decide_True by done.
  apply wp_bind. eapply wp_cwd; [exact (working_dir_fs _ _ _ _ Hw)|]. intros n ->. apply wp_bind. eapply wp_liftO.
  { rewrite padded_cstr by (simpl; lia). apply strncpy_cstr; [done|done|]. rewrite length_take, Hc. cbn [length]. lia. }
  rewrite take_ge by (change (Z.to_nat 256) with 256%nat; simpl; lia).
  apply wp_bind. eapply wp_set_cwd; [exact (working_dir_fs _ _ _ _ Hw)|]. by apply wp_ret.
Qed.

(** C15: After a successful _chdir to a relative path that does not shorten the
    working directory, _getcwd returns the directory and the path joined. *)
Theorem chdir_then_getcwd uninit k p c path r buf f fs' :
  working_dir k p (padded 256 c) → str_ok c → c ≠ [] → str_ok path → path ≠ [] → hd 0 path ≠ SLASH →
  zlen c + zlen path + 2 ≤ 256 → (length c ≤ length (joined c path))%nat → length (uninit newPath) = 256%nat →
  fat_get_dir_data (padded 256 (joined c path)) (k_fs k) = Done ((0, Some f), fs') →
  Z.land (attr (file_entry f)) FAT_ATTR_DIRECTORY ≠ 0 →
  zlen (joined c path) < zlen buf < 4294967296 →
  wp (code ← _chdir uninit (path ++ 0 :: r); res ← _getcwd buf (zlen buf); mret (code, res))
     (λ res k', res = (0, (0, joined c path ++ 0 :: drop (S (length (joined c path))) buf)) ∧
                k' = with_cwd p (padded 256 (joined c path)) (kset_fs fs' k)) k.
Proof.
  intros Hw Hc Hcn Hp Hpn Hps Hl Hlong Hu Hdata Hdir Hbuf.
  destruct (joined_ok c path Hc Hcn Hp Hpn) as (Hj & Hjn & Hjl).
  apply wp_bind, wp_bind, wp_current_process. rewrite (wd_current _ _ _ Hw).
  pose proof Hw as Hw1. rewrite padded_cstr in Hw1 by lia. apply wp_bind. eapply wp_relative_path; [exact Hw1|done..|].
  apply wp_bind. eapply wp_zoom_done; [exact Hdata|]. cbv beta iota. rewrite (decide_False (P := 0 ≠ 0)) by tauto.
  apply wp_bind. eapply wp_liftO; [done|]. rewrite decide_True by done.
  apply wp_bind. eapply wp_cwd; [exact (working_dir_fs _ _ _ _ Hw)|]. intros n ->. apply wp_bind. eapply wp_liftO.
  { rewrite (padded_cstr (joined c path)) by lia. apply strncpy_cstr; [done|done|].
    unfold padded. rewrite length_take, length_app, length_replicate. lia. }
  rewrite take_ge by (change (Z.to_nat 256) with 256%nat; lia).
  assert (joined c path ++ drop (length (joined c path)) (padded 256 c) = padded 256 (joined c path)) as ->.
  { unfold padded. f_equal. rewrite drop_app_ge, drop_replicate by lia. f_equal. lia. }
  apply wp_bind. eapply wp_set_cwd; [exact (working_dir_fs _ _ _ _ Hw)|]. apply wp_ret.
  assert (working_dir (with_cwd p (padded 256 (joined c path)) (kset_fs fs' k)) p (padded 256 (joined c path))) as Hw2.
  { eapply working_dir_with. by apply working_dir_fs. }
  apply wp_bind, wp_bind, wp_current_process. rewrite (wd_current _ _ _ Hw2).
  apply wp_bind. eapply wp_cwd; [exact Hw2|]. intros n' En'. rewrite En', padded_cstr by lia.
  apply wp_bind. eapply wp_liftO; [by apply strlen_cstr|]. rewrite u32_small, decide_False by lia.
  apply wp_bind. eapply wp_liftO; [by apply strcpy_cstr; [..|lia]|]. by apply wp_ret, wp_ret.
Qed.
End calls.

(** ** Witnesses *)

Module Demo.
Definition after {A} (m : outcome (A * fat_state ramdisk bump)) : fat_state ramdisk bump :=
  match m with Done (_, s) => s | _ => FatTable.Demo.state end.
(** The volume with a directory "/B". *)
Definition volume : fat_state ramdisk bump := after (fat_create_directory (padded 256 (lit "/B")) FatTable.Demo.state).
(** The running process in the directory [c] of that volume. *)
Definition in_dir (c : list Z) : kernel ramdisk bump latches := with_cwd 1000 (padded 256 c) (kset_fs volume FileCalls.Demo.start).
Definition dir_b : FileData :=
  match fat_get_dir_data (padded 256 (lit "/B")) volume with Done ((_, Some f), _) => f | _ => zero_file end.
Lemma in_dir_cwd c : working_dir (in_dir c) 1000 (padded 256 c).
Proof.
  apply (working_dir_with (kset_fs volume FileCalls.Demo.start) 1000 (padded 256 (lit "/"))), working_dir_fs.
  split; [reflexivity|]. eexists. split; by vm_compute.
Qed.
End Demo.

Lemma chdir_keeps_old_tail_witness :
  (SLASH :: lit "B") ++ drop 2 (padded 256 (lit "/usr/local")) = padded 256 (lit "/Bsr/local") ∧
  wp (_chdir (λ _, replicate 256 0) (SLASH :: lit "B" ++ 0 :: []))
     (λ res k', res = 0 ∧
        k' = with_cwd 1000 ((SLASH :: lit "B") ++ drop 2 (padded 256 (lit "/usr/local")))
               (kset_fs (Demo.after (fat_get_dir_data (padded 256 (lit "/B")) Demo.volume)) (Demo.in_dir (lit "/usr/local"))))
     (Demo.in_dir (lit "/usr/local")).
Proof.
  split; [by vm_compute|].
  apply (chdir_keeps_old_tail (λ _, replicate 256 0) (Demo.in_dir (lit "/usr/local")) 1000
           (padded 256 (lit "/usr/local")) (lit "B") [] Demo.dir_b).
  - apply Demo.in_dir_cwd.
  - reflexivity.
  - by_decide.
  - simpl; lia.
  - reflexivity.
  - vm_compute; reflexivity.
  - by vm_compute.
Defined.

Lemma chdir_then_getcwd_witness :
  wp (code ← _chdir (λ _, replicate 256 9) (lit "B" ++ 0 :: []); res ← _getcwd (replicate 10 7) 10; mret (code, res))
     (λ res k', res = (0, (0, lit "/B" ++ 0 :: replicate 7 7)) ∧
        k' = with_cwd 1000 (padded 256 (lit "/B"))
               (kset_fs (Demo.after (fat_get_dir_data (padded 256 (lit "/B")) Demo.volume)) (Demo.in_dir (lit "/"))))
     (Demo.in_dir (lit "/")).
Proof.
  apply (chdir_then_getcwd (λ _, replicate 256 9) (Demo.in_dir (lit "/")) 1000 (lit "/") (lit "B") [] (replicate 10 7) Demo.dir_b).
  - apply Demo.in_dir_cwd.
  - by_decide.
  - by vm_compute.
  - by_decide.
  - by vm_compute.
  - by vm_compute.
  - by vm_compute.
  - by_decide.
  - reflexivity.
  - vm_compute; reflexivity.
  - by vm_compute.
  - vm_compute; split; reflexivity.
Defined.
