(* ===== verification/UserMem.v ===== *)
(** * The memory behind a pointer a program passes: sys/sys.c

    The handlers of the system calls read and write the program's memory through
    the pointers in its registers, without a check: a pointer into the kernel is
    as good as any.  A buffer of the models of the calls is the run of bytes that
    is mapped from the pointer on; what a call changed of it is stored back. *)

From S2P Require Import Prelude Interfaces Pmm Paging Heap FatTable Vfs Process Kernel Elf Loader FileCalls.

(** ** Definitions *)

(** The bytes from [va] to the end of its page. *)
Definition page_left (va : Z) : Z := 4096 - va mod 4096.
Definition frame_bytes (s : vm) (pa n : Z) : list Z := (λ i, byte_at s (pa + i)) <$> seqZ 0 n.

Fixpoint reach_pages (n : nat) (s : vm) (va : Z) : list Z :=
  match n with
  | O => []
  | S n =>
      match walk s va with
      | None => []
      | Some pa => frame_bytes s pa (page_left va) ++ reach_pages n s (va + page_left va)
      end
  end.
(** What can be read from [va] on, up to the first page that is not mapped. *)
Definition reach (s : vm) (va : Z) : list Z := reach_pages (Z.to_nat (1048576 - va / 4096)) s va.

Definition user_bytes (va : Z) : M vm (list Z) := gets (λ s, reach s va).

(** Storing the bytes of [new] that differ from [old]. *)
Fixpoint write_back (va : Z) (old new : list Z) : M vm unit :=
  match old, new with
  | b :: old, c :: new =>
      _ ← (if decide (b = c) then mret tt else store8 va c);
      write_back (va + 1) old new
  | _, _ => mret tt
  end.

(** file.h: [struct stat] as 16 words *)
Definition word_at (l : list Z) (i : Z) : Z := le_val (take 4 (drop (Z.to_nat (4 * i)) l)).
Definition stat_of_bytes (l : list Z) : stat :=
  Stat (word_at l 0) (word_at l 1) (word_at l 2) (word_at l 3) (word_at l 4) (word_at l 5) (word_at l 6) (word_at l 7)
    (word_at l 8) (word_at l 9) (word_at l 10, word_at l 11) (word_at l 12, word_at l 13) (word_at l 14, word_at l 15).
Definition stat_words (s : stat) : list Z :=
  [st_dev s; st_ino s; st_mode s; st_nlink s; st_uid s; st_gid s; st_rdev s; st_size s; st_blksize s; st_blocks s;
   (st_atime s).1; (st_atime s).2; (st_mtime s).1; (st_mtime s).2; (st_ctime s).1; (st_ctime s).2].
Definition stat_bytes (s : stat) : list Z := concat (le_bytes 4 <$> stat_words s).
(** Up to the end of [st_blocks], the last field the calls set. *)
Definition stat_fields_size : Z := 40.

(** ** Lemmas *)

(** The bytes at [va] are [bytes]. *)
Definition bytes_at (s : vm) (va : Z) (bytes : list Z) : Prop :=
  ∀ i b, bytes !! i = Some b → ∃ pa, walk s (va + Z.of_nat i) = Some pa ∧ byte_at s pa = b.

Lemma bytes_at_load s va bytes i b :
  bytes_at s va bytes → bytes !! i = Some b → load8 (va + Z.of_nat i) s = Done (b, s).
Proof. intros Hb Hi. destruct (Hb i b Hi) as (pa & E & <-). unfold load8. by rewrite E. Qed.
Lemma bytes_at_app s va l1 l2 : bytes_at s va (l1 ++ l2) ↔ bytes_at s va l1 ∧ bytes_at s (va + zlen l1) l2.
Proof.
  unfold bytes_at. split.
  - intros Hb. split.
    + intros i b Hi. apply Hb. rewrite lookup_app_l; [done|]. by eapply lookup_lt_Some.
    + intros i b Hi. destruct (Hb (length l1 + i)%nat b) as (pa & E & <-).
      { rewrite lookup_app_r by lia. by rewrite Nat.add_comm, Nat.add_sub. }
      exists pa. split; [|done]. rewrite <-E. f_equal. lia.
  - intros [H1 H2] i b [Hi|[Hl Hi]]%lookup_app_Some; [by apply H1|]. destruct (H2 _ _ Hi) as (pa & E & <-).
    exists pa. split; [|done]. rewrite <-E. f_equal. lia.
Qed.
Lemma bytes_at_nil s va : bytes_at s va [].
Proof. by intros i b [=]. Qed.

(** An access stays on the page it starts on. *)
Lemma walk_same_page s va pa i :
  0 ≤ va → walk s va = Some pa → 0 ≤ i < page_left va → walk s (va + i) = Some (pa + i).
Proof.
  unfold page_left, walk. intros Hv Hw Hi. pose proof (Z.mod_pos_bound va 4096 ltac:(lia)) as Hm.
  pose proof (Z.div_mod va 4096 ltac:(lia)) as Hdm.
  assert ((va + i) / 4096 = va / 4096) as E1 by (symmetry; apply (Z.div_unique _ _ _ (va mod 4096 + i)); lia).
  assert ((va + i) mod 4096 = va mod 4096 + i) as E2 by (symmetry; apply (Z.mod_unique _ _ (va / 4096)); lia).
  assert ((va + i) / 4194304 = va / 4194304) as E3.
  { change 4194304 with (4096 * 1024). by rewrite <-!Z.div_div, E1 by lia. }
  rewrite E1, E2, E3. repeat case_decide; try done. injection Hw as <-. f_equal. lia.
Qed.

Lemma length_frame_bytes s pa n : 0 ≤ n → zlen (frame_bytes s pa n) = n.
Proof. intros. unfold frame_bytes. rewrite length_fmap, length_seqZ. lia. Qed.
Lemma frame_bytes_lookup s pa n i : (i < Z.to_nat n)%nat → frame_bytes s pa n !! i = Some (byte_at s (pa + Z.of_nat i)).
Proof. intros Hi. unfold frame_bytes. rewrite list_lookup_fmap, lookup_seqZ_lt by lia. done. Qed.

Lemma page_left_range va : 0 < page_left va ≤ 4096.
Proof. unfold page_left. pose proof (Z.mod_pos_bound va 4096 ltac:(lia)). lia. Qed.

(** The next page starts at [va + page_left va]. *)
Lemma next_page va : (va + page_left va) / 4096 = va / 4096 + 1 ∧ (va + page_left va) mod 4096 = 0.
Proof.
  unfold page_left. pose proof (Z.div_mod va 4096 ltac:(lia)). split.
  - symmetry. apply (Z.div_unique _ _ _ 0); lia.
  - symmetry. apply (Z.mod_unique _ _ (va / 4096 + 1)); lia.
Qed.

Lemma reach_pages_bytes n s va : 0 ≤ va → bytes_at s va (reach_pages n s va).
Proof.
  revert va. induction n as [|n IH]; intros va Hva; cbn [reach_pages]; [apply bytes_at_nil|].
  pose proof (page_left_range va). destruct (walk s va) as [pa|] eqn:Ew; [|apply bytes_at_nil].
  apply bytes_at_app. rewrite length_frame_bytes by lia. split; [|apply IH; lia].
  intros i b Hi. pose proof (lookup_lt_Some _ _ _ Hi) as Hl. pose proof (length_frame_bytes s pa (page_left va)).
  rewrite frame_bytes_lookup in Hi by lia. injection Hi as <-. exists (pa + Z.of_nat i). split; [|done].
  apply walk_same_page; [done|done|lia].
Qed.
(** What [reach] returns is there. *)
Lemma reach_bytes s va : 0 ≤ va → bytes_at s va (reach s va).
Proof. apply reach_pages_bytes. Qed.

Lemma reach_pages_long s va m (n : nat) :
  0 ≤ va → m ≤ 4096 * Z.of_nat n - va mod 4096 → (∀ i, 0 ≤ i < m → is_Some (walk s (va + i))) →
  m ≤ zlen (reach_pages n s va).
Proof.
  revert va m. induction n as [|n IH]; intros va m Hva Hm Hmap; cbn [reach_pages].
  { pose proof (Z.mod_pos_bound va 4096 ltac:(lia)). lia. }
  destruct (decide (m ≤ 0)); [lia|]. pose proof (page_left_range va). destruct (next_page va) as [_ Hnext].
  destruct (Hmap 0) as [pa Ew]; [lia|]. rewrite Z.add_0_r in Ew. rewrite Ew, length_app.
  pose proof (length_frame_bytes s pa (page_left va)).
  destruct (decide (m ≤ page_left va)); [lia|].
  assert (m - page_left va ≤ zlen (reach_pages n s (va + page_left va))); [|lia]. apply IH.
  - lia.
  - rewrite Hnext. unfold page_left in *. lia.
  - intros i Hi. replace (va + page_left va + i) with (va + (page_left va + i)) by lia. apply Hmap. lia.
Qed.
(** Everything that is mapped is reached. *)
Lemma reach_long s va n :
  0 ≤ va → va + n ≤ 4294967296 → (∀ i, 0 ≤ i < n → is_Some (walk s (va + i))) → n ≤ zlen (reach s va).
Proof.
  intros Hva Hn Hm. destruct (decide (n ≤ 0)); [lia|]. apply reach_pages_long; [done| |done].
  pose proof (Z.div_mod va 4096 ltac:(lia)). pose proof (Z.mod_pos_bound va 4096 ltac:(lia)). rewrite Z2Nat.id; [lia|]. lia.
Qed.
Lemma reach_range s va n : data_range s va n → n ≤ zlen (reach s va).
Proof.
  intros [Hl Hh Hm _]. apply reach_long; [done|done|]. intros i Hi. destruct (Hm i Hi) as (pa & E & _). by exists pa.
Qed.

(** *** Storing back *)

Lemma write_back_same va l : write_back va l l = mret tt.
Proof. revert va. induction l as [|b l IH]; intros va; cbn [write_back]; [done|]. rewrite decide_True by done. apply IH. Qed.

Lemma write_back_tail va old new t : length old = length new → write_back va (old ++ t) (new ++ t) = write_back va old new.
Proof.
  revert va new. induction old as [|b old IH]; intros va [|c new] Hl; try done.
  - apply write_back_same.
  - cbn [app write_back]. rewrite IH by (by injection Hl). done.
Qed.

Lemma wp_write_back s va old new (Q : unit → vm → Prop) :
  bytes_at s va old → length old = length new → data_range s va (zlen new) → Forall is_byte new →
  (∀ s', copied s va new s' → Q tt s') → wp (write_back va old new) Q s.
Proof.
  revert s va new. induction old as [|b old IH]; intros s va [|c new] Hold Hl Hd Hb HQ; try done; cbn [write_back].
  { apply wp_ret, HQ. by split. }
  apply Forall_cons_iff in Hb as [Hb Hbs]. injection Hl as Hl.
  replace (zlen (c :: new)) with (zlen new + 1) in Hd by (simpl; lia).
  destruct (data_range_head _ _ _ Hd) as (pa & Ew & Hpf); [lia|].
  destruct (Hold 0%nat b eq_refl) as (pa' & Ew' & Eb). rewrite Z.add_0_r in Ew'. rewrite Ew in Ew'. injection Ew' as <-.
  assert (bytes_at s (va + 1) old) as Hold'.
  { intros i x Hi. destruct (Hold (S i) x Hi) as (q & E & <-). exists q. split; [|done]. rewrite <-E. f_equal. lia. }
  apply wp_bind. destruct (decide (b = c)) as [->|Hne].
  - apply wp_ret, IH; [done|done| |done|].
    + destruct Hd as [Hd1 Hd2 Hd3 Hd4]. split; [lia|lia| |].
      * intros i Hi. replace (va + 1 + i) with (va + (i + 1)) by lia. apply Hd3. lia.
      * intros i j q Hi Hj. rewrite <-!Z.add_assoc. intros E1 E2. assert (1 + i = 1 + j); [|lia]. apply (Hd4 _ _ q); lia || done.
    + intros s' Hs'. apply HQ. eapply copied_step; [done|done|done| |exact Hs'].
      intros q. case_decide as E; [by rewrite E|done].
  - eapply wp_of_done; [by apply store8_done|].
    assert (∀ v, 0 ≤ v < 4294967296 → walk (with_byte pa c s) v = walk s v) as Hwalk by (intros; by apply walk_upd_data).
    apply IH; [|done|apply data_range_step; [done|lia|done]|done|].
    + intros i x Hi. destruct (Hold' i x Hi) as (q & E & Ex). exists q.
      pose proof (dr_low _ _ _ Hd). pose proof (dr_high _ _ _ Hd). pose proof (lookup_lt_Some _ _ _ Hi).
      assert (0 ≤ va + 1 + Z.of_nat i < 4294967296) as Hr by lia. rewrite Hwalk by done. split; [done|].
      rewrite byte_at_with by done. rewrite decide_False; [done|]. intros ->.
      assert (1 + Z.of_nat i = 0); [|lia]. apply (dr_once _ _ _ Hd _ _ pa); [lia|lia| |by rewrite Z.add_0_r].
      by rewrite Z.add_assoc.
    + intros s' Hs'. apply HQ. eapply copied_step; [done|done|done| |exact Hs'].
      intros q. by apply byte_at_with.
Qed.

(** After the copy the bytes are there. *)
Lemma copied_bytes s va new s' : data_range s va (zlen new) → copied s va new s' → bytes_at s' va new.
Proof.
  intros Hd [Hw Hb _] i b Hi. pose proof (lookup_lt_Some _ _ _ Hi).
  destruct (dr_mapped _ _ _ Hd (Z.of_nat i)) as (pa & E & _); [lia|]. exists pa.
  pose proof (dr_low _ _ _ Hd). pose proof (dr_high _ _ _ Hd). rewrite Hw by lia. split; [done|]. by apply (Hb i).
Qed.

Lemma data_range_le s va n m : data_range s va n → m ≤ n → data_range s va m.
Proof. intros [? ? Hm Ho] Hle. split; [done|lia| |]; intros; [apply Hm; lia|eapply Ho; [lia|lia|done..]]. Qed.
Lemma bytes_at_take s va l m : bytes_at s va l → bytes_at s va (take m l).
Proof. intros Hb i b [Hi _]%lookup_take_Some. by apply Hb. Qed.

(** Storing a buffer whose first bytes became [bs]. *)
Lemma wp_write_back_splice s va bs (Q : unit → vm → Prop) :
  data_range s va (zlen bs) → Forall is_byte bs → (∀ s', copied s va bs s' → Q tt s') →
  wp (write_back va (reach s va) (splice (reach s va) 0 bs)) Q s.
Proof.
  intros Hd Hb HQ. pose proof (reach_range _ _ _ Hd) as Hl. unfold splice. rewrite take_0, app_nil_l, Nat.add_0_l.
  rewrite <-(take_drop (length bs) (reach s va)) at 1.
  rewrite write_back_tail by (rewrite length_take; lia). apply wp_write_back; try done.
  - apply bytes_at_take, reach_bytes, (dr_low _ _ _ Hd).
  - rewrite length_take. lia.
Qed.
