(* ===== verification/ProcCalls.v ===== *)
(** * The calls on processes and on the time: handlers/proc/proc.c, handlers/time/time.c

    [_execve] ends in the switch interrupt, [_exit] in a jump; a program grows its
    memory with [_sbrk].  The clock is read from the CMOS ports. *)

From S2P Require Import Prelude Interfaces Io Vga Gdt Pmm Paging FatTable Heap Vfs Process Kernel Terminal Sched Elf Loader.
From S2P Require Import FileCalls UserMem.

(** ** Definitions *)

Definition CMOS_ADDRESS : Z := 0x70.
Definition CMOS_DATA : Z := 0x71.
Definition sizeof_tms : Z := 32.

(** [uintptr_t] arithmetic *)
Definition ALIGN_UP (size alignment : Z) : Z :=
  Z.land (u32 (size + alignment - 1)) (u32 (Z.lnot (alignment - 1))).

(** The numbers [_sbrk] computes before it allocates. *)
Record sbrk_plan := SbrkPlan {
  page_tables_boundary : Z;
  amount_page_tables : Z;
  amount_past_boundary : Z;
  first_page : Z;
  amount_pages : Z }.
Definition plan_sbrk (proc_break increment : Z) : sbrk_plan :=
  let new_break := u32 (proc_break + increment) in
  let current_page_end := ALIGN_UP proc_break PAGE_SIZE in
  let boundary := ALIGN_UP proc_break (PAGES_PER_TABLE * PAGE_SIZE) in
  let tables := if decide (boundary < new_break)
                then s32 (u32 (new_break - boundary) / (PAGES_PER_TABLE * PAGE_SIZE) + 1) else 0 in
  let past := if decide (boundary < new_break) then s32 ((tables - 1) * PAGES_PER_TABLE + 1) else 0 in
  SbrkPlan boundary tables past (current_page_end / PAGE_SIZE)
    (s32 (u32 (u32 (new_break - current_page_end) / PAGE_SIZE - past))).

Section operations.
Context {D H V : Type} `{BlockDevice D} `{KernelHeap H} `{PageHeap H} `{Ports V}.
Implicit Types k : kernel D H V.

(** *** proc.c *)

Definition _exit (tss_address status : Z) : M (kernel D H V) control := exit_current_process tss_address.

(** The interrupt saves the caller and returns when the process is resumed: what
    the others do in between is [others]. *)
Definition force_switch_process (others : M (kernel D H V) unit) : M (kernel D H V) unit := others.

(** [raw]: see [Loader]. *)
Definition _execve (raw : process_node) (others : M (kernel D H V) unit) (pathname : list Z) : M (kernel D H V) Z :=
  code ← create_usermode_process raw pathname;
  _ ← force_switch_process others;
  mret code.

Definition _getpid : M (kernel D H V) Z :=
  p ← on_procs get_current_process; n ← on_procs (node p); mret (s32 (pid (proc n))).

(** The pages past the last table of the process, with their new tables. *)
Definition sbrk_new_tables (plan : sbrk_plan) : M (kernel D H V) (option Z) :=
  new_page_tables ← k_kmalloc_pages (amount_page_tables plan);
  if decide (new_page_tables = 0) then _ ← k_kfree new_page_tables; mret None else
  tables ← on_vm (get_physical_address new_page_tables);
  ok ← on_vm (allocate_multiple_pages (page_tables_boundary plan / PAGE_SIZE) (u32 (amount_past_boundary plan)) false tables);
  if (ok : bool) then mret (Some new_page_tables)
  else _ ← k_kfree new_page_tables; mret None.

(** The pages up to there; the pointers the failure frees are [i] times four pages
    apart. *)
Definition sbrk_pages (plan : sbrk_plan) (new_page_tables : Z) : M (kernel D H V) bool :=
  tables ← on_vm (get_physical_address (get_page_table (first_page plan * PAGE_SIZE)));
  ok ← on_vm (allocate_multiple_pages (first_page plan) (u32 (amount_pages plan)) false tables);
  if (ok : bool) then mret true else
  _ ← for_from 0 (Z.to_nat (amount_page_tables plan)) (λ i, k_kfree (u32 (new_page_tables + 4 * (i * PAGE_SIZE))));
  mret false.

Definition sbrk_grow (plan : sbrk_plan) (new_break : Z) : M (kernel D H V) bool :=
  tables ← (if decide (page_tables_boundary plan < new_break) then sbrk_new_tables plan else mret (Some 0));
  match tables with
  | None => mret false
  | Some new_page_tables => sbrk_pages plan new_page_tables
  end.

Definition _sbrk (increment : Z) : M (kernel D H V) Z :=
  p ← on_procs get_current_process;
  n ← on_procs (node p);
  let proc_break := process_break (proc n) in
  let new_break := u32 (proc_break + increment) in
  mapped ← on_vm (get_physical_address proc_break);
  if decide (mapped = 0) then mret (u32 (-1)) else
  grown ← (if decide (ALIGN_UP proc_break PAGE_SIZE < new_break)
           then sbrk_grow (plan_sbrk proc_break increment) new_break else mret true);
  if negb grown then mret (u32 (-1)) else
  _ ← on_procs (update_proc p (λ x, set_process_break (process_break x + increment) x));
  mret proc_break.

(** *** time.c *)

Definition cmos_read (reg : Z) : M (kernel D H V) Z :=
  _ ← on_ports (io_out_byte CMOS_ADDRESS reg); on_ports (io_in_byte CMOS_DATA).

(** [p] and [z] are pointers of the program: eight bytes of seconds and four of
    microseconds, and two words. *)
Definition _gettimeofday (p z : Z) : M (kernel D H V) Z :=
  h ← cmos_read 0x09;
  m ← cmos_read 0x08;
  s ← cmos_read 0x07;
  _ ← on_vm (copy_out p (le_bytes 8 (h * 3600 + m * 60 + s)));
  _ ← on_vm (copy_out (p + 8) (le_bytes 4 0));
  if decide (z ≠ 0) then
    _ ← on_vm (copy_out z (le_bytes 4 0));
    _ ← on_vm (copy_out (z + 4) (le_bytes 4 0));
    mret 0
  else mret 0.

Definition _times (buf : Z) : M (kernel D H V) Z :=
  _ ← on_vm (copy_out buf (replicate (Z.to_nat sizeof_tms) 0)); mret 0.
End operations.

(** ** Lemmas *)

Lemma land_high x j : 0 ≤ j ≤ 32 → 0 ≤ x < 4294967296 → Z.land x (u32 (Z.lnot (2 ^ j - 1))) = x / 2 ^ j * 2 ^ j.
Proof.
  intros Hj Hx. rewrite <-Z.shiftr_div_pow2, <-Z.shiftl_mul_pow2, <-Z.ldiff_ones_r by lia.
  replace (2 ^ j - 1) with (Z.ones j) by (rewrite Z.ones_equiv; lia).
  apply Z.bits_inj'. intros i Hi. rewrite Z.land_spec, Z.ldiff_spec. unfold u32. change 4294967296 with (2 ^ 32) in *.
  destruct (decide (i < 32)).
  - rewrite Z.mod_pow2_bits_low, Z.lnot_spec by lia. done.
  - rewrite <-(Z.mod_small x (2 ^ 32)) by lia. by rewrite Z.mod_pow2_bits_high by lia.
Qed.

Lemma ALIGN_UP_spec size j :
  0 ≤ j ≤ 31 → 0 ≤ size → size + 2 ^ j - 1 < 4294967296 → ALIGN_UP size (2 ^ j) = (size + 2 ^ j - 1) / 2 ^ j * 2 ^ j.
Proof.
  intros Hj Hs Hl. pose proof (Z.pow_pos_nonneg 2 j ltac:(lia) ltac:(lia)). unfold ALIGN_UP.
  by rewrite u32_small, land_high by lia.
Qed.

Section specs.
Context {D H V : Type} `{BlockDevice D} `{KernelHeap H} `{PageHeap H} `{Ports V}.
Implicit Types k : kernel D H V.

(** The first page behind the break, and how many pages a growth adds. *)
Definition break_page (b : Z) : Z := (b + 4095) / 4096.
Definition sbrk_new_pages (b increment : Z) : Z := Z.max 0 ((b + increment) / 4096 - break_page b).

Definition with_break (p : Z) (n : process_node) (b : Z) k : kernel D H V :=
  kset_procs (set_nodes (<[p := set_proc (set_process_break b (proc n)) n]> (nodes (k_procs k))) (k_procs k)) k.

Lemma sbrk_new_pages_range b increment :
  0 < b → 0 ≤ increment → b + increment ≤ (b + 4194303) / 4194304 * 4194304 → b < 4290772992 →
  0 ≤ sbrk_new_pages b increment < 1048576.
Proof.
  intros Hb Hi Hn Hlim. unfold sbrk_new_pages, break_page. split; [lia|].
  assert (b + increment < 4294967296) by (Z.div_mod_to_equations; lia).
  assert ((b + increment) / 4096 < 1048576) by (apply Z.div_lt_upper_bound; lia).
  assert (0 ≤ (b + 4095) / 4096) by (apply Z.div_pos; lia). lia.
Qed.

(** The numbers of a growth that stays below the end of the table. *)
Lemma sbrk_numbers b increment :
  0 < b → 0 ≤ increment → b + increment ≤ (b + 4194303) / 4194304 * 4194304 → b < 4290772992 →
  u32 (b + increment) = b + increment ∧ ALIGN_UP b PAGE_SIZE = break_page b * 4096 ∧
  (break_page b * 4096 < b + increment →
     (page_tables_boundary (plan_sbrk b increment) <? b + increment) = false ∧ first_page (plan_sbrk b increment) = break_page b ∧
     amount_pages (plan_sbrk b increment) = sbrk_new_pages b increment ∧
     0 ≤ break_page b < 1047552 ∧
     ∀ v, break_page b ≤ v < break_page b + sbrk_new_pages b increment ∨ v = break_page b → v / 1024 = b / 4194304).
Proof.
  intros Hb Hi Hn Hlim.
  assert (0 ≤ (b + 4194303) / 4194304 ≤ 1023) as Htop by (Z.div_mod_to_equations; lia).
  assert (u32 (b + increment) = b + increment) as Eu by (apply u32_small; lia).
  assert (ALIGN_UP b PAGE_SIZE = break_page b * 4096) as Ep.
  { change PAGE_SIZE with (2 ^ 12). rewrite ALIGN_UP_spec by (change (2 ^ 12) with 4096; lia).
    change (2 ^ 12) with 4096. unfold break_page. do 2 f_equal. lia. }
  assert (ALIGN_UP b (PAGES_PER_TABLE * PAGE_SIZE) = (b + 4194303) / 4194304 * 4194304) as Et.
  { change (PAGES_PER_TABLE * PAGE_SIZE) with (2 ^ 22). rewrite ALIGN_UP_spec by (change (2 ^ 22) with 4194304; lia).
    change (2 ^ 22) with 4194304. do 2 f_equal. lia. }
  split; [done|]. split; [done|]. intros Hgt. unfold plan_sbrk. cbn [page_tables_boundary first_page amount_pages].
  rewrite Eu, Et, Ep. rewrite decide_False by lia.
  assert (PAGE_SIZE = 4096) as -> by done. rewrite Z.div_mul by lia.
  assert (0 ≤ break_page b * 4096) by (unfold break_page; Z.div_mod_to_equations; lia).
  assert ((b + increment - break_page b * 4096) / 4096 = (b + increment) / 4096 - break_page b) as Ed.
  { replace (b + increment - break_page b * 4096) with (b + increment + - break_page b * 4096) by lia.
    rewrite Z.div_add by lia. lia. }
  assert (0 ≤ (b + increment) / 4096 - break_page b < 1048576) by (rewrite <-Ed; Z.div_mod_to_equations; lia).
  split_and!.
  - apply Z.ltb_ge. lia.
  - done.
  - rewrite (u32_small (b + increment - _)), Ed, Z.sub_0_r by lia. unfold sbrk_new_pages. rewrite u32_small, s32_small by lia. lia.
  - lia.
  - unfold break_page in *. Z.div_mod_to_equations; lia.
  - intros v Hv. unfold sbrk_new_pages, break_page in *. Z.div_mod_to_equations; lia.
Qed.

Lemma wp_sbrk_grow k b increment ps m' :
  0 < b → 0 ≤ increment → b + increment ≤ (b + 4194303) / 4194304 * 4194304 → b < 4290772992 →
  break_page b * 4096 < b + increment →
  let i := b / 4194304 in has_table (k_vm k) i →
  table_ready (k_vm k) (Paging.table (k_vm k) i * 4096) i (Paging.table (k_vm k) i) →
  pmm_wf (Paging.pmm (k_vm k)) → 0 ≤ max_pages (Paging.pmm (k_vm k)) ≤ 1048576 →
  allocate_n (Z.to_nat (sbrk_new_pages b increment)) (Paging.pmm (k_vm k)) = Done (ps, m') → 0 ∉ ps →
  wp (sbrk_grow (plan_sbrk b increment) (u32 (b + increment)))
     (λ ok k', ok = true ∧ k' = kset_vm (k_vm k') k ∧ backed (k_vm k) (break_page b) ps (k_vm k') ∧
        Paging.pmm (k_vm k') = m') k.
Proof.
  intros Hb Hi Hn Hlim Hgt i Hh Hr Hwf Hmax Hal Hnz.
  destruct (sbrk_numbers b increment Hb Hi Hn Hlim) as (Eu & Ep & Hplan).
  destruct (Hplan Hgt) as (Elt%Z.ltb_ge & Ef & Ea & Hv & Hsame). unfold sbrk_grow. rewrite Eu.
  rewrite decide_False by lia. apply wp_bind, wp_ret. unfold sbrk_pages. rewrite Ef, Ea.
  pose proof (sbrk_new_pages_range b increment Hb Hi Hn Hlim) as Hpages.
  rewrite u32_small by lia. unfold get_page_table.
  replace (break_page b * PAGE_SIZE / Pmm.PAGE_SIZE) with (break_page b) by (symmetry; by apply (Z.div_mul _ 4096)).
  pose proof (Hsame (break_page b) (or_intror eq_refl)) as Ei. fold i in Ei.
  assert (0 ≤ i < 1023) as Hi' by (rewrite <-Ei; Z.div_mod_to_equations; lia).
  apply wp_bind. eapply wp_zoom_done.
  { apply get_physical_address_table; [apply Hr|lia|by rewrite Ei]. }
  rewrite Ei. apply wp_bind. eapply wp_zoom. eapply wp_mono.
  { eapply (wp_allocate_pages _ i (Paging.table (k_vm k) i)); [|done| | | | |exact Hal|done]; try done; [|lia].
    intros v Hv'. apply Hsame. lia. }
  intros ok s' (-> & Hbk & Hm & _). apply wp_ret. rewrite Z.add_0_r in Hbk. split_and!; done.
Qed.
End specs.

(** ** Properties *)

(** C22: [_sbrk] with a non-negative increment that does not leave the page table of
    the break returns the old break, moves it, and maps a run of new pages, backed
    by the frames the allocator hands out in this order, from the first page
    behind the old break on; no other translation changes.  The number of pages is
    rounded down: the page of the last byte is not touched when the new break is
    not at the start of a page, so a program that grows by part of a page beyond
    what it has is told it succeeded and faults on its first access there. *)
Theorem sbrk_extends {D H V} `{BlockDevice D} `{KernelHeap H} `{PageHeap H} (k : kernel D H V) p n increment pa ps m' :
  let b := process_break (proc n) in let s := k_vm k in let i := b / 4194304 in
  current_process_g (k_procs k) = p → nodes (k_procs k) !! p = Some n →
  0 < b < 4290772992 → 0 ≤ increment → b + increment ≤ (b + 4194303) / 4194304 * 4194304 →
  walk s b = Some pa → pa ≠ 0 → table_ready s (Paging.table s i * 4096) i (Paging.table s i) →
  pmm_wf (Paging.pmm s) → 0 ≤ max_pages (Paging.pmm s) ≤ 1048576 →
  allocate_n (Z.to_nat (sbrk_new_pages b increment)) (Paging.pmm s) = Done (ps, m') → 0 ∉ ps →
  wp (_sbrk increment)
     (λ r k', r = b ∧ k' = with_break p n (b + increment) (kset_vm (k_vm k') k) ∧
        backed s (break_page b) ps (k_vm k') ∧
        ((b + increment) mod 4096 ≠ 0 → break_page b * 4096 < b + increment →
         walk (k_vm k') (b + increment - 1) = walk s (b + increment - 1))) k.
Proof.
  intros b s i Hcur Hn Hb Hi Htop Hw Hpa Hr Hwf Hmax Hal Hnz.
  destruct (sbrk_numbers b increment) as (Eu & Ep & Hplan); [lia..|].
  assert (has_table s i) as Hh.
  { subst i. unfold walk in Hw. unfold has_table. by case_decide. }
  apply wp_bind, wp_zoom, wp_gets. rewrite kset_procs_same, Hcur.
  apply wp_bind, wp_zoom. eapply wp_node; [done|]. rewrite kset_procs_same. fold b.
  apply wp_bind. eapply wp_zoom_done; [by apply get_physical_address_walk; [apply Hr|lia]|]. fold s. rewrite Hw.
  rewrite decide_False by done. assert (kset_vm s k = k) as -> by (by destruct k).
  apply wp_bind, (wp_mono _ (λ ok k', ok = true ∧ k' = kset_vm (k_vm k') k ∧ backed s (break_page b) ps (k_vm k'))).
  { rewrite Eu, Ep. destruct (decide _) as [Hgt|Hle].
    - rewrite <-Eu. eapply wp_mono; [by eapply (wp_sbrk_grow k b increment ps m'); lia || done|]. intros ok k' (? & ? & ? & _). done.
    - apply wp_ret. split; [done|]. split; [by destruct k|].
      assert (sbrk_new_pages b increment = 0) as E.
      { unfold sbrk_new_pages. unfold break_page in *. Z.div_mod_to_equations; lia. }
      rewrite E in Hal. injection Hal as <- _. by split. }
  intros ok k1 (-> & E1 & Hbk). cbn [negb]. apply wp_bind, wp_zoom. rewrite E1. eapply wp_update_node; [done|].
  apply wp_ret. fold b. split_and!; try done.
  intros Hmod Hgt. apply (bk_others _ _ _ _ Hbk).
  - destruct Hplan as (_ & _ & _ & Hv & Hsame); [done|]. unfold break_page in *. Z.div_mod_to_equations; lia.
  - apply allocate_n_length in Hal. rewrite Hal. unfold sbrk_new_pages, break_page in *. Z.div_mod_to_equations; lia.
  - assert ((b + increment - 1) / 4194304 = i) as ->; [|done].
    subst i. Z.div_mod_to_equations; lia.
Qed.

(** ** Witnesses *)

Module Demo.
Definition bump_pages : PageHeap bump := {| heap_kmalloc_pages n := Interfaces.kmalloc (4096 * n) |}.
Definition machine : vm := Loader.Demo.machine.
Definition node_1 : process_node := Node (set_process_break 0x8048123 (Process.Demo.process 1 0 PROCESS_RUNNING)) 0 0.
Definition state : kernel ramdisk bump latches :=
  kset_vm machine (kset_procs (Procs {[1000 := node_1]} 1000 1000 2 1000 true true) Sample.state).

Lemma machine_ready : table_ready machine 0x20000 32 0x20.
Proof.
  split.
  - split; by vm_compute.
  - apply dir_private_check. by vm_compute.
  - intros vpn E. unfold table_of. rewrite E. by vm_compute.
  - by vm_compute.
  - apply table_private_check. by vm_compute.
Qed.
Definition after_one : pmm_info_t := match allocate_n 1 demo_pmm with Done (_, m) => m | _ => demo_pmm end.
Lemma one_page : allocate_n 1 demo_pmm = Done ([40], after_one).
Proof.
  destruct demo_pmm_allocates as (b & E). unfold after_one. cbn [allocate_n]. unfold mbind, M_bind. by rewrite E.
Qed.
End Demo.

#[local] Existing Instance Demo.bump_pages.

(** A growth by two pages adds one. *)
Lemma sbrk_extends_witness :
  wp (_sbrk 0x2000)
     (λ r k', r = 0x8048123 ∧
        k' = with_break 1000 Demo.node_1 (0x8048123 + 0x2000) (kset_vm (k_vm k') Demo.state) ∧
        backed Demo.machine (break_page 0x8048123) [40] (k_vm k') ∧
        ((0x8048123 + 0x2000) mod 4096 ≠ 0 → break_page 0x8048123 * 4096 < 0x8048123 + 0x2000 →
         walk (k_vm k') (0x8048123 + 0x2000 - 1) = walk Demo.machine (0x8048123 + 0x2000 - 1))) Demo.state.
Proof.
  apply (sbrk_extends Demo.state 1000 Demo.node_1 0x2000 (0x40000 + 0x123) [40] Demo.after_one).
  - reflexivity.
  - reflexivity.
  - vm_compute. split; reflexivity.
  - lia.
  - vm_compute. congruence.
  - apply (Loader.Demo.walk_page 0x123). lia.
  - lia.
  - exact Demo.machine_ready.
  - exact demo_pmm_wf.
  - vm_compute. split; congruence.
  - exact Demo.one_page.
  - by_decide.
Defined.
