(* ===== verification/Syscalls.v ===== *)
(** * System calls: process/syscalls/syscalls.c, sys/sys.c

    A program raises interrupt 0x80 with the number of the call in [eax] and its
    arguments in [ebx], [ecx] and [edx].  The handler of the number converts the
    arguments and stores the result in [eax] of the interrupted registers. *)

From S2P Require Import Prelude Interfaces Io Vga Gdt Idt Pmm Paging FatTable FatPath FatFile Vfs Process Kernel Terminal Sched.
From S2P Require Import Elf Loader FileCalls DirCalls UserMem ProcCalls.

(** ** Definitions *)

Definition SYSCALLS_MANAGER_MAX_HANDLERS : Z := 256.

Definition set_eax (v : Z) (r : int_registers) : int_registers :=
  IntRegs (r_ds r) (r_edi r) (r_esi r) (r_ebp r) (r_kern_esp r) (r_ebx r) (r_edx r) (r_ecx r) (u32 v)
    (r_interrupt r) (r_error r) (r_eip r) (r_cs r) (r_eflags r) (r_esp r) (r_ss r).

Section operations.
Context {D H V : Type} `{BlockDevice D} `{KernelHeap H} `{PageHeap H} `{Ports V}.
(** What the calls take beyond the registers: see [DirCalls], [FileCalls],
    [Terminal], [Loader] and [Sched]. *)
Context (uninit : array → list Z) (no_return : kernel D H V → Z) (fresh : Z → list Z).
Context (fuel : nat) (others : M (kernel D H V) unit) (raw : process_node) (tss_address : Z).
Implicit Types k : kernel D H V.

(** *** Pointers of the program *)

Definition user_string (va : Z) : M (kernel D H V) (list Z) := on_vm (user_bytes va).

(** A call that fills a buffer. *)
Definition with_buffer (va : Z) (call : list Z → M (kernel D H V) (Z * list Z)) : M (kernel D H V) Z :=
  old ← on_vm (user_bytes va);
  '(r, new) ← call old;
  _ ← on_vm (write_back va old new);
  mret r.

(** A call that fills a [struct stat], which it does when it returns 0. *)
Definition with_stat (va : Z) (call : stat → M (kernel D H V) (Z * stat)) : M (kernel D H V) Z :=
  old ← on_vm (user_bytes va);
  let old := take 64 (old ++ replicate 64 0) in
  '(r, new) ← call (stat_of_bytes old);
  if decide (r = 0) then
    mapped ← on_vm (user_bytes va);
    _ ← (if decide (zlen mapped < stat_fields_size) then fault else mret tt);
    _ ← on_vm (write_back va old (stat_bytes new));
    mret r
  else mret r.

(** *** sys.c: the registers after each handler *)

Definition sys_exit (r : int_registers) : M (kernel D H V) control := _exit tss_address (s32 (r_ebx r)).
Definition sys_read (r : int_registers) : M (kernel D H V) int_registers :=
  v ← with_buffer (r_ecx r) (λ buf, _read fuel others (s32 (r_ebx r)) buf (r_edx r)); mret (set_eax v r).
Definition sys_write (r : int_registers) : M (kernel D H V) int_registers :=
  buf ← on_vm (user_bytes (r_ecx r)); v ← _write (s32 (r_ebx r)) buf (r_edx r); mret (set_eax v r).
Definition sys_open (r : int_registers) : M (kernel D H V) int_registers :=
  path ← user_string (r_ebx r); v ← _open no_return path (r_ecx r); mret (set_eax v r).
Definition sys_close (r : int_registers) : M (kernel D H V) int_registers :=
  v ← _close (s32 (r_ebx r)); mret (set_eax v r).
Definition sys_unlink (r : int_registers) : M (kernel D H V) int_registers :=
  path ← user_string (r_ebx r); v ← _unlink path; mret (set_eax v r).
Definition sys_chdir (r : int_registers) : M (kernel D H V) int_registers :=
  path ← user_string (r_ebx r); v ← _chdir uninit path; mret (set_eax v r).
Definition sys_lseek (r : int_registers) : M (kernel D H V) int_registers :=
  v ← _lseek (s32 (r_ebx r)) (s32 (r_ecx r)) (s32 (r_edx r)); mret (set_eax v r).
Definition sys_getpid (r : int_registers) : M (kernel D H V) int_registers :=
  v ← _getpid; mret (set_eax v r).
Definition sys_rename (r : int_registers) : M (kernel D H V) int_registers :=
  old ← user_string (r_ebx r); new ← user_string (r_ecx r); v ← _rename uninit fresh old new; mret (set_eax v r).
Definition sys_mkdir (r : int_registers) : M (kernel D H V) int_registers :=
  path ← user_string (r_ebx r); v ← _mkdir uninit no_return path (r_ecx r); mret (set_eax v r).
Definition sys_rmdir (r : int_registers) : M (kernel D H V) int_registers :=
  path ← user_string (r_ebx r); v ← _rmdir uninit path; mret (set_eax v r).
Definition sys_times (r : int_registers) : M (kernel D H V) int_registers :=
  v ← _times (r_ebx r); mret (set_eax v r).
Definition sys_gettimeofday (r : int_registers) : M (kernel D H V) int_registers :=
  v ← _gettimeofday (r_ebx r) (r_ecx r); mret (set_eax v r).
Definition sys_truncate (r : int_registers) : M (kernel D H V) int_registers :=
  path ← user_string (r_ebx r); v ← _truncate path (s32 (r_ecx r)); mret (set_eax v r).
Definition sys_ftruncate (r : int_registers) : M (kernel D H V) int_registers :=
  v ← _ftruncate (s32 (r_ebx r)) (s32 (r_ecx r)); mret (set_eax v r).
Definition sys_stat (r : int_registers) : M (kernel D H V) int_registers :=
  path ← user_string (r_ebx r); v ← with_stat (r_ecx r) (_stat path); mret (set_eax v r).
Definition sys_fstat (r : int_registers) : M (kernel D H V) int_registers :=
  v ← with_stat (r_ecx r) (_fstat (s32 (r_ebx r))); mret (set_eax v r).
Definition sys_getdents (r : int_registers) : M (kernel D H V) int_registers :=
  v ← with_buffer (r_ecx r) (λ buf, _getdents fresh (r_ebx r) buf (r_edx r)); mret (set_eax v r).
Definition sys_getcwd (r : int_registers) : M (kernel D H V) int_registers :=
  v ← with_buffer (r_ebx r) (λ buf, _getcwd buf (r_ecx r)); mret (set_eax v r).
Definition sys_execve (r : int_registers) : M (kernel D H V) int_registers :=
  path ← user_string (r_ebx r); v ← _execve raw others path; mret (set_eax v r).
Definition sys_sbrk (r : int_registers) : M (kernel D H V) int_registers :=
  v ← _sbrk (s32 (r_ebx r)); mret (set_eax v r).

(** *** syscalls.c *)

Definition returning (m : M (kernel D H V) int_registers) : M (kernel D H V) (control * int_registers) :=
  r ← m; mret (Returns, r).

(** The call through [syscall_handler_array]. *)
Definition call_handler (h : syscall_handler) (r : int_registers) : M (kernel D H V) (control * int_registers) :=
  match h with
  | h_sys_exit => c ← sys_exit r; mret (c, r)
  | h_sys_read => returning (sys_read r)
  | h_sys_write => returning (sys_write r)
  | h_sys_open => returning (sys_open r)
  | h_sys_close => returning (sys_close r)
  | h_sys_unlink => returning (sys_unlink r)
  | h_sys_chdir => returning (sys_chdir r)
  | h_sys_lseek => returning (sys_lseek r)
  | h_sys_getpid => returning (sys_getpid r)
  | h_sys_rename => returning (sys_rename r)
  | h_sys_mkdir => returning (sys_mkdir r)
  | h_sys_rmdir => returning (sys_rmdir r)
  | h_sys_times => returning (sys_times r)
  | h_sys_gettimeofday => returning (sys_gettimeofday r)
  | h_sys_truncate => returning (sys_truncate r)
  | h_sys_ftruncate => returning (sys_ftruncate r)
  | h_sys_stat => returning (sys_stat r)
  | h_sys_fstat => returning (sys_fstat r)
  | h_sys_getdents => returning (sys_getdents r)
  | h_sys_getcwd => returning (sys_getcwd r)
  | h_sys_execve => returning (sys_execve r)
  | h_sys_sbrk => returning (sys_sbrk r)
  | h_print_logo => _ ← on_screen print_logo; mret (Returns, r)
  | h_print_bye => _ ← on_screen print_bye; mret (Returns, r)
  end.

Definition set_current_kernel_mode (b : bool) : M (kernel D H V) unit :=
  p ← on_procs get_current_process; on_procs (update_proc p (set_kernel_mode b)).

Definition handle_syscall (r : int_registers) : M (kernel D H V) (control * int_registers) :=
  if decide (SYSCALLS_MANAGER_MAX_HANDLERS ≤ r_eax r) then mret (Returns, r) else
  handler ← reads syscall_handler_array (r_eax r);
  match handler with
  | None => mret (Returns, r)
  | Some handler =>
      _ ← set_current_kernel_mode true;
      '(c, r) ← call_handler handler r;
      match c with
      | Jumps b g => mret (Jumps b g, r)
      | Returns =>
          _ ← set_current_kernel_mode false;
          p ← on_procs get_current_process;
          n ← on_procs (node p);
          _ ← on_gdt (tss_fill_esp0 tss_address (u32 (kernel_stack (proc n))));
          mret (Returns, r)
      end
  end.

(** A [uint8_t] is always below the size of the table. *)
Definition syscalls_manager_attach_handler (function_number : Z) (handler : syscall_handler) : M (kernel D H V) unit :=
  let function_number := u8 function_number in
  if decide (function_number < SYSCALLS_MANAGER_MAX_HANDLERS)
  then writes syscall_handler_array kset_syscalls function_number (Some handler) else mret tt.
Definition syscalls_manager_detach_handler (function_number : Z) : M (kernel D H V) unit :=
  let function_number := u8 function_number in
  if decide (function_number < SYSCALLS_MANAGER_MAX_HANDLERS)
  then writes syscall_handler_array kset_syscalls function_number None else mret tt.

(** The calls of syscall_init, in their order. *)
Definition attached : list (Z * syscall_handler) :=
  [(1, h_sys_exit); (3, h_sys_read); (4, h_sys_write); (5, h_sys_open); (6, h_sys_close); (10, h_sys_unlink);
   (12, h_sys_chdir); (19, h_sys_lseek); (38, h_sys_rename); (39, h_sys_mkdir); (40, h_sys_rmdir); (40, h_sys_times);
   (78, h_sys_gettimeofday); (92, h_sys_truncate); (93, h_sys_ftruncate); (106, h_sys_stat); (108, h_sys_fstat);
   (141, h_sys_getdents); (183, h_sys_getcwd); (59, h_sys_execve); (183, h_sys_getcwd); (45, h_sys_sbrk);
   (169, h_print_logo); (170, h_print_bye)].
Fixpoint attach_all (l : list (Z * syscall_handler)) : M (kernel D H V) unit :=
  match l with
  | [] => mret tt
  | (n, h) :: l => _ ← syscalls_manager_attach_handler n h; attach_all l
  end.

Definition syscall_init : M (kernel D H V) unit :=
  _ ← register_isr_handler 0x80 h_handle_syscall;
  attach_all attached.

(** cpu/idt/isr.c with the handlers in place. *)
Definition interrupt (r : int_registers) : M (kernel D H V) (control * int_registers) :=
  isr_wrapper tss_address handle_syscall r.
End operations.

(** ** Lemmas *)

(** *** The table *)

(** The numbers sys.h gives its functions, in the comment behind each. *)
Definition documented : list (Z * syscall_handler) :=
  [(1, h_sys_exit); (3, h_sys_read); (4, h_sys_write); (5, h_sys_open); (6, h_sys_close); (10, h_sys_unlink);
   (12, h_sys_chdir); (19, h_sys_lseek); (20, h_sys_getpid); (38, h_sys_rename); (39, h_sys_mkdir); (40, h_sys_rmdir);
   (43, h_sys_times); (78, h_sys_gettimeofday); (92, h_sys_truncate); (93, h_sys_ftruncate); (106, h_sys_stat);
   (108, h_sys_fstat); (141, h_sys_getdents); (183, h_sys_getcwd); (45, h_sys_sbrk)].
(** The handlers without a number in sys.h. *)
Definition undocumented : list (Z * syscall_handler) := [(59, h_sys_execve); (169, h_print_logo); (170, h_print_bye)].

(** The table of calls [t]: every documented call is at its number, three aside
    (40 is taken by [sys_times], 43 and 20 are empty), and nothing else is there
    but the undocumented ones. *)
Record calls_installed (t : list (option syscall_handler)) : Prop := {
  ci_documented n h : (n, h) ∈ documented → h ∉ [h_sys_rmdir; h_sys_times; h_sys_getpid] → aget t n = Some (Some h);
  ci_undocumented n h : (n, h) ∈ undocumented → aget t n = Some (Some h);
  ci_rmdir : aget t 40 = Some (Some h_sys_times);
  ci_missing : aget t 43 = Some None ∧ aget t 20 = Some None;
  ci_only n h : aget t n = Some (Some h) → n = 40 ∨ (n, h) ∈ documented ∨ (n, h) ∈ undocumented;
}.

Definition attach_to (t : list (option syscall_handler)) (a : Z * syscall_handler) : list (option syscall_handler) :=
  <[Z.to_nat (u8 a.1) := Some a.2]> t.

Section table.
Context {D H V : Type}.
Implicit Types k : kernel D H V.

Lemma length_attach l t : length (foldl attach_to t l) = length t.
Proof. revert t. induction l as [|[n h] l IH]; intros t; [done|]. cbn [foldl]. rewrite IH. apply length_insert. Qed.

Lemma attach_all_done l k :
  length (syscall_handler_array k) = 256%nat →
  attach_all l k = Done (tt, kset_syscalls (foldl attach_to (syscall_handler_array k) l) k).
Proof.
  revert k. induction l as [|[n h] l IH]; intros k Hl; cbn [attach_all foldl]; [by destruct k|].
  pose proof (u8_range n). unfold mbind at 1, M_bind, syscalls_manager_attach_handler, writes.
  rewrite decide_True by (unfold SYSCALLS_MANAGER_MAX_HANDLERS; lia). rewrite aset_in by lia.
  rewrite IH by (cbn; by rewrite length_insert). done.
Qed.

Lemma wp_syscall_init k (Q : unit → kernel D H V → Prop) :
  length (k_handlers k) = 256%nat → length (syscall_handler_array k) = 256%nat →
  Q tt (kset_syscalls (foldl attach_to (syscall_handler_array k) attached)
         (kset_handlers (<[128%nat := Some h_handle_syscall]> (k_handlers k)) k)) →
  wp syscall_init Q k.
Proof.
  intros Hh Hs HQ. apply wp_bind. unfold register_isr_handler. rewrite decide_False by (unfold IDT_SIZE; lia).
  apply wp_bind. eapply wp_writes; [lia|]. apply wp_ret. eapply wp_of_done; [by apply attach_all_done|]. done.
Qed.
End table.

Definition syscall_table : list (option syscall_handler) := foldl attach_to (replicate 256 None) attached.

Lemma calls_attached : calls_installed syscall_table.
Proof.
  split; [..|by vm_compute|by split; vm_compute|].
  - intros n h Hin Hno.
    assert (Forall (λ a, a.2 ∉ [h_sys_rmdir; h_sys_times; h_sys_getpid] → aget syscall_table a.1 = Some (Some a.2)) documented) as Hall
      by by_decide.
    rewrite list.Forall_forall in Hall. by apply (Hall (n, h)).
  - intros n h Hin. assert (Forall (λ a, aget syscall_table a.1 = Some (Some a.2)) undocumented) as Hall by by_decide.
    rewrite list.Forall_forall in Hall. by apply (Hall (n, h)).
  - intros n h E. pose proof (aget_lt_Some _ _ _ E) as Hr. change (zlen syscall_table) with 256 in Hr.
    assert (Forall (λ n, n = 40 ∨ Forall (λ h, (n, h) ∈ documented ∨ (n, h) ∈ undocumented)
      (option_list (mjoin (aget syscall_table n)))) (seqZ 0 256)) as Hall by by_decide.
    rewrite list.Forall_forall in Hall. destruct (Hall n ltac:(apply elem_of_seqZ; lia)) as [->|Hn]; [by left|right].
    rewrite E in Hn. by apply Forall_inv in Hn.
Qed.

(** *** Around a handler *)

Section modes.
Context {D H V : Type}.
Implicit Types k : kernel D H V.

Definition with_mode (p : Z) (b : bool) k : kernel D H V :=
  kset_procs (set_nodes (alter (λ n, set_proc (set_kernel_mode b (proc n)) n) p (nodes (k_procs k))) (k_procs k)) k.

Lemma wp_set_mode b k n (Q : unit → kernel D H V → Prop) :
  let p := current_process_g (k_procs k) in nodes (k_procs k) !! p = Some n →
  Q tt (with_mode p b k) → wp (set_current_kernel_mode b) Q k.
Proof.
  intros p Hn HQ. apply wp_bind, wp_current_process. fold p. apply wp_zoom. eapply wp_update_node; [done|].
  assert (insert p (set_proc (set_kernel_mode b (proc n)) n) (nodes (k_procs k)) =
          alter (λ n, set_proc (set_kernel_mode b (proc n)) n) p (nodes (k_procs k))) as ->; [|done].
  apply map_eq. intros q. destruct (decide (q = p)) as [->|].
  - by rewrite lookup_insert_eq, lookup_alter_eq, Hn.
  - by rewrite lookup_insert_ne, lookup_alter_ne.
Qed.

Lemma descriptor_mode k p q fd d b : descriptor k p fd d → descriptor (with_mode q b k) p fd d.
Proof.
  intros [Hc Hp (n & En & Ed)]. split; [done|done|]. cbn.
  destruct (decide (q = p)) as [->|]; [|by exists n; rewrite lookup_alter_ne].
  rewrite lookup_alter_eq, En. by eexists.
Qed.
Lemma mode_after k n b : let p := current_process_g (k_procs k) in nodes (k_procs k) !! p = Some n →
  is_kernel_mode ∘ proc <$> nodes (k_procs (with_mode p b k)) !! p = Some b.
Proof. intros p Hn. cbn. by rewrite lookup_alter_eq, Hn. Qed.
End modes.

Section dispatch.
Context {D H V : Type} `{BlockDevice D} `{KernelHeap H} `{PageHeap H} `{Ports V}.
Context (uninit : array → list Z) (no_return : kernel D H V → Z) (fresh : Z → list Z).
Context (fuel : nat) (others : M (kernel D H V) unit) (raw : process_node) (tss_address : Z).
Implicit Types k : kernel D H V.
Abbreviation handle := (handle_syscall uninit no_return fresh fuel others raw tss_address).
Abbreviation call := (call_handler uninit no_return fresh fuel others raw tss_address).

(** A call that returns: the mode of the process and the stack for the next
    interrupt are set around it. *)
Lemma wp_handle_returns k r h n (P : int_registers → kernel D H V → Prop) (Q : control * int_registers → kernel D H V → Prop) :
  let p := current_process_g (k_procs k) in
  r_eax r < 256 → aget (syscall_handler_array k) (r_eax r) = Some (Some h) → nodes (k_procs k) !! p = Some n →
  wp (call h r) (λ res k1, res.1 = Returns ∧ P res.2 k1) (with_mode p true k) →
  (∀ r' k1, P r' k1 → is_Some (nodes (k_procs k1) !! current_process_g (k_procs k1)) ∧ length (gdt_table (k_gdt k1)) = 6%nat) →
  (∀ r' k1 g, P r' k1 → Q (Returns, r') (kset_gdt g (with_mode (current_process_g (k_procs k1)) false k1))) →
  wp (handle r) Q k.
Proof.
  intros p Hr Hh Hn Hcall Hk HQ. unfold handle_syscall, SYSCALLS_MANAGER_MAX_HANDLERS. rewrite decide_False by lia.
  apply wp_bind. eapply wp_reads; [exact Hh|]. apply wp_bind. eapply wp_set_mode; [exact Hn|]. fold p.
  apply wp_bind. eapply wp_mono; [exact Hcall|]. intros [c r'] k1 [Ec HP]. cbn [fst snd] in *. subst c.
  destruct (Hk _ _ HP) as [[n1 Hn1] Hg]. apply wp_bind. eapply wp_set_mode; [exact Hn1|].
  set (q := current_process_g (k_procs k1)) in *. apply wp_bind, wp_current_process.
  apply wp_bind, wp_zoom. eapply wp_node; [cbn; by rewrite lookup_alter_eq, Hn1|].
  destruct (tss_fill_done tss_address (u32 (kernel_stack (proc (set_proc (set_kernel_mode false (proc n1)) n1)))) (k_gdt k1) Hg)
    as (g' & Eg & _).
  apply wp_bind. eapply wp_zoom_done; [exact Eg|]. apply wp_ret. by apply HQ.
Qed.

(** A number without a handler leaves everything alone. *)
Lemma handle_unknown k r :
  0 ≤ r_eax r < 4294967296 → length (syscall_handler_array k) = 256%nat →
  (∀ h, aget (syscall_handler_array k) (r_eax r) ≠ Some (Some h)) → handle r k = Done (Returns, r, k).
Proof.
  intros Hr Hl Hno. unfold handle_syscall, SYSCALLS_MANAGER_MAX_HANDLERS. case_decide; [done|].
  destruct (aget_is_Some (syscall_handler_array k) (r_eax r)) as [h Eh]; [lia|].
  unfold mbind at 1, M_bind, reads. rewrite Eh. destruct h as [h|]; [|done]. by destruct (Hno h).
Qed.
End dispatch.

(** ** Properties *)

(** syscall_init installs the system-call interrupt and, on an empty table,
    every call sys.h documents at its number, with three exceptions: number 40 is
    [sys_times], not [sys_rmdir], and numbers 43 (times) and 20 (getpid) are empty. *)
Theorem syscall_init_numbers {D H V} (k : kernel D H V) :
  length (k_handlers k) = 256%nat → syscall_handler_array k = replicate 256 None →
  wp syscall_init
     (λ _ k', aget (k_handlers k') 0x80 = Some (Some h_handle_syscall) ∧
        calls_installed (syscall_handler_array k') ∧
        (∀ n, n ≠ 0x80 → aget (k_handlers k') n = aget (k_handlers k) n)) k.
Proof.
  intros Hh Hs. apply wp_syscall_init; [done|by rewrite Hs|]. cbn [syscall_handler_array k_handlers kset_syscalls kset_handlers].
  rewrite Hs. split; [|split].
  - rewrite (aget_insert _ 128) by (rewrite Hh; lia). by rewrite decide_True.
  - exact calls_attached.
  - intros n Hn. rewrite (aget_insert _ 128) by (rewrite Hh; lia). by rewrite decide_False.
Qed.

Section properties.
Context {D H V : Type} `{BlockDeviceLaws D} `{KernelHeapLaws H} `{PageHeap H} `{Ports V}.
Context (uninit : array → list Z) (no_return : kernel D H V → Z) (fresh : Z → list Z).
Context (fuel : nat) (others : M (kernel D H V) unit) (raw : process_node) (tss_address : Z).
Implicit Types k : kernel D H V.

Lemma regular_fd_mode k p fd d g e cs q b : regular_fd k p fd d g e cs → regular_fd (with_mode q b k) p fd d g e cs.
Proof. intros []. split; try done. by apply descriptor_mode. Qed.

(** C3: The system call [read], from the interrupt to the return.  The program asks
    for [count] bytes of a file that is open for reading, with a buffer it has mapped: the interrupted
    registers come back with the number of bytes in [eax] and nothing else
    changed, the buffer holds the bytes of the file from the offset of the
    descriptor on, no other byte of memory and no translation has changed, the
    descriptor has moved on, the volume is as it was, and the process is back in
    user mode. *)
Theorem read_call_delivers k r p fd d g e cs n :
  let f := file_entry (g_file e) in let w := bytes_wanted f (fd_offset d) (r_edx r) in
  r_interrupt r = 0x80 → aget (k_handlers k) 0x80 = Some (Some h_handle_syscall) →
  r_eax r = 3 → aget (syscall_handler_array k) 3 = Some (Some h_sys_read) → s32 (r_ebx r) = fd →
  open_file k p fd d g e cs → 0 ≤ fd_offset d → 0 ≤ r_edx r → fd_offset d + r_edx r < 2147483648 →
  data_range (k_vm k) (r_ecx r) (r_edx r) → length (gdt_table (k_gdt k)) = 6%nat →
  0 ≤ n → heap_room (heap_cost (512 * spc (k_fs k)) + n) (FatTable.heap (k_fs k)) →
  wp (interrupt uninit no_return fresh fuel others raw tss_address r)
     (λ res k', let bs := take (Z.to_nat w) (drop (Z.to_nat (fd_offset d)) (file_bytes (k_fs k) cs)) in
        res = (Returns, set_eax w r) ∧ copied (k_vm k) (r_ecx r) bs (k_vm k') ∧ bytes_at (k_vm k') (r_ecx r) bs ∧
        descriptor k' p fd (fset_offset (fd_offset d + w) d) ∧ fat_same (k_fs k) (k_fs k') ∧
        is_kernel_mode ∘ proc <$> nodes (k_procs k') !! p = Some false) k.
Proof.
  intros f w Hint Hisr Heax Hh Hfd [Hof _] Ho Hc Hsum Hd Hg Hn Hroom. unfold interrupt, isr_wrapper.
  pose proof (of_fd _ _ _ _ _ _ _ Hof) as [Hcur _ (nd & Hnd & _)].
  pose proof (of_file _ _ _ _ _ _ _ Hof) as Hfile. fold f in Hfile.
  apply wp_bind. eapply wp_reads; [by rewrite Hint|]. cbn [run_handler].
  set (bs := take (Z.to_nat w) (drop (Z.to_nat (fd_offset d)) (file_bytes (k_fs k) cs))).
  assert (0 ≤ w ≤ r_edx r) as Hw.
  { pose proof (fo_size _ _ _ Hfile). unfold w, bytes_wanted. case_decide; lia. }
  assert (zlen bs ≤ w) as Hlen by (unfold bs; rewrite length_take; lia).
  assert (Forall is_byte bs) as Hb by (by apply Forall_take, Forall_drop, file_bytes_bytes, (of_fat _ _ _ _ _ _ _ Hof)).
  pose proof (data_range_le _ _ _ (zlen bs) Hd ltac:(lia)) as Hd'.
  eapply (wp_handle_returns _ _ _ _ _ _ _ k r h_sys_read nd (λ r' k1, r' = set_eax w r ∧
    copied (k_vm k) (r_ecx r) bs (k_vm k1) ∧ descriptor k1 p fd (fset_offset (fd_offset d + w) d) ∧
    fat_same (k_fs k) (k_fs k1) ∧ k_gdt k1 = k_gdt k)).
  - lia.
  - by rewrite Heax.
  - by rewrite Hcur.
  - rewrite Hcur. cbn [call_handler]. unfold returning, sys_read, with_buffer. do 3 apply wp_bind.
    apply wp_zoom, wp_gets. apply wp_bind. rewrite Hfd.
    eapply (wp_read_file _ _ (with_mode p true k) p fd d g e cs _ (r_edx r) n); try done.
    { by apply regular_fd_mode. }
    { fold f w. cbn. pose proof (reach_range _ _ _ Hd). lia. }
    intros fs' Hs' _. fold f w. apply wp_bind, wp_zoom. eapply wp_write_back_splice; [exact Hd'|exact Hb|].
    intros s' Hs. apply wp_ret, wp_ret, wp_ret. split; [done|]. split; [done|]. split; [exact Hs|].
    split; [|done]. pose proof (of_fd _ _ _ _ _ _ _ Hof) as Hdesc.
    apply (descriptor_mode _ _ p _ _ true), (descriptor_fs _ _ _ _ fs') in Hdesc.
    by apply (descriptor_with _ _ _ _ (fset_offset (fd_offset d + w) d)) in Hdesc as [].
  - intros r' k1 (-> & _ & [Hc1 _ (n1 & Hn1 & _)] & _ & ->). split; [|done]. rewrite Hc1. by exists n1.
  - intros r' k1 g1 (-> & Hcp & Hdesc & Hs & _). pose proof Hdesc as [Hc1 _ (n1 & Hn1 & _)]. rewrite Hc1.
    split; [done|]. split; [exact Hcp|]. split; [by eapply copied_bytes|].
    split; [by apply (descriptor_mode _ _ p _ _ false) in Hdesc as []|]. split; [done|].
    cbn. by rewrite lookup_alter_eq, Hn1.
Qed.
End properties.

(** ** Witnesses *)

Module Demo.
(** The system calls are installed, and the program of [FileCalls.Demo] has a page
    of data at 0x8048000. *)
Definition ready : kernel ramdisk bump latches :=
  kset_vm Loader.Demo.machine (kset_syscalls syscall_table
    (kset_handlers (<[128%nat := Some h_handle_syscall]> (replicate 256 None)) FileCalls.Demo.reading)).
Lemma ready_open : open_file ready 1000 3 FileCalls.Demo.fd_a 3 FileCalls.Demo.entry_a [2; 3].
Proof. destruct FileCalls.Demo.a_open as [[[] ] Ha]. split; [|exact Ha]. split; done. Qed.
(** [read(3, 0x8048000, 4)] *)
Definition read_frame : int_registers := IntRegs 35 0 0 0 0 3 4 0x8048000 3 0x80 0 0x8048010 27 514 0xBFFFE000 35.
End Demo.

Lemma syscall_init_numbers_witness :
  wp syscall_init
     (λ _ k', aget (k_handlers k') 0x80 = Some (Some h_handle_syscall) ∧
        calls_installed (syscall_handler_array k') ∧
        (∀ n, n ≠ 0x80 → aget (k_handlers k') n = aget (k_handlers Sample.state) n)) Sample.state.
Proof. apply (syscall_init_numbers Sample.state); reflexivity. Defined.

#[local] Existing Instance ProcCalls.Demo.bump_pages.
Lemma read_call_delivers_witness :
  let bs := take 4 (drop 500 (file_bytes FatTable.Demo.state [2; 3])) in
  wp (interrupt (λ _, replicate 256 0) (λ _, 0) (λ _, replicate 64 0) 0 fault ProcCalls.Demo.node_1 0xC0200000 Demo.read_frame)
     (λ res k', res = (Returns, set_eax 4 Demo.read_frame) ∧
        copied Loader.Demo.machine 0x8048000 bs (k_vm k') ∧ bytes_at (k_vm k') 0x8048000 bs ∧
        descriptor k' 1000 3 (fset_offset 504 FileCalls.Demo.fd_a) ∧ fat_same FatTable.Demo.state (k_fs k') ∧
        is_kernel_mode ∘ proc <$> nodes (k_procs k') !! 1000 = Some false) Demo.ready.
Proof.
  apply (read_call_delivers (λ _, replicate 256 0) (λ _, 0) (λ _, replicate 64 0) 0 fault ProcCalls.Demo.node_1 0xC0200000
    Demo.ready Demo.read_frame 1000 3 FileCalls.Demo.fd_a 3 FileCalls.Demo.entry_a [2; 3] 0).
  - reflexivity.
  - by vm_compute.
  - reflexivity.
  - by vm_compute.
  - reflexivity.
  - exact Demo.ready_open.
  - by vm_compute.
  - by vm_compute.
  - by vm_compute.
  - exact Loader.Demo.text_range.
  - by vm_compute.
  - lia.
  - vm_compute. split; [congruence|reflexivity].
Defined.
