(* ===== verification/FatMount.v ===== *)
(** * Mounting the volume: fat_init of filesystem/fat/fat.c

    The driver reads the boot sector and the first allocation table.  The theorem
    connects what is on the disk to the invariant all theorems on the file system
    start from ([fat_ok], [fat_synced]). *)

From S2P Require Import Prelude CString Interfaces FatTable.

(** ** Lemmas *)

Lemma field_range b i n : Forall is_byte b → 0 ≤ field b i n < 256 ^ Z.of_nat n.
Proof.
  intros Hb. unfold field. assert (∀ l, Forall is_byte l → (length l ≤ n)%nat → 0 ≤ le_val l < 256 ^ Z.of_nat n) as Hl.
  { clear. revert n. intros n l Hl. revert n. induction Hl as [|x l Hx Hl IH]; intros n Hn; cbn [le_val].
    - split; [lia|]. apply Z.pow_pos_nonneg; lia.
    - destruct n as [|n]; simpl in Hn; [lia|]. specialize (IH n ltac:(lia)). unfold is_byte in Hx.
      rewrite Nat2Z.inj_succ, Z.pow_succ_r by lia. lia. }
  apply Hl; [by apply Forall_take, Forall_drop|]. rewrite length_take. lia.
Qed.

Lemma words_of_bytes_app l bs :
  Forall (λ v, 0 ≤ v < 65536) l → words_of_bytes (concat (le_bytes 2 <$> l) ++ bs) = l ++ words_of_bytes bs.
Proof.
  induction 1 as [|v l Hv Hl IH]; [done|]. rewrite fmap_cons. cbn [concat].
  change (le_bytes 2 v) with [v mod 256; v / 256 mod 256]. cbn [app words_of_bytes]. rewrite IH. f_equal.
  Z.div_mod_to_equations; lia.
Qed.
Lemma words_of_table l : Forall (λ v, 0 ≤ v < 65536) l → words_of_bytes (concat (le_bytes 2 <$> l)) = l.
Proof. intros Hl. rewrite <-(app_nil_r (concat _)), words_of_bytes_app by done. apply app_nil_r. Qed.
Lemma drop_table_bytes (l : list Z) n : drop (2 * n) (concat (le_bytes 2 <$> l)) = concat (le_bytes 2 <$> drop n l).
Proof.
  revert n. induction l as [|v l IH]; intros [|n]; try done. rewrite fmap_cons. cbn [concat drop].
  rewrite <-IH. replace (2 * S n)%nat with (2 + 2 * n)%nat by lia. done.
Qed.

Lemma words_of_bytes_range n bs :
  length bs = (2 * n)%nat → Forall is_byte bs →
  length (words_of_bytes bs) = n ∧ Forall (λ v, 0 ≤ v < 65536) (words_of_bytes bs).
Proof.
  revert bs. induction n as [|n IH]; intros bs Hl Hb; [by destruct bs|].
  destruct bs as [|b1 [|b2 bs]]; simpl in Hl; try lia.
  apply Forall_cons_iff in Hb as [H1 Hb]. apply Forall_cons_iff in Hb as [H2 Hb].
  destruct (IH bs ltac:(lia) Hb) as [El Ef]. cbn [words_of_bytes length]. split; [by rewrite El|].
  constructor; [unfold is_byte in *; lia|done].
Qed.

(** *** The boot sector

    The layout of the BIOS parameter block, by the offsets of the standard: each
    field is little-endian.  The last two fields of the structure are computed. *)
Definition le_at (b : list Z) (offset size : nat) (v : Z) : Prop := le_val (take size (drop offset b)) = v.
Record boot_sector_of (b : list Z) (fs : FAT16_FS) : Prop := {
  bs_bytes_per_sector : le_at b 11 2 (bytes_per_sector fs);
  bs_sectors_per_cluster : le_at b 13 1 (sectors_per_cluster fs);
  bs_reserved_sectors : le_at b 14 2 (reserved_sectors fs);
  bs_num_fats : le_at b 16 1 (num_fats fs);
  bs_root_dir_entries : le_at b 17 2 (root_dir_entries fs);
  bs_total_sectors : le_at b 19 2 (total_sectors fs);
  bs_sectors_per_fat : le_at b 22 2 (sectors_per_fat fs);
  bs_root_dir_start : root_dir_start fs = reserved_sectors fs + num_fats fs * sectors_per_fat fs;
  bs_data_start : data_start fs = root_dir_start fs + root_dir_entries fs * 32 / bytes_per_sector fs;
  bs_signature : take 2 (drop 510 b) = [0x55; 0xAA];
}.

Lemma boot_sector_ranges b fs : Forall is_byte b → boot_sector_of b fs →
  0 ≤ bytes_per_sector fs < 65536 ∧ 0 ≤ sectors_per_cluster fs < 256 ∧ 0 ≤ reserved_sectors fs < 65536 ∧
  0 ≤ num_fats fs < 256 ∧ 0 ≤ root_dir_entries fs < 65536 ∧ 0 ≤ sectors_per_fat fs < 65536.
Proof.
  intros Hb [E1 E2 E3 E4 E5 E6 E7 _ _ _]. unfold le_at in *. pose proof (λ i n, field_range b i n Hb) as Hf. unfold field in Hf.
  pose proof (Hf 11%nat 2%nat). pose proof (Hf 13%nat 1%nat). pose proof (Hf 14%nat 2%nat).
  pose proof (Hf 16%nat 1%nat). pose proof (Hf 17%nat 2%nat). pose proof (Hf 22%nat 2%nat).
  change (256 ^ Z.of_nat 1) with 256 in *. change (256 ^ Z.of_nat 2) with 65536 in *. split_and!; lia.
Qed.

(** The code parses it. *)
Lemma parse_boot b fs : Forall is_byte b → 0 < bytes_per_sector fs → boot_sector_of b fs → parse_boot_sector b = fs.
Proof.
  intros Hb Hpos Hbs. destruct (boot_sector_ranges b fs Hb Hbs) as (R1 & R2 & R3 & R4 & R5 & R6).
  destruct Hbs as [E1 E2 E3 E4 E5 E6 E7 E8 E9 _]. unfold le_at in *.
  assert (0 ≤ root_dir_entries fs * 32 / bytes_per_sector fs ≤ root_dir_entries fs * 32)
    by (split; [apply Z.div_pos; lia|apply Z.div_le_upper_bound; nia]).
  destruct fs as [bps spc rs nf rde ts spf rds ds]. cbn in *. unfold parse_boot_sector, field.
  rewrite E1, E2, E3, E4, E5, E6, E7. subst rds ds.
  rewrite (u32_small (rs + nf * spf)) by nia. rewrite Z.quot_div_nonneg, u32_small by nia. done.
Qed.
Lemma boot_signature b fs : boot_sector_of b fs → field b 510 2 = FAT16_SIGNATURE.
Proof. intros [_ _ _ _ _ _ _ _ _ E]. unfold field. by rewrite E. Qed.
Lemma boot_bytes b fs : boot_sector_of b fs → field b 11 2 = bytes_per_sector fs.
Proof. intros []. done. Qed.

Section specs.
Context {D H : Type} `{BlockDeviceLaws D} `{KernelHeapLaws H}.
Implicit Types s : fat_state D H.

(** The device holds a volume with geometry [fs] and allocation table [t]. *)
Record volume_on (d : D) (fs : FAT16_FS) (t : list Z) : Prop := {
  vo_ready : dev_ready d;
  vo_boot : boot_sector_of (dev_sector d 0) fs;
  vo_bps : bytes_per_sector fs = 512;
  vo_spc : 0 < sectors_per_cluster fs;
  vo_spf : 0 < sectors_per_fat fs < 256;
  vo_nf : 0 < num_fats fs;
  vo_length : zlen t = 256 * sectors_per_fat fs;
  vo_entries : Forall (λ v, 0 ≤ v < 65536) t;
  vo_sectors k : 0 ≤ k < sectors_per_fat fs → dev_sector d (reserved_sectors fs + k) = table_sector t k;
  vo_area : root_dir_start fs ≤ dev_size d;
  vo_used c v : aget t c = Some v → v ≠ 0 →
    c * sectors_per_cluster fs + root_dir_start fs + sectors_per_cluster fs ≤ dev_size d;
  vo_size : dev_size d ≤ 268435456;
}.

Lemma volume_geometry d fs t : volume_on d fs t →
  0 < sectors_per_cluster fs < 256 ∧ 0 < num_fats fs < 256 ∧ 0 ≤ reserved_sectors fs < 65536 ∧
  0 ≤ root_dir_entries fs < 65536 ∧
  root_dir_start fs = reserved_sectors fs + num_fats fs * sectors_per_fat fs.
Proof.
  intros [Hr Hboot _ Hspc Hspf Hnf _ _ _ _ _]. pose proof (dev_sector_bytes d 0 Hr) as Hb.
  destruct (boot_sector_ranges _ _ Hb Hboot) as (R1 & R2 & R3 & R4 & R5 & R6).
  split_and!; try lia. apply Hboot.
Qed.

(** The same sectors, whatever else the device did. *)
Definition same_device (d d' : D) : Prop := dev_ready d' ∧ dev_size d' = dev_size d ∧ ∀ k, dev_sector d' k = dev_sector d k.

(** Reading one sector. *)
Lemma wp_read_sector k buf (Q : Z * list Z → fat_state D H → Prop) s :
  dev_ready (disk s) → 0 ≤ k < dev_size (disk s) → dev_size (disk s) ≤ 268435456 → 512 ≤ zlen buf →
  (∀ d', same_device (disk s) d' → Q (0, splice buf 0 (dev_sector (disk s) k)) (set_disk d' s)) →
  wp (read_disk k 1 buf) Q s.
Proof.
  intros Hr Hk Hmax Hl HQ. unfold read_disk. apply wp_zoom. rewrite u32_small, u8_small by lia.
  destruct (dev_read_ok (disk s) k 1 buf) as (d' & E & Hr' & Hsz & Hc); [done|lia..|].
  assert (sectors (dev_sector (disk s)) k (Z.to_nat 1) = dev_sector (disk s) k) as Es.
  { change (Z.to_nat 1) with 1%nat. unfold sectors. cbn. by rewrite Z.add_0_r, app_nil_r. }
  rewrite Es in E. eapply wp_of_done; [exact E|]. by apply HQ.
Qed.

(** The table after the sectors below [i] are read. *)
Record reading (d : D) fs t (i : Z) s s' : Prop := {
  rg_device : same_device d (disk s');
  rg_fs : fat16_fs s' = fs;
  rg_some : fat_table s' = Some (table s');
  rg_length : zlen (table s') = zlen t;
  rg_entries : Forall (λ v, 0 ≤ v < 65536) (table s');
  rg_read : take (Z.to_nat (256 * i)) (table s') = take (Z.to_nat (256 * i)) t;
  rg_root : root_dir s' = root_dir s;
  rg_heap : heap s' = heap s;
}.

(** One more sector. *)
Lemma read_sector_table t t' k :
  0 ≤ k → 256 * (k + 1) ≤ zlen t → length t' = length t → Forall (λ v, 0 ≤ v < 65536) t → Forall (λ v, 0 ≤ v < 65536) t' →
  take (Z.to_nat (256 * k)) t' = take (Z.to_nat (256 * k)) t →
  let t1 := take (Z.to_nat (k * 256)) t' ++ words_of_bytes (splice (table_bytes t' (k * 256)) 0 (table_sector t k)) in
  length t1 = length t ∧ Forall (λ v, 0 ≤ v < 65536) t1 ∧ take (Z.to_nat (256 * (k + 1))) t1 = take (Z.to_nat (256 * (k + 1))) t.
Proof.
  intros Hk Hl Hlen Ht Ht' Htake t1. set (n := Z.to_nat (256 * k)) in *.
  assert (Z.to_nat (k * 256) = n) as En by (subst n; lia).
  assert (t1 = take n t ++ take 256 (drop n t) ++ drop (n + 256) t') as E.
  { subst t1. rewrite En, Htake. f_equal. unfold splice, table_sector, table_bytes. rewrite En, take_0, app_nil_l, Nat.add_0_l.
    rewrite length_table_bytes, length_take, length_drop, Nat.min_l by lia. rewrite drop_table_bytes, drop_drop.
    rewrite words_of_bytes_app by (by apply Forall_take, Forall_drop). by rewrite words_of_table by (by apply Forall_drop). }
  rewrite E. clear t1 E. split; [|split].
  - rewrite !length_app, !length_take, !length_drop. lia.
  - apply Forall_app. split; [by apply Forall_take|]. apply Forall_app.
    split; [by apply Forall_take, Forall_drop|by apply Forall_drop].
  - rewrite app_assoc, take_take_drop, take_app_le by (rewrite length_take; lia). rewrite take_take. f_equal. lia.
Qed.

Lemma wp_read_table d fs t i n s s0 (Q : bool → fat_state D H → Prop) :
  volume_on d fs t → 0 ≤ i → i + Z.of_nat n = sectors_per_fat fs → reading d fs t i s0 s →
  (∀ s', reading d fs t (sectors_per_fat fs) s0 s' → Q true s') → wp (read_table i n) Q s.
Proof.
  intros Hv. revert i s. induction n as [|n IH]; intros i s Hi Hn Hs HQ; cbn [read_table].
  { apply wp_ret, HQ. by replace (sectors_per_fat fs) with i by lia. }
  destruct (volume_geometry _ _ _ Hv) as (Hspc & Hnf & Hrs & _ & Hroot). pose proof Hv as [_ _ _ _ _ _ Hl He Hsec Hfit Hused Hmax].
  destruct Hs as [(Hr & Hsz & Hc) Hfs Hsome Hlen Hent Hread Hrt Hhp].
  apply wp_bind, wp_get. rewrite Hfs. apply wp_bind, wp_read_sector; [done|nia|lia| |].
  { unfold table_bytes. rewrite length_table_bytes, length_drop. lia. }
  intros d' (Hr' & Hsz' & Hc'). apply wp_bind, wp_modify. rewrite decide_False by auto.
  rewrite Hc, Hsec by lia.
  destruct (read_sector_table t (table s) i) as (E1 & E2 & E3); [lia|lia|lia|done..|].
  apply IH; [lia|lia| |done]. split; cbn; try done.
  - split; [done|]. split; [by rewrite Hsz', Hsz|]. intros k. by rewrite Hc', Hc.
  - lia.
Qed.
(** With the whole table read the invariants hold, whatever the root entry is. *)
Lemma read_mounted d fs t s0 s' :
  volume_on d fs t → reading d fs t (sectors_per_fat fs) s0 s' →
  fat_ok s' ∧ fat_synced s' ∧ table s' = t ∧ (∀ k, content s' k = dev_sector d k) ∧ dev_size (disk s') = dev_size d.
Proof.
  intros Hv [(Hr' & Hsz' & Hc') Hfs' Hsome' Hlen' Hent' Hread' _ _].
  destruct (volume_geometry _ _ _ Hv) as (Hspc & Hnf & Hrs & _ & Hroot).
  pose proof Hv as [_ _ Hbps _ Hspf _ Hl He Hsec Hfit Hused Hmax].
  assert (table s' = t) as Et by (rewrite !take_ge in Hread' by lia; done).
  split; [|split_and!; try done].
  - split; unfold spc; rewrite ?Hfs', ?Et, ?Hsz'; try done; try lia.
    intros c v Hv' Hz. pose proof (aget_lt_Some _ _ _ Hv'). unfold on_device, spc. rewrite Hfs', Hsz'.
    split; [lia|]. by eapply Hused.
  - intros k Hk. rewrite Hfs' in *. unfold content. rewrite Et, Hc'. by apply Hsec.
Qed.

Lemma other_root_ok r c s : fat_ok s → fat_ok (FatState (fat16_fs s) (fat_table s) r (disk s) (heap s) c).
Proof. intros []. by split. Qed.
End specs.

(** ** Properties *)

(** C7: Mounting.  When the device holds a volume (a boot sector with the signature
    and 512-byte sectors, and an allocation table) that fits it, fat_init
    succeeds with the geometry of the boot sector and exactly the table of the
    disk, the root directory is the fixed one, "~" at cluster 0, the device is only
    read, and the invariants the other operations need hold: the table in memory
    is well formed and agrees with the one on the disk. *)
Theorem fat_init_mounts {D H} `{BlockDeviceLaws D} `{KernelHeapLaws H} fresh (s : fat_state D H) fs t n :
  volume_on (disk s) fs t → 0 ≤ n → heap_room (heap_cost (sectors_per_fat fs * 512) + n) (heap s) →
  (∀ p, sectors_per_fat fs * 512 ≤ zlen (fresh p) ∧ Forall is_byte (fresh p)) →
  length (name (root_dir s)) = 11%nat →
  wp (fat_init fresh)
     (λ ok s', ok = true ∧ fat16_fs s' = fs ∧ fat_table s' = Some t ∧ fat_ok s' ∧ fat_synced s' ∧
        take 2 (name (root_dir s')) = [126; 0] ∧ start_cluster (root_dir s') = 0 ∧
        Z.land (attr (root_dir s')) FAT_ATTR_DIRECTORY = FAT_ATTR_DIRECTORY ∧
        (∀ k, content s' k = content s k) ∧ heap_room n (heap s')) s.
Proof.
  intros Hv Hn Hroom Hfresh Hname. destruct (volume_geometry _ _ _ Hv) as (Hspc & Hnf & Hrs & Hrde & Hroot).
  pose proof Hv as [Hr Hboot Hbps _ Hspf _ Hl He Hsec Hfit Hused Hmax].
  assert (0 < dev_size (disk s)) as Hpos by nia.
  apply wp_bind, wp_read_sector; [done|lia|done|simpl; lia|]. intros d1 (Hr1 & Hsz1 & Hc1).
  rewrite decide_False by auto. rewrite splice_all by (rewrite dev_sector_length by done; done).
  rewrite (boot_signature _ _ Hboot). cbv zeta. rewrite decide_False by auto.
  rewrite (boot_bytes _ _ Hboot), Hbps, decide_False by done.
  rewrite (parse_boot _ fs) by (done || lia || by apply dev_sector_bytes). apply wp_bind, wp_modify.
  unfold heap_alloc. apply wp_bind, wp_zoom. rewrite Hbps, u32_small by lia.
  destruct (kmalloc_ok (heap s) (sectors_per_fat fs * 512) n) as (p & h' & Ek & Hp & Hh'); [lia|done|done|].
  eapply wp_of_done; [exact Ek|]. rewrite decide_False by done. cbv zeta. destruct (Hfresh p) as [Hfl Hfb].
  set (block := take _ (fresh p)). assert (zlen block = sectors_per_fat fs * 512) as Hbl by (unfold block; rewrite length_take; lia).
  change (Z.quot 512 2) with 256. apply wp_bind. eapply wp_liftO; [apply memset_spec; lia|].
  destruct (words_of_bytes_range (Z.to_nat (256 * sectors_per_fat fs))
    (replicate (Z.to_nat (256 * sectors_per_fat fs)) (u8 0) ++ drop (Z.to_nat (256 * sectors_per_fat fs)) block)) as [Hwl Hwr].
  { rewrite length_app, length_replicate, length_drop. lia. }
  { apply Forall_app. split; [apply Forall_replicate; by_decide|by apply Forall_drop, Forall_take]. }
  apply wp_bind, wp_modify. set (words := words_of_bytes _) in *. clearbody words.
  set (s0 := set_heap h' (set_fs fs (set_disk d1 s))).
  apply wp_bind. eapply (wp_read_table (disk s) fs t 0 _ _ s0); [done|lia|lia| |].
  { split; cbn; try done. change (zlen words = zlen t). lia. }
  intros s' Hread. cbn [negb]. destruct (read_mounted _ _ _ _ _ Hv Hread) as (Hok & Hsy & Et & Hck & _).
  pose proof (rg_root _ _ _ _ _ _ Hread) as Hrt'. change (root_dir s0) with (root_dir s) in Hrt'.
  apply wp_bind, wp_gets. apply wp_bind. eapply wp_liftO.
  { rewrite Hrt'. change [126; 0] with ([126] ++ 0 :: []). apply strcpy_cstr; [by_decide|done|cbn; rewrite Hname; simpl; lia]. }
  apply wp_bind, wp_modify. apply wp_bind. unfold print. apply wp_modify, wp_ret.
  split; [done|]. split; [apply Hread|]. split; [cbn; by rewrite (rg_some _ _ _ _ _ _ Hread), Et|].
  split; [by apply (other_root_ok _ _ s')|]. split; [done|]. split; [done|]. split; [done|]. split; [|split; [done|]].
  - cbn. rewrite Z.land_lor_distr_l, Z.land_diag. apply Z.bits_inj'. intros j Hj. rewrite Z.lor_spec, Z.land_spec.
    by destruct (Z.testbit (attr (root_dir s')) j), (Z.testbit FAT_ATTR_DIRECTORY j).
  - cbn. by rewrite (rg_heap _ _ _ _ _ _ Hread).
Qed.

(** ** Witness *)

Module Demo.
Definition boot_sector : list Z :=
  replicate 11 0 ++ le_bytes 2 512 ++ [1] ++ le_bytes 2 1 ++ [1] ++ le_bytes 2 16 ++ le_bytes 2 300 ++ [0] ++ le_bytes 2 1 ++
  replicate 486 0 ++ [0x55; 0xAA].
(** The volume of [FatTable.Demo], and a driver that has not been initialised. *)
Definition dev : ramdisk :=
  Ramdisk 300 (<[ 0 := boot_sector ]> {[ 1 := table_sector FatTable.Demo.fat 0 ]}).
Definition state : fat_state ramdisk bump :=
  FatState (mkFS 0 0 0 0 0 0 0 0 0) None zero_entry dev (Bump 4096 1000000) [].
Lemma dev_volume : volume_on dev FatTable.Demo.fs FatTable.Demo.fat.
Proof.
  split; try (vm_compute; done).
  - apply map_Forall_insert_2; [|apply map_Forall_singleton]; split; by_decide || done.
  - by_decide.
  - intros k Hk. assert (k = 0) as -> by (cbn in Hk; lia). by vm_compute.
  - intros c v Hc%aget_lt_Some _. cbn in Hc |- *. lia.
Qed.
End Demo.

Lemma fat_init_mounts_witness :
  wp (fat_init (λ p, replicate (Z.to_nat 600) 7))
     (λ ok s', ok = true ∧ fat16_fs s' = FatTable.Demo.fs ∧ fat_table s' = Some FatTable.Demo.fat ∧ fat_ok s' ∧ fat_synced s' ∧
        take 2 (name (root_dir s')) = [126; 0] ∧ start_cluster (root_dir s') = 0 ∧
        Z.land (attr (root_dir s')) FAT_ATTR_DIRECTORY = FAT_ATTR_DIRECTORY ∧
        (∀ k, content s' k = content Demo.state k) ∧ heap_room 0 (heap s')) Demo.state.
Proof.
  apply (fat_init_mounts (λ p, replicate (Z.to_nat 600) 7) Demo.state FatTable.Demo.fs FatTable.Demo.fat 0).
  - exact Demo.dev_volume.
  - lia.
  - vm_compute. split; [congruence|reflexivity].
  - intros p. split; [by vm_compute|by_decide].
  - reflexivity.
Defined.
