(* ===== verification/Boot.v ===== *)
(** * Starting the kernel: kernel.c, process/manager/process_manager.c

    kmain runs the initialisations in order, plays an animation on the screen,
    creates the first processes and spins until the timer switches to one of them.
    The drive and the heap are initialised through the interfaces below. *)

From S2P Require Import Prelude CString Interfaces Io Vga Ata Gdt Idt Pmm Paging FatTable Heap Vfs Process Kernel Terminal.
From S2P Require Import FatMount Sched Elf Loader FileCalls UserMem ProcCalls Syscalls.

(** ** What the drive and the heap offer at the start *)

Class DriveInit (D : Type) := { drive_init : M D unit }.
Class HeapInit (H : Type) := { heap_setup : M H bool }.
#[export] Instance heap_heap_init P `{PageAllocator P} : HeapInit (Heap.heap P) := { heap_setup := Heap.heap_init }.

#[export] Instance ata_drive_init D `{Ports D} : DriveInit (Ata.ata D) := { drive_init := Ata.ata_init }.

(** ** Definitions *)

Definition VGA_COLOR_BLUE : Z := 1.
Definition VGA_COLOR_GREEN : Z := 2.
Definition VGA_COLOR_CYAN : Z := 3.
Definition VGA_COLOR_MAGENTA : Z := 5.
Definition VGA_COLOR_LIGHT_GREY : Z := 7.
Definition VGA_COLOR_LIGHT_BLUE : Z := 9.
Definition VGA_COLOR_LIGHT_GREEN : Z := 10.
Definition VGA_COLOR_LIGHT_CYAN : Z := 11.
Definition VGA_COLOR_LIGHT_RED : Z := 12.
Definition VGA_COLOR_YELLOW : Z := 14.

Definition startup_msgs : list string :=
  ["BOOTING SYSTEM"; "INITIALIZING CORE MODULES"; "LOADING KERNEL"; "CHECKING HARDWARE INTEGRITY";
   "PREPARING MEMORY MANAGEMENT"; "STARTING INTERRUPT HANDLERS"; "CONFIGURING DEVICE DRIVERS";
   "INITIALIZING STORAGE SYSTEMS"; "ESTABLISHING NETWORK PROTOCOLS"; "PREPARING FILE SYSTEMS";
   "LOADING SYSTEM CACHE"; "VERIFYING SYSTEM SIGNATURES"; "INITIALIZING SECURITY MODULES";
   "PREPARING RUNTIME ENVIRONMENT"; "LOADING SYSTEM LIBRARIES"; "CONFIGURING USER PERMISSIONS";
   "CHECKING SYSTEM CLOCK"; "INITIALIZING GRAPHICS SUBSYSTEM"; "LOADING INPUT DEVICE DRIVERS";
   "PREPARING POWER MANAGEMENT"; "FINAL SYSTEM CHECKS"; "SYSTEM READY"]%string.
Definition bg_colors : list Z :=
  [VGA_COLOR_GREEN; VGA_COLOR_BLUE; VGA_COLOR_CYAN; VGA_COLOR_MAGENTA; VGA_COLOR_LIGHT_BLUE; VGA_COLOR_LIGHT_GREEN].
Definition text_colors : list Z :=
  [VGA_COLOR_WHITE; VGA_COLOR_YELLOW; VGA_COLOR_LIGHT_GREY; VGA_COLOR_LIGHT_RED; VGA_COLOR_LIGHT_CYAN; VGA_COLOR_PINK].
Definition pick (colors : list Z) (i : Z) : outcome Z := of_option (aget colors (i mod 6)).

Section animation.
Context {V : Type} `{Ports V}.

Definition clear_screen : M (vga V) unit :=
  _ ← for_from 0 2000 (λ _, vga_putchar_colored 32 VGA_COLOR_BLACK VGA_COLOR_BLACK);
  move_cursor 0 0.

Definition filler (cycle msg_idx j : Z) : M (vga V) unit :=
  bg ← liftO (pick bg_colors (j + cycle));
  text ← liftO (pick text_colors (j + msg_idx));
  vga_putchar_colored (if decide (j mod 3 = 0) then 32 else if decide (j mod 3 = 1) then 46 else 45) bg text.

(** One message; the delay after it has no effect on the state. *)
Definition show_message (cycle msg_idx : Z) : M (vga V) unit :=
  bg ← liftO (pick bg_colors (cycle + msg_idx));
  text ← liftO (pick text_colors (msg_idx + cycle));
  msg ← liftO (of_option (aget startup_msgs msg_idx));
  _ ← vga_putstring_colored (lit msg ++ [0]) bg text;
  for_from 0 (Z.to_nat (cycle mod 15)) (filler cycle msg_idx).

Definition system_startup_animation : M (vga V) unit :=
  _ ← clear_screen;
  _ ← for_from 0 150 (λ cycle, for_from 0 (length startup_msgs) (show_message cycle));
  clear_screen.
End animation.

(** The kernel and the registers and tables of the processor. *)
Record machine (D H V : Type) := Machine { m_kernel : kernel D H V; m_idt : idt_state V }.
Arguments Machine {D H V}.
Arguments m_kernel {D H V}.
Arguments m_idt {D H V}.

(** kmain leaves in two ways: it gives up, or it spins with processes enabled. *)
Inductive boot_end := GaveUp | Spinning.

Section boot.
Context {D H V : Type} `{BlockDevice D} `{KernelHeap H} `{PageHeap H} `{Ports V} `{DriveInit D} `{HeapInit H}.
(** What the linker and the boot loader provide, the nodes of the first two
    processes before they are filled, and what a new block of the heap holds. *)
Context (gdt_address tss_address idt_address : Z) (first_int_handlers : list Z).
Context (mmap_at : Z → multiboot_memory_map_t) (mmap_fuel : nat) (mbi : option multiboot_info_t).
Context (raw_dummy raw_main : process_node) (fresh : Z → list Z).

Definition on_kernel {A} (m : M (kernel D H V) A) : M (machine D H V) A :=
  zoom m_kernel (λ k s, Machine k (m_idt s)) m.
(** idt.c shares the ports with the rest of the kernel. *)
Definition on_cpu {A} (m : M (idt_state V) A) : M (machine D H V) A :=
  zoom (λ s, set_idt_ports (k_ports (m_kernel s)) (m_idt s))
       (λ c s, Machine (kset_ports (idt_ports c) (m_kernel s)) c) m.

(** process_manager.c *)
Definition proc_manager_init : M (kernel D H V) unit :=
  _ ← on_fds (update_gfd 0 (gset_used true));
  _ ← on_fds (update_gfd 1 (gset_used true));
  _ ← on_fds (update_gfd 2 (gset_used true));
  _ ← on_procs (modify (set_initialized true));
  _ ← register_isr_handler 0x69 h_switch_process;
  mret tt.

(** From pit_init to the first terminal. *)
Definition start_services : M (kernel D H V) unit :=
  _ ← pit_init;
  _ ← on_fs (fat_init fresh);
  _ ← keyboard_init;
  _ ← syscall_init;
  _ ← proc_manager_init;
  t ← create_terminal 1;
  _ ← set_active_terminal t;
  mret tt.

(** From the animation on; [/dummy] and [/main] are the first processes. *)
Definition start_processes : M (kernel D H V) unit :=
  _ ← on_screen system_startup_animation;
  _ ← on_screen vga_init;
  _ ← create_kernelmode_process raw_dummy (lit "/dummy" ++ [0]);
  _ ← create_usermode_process raw_main (lit "/main" ++ [0]);
  mret tt.

Definition kmain : M (machine D H V) boot_end :=
  _ ← on_cpu disable_interrupts;
  _ ← on_kernel (on_gdt (gdt_init gdt_address tss_address));
  _ ← on_kernel (on_screen vga_init);
  _ ← on_cpu (idt_init first_int_handlers idt_address);
  _ ← on_kernel (on_screen (vga_putstring (lit "IDT Initialized" ++ [10; 0])));
  _ ← on_kernel (on_fs (zoom disk set_disk drive_init));
  _ ← on_kernel (on_screen (vga_putstring (lit "ATA driver Initialized" ++ [10; 0])));
  status ← on_kernel (on_vm (on_pmm (pmm_init mmap_at mmap_fuel mbi)));
  match status with
  | PMM_SUCCESS =>
      ok ← on_kernel (on_fs (zoom FatTable.heap set_heap heap_setup));
      if negb ok then _ ← on_kernel (on_screen (vga_printf (lit "failed heap init" ++ [0]) [])); mret GaveUp else
      _ ← on_kernel start_services;
      _ ← on_kernel start_processes;
      _ ← on_cpu enable_interrupts;
      _ ← on_kernel (on_procs enable_processes);
      mret Spinning
  | _ => _ ← on_kernel (on_screen (vga_printf (lit "failed pmm init" ++ [0]) [])); mret GaveUp
  end.
End boot.

(** ** Lemmas *)

Section services.
Context {D H V : Type} `{BlockDevice D} `{KernelHeap H} `{Ports V}.
Implicit Types k : kernel D H V.

Lemma wp_port_out port val k (Q : unit → kernel D H V → Prop) :
  (∀ p, Q tt (kset_ports p k)) → wp (on_ports (io_out_byte port val)) Q k.
Proof. intros HQ. apply wp_zoom, wp_io_out_byte, HQ. Qed.
Lemma wp_toggle irq on k (Q : unit → kernel D H V → Prop) :
  (∀ p, Q tt (kset_ports p k)) → wp (on_ports (pic_toggle_irq irq on)) Q k.
Proof.
  intros HQ. apply wp_zoom. unfold pic_toggle_irq, in_wait, out_wait, io_wait. cbv zeta.
  apply wp_bind, wp_bind, wp_io_in_byte, wp_bind, wp_io_out_byte, wp_ret, wp_bind, wp_io_out_byte, wp_io_out_byte, HQ.
Qed.
Lemma wp_register i h k (Q : unit → kernel D H V → Prop) :
  0 ≤ i < 256 → length (k_handlers k) = 256%nat →
  (Q tt (kset_handlers (<[Z.to_nat i := Some h]> (k_handlers k)) k)) →
  wp (_ ← register_isr_handler i h; mret tt) Q k.
Proof.
  intros Hi Hl HQ. apply wp_bind. unfold register_isr_handler. rewrite decide_False by (unfold IDT_SIZE; lia).
  apply wp_bind. eapply wp_writes; [lia|]. by apply wp_ret, wp_ret.
Qed.

Lemma wp_pit_init k (Q : unit → kernel D H V → Prop) :
  length (k_handlers k) = 256%nat →
  (∀ p, Q tt (kset_ports p (kset_handlers (<[32%nat := Some h_timer_irq]> (k_handlers k))
                              (kset_pit (program_pit (k_pit k)) k)))) →
  wp pit_init Q k.
Proof.
  intros Hl HQ. apply wp_bind, wp_port_out. intros p1. apply wp_bind, wp_zoom, wp_modify.
  apply wp_bind, wp_zoom, wp_get. apply wp_bind, wp_port_out. intros p2. apply wp_bind, wp_port_out. intros p3.
  apply wp_bind. unfold register_isr_handler. rewrite decide_False by by_decide.
  apply wp_bind. eapply wp_writes; [cbn; rewrite Hl; by vm_compute|]. apply wp_ret, wp_toggle. exact HQ.
Qed.
Lemma wp_keyboard_init k (Q : unit → kernel D H V → Prop) :
  length (k_handlers k) = 256%nat →
  (∀ p, Q tt (kset_ports p (kset_handlers (<[33%nat := Some h_keyboard_irq]> (k_handlers k)) k))) →
  wp keyboard_init Q k.
Proof.
  intros Hl HQ. apply wp_bind, wp_toggle. intros p. apply wp_register; [by vm_compute|done|]. apply HQ.
Qed.
End services.

(** The table of open files and the first terminal after the start: the three
    reserved entries, then the devices of the terminal. *)
Definition reserved : global_file_descriptor := gset_used true zero_global_fd.
Definition reserved_fds : list global_file_descriptor := replicate 3 reserved ++ replicate 253 zero_global_fd.
Definition started_fds : list global_file_descriptor :=
  replicate 3 reserved ++ [gset_read Vfs.read_terminal_input device_fd; device_fd; device_fd] ++ replicate 250 zero_global_fd.
Definition first_terminal : terminal_struct_t :=
  Terminal 1 (replicate 256 0) 0 false 1 (TerminalFds (Some 3) (Some 4) (Some 5)).
Definition started_terminals : terminals_t := Terminals (first_terminal :: replicate 3 zero_terminal) 1.

Section first.
Context {D H V : Type}.
Implicit Types k : kernel D H V.

Lemma wp_proc_manager_init k (Q : unit → kernel D H V → Prop) :
  k_fds k = global_fd_statics → length (k_handlers k) = 256%nat →
  Q tt (kset_handlers (<[105%nat := Some h_switch_process]> (k_handlers k))
         (kset_procs (set_initialized true (k_procs k)) (kset_fds reserved_fds k))) →
  wp proc_manager_init Q k.
Proof.
  intros Hf Hl HQ. unfold proc_manager_init.
  do 3 (apply wp_bind, wp_zoom; eapply wp_of_done; [cbn [k_fds kset_fds]; rewrite ?Hf; by vm_compute|]).
  apply wp_bind, wp_zoom, wp_modify. apply wp_register; [by vm_compute|done|]. exact HQ.
Qed.

Lemma wp_first_terminal k (Q : unit → kernel D H V → Prop) :
  k_fds k = reserved_fds → k_terminals k = terminals_statics →
  Q tt (kset_terminals started_terminals (kset_fds started_fds k)) →
  wp (t ← create_terminal 1; _ ← set_active_terminal t; mret tt) Q k.
Proof.
  intros Hf Ht HQ. eapply (wp_of_done _ _ _ tt (kset_terminals started_terminals (kset_fds started_fds k))); [|exact HQ].
  destruct k as [fs v g s p pr fds ts ks pt hs sys]. cbn in Hf, Ht. subst. vm_compute. reflexivity.
Qed.
End first.

Definition boot_handlers : list (Z * isr_handler) :=
  [(32, h_timer_irq); (33, h_keyboard_irq); (105, h_switch_process); (128, h_handle_syscall)].
Definition boot_table : list (option isr_handler) :=
  <[105%nat := Some h_switch_process]> (<[128%nat := Some h_handle_syscall]> (<[33%nat := Some h_keyboard_irq]>
    (<[32%nat := Some h_timer_irq]> (replicate 256 None)))).
Lemma boot_table_checks :
  bool_decide (Forall (λ n, aget boot_table n = Some (snd <$> head (filter (λ a, a.1 = n) boot_handlers))) (seqZ 0 256)) = true.
Proof. by vm_compute. Qed.
Lemma boot_table_handlers n h : aget boot_table n = Some (Some h) ↔ (n, h) ∈ boot_handlers.
Proof.
  split.
  - intros E. pose proof (aget_lt_Some _ _ _ E) as Hr. change (zlen boot_table) with 256 in Hr.
    pose proof boot_table_checks as Hc. apply bool_decide_eq_true in Hc. rewrite list.Forall_forall in Hc.
    rewrite (Hc n) in E by (apply elem_of_seqZ; lia). injection E as E.
    destruct (filter _ boot_handlers) as [|[n' h'] hs] eqn:Ef; [done|]. injection E as ->.
    assert ((n', h) ∈ filter (λ a, a.1 = n) boot_handlers) as Hin by (rewrite Ef; apply elem_of_cons; by left).
    apply list_elem_of_filter in Hin as [En ?]. cbn in En. by subst n'.
  - unfold boot_handlers. rewrite !elem_of_cons, elem_of_nil. intros [[=-> ->]|[[=-> ->]|[[=-> ->]|[[=-> ->]|[]]]]]; by vm_compute.
Qed.

Lemma started_fds_used i e : aget started_fds i = Some e → is_used e = true ↔ i < 6.
Proof.
  intros E. pose proof (aget_lt_Some _ _ _ E) as Hr. change (zlen started_fds) with 256 in Hr.
  assert (bool_decide (Forall (λ i, is_used <$> aget started_fds i = Some (bool_decide (i < 6))) (seqZ 0 256)) = true) as Hc by (by vm_compute).
  apply bool_decide_eq_true in Hc. rewrite list.Forall_forall in Hc. specialize (Hc i ltac:(apply elem_of_seqZ; lia)).
  rewrite E in Hc. injection Hc as ->. apply bool_decide_eq_true.
Qed.

(** ** Properties *)

(** C23: From the timer to the first terminal, the kernel's start leaves exactly
    four interrupts handled (the timer, the keyboard, the switch and the system
    call), entries 0 to 2 of the table of open files reserved and 3 to 5 taken by the
    devices of terminal 1, whose input reads the keyboard's line and which is the
    active one, and processes enabled to be created but not to run.  Every system call
    is at the number sys.h documents for it, with three exceptions: 40, documented for
    rmdir, runs times, and 43 (times) and 20 (getpid) have no handler; besides these
    only execve at 59 and the two pictures at 169 and 170 are there.  It does all this
    whether or not the file system could be read: the answer of fat_init is dropped. *)
Theorem start_services_ready {D H V} `{BlockDevice D} `{KernelHeap H} `{Ports V} fresh (k : kernel D H V) b fs' :
  k_handlers k = replicate 256 None → syscall_handler_array k = replicate 256 None →
  k_fds k = global_fd_statics → k_terminals k = terminals_statics → fat_init fresh (k_fs k) = Done (b, fs') →
  wp (start_services fresh)
     (λ _ k', (∀ n h, aget (k_handlers k') n = Some (Some h) ↔ (n, h) ∈ boot_handlers) ∧
        calls_installed (syscall_handler_array k') ∧
        k_terminals k' = started_terminals ∧
        (∀ i e, aget (k_fds k') i = Some e → is_used e = true ↔ i < 6) ∧
        g_read <$> aget (k_fds k') 3 = Some (Some Vfs.read_terminal_input) ∧
        k_procs k' = set_initialized true (k_procs k) ∧ k_pit k' = program_pit (k_pit k) ∧
        k_fs k' = fs' ∧ k_vm k' = k_vm k ∧ k_screen k' = k_screen k) k.
Proof.
  intros Hh Hs Hf Ht Hfat. apply wp_bind, wp_pit_init; [by rewrite Hh|]. intros p1.
  apply wp_bind. eapply wp_zoom_done; [exact Hfat|].
  apply wp_bind, wp_keyboard_init; [cbn; rewrite length_insert, Hh; done|]. intros p2. cbn [k_handlers kset_ports kset_handlers kset_fs kset_pit].
  rewrite Hh. apply wp_bind, wp_syscall_init; [done|cbn; by rewrite Hs|]. cbn [syscall_handler_array kset_ports kset_handlers kset_fs kset_pit].
  rewrite Hs. fold syscall_table. apply wp_bind, wp_proc_manager_init; [exact Hf|done|].
  apply wp_first_terminal; [done|exact Ht|]. cbn [k_handlers syscall_handler_array k_terminals k_fds kset_terminals kset_fds
    kset_handlers kset_procs kset_syscalls kset_ports kset_fs kset_pit k_procs k_pit k_fs k_vm k_screen].
  split; [exact boot_table_handlers|]. split; [exact calls_attached|]. split; [done|]. split; [exact started_fds_used|].
  split; [by vm_compute|]. done.
Qed.

(** The screen survives the animation: every position it prints at is on the
    screen.  (The delays are not part of the state.) *)
Theorem startup_animation_safe {V} `{Ports V} (v : vga V) :
  vga_ok v → wp system_startup_animation (λ _ v', vga_ok v') v.
Proof.
  intros Hv. assert (∀ c bg col v (Q : unit → vga V → Prop), vga_ok v → (∀ v', vga_ok v' → Q tt v') →
    wp (vga_putchar_colored c bg col) Q v) as Hput.
  { intros c bg col v0 Q Hok HQ. apply wp_putchar_any; [done|]. intros v' Hok' _. by apply HQ. }
  assert (∀ v (Q : unit → vga V → Prop), vga_ok v → (∀ v', vga_ok v' → Q tt v') → wp clear_screen Q v) as Hclear.
  { intros v0 Q Hok HQ. apply wp_bind, (wp_for (λ _ v, vga_ok v)); [done|intros; by apply Hput|].
    intros v1 Hok1. unfold move_cursor. cbv zeta. do 3 (apply wp_bind, wp_zoom, wp_io_out_byte). apply wp_zoom, wp_io_out_byte, HQ. by destruct Hok1. }
  assert (∀ colors i, length colors = 6%nat → ∃ c, pick colors i = Done c) as Hpick.
  { intros colors i Hl. pose proof (Z.mod_pos_bound i 6 ltac:(lia)).
    destruct (aget_is_Some colors (i mod 6)) as [c E]; [lia|]. exists c. unfold pick. by rewrite E. }
  apply wp_bind, Hclear; [done|]. intros v1 Hv1. apply wp_bind, (wp_for (λ _ v, vga_ok v)); [done| |].
  2: { intros v2 Hv2. by apply Hclear. }
  intros cycle v2 _ Hv2. apply (wp_for (λ _ v, vga_ok v)); [done| |done].
  intros m v3 Hm Hv3. unfold show_message. destruct (Hpick bg_colors (cycle + m)) as [bg ->]; [done|].
  apply wp_bind, (wp_liftO _ bg); [done|]. destruct (Hpick text_colors (m + cycle)) as [text ->]; [done|].
  apply wp_bind, (wp_liftO _ text); [done|].
  destruct (aget_is_Some startup_msgs m) as [msg Emsg]; [lia|]. apply wp_bind, (wp_liftO _ msg); [by rewrite Emsg|].
  assert (str_ok (lit msg)) as Hmsg.
  { assert (Forall (λ s, str_ok (lit s)) startup_msgs) as Hall by by_decide. rewrite list.Forall_forall in Hall.
    apply aget_Some in Emsg as [_ Emsg]. by apply Hall, (list_elem_of_lookup_2 _ _ _ Emsg). }
  apply wp_bind. eapply wp_mono; [by apply wp_putstring_ok|]. intros [] v4 [Hv4 _].
  apply (wp_for (λ _ v, vga_ok v)); [done| |done]. intros j v5 _ Hv5. unfold filler.
  destruct (Hpick bg_colors (j + cycle)) as [bg' ->]; [done|]. apply wp_bind, (wp_liftO _ bg'); [done|].
  destruct (Hpick text_colors (j + m)) as [text' ->]; [done|]. apply wp_bind, (wp_liftO _ text'); [done|]. by apply Hput.
Qed.
Lemma startup_animation_safe_witness : wp system_startup_animation (λ _ v', vga_ok v') (screen 3 4).
Proof. apply (startup_animation_safe (screen 3 4)). apply screen_ok; lia. Defined.

(** ** Witnesses *)

Definition boot_state : kernel ramdisk bump latches :=
  kset_fs FatMount.Demo.state (kset_fds global_fd_statics (kset_terminals terminals_statics Sample.state)).
Definition fresh_demo (p : Z) : list Z := replicate (Z.to_nat 600) 7.
Definition boot_fs : fat_state ramdisk bump :=
  match fat_init fresh_demo FatMount.Demo.state with Done (_, s) => s | _ => FatMount.Demo.state end.
Lemma start_services_ready_witness :
  wp (start_services fresh_demo)
     (λ _ k', (∀ n h, aget (k_handlers k') n = Some (Some h) ↔ (n, h) ∈ boot_handlers) ∧
        calls_installed (syscall_handler_array k') ∧
        k_terminals k' = started_terminals ∧
        (∀ i e, aget (k_fds k') i = Some e → is_used e = true ↔ i < 6) ∧
        g_read <$> aget (k_fds k') 3 = Some (Some Vfs.read_terminal_input) ∧
        k_procs k' = set_initialized true (k_procs boot_state) ∧ k_pit k' = program_pit (k_pit boot_state) ∧
        k_fs k' = boot_fs ∧ k_vm k' = k_vm boot_state ∧ k_screen k' = k_screen boot_state) boot_state.
Proof.
  apply (start_services_ready fresh_demo boot_state true boot_fs); try reflexivity.
Defined.
