(* ===== verification/HostDisk.v ===== *)
(** * The image builder's disk: a file of the host

    fs_loader/fat_loader.c is a program of the host.  Its [ata_init], [ata_read],
    [ata_write] and [ata_cleanup] do on an image file what the kernel's driver
    does on the disk, through the streams of the C library.  Here is the host as
    far as the program sees it: the files it can open, the stream [ata_file],
    what it printed; and the proof that an open image is a block device
    ([host_laws]), so that everything proved of the file system's operations over
    [BlockDevice] holds of the ones the tool runs. *)

From S2P Require Import Prelude Interfaces.

(** ** Streams *)

(** A path is the bytes of its string. *)
Record stream := Stream { st_path : list Z; st_pos : Z }.

(** [host_files] holds the files that can be opened; none can grow past
    [host_limit] bytes. *)
Record host := Host {
  host_files : gmap (list Z) (list Z);
  host_limit : Z;
  ata_file : option stream;
  messages : list (string * list Z);
}.

Definition set_files (f : gmap (list Z) (list Z)) (h : host) : host := Host f (host_limit h) (ata_file h) (messages h).
Definition set_ata_file (f : option stream) (h : host) : host := Host (host_files h) (host_limit h) f (messages h).

(** [printf] and [fprintf(stderr, ...)] *)
Definition say (msg : string) (args : list Z) : M host unit := modify (λ h,
  Host (host_files h) (host_limit h) (ata_file h) (messages h ++ [(msg, args)])).

Definition contents (h : host) (path : list Z) : list Z := default [] (host_files h !! path).

(** [fopen] for reading, or for reading and writing what exists; [None] is the
    null pointer. *)
Definition fopen (path : list Z) : M host (option stream) :=
  files ← gets host_files;
  mret (match files !! path with Some _ => Some (Stream path 0) | None => None end).

(** [fseek(f, offset, SEEK_SET)]: the code and the stream. *)
Definition fseek (f : stream) (offset : Z) : Z * stream :=
  if decide (offset < 0) then (-1, f) else (0, Stream (st_path f) offset).

(** The bytes from the stream's position on, at most [n]. *)
Definition ahead (c : list Z) (pos n : Z) : list Z := take (Z.to_nat n) (drop (Z.to_nat pos) c).

(** [fseek(f, 0, SEEK_END)] and [rewind(f)]. *)
Definition fseek_end (f : stream) : M host stream :=
  h ← get; mret (Stream (st_path f) (zlen (contents h (st_path f)))).
Definition ftell (f : stream) : Z := st_pos f.
Definition rewind (f : stream) : stream := Stream (st_path f) 0.

(** [fread(buffer, 1, n, f)]: the number of bytes read, the buffer, the stream. *)
Definition fread (f : stream) (n : Z) (buffer : list Z) : M host (Z * list Z * stream) :=
  h ← get;
  let got := ahead (contents h (st_path f)) (st_pos f) n in
  if decide (zlen buffer < zlen got) then fault else
  mret (zlen got, splice buffer 0 got, Stream (st_path f) (st_pos f + zlen got)).

(** A file with [bs] written at [pos]; a gap behind its end reads as zeros. *)
Definition overwrite (c : list Z) (pos : Z) (bs : list Z) : list Z :=
  if decide (bs = []) then c
  else splice (c ++ replicate (Z.to_nat (pos + zlen bs) - length c) 0) (Z.to_nat pos) bs.

(** [fwrite(buffer, 1, n, f)]: as many bytes as the file may hold. *)
Definition fwrite (f : stream) (n : Z) (buffer : list Z) : M host (Z * stream) :=
  if decide (zlen buffer < n) then fault else
  h ← get;
  let bs := take (Z.to_nat (n `min` (host_limit h - st_pos f))) buffer in
  _ ← modify (set_files (<[st_path f := overwrite (contents h (st_path f)) (st_pos f) bs]> (host_files h)));
  mret (zlen bs, Stream (st_path f) (st_pos f + zlen bs)).

(** ** The emulated drive *)

Definition ata_init (filename : list Z) : M host unit :=
  f ← fopen filename;
  _ ← modify (set_ata_file f);
  match f with
  | None => say "Error: Could not open file %s" []
  | Some _ => mret tt
  end.

(** The code and the buffer after the call. *)
Definition ata_read (sector_number sector_count : Z) (buffer : list Z) : M host (Z * list Z) :=
  f ← gets ata_file;
  match f with
  | None => _ ← say "Error: ATA file not initialized" []; mret (1, buffer)
  | Some f =>
      let offset := u64 (sector_number * SECTOR_SIZE) in
      let '(code, f) := fseek f offset in
      _ ← modify (set_ata_file (Some f));
      if decide (code ≠ 0)
      then _ ← say "Error: Could not seek to sector %u" [sector_number]; mret (1, buffer) else
      let bytes_to_read := sector_count * SECTOR_SIZE in
      '(got, buffer, f) ← fread f bytes_to_read buffer;
      _ ← modify (set_ata_file (Some f));
      if decide (got ≠ bytes_to_read)
      then _ ← say "Error: Could not read %u sectors from file" [sector_count]; mret (1, buffer)
      else mret (0, buffer)
  end.

(** What was written is on the host's disk: [fflush] has nothing left to do. *)
Definition ata_write (sector_number sector_count : Z) (buffer : list Z) : M host Z :=
  f ← gets ata_file;
  match f with
  | None => _ ← say "Error: ATA file not initialized" []; mret 1
  | Some f =>
      let offset := u64 (sector_number * SECTOR_SIZE) in
      let '(code, f) := fseek f offset in
      _ ← modify (set_ata_file (Some f));
      if decide (code ≠ 0)
      then _ ← say "Error: Could not seek to sector %u" [sector_number]; mret 1 else
      let bytes_to_write := sector_count * SECTOR_SIZE in
      '(put, f) ← fwrite f bytes_to_write buffer;
      _ ← modify (set_ata_file (Some f));
      if decide (put ≠ bytes_to_write)
      then _ ← say "Error: Could not write %u sectors to file" [sector_count]; mret 1
      else mret 0
  end.

Definition ata_cleanup : M host unit :=
  f ← gets ata_file;
  match f with
  | Some _ => modify (set_ata_file None)
  | None => mret tt
  end.

#[export] Instance host_device : BlockDevice host := {
  dev_read := ata_read;
  dev_write := ata_write;
}.

(** ** An open image is a block device *)

(** The image's bytes; its sectors are the whole ones. *)
Definition image (h : host) : list Z :=
  match ata_file h with Some f => contents h (st_path f) | None => [] end.
Definition image_size (h : host) : Z := zlen (image h) / 512.
Definition image_sector (h : host) (k : Z) : list Z :=
  if decide (0 ≤ k < image_size h) then sector_of (image h) k else blank_sector.

Record image_ready (h : host) : Prop := {
  ir_open : is_Some (ata_file h);
  ir_bytes : Forall is_byte (image h);
  ir_limit : zlen (image h) ≤ host_limit h;
  ir_addressable : zlen (image h) < 18446744073709551616;
}.

Lemma image_size_spec h k : k ≤ image_size h ↔ 512 * k ≤ zlen (image h).
Proof. unfold image_size. split; intros; Z.div_mod_to_equations; lia. Qed.

Lemma length_sector_of c k : 0 ≤ k → 512 * (k + 1) ≤ zlen c → length (sector_of c k) = 512%nat.
Proof. intros. unfold sector_of. rewrite length_take, length_drop. lia. Qed.

Lemma image_sector_in h k : 0 ≤ k < image_size h → image_sector h k = sector_of (image h) k.
Proof. intros. unfold image_sector. by rewrite decide_True. Qed.

Lemma length_image_sector h k : length (image_sector h k) = 512%nat.
Proof.
  unfold image_sector. case_decide as Hk; [|done]. apply length_sector_of; [lia|].
  apply image_size_spec. lia.
Qed.

Lemma image_sector_bytes h k : image_ready h → Forall is_byte (image_sector h k).
Proof.
  intros Hr. unfold image_sector. case_decide.
  - unfold sector_of. apply Forall_take, Forall_drop, Hr.
  - apply Forall_replicate. unfold is_byte. lia.
Qed.

(** The sectors of an image, one after the other, are a piece of it. *)
Lemma sectors_of_image h lba n :
  0 ≤ lba → lba + Z.of_nat n ≤ image_size h →
  sectors (image_sector h) lba n = ahead (image h) (512 * lba) (512 * Z.of_nat n).
Proof.
  intros Hlba Hn. unfold ahead. set (piece := take _ _).
  assert (length piece = 512 * n)%nat as Hl.
  { unfold piece. rewrite length_take, length_drop. apply image_size_spec in Hn. lia. }
  rewrite <-(sectors_of_buffer piece lba n Hl). apply sectors_ext. intros k Hk.
  rewrite image_sector_in by lia. unfold sector_of, piece.
  rewrite skipn_firstn_comm, take_take, drop_drop. f_equal; [lia|]. f_equal. lia.
Qed.

Lemma length_ahead c pos n : 0 ≤ pos → 0 ≤ n → pos + n ≤ zlen c → zlen (ahead c pos n) = n.
Proof. intros. unfold ahead. rewrite length_take, length_drop. lia. Qed.

Lemma overwrite_in c pos bs :
  0 ≤ pos → pos + zlen bs ≤ zlen c → overwrite c pos bs = splice c (Z.to_nat pos) bs.
Proof.
  intros Hp Hl. unfold overwrite. case_decide as Hb; [by rewrite Hb, splice_nil|].
  replace (Z.to_nat (pos + zlen bs) - length c)%nat with 0%nat by lia. by rewrite app_nil_r.
Qed.

(** *** The stream operations *)

Lemma wp_ata_file f (Q : option stream → host → Prop) h :
  ata_file h = f → Q f h → wp (gets ata_file) Q h.
Proof. intros <-. apply wp_gets. Qed.

Lemma wp_fread f n buf (Q : Z * list Z * stream → host → Prop) h :
  0 ≤ st_pos f → 0 ≤ n → st_pos f + n ≤ zlen (contents h (st_path f)) → n ≤ zlen buf →
  Q (n, splice buf 0 (ahead (contents h (st_path f)) (st_pos f) n), Stream (st_path f) (st_pos f + n)) h →
  wp (fread f n buf) Q h.
Proof.
  intros Hp Hn Hl Hb HQ. apply wp_bind, wp_get. cbv zeta. rewrite !length_ahead by done.
  rewrite decide_False by lia. by apply wp_ret.
Qed.

Lemma wp_fwrite f n buf (Q : Z * stream → host → Prop) h :
  0 ≤ st_pos f → 0 ≤ n ≤ zlen buf → st_pos f + n ≤ zlen (contents h (st_path f)) →
  zlen (contents h (st_path f)) ≤ host_limit h →
  Q (n, Stream (st_path f) (st_pos f + n))
    (set_files (<[st_path f := splice (contents h (st_path f)) (Z.to_nat (st_pos f)) (take (Z.to_nat n) buf)]>
                  (host_files h)) h) →
  wp (fwrite f n buf) Q h.
Proof.
  intros Hp Hn Hl Hlim HQ. unfold fwrite. rewrite decide_False by lia. apply wp_bind, wp_get. cbv zeta.
  rewrite Z.min_l by lia. apply wp_bind, wp_modify, wp_ret.
  assert (zlen (take (Z.to_nat n) buf) = n) as Hz by (rewrite length_take; lia).
  rewrite overwrite_in, Hz by lia. done.
Qed.

(** *** The two transfers *)

(** [h'] is [h] with the image [c]; only the stream's position differs otherwise. *)
Record image_is (c : list Z) (h h' : host) : Prop := {
  ii_image : image h' = c;
  ii_path : st_path <$> ata_file h' = st_path <$> ata_file h;
  ii_limit : host_limit h' = host_limit h;
  ii_others p : Some p ≠ st_path <$> ata_file h → host_files h' !! p = host_files h !! p;
}.

Lemma image_is_ready c h h' :
  image_ready h → image_is c h h' → length c = length (image h) → Forall is_byte c → image_ready h'.
Proof.
  intros [Ho Hb Hl Ha] [E Ep El _] Hlen Hc. split; rewrite ?E, ?El, ?Hlen; try done.
  rewrite <-(fmap_is_Some st_path), Ep, fmap_is_Some. exact Ho.
Qed.

Lemma wp_image_read lba n buf (Q : Z * list Z → host → Prop) h :
  image_ready h → 0 ≤ lba → 0 < n < 256 → lba + n ≤ image_size h → 512 * n ≤ zlen buf →
  (∀ h', image_is (image h) h h' →
     Q (0, splice buf 0 (sectors (image_sector h) lba (Z.to_nat n))) h') →
  wp (ata_read lba n buf) Q h.
Proof.
  intros [[f Ef] Hb Hl Ha] Hlba Hn Hfit Hbuf HQ. apply image_size_spec in Hfit as Hbytes.
  assert (image h = contents h (st_path f)) as Hi by (unfold image; by rewrite Ef).
  apply wp_bind, (wp_ata_file (Some f)); [done|]. unfold SECTOR_SIZE, u64, fseek.
  rewrite Z.mod_small by lia. rewrite decide_False by lia. apply wp_bind, wp_modify.
  rewrite decide_False by auto. rewrite Hi in *. apply wp_bind, wp_fread; cbn [st_path st_pos]; try lia.
  { change (contents (set_ata_file _ h) (st_path f)) with (contents h (st_path f)). lia. }
  apply wp_bind, wp_modify. rewrite decide_False by lia. apply wp_ret.
  change (contents (set_ata_file _ h) (st_path f)) with (contents h (st_path f)).
  rewrite sectors_of_image, Hi in HQ by lia.
  replace (512 * Z.of_nat (Z.to_nat n)) with (n * 512) in HQ by lia. rewrite (Z.mul_comm 512) in HQ.
  apply HQ. split; try done. by rewrite Ef.
Qed.

Lemma wp_image_write lba n buf (Q : Z → host → Prop) h :
  image_ready h → 0 ≤ lba → 0 < n < 256 → lba + n ≤ image_size h → 512 * n ≤ zlen buf →
  (∀ h', image_is (splice (image h) (Z.to_nat (512 * lba)) (take (Z.to_nat (512 * n)) buf)) h h' → Q 0 h') →
  wp (ata_write lba n buf) Q h.
Proof.
  intros [[f Ef] Hb Hl Ha] Hlba Hn Hfit Hbuf HQ. apply image_size_spec in Hfit as Hbytes.
  assert (image h = contents h (st_path f)) as Hi by (unfold image; by rewrite Ef).
  apply wp_bind, (wp_ata_file (Some f)); [done|]. unfold SECTOR_SIZE, u64, fseek.
  rewrite Z.mod_small by lia. rewrite decide_False by lia. apply wp_bind, wp_modify.
  rewrite decide_False by auto. rewrite Hi in *. apply wp_bind, wp_fwrite; cbn [st_path st_pos]; try lia.
  { change (contents (set_ata_file _ h) (st_path f)) with (contents h (st_path f)). lia. }
  { exact Hl. }
  apply wp_bind, wp_modify. rewrite decide_False by lia. apply wp_ret.
  change (contents (set_ata_file _ h) (st_path f)) with (contents h (st_path f)).
  rewrite (Z.mul_comm 512), (Z.mul_comm 512) in HQ. apply HQ. split; try done.
  - unfold image, contents. cbn. by rewrite lookup_insert_eq.
  - by rewrite Ef.
  - intros p Hp. cbn. rewrite lookup_insert_ne; [done|]. intros <-. apply Hp. by rewrite Ef.
Qed.

(** *** The sectors after a write *)

Lemma sector_of_splice c lba n buf k :
  0 ≤ lba → 0 ≤ n → 512 * n ≤ zlen buf → 512 * (lba + n) ≤ zlen c → 0 ≤ k → 512 * (k + 1) ≤ zlen c →
  sector_of (splice c (Z.to_nat (512 * lba)) (take (Z.to_nat (512 * n)) buf)) k
    = if decide (lba ≤ k < lba + n) then sector_of buf (k - lba) else sector_of c k.
Proof.
  intros Hlba Hn Hb Hc Hk Hkc. apply list_eq. intros j.
  assert (length (take (Z.to_nat (512 * n)) buf) = Z.to_nat (512 * n)) as Hl by (rewrite length_take; lia).
  destruct (decide (j < 512)%nat) as [Hj|Hj].
  - unfold sector_of. rewrite lookup_take_lt, lookup_drop, lookup_splice, Hl by lia.
    case_decide as Hin; case_decide as Hin2; try lia;
      rewrite !lookup_take_lt, lookup_drop by lia; f_equal; lia.
  - unfold sector_of. rewrite lookup_take_ge by lia. case_decide; by rewrite lookup_take_ge by lia.
Qed.

Lemma wp_returns {S A} (m : M S A) r (P : S → Prop) s :
  wp m (λ a s', a = r ∧ P s') s → ∃ s', m s = Done (r, s') ∧ P s'.
Proof. rewrite wp_done. naive_solver. Qed.

(** The rest of the host: the path of the image, the limit, the other files. *)
Record same_host (h0 h : host) : Prop := {
  sh_path : st_path <$> ata_file h = st_path <$> ata_file h0;
  sh_limit : host_limit h = host_limit h0;
  sh_others p : Some p ≠ st_path <$> ata_file h0 → host_files h !! p = host_files h0 !! p;
}.

Lemma same_host_image h0 c h h' : same_host h0 h → image_is c h h' → same_host h0 h'.
Proof.
  intros [Hp Hl Ho] [_ Ep El Eo]. split; [by rewrite Ep|by rewrite El|].
  intros p Hn. rewrite Eo by (by rewrite Hp). by apply Ho.
Qed.

(** An image that is ready in a host whose other files are those of [h0]. *)
Program Definition host_laws (h0 : host) : BlockDeviceLaws host := {|
  dev_ready h := image_ready h ∧ same_host h0 h; dev_size := image_size; dev_sector := image_sector;
|}.
Next Obligation. intros h0 h k _. apply length_image_sector. Qed.
Next Obligation. intros h0 h k [Hr _]. by apply image_sector_bytes. Qed.
Next Obligation.
  intros h0 h lba n buf [Hr Hsame] Hlba Hn Hfit Hb. apply wp_returns.
  apply wp_image_read; [done..|]. intros h' Hi. split; [reflexivity|].
  assert (image_size h' = image_size h) as Hz by (unfold image_size; by rewrite (ii_image _ _ _ Hi)).
  split; [split|split; [done|]].
  - eapply image_is_ready; [done..|apply Hr].
  - by eapply same_host_image.
  - intros k. unfold image_sector. by rewrite Hz, (ii_image _ _ _ Hi).
Qed.
Next Obligation.
  intros h0 h lba n buf [Hr Hsame] Hlba Hn Hfit Hb Hbb. apply wp_returns.
  apply wp_image_write; [done..|]. intros h' Hi. split; [reflexivity|].
  apply image_size_spec in Hfit as Hbytes.
  set (c := splice (image h) (Z.to_nat (512 * lba)) (take (Z.to_nat (512 * n)) buf)) in *.
  assert (length c = length (image h)) as Hlen by (unfold c; rewrite length_splice; rewrite ?length_take; lia).
  assert (image_size h' = image_size h) as Hz by (unfold image_size; by rewrite (ii_image _ _ _ Hi), Hlen).
  split; [split|split; [done|]].
  - eapply image_is_ready; [done..|]. unfold c, splice. rewrite !Forall_app.
    split_and!; [apply Forall_take, Hr|by apply Forall_take|apply Forall_drop, Hr].
  - by eapply same_host_image.
  - intros k. unfold image_sector at 1. rewrite Hz. case_decide as Hk.
    + assert (k + 1 ≤ image_size h) as Hk1%image_size_spec by lia.
      rewrite (ii_image _ _ _ Hi). unfold c. rewrite sector_of_splice by lia.
      case_decide; [done|]. by rewrite image_sector_in.
    + rewrite decide_False by lia. unfold image_sector. by rewrite decide_False.
Qed.
