(* ===== verification/HostString.v ===== *)
(** * The host's C library, as far as the image builder uses it

    fs_loader/fat_loader.c is linked with the C library of the host, not with
    lib/src/string: the string functions here are those of the C standard.
    Arrays and pointers are as in [CString].  [strlen], [strcmp] and [isalnum] are
    the ones of [CString], which agree with the standard; [strncmp], [strcpy],
    [strncpy] and [strrchr] do not. *)

From S2P Require Import Prelude CString.

(** ** Definitions *)

Fixpoint strncmp (str1 str2 : list Z) (num : nat) {struct num} : outcome Z :=
  match num with
  | O => Done 0
  | S num' =>
      match str1, str2 with
      | c1 :: t1, c2 :: t2 =>
          if decide (c1 ≠ 0 ∧ c1 = c2) then strncmp t1 t2 num' else Done (c1 - c2)
      | _, _ => Fault
      end
  end.

Fixpoint strcpy (destination source : list Z) : outcome (list Z) :=
  match destination, source with
  | _ :: d, c :: s => if decide (c = 0) then Done (0 :: d) else r ← strcpy d s; Done (c :: r)
  | _, _ => Fault
  end.

(** Characters behind the terminator are filled with zeros. *)
Fixpoint strncpy (destination source : list Z) (num : nat) {struct num} : outcome (list Z) :=
  match num with
  | O => Done destination
  | S num' =>
      match destination, source with
      | _ :: d, c :: s => r ← strncpy d (if decide (c = 0) then [0] else s) num'; Done (c :: r)
      | _, _ => Fault
      end
  end.

(** The index of the last match before the terminator. *)
Fixpoint strrchr_from (str : list Z) (character : Z) (i : nat) (ret : option nat) : outcome (option nat) :=
  match str with
  | [] => Fault
  | c :: str' =>
      if decide (c = 0) then Done ret
      else strrchr_from str' character (S i) (if decide (c = character) then Some i else ret)
  end.
Definition strrchr (str : list Z) (character : Z) : outcome (option nat) := strrchr_from str character 0 None.

Definition memset (dest : list Z) (val len : Z) : outcome (list Z) :=
  if decide (zlen dest < len) then Fault
  else Done (replicate (Z.to_nat len) (u8 val) ++ drop (Z.to_nat len) dest).

(** [memcpy(dst + i, src, n)] *)
Definition memcpy_at (dst : list Z) (i : Z) (src : list Z) (n : Z) : outcome (list Z) :=
  if decide (zlen src < n ∨ zlen dst < i + n) then Fault
  else Done (splice dst (Z.to_nat i) (take (Z.to_nat n) src)).

(** ** On zero-terminated strings *)

Lemma host_strncmp_cstr s1 s2 r1 r2 n :
  str_ok s1 → str_ok s2 →
  ∃ d, strncmp (s1 ++ 0 :: r1) (s2 ++ 0 :: r2) n = Done d ∧ (d = 0 ↔ take n s1 = take n s2).
Proof.
  intros H1. revert s2 n. induction H1 as [|c1 s1 Hc1 _ IH]; intros s2 n H2;
    (destruct n as [|n]; [by exists 0|]); destruct H2 as [|c2 s2 Hc2 H2]; cbn [app strncmp].
  - exists 0. by rewrite decide_False by tauto.
  - rewrite decide_False by tauto. eexists. split; [done|]. rewrite take_nil, firstn_cons. split; [lia|done].
  - rewrite decide_False by lia. eexists. split; [done|]. rewrite take_nil, firstn_cons. split; [lia|done].
  - rewrite !firstn_cons. case_decide as Hc.
    + destruct Hc as [_ ->]. destruct (IH s2 n H2) as (d & -> & Hd). exists d. split; [done|].
      rewrite Hd. split; [by intros ->|by intros [= ->]].
    + eexists. split; [done|]. split; [lia|intros [= -> _]; lia].
Qed.

(** A field that need not be terminated, against a string. *)
Lemma host_strncmp_field bs n r num :
  str_ok n → (num ≤ length bs)%nat →
  ∃ d, strncmp bs (n ++ 0 :: r) num = Done d ∧ (d = 0 ↔ cstr (take num bs) = take num n).
Proof.
  revert bs n. induction num as [|num IH]; intros bs n Hn Hl; [by exists 0|].
  destruct bs as [|b bs]; simpl in Hl; [lia|]. cbn [strncmp]. rewrite firstn_cons. cbn [cstr].
  destruct Hn as [|c n Hc Hn]; cbn [app].
  - rewrite decide_False by lia. eexists. split; [done|]. rewrite take_nil. case_decide; split; intros; simplify_eq; lia || done.
  - rewrite firstn_cons. destruct (decide (b ≠ 0 ∧ b = c)) as [[Hb ->]|Hne].
    + rewrite decide_False by done. destruct (IH bs n Hn ltac:(lia)) as (d & -> & Hd). exists d. split; [done|].
      rewrite Hd. split; [by intros ->|by intros [= ->]].
    + eexists. split; [done|]. case_decide; split; intros; simplify_eq; lia || done.
Qed.

Lemma host_strcpy_cstr s dst rest :
  str_ok s → (length s < length dst)%nat →
  strcpy dst (s ++ 0 :: rest) = Done (s ++ 0 :: drop (S (length s)) dst).
Proof.
  intros Hs. revert dst. induction Hs as [|c s Hc _ IH]; intros [|d dst] Hl; simpl in Hl |- *; try lia; [done|].
  rewrite decide_False by lia. by rewrite IH by lia.
Qed.

Lemma strncpy_zeros dst n : (n ≤ length dst)%nat → strncpy dst [0] n = Done (replicate n 0 ++ drop n dst).
Proof.
  revert dst. induction n as [|n IH]; intros [|d dst] Hl; simpl in Hl |- *; try lia; [done..|].
  by rewrite IH by lia.
Qed.

Lemma host_strncpy_cstr s dst rest n :
  str_ok s → (n ≤ length dst)%nat →
  strncpy dst (s ++ 0 :: rest) n = Done (take n s ++ replicate (n - length s) 0 ++ drop n dst).
Proof.
  intros Hs. revert dst n. induction Hs as [|c s Hc _ IH]; intros dst n Hl.
  - destruct n as [|n]; [done|]. destruct dst as [|d dst]; simpl in Hl; [lia|].
    cbn [app strncpy]. rewrite decide_True, strncpy_zeros by (done || lia). done.
  - destruct n as [|n]; [done|]. destruct dst as [|d dst]; simpl in Hl; [lia|].
    cbn [app strncpy]. rewrite decide_False by lia. by rewrite IH by lia.
Qed.

Lemma host_strrchr_cstr s rest c :
  str_ok s → strrchr (s ++ 0 :: rest) c = Done (last_index c s 0 None).
Proof.
  intros Hs. unfold strrchr. generalize (@None nat) as ret. generalize 0%nat as i.
  induction Hs as [|d s Hd _ IH]; intros i ret; [done|].
  cbn [app strrchr_from last_index]. rewrite decide_False by lia. apply IH.
Qed.

Lemma host_memcpy_at_spec dst i src n :
  0 ≤ i → 0 ≤ n ≤ zlen src → i + n ≤ zlen dst →
  memcpy_at dst i src n = Done (splice dst (Z.to_nat i) (take (Z.to_nat n) src)).
Proof. intros. unfold memcpy_at. by rewrite decide_False by lia. Qed.
