(* ===== verification/FatLoader.v ===== *)
(** * The image builder: its file system

    fs_loader/fat_loader.c, the program that puts a file of the host into a disk
    image, carries an older copy of the kernel's FAT16 driver.  The functions on
    the table and the clusters have the text of the kernel's; they are the
    definitions of [FatTable], run over any block device (here the image,
    [HostDisk]) and over the heap of the host's C library in the place of the
    kernel's.  So are [fat_update_dir_entry] ([FatDir]), [check_file_name]
    ([FatPath]) and [fat_read] ([FatFile]).  Here is what differs: [fat_init] (a
    table of fixed size); everything that calls string functions, which are the
    host's ([HostString]); the return codes; the counting in [fat_create] and
    [fat_delete]; and [fat_write], which extends the chain itself while it writes
    and keeps every copy of the table. *)

From S2P Require Import Prelude CString Interfaces FatTable FatChain FatDir FatPath FatFile HostString.

(** ** Definitions *)

(** [ReturnCode] *)
Definition SUCCESS : Z := 0.
Definition GENERAL_ERROR : Z := 1.
Definition DIR_NOT_FOUND : Z := 2.
Definition FILE_NOT_FOUND : Z := 3.
Definition FILE_ALREADY_EXISTS : Z := 4.
Definition DIR_NAME_EXCEEDS_LENGTH : Z := 5.
Definition FILE_NAME_EXCEEDS_LENGTH : Z := 6.
Definition INVALID_FILE_NAME : Z := 7.
Definition DIRECTORY_ISNT_EMPTY : Z := 8.
Definition CANT_ALLOCATE_SPACE : Z := 9.

(** [FileData data = {0}] *)
Definition no_data : FileData := mkFileData zero_entry zero_entry.

Section operations.
Context {D H : Type} `{BlockDevice D} `{KernelHeap H}.

(** *** Mounting *)

(** [fresh] is what the 65536 bytes of [malloc(256 * 256)] hold, as words; the
    [memset] counts bytes. *)
Definition fat_init (fresh : list Z) : M (fat_state D H) bool :=
  '(code, boot_sector) ← read_disk 0 1 (replicate 512 0);
  if decide (code ≠ 0) then _ ← print "Failed to read boot sector." []; mret false else
  let signature := field boot_sector 510 2 in
  if decide (signature ≠ FAT16_SIGNATURE)
  then _ ← print "Invalid FAT16 signature: 0x%X" [signature]; mret false else
  if decide (field boot_sector 11 2 = 0) then fault (* division by zero *) else
  let fs := parse_boot_sector boot_sector in
  _ ← modify (set_fs fs);
  p ← heap_alloc (256 * 256);
  if decide (p = 0) then _ ← modify (set_table None); mret false else
  bytes ← liftO (memset (table_bytes fresh 0) 0 (Z.quot (bytes_per_sector fs) 2 * sectors_per_fat fs));
  _ ← modify (set_table (Some (words_of_bytes bytes)));
  ok ← read_table 0 (Z.to_nat (sectors_per_fat fs));
  if negb ok then mret false else
  root ← gets root_dir;
  root_name ← liftO (strcpy (name root) [TILDE; 0]);
  _ ← modify (set_root (mkEntry root_name (Z.lor (attr root) FAT_ATTR_DIRECTORY)
        (case_attr root) (creation_time_ms root) (creation_time root) (creation_date root)
        (last_access_date root) (reserved root) (last_modification_time root)
        (last_modification_date root) 0 (u32 (root_dir_entries fs * 32))));
  _ ← print "FAT16 Initialized:" [bytes_per_sector fs; sectors_per_cluster fs;
        reserved_sectors fs; root_dir_start fs; data_start fs; num_fats fs * sectors_per_fat fs];
  mret true.

(** *** Directories *)

(** [strncmp(dir[dir_entry].name, name, FAT16_FILENAME_SIZE)] *)
Definition cmp_name (name slot : list Z) : outcome Z := strncmp slot name (Z.to_nat FAT16_FILENAME_SIZE).

Definition fat_find_dir_entry (name : list Z) (current_dir : FAT16_DirEntry) :
    M (fat_state D H) (option FAT16_DirEntry) := find_entry (cmp_name name) current_dir.
Definition fat_add_dir_entry (parent_dir new_entry : FAT16_DirEntry) : M (fat_state D H) bool :=
  add_entry (cmp_name [0]) parent_dir new_entry.
Definition fat_remove_dir_entry (name : list Z) (current_dir : FAT16_DirEntry) (delete_chain : bool) :
    M (fat_state D H) bool := remove_entry (cmp_name name) current_dir delete_chain.

(** *** Paths *)

(** The array [parent_dir] after the call. *)
Definition get_parent_dir (path parent_dir : list Z) : outcome (list Z) :=
  path_copy ← strcpy PATH_COPY path;
  last_slash ← strrchr path_copy SLASH;
  let path_copy := match last_slash with Some i => <[i := 0]> path_copy | None => path_copy end in
  n ← strlen path_copy;
  if decide (n = 0) then strcpy parent_dir [SLASH; 0] else strcpy parent_dir path_copy.

Definition get_base_name (path name : list Z) : outcome (list Z) :=
  path_copy ← strcpy PATH_COPY path;
  last_slash ← strrchr path_copy SLASH;
  match last_slash with
  | Some i => strcpy name (drop (S i) (<[i := 0]> path_copy))
  | None => strcpy name path_copy
  end.

(** [dot_entries] with a name, added to the new directory. *)
Definition dot_entry (n : list Z) (cluster : Z) : outcome FAT16_DirEntry :=
  let e := set_attr FAT_ATTR_DIRECTORY (set_start cluster zero_entry) in
  nm ← strcpy (FatTable.name e) n; Done (set_name nm e).

(** One round of the resolution, as [FatPath.path_round] but for the codes. *)
Definition path_round (path : list Z) (path_len : Z) (a : Z * FAT16_DirEntry * list Z) :
    M (fat_state D H) ((Z * FAT16_DirEntry * list Z) + (Z + FAT16_DirEntry)) :=
  let '(start_index, curr_dir_entry, sub_name) := a in
  index ← liftO (component_end path path_len start_index start_index 13);
  if decide (11 < index - start_index) then mret (inr (inl DIR_NAME_EXCEEDS_LENGTH)) else
  sub_name ← liftO (memset sub_name 0 FAT16_FILENAME_SIZE);
  sub_name ← liftO (strncpy sub_name (drop (Z.to_nat start_index) path) (Z.to_nat (index - start_index)));
  if decide (start_index = 0) then
    d1 ← liftO (strncmp sub_name [0] 11);
    d2 ← liftO (if decide (d1 ≠ 0) then strncmp sub_name [TILDE; 0] 11 else Done 0);
    if decide (d1 ≠ 0 ∧ d2 ≠ 0) then mret (inr (inl DIR_NOT_FOUND))
    else mret (inl (index + 1, curr_dir_entry, sub_name))
  else if decide (path_len - 1 ≤ index) then
    r ← fat_find_dir_entry sub_name curr_dir_entry;
    match r with
    | None => mret (inr (inl (if decide (index = path_len - 1) then DIR_NOT_FOUND else FILE_NOT_FOUND)))
    | Some e => mret (inr (inr e))
    end
  else if decide (Z.land (attr curr_dir_entry) FAT_ATTR_DIRECTORY = 0) then mret (inr (inl DIR_NOT_FOUND))
  else
    r ← fat_find_dir_entry sub_name curr_dir_entry;
    match r with
    | None => mret (inr (inl DIR_NOT_FOUND))
    | Some e => mret (inl (index + 1, e, sub_name))
    end.

(** The error code, or the entry. *)
Definition fat_find_dir_entry_from_path (path : list Z) : M (fat_state D H) (Z + FAT16_DirEntry) :=
  root ← gets root_dir;
  path_len ← liftO (strlen path);
  d1 ← liftO (strncmp path [TILDE; SLASH; 0] 3);
  d2 ← liftO (if decide (d1 = 0) then Done 0 else strncmp path [SLASH; 0] 2);
  d3 ← liftO (if decide (d1 = 0 ∨ d2 = 0) then Done 0 else strncmp path [DOT; SLASH; 0] 3);
  if decide (d1 = 0 ∨ d2 = 0 ∨ d3 = 0) then mret (inr root) else
  iter (Z.to_nat path_len + 2) (path_round path path_len) (0, root, replicate 12 0).

Definition fat_create (path : list Z) (is_directory : bool) : M (fat_state D H) Z :=
  dir_name ← liftO (get_base_name path (replicate 12 0));
  directory ← liftO (get_parent_dir path PATH_BUFFER);
  ok ← liftO (check_file_name dir_name);
  if negb ok then mret INVALID_FILE_NAME else
  r ← fat_find_dir_entry_from_path directory;
  match r with
  | inl err => mret err
  | inr parent_dir =>
    if decide (Z.land (attr parent_dir) FAT_ATTR_DIRECTORY = 0) then mret DIR_NOT_FOUND else
    found ← fat_find_dir_entry dir_name parent_dir;
    match found with
    | Some _ => mret FILE_ALREADY_EXISTS
    | None =>
      index ← fat_find_free;
      (* the comparison of the 16-bit field with -1 is never true *)
      let dir := set_start index zero_entry in
      if decide (start_cluster dir = -1) then mret CANT_ALLOCATE_SPACE else
      _ ← fat_update_chain (start_cluster dir) (start_cluster dir);
      nm ← liftO (strncpy (name dir) dir_name (Z.to_nat FAT16_FILENAME_SIZE));
      let dir := set_name nm dir in
      let dir := if is_directory then set_attr (Z.lor (attr dir) FAT_ATTR_DIRECTORY) dir else dir in
      ok ← fat_add_dir_entry parent_dir dir;
      if negb ok then _ ← fat_free_chain (start_cluster dir); mret GENERAL_ERROR else
      ok ← (if is_directory then
              dot ← liftO (dot_entry [DOT; 0] (start_cluster dir));
              ok ← fat_add_dir_entry dir dot;
              if negb ok then mret false else
              dotdot ← liftO (dot_entry [DOT; DOT; 0] (start_cluster parent_dir));
              fat_add_dir_entry dir dotdot
            else mret true : M (fat_state D H) bool);
      if negb ok then _ ← fat_free_chain (start_cluster dir); mret GENERAL_ERROR else
      let parent_dir := set_size (file_size parent_dir + 1) parent_dir in
      parent_parent ← liftO (get_parent_dir directory PATH_BUFFER);
      r ← fat_find_dir_entry_from_path parent_parent;
      match r with
      | inl err => mret err
      | inr parent_parent_dir =>
          (* counted a second time *)
          let parent_dir := set_size (file_size parent_dir + 1) parent_dir in
          _ ← fat_update_dir_entry (encode parent_dir) parent_parent_dir parent_dir;
          mret SUCCESS
      end
    end
  end.

(** Both wrappers end without a return statement. *)
Definition fat_create_file (path : list Z) : M (fat_state D H) unit :=
  _ ← fat_create path false; mret tt.
Definition fat_create_directory (path : list Z) : M (fat_state D H) unit :=
  _ ← fat_create path true; mret tt.

Definition fat_delete (path : list Z) (is_directory : bool) : M (fat_state D H) Z :=
  dir_name ← liftO (get_base_name path (replicate 12 0));
  parent_dir_name ← liftO (get_parent_dir path PATH_BUFFER);
  parent_parent_dir_name ← liftO (get_parent_dir parent_dir_name PATH_BUFFER);
  r ← fat_find_dir_entry_from_path path;
  match r with
  | inl err => mret err
  | inr dir =>
    (* the directory test is [attr && FAT_ATTR_DIRECTORY] *)
    if is_directory && bool_decide (attr dir = 0) then mret DIR_NOT_FOUND else
    if is_directory && bool_decide (file_size dir ≠ 0) then mret DIRECTORY_ISNT_EMPTY else
    if negb is_directory && bool_decide (Z.land (attr dir) FAT_ATTR_DIRECTORY ≠ 0)
    then mret FILE_NOT_FOUND else
    r ← fat_find_dir_entry_from_path parent_dir_name;
    match r with
    | inl err => mret err
    | inr parent_dir =>
      r ← fat_find_dir_entry_from_path parent_parent_dir_name;
      match r with
      | inl err => mret err
      | inr parent_parent_dir =>
          _ ← fat_remove_dir_entry dir_name parent_dir true;
          let parent_dir := set_size (file_size parent_dir - 1) parent_dir in
          _ ← fat_update_dir_entry (encode parent_dir) parent_parent_dir parent_dir;
          mret SUCCESS
      end
    end
  end.
Definition fat_delete_file (path : list Z) : M (fat_state D H) Z := fat_delete path false.
Definition fat_delete_dir (path : list Z) : M (fat_state D H) Z := fat_delete path true.

Definition fat_rename (path new_name : list Z) : M (fat_state D H) Z :=
  r ← fat_find_dir_entry_from_path path;
  match r with
  | inl err => mret err
  | inr file =>
    directory ← liftO (get_parent_dir path PATH_BUFFER);
    r ← fat_find_dir_entry_from_path directory;
    match r with
    | inl err => mret err
    | inr parent_dir =>
      if decide (Z.land (attr parent_dir) FAT_ATTR_DIRECTORY = 0) then mret DIR_NOT_FOUND else
      n ← liftO (strlen new_name);
      if decide (FAT16_FILENAME_SIZE < n) then mret FILE_NAME_EXCEEDS_LENGTH else
      ok ← liftO (check_file_name new_name);
      if negb ok then mret INVALID_FILE_NAME else
      previous_name ← liftO (strncpy (replicate 12 0) (encode file) (Z.to_nat FAT16_FILENAME_SIZE));
      nm ← liftO (memset (name file) 0 FAT16_FILENAME_SIZE);
      nm ← liftO (strncpy nm new_name (Z.to_nat FAT16_FILENAME_SIZE));
      let file := set_name nm file in
      found ← fat_find_dir_entry (encode file) parent_dir;
      match found with
      | Some _ => mret FILE_ALREADY_EXISTS
      | None =>
          ok ← fat_update_dir_entry previous_name parent_dir file;
          mret (if (ok : bool) then SUCCESS else GENERAL_ERROR)
      end
    end
  end.

(** The structure is returned whole; what was not found is zero. *)
Definition fat_get_file_data (path : list Z) : M (fat_state D H) FileData :=
  r ← fat_find_dir_entry_from_path path;
  match r with
  | inl _ => mret no_data
  | inr file =>
      if decide (Z.land (attr file) FAT_ATTR_DIRECTORY ≠ 0) then mret no_data else
      parent_path ← liftO (get_parent_dir path PATH_BUFFER);
      r ← fat_find_dir_entry_from_path parent_path;
      match r with
      | inl _ => mret (mkFileData file zero_entry)
      | inr parent => mret (mkFileData file parent)
      end
  end.

Definition fat_get_dir_data (path : list Z) : M (fat_state D H) FileData :=
  r ← fat_find_dir_entry_from_path path;
  match r with
  | inl _ => mret no_data
  | inr dir =>
      if decide (Z.land (attr dir) FAT_ATTR_DIRECTORY = 0) then mret no_data else
      parent_path ← liftO (get_parent_dir path PATH_BUFFER);
      r ← fat_find_dir_entry_from_path parent_path;
      match r with
      | inl _ => mret (mkFileData dir zero_entry)
      | inr parent => mret (mkFileData dir parent)
      end
  end.

(** *** Writing *)

(** The body of the loop over the copies of the table, one entry at a time: the
    sector of entry [c] in copy [fat] is read into [fat_sector_data], changed and
    written back.  The result says whether both transfers succeeded. *)
Definition patch_copy (fat c v : Z) : M (fat_state D H) bool :=
  fs ← gets fat16_fs;
  if decide (bytes_per_sector fs = 0) then fault else
  let fat_sector := u32 (reserved_sectors fs + fat * sectors_per_fat fs + u32 (c * 2) / bytes_per_sector fs) in
  let sector_offset := u32 (c * 2) mod bytes_per_sector fs in
  '(code, fat_sector_data) ← read_disk fat_sector 1 (replicate 512 0);
  if decide (code ≠ 0) then mret false else
  if decide (512 < sector_offset + 2) then fault else
  code ← write_disk fat_sector 1 (splice fat_sector_data (Z.to_nat sector_offset) (le_bytes 2 v));
  mret (bool_decide (code = 0)).

(** [for (int fat = 0; fat < fat16_fs.num_fats; fat++)], left when a transfer fails. *)
Fixpoint for_copies (body : Z → M (fat_state D H) bool) (fat : Z) (n : nat) : M (fat_state D H) bool :=
  match n with
  | O => mret true
  | S n' => ok ← body fat; if (ok : bool) then for_copies body (fat + 1) n' else mret false
  end.

(** A first cluster marked in every copy. *)
Definition mark_copies (c : Z) : M (fat_state D H) bool :=
  fs ← gets fat16_fs;
  for_copies (λ fat, patch_copy fat c FAT16_CLUSTER_CHAIN_END) 0 (Z.to_nat (num_fats fs)).

(** A link and the end mark behind it, in every copy. *)
Definition link_copies (c new_cluster : Z) : M (fat_state D H) bool :=
  fs ← gets fat16_fs;
  for_copies (λ fat,
    ok ← patch_copy fat c new_cluster;
    if (ok : bool) then patch_copy fat new_cluster FAT16_CLUSTER_CHAIN_END else mret false)
    0 (Z.to_nat (num_fats fs)).

(** What an attempt to add a cluster behind [c] comes to. *)
Inductive extension :=
| Extended (new_cluster : Z)
| NoSpace
| DiskError.

Definition extend_chain (c : Z) : M (fat_state D H) extension :=
  new_cluster ← fat_find_free;
  if decide (new_cluster = -1) then mret NoSpace else
  _ ← set_fat_entry c new_cluster;
  _ ← set_fat_entry new_cluster FAT16_CLUSTER_CHAIN_END;
  ok ← link_copies c new_cluster;
  mret (if (ok : bool) then Extended new_cluster else DiskError).

(** The walk to the cluster the offset lies in; [None] is [return -1]. *)
Fixpoint write_seek (current_cluster : Z) (n : nat) : M (fat_state D H) (option Z) :=
  match n with
  | O => mret (Some current_cluster)
  | S n' =>
      if decide (FAT16_CLUSTER_CHAIN_END ≤ current_cluster) then
        r ← extend_chain current_cluster;
        match r with
        | Extended new_cluster => write_seek new_cluster n'
        | _ => mret None
        end
      else v ← fat_entry current_cluster; write_seek v n'
  end.

(** One round.  The loop is left with the number of bytes written, or with
    [None] for [return -1]. *)
Definition write_round (bytes_per_cluster size : Z) (buffer : list Z) (a : write_loop) :
    M (fat_state D H) (write_loop + option Z) :=
  let '(WriteLoop bytes_written cluster_offset current_cluster cluster_buffer) := a in
  if decide (bytes_written < size) then
    '(code, cluster_buffer) ←
      (if decide (0 < cluster_offset ∨ size - bytes_written < bytes_per_cluster)
       then fat_read_data_cluster current_cluster cluster_buffer else mret (0, cluster_buffer));
    if decide (code ≠ 0) then mret (inr None) else
    let bytes_to_write := Z.min (u32 (bytes_per_cluster - cluster_offset)) (size - bytes_written) in
    cluster_buffer ← liftO (memcpy_at cluster_buffer cluster_offset
                              (drop (Z.to_nat bytes_written) buffer) bytes_to_write);
    code ← fat_write_data_cluster current_cluster cluster_buffer;
    if decide (code ≠ 0) then mret (inr None) else
    let bytes_written := u32 (bytes_written + bytes_to_write) in
    if decide (bytes_written < size) then
      v ← fat_entry current_cluster;
      if decide (FAT16_CLUSTER_CHAIN_END ≤ v) then
        r ← extend_chain current_cluster;
        match r with
        | Extended new_cluster => mret (inl (WriteLoop bytes_written 0 new_cluster cluster_buffer))
        | NoSpace => mret (inr (Some bytes_written))
        | DiskError => mret (inr None)
        end
      else mret (inl (WriteLoop bytes_written 0 v cluster_buffer))
    else mret (inl (WriteLoop bytes_written 0 current_cluster cluster_buffer))
  else mret (inr (Some bytes_written)).

(** The first cluster of the file, taken now when it has none; the result also
    holds the entry, and [None] is [return -1]. *)
Definition first_cluster (file : FAT16_DirEntry) : M (fat_state D H) (option Z * FAT16_DirEntry) :=
  if decide (start_cluster file = 0) then
    current_cluster ← fat_find_free;
    if decide (current_cluster = -1) then mret (None, file) else
    let file := set_start current_cluster file in
    _ ← set_fat_entry current_cluster FAT16_CLUSTER_CHAIN_END;
    ok ← mark_copies current_cluster;
    mret (if (ok : bool) then Some current_cluster else None, file)
  else mret (Some (start_cluster file), file).

(** The return value and the file's entry after the call. *)
Definition fat_write (file parent_dir : FAT16_DirEntry) (offset size : Z) (buffer : list Z) :
    M (fat_state D H) (Z * FAT16_DirEntry) :=
  if decide (Z.land (attr file) FAT_ATTR_DIRECTORY ≠ 0) then mret (-1, file) else
  bytes_per_cluster ← gets cluster_bytes;
  if decide (bytes_per_cluster = 0) then fault else
  '(first, file) ← first_cluster file;
  match first with
  | None => mret (-1, file)
  | Some current_cluster =>
    c ← write_seek current_cluster (Z.to_nat (offset / bytes_per_cluster));
    match c with
    | None => mret (-1, file)
    | Some current_cluster =>
        p ← heap_alloc bytes_per_cluster;
        if decide (p = 0) then mret (GENERAL_ERROR, file) else
        cluster_buffer ← cleared p bytes_per_cluster;
        r ← iter (Z.to_nat (size / bytes_per_cluster) + 3) (write_round bytes_per_cluster size buffer)
                 (WriteLoop 0 (offset mod bytes_per_cluster) current_cluster cluster_buffer);
        match r with
        | None => _ ← heap_free p; mret (-1, file)
        | Some bytes_written =>
            let new_size := u32 (offset + bytes_written) in
            file ← (if decide (file_size file < new_size) then
                      let file := set_size new_size file in
                      ok ← fat_update_dir_entry (encode file) parent_dir file;
                      _ ← (if (ok : bool) then mret tt
                           else print "Warning: Failed to update file size in directory entry" []);
                      mret file
                    else mret file);
            _ ← heap_free p;
            mret (s32 bytes_written, file)
        end
    end
  end.
End operations.
