(* ===== verification/FatCopies.v ===== *)
(** * The image builder: the copies of the allocation table

    [FatLoader.fat_write] links a new cluster in RAM and then in every copy of
    the table on disk, by reading, changing and writing back one sector per entry.
    The theorem says that the link is made, that nothing else changes, and that a
    copy that agreed with the table in RAM still does. *)

From S2P Require Import Prelude CString Interfaces FatTable FatChain FatDir FatPath FatFile FatMount FatLoader.

(** ** Entries inside a sector *)

(** The sector [q] of a copy with the entry [c] set. *)
Definition patch_entry (c v q : Z) (b : list Z) : list Z :=
  if decide (q = c / 256) then splice b (Z.to_nat (2 * (c mod 256))) (le_bytes 2 v) else b.

Lemma splice_words (l : list Z) i v :
  (i < length l)%nat →
  splice (concat (le_bytes 2 <$> l)) (2 * i) (le_bytes 2 v) = concat (le_bytes 2 <$> <[i := v]> l).
Proof.
  revert i. induction l as [|w l IH]; intros i Hi; simpl in Hi; [lia|].
  rewrite fmap_cons. change (concat (le_bytes 2 w :: (le_bytes 2 <$> l)))
    with (le_bytes 2 w ++ concat (le_bytes 2 <$> l)).
  destruct i as [|i].
  - change (2 * 0)%nat with 0%nat. rewrite splice_app_l by (rewrite !length_le_bytes; lia).
    rewrite splice_all by (by rewrite !length_le_bytes). done.
  - replace (2 * S i)%nat with (length (le_bytes 2 w) + 2 * i)%nat by (rewrite length_le_bytes; lia).
    rewrite splice_app_r, IH by lia. done.
Qed.

(** Patching a sector of the table is a change of the table. *)
Lemma patch_table_sector t c v q :
  0 ≤ c < zlen t → 0 ≤ q → 256 * (q + 1) ≤ zlen t →
  patch_entry c v q (table_sector t q) = table_sector (<[Z.to_nat c := v]> t) q.
Proof.
  intros Hc Hq Hl. unfold patch_entry. pose proof (Z.div_mod c 256 ltac:(lia)) as Hdm.
  pose proof (Z.mod_pos_bound c 256 ltac:(lia)) as Hm. case_decide as Heq.
  - unfold table_sector. replace (Z.to_nat (2 * (c mod 256))) with (2 * Z.to_nat (c mod 256))%nat by lia.
    rewrite splice_words by (rewrite length_take, length_drop; lia). do 2 f_equal.
    rewrite <-take_insert_lt by lia. f_equal. rewrite drop_insert_ge by lia. f_equal. lia.
  - symmetry. apply table_sector_other; [lia|lia|done].
Qed.

Section specs.
Context {D H : Type} `{BlockDeviceLaws D} `{KernelHeapLaws H}.
Implicit Types s : fat_state D H.

(** The sector [q] of the copy [fat]. *)
Definition copy_at s (fat q : Z) : Z :=
  reserved_sectors (fat16_fs s) + fat * sectors_per_fat (fat16_fs s) + q.
Definition copy_synced s (fat : Z) : Prop :=
  ∀ q, 0 ≤ q < sectors_per_fat (fat16_fs s) → content s (copy_at s fat q) = table_sector (table s) q.

(** [s'] is [s] with every sector [q] of every copy [fat] changed by [p fat q]. *)
Record copies_patched (p : Z → Z → list Z → list Z) s s' : Prop := {
  cp_fs : fat16_fs s' = fat16_fs s;
  cp_table : fat_table s' = fat_table s;
  cp_root : root_dir s' = root_dir s;
  cp_ready : dev_ready (disk s) → dev_ready (disk s');
  cp_size : dev_size (disk s') = dev_size (disk s);
  cp_heap : heap s' = heap s;
  cp_copy fat q : 0 ≤ fat < num_fats (fat16_fs s) → 0 ≤ q < sectors_per_fat (fat16_fs s) →
    content s' (copy_at s fat q) = p fat q (content s (copy_at s fat q));
  cp_rest k : k < reserved_sectors (fat16_fs s) ∨ root_dir_start (fat16_fs s) ≤ k → content s' k = content s k;
}.

Lemma cp_words p s s' : copies_patched p s s' → table s' = table s.
Proof. intros Hp. unfold table. by rewrite (cp_table _ _ _ Hp). Qed.

Lemma copies_patched_refl s : copies_patched (λ _ _ b, b) s s.
Proof. by split. Qed.

Lemma copies_patched_trans p1 p2 s s1 s2 :
  copies_patched p1 s s1 → copies_patched p2 s1 s2 → copies_patched (λ f q b, p2 f q (p1 f q b)) s s2.
Proof.
  intros [F1 T1 R1 D1 Z1 H1' C1 K1] [F2 T2 R2 D2 Z2 H2' C2 K2].
  assert (∀ f q, copy_at s1 f q = copy_at s f q) as Hat by (intros; unfold copy_at; by rewrite F1).
  split; try congruence; auto.
  - intros f q Hf Hq. rewrite <-Hat, C2, Hat, C1 by (rewrite ?F1; done). done.
  - intros k Hk. rewrite K2, K1 by (rewrite ?F1; done). done.
Qed.

Lemma copies_patched_ext p p' s s' :
  (∀ f q b, 0 ≤ f < num_fats (fat16_fs s) → p f q b = p' f q b) →
  copies_patched p s s' → copies_patched p' s s'.
Proof. intros Hp []. split; try done. intros f q Hf Hq. rewrite <-Hp by done. auto. Qed.

Lemma copies_patched_ok p s s' : copies_patched p s s' → fat_ok s → fat_ok s'.
Proof.
  intros Hp Hs. apply (fat_step_ok (table s) (content s') s s'); try done; try apply Hs.
  split; try apply Hp; try done; [by apply (cp_words _ _ _ Hp)|by rewrite (cp_table _ _ _ Hp)].
Qed.

(** One entry of one copy. *)
Lemma wp_patch_copy fat c v (Q : bool → fat_state D H → Prop) s :
  fat_ok s → 0 ≤ fat < num_fats (fat16_fs s) → 0 ≤ c < zlen (table s) →
  (∀ s', copies_patched (λ f q b, if decide (f = fat) then patch_entry c v q b else b) s s' → Q true s') →
  wp (patch_copy fat c v) Q s.
Proof.
  intros Hs Hfat Hc HQ. pose proof (ok_length s Hs). pose proof (ok_spf s Hs). pose proof (ok_nf s Hs).
  pose proof (ok_reserved s Hs). pose proof (ok_root s Hs). pose proof (ok_area s Hs). pose proof (ok_size s Hs).
  unfold patch_copy. apply wp_bind, wp_gets. rewrite (ok_bps s Hs), decide_False by lia.
  rewrite (u32_small (c * 2)) by lia.
  assert (c * 2 / 512 = c / 256) as -> by (Z.div_mod_to_equations; lia).
  assert (c * 2 mod 512 = 2 * (c mod 256)) as -> by (Z.div_mod_to_equations; lia).
  assert (0 ≤ c / 256 < sectors_per_fat (fat16_fs s)) as Hq by (Z.div_mod_to_equations; lia).
  pose proof (Z.mod_pos_bound c 256 ltac:(lia)).
  fold (copy_at s fat (c / 256)). set (k := copy_at s fat (c / 256)) in *.
  assert (0 ≤ k < root_dir_start (fat16_fs s)) as Hk by (unfold k, copy_at; nia).
  rewrite (u32_small k) by lia. apply wp_bind, wp_read_sector; [apply Hs|lia|lia|simpl; lia|].
  intros d' (Hr & Hsz & Hcont). rewrite decide_False by auto. rewrite decide_False by lia.
  rewrite splice_all by (by rewrite dev_sector_length by apply Hs).
  change (dev_sector (disk s) k) with (content s k).
  assert (length (content s k) = 512%nat) as Hlk by (apply dev_sector_length, Hs).
  set (b := splice _ _ _).
  assert (length b = 512%nat) as Hb by (unfold b; rewrite length_splice; rewrite ?length_le_bytes, ?Hlk; lia).
  apply wp_bind, wp_write_disk; cbn [disk set_disk]; try done; try lia.
  { unfold b, splice. rewrite !Forall_app. pose proof (dev_sector_bytes (disk s) k ltac:(apply Hs)).
    split_and!; [by apply Forall_take|auto with word|by apply Forall_drop]. }
  intros s' [E1 E2 E3 E4 E5 E6 E7] Hh. apply wp_ret. rewrite bool_decide_eq_true_2 by done. apply HQ.
  assert (∀ x, content s' x = if decide (x = k) then b else content s x) as Hx.
  { intros x. rewrite E7. unfold stored. destruct (decide (x = k)) as [->|Hx].
    - rewrite decide_True by lia. rewrite Z.sub_diag. unfold sector_of.
      change (Z.to_nat (512 * 0)) with 0%nat. rewrite drop_0, take_ge by lia. done.
    - rewrite decide_False by lia. apply Hcont. }
  destruct (ok_table s Hs) as [t Ht]. destruct (E3 (ex_intro _ t Ht)) as [t' Ht'].
  split; try done; try (etrans; [eassumption|done]).
  - unfold table in E2. cbn in E2. rewrite Ht' in E2. cbn in E2. rewrite Ht', Ht, E2. unfold table. by rewrite Ht.
  - auto.
  - intros f q Hf Hq'. rewrite Hx. unfold patch_entry. case_decide as Hxk; case_decide as Hff; try done.
    + subst f. rewrite decide_True by (unfold k, copy_at in Hxk; lia). by rewrite Hxk.
    + exfalso. unfold k, copy_at in Hxk. nia.
    + rewrite decide_False; [done|]. intros ->. apply Hxk. unfold k. by rewrite Hff.
  - intros x Hout. rewrite Hx, decide_False; [done|]. unfold k, copy_at. nia.
Qed.

(** All copies, one after the other. *)
Lemma wp_for_copies p body n (Q : bool → fat_state D H → Prop) s s0 i :
  i + Z.of_nat n = num_fats (fat16_fs s0) → 0 ≤ i →
  copies_patched (λ f q b, if decide (f < i) then p q b else b) s0 s →
  (∀ fat s1, 0 ≤ fat < num_fats (fat16_fs s0) → fat16_fs s1 = fat16_fs s0 → table s1 = table s0 →
     (fat_ok s0 → fat_ok s1) →
     wp (body fat) (λ ok s2, ok = true ∧
       copies_patched (λ f q b, if decide (f = fat) then p q b else b) s1 s2) s1) →
  (∀ s', copies_patched (λ _, p) s0 s' → Q true s') →
  wp (for_copies body i n) Q s.
Proof.
  intros Hn Hi Hs Hbody HQ. revert i s Hn Hi Hs. induction n as [|n IH]; intros i s Hn Hi Hs; cbn [for_copies].
  - apply wp_ret, HQ. eapply copies_patched_ext; [|exact Hs]. intros f q b Hf. cbv beta.
    by rewrite decide_True by lia.
  - apply wp_bind. eapply wp_mono.
    { apply (Hbody i s); [lia|apply Hs|by apply (cp_words _ _ _ Hs)|exact (copies_patched_ok _ _ _ Hs)]. }
    intros ok s' [-> Hs']. apply IH; [lia|lia|].
    eapply copies_patched_ext; [|by eapply copies_patched_trans].
    intros f q b Hf. cbv beta. repeat case_decide; try lia; done.
Qed.

(** A link in every copy. *)
Definition link_entries (c new q : Z) (b : list Z) : list Z :=
  patch_entry new FAT16_CLUSTER_CHAIN_END q (patch_entry c new q b).

Lemma wp_link_copies c new (Q : bool → fat_state D H → Prop) s :
  fat_ok s → 0 ≤ c < zlen (table s) → 0 ≤ new < zlen (table s) →
  (∀ s', copies_patched (λ _, link_entries c new) s s' → Q true s') →
  wp (link_copies c new) Q s.
Proof.
  intros Hs Hc Hnew HQ. unfold link_copies. apply wp_bind, wp_gets. pose proof (ok_nf s Hs).
  eapply (wp_for_copies (link_entries c new) _ _ _ s s); [lia|lia| | |done].
  - eapply copies_patched_ext; [|apply copies_patched_refl]. intros f q b Hf. cbv beta.
    by rewrite decide_False by lia.
  - intros fat s1 Hfat Hf1 Ht1 Hok. specialize (Hok Hs).
    apply wp_bind, wp_patch_copy; [done|by rewrite Hf1|by rewrite Ht1|]. intros s2 Hp2.
    apply wp_patch_copy; [by eapply copies_patched_ok|by rewrite (cp_fs _ _ _ Hp2), Hf1|
      by rewrite (cp_words _ _ _ Hp2), Ht1|].
    intros s3 Hp3. split; [done|].
    eapply copies_patched_ext; [|by eapply copies_patched_trans].
    intros f q b Hf. cbv beta. by case_decide.
Qed.

(** The table in RAM changed as well. *)
Lemma set_table_used_ok t s :
  fat_ok s → zlen t = zlen (table s) → Forall (λ v, 0 ≤ v < 65536) t →
  (∀ c v, aget t c = Some v → v ≠ 0 → on_device s c) → fat_ok (set_table (Some t) s).
Proof. intros [] Hl Hf Hu. split; try done. change (zlen t = 256 * sectors_per_fat (fat16_fs s)). congruence. Qed.
Lemma synced_copy_0 s : fat_synced s ↔ copy_synced s 0.
Proof.
  unfold fat_synced, copy_synced, copy_at. split; intros Hy q Hq; specialize (Hy q Hq).
  - by rewrite Z.mul_0_l, Z.add_0_r.
  - by rewrite Z.mul_0_l, Z.add_0_r in Hy.
Qed.

(** [s'] is [s] with [new] linked behind [c], in RAM and in the copies. *)
Record extended (c new : Z) s s' : Prop := {
  ex_upd : fat_upd (linked (table s) c new) (cluster_at s) s s';
  ex_heap : heap s' = heap s;
  ex_copies fat : 0 ≤ fat < num_fats (fat16_fs s) → copy_synced s fat → copy_synced s' fat;
}.

Lemma link_synced t c new q :
  0 ≤ c < zlen t → 0 ≤ new < zlen t → 0 ≤ q → 256 * (q + 1) ≤ zlen t →
  link_entries c new q (table_sector t q) = table_sector (linked t c new) q.
Proof.
  intros. unfold link_entries. rewrite patch_table_sector by done.
  by rewrite patch_table_sector by (rewrite ?length_insert; done).
Qed.

Lemma copies_extended c new s s' :
  fat_ok s → 0 ≤ c < zlen (table s) → 0 ≤ new < zlen (table s) →
  fat_ok (set_table (Some (linked (table s) c new)) s) →
  copies_patched (λ _, link_entries c new) (set_table (Some (linked (table s) c new)) s) s' →
  extended c new s s'.
Proof.
  intros Hs Hc Hnew Hok Hp. pose proof (copies_patched_ok _ _ _ Hp Hok) as Hok'.
  pose proof (cp_fs _ _ _ Hp) as Hfs. cbn in Hfs.
  pose proof (cp_words _ _ _ Hp) as Ht. change (table (set_table _ s)) with (linked (table s) c new) in Ht.
  assert (∀ fat, 0 ≤ fat < num_fats (fat16_fs s) → copy_synced s fat → copy_synced s' fat) as Hcopies.
  { intros fat Hfat Hy q Hq. rewrite Hfs in Hq. pose proof (cp_copy _ _ _ Hp fat q Hfat Hq) as E.
    change (copy_at (set_table _ s) fat q) with (copy_at s fat q) in E.
    assert (copy_at s' fat q = copy_at s fat q) as -> by (unfold copy_at; by rewrite Hfs).
    rewrite E. change (content (set_table _ s) (copy_at s fat q)) with (content s (copy_at s fat q)).
    pose proof (ok_length s Hs). rewrite Hy, link_synced, Ht by (done || lia). done. }
  split; [split|apply Hp|done]; try done.
  - by rewrite (cp_root _ _ _ Hp).
  - apply Hp.
  - intros d Hd. unfold cluster_at. assert (spc s' = spc s) as -> by (unfold spc; by rewrite Hfs).
    rewrite Hfs. apply sectors_ext. intros k Hk. pose proof (ok_spc s Hs).
    rewrite (cp_rest _ _ _ Hp); [done|]. right. cbn. nia.
  - rewrite !synced_copy_0. apply Hcopies. pose proof (ok_nf s Hs). lia.
Qed.

Lemma wp_extend_chain c v (Q : extension → fat_state D H → Prop) s :
  fat_ok s → aget (table s) c = Some v → v ≠ 0 → (0 < room s)%nat → aget (table s) 0 ≠ Some 0 →
  (∀ new s', aget (table s) new = Some 0 → 0 < new → on_device s new → extended c new s s' →
     Q (Extended new) s') →
  wp (extend_chain c) Q s.
Proof.
  intros Hs Hc Hv Hroom Hz0 HQ. unfold extend_chain. apply wp_bind.
  destruct (fat_find_free_spec s Hs) as (new & E & Hnew). apply (wp_of_done _ _ _ _ _ E).
  destruct Hnew as [[-> Hno]|(Hr & Er & Hlow)]; [apply room_none in Hno; lia|].
  assert (on_device s new) as Hdev by (by apply room_first).
  assert (new ≠ 0) by congruence. rewrite decide_False by lia.
  pose proof (aget_lt_Some _ _ _ Hc) as Hcr. pose proof (ok_length s Hs). pose proof (ok_spf s Hs).
  apply wp_bind, wp_set_fat_entry; [done|]. rewrite u16_small by lia.
  apply wp_bind, wp_set_fat_entry.
  { change (0 ≤ new < zlen (<[Z.to_nat c := new]> (table s))). by rewrite length_insert. }
  change (set_table _ (set_table _ s)) with (set_table (Some (linked (table s) c new)) s).
  set (s2 := set_table _ s). assert (zlen (table s2) = zlen (table s)) as Hl2.
  { change (zlen (linked (table s) c new) = zlen (table s)). unfold linked. by rewrite !length_insert. }
  assert (fat_ok s2) as Hok2.
  { apply set_table_used_ok; [done|done| |].
    - unfold linked. apply Forall_insert; [apply Forall_insert; [apply Hs|lia]|unfold FAT16_CLUSTER_CHAIN_END; lia].
    - intros d w. rewrite linked_lookup by done. pose proof (ok_used s Hs). repeat case_decide; naive_solver. }
  apply wp_bind, wp_link_copies; [done|by rewrite Hl2|by rewrite Hl2|]. intros s3 Hp. apply wp_ret.
  apply HQ; [done|lia|done|]. by apply copies_extended.
Qed.
End specs.
