(* ===== verification/LoaderWrite.v ===== *)
(** * The image builder: writing a file

    The loop of [FatLoader.fat_write] writes cluster by cluster and links a new
    cluster when the chain ends before the data does.  The theorem says what is in
    the file, in the table, in its copies and in the directory afterwards. *)

From S2P Require Import Prelude CString Interfaces FatTable FatChain FatDir FatPath FatFile FatMount HostString FatLoader FatCopies.

(** Replacing the end of a chain. *)
Lemma chain_suffix_swap t t' c pre d suf suf' :
  chain t c (pre ++ d :: suf) → (∀ x, x ∈ pre → aget t' x = aget t x) → chain t' d suf' →
  chain t' c (pre ++ suf').
Proof.
  revert c. induction pre as [|x pre IH]; intros c Hc Hpre Hd.
  - destruct (chain_head _ _ _ Hc) as [? [= -> _]]. done.
  - inversion Hc as [c' v E He Hl|c' v cs E Hne Hnz Hc' Hl]; simplify_eq/=.
    + by destruct pre.
    + eapply chain_next; [rewrite Hpre; [done|set_solver]|done|done|].
      apply IH; [done|set_solver|done].
Qed.

Section specs.
Context {D H : Type} `{BlockDeviceLaws D} `{KernelHeapLaws H}.
Implicit Types s : fat_state D H.

(** [s'] is [s] after a write to the clusters [cs], a chain from [c], which was
    extended by the clusters [news]; together they hold [data] now. *)
Record written (c : Z) (cs news data : list Z) s s' : Prop := {
  wr_ok : fat_ok s';
  wr_fs : fat16_fs s' = fat16_fs s;
  wr_root : root_dir s' = root_dir s;
  wr_size : dev_size (disk s') = dev_size (disk s);
  wr_chain : chain (table s') c (cs ++ news);
  wr_free : Forall (λ d, aget (table s) d = Some 0) news;
  wr_entries d : d ∉ cs ++ news → aget (table s') d = aget (table s) d;
  wr_room : room s = (length news + room s')%nat;
  wr_bytes : file_bytes s' (cs ++ news) = data;
  wr_kept d : 0 ≤ d < zlen (table s) → d ∉ cs ++ news → cluster_at s' d = cluster_at s d;
  wr_copies fat : 0 ≤ fat < num_fats (fat16_fs s) → copy_synced s fat → copy_synced s' fat;
}.

(** [s'] is [s] with the bytes of one cluster replaced. *)
Record stored_cluster (c : Z) (new : list Z) s s' : Prop := {
  sc_upd : fat_upd (table s) (λ d, if decide (d = c) then new else cluster_at s d) s s';
  sc_heap : heap s' = heap s;
  sc_front : front_kept s s';
}.

Lemma front_copies s s' fat :
  fat_ok s → fat16_fs s' = fat16_fs s → table s' = table s → front_kept s s' →
  0 ≤ fat < num_fats (fat16_fs s) → copy_synced s fat → copy_synced s' fat.
Proof.
  intros Hs Hfs Ht Hk Hfat Hy q Hq. rewrite Hfs in Hq.
  assert (copy_at s' fat q = copy_at s fat q) as -> by (unfold copy_at; by rewrite Hfs).
  rewrite Ht, <-Hy by done. apply Hk. unfold copy_at. pose proof (ok_root s Hs). nia.
Qed.

(** Neither the table nor the room change. *)
Lemma upd_room g s s' : fat_upd (table s) g s s' → room s' = room s.
Proof.
  intros [? Hfs ? Ht Hz ? ?]. unfold room, clusters, spc. by rewrite Hfs, Ht, Hz.
Qed.

(** *** One round *)

(** The part of a round up to the test whether there is more to write. *)
Lemma wp_round_store B size buffer r off c buf n
    (Q : write_loop + option Z → fat_state D H → Prop) s :
  fat_ok s → on_device s c → B = 512 * spc s → 0 ≤ off < B → 0 ≤ r < size → size < 2147483648 →
  zlen buf = B → Forall is_byte buf → Forall is_byte buffer → size ≤ zlen buffer →
  n = Z.min (B - off) (size - r) →
  (∀ s' nb, stored_cluster c (splice (cluster_at s c) (Z.to_nat off) (take (Z.to_nat n) (drop (Z.to_nat r) buffer))) s s' →
     zlen nb = B → Forall is_byte nb →
     wp (if decide (r + n < size) then
           v ← fat_entry c;
           if decide (FAT16_CLUSTER_CHAIN_END ≤ v) then
             e ← extend_chain c;
             match e with
             | Extended new_cluster => mret (inl (WriteLoop (r + n) 0 new_cluster nb))
             | NoSpace => mret (inr (Some (r + n)))
             | DiskError => mret (inr None)
             end
           else mret (inl (WriteLoop (r + n) 0 v nb))
         else mret (inl (WriteLoop (r + n) 0 c nb))) Q s') →
  wp (write_round B size buffer (WriteLoop r off c buf)) Q s.
Proof.
  intros Hs Hc HB Hoff Hr Hsz Hb Hbb Hby Ho Hn HQ. pose proof (ok_spc s Hs). unfold write_round.
  rewrite decide_True by lia.
  apply wp_bind. eapply (wp_write_fill c off n (size - r) buf B); [try done; lia..|].
  intros s1 cb Hs1 Hh1 Hcb Hcbb Hsp. cbv beta iota. rewrite decide_False by lia.
  rewrite (u32_small (B - off)) by lia. rewrite <-Hn.
  apply wp_bind. eapply wp_liftO; [apply host_memcpy_at_spec; [lia|rewrite length_drop; lia|lia]|].
  set (bs := take (Z.to_nat n) (drop (Z.to_nat r) buffer)) in *.
  assert (zlen bs = n) as Hbs by (unfold bs; rewrite length_take, length_drop; lia).
  assert (length (splice cb (Z.to_nat off) bs) = length cb) as Hlcb by (apply length_splice; lia).
  assert (Forall is_byte (splice cb (Z.to_nat off) bs)) as Hnb.
  { unfold splice. rewrite !Forall_app.
    split_and!; [by apply Forall_take|by apply Forall_take, Forall_drop|by apply Forall_drop]. }
  apply wp_bind, wp_write_cluster; [by eapply fat_same_ok|by eapply same_on_device|
    rewrite (fat_same_spc _ _ Hs1); lia|done|].
  intros s2 Hu Hh2 Hfr. rewrite decide_False by lia. rewrite (u32_small (r + n)) by lia.
  apply HQ; [|lia|done]. rewrite (fat_same_table _ _ Hs1) in Hu. split.
  - eapply fat_upd_trans; [by apply fat_same_upd|]. eapply fat_upd_ext; [|exact Hu].
    intros d Hd. cbv beta. destruct (decide (d = c)); [by apply Hsp|by apply fat_same_cluster].
  - congruence.
  - intros k Hk. rewrite Hfr by (by rewrite (same_fs _ _ Hs1)). apply (same_content _ _ Hs1).
Qed.

(** *** Rounds put together *)

Lemma table_length s s' : fat_ok s → fat_ok s' → fat16_fs s' = fat16_fs s → zlen (table s') = zlen (table s).
Proof. intros Hs Hs' E. rewrite (ok_length s Hs), (ok_length s' Hs'), E. done. Qed.

Lemma file_bytes_cons s c cs : file_bytes s (c :: cs) = cluster_at s c ++ file_bytes s cs.
Proof. done. Qed.

(** The cluster just written, and those after it. *)
Lemma stored_at c new s s' : stored_cluster c new s s' → 0 ≤ c < zlen (table s) → cluster_at s' c = new.
Proof. intros Hc Hr. rewrite (upd_cluster _ _ _ _ (sc_upd _ _ _ _ Hc)) by done. by rewrite decide_True. Qed.
Lemma stored_kept c new s s' d :
  stored_cluster c new s s' → 0 ≤ d < zlen (table s) → d ≠ c → cluster_at s' d = cluster_at s d.
Proof. intros Hc Hr Hd. rewrite (upd_cluster _ _ _ _ (sc_upd _ _ _ _ Hc)) by done. by rewrite decide_False. Qed.

Lemma written_last c suf new s s' :
  fat_ok s → chain (table s) c (c :: suf) → stored_cluster c new s s' →
  written c (c :: suf) [] (new ++ file_bytes s suf) s s'.
Proof.
  intros Hs Hc Hst. pose proof (sc_upd _ _ _ _ Hst) as [Hok Hfs Hroot Ht Hz Hcl Hsy].
  pose proof (chain_NoDup _ _ _ Hc) as [Hnin _]%NoDup_cons.
  split; rewrite ?app_nil_r; try done.
  - by rewrite Ht.
  - intros d _. by rewrite Ht.
  - symmetry. eapply upd_room, Hst.
  - rewrite file_bytes_cons. f_equal.
    + apply (stored_at _ _ _ _ Hst). eapply chain_in_range; [done|set_solver].
    + apply file_bytes_frame. intros d Hd. apply (stored_kept _ _ _ _ _ Hst); [|set_solver].
      eapply chain_in_range; [done|set_solver].
  - intros d Hd Hn. apply (stored_kept _ _ _ _ _ Hst); [done|set_solver].
  - intros fat Hfat. apply front_copies; try done. apply Hst.
Qed.

Lemma written_next c v suf new news data s s1 s2 :
  fat_ok s → aget (table s) c = Some v → ¬ is_end v → v ≠ 0 → chain (table s) v suf →
  stored_cluster c new s s1 → written v suf news data s1 s2 →
  written c (c :: suf) news (new ++ data) s s2.
Proof.
  intros Hs Hcv Hne Hnz Hc Hst Hw.
  assert (chain (table s) c (c :: suf)) as Hcc by (by eapply chain_next).
  pose proof (chain_NoDup _ _ _ Hcc) as [Hnin _]%NoDup_cons. pose proof (aget_lt_Some _ _ _ Hcv) as Hcr.
  pose proof (sc_upd _ _ _ _ Hst) as [Hok1 Hfs1 Hroot1 Ht1 Hz1 _ _].
  pose proof (table_length _ _ Hs Hok1 Hfs1) as Hl1.
  destruct Hw as [Hok Hfs Hroot Hz Hch Hfree Hent Hroom Hb Hk Hcop]. rewrite Ht1 in Hfree, Hent.
  assert (c ∉ suf ++ news) as Hcout.
  { rewrite not_elem_of_app. split; [done|]. intros Hin. rewrite list.Forall_forall in Hfree.
    apply (chain_used _ _ _ c Hcc); [set_solver|]. by apply Hfree. }
  split; try done; try congruence.
  - cbn [app]. eapply chain_next; [by rewrite Hent|done..].
  - intros d Hd. apply Hent. set_solver.
  - rewrite <-Hroom. symmetry. eapply upd_room, Hst.
  - cbn [app]. rewrite file_bytes_cons, Hb. f_equal. rewrite Hk by (rewrite ?Hl1; done).
    by apply (stored_at _ _ _ _ Hst).
  - intros d Hd Hn. rewrite Hk by (rewrite ?Hl1; done || set_solver).
    apply (stored_kept _ _ _ _ _ Hst); [done|set_solver].
  - intros fat Hfat Hy. apply Hcop; [by rewrite Hfs1|]. eapply (front_copies s s1); try done. apply Hst.
Qed.

Lemma written_extended c v x new news data s s1 s2 s3 :
  fat_ok s → aget (table s) c = Some v → is_end v → aget (table s) x = Some 0 → 0 < x → on_device s1 x →
  stored_cluster c new s s1 → extended c x s1 s2 → written x [x] news data s2 s3 →
  written c [c] (x :: news) (new ++ data) s s3.
Proof.
  intros Hs Hcv He Hx Hx0 Hdx Hst Hex Hw.
  assert (v ≠ 0) as Hv0 by (unfold is_end in He; lia).
  pose proof (aget_lt_Some _ _ _ Hcv) as Hcr. pose proof (aget_lt_Some _ _ _ Hx) as Hxr.
  pose proof (ok_length s Hs). pose proof (ok_spf s Hs).
  pose proof (sc_upd _ _ _ _ Hst) as [Hok1 Hfs1 Hroot1 Ht1 Hz1 _ _].
  pose proof (table_length _ _ Hs Hok1 Hfs1) as Hl1.
  pose proof (ex_upd _ _ _ _ Hex) as [Hok2 Hfs2 Hroot2 Ht2 Hz2 Hcl2 _]. rewrite Ht1 in Ht2, Hcl2.
  assert (zlen (table s2) = zlen (table s)) as Hl2 by (rewrite Ht2; unfold linked; by rewrite !length_insert).
  assert (∀ d, aget (table s2) d = if decide (x = d) then Some FAT16_CLUSTER_CHAIN_END
    else if decide (c = d) then Some x else aget (table s) d) as Hlook.
  { intros d. rewrite Ht2. by apply linked_lookup. }
  destruct Hw as [Hok Hfs Hroot Hz Hch Hfree Hent Hroom Hb Hk Hcop]. rewrite list.Forall_forall in Hfree.
  assert (x ≠ c) as Hxc by (intros ->; congruence).
  assert (c ∉ [x] ++ news) as Hcout.
  { rewrite not_elem_of_app. split; [set_solver|]. intros Hin%Hfree. rewrite Hlook, decide_False, decide_True in Hin by done.
    injection Hin as ->. lia. }
  assert (∀ d, 0 ≤ d < zlen (table s) → cluster_at s2 d = cluster_at s1 d) as Hkept2.
  { intros d Hd. apply Hcl2. rewrite <-Ht2. lia. }
  split; try done; try congruence.
  - cbn [app]. eapply chain_next; [rewrite Hent, Hlook, decide_False, decide_True by done; done| |lia|done].
    unfold is_end. lia.
  - constructor; [done|]. apply list.Forall_forall. intros d Hd. specialize (Hfree d Hd).
    rewrite Hlook in Hfree. unfold FAT16_CLUSTER_CHAIN_END in Hfree. repeat case_decide; try done.
    injection Hfree as ->. lia.
  - intros d Hd. rewrite Hent, Hlook, !decide_False by set_solver. done.
  - rewrite <-(upd_room _ _ _ (sc_upd _ _ _ _ Hst)).
    rewrite (room_linked (cluster_at s1) s1 s2 c x v); rewrite ?Ht1; try done; [|by rewrite <-Ht1; apply Hex|lia].
    cbn [length]. by rewrite Hroom.
  - change ([c] ++ x :: news) with (c :: ([x] ++ news)). rewrite file_bytes_cons, Hb. f_equal.
    rewrite Hk, Hkept2 by (rewrite ?Hl2; done). by apply (stored_at _ _ _ _ Hst).
  - intros d Hd Hn. rewrite Hk, Hkept2 by (rewrite ?Hl2; done || set_solver).
    apply (stored_kept _ _ _ _ _ Hst); [done|set_solver].
  - intros fat Hfat Hy. apply Hcop; [by rewrite Hfs2, Hfs1|]. apply Hex; [by rewrite Hfs1|].
    eapply (front_copies s s1); try done. apply Hst.
Qed.

Lemma written_refl c cs s : fat_ok s → chain (table s) c cs → written c cs [] (file_bytes s cs) s s.
Proof. intros Hs Hc. split; rewrite ?app_nil_r; try done. Qed.

(** The clusters behind the one just written still hold what they held. *)
Lemma next_kept c suf new v news data s s1 s2 :
  fat_ok s → chain (table s) c (c :: suf) → stored_cluster c new s s1 → written v suf news data s1 s2 →
  ∀ d, d ∈ suf ++ news → cluster_at s1 d = cluster_at s d.
Proof.
  intros Hs Hc Hst Hw d Hd. pose proof (chain_NoDup _ _ _ Hc) as [Hnin _]%NoDup_cons.
  pose proof (upd_table _ _ _ _ (sc_upd _ _ _ _ Hst)) as Ht1.
  apply elem_of_app in Hd as [Hd|Hd].
  - apply (stored_kept _ _ _ _ _ Hst); [eapply chain_in_range; [done|set_solver]|set_solver].
  - pose proof (wr_free _ _ _ _ _ _ Hw) as Hfree. rewrite list.Forall_forall, Ht1 in Hfree.
    specialize (Hfree d Hd). apply (stored_kept _ _ _ _ _ Hst); [by eapply aget_lt_Some|].
    intros ->. apply (chain_used _ _ _ c Hc); [set_solver|done].
Qed.

Lemma extended_kept c v x new news data s s1 s2 s3 :
  fat_ok s → aget (table s) c = Some v → v ≠ 0 → aget (table s) x = Some 0 → 0 < x →
  stored_cluster c new s s1 → extended c x s1 s2 → written x [x] news data s2 s3 →
  ∀ d, d ∈ [x] ++ news → cluster_at s2 d = cluster_at s d.
Proof.
  intros Hs Hcv Hv Hx Hx0 Hst Hex Hw d Hd.
  pose proof (upd_table _ _ _ _ (sc_upd _ _ _ _ Hst)) as Ht1.
  pose proof (ex_upd _ _ _ _ Hex) as Hu2. pose proof (upd_table _ _ _ _ Hu2) as Ht2. rewrite Ht1 in Ht2.
  pose proof (aget_lt_Some _ _ _ Hcv) as Hcr. pose proof (aget_lt_Some _ _ _ Hx) as Hxr.
  assert (0 ≤ d < zlen (table s) ∧ d ≠ c) as [Hdr Hdc].
  { apply elem_of_app in Hd as [->%list_elem_of_singleton|Hd]; [split; [done|congruence]|].
    pose proof (wr_free _ _ _ _ _ _ Hw) as Hfree. rewrite list.Forall_forall in Hfree.
    specialize (Hfree d Hd). rewrite Ht2, linked_lookup in Hfree by done.
    unfold FAT16_CLUSTER_CHAIN_END in Hfree. repeat case_decide; try done.
    - injection Hfree as ->. lia.
    - split; [by eapply aget_lt_Some|congruence]. }
  rewrite (upd_cluster _ _ _ _ Hu2) by (rewrite Ht1; unfold linked; by rewrite !length_insert).
  by apply (stored_kept _ _ _ _ _ Hst).
Qed.

(** The state in which a new cluster is the last of the chain. *)
Lemma extended_facts c v x s s' :
  fat_ok s → aget (table s) c = Some v → v ≠ 0 → aget (table s) 0 ≠ Some 0 →
  aget (table s) x = Some 0 → 0 < x → on_device s x → extended c x s s' →
  fat_ok s' ∧ spc s' = spc s ∧ room s = S (room s') ∧ chain (table s') x [x] ∧ aget (table s') 0 ≠ Some 0.
Proof.
  intros Hs Hc Hv Hz0 Hx Hx0 Hdx Hex. pose proof (ex_upd _ _ _ _ Hex) as Hu.
  pose proof (aget_lt_Some _ _ _ Hc). pose proof (aget_lt_Some _ _ _ Hx).
  rewrite (upd_table _ _ _ _ Hu). split_and!.
  - apply Hu.
  - apply (upd_spc _ _ _ _ Hu).
  - apply (room_linked (cluster_at s) s s' c x v); try done. lia.
  - eapply chain_end; [rewrite linked_lookup, decide_True by done; done|].
    unfold is_end, FAT16_CLUSTER_CHAIN_END. lia.
  - rewrite linked_lookup by done. repeat case_decide; try done; intros [= ?]; lia.
Qed.

(** *** The loop *)

(** What is left to write after the first cluster. *)
Lemma rest_of_buffer (buffer : list Z) r n size :
  0 ≤ r → 0 ≤ n → r + n ≤ size →
  take (Z.to_nat (size - r)) (drop (Z.to_nat r) buffer)
  = take (Z.to_nat n) (drop (Z.to_nat r) buffer)
    ++ take (Z.to_nat (size - (r + n))) (drop (Z.to_nat (r + n)) buffer).
Proof.
  intros. replace (Z.to_nat (r + n)) with (Z.to_nat r + Z.to_nat n)%nat by lia.
  rewrite <-drop_drop, take_take_drop. f_equal. lia.
Qed.

(** The bytes of a file whose first cluster was just written. *)
Lemma spliced_cons s s1 c cs off b1 b2 :
  fat_ok s → zlen (cluster_at s c) = off + zlen b1 → 0 ≤ off →
  (∀ d, d ∈ cs → cluster_at s1 d = cluster_at s d) →
  splice (cluster_at s c) (Z.to_nat off) b1 ++ splice (file_bytes s1 cs) (Z.to_nat 0) b2
  = splice (file_bytes s (c :: cs)) (Z.to_nat off) (b1 ++ b2).
Proof.
  intros Hs Hl Hoff Hf. rewrite file_bytes_cons, (file_bytes_frame s s1 cs Hf).
  symmetry. apply splice_app_cross. lia.
Qed.

Lemma wp_store_loop B size buffer : ∀ fuel suf c off r buf (Q : option Z → fat_state D H → Prop) s,
  fat_ok s → chain (table s) c suf → aget (table s) 0 ≠ Some 0 → B = 512 * spc s → 0 ≤ off < B →
  0 ≤ r ≤ size → size < 2147483648 → off + (size - r) ≤ (zlen suf + Z.of_nat (room s)) * B →
  zlen buf = B → Forall is_byte buf → Forall is_byte buffer → size ≤ zlen buffer →
  (1 ≤ fuel)%nat → (r < size → off + (size - r) ≤ (Z.of_nat fuel - 1) * B) →
  (∀ s' news, written c suf news (splice (file_bytes s (suf ++ news)) (Z.to_nat off)
                (take (Z.to_nat (size - r)) (drop (Z.to_nat r) buffer))) s s' →
     heap s' = heap s → Q (Some size) s') →
  wp (iter fuel (write_round B size buffer) (WriteLoop r off c buf)) Q s.
Proof.
  induction fuel as [|fuel IH]; intros suf c off r buf Q s Hs Hc Hz0 HB Hoff Hr Hsz Hroom Hb Hbb Hby Ho Hf Hfuel HQ; [lia|].
  cbn [iter]. apply wp_bind. destruct (decide (r = size)) as [->|Hne].
  { unfold write_round. rewrite decide_False by lia. apply wp_ret, wp_ret. apply (HQ s []); [|done].
    rewrite Z.sub_diag, take_0, splice_nil, app_nil_r. by apply written_refl. }
  destruct (chain_head _ _ _ Hc) as [suf' ->]. pose proof (ok_spc s Hs).
  pose proof (chain_on_device s c _ c Hs Hc ltac:(set_solver)) as Hdev.
  pose proof (chain_in_range _ _ _ c Hc ltac:(set_solver)) as Hcr.
  assert (zlen (cluster_at s c) = B) as Hcl by (rewrite length_cluster_at by done; lia).
  set (n := Z.min (B - off) (size - r)).
  apply (wp_round_store B size buffer r off c buf n); try done; try lia.
  intros s1 nb Hst Hnb Hnbb. set (bs := take (Z.to_nat n) (drop (Z.to_nat r) buffer)) in *.
  assert (zlen bs = n) as Hbs by (unfold bs; rewrite length_take, length_drop; lia).
  rewrite (rest_of_buffer buffer r n size) in HQ by lia. fold bs in HQ.
  pose proof (sc_upd _ _ _ _ Hst) as Hu. pose proof (upd_ok _ _ _ _ Hu) as Hok1.
  pose proof (upd_table _ _ _ _ Hu) as Ht1. pose proof (upd_spc _ _ _ _ Hu) as Hp1.
  pose proof (upd_room _ _ _ Hu) as Hroom1. pose proof (chain_NoDup _ _ _ Hc) as [Hnin _]%NoDup_cons.
  case_decide as Hmore.
  2: { (* nothing is left *)
    apply wp_ret. destruct fuel as [|fuel]; [lia|]. cbn [iter]. apply wp_bind. unfold write_round.
    rewrite decide_False by lia. apply wp_ret, wp_ret. replace (r + n) with size in * by lia.
    apply (HQ s1 []); [|apply Hst]. rewrite Z.sub_diag, take_0, !app_nil_r.
    rewrite file_bytes_cons, splice_app_l by lia. by apply written_last. }
  assert (n = B - off) as Hn by lia.
  inversion Hc as [c' v E He|c' v cs' E Hvne Hvz Hc']; subst.
  - (* the chain ends: a new cluster *)
    apply wp_bind. eapply wp_fat_entry; [by rewrite Ht1|].
    rewrite decide_True by (unfold is_end in He; unfold FAT16_CLUSTER_CHAIN_END; lia).
    apply wp_bind. eapply wp_extend_chain; [done|by rewrite Ht1|unfold is_end in He; lia|
      rewrite Hroom1; cbn [length] in Hroom; nia|by rewrite Ht1|].
    rewrite Ht1. intros x s2 Hx Hx0 Hdx Hex. apply wp_ret.
    assert (v ≠ 0) as Hv0 by (unfold is_end in He; lia).
    destruct (extended_facts c v x s1 s2) as (Hok2 & Hp2 & Hroom2 & Hcx & Hz2); rewrite ?Ht1; try done.
    rewrite Hroom1 in Hroom2. rewrite Hp1 in Hp2.
    apply (IH [x] x 0); try done; try lia.
    + cbn [length] in *. nia.
    + intros s3 news Hw Hh3. apply (HQ s3 (x :: news)).
      2: { by rewrite Hh3, (ex_heap _ _ _ _ Hex), (sc_heap _ _ _ _ Hst). }
      change ([c] ++ x :: news) with (c :: [x] ++ news).
      rewrite <-(spliced_cons s s2); [|done|lia|lia|by eapply (extended_kept c v x)].
      by eapply (written_extended c v x _ news _ s s1 s2 s3).
  - apply wp_bind. eapply wp_fat_entry; [by rewrite Ht1|].
    assert (v < 65528) by (pose proof (fat_ok_entry s c v Hs E); unfold is_end in Hvne; lia).
    rewrite decide_False by (unfold FAT16_CLUSTER_CHAIN_END; lia). apply wp_ret.
    apply (IH suf' v 0); rewrite ?Ht1, ?Hroom1; try done; try lia.
    + cbn [length] in *. nia.
    + intros s2 news Hw Hh2. apply (HQ s2 news); [|by rewrite Hh2, (sc_heap _ _ _ _ Hst)].
      change ((c :: suf') ++ news) with (c :: suf' ++ news).
      rewrite <-(spliced_cons s s1); [|done|lia|lia|by eapply (next_kept c suf' _ v)].
      by eapply (written_next c v suf' _ news _ s s1 s2).
Qed.
(** *** The whole function *)

(** The walk of the offset along the chain. *)
Lemma write_seek_chain s c cs k d :
  fat_ok s → chain (table s) c cs → cs !! k = Some d → write_seek c k s = Done (Some d, s).
Proof.
  intros Hs. revert c cs. induction k as [|k IH]; intros c cs Hc Hk.
  - destruct (chain_head _ _ _ Hc) as [cs' ->]. by simplify_eq/=.
  - pose proof (chain_in_range _ _ _ c Hc) as Hr. pose proof (ok_length s Hs). pose proof (ok_spf s Hs).
    destruct Hc as [c v E He|c v cs E Hne Hnz Hc]; [done|].
    assert (c < 65528) by (specialize (Hr ltac:(set_solver)); lia).
    cbn [write_seek]. unfold FAT16_CLUSTER_CHAIN_END. rewrite decide_False by lia.
    rewrite (bind_done _ _ _ _ _ (fat_entry_done s c v E)). by apply (IH v cs).
Qed.

(** A write that starts in the [k]-th cluster of the chain. *)
Lemma written_suffix c cs k d news data s s' :
  fat_ok s → chain (table s) c cs → cs !! k = Some d → written d (drop k cs) news data s s' →
  written c cs news (file_bytes s (take k cs) ++ data) s s'.
Proof.
  intros Hs Hc Hk [Hok Hfs Hroot Hz Hch Hfree Hent Hroom Hb Hkept Hcop].
  pose proof (chain_NoDup _ _ _ Hc) as Hnd. rewrite <-(take_drop k cs) in Hnd.
  apply list.NoDup_app in Hnd as (_ & Hdis & _). rewrite list.Forall_forall in Hfree.
  assert (∀ x, x ∈ take k cs → x ∈ cs) as Hsub by (intros x; apply (subseteq_take k cs)).
  assert (∀ x, x ∈ take k cs → x ∉ drop k cs ++ news) as Hout.
  { intros x Hx. rewrite not_elem_of_app. split; [by apply Hdis|]. intros Hn.
    apply (chain_used _ _ _ x Hc); [by apply Hsub|by apply Hfree]. }
  assert (∀ x, x ∉ cs ++ news → x ∉ drop k cs ++ news) as Hin.
  { intros x. rewrite !not_elem_of_app. intros [Hx ?]. split; [|done]. intros Hd. apply Hx.
    rewrite <-(take_drop k cs). set_solver. }
  assert (cs ++ news = take k cs ++ (drop k cs ++ news)) as E by (by rewrite app_assoc, take_drop).
  split; try done.
  - rewrite E. apply (chain_suffix_swap (table s) _ c _ d (drop (S k) cs)); [|by intros; apply Hent, Hout|done].
    rewrite <-drop_S by done. by rewrite take_drop.
  - by apply list.Forall_forall.
  - intros x Hx. by apply Hent, Hin.
  - rewrite E. unfold file_bytes. rewrite fmap_app, concat_app. fold (file_bytes s' (take k cs)) (file_bytes s' (drop k cs ++ news)).
    rewrite Hb. f_equal. apply file_bytes_frame. intros x Hx. apply Hkept; [|by apply Hout].
    eapply chain_in_range; [done|by apply Hsub].
  - intros x Hx Hn. by apply Hkept, Hin.
Qed.
(** A walk that goes further than the chain indexes the table with its end mark. *)
Lemma extend_end_faults s v : fat_ok s → is_end v → (∃ d, aget (table s) d = Some 0) → extend_chain v s = Fault.
Proof.
  intros Hs Hv [d Hd]. pose proof (ok_length s Hs). pose proof (ok_spf s Hs). unfold is_end in Hv.
  unfold extend_chain. destruct (fat_find_free_spec s Hs) as (new & E & Hnew).
  rewrite (bind_done _ _ _ _ _ E). destruct Hnew as [[-> Hno]|(Hr & _ & _)]; [by apply Hno in Hd|].
  rewrite decide_False by lia. unfold mbind, M_bind, set_fat_entry, writes, aset. by rewrite decide_False by lia.
Qed.

Lemma write_seek_past s c cs k :
  fat_ok s → chain (table s) c cs → (length cs < k)%nat → (∃ d, aget (table s) d = Some 0) → write_seek c k s = Fault.
Proof.
  intros Hs Hc Hk Hfree. revert k Hk. induction Hc as [c v E He|c v cs E Hne Hnz Hc IH]; intros [|k] Hk;
    cbn [length] in Hk; try lia;
    pose proof (aget_lt_Some _ _ _ E); pose proof (ok_length s Hs); pose proof (ok_spf s Hs);
    cbn [write_seek]; unfold FAT16_CLUSTER_CHAIN_END; rewrite decide_False by lia;
    rewrite (bind_done _ _ _ _ _ (fat_entry_done s c v E)).
  - destruct k as [|k]; [lia|]. cbn [write_seek]. rewrite decide_True by (unfold is_end in He; unfold FAT16_CLUSTER_CHAIN_END; lia).
    unfold mbind, M_bind. by rewrite extend_end_faults.
  - apply IH. lia.
Qed.

Lemma written_same c cs news data s s1 s2 :
  fat_ok s → fat_same s s1 → written c cs news data s1 s2 → written c cs news data s s2.
Proof.
  intros Hs Hs1 [Hok Hfs Hroot Hz Hch Hfree Hent Hroom Hb Hk Hcop]. pose proof (fat_same_table _ _ Hs1) as Ht.
  rewrite Ht in Hfree, Hent, Hk. pose proof (same_fs _ _ Hs1) as Hfs1. rewrite Hfs1 in Hcop.
  split; try done.
  - congruence.
  - rewrite Hroot. apply Hs1.
  - rewrite Hz. apply Hs1.
  - rewrite <-Hroom. symmetry. apply (upd_room (cluster_at s)). by apply fat_same_upd.
  - intros d Hd Hn. rewrite Hk by done. by apply fat_same_cluster.
  - intros fat Hfat Hy. apply Hcop; [done|]. apply (front_copies s s1); try done.
    intros k _. apply (same_content _ _ Hs1).
Qed.

(** The loop of [fat_write], from an offset inside the chain. *)
Lemma wp_write_chain e cs offset d size buffer buf (Q : option Z → fat_state D H → Prop) s :
  fat_ok s → file_ok s e cs → aget (table s) 0 ≠ Some 0 →
  0 ≤ offset < zlen (file_bytes s cs) → cs !! Z.to_nat (offset / (512 * spc s)) = Some d →
  0 ≤ size < 2147483648 → offset + size ≤ (zlen cs + Z.of_nat (room s)) * (512 * spc s) →
  zlen buf = 512 * spc s → Forall is_byte buf → Forall is_byte buffer → size ≤ zlen buffer →
  (∀ s' news, written (start_cluster e) cs news
       (splice (file_bytes s (cs ++ news)) (Z.to_nat offset) (take (Z.to_nat size) buffer)) s s' →
     heap s' = heap s → Q (Some size) s') →
  wp (iter (Z.to_nat (size / (512 * spc s)) + 3) (write_round (512 * spc s) size buffer)
       (WriteLoop 0 (offset mod (512 * spc s)) d buf)) Q s.
Proof.
  intros Hs Hf Hz0 Hoff Hd' Hsz Hroom Hb Hbb Hby Ho HQ. pose proof (ok_spc s Hs).
  destruct (offset_cluster s e cs offset Hs Hf Hoff) as (d0 & suf & Hd & Hc & Hd0 & -> & Hm & _ & Hleft).
  assert (d0 = d) as -> by congruence. clear Hd'.
  set (B := 512 * spc s) in *. set (k := Z.to_nat (offset / B)) in *.
  pose proof (Z.div_mod offset B ltac:(lia)) as Hdm. pose proof (Z.div_pos offset B ltac:(lia) ltac:(lia)).
  pose proof (lookup_lt_Some _ _ _ Hd) as Hk.
  apply (wp_store_loop B size buffer _ (drop k cs) d); try done; try lia.
  - rewrite length_drop. nia.
  - intros _. rewrite Z.sub_0_r. apply rounds_enough; lia.
  - intros s' news Hw Hh. apply (HQ s' news); [|done]. rewrite Z.sub_0_r, drop_0 in Hw.
    apply (written_suffix (start_cluster e) cs k d) in Hw; [|done|apply Hf|done].
    assert (file_bytes s (cs ++ news) = file_bytes s (take k cs) ++ file_bytes s (drop k cs ++ news)) as ->.
    { unfold file_bytes. by rewrite <-concat_app, <-fmap_app, app_assoc, take_drop. }
    assert (Z.to_nat offset = length (file_bytes s (take k cs)) + Z.to_nat (offset mod B))%nat as ->.
    { rewrite length_file_bytes, length_take by done. nia. }
    by rewrite splice_app_r.
Qed.

(** [s'] is [s] after the file [e], listed in slot [k] of the directory [ps], was
    written: it has [size] bytes now, its clusters, of which [news] were free
    before, hold [data]; the entries of all other clusters, and the bytes of all
    other clusters but the directory's, are those of [s]. *)
Record saved (e pd : FAT16_DirEntry) (cs ps news : list Z) (k : nat) (size : Z) (data : list Z) s s' : Prop := {
  sv_ok : fat_ok s';
  sv_fs : fat16_fs s' = fat16_fs s;
  sv_root : root_dir s' = root_dir s;
  sv_size : dev_size (disk s') = dev_size (disk s);
  sv_chain : chain (table s') (start_cluster e) (cs ++ news);
  sv_free : Forall (λ d, aget (table s) d = Some 0) news;
  sv_entries d : d ∉ cs ++ news → aget (table s') d = aget (table s) d;
  sv_kept d : 0 ≤ d < zlen (table s) → d ∉ cs ++ news → d ∉ ps → cluster_at s' d = cluster_at s d;
  sv_bytes : file_bytes s' (cs ++ news) = data;
  sv_parent : chain (table s') (start_cluster pd) ps;
  sv_slots : dir_slots s' ps = <[k := encode (set_size size e)]> (dir_slots s ps);
  sv_copies fat : 0 ≤ fat < num_fats (fat16_fs s) → copy_synced s fat → copy_synced s' fat;
}.

Lemma written_listed e pd cs ps news nm k data s s' :
  fat_ok s → file_ok s e cs → listed s pd ps e nm k → (∀ x, x ∈ ps → x ∉ cs) →
  written (start_cluster e) cs news data s s' →
  listed s' pd ps e nm k ∧ dir_slots s' ps = dir_slots s ps ∧ (∀ x, x ∈ cs ++ news → x ∉ ps).
Proof.
  intros Hs Hf [Hpc He Hnm Hsl] Hdis Hw. pose proof (wr_free _ _ _ _ _ _ Hw) as Hfree.
  rewrite list.Forall_forall in Hfree.
  assert (∀ x, x ∈ ps → x ∉ cs ++ news) as Hout.
  { intros x Hx. rewrite not_elem_of_app. split; [by apply Hdis|]. intros Hn.
    by apply (chain_used _ _ _ _ Hpc Hx), Hfree. }
  assert (dir_slots s' ps = dir_slots s ps) as E.
  { apply dir_slots_frame. intros x Hx. apply Hw; [by eapply chain_in_range|by apply Hout]. }
  split_and!; [split|done|]; try done.
  - apply (chain_frame (table s)); [|done]. intros x Hx. apply Hw. by apply Hout.
  - by rewrite E.
  - intros x Hx Hp. by apply (Hout x).
Qed.

Lemma written_saved e pd cs ps news nm k size data s s1 s2 :
  fat_ok s → file_ok s e cs → listed s pd ps e nm k → (∀ x, x ∈ ps → x ∉ cs) →
  written (start_cluster e) cs news data s s1 → slot_written ps k (encode (set_size size e)) s1 s2 →
  saved e pd cs ps news k size data s s2.
Proof.
  intros Hs Hf Hl Hdis Hw Hsw.
  destruct (written_listed e pd cs ps news nm k data s s1 Hs Hf Hl Hdis Hw) as (Hl1 & Hsl1 & Hout).
  pose proof (wr_ok _ _ _ _ _ _ Hw) as Hok1. pose proof (wr_fs _ _ _ _ _ _ Hw) as Hfs1.
  split; try done.
  - apply Hsw.
  - by rewrite (sw_fs _ _ _ _ _ Hsw), Hfs1.
  - by rewrite (sw_root _ _ _ _ _ Hsw), (wr_root _ _ _ _ _ _ Hw).
  - by rewrite (sw_size _ _ _ _ _ Hsw), (wr_size _ _ _ _ _ _ Hw).
  - rewrite (sw_table _ _ _ _ _ Hsw). apply Hw.
  - apply Hw.
  - intros d Hd. rewrite (sw_table _ _ _ _ _ Hsw). by apply Hw.
  - intros d Hd Hc Hp. rewrite (sw_others _ _ _ _ _ Hsw) by (by rewrite ?(table_length s s1)). by apply (wr_kept _ _ _ _ _ _ Hw).
  - rewrite <-(wr_bytes _ _ _ _ _ _ Hw). apply file_bytes_frame. intros x Hx.
    apply (sw_others _ _ _ _ _ Hsw); [|by apply Hout]. eapply chain_in_range; [apply Hw|done].
  - rewrite (sw_table _ _ _ _ _ Hsw). apply Hl1.
  - by rewrite (sw_slots _ _ _ _ _ Hsw), Hsl1.
  - intros fat Hfat Hy. apply (front_copies s1); try done; try apply Hsw; [by rewrite Hfs1|by apply Hw].
Qed.

(** The end of [fat_write]: the new size goes into the directory. *)
Lemma wp_fat_write e pd cs ps nm k offset size buffer n (Q : Z * FAT16_DirEntry → fat_state D H → Prop) s :
  fat_ok s → file_ok s e cs → listed s pd ps e nm k → (∀ x, x ∈ ps → x ∉ cs) → aget (table s) 0 ≠ Some 0 →
  0 ≤ offset < zlen (file_bytes s cs) → 0 ≤ size → file_size e < offset + size < 2147483648 →
  offset + size ≤ (zlen cs + Z.of_nat (room s)) * (512 * spc s) →
  Forall is_byte buffer → size ≤ zlen buffer →
  0 ≤ n → heap_room (heap_cost (512 * spc s) + (heap_cost (512 * spc s) + n)) (heap s) →
  (∀ s' news, saved e pd cs ps news k (offset + size)
       (splice (file_bytes s (cs ++ news)) (Z.to_nat offset) (take (Z.to_nat size) buffer)) s s' →
     heap_room n (heap s') → Q (size, set_size (offset + size) e) s') →
  wp (fat_write e pd offset size buffer) Q s.
Proof.
  intros Hs Hf Hl Hdis Hz0 Hoff Hsz Hnew Hroom Hby Ho Hn Hheap HQ. unfold fat_write.
  pose proof (fo_size _ _ _ Hf). pose proof (ok_spc s Hs). pose proof (heap_cost_nonneg (512 * spc s)).
  rewrite (fo_attr _ _ _ Hf), decide_False by lia.
  apply wp_bind, wp_gets. rewrite cluster_bytes_spc, decide_False by (done || lia).
  unfold first_cluster. rewrite decide_False by apply (fo_start _ _ _ Hf). apply wp_bind, wp_ret. cbv beta iota.
  destruct (offset_cluster s e cs offset Hs Hf Hoff) as (d & suf & Hd & _).
  apply wp_bind. eapply wp_of_done; [by eapply write_seek_chain, Hd; [|apply Hf]|]. cbv beta iota.
  apply wp_bind. eapply (wp_heap_alloc _ (heap_cost (512 * spc s) + n)); [lia|lia|done|]. intros p s1 Hp Hs1 _ Hr1.
  rewrite decide_False by done. unfold cleared. rewrite decide_False by done. apply wp_bind, wp_ret.
  pose proof (fat_same_ok _ _ Hs1 Hs) as Hok1. pose proof (fat_same_table _ _ Hs1) as Ht1.
  pose proof (fat_same_spc _ _ Hs1) as Hp1. rewrite <-Hp1. apply wp_bind.
  apply (wp_write_chain e cs offset d); rewrite ?Hp1, ?Ht1, ?(file_bytes_same _ _ _ Hs1); try done; try lia.
  { destruct Hf as [Hfa Hfc Hfst Hfsz Hfl]. split; try done; [by rewrite Ht1|by rewrite (file_bytes_same _ _ _ Hs1)]. }
  { by rewrite (upd_room _ _ _ (fat_same_upd _ _ Hs Hs1)). }
  { rewrite length_replicate. lia. }
  { apply zeros_bytes. }
  intros s2 news Hw Hh2. rewrite (file_bytes_same _ _ _ Hs1) in Hw. apply (written_same _ _ _ _ s s1) in Hw; [|done|done].
  destruct (written_listed e pd cs ps news nm k _ s s2 Hs Hf Hl Hdis Hw) as (Hl2 & _ & _).
  pose proof (wr_ok _ _ _ _ _ _ Hw) as Hok2.
  assert (spc s2 = spc s) as Hp2 by (unfold spc; by rewrite (wr_fs _ _ _ _ _ _ Hw)).
  cbv beta iota. rewrite (u32_small (offset + size)) by lia. rewrite decide_True by lia.
  apply wp_bind, wp_bind. cbv zeta.
  eapply (wp_store_entry pd ps e (set_size (offset + size) e) nm k n); try done.
  { apply set_size_ok, Hl. }
  { by rewrite Hp2, Hh2. }
  intros s3 Hsw Hr3. apply wp_bind, wp_ret, wp_ret. apply wp_bind. eapply wp_heap_free; [done|].
  intros s4 Hs4 _ Hr4. apply wp_ret. rewrite s32_small by lia. apply (HQ s4 news); [|done].
  eapply written_saved; try done. by eapply slot_written_same.
Qed.

(** C6: The image builder's fat_write, from an offset inside the file's clusters to
    beyond its end: it returns the number of bytes asked for, the file's chain is
    extended by clusters that were free, its clusters hold what they held with the
    buffer stored at the offset (an added cluster keeps the disk's bytes where the
    buffer does not reach), the directory's slot of the file holds the entry with the
    new size and no other slot changes; the table entries of all other clusters and
    the bytes of all other clusters but the directory's are as before, and every copy
    of the allocation table that agreed with the table in memory still does. *)
Theorem fat_write_stores e pd cs ps nm k offset size buffer n s :
  fat_ok s → file_ok s e cs → listed s pd ps e nm k → (∀ x, x ∈ ps → x ∉ cs) → aget (table s) 0 ≠ Some 0 →
  0 ≤ offset < zlen (file_bytes s cs) → 0 ≤ size → file_size e < offset + size < 2147483648 →
  offset + size ≤ (zlen cs + Z.of_nat (room s)) * (512 * spc s) →
  Forall is_byte buffer → size ≤ zlen buffer →
  0 ≤ n → heap_room (heap_cost (512 * spc s) + (heap_cost (512 * spc s) + n)) (heap s) →
  wp (fat_write e pd offset size buffer)
     (λ res s', res = (size, set_size (offset + size) e) ∧
        ∃ news, saved e pd cs ps news k (offset + size)
          (splice (file_bytes s (cs ++ news)) (Z.to_nat offset) (take (Z.to_nat size) buffer)) s s') s.
Proof. intros. eapply wp_fat_write; try done. naive_solver. Qed.

(** A write that starts more than one cluster behind the end of the chain
    reads and writes the table at the end mark, outside its array. *)
Theorem fat_write_past_chain_faults e pd cs offset size buffer s :
  fat_ok s → file_ok s e cs → 0 ≤ offset → zlen cs < offset / (512 * spc s) →
  (∃ d, aget (table s) d = Some 0) → fat_write e pd offset size buffer s = Fault.
Proof.
  intros Hs Hf Ho Hk Hfree. pose proof (ok_spc s Hs). unfold fat_write.
  rewrite (fo_attr _ _ _ Hf), decide_False by lia.
  unfold mbind at 1, M_bind at 1, gets. cbv beta iota. rewrite cluster_bytes_spc, decide_False by (done || lia).
  unfold first_cluster. rewrite decide_False by apply Hf.
  unfold mbind at 1, M_bind at 1, mret, M_ret. cbv beta iota.
  unfold mbind at 1, M_bind at 1. by rewrite (write_seek_past s _ cs) by (done || apply Hf || lia).
Qed.
End specs.

Lemma fat_write_stores_witness :
  wp (fat_write FatTable.Demo.file_a FatTable.Demo.root 1000 100 (replicate (Z.to_nat 100) 7))
     (λ res s', res = (100, set_size (1000 + 100) FatTable.Demo.file_a) ∧
        ∃ news, saved FatTable.Demo.file_a FatTable.Demo.root [2; 3] [0] news 0 (1000 + 100)
          (splice (file_bytes FatTable.Demo.state ([2; 3] ++ news)) (Z.to_nat 1000)
             (take (Z.to_nat 100) (replicate (Z.to_nat 100) 7))) FatTable.Demo.state s') FatTable.Demo.state.
Proof.
  apply (fat_write_stores FatTable.Demo.file_a FatTable.Demo.root [2; 3] [0] [65] 0 1000 100
    (replicate (Z.to_nat 100) 7) 0 FatTable.Demo.state).
  - apply FatTable.Demo.state_ok.
  - split; [by vm_compute|apply FatTable.Demo.file_chain|done|cbn; lia|by vm_compute].
  - split; [apply FatTable.Demo.root_chain|apply FatTable.Demo.file_a_ok|exists (replicate 9 0); split; [by_decide|done]|by vm_compute].
  - set_solver.
  - by vm_compute.
  - by vm_compute.
  - lia.
  - cbn. lia.
  - by vm_compute.
  - by_decide.
  - by vm_compute.
  - lia.
  - vm_compute. split; [congruence|done].
Defined.
