(* ===== verification/LoaderCreate.v ===== *)
(** * The image builder: a new file in the root directory

    What [fat_create_file] and [fat_get_file_data] of fs_loader/fat_loader.c do
    with a path "/NAME", the only kind the build uses: the path is resolved, the
    name checked, a cluster and a slot of the root directory are taken. *)

From S2P Require Import Prelude CString Interfaces FatTable FatChain FatDir FatPath FatFile FatMount HostString FatLoader FatCopies LoaderWrite.

(** ** Names and paths *)

(** What the name comparison of the host's [strncmp] accepts. *)
Definition slot_has_name (n sl : list Z) : Prop := cstr (take 11 sl) = take 11 n.
#[export] Instance slot_has_name_dec n sl : Decision (slot_has_name n sl).
Proof. unfold slot_has_name. apply _. Defined.

Lemma host_cmp_decides n r : str_ok n → decides (cmp_name (n ++ 0 :: r)) (slot_has_name n).
Proof.
  intros Hn b j Hl. unfold cmp_name, slot_has_name.
  destruct (host_strncmp_field (drop (32 * j) b) n r (Z.to_nat FAT16_FILENAME_SIZE)) as (d & Hd & Hiff);
    [done|rewrite length_drop; unfold FAT16_FILENAME_SIZE; lia|].
  exists d. split; [done|]. by rewrite take_slot by lia.
Qed.

Lemma cstr_all s : str_ok s → cstr s = s.
Proof. induction 1 as [|c s Hc _ IH]; [done|]. cbn [cstr]. by rewrite decide_False, IH by lia. Qed.

(** A string of [m] characters is the whole of what is in front of the zero. *)
Lemma cstr_take_more sl m k : (length (cstr (take m sl)) < m)%nat → (m ≤ k)%nat → (m ≤ length sl)%nat →
  cstr (take k sl) = cstr (take m sl).
Proof.
  revert m k. induction sl as [|c sl IH]; intros [|m] [|k] Hl Hk Hm; simpl in *; try lia.
  case_decide; [done|]. simpl in Hl. f_equal. apply IH; lia.
Qed.

(** The exact comparison of [fat_update_dir_entry] accepts less. *)
Lemma exact_has_name n sl :
  (length n ≤ 10)%nat → length sl = 32%nat → slot_named_exactly n sl → slot_has_name n sl.
Proof.
  unfold slot_named_exactly, slot_has_name. intros Hn Hl He.
  rewrite (cstr_take_more sl (S (length n))); [|rewrite He; lia|lia|lia]. rewrite He. symmetry. apply take_ge. lia.
Qed.

(** The names [check_file_name] lets through. *)
Definition legal (c : Z) : Prop :=
  (97 ≤ c ∧ c ≤ 122) ∨ (65 ≤ c ∧ c ≤ 90) ∨ (48 ≤ c ∧ c ≤ 57) ∨ c = 45 ∨ c = 95 ∨ c = DOT.
Record name_ok (nm : list Z) : Prop := {
  no_legal : Forall legal nm;
  no_some : nm ≠ [];
  no_short : (length nm ≤ 10)%nat;
  no_dot : nm ≠ [DOT];
  no_dotdot : nm ≠ [DOT; DOT];
}.

Lemma name_str_ok nm : Forall legal nm → str_ok nm.
Proof. intros Hl. eapply list.Forall_impl; [exact Hl|]. intros c Hc. unfold legal, DOT in Hc. lia. Qed.
Lemma name_no_slash nm : Forall legal nm → SLASH ∉ nm.
Proof. rewrite list.Forall_forall. intros Hl Hin%Hl. unfold legal, SLASH, DOT in Hin. lia. Qed.
Lemma name_no_tilde nm : name_ok nm → nm ≠ [TILDE].
Proof. intros [Hl _ _ _ _] ->. inversion Hl as [|? ? Hc]. unfold legal, TILDE, DOT in Hc. lia. Qed.

Lemma legal_chars_ok nm r : Forall legal nm → legal_chars (nm ++ 0 :: r) = Done true.
Proof.
  induction 1 as [|c nm Hc _ IH]; [done|]. cbn [app legal_chars].
  rewrite decide_False by (unfold legal, DOT in Hc; lia). rewrite decide_True; [done|].
  unfold isalnum. case_decide; [left; lia|]. unfold legal in Hc. lia.
Qed.

Lemma check_file_name_ok nm r : name_ok nm → check_file_name (nm ++ 0 :: r) = Done true.
Proof.
  intros Hok. pose proof (name_no_tilde _ Hok) as Ht. destruct Hok as [Hl Hne _ Hd Hdd].
  pose proof (name_str_ok _ Hl) as Hs. unfold check_file_name. rewrite legal_chars_ok by done. cbn [mbind outcome_bind negb].
  assert (∀ n, str_ok n → nm ≠ n → ∃ d, strcmp (nm ++ 0 :: r) (n ++ [0]) = Done d ∧ d ≠ 0) as Hcmp.
  { intros n Hn Hnn. destruct (strcmp_cstr nm n r [] Hs Hn) as (d & E & Hiff). exists d. split; [done|]. tauto. }
  destruct (Hcmp [] str_ok_nil Hne) as (d1 & E1 & ?).
  destruct (Hcmp [DOT] ltac:(by_decide) Hd) as (d2 & E2 & ?).
  destruct (Hcmp [DOT; DOT] ltac:(by_decide) Hdd) as (d3 & E3 & ?).
  destruct (Hcmp [TILDE] ltac:(by_decide) Ht) as (d4 & E4 & ?).
  cbn [app] in E1, E2, E3, E4. rewrite E1, E2, E3, E4. cbn [mbind outcome_bind].
  by rewrite bool_decide_eq_true_2.
Qed.

(** Parent and base name of "/NAME", and of "/". *)
Lemma host_path_copy p r :
  str_ok p → (length p < 1024)%nat → strcpy PATH_COPY (p ++ 0 :: r) = Done (p ++ 0 :: drop (S (length p)) PATH_COPY).
Proof. intros. apply host_strcpy_cstr; [done|]. unfold PATH_COPY. by rewrite length_replicate. Qed.

Lemma host_split nm r :
  str_ok nm → SLASH ∉ nm → (length nm < 1000)%nat →
  get_parent_dir (SLASH :: nm ++ 0 :: r) PATH_BUFFER = Done (SLASH :: 0 :: drop 2 PATH_BUFFER) ∧
  ∀ nbuf, (length nm < length nbuf)%nat →
    get_base_name (SLASH :: nm ++ 0 :: r) nbuf = Done (nm ++ 0 :: drop (S (length nm)) nbuf).
Proof.
  intros Hn Hs Hl.
  assert (str_ok (SLASH :: nm)) as Hp by (apply str_ok_cons; split; [unfold SLASH; lia|done]).
  pose proof (host_path_copy (SLASH :: nm) r Hp ltac:(simpl; lia)) as Hcopy. cbn [app] in Hcopy.
  pose proof (host_strrchr_cstr (SLASH :: nm) (drop (S (length (SLASH :: nm))) PATH_COPY) SLASH Hp) as Hrc.
  pose proof (last_slash_spec [] nm Hs) as Hlast. cbn [app] in Hrc, Hlast. cbn [length] in Hlast.
  unfold get_parent_dir, get_base_name. rewrite Hcopy. cbn [mbind outcome_bind].
  rewrite Hrc, Hlast. cbn [mbind outcome_bind]. split; [done|].
  intros nbuf Hb. cbn [insert list_insert drop length]. by apply host_strcpy_cstr.
Qed.

(** An entry stored where no other matches is the one found. *)
Lemma list_find_stored (P : list Z → Prop) `{∀ x, Decision (P x)} (l : list (list Z)) k x :
  list_find P l = None → (k < length l)%nat → P x → list_find P (<[k := x]> l) = Some (k, x).
Proof.
  intros Hnone Hk Hx. apply list_find_insert_Some. right. left. split_and!; try done.
  intros i z Hz _ Hp. apply list_find_None in Hnone. rewrite Forall_lookup in Hnone. by apply (Hnone i z).
Qed.
Lemma list_find_not_stored (P : list Z → Prop) `{∀ x, Decision (P x)} (l : list (list Z)) k x :
  list_find P l = None → ¬ P x → list_find P (<[k := x]> l) = None.
Proof. rewrite !list_find_None. intros. by apply Forall_insert. Qed.

Section specs.
Context {D H : Type} `{BlockDeviceLaws D} `{KernelHeapLaws H}.
Implicit Types s : fat_state D H.

(** ** Resolving *)

Lemma wp_resolve_root r (Q : Z + FAT16_DirEntry → fat_state D H → Prop) s :
  Q (inr (root_dir s)) s → wp (fat_find_dir_entry_from_path (SLASH :: 0 :: r)) Q s.
Proof.
  intros HQ. unfold fat_find_dir_entry_from_path. apply wp_bind, wp_gets.
  apply wp_bind. eapply wp_liftO; [apply (strlen_cstr [SLASH]); by_decide|].
  apply wp_bind. eapply wp_liftO; [reflexivity|]. rewrite decide_False by done.
  apply wp_bind. eapply wp_liftO; [reflexivity|]. rewrite decide_True by tauto.
  apply wp_bind. eapply wp_liftO; [reflexivity|]. rewrite decide_True by tauto. by apply wp_ret.
Qed.

(** The result of looking [nm] up in the slots of a directory. *)
Definition lookup_result (nm : list Z) (slots : list (list Z)) : Z + FAT16_DirEntry :=
  match list_find (slot_has_name nm) slots with
  | Some (_, sl) => inr (decode sl)
  | None => inl FILE_NOT_FOUND
  end.

(** The last component of a path directly under the root. *)
Lemma wp_name_round nm r dir ps n (Q : (Z * FAT16_DirEntry * list Z) + (Z + FAT16_DirEntry) → fat_state D H → Prop) s :
  fat_ok s → chain (table s) (start_cluster dir) ps → name_ok nm →
  0 ≤ n → heap_room (heap_cost (512 * spc s) + n) (heap s) →
  (∀ s', fat_same s s' → heap_room n (heap s') → Q (inr (lookup_result nm (dir_slots s ps))) s') →
  wp (path_round (SLASH :: nm ++ 0 :: r) (zlen (SLASH :: nm)) (1, dir, replicate 12 0)) Q s.
Proof.
  intros Hs Hc [Hl Hne Hlen Hd Hdd] Hn Hroom HQ. unfold path_round.
  pose proof (name_str_ok _ Hl) as Hstr. pose proof (name_no_slash _ Hl) as Hns.
  apply wp_bind. eapply wp_liftO.
  { apply (component_end_spec (SLASH :: nm) r 1 nm [] 0 13); try done; simpl; try lia;
      [by rewrite app_nil_r|by left]. }
  rewrite decide_False by lia. apply wp_bind. eapply wp_liftO; [reflexivity|].
  apply wp_bind. eapply wp_liftO.
  { change (drop (Z.to_nat 1) (SLASH :: nm ++ 0 :: r)) with (nm ++ 0 :: r).
    apply host_strncpy_cstr; [done|]. rewrite length_app, length_replicate, length_drop, length_replicate.
    change (Z.to_nat FAT16_FILENAME_SIZE) with 11%nat. lia. }
  change (replicate _ _ ++ drop _ (replicate 12 0)) with (replicate 12 0).
  replace (Z.to_nat (Z.of_nat (1 + length nm) - 1)) with (length nm) by lia.
  rewrite take_ge, Nat.sub_diag, drop_replicate by lia. cbn [replicate app].
  replace (12 - length nm)%nat with (S (11 - length nm)) by lia. cbn [replicate].
  rewrite decide_False by done. rewrite decide_True by (simpl; lia). apply wp_bind.
  eapply (wp_find_entry _ (slot_has_name nm)); [done|done|by apply host_cmp_decides|done|done|].
  intros s' Hs' Hr'. specialize (HQ s' Hs' Hr'). unfold lookup_result in HQ.
  destruct (list_find _ _) as [[k sl]|]; cbn; apply wp_ret; [done|].
  rewrite decide_False by (simpl; lia). done.
Qed.

Lemma wp_resolve_name nm r ps n (Q : Z + FAT16_DirEntry → fat_state D H → Prop) s :
  fat_ok s → chain (table s) (start_cluster (root_dir s)) ps → name_ok nm →
  0 ≤ n → heap_room (heap_cost (512 * spc s) + n) (heap s) →
  (∀ s', fat_same s s' → heap_room n (heap s') → Q (lookup_result nm (dir_slots s ps)) s') →
  wp (fat_find_dir_entry_from_path (SLASH :: nm ++ 0 :: r)) Q s.
Proof.
  intros Hs Hc Hnm Hn Hroom HQ. pose proof Hnm as [Hl Hne Hlen Hd Hdd].
  pose proof (name_str_ok _ Hl) as Hstr. pose proof (name_no_slash _ Hl) as Hns.
  assert (str_ok (SLASH :: nm)) as Hp by (apply str_ok_cons; split; [unfold SLASH; lia|done]).
  destruct nm as [|x nm]; [done|]. apply str_ok_cons in Hstr as [Hx _].
  assert (x ≠ SLASH) as Hxs by set_solver.
  unfold fat_find_dir_entry_from_path. apply wp_bind, wp_gets.
  apply wp_bind. eapply wp_liftO; [by apply (strlen_cstr (SLASH :: x :: nm))|].
  apply wp_bind. eapply wp_liftO; [reflexivity|]. rewrite decide_False by done.
  apply wp_bind. eapply wp_liftO.
  { cbn [app strncmp]. rewrite decide_True by done. cbn [strncmp]. rewrite decide_False by lia. reflexivity. }
  rewrite decide_False by (unfold SLASH, TILDE; lia).
  apply wp_bind. eapply wp_liftO; [reflexivity|]. rewrite decide_False by (unfold SLASH, DOT, TILDE; lia).
  assert (∃ fuel, Z.to_nat (zlen (SLASH :: x :: nm)) + 2 = S (S fuel))%nat as [fuel ->] by (exists (length (SLASH :: x :: nm)); lia).
  cbn [iter].
  apply wp_bind. unfold path_round at 1. apply wp_bind. eapply wp_liftO.
  { apply (component_end_spec (SLASH :: x :: nm) r 0 [] (SLASH :: x :: nm) 0 13); try done; simpl; try lia; [|set_solver].
    right. by eexists. }
  rewrite decide_False by (simpl; lia). apply wp_bind. eapply wp_liftO; [reflexivity|].
  apply wp_bind. eapply wp_liftO; [reflexivity|]. rewrite decide_True by done.
  apply wp_bind. eapply wp_liftO; [reflexivity|]. apply wp_bind. eapply wp_liftO; [reflexivity|].
  rewrite decide_False by naive_solver. apply wp_ret. apply wp_bind.
  eapply (wp_name_round (x :: nm) r _ ps n); [done..|]. intros s' Hs' Hr'. apply wp_ret. by apply HQ.
Qed.

(** ** A new file *)

(** The entry [fat_create_file] makes. *)
Definition new_file (nm : list Z) (cluster : Z) : FAT16_DirEntry :=
  set_name (nm ++ replicate (11 - length nm) 0) (set_start cluster zero_entry).

(** The root directory as [fat_init] leaves it, with the clusters [ps]. *)
Record root_ready s (ps : list Z) : Prop := {
  rr_chain : chain (table s) (start_cluster (root_dir s)) ps;
  rr_entry : entry_ok (root_dir s);
  rr_attr : Z.land (attr (root_dir s)) FAT_ATTR_DIRECTORY ≠ 0;
  rr_name : take 2 (name (root_dir s)) = [TILDE; 0];
  rr_zero : aget (table s) 0 ≠ Some 0;
}.

(** The name is new in the directory and [k] its first free slot; nothing in it is
    called "~" (the root directory lists no entry for itself). *)
Record name_fits (nm : list Z) (k : nat) (slots : list (list Z)) : Prop := {
  nf_new : list_find (slot_has_name nm) slots = None;
  nf_root : list_find (slot_named_exactly [TILDE]) slots = None;
  nf_free : fst <$> list_find (slot_has_name []) slots = Some k;
}.

(** [s'] is [s] with the empty file [nm] in slot [k] of the root directory; it has
    the cluster [new]. *)
Record created (nm ps : list Z) (k : nat) (new : Z) s s' : Prop := {
  cr_ok : fat_ok s';
  cr_fs : fat16_fs s' = fat16_fs s;
  cr_root : root_dir s' = root_dir s;
  cr_free : aget (table s) new = Some 0;
  cr_pos : 0 < new;
  cr_table : table s' = <[Z.to_nat new := FAT16_CLUSTER_CHAIN_END]> (table s);
  cr_room : room s = S (room s');
  cr_slots : dir_slots s' ps = <[k := encode (new_file nm new)]> (dir_slots s ps);
  cr_kept d : 0 ≤ d < zlen (table s) → d ≠ new → d ∉ ps → cluster_at s' d = cluster_at s d;
  cr_synced : fat_synced s → fat_synced s';
}.

Lemma new_file_ok nm c : name_ok nm → entry_ok (new_file nm c).
Proof.
  intros [Hl _ Hlen _ _]. pose proof (name_str_ok _ Hl) as Hs. split; cbn; unfold is_byte; try lia.
  - split; [rewrite length_app, length_replicate; lia|]. apply Forall_app. split.
    + eapply list.Forall_impl; [exact Hs|]. unfold is_byte. lia.
    + apply Forall_replicate. unfold is_byte. lia.
  - pose proof (u16_range c). repeat split; lia.
Qed.

Lemma encode_new_file nm c :
  name_ok nm → ∃ z, encode (new_file nm c) = nm ++ 0 :: z ∧ (10 - length nm ≤ length z)%nat.
Proof.
  intros [_ _ Hlen _ _]. unfold encode. cbn [new_file name set_name].
  replace (11 - length nm)%nat with (S (10 - length nm)) by lia. cbn [replicate].
  rewrite <-!app_assoc. eexists. split; [done|]. rewrite length_app, length_replicate. lia.
Qed.

Lemma new_file_named nm c : name_ok nm → slot_has_name nm (encode (new_file nm c)).
Proof.
  intros Hnm. destruct (encode_new_file nm c Hnm) as (z & -> & _). destruct Hnm as [Hl _ Hlen _ _].
  unfold slot_has_name. rewrite (take_ge nm) by lia. replace 11%nat with (length nm + S (10 - length nm))%nat by lia.
  rewrite take_app_add. cbn [take]. by apply cstr_terminated, name_str_ok.
Qed.

Lemma new_file_named_exactly nm n c :
  name_ok nm → str_ok n → slot_named_exactly n (encode (new_file nm c)) → n = nm.
Proof.
  intros Hnm Hn. destruct (encode_new_file nm c Hnm) as (z & -> & _). destruct Hnm as [Hl _ Hlen _ _].
  unfold slot_named_exactly. destruct (decide (length nm ≤ length n)%nat) as [Hle|Hgt].
  - replace (S (length n)) with (length nm + S (length n - length nm))%nat by lia.
    rewrite take_app_add. cbn [take]. by rewrite cstr_terminated by (by apply name_str_ok).
  - rewrite take_app_le, cstr_all by (lia || by apply Forall_take, name_str_ok). intros Hc.
    apply (f_equal length) in Hc. rewrite length_take in Hc. lia.
Qed.

(** *** The state with a new chain *)

Lemma room_started g s s' new :
  fat_ok s → fat_upd (<[Z.to_nat new := FAT16_CLUSTER_CHAIN_END]> (table s)) g s s' →
  aget (table s) new = Some 0 → on_device s new → room s = S (room s').
Proof.
  intros Hs Hu Hn Hd. unfold room, clusters.
  rewrite (upd_table _ _ _ _ Hu), (upd_size _ _ _ _ Hu), (upd_fs _ _ _ _ Hu), (upd_spc _ _ _ _ Hu).
  fold (clusters s). apply on_device_clusters in Hd; [|done]. pose proof (aget_lt_Some _ _ _ Hn).
  rewrite take_insert_lt by lia.
  pose proof (free_count_insert (take (Z.to_nat (clusters s)) (table s)) new 0 FAT16_CLUSTER_CHAIN_END
    ltac:(rewrite aget_take by lia; done)) as E.
  unfold FAT16_CLUSTER_CHAIN_END in *. rewrite decide_True, decide_False in E by done. lia.
Qed.

(** The root directory after a free cluster was taken. *)
Lemma started_root g ps new s s' :
  fat_ok s → root_ready s ps → aget (table s) new = Some 0 → 0 < new →
  fat_upd (<[Z.to_nat new := FAT16_CLUSTER_CHAIN_END]> (table s)) g s s' →
  (∀ d, d ≠ new → g d = cluster_at s d) →
  root_ready s' ps ∧ dir_slots s' ps = dir_slots s ps ∧ (new ∉ ps) ∧
  (∀ d, 0 ≤ d < zlen (table s) → d ≠ new → cluster_at s' d = cluster_at s d).
Proof.
  intros Hs [Hc He Ha Hn Hz] Hfree Hpos Hu Hg. pose proof (aget_lt_Some _ _ _ Hfree) as Hr.
  assert (new ∉ ps) as Hnin by (intros Hin; by apply (chain_used _ _ _ _ Hc Hin)).
  assert (∀ d, 0 ≤ d < zlen (table s) → d ≠ new → cluster_at s' d = cluster_at s d) as Hkept.
  { intros d Hd Hne. rewrite (upd_cluster _ _ _ _ Hu) by (by rewrite length_insert). by apply Hg. }
  split; [|split_and!; try done].
  - split; rewrite ?(upd_root _ _ _ _ Hu), ?(upd_table _ _ _ _ Hu); try done.
    + apply (chain_frame (table s)); [|done]. intros d Hd.
      rewrite aget_insert, decide_False by (done || set_solver). done.
    + rewrite aget_insert by done. case_decide; [lia|done].
  - apply dir_slots_frame. intros d Hd. apply Hkept; [by eapply chain_in_range|set_solver].
Qed.

(** The steps of [fat_create] put together. *)
Lemma created_intro g nm ps k new s s2 s3 :
  fat_ok s → root_ready s ps → aget (table s) new = Some 0 → 0 < new → on_device s new →
  fat_upd (<[Z.to_nat new := FAT16_CLUSTER_CHAIN_END]> (table s)) g s s2 → (∀ d, d ≠ new → g d = cluster_at s d) →
  slot_written ps k (encode (new_file nm new)) s2 s3 → created nm ps k new s s3.
Proof.
  intros Hs Hroot Hfree Hpos Hdev Hu Hg [Hok Hfs Hrt Ht Hz Hsl Ho Hsy Hfr].
  destruct (started_root g ps new s s2 Hs Hroot Hfree Hpos Hu Hg) as (_ & Hsl2 & Hnin & Hkept).
  pose proof (room_started _ _ _ _ Hs Hu Hfree Hdev) as Hroom.
  assert (room s3 = room s2) as Hr3.
  { unfold room, clusters, spc. by rewrite Hfs, Hz, Ht. }
  split; try done; try congruence.
  - rewrite Hfs. apply Hu.
  - rewrite Hrt. apply Hu.
  - rewrite Ht. apply Hu.
  - intros d Hd Hne Hn. rewrite Ho; [by apply Hkept| |done].
    rewrite (upd_table _ _ _ _ Hu), length_insert. done.
  - intros Hy. by apply Hsy, (upd_synced _ _ _ _ Hu).
Qed.

Lemma created_same nm ps k new s s1 s2 : created nm ps k new s s1 → fat_same s1 s2 → created nm ps k new s s2.
Proof.
  intros [Hok Hfs Hrt Hf Hp Ht Hr Hsl Hk Hsy] Hs. pose proof (fat_same_table _ _ Hs) as Ht2. split; try done.
  - by eapply fat_same_ok.
  - by rewrite (same_fs _ _ Hs).
  - by rewrite (same_root _ _ Hs).
  - by rewrite Ht2.
  - rewrite Hr. f_equal. symmetry. apply (upd_room (cluster_at s1)). by apply fat_same_upd.
  - rewrite <-Hsl. apply dir_slots_frame. intros. by apply fat_same_cluster.
  - intros d Hd Hne Hn. rewrite (fat_same_cluster _ _ _ Hs). by apply Hk.
  - intros Hy. apply (upd_synced _ _ _ _ (fat_same_upd _ _ Hok Hs)). by apply Hsy.
Qed.

(** The search for a free cluster when the device has one. *)
Lemma find_free_room s :
  fat_ok s → aget (table s) 0 ≠ Some 0 → (0 < room s)%nat →
  ∃ new, fat_find_free s = Done (new, s) ∧ aget (table s) new = Some 0 ∧ 0 < new < 65536 ∧ on_device s new.
Proof.
  intros Hs Hz Hroom. destruct (fat_find_free_spec s Hs) as (new & E & Hnew). exists new.
  destruct Hnew as [[-> Hno]|(Hr & Er & Hlow)]; [apply room_none in Hno; lia|].
  pose proof (ok_length s Hs). pose proof (ok_spf s Hs). assert (new ≠ 0) by congruence.
  split_and!; try done; try lia. by apply room_first.
Qed.

(** The root directory has no entry for itself, so its count is stored nowhere. *)
Lemma wp_count_root e ps n (Q : bool → fat_state D H → Prop) s :
  fat_ok s → root_ready s ps → list_find (slot_named_exactly [TILDE]) (dir_slots s ps) = None →
  entry_ok e → name e = name (root_dir s) → 0 ≤ n → heap_room (heap_cost (512 * spc s) + n) (heap s) →
  (∀ s', fat_same s s' → heap_room n (heap s') → Q false s') →
  wp (fat_update_dir_entry (encode e) (root_dir s) e) Q s.
Proof.
  intros Hs [Hc _ _ Hname _] Hnone He Hne Hn Hheap HQ. rewrite <-Hne in Hname.
  assert (∃ z, encode e = [TILDE] ++ 0 :: z) as [z ->].
  { unfold encode. destruct (name e) as [|a [|b t]]; [done..|]. injection Hname as -> ->. by eexists. }
  eapply (wp_update_dir_entry [TILDE] z _ e ps n); [done|done|done|by_decide|simpl; lia|done|done|].
  intros s' Hr. rewrite Hnone. auto.
Qed.

(** What is left of the root directory's slots after a file was added. *)
Lemma created_slots nm ps k new s s' :
  name_ok nm → name_fits nm k (dir_slots s ps) → dir_slots s' ps = <[k := encode (new_file nm new)]> (dir_slots s ps) →
  list_find (slot_named_exactly [TILDE]) (dir_slots s' ps) = None ∧
  list_find (slot_has_name nm) (dir_slots s' ps) = Some (k, encode (new_file nm new)).
Proof.
  intros Hnm [Hnew Htilde Hfree] ->. split.
  - apply list_find_not_stored; [done|]. intros Ht%new_file_named_exactly; [|done|by_decide].
    by apply (name_no_tilde nm).
  - apply list_find_stored; [done| |by apply new_file_named].
    destruct (list_find (slot_has_name []) _) as [[k' x]|] eqn:Ek; [|done]. cbn in Hfree. simplify_eq.
    apply list_find_Some in Ek as (Hk & _). by eapply lookup_lt_Some.
Qed.

(** The cluster of the new file, taken in a state with the same volume. *)
Lemma wp_take_cluster {A} (none : A) (rest : Z → M (fat_state D H) A) n (Q : A → fat_state D H → Prop) s s1 :
  fat_ok s → aget (table s) 0 ≠ Some 0 → (0 < room s)%nat → fat_same s s1 →
  0 ≤ n → heap_room (heap_cost (512 * spc s) + n) (heap s1) →
  (∀ new s' g, aget (table s) new = Some 0 → 0 < new → on_device s new →
     fat_upd (<[Z.to_nat new := FAT16_CLUSTER_CHAIN_END]> (table s)) g s s' →
     (∀ d, d ≠ new → g d = cluster_at s d) → heap_room n (heap s') → wp (rest new) Q s') →
  wp (index ← fat_find_free;
      if decide (start_cluster (set_start index zero_entry) = -1) then mret none else
      _ ← fat_update_chain (start_cluster (set_start index zero_entry)) (start_cluster (set_start index zero_entry));
      rest index) Q s1.
Proof.
  intros Hs Hz Hroom Hs1 Hn Hheap HQ. pose proof (fat_same_ok _ _ Hs1 Hs) as Hok1.
  pose proof (fat_same_table _ _ Hs1) as Ht1. pose proof (fat_same_spc _ _ Hs1) as Hp1.
  destruct (find_free_room s1) as (new & Efree & Hfree & Hpos & Hdev);
    [done|by rewrite Ht1|by rewrite (upd_room _ _ _ (fat_same_upd _ _ Hs Hs1))|].
  apply wp_bind. apply (wp_of_done _ _ _ _ _ Efree). rewrite Ht1 in Hfree.
  change (start_cluster (set_start new zero_entry)) with (u16 new). rewrite u16_small, decide_False by lia.
  apply wp_bind. eapply (wp_start_chain new n); [done|by rewrite Ht1|lia|done|done|by rewrite Hp1|].
  intros s2 Hu Hr2. apply (HQ new s2 (with_zeroed s1 new)); try done; try lia.
  - apply on_device_clusters; [done|]. apply on_device_clusters in Hdev; [|done].
    unfold clusters in *. by rewrite (same_fs _ _ Hs1), Hp1, (same_size _ _ Hs1) in Hdev.
  - rewrite <-Ht1. eapply fat_upd_trans; [by apply fat_same_upd|exact Hu].
  - intros d Hd. unfold with_zeroed. rewrite decide_False by done. by apply fat_same_cluster.
Qed.

Lemma created_root nm ps k new s s' : root_ready s ps → created nm ps k new s s' → root_ready s' ps.
Proof.
  intros [Hc He Ha Hn Hz] Hcr. pose proof (cr_free _ _ _ _ _ _ Hcr) as Hfree.
  pose proof (cr_pos _ _ _ _ _ _ Hcr) as Hpos. pose proof (aget_lt_Some _ _ _ Hfree) as Hr.
  assert (∀ d, d ≠ new → aget (table s') d = aget (table s) d) as Ht.
  { intros d Hd. by rewrite (cr_table _ _ _ _ _ _ Hcr), aget_insert, decide_False. }
  split; rewrite ?(cr_root _ _ _ _ _ _ Hcr); try done.
  - apply (chain_frame (table s)); [|done]. intros d Hd. apply Ht. intros ->. by apply (chain_used _ _ _ _ Hc Hd).
  - rewrite Ht by lia. done.
Qed.

(** The name of the new entry. *)
Lemma new_name nm c :
  name_ok nm →
  strncpy (name (set_start c zero_entry)) (nm ++ 0 :: drop (S (length nm)) (replicate 12 0)) (Z.to_nat FAT16_FILENAME_SIZE)
    = Done (nm ++ replicate (11 - length nm) 0).
Proof.
  intros [Hl _ Hlen _ _]. rewrite host_strncpy_cstr; [|by apply name_str_ok|done].
  rewrite take_ge by (change (Z.to_nat FAT16_FILENAME_SIZE) with 11%nat; lia).
  change (drop _ (name _)) with (@nil Z). by rewrite app_nil_r.
Qed.

Lemma wp_fat_create nm r ps k n (Q : Z → fat_state D H → Prop) s :
  fat_ok s → root_ready s ps → name_ok nm → name_fits nm k (dir_slots s ps) → (0 < room s)%nat →
  0 ≤ n → heap_room (4 * heap_cost (512 * spc s) + n) (heap s) →
  (∀ s' new, created nm ps k new s s' → heap_room n (heap s') → Q SUCCESS s') →
  wp (fat_create (SLASH :: nm ++ 0 :: r) false) Q s.
Proof.
  intros Hs Hroot Hnm Hfits Hroom Hn Hheap HQ. pose proof Hnm as [Hl Hne Hlen Hd Hdd].
  pose proof (name_str_ok _ Hl) as Hstr. pose proof (name_no_slash _ Hl) as Hns.
  pose proof (heap_cost_nonneg (512 * spc s)) as HC.
  unfold fat_create. destruct (host_split nm r Hstr Hns ltac:(lia)) as [Epar Ebase].
  apply wp_bind. eapply wp_liftO; [apply Ebase; rewrite length_replicate; lia|].
  apply wp_bind. eapply wp_liftO; [exact Epar|].
  apply wp_bind. eapply wp_liftO; [by apply check_file_name_ok|]. cbn [negb].
  apply wp_bind, wp_resolve_root. rewrite decide_False by apply Hroot.
  apply wp_bind. eapply (wp_find_entry _ (slot_has_name nm) _ ps (3 * heap_cost (512 * spc s) + n));
    [done|apply Hroot|by apply host_cmp_decides|lia|eapply heap_room_le; [|done]; lia|].
  rewrite (nf_new _ _ _ Hfits). intros s1 Hs1 Hr1. cbn [fmap option_fmap option_map].
  eapply (wp_take_cluster _ _ (2 * heap_cost (512 * spc s) + n) _ s);
    [done|apply Hroot|done|done|lia|eapply heap_room_le; [|done]; lia|].
  intros new s2 g Hfree Hpos Hdev Hu Hg Hr2. pose proof (upd_ok _ _ _ _ Hu) as Hok2. pose proof (upd_spc _ _ _ _ Hu) as Hp2.
  destruct (started_root g ps new s s2 Hs Hroot Hfree Hpos Hu Hg) as (Hroot2 & Hsl2 & _).
  apply wp_bind. eapply wp_liftO; [by apply new_name|]. fold (new_file nm new).
  pose proof (nf_free _ _ _ Hfits) as Hk. rewrite <-Hsl2 in Hk.
  destruct (list_find (slot_has_name []) (dir_slots s2 ps)) as [[k' x]|] eqn:Ek; [|done]. cbn in Hk. simplify_eq.
  rewrite <-(upd_root _ _ _ _ Hu).
  apply wp_bind. eapply (wp_add_entry_slot _ (slot_has_name []) _ _ ps k x (heap_cost (512 * spc s) + n));
    [done|apply Hroot2|by apply new_file_ok|apply (host_cmp_decides [] []), str_ok_nil|done|lia|
     rewrite Hp2; eapply heap_room_le; [|done]; lia|].
  intros s3 Hsw Hr3. apply wp_bind, wp_ret. cbn [negb].
  pose proof (created_intro g nm ps k new s s2 s3 Hs Hroot Hfree Hpos Hdev Hu Hg Hsw) as Hcr.
  destruct (created_slots nm ps k new s s3 Hnm Hfits (cr_slots _ _ _ _ _ _ Hcr)) as [Htilde _].
  destruct (host_split [] (drop 2 PATH_BUFFER) str_ok_nil ltac:(set_solver) ltac:(simpl; lia)) as [Epp _].
  apply wp_bind. eapply wp_liftO; [exact Epp|]. apply wp_bind, wp_resolve_root.
  pose proof (created_root nm ps k new s s3 Hroot Hcr) as Hroot3.
  assert (spc s3 = spc s) as Hp3 by (unfold spc; by rewrite (cr_fs _ _ _ _ _ _ Hcr)).
  assert (root_dir s2 = root_dir s3) as -> by (symmetry; apply Hsw).
  apply wp_bind. eapply (wp_count_root _ ps n); try done; [apply Hcr|apply set_size_ok, set_size_ok, Hroot3|by rewrite Hp3|].
  intros s4 Hs4 Hr4. apply wp_ret. apply (HQ s4 new); [|done]. by eapply created_same.
Qed.

(** *** What the new file is *)

Lemma dir_slots_length s ps : fat_ok s → Forall (λ sl, length sl = 32%nat) (dir_slots s ps).
Proof.
  intros Hs. unfold dir_slots. apply List.Forall_concat, Forall_fmap, list.Forall_forall. intros c _.
  change (Forall (λ sl, length sl = 32%nat) (cluster_slots (cluster_at s c))).
  apply Forall_lookup. intros j sl Hj. rewrite cluster_slots_lookup in Hj. case_decide as Hl; [|done].
  simplify_eq. apply length_slot. pose proof (Nat.div_mod_eq (length (cluster_at s c)) 32). lia.
Qed.

(** It is a file of one cluster, listed under its name. *)
Lemma created_listed nm ps k new s s' :
  fat_ok s → root_ready s ps → name_ok nm → name_fits nm k (dir_slots s ps) → created nm ps k new s s' →
  file_ok s' (new_file nm new) [new] ∧ listed s' (root_dir s') ps (new_file nm new) nm k ∧ (∀ x, x ∈ ps → x ∉ [new]).
Proof.
  intros Hs Hroot Hnm Hfits Hcr. pose proof (created_root _ _ _ _ _ _ Hroot Hcr) as Hroot'.
  pose proof (cr_free _ _ _ _ _ _ Hcr) as Hfree. pose proof (cr_pos _ _ _ _ _ _ Hcr) as Hpos.
  pose proof (aget_lt_Some _ _ _ Hfree) as Hr. pose proof (ok_length s Hs). pose proof (ok_spf s Hs).
  assert (start_cluster (new_file nm new) = new) as Est by (cbn; apply u16_small; lia).
  split; [|split].
  - split; rewrite ?Est; try done; try (cbn; lia).
    rewrite (cr_table _ _ _ _ _ _ Hcr). eapply chain_end; [by rewrite aget_insert, decide_True|].
    unfold is_end, FAT16_CLUSTER_CHAIN_END. lia.
  - split; [apply Hroot'|by apply new_file_ok| |].
    + exists (replicate (10 - length nm) 0). pose proof (no_short _ Hnm) as Hlen.
      split; [apply name_str_ok, Hnm|]. cbn. by replace (11 - length nm)%nat with (S (10 - length nm)) by lia.
    + rewrite (cr_slots _ _ _ _ _ _ Hcr).
      destruct (created_slots nm ps k new s s' Hnm Hfits (cr_slots _ _ _ _ _ _ Hcr)) as [_ Hfound].
      rewrite (cr_slots _ _ _ _ _ _ Hcr) in Hfound. rewrite (list_find_stored _ _ k (encode (new_file nm new))); [done| | |].
      * apply list_find_None, Forall_lookup. intros i sl Hi Hn. pose proof (nf_new _ _ _ Hfits) as Hnone.
        apply list_find_None in Hnone. rewrite Forall_lookup in Hnone. apply (Hnone i sl Hi).
        apply exact_has_name; [apply Hnm| |done]. pose proof (dir_slots_length s ps Hs) as Hlen.
        rewrite Forall_lookup in Hlen. by apply (Hlen i).
      * apply list_find_Some in Hfound as (Hk & _). apply lookup_lt_Some in Hk. by rewrite length_insert in Hk.
      * destruct (encode_new_file nm new Hnm) as (z & -> & _). unfold slot_named_exactly.
        replace (S (length nm)) with (length nm + 1)%nat by lia. rewrite take_app_add. cbn [take].
        apply cstr_terminated, name_str_ok, Hnm.
  - intros x Hx ->%list_elem_of_singleton. by apply (chain_used _ _ _ _ (rr_chain _ _ Hroot) Hx).
Qed.

(** Asking for the new file. *)
Lemma wp_new_file_data nm r ps k new n (Q : FileData → fat_state D H → Prop) s s' :
  name_ok nm → name_fits nm k (dir_slots s ps) → root_ready s ps → created nm ps k new s s' →
  0 ≤ n → heap_room (heap_cost (512 * spc s) + n) (heap s') →
  (∀ s2, fat_same s' s2 → heap_room n (heap s2) → Q (mkFileData (new_file nm new) (root_dir s)) s2) →
  wp (fat_get_file_data (SLASH :: nm ++ 0 :: r)) Q s'.
Proof.
  intros Hnm Hfits Hroot Hcr Hn Hheap HQ. pose proof (created_root _ _ _ _ _ _ Hroot Hcr) as Hroot'.
  destruct (created_slots nm ps k new s s' Hnm Hfits (cr_slots _ _ _ _ _ _ Hcr)) as [_ Hfound].
  assert (spc s' = spc s) as Hp by (unfold spc; by rewrite (cr_fs _ _ _ _ _ _ Hcr)).
  apply wp_bind. eapply (wp_resolve_name nm r ps n); [apply Hcr|apply Hroot'|done|done|by rewrite Hp|].
  intros s2 Hs2 Hr2. unfold lookup_result. rewrite Hfound, decode_encode by (by apply new_file_ok).
  rewrite decide_False by (cbn; tauto).
  destruct (host_split nm r) as [Epar _]; [apply name_str_ok, Hnm|apply name_no_slash, Hnm|pose proof (no_short _ Hnm); lia|].
  apply wp_bind. eapply wp_liftO; [exact Epar|]. apply wp_bind, wp_resolve_root, wp_ret.
  rewrite (same_root _ _ Hs2), (cr_root _ _ _ _ _ _ Hcr). by apply HQ.
Qed.
End specs.
