(* ===== verification/LoadFile.v ===== *)
(** * The image builder: main

    [main] of fs_loader/fat_loader.c creates a file in the image and copies a file
    of the host into it.  The theorem follows it through all the parts: the mount
    of the image, the new entry, the copy, and says what an image opened again
    holds. *)

From S2P Require Import Prelude CString Interfaces FatTable FatChain FatDir FatPath FatFile FatMount HostDisk HostString FatLoader FatCopies LoaderWrite LoaderCreate.

(** ** Definitions *)

Section operations.
Context {H : Type} `{KernelHeap H}.

(** What the program does outside the file system's functions. *)
Definition on_host {A} (m : M host A) : M (fat_state host H) A := zoom disk set_disk m.
Definition malloc (size : Z) : M (fat_state host H) Z := zoom heap set_heap (kmalloc size).

(** [exit(1)] behind a message. *)
Definition exit_with (msg : string) (args : list Z) : M (fat_state host H) Z :=
  _ ← on_host (say msg args); _ ← on_host ata_cleanup; mret 1.

(** The size of a file: to its end, tell, and back; with the stream. *)
Definition stream_size (f : stream) : M host (Z * stream) :=
  f ← fseek_end f; mret (ftell f, rewind f).

(** The local file is read whole and written into the file of the entry [d]. *)
Definition copy_local (d : FileData) (local : list Z) : M (fat_state host H) Z :=
  local_file ← on_host (fopen (cstr local));
  match local_file with
  | None => exit_with "Could not open local file %s" []
  | Some local_file =>
      '(file_size, local_file) ← on_host (stream_size local_file);
      p ← malloc file_size;
      if decide (p = 0) then exit_with "Could not allocate memory for file buffer" [] else
      (* what the buffer holds before [fread] is never used *)
      '(got, buffer, local_file) ← on_host (fread local_file file_size (replicate (Z.to_nat file_size) 0));
      if decide (got ≠ file_size) then
        _ ← on_host (say "Could not read file into buffer" []);
        _ ← heap_free p; _ ← on_host ata_cleanup; mret 1
      else
      _ ← fat_write (file_entry d) (parent_entry d) 0 (u32 file_size) buffer;
      _ ← heap_free p;
      _ ← on_host ata_cleanup; mret 0
  end.

(** The exit status.  [argv] are the arguments, zero-terminated; [no_return] is
    what the caller finds as the value of [fat_create_file], which ends without
    a return statement; [fresh] is the memory the table is given. *)
Definition main (fresh : list Z) (no_return : Z) (argv : list (list Z)) : M (fat_state host H) Z :=
  match argv with
  | _ :: disk_image :: path :: local :: _ =>
      _ ← on_host (ata_init (cstr disk_image));
      _ ← fat_init fresh;
      _ ← fat_create_file path;
      let err := no_return in
      if decide (err ≠ 0) then exit_with "Can't create file: %d" [err] else
      d ← fat_get_file_data path;
      copy_local d local
  | _ => _ ← on_host (say "Format: ./fat_loader <disk image> <path to load> <local file to load>" []); mret 1
  end.
End operations.

(** ** Mounting *)

Section mount.
Context {D H : Type} `{BlockDeviceLaws D} `{KernelHeapLaws H}.
Implicit Types s : fat_state D H.

(** The state [fat_init] leaves. *)
Record loader_mounted (fs : FAT16_FS) (t : list Z) s s' : Prop := {
  lm_ok : fat_ok s';
  lm_synced : fat_synced s';
  lm_fs : fat16_fs s' = fs;
  lm_table : table s' = t;
  lm_size : dev_size (disk s') = dev_size (disk s);
  lm_content k : content s' k = content s k;
  lm_start : start_cluster (root_dir s') = 0;
  lm_entry : entry_ok (root_dir s');
  lm_attr : Z.land (attr (root_dir s')) FAT_ATTR_DIRECTORY ≠ 0;
  lm_name : take 2 (name (root_dir s')) = [TILDE; 0];
}.

Lemma fresh_table fresh n :
  zlen fresh = 32768 → Forall (λ v, 0 ≤ v < 65536) fresh → 0 ≤ n ≤ 32768 →
  ∃ bytes, memset (table_bytes fresh 0) 0 (2 * n) = Done bytes ∧
    zlen (words_of_bytes bytes) = 32768 ∧ Forall (λ v, 0 ≤ v < 65536) (words_of_bytes bytes).
Proof.
  intros Hl Hf Hn. unfold memset, table_bytes. rewrite drop_0, length_table_bytes.
  rewrite decide_False by lia. eexists. split; [done|].
  replace (Z.to_nat (2 * n)) with (2 * Z.to_nat n)%nat by lia. rewrite drop_table_bytes.
  assert (replicate (2 * Z.to_nat n) (u8 0) = concat (le_bytes 2 <$> replicate (Z.to_nat n) 0)) as ->.
  { clear. induction (Z.to_nat n) as [|k IH]; [done|].
    replace (2 * S k)%nat with (S (S (2 * k))) by lia. cbn [replicate fmap list_fmap concat] in *. by rewrite IH. }
  rewrite words_of_bytes_app, words_of_table by (try apply Forall_drop; try apply Forall_replicate; done || lia).
  rewrite length_app, length_replicate, length_drop. split; [lia|].
  apply Forall_app. split; [apply Forall_replicate; lia|by apply Forall_drop].
Qed.

Lemma wp_loader_init fresh fs t n (Q : bool → fat_state D H → Prop) s :
  volume_on (disk s) fs t → sectors_per_fat fs = 128 → zlen fresh = 32768 → Forall (λ v, 0 ≤ v < 65536) fresh →
  root_dir s = zero_entry → 0 ≤ n → heap_room (heap_cost 65536 + n) (heap s) →
  (∀ s', loader_mounted fs t s s' → heap_room n (heap s') → Q true s') →
  wp (FatLoader.fat_init fresh) Q s.
Proof.
  intros Hv Hspf Hfl Hfr Hrd Hn Hroom HQ. destruct (volume_geometry _ _ _ Hv) as (Hspc & Hnf & Hrs & Hrde & Hroot).
  pose proof Hv as [Hr Hboot Hbps _ _ _ Hl He Hsec Hfit Hused Hmax].
  assert (0 < dev_size (disk s)) as Hpos by nia.
  apply wp_bind, wp_read_sector; [done|lia|done|simpl; lia|]. intros d1 (Hr1 & Hsz1 & Hc1).
  rewrite decide_False by auto. rewrite splice_all by (rewrite dev_sector_length by done; done).
  rewrite (boot_signature _ _ Hboot). cbv zeta. rewrite decide_False by auto.
  rewrite (boot_bytes _ _ Hboot), Hbps, decide_False by done.
  rewrite (parse_boot _ fs) by (done || lia || by apply dev_sector_bytes). apply wp_bind, wp_modify.
  unfold heap_alloc. apply wp_bind, wp_zoom. change (u32 (256 * 256)) with 65536.
  destruct (kmalloc_ok (heap s) 65536 n) as (p & h' & Ek & Hp & Hh'); [lia|done|done|].
  eapply wp_of_done; [exact Ek|]. rewrite decide_False by done.
  rewrite Hbps, Hspf. change (Z.quot 512 2 * 128) with (2 * 16384).
  destruct (fresh_table fresh 16384 Hfl Hfr ltac:(lia)) as (bytes & Eb & Hbl & Hbf).
  apply wp_bind. eapply wp_liftO; [exact Eb|]. apply wp_bind, wp_modify.
  set (s0 := set_heap h' (set_fs fs (set_disk d1 s))).
  apply wp_bind. eapply (wp_read_table (disk s) fs t 0 _ _ s0); [done|lia|lia| |].
  { split; cbn; try done. change (table _) with (words_of_bytes bytes). lia. }
  intros s' Hread. cbn [negb]. destruct (read_mounted _ _ _ _ _ Hv Hread) as (Hok & Hsy & Et & Hck & Hz).
  pose proof (rg_root _ _ _ _ _ _ Hread) as Hrt'. change (root_dir s0) with (root_dir s) in Hrt'.
  apply wp_bind, wp_gets. rewrite Hrt', Hrd. apply wp_bind. eapply wp_liftO; [reflexivity|].
  apply wp_bind, wp_modify. apply wp_bind. unfold print. apply wp_modify, wp_ret.
  apply HQ; [|cbn; by rewrite (rg_heap _ _ _ _ _ _ Hread)].
  split; try done; [by apply (other_root_ok _ _ s')|apply Hread|].
  split; [split; [done|by_decide]|by_decide|by_decide|apply u32_range].
Qed.
End mount.

(** ** What the volume holds afterwards *)

Section loaded.
Context {D H : Type} `{BlockDeviceLaws D} `{KernelHeapLaws H}.
Implicit Types s : fat_state D H.

(** The volume on [s'] holds the file [e] with the contents [data]: the clusters
    [cs], the entry in slot [k] of the directory [ps], whose other slots are
    those of [slots]. *)
Record loaded (e : FAT16_DirEntry) (cs ps : list Z) (k : nat) (slots : list (list Z)) (data : list Z) s' : Prop := {
  ldd_ok : fat_ok s';
  ldd_synced : fat_synced s';
  ldd_start : start_cluster e ≠ 0;
  ldd_chain : chain (table s') (start_cluster e) cs;
  ldd_bytes : take (length data) (file_bytes s' cs) = data;
  ldd_long : zlen data ≤ zlen (file_bytes s' cs);
  ldd_parent : chain (table s') (start_cluster (root_dir s')) ps;
  ldd_slots : dir_slots s' ps = <[k := encode (set_size (zlen data) e)]> slots;
}.

Lemma saved_loaded e pd cs ps news k data s s1 s2 :
  fat_ok s → file_ok s e cs → pd = root_dir s → fat_synced s →
  saved e pd cs ps news k (zlen data) (splice (file_bytes s (cs ++ news)) 0 data) s s1 →
  fat_same s1 s2 → loaded e (cs ++ news) ps k (dir_slots s ps) data s2.
Proof.
  intros Hs Hf -> Hsy [Hok Hfs Hroot _ Hch _ _ _ Hb Hpar Hsl Hcop] Hs2. pose proof (fat_same_table _ _ Hs2) as Ht2.
  unfold splice in Hb. rewrite take_0, Nat.add_0_l, app_nil_l in Hb.
  pose proof (file_bytes_same s1 s2 (cs ++ news) Hs2) as Hb2. rewrite Hb in Hb2. split.
  - by eapply fat_same_ok.
  - apply (upd_synced _ _ _ _ (fat_same_upd _ _ Hok Hs2)). apply synced_copy_0, Hcop, synced_copy_0, Hsy.
    pose proof (ok_nf s Hs). lia.
  - apply Hf.
  - by rewrite Ht2.
  - rewrite Hb2. by rewrite take_app_length.
  - rewrite Hb2, length_app. lia.
  - by rewrite Ht2, (same_root _ _ Hs2), Hroot.
  - rewrite <-Hsl. apply dir_slots_frame. intros. by apply fat_same_cluster.
Qed.

Lemma file_ok_kept e cs s s' : file_ok s e cs → fat_same s s' → file_ok s' e cs.
Proof.
  intros [Ha Hc Hst Hsz Hl] Hs.
  split; try done; [by rewrite (fat_same_table _ _ Hs)|by rewrite (file_bytes_same _ _ _ Hs)].
Qed.
Lemma listed_same pd ps e nm k s s' : listed s pd ps e nm k → fat_same s s' → listed s' pd ps e nm k.
Proof.
  intros [Hc He Hnm Hsl] Hs. split; try done; [by rewrite (fat_same_table _ _ Hs)|].
  rewrite (dir_slots_frame s s'); [done|]. intros. by apply fat_same_cluster.
Qed.

(** The kernel's name comparison accepts no more than the tool's. *)
Lemma named_has_name nm sl :
  (length nm ≤ 10)%nat → length sl = 32%nat → slot_named nm sl → slot_has_name nm sl.
Proof.
  unfold slot_named, slot_has_name. intros Hn Hl He. rewrite (take_ge nm) in He by lia. rewrite (take_ge nm) by lia.
  destruct (decide (length (cstr (take 11 sl)) < 11)%nat) as [Hs|Hs].
  - by rewrite <-(cstr_take_more sl 11 12) by lia.
  - assert (cstr (take 11 sl) `prefix_of` cstr (take 12 sl)) as Hpre.
    { clear. revert sl. generalize 11%nat as m. intros m. induction m as [|m IH]; intros sl; [apply prefix_nil|].
      destruct sl as [|c sl]; [done|]. cbn [take cstr]. case_decide; [done|]. apply prefix_cons, IH. }
    rewrite He in Hpre. apply prefix_length in Hpre. lia.
Qed.

(** The driver of the kernel finds the entry under the name. *)
Lemma loaded_found nm new cs ps k slots data s :
  name_ok nm → name_fits nm k slots → loaded (new_file nm new) cs ps k slots data s →
  list_find (slot_named nm) (dir_slots s ps) = Some (k, encode (set_size (zlen data) (new_file nm new))).
Proof.
  intros Hnm Hfits Hl. pose proof (dir_slots_length s ps (ldd_ok _ _ _ _ _ _ _ Hl)) as Hlen.
  rewrite (ldd_slots _ _ _ _ _ _ _ Hl) in *. pose proof (nf_free _ _ _ Hfits) as Hfree.
  destruct (list_find (slot_has_name []) slots) as [[k' x]|] eqn:Ek; [|done]. cbn in Hfree. simplify_eq.
  apply list_find_Some in Ek as (Hk & _). apply list_find_Some. split_and!.
  - apply list_lookup_insert_eq. by eapply lookup_lt_Some.
  - assert (∃ z, encode (set_size (zlen data) (new_file nm new)) = nm ++ 0 :: z) as [z ->].
    { unfold encode. cbn [set_size new_file set_name name]. pose proof (no_short _ Hnm).
      replace (11 - length nm)%nat with (S (10 - length nm)) by lia. cbn [replicate]. rewrite <-app_assoc. by eexists. }
    unfold slot_named. pose proof (no_short _ Hnm). rewrite (take_ge nm) by lia.
    replace 12%nat with (length nm + S (11 - length nm))%nat by lia. rewrite take_app_add. cbn [take].
    apply cstr_terminated, name_str_ok, Hnm.
  - intros i sl Hi Hik Hn. pose proof (nf_new _ _ _ Hfits) as Hnone. apply list_find_None in Hnone.
    rewrite Forall_lookup in Hnone, Hlen. specialize (Hlen _ _ Hi).
    rewrite list_lookup_insert_ne in Hi by lia. apply (Hnone _ _ Hi). apply named_has_name; [apply Hnm|done|done].
Qed.

(** The file's entry with its new size. *)
Lemma loaded_file nm new cs ps k slots data s :
  loaded (new_file nm new) cs ps k slots data s → zlen data < 2147483648 →
  file_ok s (set_size (zlen data) (new_file nm new)) cs ∧ file_size (set_size (zlen data) (new_file nm new)) = zlen data.
Proof.
  intros [_ _ Hst Hc Hb Hlong _ _] Hd.
  assert (file_size (set_size (zlen data) (new_file nm new)) = zlen data) as E by (apply u32_small; lia).
  split; [|done]. split; rewrite ?E; try done; lia.
Qed.

Lemma wp_read_loaded nm r new cs ps k slots data out n (Q : option (Z * list Z) → fat_state D H → Prop) s :
  name_ok nm → name_fits nm k slots → loaded (new_file nm new) cs ps k slots data s → 0 < zlen data < 2147483648 →
  zlen out = zlen data → 0 ≤ n → heap_room (2 * heap_cost (512 * spc s) + n) (heap s) →
  (∀ s', fat_same s s' → Q (Some (zlen data, data)) s') →
  wp (found ← FatDir.fat_find_dir_entry (nm ++ 0 :: r) (root_dir s);
      match found with
      | None => mret None
      | Some e => res ← fat_read e 0 (zlen data) out; mret (Some res)
      end) Q s.
Proof.
  intros Hnm Hfits Hl Hd Ho Hn Hheap HQ. pose proof (ldd_ok _ _ _ _ _ _ _ Hl) as Hs.
  pose proof (heap_cost_nonneg (512 * spc s)). destruct (loaded_file _ _ _ _ _ _ _ _ Hl ltac:(lia)) as [Hf Hsz].
  apply wp_bind. eapply (wp_find_dir_entry nm r _ ps (heap_cost (512 * spc s) + n));
    [done|apply Hl|apply name_str_ok, Hnm|lia|eapply heap_room_le; [|exact Hheap]; lia|].
  intros s1 Hs1 Hr1. rewrite (loaded_found nm new cs ps k slots data s) by done. cbn [fmap option_fmap option_map snd].
  rewrite decode_encode by (by apply set_size_ok, new_file_ok). apply wp_bind.
  assert (bytes_wanted (set_size (zlen data) (new_file nm new)) 0 (zlen data) = zlen data) as Eb.
  { unfold bytes_wanted. rewrite Hsz, decide_False by lia. lia. }
  eapply (wp_fat_read _ cs 0 (zlen data) out n); rewrite ?Eb; try done; try lia.
  - by eapply fat_same_ok.
  - by eapply file_ok_kept.
  - by rewrite (fat_same_spc _ _ Hs1).
  - intros s2 Hs2 _. apply wp_ret.
    rewrite (file_bytes_same _ _ _ Hs1), drop_0, Nat2Z.id, (ldd_bytes _ _ _ _ _ _ _ Hl), splice_all by lia.
    apply HQ. by etrans.
Qed.

(** C5: What the tool stored the kernel reads: on a volume that holds a file as
    [main_loads] leaves it, the kernel's fat_find_dir_entry finds the entry under
    the file's name and fat_read of its size returns exactly its contents; the
    volume is not changed. *)
Theorem loaded_file_is_read nm r new cs ps k slots data out n s :
  name_ok nm → name_fits nm k slots → loaded (new_file nm new) cs ps k slots data s → 0 < zlen data < 2147483648 →
  zlen out = zlen data → 0 ≤ n → heap_room (2 * heap_cost (512 * spc s) + n) (heap s) →
  wp (found ← FatDir.fat_find_dir_entry (nm ++ 0 :: r) (root_dir s);
      match found with
      | None => mret None
      | Some e => res ← fat_read e 0 (zlen data) out; mret (Some res)
      end) (λ res s', res = Some (zlen data, data) ∧ fat_same s s') s.
Proof. intros. by eapply wp_read_loaded. Qed.
End loaded.

(** ** The whole program *)

(** The host with the image opened, and the volume on it as a mounted state. *)
Definition opened (img : list Z) (h : host) : host := set_ata_file (Some (Stream img 0)) h.
Definition on_image {H} (fs : FAT16_FS) (t : list Z) (img : list Z) (s : fat_state host H) : fat_state host H :=
  FatState fs (Some t) (root_dir s) (opened img (disk s)) (heap s) [].
(** The state with the image opened again. *)
Definition reopened {H} (img : list Z) (s : fat_state host H) : fat_state host H :=
  set_disk (opened img (disk s)) s.

Section main.
Context {H : Type} `{KernelHeapLaws H}.
Context (h0 : host) (img : list Z).
#[local] Instance image_laws : BlockDeviceLaws host := host_laws (opened img h0).
Implicit Types s : fat_state host H.

Lemma dir_slots_eq s s' ps :
  fat16_fs s' = fat16_fs s → (∀ k, content s' k = content s k) → dir_slots s' ps = dir_slots s ps.
Proof.
  intros Hfs Hc. apply dir_slots_frame. intros c _. unfold cluster_at, spc. rewrite Hfs.
  apply sectors_ext. intros k _. apply Hc.
Qed.

(** The host's other files while the image is open. *)
Lemma other_file s p : fat_ok s → p ≠ img → host_files (disk s) !! p = host_files h0 !! p.
Proof. intros Hs Hp. apply (proj2 (ok_ready s Hs)). cbn. congruence. Qed.

Lemma image_open s : fat_ok s → st_path <$> ata_file (disk s) = Some img.
Proof. intros Hs. by rewrite (sh_path _ _ (proj2 (ok_ready s Hs))). Qed.

(** Closing the image and opening it again. *)
Lemma wp_cleanup (Q : unit → fat_state host H → Prop) s :
  fat_ok s →
  (∀ s', fat_same s (reopened img s') → host_files (disk s') = host_files (disk s) → heap s' = heap s → Q tt s') →
  wp (on_host ata_cleanup) Q s.
Proof.
  intros Hs HQ. pose proof (image_open s Hs) as Hp. destruct (ok_ready s Hs) as [[Ho Hb Hl Ha] [Hsp Hsl Hso]].
  unfold on_host. apply wp_zoom. unfold ata_cleanup. apply wp_bind, wp_gets.
  destruct (ata_file (disk s)) as [f|] eqn:Ef; [|done]. injection Hp as Hp. apply wp_modify.
  apply HQ; try done. 
  unfold reopened. cbn [disk set_disk]. change (opened img (set_ata_file None (disk s))) with (opened img (disk s)). set (h' := opened img (disk s)).
  assert (image h' = image (disk s)) as Hi.
  { unfold image at 2. rewrite Ef, Hp. done. }
  split; try done.
  - intros _. change (image_ready h' ∧ same_host (opened img h0) h').
    split; [split; rewrite ?Hi; try done; by eexists|by split].
  - cbn. unfold image_size. by rewrite Hi.
  - intros k. unfold content. cbn. unfold image_sector, image_size. by rewrite Hi.
Qed.

(** Reading a whole file of the host. *)
Lemma wp_stream_size p data (Q : Z * stream → host → Prop) h :
  host_files h !! p = Some data → Q (zlen data, Stream p 0) h → wp (stream_size (Stream p 0)) Q h.
Proof.
  intros Hp HQ. apply wp_bind. unfold fseek_end. apply wp_bind, wp_get, wp_ret, wp_ret.
  unfold contents. cbn. by rewrite Hp.
Qed.

Lemma wp_read_whole p data (Q : Z * list Z * stream → host → Prop) h :
  host_files h !! p = Some data → Q (zlen data, data, Stream p (zlen data)) h →
  wp (fread (Stream p 0) (zlen data) (replicate (Z.to_nat (zlen data)) 0)) Q h.
Proof.
  intros Hp HQ. assert (contents h p = data) as E by (unfold contents; by rewrite Hp).
  apply wp_fread; cbn [st_path st_pos]; rewrite ?E, ?length_replicate; try lia.
  unfold ahead. rewrite take_ge by (rewrite length_drop; lia). rewrite drop_0, splice_all by (rewrite length_replicate; lia).
  done.
Qed.

Lemma on_host_unchanged {A} (m : M host A) (Q : A → fat_state host H → Prop) s :
  wp m (λ a h, h = disk s ∧ Q a s) (disk s) → wp (on_host m) Q s.
Proof.
  intros Hm. unfold on_host. apply wp_zoom. eapply wp_mono; [exact Hm|]. intros a h [-> HQ].
  by replace (set_disk (disk s) s) with s by (by destruct s).
Qed.

Lemma malloc_small size : 0 ≤ size < 4294967296 → malloc (H := H) size = heap_alloc size.
Proof. intros. unfold malloc, heap_alloc. by rewrite u32_small. Qed.

(** *** Copying *)

Lemma wp_copy_local e cs ps nm k local r data n (Q : Z → fat_state host H → Prop) s :
  fat_ok s → fat_synced s → file_ok s e cs → file_size e = 0 → cs ≠ [] → listed s (root_dir s) ps e nm k →
  (∀ x, x ∈ ps → x ∉ cs) → aget (table s) 0 ≠ Some 0 →
  str_ok local → host_files h0 !! local = Some data → local ≠ img → Forall is_byte data → 0 < zlen data < 2147483648 →
  zlen data ≤ (zlen cs + Z.of_nat (room s)) * (512 * spc s) →
  0 ≤ n → heap_room (heap_cost (zlen data) + (2 * heap_cost (512 * spc s) + n)) (heap s) →
  (∀ s' news, loaded e (cs ++ news) ps k (dir_slots s ps) data (reopened img s') →
     fat16_fs s' = fat16_fs s → (∀ p, p ≠ img → host_files (disk s') !! p = host_files h0 !! p) → heap_room n (heap s') → Q 0 s') →
  wp (copy_local (mkFileData e (root_dir s)) (local ++ 0 :: r)) Q s.
Proof.
  intros Hs Hsy Hf Hsz0 Hcs Hl Hdis Hz0 Hstr Hlocal Hne Hdb Hdl Hroom Hn Hheap HQ.
  assert (host_files (disk s) !! local = Some data) as Hfile by (by rewrite other_file).
  pose proof (heap_cost_nonneg (512 * spc s)). pose proof (ok_spc s Hs).
  unfold copy_local. rewrite cstr_terminated by done. apply wp_bind, on_host_unchanged. apply wp_bind, wp_gets. rewrite Hfile. apply wp_ret. split; [done|].
  apply wp_bind, on_host_unchanged. eapply wp_stream_size; [exact Hfile|]. split; [done|].
  rewrite malloc_small by lia. apply wp_bind.
  eapply (wp_heap_alloc _ (2 * heap_cost (512 * spc s) + n)); [lia|lia|exact Hheap|]. intros p s1 Hp Hs1 _ Hr1.
  rewrite decide_False by done. pose proof (fat_same_ok _ _ Hs1 Hs) as Hok1. pose proof (fat_same_spc _ _ Hs1) as Hp1.
  assert (host_files (disk s1) !! local = Some data) as Hfile1 by (by rewrite other_file).
  assert (dir_slots s1 ps = dir_slots s ps) as Hsl1 by (apply dir_slots_frame; intros; by apply fat_same_cluster).
  rewrite <-Hsl1, <-(same_fs _ _ Hs1) in HQ. rewrite <-Hp1 in Hr1. rewrite <-(fat_same_table _ _ Hs1) in Hz0.
  rewrite <-Hp1, <-(upd_room _ _ _ (fat_same_upd _ _ Hs Hs1)) in Hroom. rewrite <-(same_root _ _ Hs1) in Hl |- *.
  apply (file_ok_kept _ _ _ s1) in Hf as Hf1; [|done]. apply (listed_same _ _ _ _ _ _ s1) in Hl as Hl1; [|done].
  apply (upd_synced _ _ _ _ (fat_same_upd _ _ Hs Hs1)) in Hsy.
  apply wp_bind, on_host_unchanged. eapply wp_read_whole; [exact Hfile1|]. split; [done|].
  rewrite decide_False by auto. rewrite (u32_small (zlen data)) by lia. cbn [file_entry parent_entry].
  apply wp_bind. eapply (wp_fat_write e (root_dir s1) cs ps nm k 0 (zlen data) data n); try done; try lia.
  { rewrite length_file_bytes by done. destruct cs; [done|]. simpl. nia. }
  { by replace (heap_cost (512 * spc s1) + (heap_cost (512 * spc s1) + n)) with (2 * heap_cost (512 * spc s1) + n) by lia. }
  intros s2 news Hsv Hr2. rewrite take_ge in Hsv by lia.
  apply wp_bind. eapply wp_heap_free; [exact Hr2|]. intros s3 Hs3 _ Hr3.
  pose proof (fat_same_ok _ _ Hs3 (sv_ok _ _ _ _ _ _ _ _ _ _ Hsv)) as Hok3.
  apply wp_bind, wp_cleanup; [done|]. intros s4 Hs4 Hf4 Hh4. apply wp_ret. apply (HQ s4 news).
  - eapply (saved_loaded e (root_dir s1)); [done|done|done|done|exact Hsv|by etrans].
  - change (fat16_fs s4) with (fat16_fs (reopened img s4)).
    by rewrite (same_fs _ _ Hs4), (same_fs _ _ Hs3), (sv_fs _ _ _ _ _ _ _ _ _ _ Hsv).
  - intros q Hq. rewrite Hf4. by apply other_file.
  - by rewrite Hh4.
Qed.

(** Leaving with a message. *)
Lemma wp_exit_with msg args (Q : Z → fat_state host H → Prop) s :
  fat_ok s →
  (∀ s', fat_same s (reopened img s') → host_files (disk s') = host_files (disk s) → Q 1 s') →
  wp (exit_with msg args) Q s.
Proof.
  intros Hs HQ. destruct (ok_ready s Hs) as [[Ho Hb Hl Ha] [Hsp Hsl Hso]].
  unfold exit_with. apply wp_bind. unfold on_host at 1. apply wp_zoom. unfold say. apply wp_modify.
  match goal with |- wp _ _ ?s1 => assert (fat_same s s1) as Hs1 by (split; try done; by intros _) end.
  apply wp_bind, wp_cleanup; [by eapply fat_same_ok|]. intros s' Hs' Hf' _. apply wp_ret, HQ; [by etrans|by rewrite Hf'].
Qed.

(** *** All of it *)

(** A file that was only created is one that holds nothing. *)
Lemma created_loaded nm ps k new s s1 s2 :
  fat_ok s → root_ready s ps → name_ok nm → name_fits nm k (dir_slots s ps) → fat_synced s →
  created nm ps k new s s1 → fat_same s1 s2 → loaded (new_file nm new) [new] ps k (dir_slots s ps) [] s2.
Proof.
  intros Hs Hroot Hnm Hfits Hsy Hcr Hs2. pose proof (cr_ok _ _ _ _ _ _ Hcr) as Hok.
  destruct (created_listed nm ps k new s s1 Hs Hroot Hnm Hfits Hcr) as (Hf & Hl & _).
  pose proof (fat_same_table _ _ Hs2) as Ht2. split; try done.
  - by eapply fat_same_ok.
  - apply (upd_synced _ _ _ _ (fat_same_upd _ _ Hok Hs2)). by apply Hcr.
  - apply Hf.
  - rewrite Ht2. apply Hf.
  - cbn. lia.
  - rewrite Ht2, (same_root _ _ Hs2). apply Hl.
  - rewrite (dir_slots_frame s1 s2) by (intros; by apply fat_same_cluster). by rewrite (cr_slots _ _ _ _ _ _ Hcr).
Qed.

(** What [main] needs: an image file with a volume of the size the tool is built
    for, a name that is new in its root directory and fits a free slot, and a
    local file that fits the free clusters.  The root entry is still the zero
    bytes it is loaded with, and nothing is open yet. *)
Record loadable (fs : FAT16_FS) (t ps nm : list Z) (k : nat) (local data : list Z) (n : Z) s : Prop := {
  ld_host : disk s = h0;
  ld_image : is_Some (host_files h0 !! img);
  ld_volume : volume_on (opened img h0) fs t;
  ld_spf : sectors_per_fat fs = 128;
  ld_root : root_dir s = zero_entry;
  ld_chain : chain t 0 ps;
  ld_zero : aget t 0 ≠ Some 0;
  ld_name : name_ok nm;
  ld_fits : name_fits nm k (dir_slots (on_image fs t img s) ps);
  ld_paths : str_ok img ∧ str_ok local ∧ local ≠ img;
  ld_local : host_files h0 !! local = Some data;
  ld_bytes : Forall is_byte data;
  ld_size : 0 < zlen data < 2147483648;
  ld_room : zlen data ≤ Z.of_nat (room (on_image fs t img s)) * (512 * sectors_per_cluster fs);
  ld_heap : heap_room (heap_cost 65536 + (7 * heap_cost (512 * sectors_per_cluster fs) + (heap_cost (zlen data) + n))) (heap s);
}.

Lemma wp_ata_init s (Q : unit → fat_state host H → Prop) :
  disk s = h0 → is_Some (host_files h0 !! img) → str_ok img →
  Q tt (set_disk (opened img h0) s) → wp (on_host (ata_init img)) Q s.
Proof.
  intros Hd [c Hc] Hi HQ. unfold on_host. apply wp_zoom. rewrite Hd. apply wp_bind, wp_bind, wp_gets.
  rewrite Hc. apply wp_ret, wp_bind, wp_modify, wp_ret. done.
Qed.

(** The mounted state is the volume that was on the image. *)
Lemma mounted_volume fs t ps s s1 :
  disk s = h0 → loader_mounted fs t (set_disk (opened img h0) s) s1 →
  dir_slots s1 ps = dir_slots (on_image fs t img s) ps ∧ room s1 = room (on_image fs t img s) ∧ spc s1 = sectors_per_cluster fs.
Proof.
  intros Hd [_ _ Hfs Ht Hz Hc _ _ _ _]. split_and!.
  - apply dir_slots_eq; [done|]. intros k. rewrite Hc. unfold content. cbn. by rewrite Hd.
  - unfold room, clusters, spc. rewrite Hfs, Ht, Hz. cbn. by rewrite Hd.
  - unfold spc. by rewrite Hfs.
Qed.

(** The file is there: its entry is looked up and the local file is copied. *)
Lemma wp_main_copy nm ps k new local data n r2 r3 (Q : Z → fat_state host H → Prop) s1 s2 :
  fat_ok s1 → fat_synced s1 → root_ready s1 ps → name_ok nm → name_fits nm k (dir_slots s1 ps) →
  created nm ps k new s1 s2 →
  str_ok local → local ≠ img → host_files h0 !! local = Some data → Forall is_byte data → 0 < zlen data < 2147483648 →
  zlen data ≤ (1 + Z.of_nat (room s2)) * (512 * spc s1) → 0 ≤ n →
  heap_room (3 * heap_cost (512 * spc s1) + (heap_cost (zlen data) + n)) (heap s2) →
  (∀ s' news, fat16_fs s' = fat16_fs s1 → (∀ p, p ≠ img → host_files (disk s') !! p = host_files h0 !! p) →
     loaded (new_file nm new) (new :: news) ps k (dir_slots s1 ps) data (reopened img s') → Q 0 s') →
  wp (d ← fat_get_file_data (SLASH :: nm ++ 0 :: r2); copy_local d (local ++ 0 :: r3)) Q s2.
Proof.
  intros Hok1 Hsy1 Hroot1 Hnm Hfits Hcr Hsl Hne Hloc Hdb Hdl Hroom Hn Hr2 HQ.
  pose proof (heap_cost_nonneg (512 * spc s1)). pose proof (heap_cost_nonneg (zlen data)).
  destruct (created_listed nm ps k new s1 s2 Hok1 Hroot1 Hnm Hfits Hcr) as (Hf2 & Hl2 & Hdis2).
  apply wp_bind. eapply (wp_new_file_data nm r2 ps k new (2 * heap_cost (512 * spc s1) + (heap_cost (zlen data) + n)) _ s1);
    [done|done|done|done|lia|eapply heap_room_le; [|exact Hr2]; lia|].
  intros s3 Hs3 Hr3. pose proof (fat_same_ok _ _ Hs3 (cr_ok _ _ _ _ _ _ Hcr)) as Hok3.
  assert (root_dir s3 = root_dir s1) as Hrt3 by (by rewrite (same_root _ _ Hs3), (cr_root _ _ _ _ _ _ Hcr)).
  assert (spc s3 = spc s1) as Hp3 by (unfold spc; by rewrite (same_fs _ _ Hs3), (cr_fs _ _ _ _ _ _ Hcr)).
  pose proof (created_root _ _ _ _ _ _ Hroot1 Hcr) as Hroot2.
  rewrite <-Hrt3. eapply (wp_copy_local _ [new] ps nm k local r3 data n);
    [done| |by eapply file_ok_kept|done|done| |done| |done|done|done|done|done| |done|rewrite Hp3; eapply heap_room_le; [|exact Hr3]; lia|].
  - apply (upd_synced _ _ _ _ (fat_same_upd _ _ (cr_ok _ _ _ _ _ _ Hcr) Hs3)). by apply Hcr.
  - rewrite (same_root _ _ Hs3). by eapply listed_same.
  - rewrite (fat_same_table _ _ Hs3). apply Hroot2.
  - rewrite Hp3, (upd_room _ _ _ (fat_same_upd _ _ (cr_ok _ _ _ _ _ _ Hcr) Hs3)). cbn [length]. lia.
  - intros s4 news Hld Hfs4 Hoth _. apply (HQ s4 news); [by rewrite Hfs4, (same_fs _ _ Hs3), (cr_fs _ _ _ _ _ _ Hcr)|done|].
    destruct Hld as [L1 L2 L3 L4 L5 L6 L7 L8]. split; try done.
    rewrite L8, (dir_slots_frame s2 s3) by (intros; by apply fat_same_cluster).
    by rewrite (cr_slots _ _ _ _ _ _ Hcr), list_insert_insert_eq.
Qed.

(** C4: The image builder, run with an image that holds a volume with a 128-sector
    table, a path "/NAME" whose name is legal, at most 10 characters long and new in
    the root directory, and a local file that is not empty and fits the free
    clusters.  main tests the value of fat_create_file, which returns none: what it
    finds there is [no_return].  When that is 0 the program exits with 0 and the image
    opened again holds a well formed volume, with the table on disk equal to the one
    in memory, in whose root directory the first free slot has become the entry NAME
    with the local file's size; the clusters of its chain start with exactly the bytes
    of the local file.  When it is anything else the program exits with 1, and the
    file is there but empty: the new entry has size 0 and one cluster.  In both cases
    every other slot and every other file of the host is as before. *)
Theorem main_loads fs t ps nm k local data n fresh no_return prog r1 r2 r3 s :
  loadable fs t ps nm k local data n s → 0 ≤ n → zlen fresh = 32768 → Forall (λ v, 0 ≤ v < 65536) fresh →
  wp (main fresh no_return [prog; img ++ 0 :: r1; SLASH :: nm ++ 0 :: r2; local ++ 0 :: r3])
     (λ code s', fat16_fs s' = fs ∧ (∀ p, p ≠ img → host_files (disk s') !! p = host_files h0 !! p) ∧
        code = (if decide (no_return = 0) then 0 else 1) ∧
        ∃ new news, loaded (new_file nm new) (new :: news) ps k (dir_slots (on_image fs t img s) ps)
          (if decide (no_return = 0) then data else []) (reopened img s') ∧ (no_return ≠ 0 → news = [])) s.
Proof.
  intros [Hd Himg Hv Hspf Hrd Hc Hz Hnm Hfits (Hsi & Hsl & Hne) Hloc Hdb Hdl Hroom Hheap] Hn Hfl Hfr.
  pose proof (heap_cost_nonneg (512 * sectors_per_cluster fs)) as HC. pose proof (heap_cost_nonneg (zlen data)).
  unfold main. rewrite cstr_terminated by done. apply wp_bind, wp_ata_init; [done..|].
  apply wp_bind. eapply (wp_loader_init fresh fs t (7 * heap_cost (512 * sectors_per_cluster fs) + (heap_cost (zlen data) + n))); try done; try lia.
  intros s1 Hm Hr1. destruct (mounted_volume fs t ps s s1 Hd Hm) as (Hsl1 & Hroom1 & Hp1).
  pose proof Hm as [Hok1 Hsy1 Hfs1 Ht1 _ _ Hst1 He1 Ha1 Hn1].
  assert (root_ready s1 ps) as Hroot1 by (split; rewrite ?Hst1, ?Ht1; done).
  rewrite <-Hsl1 in Hfits |- *. rewrite <-Hroom1 in Hroom. rewrite <-Hp1 in *.
  unfold fat_create_file. apply wp_bind, wp_bind.
  eapply (wp_fat_create nm r2 ps k (3 * heap_cost (512 * spc s1) + (heap_cost (zlen data) + n)));
    [done|done|done|done|by destruct (room s1); [simpl in Hroom; lia|lia]|lia|eapply heap_room_le; [|exact Hr1]; lia|].
  intros s2 new Hcr Hr2. apply wp_ret. cbv zeta. destruct (decide (no_return = 0)) as [->|Hne0].
  - rewrite decide_False by auto. rewrite (cr_room _ _ _ _ _ _ Hcr) in Hroom.
    apply (wp_main_copy nm ps k new local data n r2 r3 _ s1 s2); try done; [lia|].
    intros s3 news Hfs3 Hoth Hld. split; [by rewrite Hfs3|]. split; [done|]. split; [done|]. by exists new, news.
  - rewrite decide_True by done. apply wp_exit_with; [apply Hcr|]. intros s3 Hs3 Hf3.
    split; [|split; [|split; [done|]]].
    + change (fat16_fs (reopened img s3) = fs). by rewrite (same_fs _ _ Hs3), (cr_fs _ _ _ _ _ _ Hcr).
    + intros p Hp. rewrite Hf3. by apply (other_file s2); [apply Hcr|].
    + exists new, []. split; [|done]. by eapply created_loaded.
Qed.
End main.

(** ** Witnesses *)

Module Demo.
(** An image with a 128-sector table and 16 clusters behind it, all free but the
    root directory's. *)
Definition boot_sector : list Z :=
  replicate 11 0 ++ le_bytes 2 512 ++ [1] ++ le_bytes 2 1 ++ [1] ++ le_bytes 2 16 ++ le_bytes 2 145 ++ [0] ++ le_bytes 2 128 ++
  replicate 486 0 ++ [0x55; 0xAA].
Definition fs : FAT16_FS := mkFS 512 1 1 1 16 145 128 129 130.
Definition fat : list Z := 65528 :: 65535 :: replicate (Z.to_nat 32766) 0.
Definition clusters : list Z := replicate (Z.to_nat 8192) 0.
Definition image : list Z := boot_sector ++ concat (le_bytes 2 <$> fat) ++ clusters.
(** Files "i" and "l"; the second holds "hello". *)
Definition contents : list Z := [104; 101; 108; 108; 111].
Definition h0 : host := Host (<[ [105] := image ]> {[ [108] := contents ]}) 1000000 None [].
Definition state : fat_state host bump :=
  FatState (mkFS 0 0 0 0 0 0 0 0 0) None zero_entry h0 (Bump 4096 1000000) [].

Lemma boot_length : length boot_sector = 512%nat.
Proof. by vm_compute. Qed.
Lemma fat_length : zlen fat = 32768.
Proof. unfold fat. cbn [length]. rewrite length_replicate. lia. Qed.
Lemma image_length : zlen image = 74240.
Proof.
  unfold image, clusters. rewrite !length_app, length_table_bytes, boot_length, length_replicate.
  pose proof fat_length. lia.
Qed.
Lemma image_bytes : Forall is_byte image.
Proof.
  unfold image. apply Forall_app. split; [by_decide|]. apply Forall_app. split; [apply table_bytes_bytes|apply zeros_bytes].
Qed.
Lemma image_opened : HostDisk.image (opened [105] h0) = image.
Proof. unfold HostDisk.image, HostDisk.contents. cbn [opened set_ata_file ata_file st_path host_files h0]. by rewrite lookup_insert_eq. Qed.
Lemma image_sectors : image_size (opened [105] h0) = 145.
Proof. unfold image_size. by rewrite image_opened, image_length. Qed.

Lemma sector_boot : sector_of image 0 = boot_sector.
Proof. unfold sector_of, image. change (Z.to_nat (512 * 0)) with 0%nat. by rewrite drop_0, take_app_length'. Qed.
Lemma sector_table k : 0 ≤ k < 128 → sector_of image (1 + k) = table_sector fat k.
Proof.
  intros Hk. unfold sector_of, image, table_sector. pose proof fat_length. pose proof boot_length.
  rewrite drop_app_ge by lia. rewrite boot_length.
  replace (Z.to_nat (512 * (1 + k)) - 512)%nat with (2 * Z.to_nat (256 * k))%nat by lia.
  rewrite drop_app_le by (rewrite length_table_bytes; lia). rewrite drop_table_bytes.
  rewrite <-(take_drop 256 (drop (Z.to_nat (256 * k)) fat)) at 1. rewrite fmap_app, concat_app, <-app_assoc.
  apply take_app_length'. rewrite length_table_bytes, length_take, length_drop. lia.
Qed.
Lemma sector_data k : 129 ≤ k < 145 → sector_of image k = replicate 512 0.
Proof.
  intros Hk. unfold sector_of, image, clusters. pose proof fat_length. pose proof boot_length.
  rewrite drop_app_ge by lia. rewrite drop_app_ge by (rewrite length_table_bytes; lia).
  rewrite length_table_bytes, boot_length, drop_replicate, take_replicate. f_equal. lia.
Qed.
Lemma fat_used c v : aget fat c = Some v → v ≠ 0 → 0 ≤ c < 2.
Proof.
  intros [Hc Hv]%aget_Some Hz. split; [done|]. destruct (decide (c < 2)) as [|Hge]; [done|].
  destruct (Z.to_nat c) as [|[|i]] eqn:Ei; [lia|lia|]. unfold fat in Hv. cbn in Hv.
  apply lookup_replicate in Hv as [-> _]. done.
Qed.

#[local] Instance laws : BlockDeviceLaws host := image_laws h0 [105].
Lemma dev_sector_image k : 0 ≤ k < 145 → dev_sector (opened [105] h0) k = sector_of image k.
Proof. intros Hk. cbn. rewrite image_sector_in by (by rewrite image_sectors). by rewrite image_opened. Qed.

Lemma volume : volume_on (opened [105] h0) fs fat.
Proof.
  assert (dev_sector (opened [105] h0) 0 = boot_sector) as E0 by (by rewrite dev_sector_image, sector_boot).
  split; rewrite ?E0; clear E0.
  - split; [|by split]. split; rewrite ?image_opened, ?image_length; [by eexists|apply image_bytes|done|done].
  - split; by vm_compute.
  - by vm_compute.
  - by vm_compute.
  - by vm_compute.
  - by vm_compute.
  - rewrite fat_length. by vm_compute.
  - unfold fat. do 2 (apply List.Forall_cons; [lia|]). apply Forall_replicate. lia.
  - intros k Hk. replace (sectors_per_fat fs) with 128 in Hk by by vm_compute.
    replace (reserved_sectors fs) with 1 by by vm_compute.
    rewrite dev_sector_image by lia. by apply sector_table.
  - change (root_dir_start fs ≤ image_size (opened [105] h0)). rewrite image_sectors. by vm_compute.
  - intros c v Hc Hv. pose proof (fat_used c v Hc Hv).
    change (c * sectors_per_cluster fs + root_dir_start fs + sectors_per_cluster fs ≤ image_size (opened [105] h0)).
    rewrite image_sectors. replace (sectors_per_cluster fs) with 1 by by vm_compute.
    replace (root_dir_start fs) with 129 by by vm_compute. lia.
  - change (image_size (opened [105] h0) ≤ 268435456). rewrite image_sectors. lia.
Qed.

(** The root directory is empty. *)
Definition mounted : fat_state host bump := on_image fs fat [105] state.
Lemma root_slots : dir_slots mounted [0] = replicate 16 (replicate 32 0).
Proof.
  unfold dir_slots. cbn [fmap list_fmap concat]. rewrite app_nil_r.
  assert (cluster_at mounted 0 = replicate 512 0) as ->; [|by vm_compute].
  unfold cluster_at. change (sectors (dev_sector (opened [105] h0)) (root_dir_start fs) (Z.to_nat (sectors_per_cluster fs)) = replicate 512 0).
  replace (root_dir_start fs) with 129 by by vm_compute. replace (Z.to_nat (sectors_per_cluster fs)) with 1%nat by by vm_compute.
  rewrite sectors_cons, dev_sector_image, sector_data by lia. done.
Qed.

Lemma mounted_clusters : FatChain.clusters mounted = 16.
Proof.
  unfold FatChain.clusters. change (dev_size (disk mounted)) with (image_size (opened [105] h0)). rewrite image_sectors.
  by vm_compute.
Qed.
Lemma image_room : (0 < room mounted)%nat.
Proof.
  destruct (room mounted) as [|m] eqn:E; [|lia]. exfalso. unfold room in E. rewrite mounted_clusters in E.
  by apply (proj1 (free_count_zero _) E 2).
Qed.

(** A file "f" can be made and filled. *)
Lemma can_load : loadable h0 [105] fs fat [0] [102] 0 [108] contents 0 state.
Proof.
  assert (sectors_per_cluster fs = 1) as Hspc by by vm_compute.
  split; rewrite ?Hspc; clear Hspc.
  - done.
  - eexists. apply lookup_insert_eq.
  - exact volume.
  - by vm_compute.
  - done.
  - apply (chain_end _ _ 65528); [done|]. unfold is_end. lia.
  - done.
  - split; [|done|simpl; lia|done|done]. apply List.Forall_cons; [unfold legal; lia|constructor].
  - change (name_fits [102] 0 (dir_slots mounted [0])). rewrite root_slots. split; by vm_compute.
  - split_and!; [by_decide|by_decide|done].
  - by vm_compute.
  - by_decide.
  - by vm_compute.
  - pose proof image_room. change (5 ≤ Z.of_nat (room mounted) * (512 * 1)). lia.
  - vm_compute. split; [congruence|done].
Qed.

(** The volume of [FatTable.Demo] holds its file "A" as a loaded one. *)
Definition data_a : list Z := take (Z.to_nat 600) (file_bytes FatTable.Demo.state [2; 3]).
Definition slots_a : list (list Z) := replicate 16 (replicate 32 0).
Lemma bytes_a : file_bytes FatTable.Demo.state [2; 3] = replicate (Z.to_nat 1024) 0.
Proof. by vm_compute. Qed.
Lemma data_a_length : zlen data_a = 600.
Proof. unfold data_a. rewrite bytes_a, length_take, length_replicate. lia. Qed.
Lemma loaded_a : loaded (new_file [65] 2) [2; 3] [0] 0 slots_a data_a FatTable.Demo.state.
Proof.
  split.
  - apply FatTable.Demo.state_ok.
  - intros k Hk. assert (k = 0) as -> by (cbn in Hk; lia). by vm_compute.
  - done.
  - apply FatTable.Demo.file_chain.
  - pose proof data_a_length. unfold data_a at 2. f_equal; lia.
  - rewrite data_a_length, bytes_a, length_replicate. lia.
  - apply FatTable.Demo.root_chain.
  - rewrite data_a_length. by vm_compute.
Qed.
End Demo.

#[local] Existing Instance Demo.laws.
Lemma main_loads_witness :
  let run no_return := main (replicate (Z.to_nat 32768) 7) no_return [[]; [105; 0]; [47; 102; 0]; [108; 0]] in
  let ends no_return code data s' :=
    fat16_fs s' = Demo.fs ∧ (∀ p, p ≠ [105] → host_files (disk s') !! p = host_files Demo.h0 !! p) ∧
    code = (if decide (no_return = 0) then 0 else 1) ∧
    ∃ new news, loaded (new_file [102] new) (new :: news) [0] 0 (dir_slots Demo.mounted [0])
      (if decide (no_return = 0) then data else []) (reopened [105] s') ∧ (no_return ≠ 0 → news = []) in
  wp (run 0) (λ code s', ends 0 code Demo.contents s') Demo.state ∧
  wp (run 7) (λ code s', ends 7 code Demo.contents s') Demo.state.
Proof.
  split.
  - apply (main_loads Demo.h0 [105] Demo.fs Demo.fat [0] [102] 0 [108] Demo.contents 0
      (replicate (Z.to_nat 32768) 7) 0 [] [] [] [] Demo.state);
      [exact Demo.can_load|lia|rewrite length_replicate; lia|apply Forall_replicate; lia].
  - apply (main_loads Demo.h0 [105] Demo.fs Demo.fat [0] [102] 0 [108] Demo.contents 0
      (replicate (Z.to_nat 32768) 7) 7 [] [] [] [] Demo.state);
      [exact Demo.can_load|lia|rewrite length_replicate; lia|apply Forall_replicate; lia].
Defined.

Lemma loaded_file_is_read_witness :
  wp (found ← FatDir.fat_find_dir_entry ([65] ++ 0 :: []) FatTable.Demo.root;
      match found with
      | None => mret None
      | Some e => res ← fat_read e 0 (zlen Demo.data_a) (replicate (Z.to_nat 600) 7); mret (Some res)
      end) (λ res s', res = Some (zlen Demo.data_a, Demo.data_a) ∧ fat_same FatTable.Demo.state s') FatTable.Demo.state.
Proof.
  apply (loaded_file_is_read [65] [] 2 [2; 3] [0] 0 Demo.slots_a Demo.data_a (replicate (Z.to_nat 600) 7) 0 FatTable.Demo.state).
  - split; [|done|simpl; lia|done|done]. apply List.Forall_cons; [unfold legal; lia|constructor].
  - split; by vm_compute.
  - exact Demo.loaded_a.
  - rewrite Demo.data_a_length. lia.
  - rewrite Demo.data_a_length, length_replicate. lia.
  - lia.
  - vm_compute. split; [congruence|done].
Defined.
