(* ===== verification/Shell.v ===== *)
(** * The shell: terminal/main.c

    The shell is a user program linked with newlib.  Its own code, the prompt, the
    parser, the dispatch and the commands, is here; what it calls of the library
    and the kernel is the class [UserLibrary], a parameter.  The string functions
    are those of the C standard ([HostString]).  [input], [arg_buffer] and [args]
    are arrays of start_shell that live as long as it runs; a pointer in [args] is
    an offset into [arg_buffer]. *)

From S2P Require Import Prelude CString HostString.

(** ** Definitions *)

Definition MAX_INPUT_LENGTH : Z := 256.
Definition MAX_ARGS : Z := 64.
Definition MAX_PATH : Z := 256.
Definition MAX_BUFFER_SIZE : Z := 4096.
Definition STDIN_FILENO : Z := 0.
Definition STDOUT_FILENO : Z := 1.
Definition STDERR_FILENO : Z := 2.

(** What the shell asks of newlib and the kernel with an integer for an answer; a
    string is its bytes, a null pointer 0. *)
Inductive request :=
| Puts (s : list Z)
| Printf (format : list Z) (strings : list (list Z)) (ints : list Z)
| Fflush
| Write (fd : Z) (bytes : list Z)
| Syscall (number : Z)
| Chdir (path : list Z)
| Mkdir (path : list Z) (mode : Z)
| Unlink (path : list Z)
| Rmdir (path : list Z)
| Execve (path : list Z) (argv : list (list Z))
| Opendir (path : list Z)
| Closedir (dir : Z)
| Fopen (path : list Z) (mode : string)
| Fwrite (bytes : list Z) (file : Z)
| Fclose (file : Z).

(** [read_from fd n]: the value of [read] and the bytes it stored; [getcwd n]:
    whether the value is not the null pointer, and the bytes stored; [readdir]: the name of the
    next entry; [fread n]: the bytes read. *)
Class UserLibrary (W : Type) := {
  call : request → M W Z;
  read_from : Z → Z → M W (Z * list Z);
  getcwd : Z → M W (bool * list Z);
  readdir : Z → M W (option (list Z));
  fread : Z → Z → M W (list Z);
}.

(** *** Functions of the standard library *)

(** [isspace] of an unsigned character *)
Definition isspace (c : Z) : Prop := c = 32 ∨ 9 ≤ c ≤ 13.
#[export] Instance isspace_dec c : Decision (isspace c).
Proof. unfold isspace. apply _. Defined.

(** A pointer passed as a string: its bytes up to the terminator. *)
Definition c_string (p : list Z) : outcome (list Z) := n ← strlen p; Done (take (Z.to_nat n) p).

Definition strcat (dst src : list Z) : outcome (list Z) :=
  n ← strlen dst; r ← strcpy (drop (Z.to_nat n) dst) src; Done (take (Z.to_nat n) dst ++ r).

(** *** The parser *)

(** [while (i < input_len && isspace(input[i])) i++] *)
Fixpoint skip_spaces (input : list Z) (input_len i : Z) (fuel : nat) : outcome Z :=
  if decide (i < input_len) then
    match fuel with
    | O => Timeout
    | S fuel' =>
        c ← of_option (aget input i);
        if decide (isspace c) then skip_spaces input input_len (i + 1) fuel' else Done i
    end
  else Done i.

(** [while (...) arg_buffer[buf_pos++] = input[i++]]: [i], [buf_pos] and the buffer. *)
Fixpoint copy_arg (input : list Z) (input_len i buf_pos : Z) (arg_buffer : list Z) (fuel : nat) :
    outcome (Z * Z * list Z) :=
  if decide (i < input_len) then
    match fuel with
    | O => Timeout
    | S fuel' =>
        c ← of_option (aget input i);
        if decide (isspace c) then Done (i, buf_pos, arg_buffer) else
        arg_buffer ← of_option (aset arg_buffer buf_pos c);
        copy_arg input input_len (i + 1) (buf_pos + 1) arg_buffer fuel'
    end
  else Done (i, buf_pos, arg_buffer).

(** The loop over the arguments, and the null pointer behind them. *)
Fixpoint parse_args (input : list Z) (input_len i buf_pos arg_count : Z) (arg_buffer : list Z)
    (args : list (option Z)) (fuel : nat) : outcome (Z * list Z * list (option Z)) :=
  if decide (i < input_len ∧ arg_count < MAX_ARGS - 1) then
    match fuel with
    | O => Timeout
    | S fuel' =>
        args ← of_option (aset args arg_count (Some buf_pos));
        '(i, buf_pos, arg_buffer) ← copy_arg input input_len i buf_pos arg_buffer (Z.to_nat input_len);
        arg_buffer ← of_option (aset arg_buffer buf_pos 0);
        i ← skip_spaces input input_len i (Z.to_nat input_len);
        parse_args input input_len i (buf_pos + 1) (arg_count + 1) arg_buffer args fuel'
    end
  else args ← of_option (aset args arg_count None); Done (arg_count, arg_buffer, args).

(** The number of arguments, and the two arrays. *)
Definition parse_input (input arg_buffer : list Z) (args : list (option Z)) : outcome (Z * list Z * list (option Z)) :=
  input_len ← strlen input;
  i ← skip_spaces input input_len 0 (Z.to_nat input_len);
  parse_args input input_len i 0 0 arg_buffer args (Z.to_nat input_len).

(** *** The commands *)

Record shell (W : Type) := Shell {
  input : list Z;
  arg_buffer : list Z;
  args : list (option Z);
  lib : W;
}.
Arguments Shell {W}.
Arguments input {W}.
Arguments arg_buffer {W}.
Arguments args {W}.
Arguments lib {W}.

Section operations.
Context {W : Type} `{UserLibrary W}.

Definition set_input (x : list Z) (s : shell W) : shell W := Shell x (arg_buffer s) (args s) (lib s).
Definition set_args (b : list Z) (a : list (option Z)) (s : shell W) : shell W := Shell (input s) b a (lib s).
Definition set_lib (w : W) (s : shell W) : shell W := Shell (input s) (arg_buffer s) (args s) w.

Definition ask (r : request) : M (shell W) Z := zoom lib set_lib (call r).
Definition tell (r : request) : M (shell W) unit := _ ← ask r; mret tt.
Definition puts (s : string) : M (shell W) unit := tell (Puts (lit s)).
(** [write] of a literal with its length *)
Definition write_lit (fd : Z) (s : string) : M (shell W) unit := tell (Write fd (lit s)).

(** [args[i]]: the bytes from the pointer on, or the null pointer. *)
Definition arg (i : Z) : M (shell W) (option (list Z)) :=
  p ← reads args i; b ← gets arg_buffer; mret ((λ off, drop (Z.to_nat off) b) <$> p).

(** The first lines of a command: without [args[1]], a message and 1. *)
Definition with_arg (message : string) (body : list Z → M (shell W) Z) : M (shell W) Z :=
  p ← arg 1;
  match p with
  | None => _ ← write_lit STDERR_FILENO message; mret 1
  | Some p => body p
  end.

(** [write]'s "\n" *)
Definition newline : M (shell W) unit := tell (Write STDOUT_FILENO [10]).

Definition supported_commands : list string :=
  ["help"; "ls"; "cd"; "cat"; "echo"; "mkdir"; "rm"; "rmdir"; "run"; "exit"]%string.

Definition cmd_help : M (shell W) Z :=
  _ ← tell (Write STDOUT_FILENO (lit "Welcome to DBOLOS hacker terminal!!" ++ [10]
        ++ lit "We support a lot of commands:" ++ [10]));
  _ ← (fix list_commands (cs : list string) : M (shell W) unit :=
         match cs with
         | [] => mret tt
         | c :: cs => _ ← tell (Printf (lit "-   %s" ++ [10]) [lit c] []); list_commands cs
         end) supported_commands;
  _ ← puts "Enjoy!";
  mret 1.

(** [while ((entry = readdir(dir)) != NULL) puts(entry->d_name)] *)
Definition ls_round (dir : Z) (_ : unit) : M (shell W) (unit + unit) :=
  entry ← zoom lib set_lib (readdir dir);
  match entry with
  | None => mret (inr tt)
  | Some d_name => _ ← tell (Puts d_name); mret (inl tt)
  end.

Definition cmd_ls (fuel : nat) : M (shell W) Z :=
  p ← arg 1;
  path ← (match p with Some p => liftO (c_string p) | None => mret (lit ".") end);
  dir ← ask (Opendir path);
  if decide (dir = 0) then _ ← puts "ls"; mret 1 else
  _ ← iter fuel (ls_round dir) tt;
  _ ← tell (Closedir dir);
  mret 1.

Definition cmd_cd : M (shell W) Z :=
  p ← arg 1;
  path ← (match p with Some p => liftO (c_string p) | None => mret (lit "/") end);
  r ← ask (Chdir path);
  _ ← (if decide (r ≠ 0) then puts "chdir" else mret tt);
  mret 1.

(** [for (size_t i = 0; i < bytes_read; i++)]: both branches write the byte. *)
Fixpoint write_bytes (bytes : list Z) : M (shell W) unit :=
  match bytes with
  | [] => mret tt
  | c :: bytes' =>
      _ ← (if decide (c = 0) then tell (Write STDOUT_FILENO [0]) else tell (Write STDOUT_FILENO [c]));
      write_bytes bytes'
  end.

Definition cat_round (fp : Z) (_ : unit) : M (shell W) (unit + unit) :=
  bytes ← zoom lib set_lib (fread MAX_BUFFER_SIZE fp);
  if decide (0 < zlen bytes) then _ ← write_bytes bytes; mret (inl tt) else mret (inr tt).

Definition cmd_cat (fuel : nat) : M (shell W) Z :=
  p ← arg 1;
  match p with
  | None => _ ← tell (Write STDERR_FILENO (lit "cat: missing file" ++ [10])); mret 1
  | Some p =>
      path ← liftO (c_string p);
      fp ← ask (Fopen path "rb");
      if decide (fp = 0) then _ ← puts "cat"; mret 1 else
      _ ← iter fuel (cat_round fp) tt;
      _ ← newline;
      _ ← tell (Fclose fp);
      mret 1
  end.

(** What looking for a redirection comes to: [None] is stdout. *)
Inductive redirection :=
| NotFound
| Redirected (fd : Z)
| Failed.

(** A redirection at [args[i]]: its file is opened and the list cut in front of it. *)
Definition redirect (i : Z) (mode : string) : M (shell W) redirection :=
  p ← arg (i + 1);
  match p with
  | None => _ ← tell (Write STDERR_FILENO (lit "echo: syntax error, expected file name" ++ [10])); mret Failed
  | Some p =>
      path ← liftO (c_string p);
      fd ← ask (Fopen path mode);
      if decide (fd = 0) then _ ← puts "echo"; mret Failed else
      _ ← writes args (λ a s, set_args (arg_buffer s) a s) i None;
      mret (Redirected fd)
  end.

(** The first loop of [cmd_echo]. *)
Definition echo_scan_round (i : Z) : M (shell W) (Z + redirection) :=
  p ← arg i;
  match p with
  | None => mret (inr NotFound)
  | Some a =>
      d1 ← liftO (strcmp a [62; 0]);
      if decide (d1 = 0) then r ← redirect i "w+"; mret (inr r) else
      d2 ← liftO (strcmp a [62; 62; 0]);
      if decide (d2 = 0) then r ← redirect i "a"; mret (inr r) else mret (inl (i + 1))
  end.

(** The second loop: the arguments, with a space between them. *)
Definition echo_join_round (a : Z * list Z) : M (shell W) ((Z * list Z) + list Z) :=
  let '(i, buffer) := a in
  p ← arg i;
  match p with
  | None => mret (inr buffer)
  | Some p =>
      buffer ← (if decide (1 < i) then liftO (strcat buffer [32; 0]) else mret buffer);
      buffer ← liftO (strcat buffer p);
      mret (inl (i + 1, buffer))
  end.

Definition cmd_echo : M (shell W) Z :=
  let buffer := replicate (Z.to_nat MAX_INPUT_LENGTH) 0 in
  first ← arg 1;
  match first with
  | None => _ ← newline; mret 1
  | Some _ =>
      r ← iter (Z.to_nat MAX_ARGS) echo_scan_round 1;
      match r with
      | Failed => mret 1
      | NotFound =>
          buffer ← iter (Z.to_nat MAX_ARGS) echo_join_round (1, buffer);
          text ← liftO (c_string buffer);
          _ ← tell (Write STDOUT_FILENO text);
          _ ← newline;
          mret 1
      | Redirected fd =>
          buffer ← iter (Z.to_nat MAX_ARGS) echo_join_round (1, buffer);
          text ← liftO (c_string buffer);
          _ ← tell (Fwrite text fd);
          _ ← tell (Fclose fd);
          mret 1
      end
  end.

(** A command with one path, and the message when it fails. *)
Definition path_command (usage failed : string) (r : list Z → request) : M (shell W) Z :=
  with_arg usage (λ p,
    path ← liftO (c_string p);
    v ← ask (r path);
    _ ← (if decide (v ≠ 0) then puts failed else mret tt);
    mret 1).
Definition cmd_mkdir : M (shell W) Z := path_command "mkdir: mkdir <name>
" "mkdir" (λ path, Mkdir path 493 (* 0755 *)).
Definition cmd_rm : M (shell W) Z := path_command "rm: rm <name>
" "rm" Unlink.
Definition cmd_rmdir : M (shell W) Z := path_command "rmdir: rmdir <name>
" "rmdir" Rmdir.

Definition cmd_run : M (shell W) Z :=
  with_arg "run: run <name>
" (λ p,
    filename ← liftO (c_string p);
    _ ← puts "";
    ret ← ask (Execve filename [filename]);
    _ ← (if decide (ret ≠ 0) then tell (Printf (lit "run failed %d" ++ [10]) [] [ret]) else mret tt);
    mret 1).

Definition cmd_exit : M (shell W) Z :=
  _ ← puts "You are closing the DbolOS shell!!!";
  _ ← tell (Puts (lit "Good bye :)" ++ [10]));
  _ ← ask (Syscall 170);
  mret 0.

(** [command_funcs]; [fuel] bounds the entries of a directory and the blocks of a file. *)
Definition command_funcs (fuel : nat) : list (M (shell W) Z) :=
  [cmd_help; cmd_ls fuel; cmd_cd; cmd_cat fuel; cmd_echo; cmd_mkdir; cmd_rm; cmd_rmdir; cmd_run; cmd_exit].

(** *** The loop *)

(** [for (int i = 0; i < num_cmds(); ++i)]: the first command whose name compares
    equal in the first [cmd_len] characters. *)
Fixpoint find_command (names : list string) (name : list Z) (cmd_len : Z) (i : nat) : outcome (option nat) :=
  match names with
  | [] => Done None
  | c :: names' =>
      d ← strncmp (lit c ++ [0]) name (Z.to_nat cmd_len);
      if decide (d = 0) then Done (Some i) else find_command names' name cmd_len (S i)
  end.

Definition execute_command (fuel : nat) : M (shell W) Z :=
  p ← arg 0;
  match p with
  | None => mret 1
  | Some a =>
      cmd_len ← liftO (strlen a);
      r ← liftO (find_command supported_commands a cmd_len 0);
      match r with
      | Some i => default fault (command_funcs fuel !! i)
      | None => name ← liftO (c_string a); _ ← tell (Printf (lit "Unknown command: %s" ++ [10]) [name] []); mret 1
      end
  end.

(** The test is on a pointer that is not null when [getcwd] worked. *)
Definition print_cwd : M (shell W) unit :=
  '(found, bytes) ← zoom lib set_lib (getcwd MAX_PATH);
  let cwd := splice (replicate (Z.to_nat MAX_PATH) 0) 0 bytes in
  cwd ← (if decide (found = true) then liftO (strcpy cwd (lit "Unknown path" ++ [0])) else mret cwd);
  cwd ← liftO (c_string cwd);
  _ ← tell (Printf (lit "DBOLOS %s>") [cwd] []);
  tell Fflush.

(** One round of [while (status)]. *)
Definition shell_round (fuel : nat) (status : Z) : M (shell W) (Z + Z) :=
  if decide (status = 0) then mret (inr 0) else
  _ ← print_cwd;
  '(r, bytes) ← zoom lib set_lib (read_from STDIN_FILENO MAX_INPUT_LENGTH);
  _ ← modify (λ s, set_input (splice (input s) 0 bytes) s);
  let len := u32 r in (* size_t *)
  if decide (0 < len) then
    _ ← writes input set_input (len - 1) 0;
    s ← get;
    '(n, b, a) ← liftO (parse_input (input s) (arg_buffer s) (args s));
    _ ← modify (set_args b a);
    if decide (n = 0) then mret (inl status) else
    status ← execute_command fuel;
    mret (inl status)
  else _ ← puts "read error"; mret (inl status).

(** [rounds] is the number of lines that are read at most. *)
Definition start_shell (rounds fuel : nat) : M (shell W) Z :=
  _ ← modify (λ s, Shell (replicate (Z.to_nat MAX_INPUT_LENGTH) 0) (replicate (Z.to_nat MAX_INPUT_LENGTH) 0)
                     (replicate (Z.to_nat MAX_ARGS) None) (lib s));
  _ ← ask (Syscall 169);
  _ ← puts "Welcome to DBolOShell!";
  iter rounds (shell_round fuel) 1.

Definition main (rounds fuel : nat) : M (shell W) Z := r ← start_shell rounds fuel; mret r.
End operations.

(** ** Words of a line *)

(** The reference: the maximal runs of characters that are not spaces.  [cur] is
    the run that is being read. *)
Fixpoint words_from (cur s : list Z) : list (list Z) :=
  match s with
  | [] => if decide (cur = []) then [] else [cur]
  | c :: s' =>
      if decide (isspace c) then if decide (cur = []) then words_from [] s' else cur :: words_from [] s'
      else words_from (cur ++ [c]) s'
  end.
Definition words (s : list Z) : list (list Z) := words_from [] s.

Fixpoint first_word (s : list Z) : list Z :=
  match s with
  | [] => []
  | c :: s' => if decide (isspace c) then [] else c :: first_word s'
  end.
Fixpoint trim (s : list Z) : list Z :=
  match s with
  | [] => []
  | c :: s' => if decide (isspace c) then trim s' else s
  end.
Definition after_word (s : list Z) : list Z := drop (length (first_word s)) s.

Lemma words_from_word cur s :
  cur ≠ [] → words_from cur s = (cur ++ first_word s) :: words (after_word s).
Proof.
  unfold after_word, words. revert cur. induction s as [|c s IH]; intros cur Hc; cbn [words_from first_word].
  - rewrite decide_False by done. by rewrite app_nil_r.
  - case_decide as Hs.
    + rewrite decide_False by done. cbn [words_from length drop]. rewrite app_nil_r. f_equal.
      cbn [words_from]. by rewrite decide_True, decide_True.
    + rewrite IH by (by destruct cur). rewrite <-app_assoc. done.
Qed.

Lemma words_trim s : words (trim s) = words s.
Proof.
  unfold words. induction s as [|c s IH]; [done|]. cbn [trim words_from]. case_decide as Hs.
  - by rewrite IH, decide_True.
  - cbn [words_from]. by rewrite decide_False.
Qed.
Lemma words_cons c s : ¬ isspace c → words (c :: s) = first_word (c :: s) :: words (after_word (c :: s)).
Proof.
  intros Hc. unfold words at 1. cbn [words_from]. rewrite decide_False by done.
  rewrite words_from_word by done. unfold after_word. cbn [first_word]. by rewrite decide_False by done.
Qed.

(** What starts at a word. *)
Definition at_word (s : list Z) : Prop := s = [] ∨ ∃ c s', s = c :: s' ∧ ¬ isspace c.
Lemma trim_at_word s : at_word (trim s).
Proof. unfold at_word. induction s as [|c s IH]; cbn [trim]; [by left|]. case_decide; eauto. Qed.
Lemma at_word_trim s : at_word s → trim s = s.
Proof. intros [->|(c & s' & -> & Hc)]; [done|]. cbn [trim]. by rewrite decide_False. Qed.

Lemma length_trim s : (length (trim s) ≤ length s)%nat.
Proof. induction s as [|c s IH]; cbn [trim]; [done|]. case_decide; simpl; lia. Qed.
Lemma length_first_word s : (length (first_word s) ≤ length s)%nat.
Proof. induction s as [|c s IH]; cbn [first_word]; [done|]. case_decide; simpl; lia. Qed.
Lemma length_after_word s : length (after_word s) = (length s - length (first_word s))%nat.
Proof. apply length_drop. Qed.
Lemma first_word_app s : s = first_word s ++ after_word s.
Proof.
  unfold after_word. induction s as [|c s IH]; [done|]. cbn [first_word]. case_decide; [done|]. cbn [length drop app]. by f_equal.
Qed.

(** Behind a word is the end or a space. *)
Lemma trim_after_shorter s :
  after_word s ≠ [] → (S (length (trim (after_word s))) ≤ length (after_word s))%nat.
Proof.
  unfold after_word. induction s as [|c s IH]; [done|]. cbn [first_word]. case_decide as Hc.
  - intros _. cbn [length drop trim]. rewrite decide_True by done. pose proof (length_trim s). simpl. lia.
  - cbn [length drop]. apply IH.
Qed.

(** *** Words laid out in the buffer *)

Definition layout (ws : list (list Z)) : list Z := concat ((λ w, w ++ [0]) <$> ws).
Fixpoint offsets (p : Z) (ws : list (list Z)) : list Z :=
  match ws with [] => [] | w :: ws' => p :: offsets (p + zlen w + 1) ws' end.

Lemma layout_cons w ws : layout (w :: ws) = w ++ 0 :: layout ws.
Proof. unfold layout. cbn [fmap list_fmap concat]. by rewrite <-app_assoc. Qed.
Lemma length_offsets p ws : length (offsets p ws) = length ws.
Proof. revert p. induction ws as [|w ws IH]; intros p; [done|]. cbn [offsets length]. by rewrite IH. Qed.

Lemma length_layout_take n ws : (length (layout (take n ws)) ≤ length (layout ws))%nat.
Proof. rewrite <-(take_drop n ws) at 2. unfold layout. rewrite fmap_app, concat_app, length_app. lia. Qed.

(** The words of a line and their terminators fit in the line and one more byte. *)
Lemma length_layout_words s : (length (layout (words s)) ≤ length s + 1)%nat.
Proof.
  rewrite <-words_trim. enough (∀ n t, (length t ≤ n)%nat → at_word t → (length (layout (words t)) ≤ length t + 1)%nat) as Hn.
  { pose proof (length_trim s). pose proof (Hn (length (trim s)) (trim s) ltac:(done) (trim_at_word s)). lia. }
  clear s. induction n as [|n IH]; intros t Hl [->|(c & t' & -> & Hc)]; try (simpl in *; lia).
  rewrite words_cons, layout_cons, length_app by done.
  change (length (c :: t') ≤ S n)%nat in Hl. set (t := c :: t') in *. cbn [length]. pose proof (length_after_word t) as Ha. pose proof (length_first_word t) as Hw.
  assert (length (first_word t) ≠ 0%nat) by (unfold t; cbn [first_word]; rewrite decide_False by done; simpl; lia).
  clearbody t. destruct (decide (after_word t = [])) as [E|Hne].
  - rewrite E. change (words []) with (@nil (list Z)). change (length (layout [])) with 0%nat. lia.
  - pose proof (trim_after_shorter t Hne). rewrite <-words_trim.
    specialize (IH (trim (after_word t)) ltac:(lia) (trim_at_word _)). lia.
Qed.

(** *** The loops of the parser *)

Section line.
Context (s r : list Z).
Let line := s ++ 0 :: r.

Lemma line_at i c : s !! i = Some c → aget line (Z.of_nat i) = Some c.
Proof. intros Hc. rewrite aget_of_nat. unfold line. by rewrite lookup_app_l by (by eapply lookup_lt_Some). Qed.

Lemma skip_spaces_spec i fuel :
  (i ≤ length s)%nat → (length s - i ≤ fuel)%nat →
  skip_spaces line (zlen s) (Z.of_nat i) fuel = Done (Z.of_nat (length s - length (trim (drop i s)))).
Proof.
  revert i. induction fuel as [|fuel IH]; intros i Hi Hf; cbn [skip_spaces].
  - rewrite decide_False by lia. rewrite drop_ge by lia. cbn [trim length]. do 2 f_equal. lia.
  - case_decide as Hl.
    + destruct (lookup_lt_is_Some_2 s i) as [c Hc]; [lia|]. rewrite (line_at i c Hc).
      cbn [of_option mbind outcome_bind]. rewrite (drop_S _ _ _ Hc). cbn [trim]. case_decide.
      * replace (Z.of_nat i + 1) with (Z.of_nat (S i)) by lia. apply IH; lia.
      * cbn [length]. rewrite length_drop. do 2 f_equal. lia.
    + rewrite drop_ge by lia. cbn [trim length]. do 2 f_equal. lia.
Qed.

Lemma drop_trim t : drop (length t - length (trim t)) t = trim t.
Proof.
  induction t as [|c t IH]; [done|]. cbn [trim]. case_decide.
  - pose proof (length_trim t). replace (length (c :: t) - length (trim t))%nat with (S (length t - length (trim t))) by (simpl; lia).
    exact IH.
  - by rewrite Nat.sub_diag.
Qed.
Lemma drop_skipped i : (i ≤ length s)%nat → drop (length s - length (trim (drop i s))) s = trim (drop i s).
Proof.
  intros Hi. rewrite <-(drop_trim (drop i s)) at 2. rewrite drop_drop, length_drop. f_equal.
  pose proof (length_trim (drop i s)) as Hl. rewrite length_drop in Hl. lia.
Qed.

Lemma copy_arg_spec i p buf fuel :
  (i ≤ length s)%nat → (length s - i ≤ fuel)%nat → (p + length (first_word (drop i s)) ≤ length buf)%nat →
  copy_arg line (zlen s) (Z.of_nat i) (Z.of_nat p) buf fuel
    = Done (Z.of_nat (i + length (first_word (drop i s))), Z.of_nat (p + length (first_word (drop i s))),
            splice buf p (first_word (drop i s))).
Proof.
  revert i p buf. induction fuel as [|fuel IH]; intros i p buf Hi Hf; cbn [copy_arg].
  - intros _. rewrite decide_False by lia. rewrite drop_ge by lia. cbn [first_word length]. rewrite splice_nil, !Nat.add_0_r. done.
  - case_decide as Hl.
    + destruct (lookup_lt_is_Some_2 s i) as [c Hc]; [lia|]. rewrite (line_at i c Hc).
      cbn [of_option mbind outcome_bind]. rewrite (drop_S _ _ _ Hc). cbn [first_word]. case_decide.
      * intros _. cbn [length]. rewrite splice_nil, !Nat.add_0_r. done.
      * intros Hp. cbn [length] in *. unfold aset. rewrite decide_True by lia. cbn [of_option mbind outcome_bind].
        rewrite Nat2Z.id. replace (Z.of_nat i + 1) with (Z.of_nat (S i)) by lia.
        replace (Z.of_nat p + 1) with (Z.of_nat (S p)) by lia.
        rewrite IH.
        2,3,4: rewrite ?length_insert; lia.
        do 2 f_equal; [f_equal; lia|].
        rewrite <-splice_one by lia. set (w := first_word _) in *. change (c :: w) with ([c] ++ w).
        rewrite (splice_splice buf p [c] w (S p)); [done|simpl; lia..].
    + intros _. rewrite drop_ge by lia. cbn [first_word length]. rewrite splice_nil, !Nat.add_0_r. done.
Qed.

(** The end of the loop. *)
Lemma parse_args_end fuel i p n buf args :
  (n ≤ 63)%nat → length args = 64%nat → (length s ≤ i ∨ n = 63)%nat →
  parse_args line (zlen s) (Z.of_nat i) (Z.of_nat p) (Z.of_nat n) buf args fuel
    = Done (Z.of_nat n, buf, splice args n [None]).
Proof.
  intros Hn Ha Hd. destruct fuel; cbn [parse_args]; unfold MAX_ARGS; rewrite decide_False by lia;
    rewrite aset_in by lia; cbn [of_option mbind outcome_bind]; by rewrite Nat2Z.id, splice_one by lia.
Qed.

(** One round, at a word: where it leaves off. *)
Lemma parse_args_word fuel i p n buf args t :
  drop i s = t → t ≠ [] → at_word t → (i ≤ length s)%nat → (n < 63)%nat → length args = 64%nat →
  (p + length (first_word t) < length buf)%nat →
  let w := first_word t in
  ∃ j : nat, (i < j ≤ length s)%nat ∧ drop j s = trim (after_word t) ∧
    parse_args line (zlen s) (Z.of_nat i) (Z.of_nat p) (Z.of_nat n) buf args (S fuel)
      = parse_args line (zlen s) (Z.of_nat j) (Z.of_nat (p + length (w ++ [0]))) (Z.of_nat (S n))
          (splice buf p (w ++ [0])) (splice args n [Some (Z.of_nat p)]) fuel.
Proof.
  intros Et Hne Hw Hi Hn Ha Hp w. exists (length s - length (trim (after_word t)))%nat.
  destruct Hw as [->|(c & t' & Ec & Hc)]; [done|].
  assert (length t = (length s - i)%nat) as Hlt by (rewrite <-Et; apply length_drop).
  assert (length w ≠ 0%nat) by (unfold w; rewrite Ec; cbn [first_word]; rewrite decide_False by done; simpl; lia).
  assert (drop (i + length w) s = after_word t) as Ea by (unfold after_word; fold w; rewrite <-Et, drop_drop; done).
  pose proof (length_first_word t) as Hwl. fold w in Hwl, Hp.
  pose proof (length_trim (after_word t)) as Htl. rewrite length_after_word in Htl. fold w in Htl.
  pose proof (drop_skipped (i + length w) ltac:(lia)) as Ed. rewrite Ea in Ed.
  assert (length t ≠ 0%nat) by (by rewrite Ec).
  split; [lia|]. split; [done|].
  cbn [parse_args]. unfold MAX_ARGS. rewrite decide_True by lia.
  rewrite aset_in, Nat2Z.id, <-splice_one by lia. cbn [of_option mbind outcome_bind].
  rewrite copy_arg_spec; rewrite ?Et; fold w; [|lia..]. cbn [mbind outcome_bind].
  rewrite aset_in, Nat2Z.id, <-splice_one by (rewrite length_splice; lia). cbn [of_option mbind outcome_bind].
  rewrite skip_spaces_spec, Ea by lia. cbn [mbind outcome_bind].
  rewrite splice_splice by (simpl; lia). rewrite length_app. cbn [length].
  f_equal; lia.
Qed.

(** From a word on, with [n] arguments found: at most [63 - n] more. *)
Lemma parse_args_spec fuel i p n buf args :
  (i ≤ length s)%nat → (length s - i ≤ fuel)%nat → at_word (drop i s) → (n ≤ 63)%nat → length args = 64%nat →
  (p + length (layout (words (drop i s))) ≤ length buf)%nat →
  let ws := take (63 - n) (words (drop i s)) in
  parse_args line (zlen s) (Z.of_nat i) (Z.of_nat p) (Z.of_nat n) buf args fuel
    = Done (Z.of_nat (n + length ws), splice buf p (layout ws),
            splice args n ((Some <$> offsets (Z.of_nat p) ws) ++ [None])).
Proof.
  revert i p n buf args. induction fuel as [|fuel IH]; intros i p n buf args Hi Hf Hw Hn Ha Hp; cbv zeta.
  - rewrite parse_args_end by (done || lia). rewrite drop_ge by lia. change (words []) with (@nil (list Z)).
    rewrite take_nil. change (layout []) with (@nil Z). cbn [length offsets fmap list_fmap app]. by rewrite Nat.add_0_r, splice_nil.
  - destruct (decide (length s ≤ i ∨ n = 63))%nat as [Hend|Hgo].
    + rewrite parse_args_end by (done || lia).
      assert (take (63 - n) (words (drop i s)) = []) as ->.
      { destruct Hend as [Hs| ->]; [rewrite drop_ge by done; apply take_nil|apply take_0]. }
      change (layout []) with (@nil Z). cbn [length offsets fmap list_fmap app]. by rewrite Nat.add_0_r, splice_nil.
    + assert (drop i s ≠ []) as Hne by (intros E; apply (f_equal length) in E; rewrite length_drop in E; simpl in E; lia).
      remember (drop i s) as t eqn:Et. pose proof Hw as [->|(c & t' & Ec & Hc)]; [done|].
      assert (words t = first_word t :: words (after_word t)) as Ew by (rewrite Ec; by apply words_cons).
      rewrite Ew, layout_cons, length_app in Hp. cbn [length] in Hp.
      destruct (parse_args_word fuel i p n buf args t) as (j & Hj & Ed & ->); [done || lia..|].
      rewrite IH; rewrite ?Ed, ?words_trim; try lia.
      * rewrite Ew. replace (63 - n)%nat with (S (63 - S n)) by lia. rewrite firstn_cons.
        set (ws := take _ (words (after_word t))). rewrite layout_cons.
        assert (length (layout ws) ≤ length (layout (words (after_word t))))%nat as Hlw by apply length_layout_take.
        rewrite !splice_splice; rewrite ?length_app, ?length_fmap, ?length_offsets; cbn [length]; try lia.
        2: { unfold ws. rewrite length_take. lia. }
        cbn [offsets fmap list_fmap app length]. rewrite <-app_assoc. cbn [app].
        replace (Z.of_nat p + zlen (first_word t) + 1) with (Z.of_nat (p + (length (first_word t) + 1))) by lia.
        do 3 f_equal. lia.
      * apply trim_at_word.
      * rewrite length_splice; [done|simpl; lia].
      * rewrite length_splice, length_app by (rewrite length_app; simpl; lia). cbn [length]. lia.
Qed.
End line.

(** C19: parse_input splits a line into its words: for a line of less than 256
    characters it returns the number of words, at most 63, of the reference
    [words] (the maximal runs of characters isspace does not accept), arg_buffer
    starts with these words, each with a terminator, and args holds one pointer to
    the start of each and then the null pointer.  Nothing is written behind
    either, and every loop ends. *)
Theorem parse_input_words s r arg_buffer args :
  str_ok s → (length s < 256)%nat → length arg_buffer = 256%nat → length args = 64%nat →
  let ws := take 63 (words s) in
  parse_input (s ++ 0 :: r) arg_buffer args
    = Done (zlen ws, splice arg_buffer 0 (layout ws), splice args 0 ((Some <$> offsets 0 ws) ++ [None])).
Proof.
  intros Hs Hl Hb Ha ws. unfold parse_input. rewrite strlen_cstr by done. cbn [mbind outcome_bind].
  rewrite (skip_spaces_spec s r 0) by lia. cbn [mbind outcome_bind]. rewrite drop_0.
  pose proof (drop_skipped s 0 ltac:(lia)) as Hd. rewrite drop_0 in Hd.
  pose proof (length_layout_words s) as Hlw. pose proof (length_trim s).
  rewrite (parse_args_spec s r _ (length s - length (trim s)) 0 0); rewrite ?Hd, ?words_trim; try lia; [done|].
  apply trim_at_word.
Qed.

Lemma parse_input_words_witness :
  words (lit " echo  hi ") = [lit "echo"; lit "hi"] ∧
  parse_input (lit " echo  hi " ++ 0 :: [7]) (replicate 256 0) (replicate 64 None)
    = Done (2, splice (replicate 256 0) 0 (lit "echo" ++ 0 :: lit "hi" ++ [0]),
               splice (replicate 64 None) 0 [Some 0; Some 5; None]).
Proof.
  split; [done|]. apply (parse_input_words (lit " echo  hi ") [7] (replicate 256 0) (replicate 64 None)); try done.
  - apply list.Forall_forall. intros x Hx. apply list_elem_of_In in Hx. simpl in Hx. lia.
  - vm_compute. lia.
Defined.

(** ** The arguments of a command *)

Lemma str_ok_first_word s : str_ok s → str_ok (first_word s).
Proof. induction 1 as [|c s Hc _ IH]; cbn [first_word]; [constructor|]. case_decide; constructor; done. Qed.

Lemma words_ok s : str_ok s → Forall str_ok (words s).
Proof.
  rewrite <-words_trim. enough (∀ n t, (length t ≤ n)%nat → at_word t → str_ok t → Forall str_ok (words t)) as Hn.
  { intros Hs. apply (Hn (length s)); [apply length_trim|apply trim_at_word|].
    rewrite <-drop_trim. by apply list.Forall_drop. }
  clear s. induction n as [|n IH]; intros t Hl [->|(c & t' & -> & Hc)] Ht; try constructor; [simpl in Hl; lia|].
  rewrite words_cons by done. constructor; [by apply str_ok_first_word|]. rewrite <-words_trim.
  apply IH; [|apply trim_at_word|rewrite <-drop_trim; unfold after_word; rewrite drop_drop; by apply list.Forall_drop].
  pose proof (length_trim (after_word (c :: t'))) as H. rewrite length_after_word in H. cbn [first_word] in H.
  rewrite decide_False in H by done. cbn [length] in *. lia.
Qed.

(** [args] and [arg_buffer] hold these words. *)
Definition arguments {W} (ws : list (list Z)) (st : shell W) : Prop :=
  Forall str_ok ws ∧ args st !! length ws = Some None ∧
  ∀ k w, ws !! k = Some w → ∃ off r, args st !! k = Some (Some off) ∧ drop (Z.to_nat off) (arg_buffer st) = w ++ 0 :: r.

Lemma offsets_lookup p ws k w :
  0 ≤ p → ws !! k = Some w →
  ∃ off, offsets p ws !! k = Some off ∧ p ≤ off ∧ ∃ r, drop (Z.to_nat (off - p)) (layout ws) = w ++ 0 :: r.
Proof.
  revert p k. induction ws as [|v ws IH]; intros p [|k] Hp Hk; simplify_eq/=.
  - exists p. split; [done|]. split; [lia|]. rewrite Z.sub_diag, layout_cons. by eexists.
  - destruct (IH (p + zlen v + 1) k ltac:(lia) Hk) as (off & Ho & Hle & r & Hr). exists off.
    split; [done|]. split; [lia|]. exists r. rewrite <-Hr, layout_cons.
    replace (Z.to_nat (off - p)) with (length v + S (Z.to_nat (off - (p + zlen v + 1))))%nat by lia.
    by rewrite <-drop_drop, drop_app_length.
Qed.

Lemma parsed_arguments {W} i b a ws (w : W) :
  Forall str_ok ws → (length (layout ws) ≤ length b)%nat → (length ws < length a)%nat →
  arguments ws (Shell i (splice b 0 (layout ws)) (splice a 0 ((Some <$> offsets 0 ws) ++ [None])) w).
Proof.
  intros Hok Hb Ha. pose proof (length_offsets 0 ws) as Hlo.
  assert (length ((Some <$> offsets 0 ws) ++ [None]) = S (length ws)) as Hla
    by (rewrite length_app, length_fmap, Hlo; simpl; lia).
  split; [done|]. cbn [args arg_buffer]. split.
  - rewrite lookup_splice by lia. rewrite decide_True, Nat.sub_0_r by lia.
    rewrite lookup_app_r by (rewrite length_fmap; lia). by rewrite length_fmap, Hlo, Nat.sub_diag.
  - intros k v Hk. pose proof (lookup_lt_Some _ _ _ Hk). destruct (offsets_lookup 0 ws k v ltac:(lia) Hk) as (off & Ho & H0 & r & Hr).
    exists off, (r ++ drop (length (layout ws)) b). split.
    + rewrite lookup_splice by lia. rewrite decide_True, Nat.sub_0_r by lia.
      rewrite lookup_app_l by (rewrite length_fmap; lia). by rewrite list_lookup_fmap, Ho.
    + rewrite Z.sub_0_r in Hr. unfold splice. rewrite take_0. cbn [app Nat.add].
      assert (Z.to_nat off ≤ length (layout ws))%nat
        by (apply (f_equal length) in Hr; rewrite length_drop, length_app in Hr; simpl in Hr; lia).
      by rewrite drop_app_le, Hr, <-app_assoc by done.
Qed.

Section arguments.
Context {W : Type} `{UserLibrary W}.
Implicit Types st : shell W.

Lemma arg_word ws st k w :
  arguments ws st → ws !! k = Some w → ∃ r, arg (Z.of_nat k) st = Done (Some (w ++ 0 :: r), st).
Proof.
  intros (_ & _ & Ha) Hk. destruct (Ha k w Hk) as (off & r & Ho & Hr). exists r.
  unfold arg, reads, mbind, M_bind. by rewrite aget_of_nat, Ho; cbn; rewrite Hr.
Qed.
Lemma arg_end ws st k : arguments ws st → k = zlen ws → arg k st = Done (None, st).
Proof. intros (_ & Ha & _) ->. unfold arg, reads, mbind, M_bind. by rewrite aget_of_nat, Ha. Qed.
End arguments.

(** ** Dispatch *)

(** The commands of the shell, each with the function that carries it out, in the
    order they are tried in. *)
Definition commands {W} `{UserLibrary W} (fuel : nat) : list (string * M (shell W) Z) := [
  ("help"%string, cmd_help);
  ("ls"%string, cmd_ls fuel);
  ("cd"%string, cmd_cd);
  ("cat"%string, cmd_cat fuel);
  ("echo"%string, cmd_echo);
  ("mkdir"%string, cmd_mkdir);
  ("rm"%string, cmd_rm);
  ("rmdir"%string, cmd_rmdir);
  ("run"%string, cmd_run);
  ("exit"%string, cmd_exit)
].
(** The first command the name is a prefix of. *)
Definition chosen {W} `{UserLibrary W} (fuel : nat) (name : list Z) : option (string * M (shell W) Z) :=
  snd <$> list_find (λ c, take (length name) (lit c.1) = name) (commands fuel).

Lemma supported_ok : Forall (λ c, str_ok (lit c)) supported_commands.
Proof. repeat constructor; done. Qed.

Lemma find_command_spec names name r i :
  Forall (λ c, str_ok (lit c)) names → str_ok name →
  find_command names (name ++ 0 :: r) (zlen name) i
    = Done ((λ p, (i + p.1)%nat) <$> list_find (λ c, take (length name) (lit c) = name) names).
Proof.
  intros Hns Hn. revert i. induction Hns as [|c names Hc _ IH]; intros i; [done|].
  cbn [find_command list_find]. rewrite Nat2Z.id.
  destruct (host_strncmp_cstr (lit c) name [] r (length name) Hc Hn) as (d & -> & Hd). rewrite firstn_all in Hd. cbn [mbind outcome_bind].
  destruct (decide (d = 0)) as [E|E].
  - rewrite decide_True by tauto. cbn. by rewrite Nat.add_0_r.
  - rewrite decide_False by tauto. rewrite IH. destruct (list_find _ names) as [[j x]|]; cbn; [|done]. do 2 f_equal. lia.
Qed.

(** What a line with these words does. *)
Definition run_words {W} `{UserLibrary W} (fuel : nat) (ws : list (list Z)) : M (shell W) Z :=
  match ws with
  | [] => mret 1
  | name :: _ =>
      match chosen fuel name with
      | Some (_, command) => command
      | None => _ ← tell (Printf (lit "Unknown command: %s" ++ [10]) [name] []); mret 1
      end
  end.

(** The names and the functions of the code, which are two arrays, are those of the
    table, place by place. *)
Lemma list_find_pairs {A} (P : string → Prop) `{∀ c, Decision (P c)} (names : list string) (fs : list A) :
  length names = length fs →
  (λ p, fs !! p.1) <$> list_find P names = (λ p, Some p.2.2) <$> list_find (λ c, P c.1) (zip names fs).
Proof.
  revert fs. induction names as [|c names IH]; intros [|f fs] Hl; try done. cbn [list_find zip zip_with fst].
  destruct (decide (P c)); [done|]. injection Hl as Hl. specialize (IH fs Hl).
  rewrite <-!option_fmap_compose. exact IH.
Qed.
Lemma commands_paired {W} `{UserLibrary W} fuel : zip supported_commands (command_funcs fuel) = commands (W := W) fuel.
Proof. reflexivity. Qed.
Lemma found_chosen {W} `{UserLibrary W} fuel name :
  (λ p, command_funcs (W := W) fuel !! p.1) <$> list_find (λ c, take (length name) (lit c) = name) supported_commands
    = (λ c, Some c.2) <$> chosen fuel name.
Proof. rewrite list_find_pairs by done. rewrite commands_paired. unfold chosen. by destruct (list_find _ _) as [[i c]|]. Qed.

Lemma c_string_cstr s r : str_ok s → c_string (s ++ 0 :: r) = Done s.
Proof. intros Hs. unfold c_string. rewrite strlen_cstr by done. cbn. by rewrite Nat2Z.id, take_app_length. Qed.

Section dispatch.
Context {W : Type} `{UserLibrary W}.
Implicit Types st : shell W.

Lemma execute_command_words fuel ws st : arguments ws st → execute_command fuel st = run_words fuel ws st.
Proof.
  intros Ha. unfold execute_command. destruct ws as [|name ws].
  - by rewrite (bind_done _ _ _ _ _ (arg_end [] st 0 Ha eq_refl)).
  - pose proof Ha as (Hok & _). apply list.Forall_cons in Hok as [Hn _].
    destruct (arg_word _ st 0 name Ha eq_refl) as [r Hr]. rewrite (bind_done _ _ _ _ _ Hr).
    rewrite (liftO_done _ _ _ _ (strlen_cstr name r Hn)).
    rewrite (liftO_done _ _ _ _ (find_command_spec _ name r 0 supported_ok Hn)). cbn [run_words].
    pose proof (found_chosen fuel name) as Hc.
    destruct (list_find _ _) as [[i c]|], (chosen fuel name) as [[d m]|]; cbn in Hc |- *; try done; [by simplify_eq/=; rewrite Hc|].
    by rewrite (liftO_done _ _ _ _ (c_string_cstr name r Hn)).
Qed.

(** The arrays of start_shell. *)
Definition buffers (st : shell W) : Prop :=
  length (input st) = 256%nat ∧ length (arg_buffer st) = 256%nat ∧ length (args st) = 64%nat.

Lemma zoom_keeps {A} (m : M W A) st a st' :
  zoom lib set_lib m st = Done (a, st') → ∃ w, m (lib st) = Done (a, w) ∧ st' = set_lib w st.
Proof. unfold zoom. destruct (m (lib st)) as [[a' w]| |] eqn:E; intros [= <- <-]. eauto. Qed.

Lemma print_cwd_keeps st st' : print_cwd st = Done (tt, st') → ∃ w, st' = set_lib w st.
Proof.
  unfold print_cwd, tell, ask. unfold mbind at 1, M_bind at 1.
  destruct (zoom _ _ _ st) as [[[found bytes] st1]| |] eqn:E1; try done. apply zoom_keeps in E1 as (w1 & _ & ->).
  cbv zeta. unfold mbind at 1, M_bind at 1.
  destruct (decide (found = true)); cbn [mret M_ret liftO];
    [destruct (strcpy _ _) as [cwd| |]; try done|]; unfold mbind, M_bind, liftO, mret, M_ret;
    destruct (c_string _) as [cwd'| |]; try done;
    destruct (zoom _ _ _ _) as [[? st2]| |] eqn:E2; try done; apply zoom_keeps in E2 as (w2 & _ & ->);
    destruct (zoom _ _ _ _) as [[? st3]| |] eqn:E3; try done; apply zoom_keeps in E3 as (w3 & _ & ->);
    intros [= <-]; by exists w3.
Qed.

(** C18: A line of less than 256 characters runs one command: once the prompt is
    printed and the line read, the byte behind it (its end mark) is cut off,
    parse_input leaves the words in args, and the round is the command that the
    table [commands] gives for the first name that starts with the first word (the
    function cmd_x for the name x), with the command's result for the status; a line
    without words does nothing, and a word that no name starts with is reported. *)
Theorem shell_round_runs fuel status st st1 l x w2 :
  status ≠ 0 → buffers st → str_ok l → (length l < 256)%nat →
  print_cwd st = Done (tt, st1) →
  read_from STDIN_FILENO MAX_INPUT_LENGTH (lib st1) = Done ((zlen l + 1, l ++ [x]), w2) →
  let ws := take 63 (words l) in
  ∃ st2, lib st2 = w2 ∧ buffers st2 ∧ arguments ws st2 ∧
    shell_round fuel status st
      = (if decide (ws = []) then mret (inl status) else r ← run_words fuel ws; mret (inl r)) st2.
Proof.
  intros Hst (Hi & Hb & Ha) Hl Hlen Hp Hr ws.
  apply print_cwd_keeps in Hp as Hk. destruct Hk as [w1 ->]. cbn [lib set_lib] in Hr.
  set (i2 := l ++ 0 :: drop (S (length l)) (input st)).
  set (st2 := Shell i2 (splice (arg_buffer st) 0 (layout ws)) (splice (args st) 0 ((Some <$> offsets 0 ws) ++ [None])) w2).
  pose proof (length_layout_words l) as Hlw. pose proof (length_layout_take 63 (words l)) as Hlt. fold ws in Hlt.
  assert (length ws ≤ 63)%nat as Hws by (unfold ws; rewrite length_take; lia).
  assert (arguments ws st2) as Harg by (apply parsed_arguments; [by apply Forall_take, words_ok|lia..]).
  assert (buffers st2) as Hbuf.
  { split; [|split]; cbn.
    - unfold i2. rewrite length_app. cbn [length]. rewrite length_drop. lia.
    - rewrite length_splice; lia.
    - rewrite length_splice; [done|]. rewrite length_app, length_fmap, length_offsets. simpl. lia. }
  exists st2. do 3 (split; [done|]). unfold shell_round. rewrite decide_False by done.
  rewrite (bind_done _ _ _ _ _ Hp).
  rewrite (bind_done _ _ _ (zlen l + 1, l ++ [x]) (set_lib w2 (set_lib w1 st))) by (unfold zoom; cbn [lib set_lib]; by rewrite Hr).
  cbv beta iota. rewrite (bind_done _ _ _ tt _ eq_refl). cbv zeta. rewrite u32_small, decide_True, Z.add_simpl_r by lia.
  assert (writes input set_input (zlen l) 0 (set_input (splice (input st) 0 (l ++ [x])) (set_lib w2 (set_lib w1 st)))
    = Done (tt, set_input i2 (set_lib w2 st))) as Hw.
  { unfold writes. cbn [input set_input set_lib]. rewrite aset_in, Nat2Z.id by (rewrite length_splice; rewrite ?length_app; simpl; lia).
    assert (<[length l := 0]> (splice (input st) 0 (l ++ [x])) = i2) as ->; [|done].
    unfold splice, i2. rewrite take_0. cbn [app Nat.add]. rewrite <-app_assoc, insert_app_r_alt, Nat.sub_diag by lia.
    by rewrite length_app, Nat.add_1_r. }
  rewrite (bind_done _ _ _ _ _ Hw), (bind_done _ _ _ _ _ eq_refl). cbv beta.
  cbn [input arg_buffer args set_input set_lib]. unfold i2 at 1.
  rewrite (liftO_done _ _ _ _ (parse_input_words l _ _ _ Hl Hlen Hb Ha)). cbv beta iota. fold ws.
  unfold mbind at 1, M_bind at 1, modify. change (set_args _ _ _) with st2.
  destruct (decide (zlen ws = 0)) as [E|E], (decide (ws = [])) as [E'|E']; try done.
  - by destruct ws.
  - by rewrite E' in E.
  - unfold mbind, M_bind. by rewrite (execute_command_words fuel _ _ Harg).
Qed.
End dispatch.

(** ** echo *)

(** The mode a word redirects with. *)
Definition mode_of (w : list Z) : option string :=
  if decide (w = lit ">") then Some "w+"%string else if decide (w = lit ">>") then Some "a"%string else None.

(** The words in front of the first redirection; its mode and the word behind it. *)
Fixpoint split_redirection (ws : list (list Z)) : list (list Z) * option (string * option (list Z)) :=
  match ws with
  | [] => ([], None)
  | w :: ws' =>
      match mode_of w with
      | Some m => ([], Some (m, head ws'))
      | None => let '(t, r) := split_redirection ws' in (w :: t, r)
      end
  end.

(** Words with a space between them. *)
Definition spaced (ws : list (list Z)) : list Z :=
  match ws with [] => [] | w :: ws' => w ++ concat ((λ v, 32 :: v) <$> ws') end.

Definition echo_spec {W} `{UserLibrary W} (ws : list (list Z)) : M (shell W) Z :=
  match ws, split_redirection ws with
  | [], _ => _ ← newline; mret 1
  | _, (text, None) => _ ← tell (Write STDOUT_FILENO (spaced text)); _ ← newline; mret 1
  | _, (_, Some (_, None)) => _ ← tell (Write STDERR_FILENO (lit "echo: syntax error, expected file name" ++ [10])); mret 1
  | _, (text, Some (mode, Some path)) =>
      fd ← ask (Fopen path mode);
      if decide (fd = 0) then _ ← puts "echo"; mret 1 else
      _ ← modify (λ s, set_args (arg_buffer s) (<[S (length text) := None]> (args s)) s);
      _ ← tell (Fwrite (spaced text) fd);
      _ ← tell (Fclose fd);
      mret 1
  end.

Lemma strcat_cstr a z w r :
  str_ok a → str_ok w → (length w ≤ length z)%nat →
  strcat (a ++ 0 :: z) (w ++ 0 :: r) = Done (a ++ w ++ 0 :: drop (length w) z).
Proof.
  intros Ha Hw Hl. unfold strcat. rewrite strlen_cstr by done. cbn [mbind outcome_bind].
  rewrite Nat2Z.id, drop_app_length, host_strcpy_cstr by (done || (simpl; lia)). cbn [mbind outcome_bind].
  by rewrite take_app_length.
Qed.

Lemma split_redirection_prefix ws text op :
  split_redirection ws = (text, op) →
  (op = None ∧ text = ws) ∨ ∃ m w rest, op = Some (m, head rest) ∧ ws = text ++ w :: rest ∧ mode_of w = Some m.
Proof.
  revert text. induction ws as [|w ws IH]; intros text E; cbn [split_redirection] in E.
  - simplify_eq. by left.
  - destruct (mode_of w) as [m|] eqn:Em; simplify_eq.
    + right. exists m, w, ws. done.
    + destruct (split_redirection ws) as [t r]. simplify_eq. destruct (IH t eq_refl) as [[-> ->]|(m & v & rest & -> & -> & Hm)]; [by left|].
      right. by exists m, v, rest.
Qed.

Section echo.
Context {W : Type} `{UserLibrary W}.
Implicit Types st : shell W.

(** The first loop stops at the first redirection. *)
Lemma echo_scan name ws st rest k fuel :
  arguments (name :: ws) st → drop k ws = rest → (k ≤ length ws)%nat → (length rest < fuel)%nat →
  iter fuel echo_scan_round (Z.of_nat (S k)) st
    = match split_redirection rest with
      | (_, None) => Done (NotFound, st)
      | (text, Some (m, _)) => redirect (Z.of_nat (S k + length text)) m st
      end.
Proof.
  intros Ha. revert k fuel. induction rest as [|w rest IH]; intros k fuel Hd Hk Hf; (destruct fuel as [|fuel]; [simpl in Hf; lia|]).
  - assert (k = length ws) as -> by (apply (f_equal length) in Hd; rewrite length_drop in Hd; simpl in Hd; lia).
    erewrite iter_step; [|unfold echo_scan_round; erewrite bind_done by (eapply arg_end; [exact Ha|done]); reflexivity]. done.
  - assert (ws !! k = Some w) as Hw by (rewrite <-(Nat.add_0_r k), <-lookup_drop, Hd; done).
    assert (str_ok w) as Hok by (destruct Ha as [Hall _]; by apply (list.Forall_lookup_1 _ _ (S k) _ Hall)).
    destruct (arg_word _ st (S k) w Ha Hw) as [r Hr].
    destruct (strcmp_cstr w (lit ">") r [] Hok) as (d1 & E1 & Hd1); [repeat constructor; done|].
    destruct (strcmp_cstr w (lit ">>") r [] Hok) as (d2 & E2 & Hd2); [repeat constructor; done|].
    assert (echo_scan_round (Z.of_nat (S k)) st
      = match mode_of w with
        | Some m => (v ← redirect (Z.of_nat (S k)) m; mret (inr v)) st
        | None => Done (inl (Z.of_nat (S k) + 1), st)
        end) as Hround.
    { unfold echo_scan_round. rewrite (bind_done _ _ _ _ _ Hr), (liftO_done _ _ _ _ E1). unfold mode_of.
      destruct (decide (d1 = 0)); [by rewrite decide_True by tauto|]. rewrite (decide_False (P := w = _)) by tauto.
      rewrite (liftO_done _ _ _ _ E2). destruct (decide (d2 = 0)); [by rewrite decide_True by tauto|]. by rewrite decide_False by tauto. }
    cbn [split_redirection]. destruct (mode_of w) as [m|].
    + cbn [iter length]. rewrite Nat.add_0_r. unfold mbind at 1, M_bind at 1. rewrite Hround. unfold mbind, M_bind.
      by destruct (redirect _ _ _) as [[v st']| |].
    + rewrite (iter_step _ _ _ _ _ _ Hround). replace (Z.of_nat (S k) + 1) with (Z.of_nat (S (S k))) by lia.
      pose proof (lookup_lt_Some _ _ _ Hw). cbn [length] in Hf.
      rewrite (IH (S k)); [|by rewrite <-Nat.add_1_r, <-drop_drop, Hd|lia|lia].
      destruct (split_redirection rest) as [text [[m p]|]]; [|done]. cbn [length]. do 2 f_equal. lia.
Qed.

(** The second loop puts the words behind each other: one round of it. *)
Lemma echo_join_word name ws st k w acc z :
  arguments (name :: ws) st → ws !! k = Some w → str_ok acc →
  let more := (if decide (k = 0%nat) then [] else [32]) ++ w in
  (length more ≤ length z)%nat →
  echo_join_round (Z.of_nat (S k), acc ++ 0 :: z) st
    = Done (inl (Z.of_nat (S (S k)), (acc ++ more) ++ 0 :: drop (length more) z), st).
Proof.
  intros Ha Hw Hacc more Hl. unfold echo_join_round.
  assert (str_ok w) as Hok by (destruct Ha as [Hall _]; by apply (list.Forall_lookup_1 _ _ (S k) _ Hall)).
  destruct (arg_word _ st (S k) w Ha Hw) as [r Hr]. rewrite (bind_done _ _ _ _ _ Hr). unfold more in *.
  replace (Z.of_nat (S (S k))) with (Z.of_nat (S k) + 1) by lia. destruct (decide (k = 0%nat)) as [->|Hk].
  - rewrite decide_False, (bind_done _ _ _ _ _ eq_refl) by done.
    rewrite (liftO_done _ _ _ _ (strcat_cstr acc z w r Hacc Hok Hl)). cbn [app]. by rewrite <-app_assoc.
  - rewrite decide_True by lia. rewrite length_app in Hl. cbn [length] in Hl.
    change [32; 0] with ([32] ++ 0 :: []).
    rewrite (liftO_done _ _ _ _ (strcat_cstr acc z [32] [] Hacc ltac:(repeat constructor; done) ltac:(simpl; lia))).
    rewrite app_assoc.
    rewrite (liftO_done _ _ _ _ (strcat_cstr (acc ++ [32]) (drop (length [32]) z) w r ltac:(apply Forall_app; split; [done|repeat constructor; done]) Hok
      ltac:(rewrite length_drop; simpl; lia))).
    rewrite drop_drop, length_app, <-!app_assoc. done.
Qed.

Lemma echo_join_rest name ws st rest k acc z fuel :
  arguments (name :: ws) st → drop (S k) ws = rest → (S k ≤ length ws)%nat → (length rest < fuel)%nat → str_ok acc →
  let more := concat ((λ v, 32 :: v) <$> rest) in
  (length more ≤ length z)%nat →
  iter fuel echo_join_round (Z.of_nat (S (S k)), acc ++ 0 :: z) st
    = Done ((acc ++ more) ++ 0 :: drop (length more) z, st).
Proof.
  intros Ha. revert k acc z fuel. induction rest as [|w rest IH]; intros k acc z fuel Hd Hk Hf Hacc more Hl;
    (destruct fuel as [|fuel]; [simpl in Hf; lia|]).
  - assert (S k = length ws) as E by (apply (f_equal length) in Hd; rewrite length_drop in Hd; cbn [length] in Hd; lia).
    erewrite iter_step; [|unfold echo_join_round; erewrite bind_done by (eapply arg_end; [exact Ha|cbn [length]; lia]); reflexivity].
    unfold more. cbn [fmap list_fmap concat length]. by rewrite app_nil_r, drop_0.
  - assert (ws !! S k = Some w) as Hw by (rewrite <-(Nat.add_0_r (S k)), <-lookup_drop, Hd; done).
    assert (str_ok w) as Hok by (destruct Ha as [Hall _]; by apply (list.Forall_lookup_1 _ _ (S (S k)) _ Hall)).
    pose proof (lookup_lt_Some _ _ _ Hw). unfold more in *. cbn [fmap list_fmap concat] in Hl |- *.
    rewrite length_app in Hl. pose proof (echo_join_word name ws st (S k) w acc z Ha Hw Hacc) as Hr.
    rewrite decide_False in Hr by lia. cbn [app] in Hr. rewrite (iter_step _ _ _ _ _ _ (Hr ltac:(cbn [length] in *; lia))).
    rewrite (IH (S k)); rewrite ?length_drop; try (cbn [length] in *; lia).
    + rewrite drop_drop, length_app, <-!app_assoc. done.
    + by rewrite <-Nat.add_1_r, <-drop_drop, Hd.
    + apply Forall_app. split; [done|]. constructor; done.
Qed.

Lemma echo_join name ws st z fuel :
  arguments (name :: ws) st → (length ws < fuel)%nat → (length (spaced ws) ≤ length z)%nat →
  iter fuel echo_join_round (1, 0 :: z) st = Done (spaced ws ++ 0 :: drop (length (spaced ws)) z, st).
Proof.
  intros Ha Hf Hl. destruct fuel as [|fuel]; [lia|]. destruct ws as [|w ws].
  - erewrite iter_step; [|unfold echo_join_round; erewrite bind_done by (eapply arg_end; [exact Ha|done]); reflexivity].
    cbn [spaced length app]. by rewrite drop_0.
  - cbn [spaced] in *. rewrite length_app in Hl.
    pose proof (echo_join_word name (w :: ws) st 0 w [] z Ha eq_refl ltac:(constructor)) as Hr.
    change (_ ++ w) with w in Hr. cbn [app] in Hr. rewrite (iter_step _ _ _ _ _ _ (Hr ltac:(cbn [length]; lia))).
    assert (str_ok w) as Hok by (destruct Ha as [Hall _]; by apply (list.Forall_lookup_1 _ _ 1%nat _ Hall)).
    cbn [length] in Hf. rewrite (echo_join_rest name (w :: ws) st ws 0); rewrite ?length_drop; try (done || (cbn [length]; lia)).
    by rewrite drop_drop, length_app.
Qed.

Lemma echo_text name ws st fuel :
  arguments (name :: ws) st → (length ws < fuel)%nat → (length (spaced ws) < 256)%nat → str_ok (spaced ws) →
  ∃ b, iter fuel echo_join_round (1, replicate 256 0) st = Done (b, st) ∧ c_string b = Done (spaced ws).
Proof.
  intros Ha Hf Hl Hok. change (replicate 256 0) with (0 :: replicate 255 0). eexists.
  split; [apply (echo_join name); [done..|rewrite length_replicate; lia]|by apply c_string_cstr].
Qed.

Lemma str_ok_spaced ws : Forall str_ok ws → str_ok (spaced ws).
Proof.
  intros Hws. destruct Hws as [|w ws Hw Hws]; [constructor|]. cbn [spaced]. apply Forall_app. split; [done|].
  induction Hws as [|v ws Hv _ IH]; [constructor|]. cbn [fmap list_fmap concat]. apply Forall_app. split; [by constructor|done].
Qed.
Lemma length_spaced_prefix t u : (length (spaced t) ≤ length (spaced (t ++ u)))%nat.
Proof. destruct t as [|w t]; cbn [spaced app length]; [lia|]. rewrite fmap_app, concat_app, !length_app. lia. Qed.

(** With the null pointer in place of a word, the words in front of it remain. *)
Lemma arguments_cut ws1 v ws2 st st' :
  arguments (ws1 ++ v :: ws2) st → arg_buffer st' = arg_buffer st → args st' = <[length ws1 := None]> (args st) →
  arguments ws1 st'.
Proof.
  intros (Hok & Hend & Ha) Hb Hargs. apply lookup_lt_Some in Hend. rewrite length_app in Hend. cbn [length] in Hend.
  split; [by apply Forall_app in Hok as [? _]|]. rewrite Hargs, Hb. split; [by apply list_lookup_insert_eq; lia|].
  intros k w Hk. pose proof (lookup_lt_Some _ _ _ Hk). rewrite list_lookup_insert_ne by lia. apply Ha. by rewrite lookup_app_l.
Qed.

(** What a redirection does, and what is left of the words. *)
Lemma redirect_spec name text w rest st mode :
  arguments (name :: text ++ w :: rest) st →
  redirect (Z.of_nat (S (length text))) mode st
    = match head rest with
      | None => (_ ← tell (Write STDERR_FILENO (lit "echo: syntax error, expected file name" ++ [10])); mret Failed) st
      | Some path =>
          (fd ← ask (Fopen path mode);
           if decide (fd = 0) then _ ← puts "echo"; mret Failed else
           _ ← modify (λ s, set_args (arg_buffer s) (<[S (length text) := None]> (args s)) s); mret (Redirected fd)) st
      end.
Proof.
  intros Ha. unfold redirect. replace (Z.of_nat (S (length text)) + 1) with (Z.of_nat (S (S (length text)))) by lia.
  destruct rest as [|path rest]; cbn [head].
  - rewrite (bind_done _ _ _ _ _ (arg_end _ st (Z.of_nat (S (S (length text)))) Ha ltac:(cbn [length]; rewrite length_app; simpl; lia))). done.
  - assert ((name :: text ++ w :: path :: rest) !! S (S (length text)) = Some path) as Hp
      by (change ((text ++ w :: path :: rest) !! S (length text) = Some path); rewrite lookup_app_r by lia; by replace (S (length text) - length text)%nat with 1%nat by lia).
    destruct (arg_word _ st _ path Ha Hp) as [r Hr]. rewrite (bind_done _ _ _ _ _ Hr).
    pose proof Ha as (Hok & Hend & _). assert (str_ok path) as Hpok by (by apply (list.Forall_lookup_1 _ _ _ _ Hok Hp)).
    rewrite (liftO_done _ _ _ _ (c_string_cstr path r Hpok)). apply bind_ext.
    intros fd st1 E. apply zoom_keeps in E as (w1 & _ & ->).
    destruct (decide (fd = 0)); [done|]. unfold mbind, M_bind, writes, modify. cbn [args set_lib].
    apply lookup_lt_Some in Hend. cbn [length] in Hend. rewrite length_app in Hend.
    rewrite aset_in by lia. by rewrite Nat2Z.id.
Qed.

(** C20: Echo writes its words with single spaces between them: to the standard
    output, with a line end, when none of them is a redirection; to the file named
    behind the first one that is > or >>, opened to write or to append, and
    nothing behind that name; a redirection without a file, or a file that does
    not open, ends in a message.  The text fits the buffer if it is shorter than
    256 bytes, and echo asks nothing else of the system. *)
Theorem cmd_echo_writes name ws st :
  arguments (name :: ws) st → (length ws < 64)%nat → (length (spaced ws) < 256)%nat →
  cmd_echo st = echo_spec ws st.
Proof.
  intros Ha Hn Hl. unfold cmd_echo, MAX_INPUT_LENGTH, MAX_ARGS. change (Z.to_nat 256) with 256%nat. change (Z.to_nat 64) with 64%nat.
  cbv zeta. destruct ws as [|w0 ws0] eqn:Ews.
  { by rewrite (bind_done _ _ _ _ _ (arg_end _ st 1 Ha eq_refl)). }
  destruct (arg_word _ st 1 w0 Ha eq_refl) as [r0 Hr0]. rewrite (bind_done _ _ _ _ _ Hr0). unfold echo_spec.
  rewrite <-Ews in *. clear Hr0 r0. pose proof Ha as (Hok & _). apply list.Forall_cons in Hok as [_ Hok].
  pose proof (echo_scan name ws st ws 0 64 Ha eq_refl ltac:(lia) Hn) as Hs.
  destruct (split_redirection ws) as [text op] eqn:Es.
  destruct (split_redirection_prefix ws text op Es) as [[-> ->]|(m & w & rest & -> & Ew & _)].
  - rewrite (bind_done _ _ _ _ _ Hs).
    destruct (echo_text name ws st 64 Ha Hn Hl (str_ok_spaced ws Hok)) as (b & Hb & Hc).
    by rewrite (bind_done _ _ _ _ _ Hb), (liftO_done _ _ _ _ Hc).
  - cbn [Nat.add] in Hs. rewrite Ew in Ha, Hl, Hn, Hok. rewrite (redirect_spec _ _ _ _ _ _ Ha) in Hs.
    change (Z.of_nat 1) with 1 in Hs.
    destruct (head rest) as [path|]; rewrite (bind_same _ _ _ _ Hs), !bind_assoc.
    + apply bind_ext. intros fd st1 E. apply zoom_keeps in E as (w1 & _ & ->).
      destruct (decide (fd = 0)); [by rewrite bind_assoc|].
      set (st2 := set_args (arg_buffer st) (<[S (length text) := None]> (args st)) (set_lib w1 st)).
      rewrite length_app in Hn. destruct (echo_text name text st2 64) as (b & Hb & Hc).
      { by apply (arguments_cut (name :: text) w rest st). }
      { lia. }
      { pose proof (length_spaced_prefix text (w :: rest)). lia. }
      { apply str_ok_spaced. by apply Forall_app in Hok as [? _]. }
      transitivity ((_ ← tell (Fwrite (spaced text) fd); _ ← tell (Fclose fd); mret 1) st2); [|done].
      transitivity ((buffer ← iter 64 echo_join_round (1, replicate 256 0); text ← liftO (c_string buffer);
        _ ← tell (Fwrite text fd); _ ← tell (Fclose fd); mret 1) st2); [done|].
      by rewrite (bind_done _ _ _ _ _ Hb), (liftO_done _ _ _ _ Hc).
    + by apply bind_ext.
Qed.
End echo.

(** A failed read is not recognised: the length is unsigned, so -1 is the largest
    one, and the end mark is written in front of the array. *)
Theorem read_error_faults {W} `{UserLibrary W} fuel status (st st1 : shell W) w2 :
  status ≠ 0 → length (input st) = 256%nat → print_cwd st = Done (tt, st1) →
  read_from STDIN_FILENO MAX_INPUT_LENGTH (lib st1) = Done ((-1, []), w2) →
  shell_round fuel status st = Fault.
Proof.
  intros Hst Hi Hp Hr. apply print_cwd_keeps in Hp as Hk. destruct Hk as [w1 ->]. cbn [lib set_lib] in Hr.
  unfold shell_round. rewrite decide_False, (bind_done _ _ _ _ _ Hp) by done.
  rewrite (bind_done _ _ _ (-1, []) (set_lib w2 (set_lib w1 st))) by (unfold zoom; cbn [lib set_lib]; by rewrite Hr).
  cbv beta iota. rewrite (bind_done _ _ _ tt _ eq_refl). cbv zeta. change (u32 (-1)) with 4294967295.
  rewrite decide_True by lia. unfold mbind, M_bind, writes. cbn [input set_input set_lib]. rewrite splice_nil. unfold aset.
  by rewrite decide_False by lia.
Qed.

(** One letter is enough to remove a file. *)
Lemma one_letter_runs_rm {W} `{UserLibrary W} fuel : chosen fuel (lit "r") = Some ("rm"%string, cmd_rm).
Proof. reflexivity. Qed.

(** ** A console *)

(** Lines that wait to be read, and the requests that were made; files open, and
    have nothing in them. *)
Record console := Console { pending : list (list Z); requests : list request }.

#[export] Instance console_library : UserLibrary console := {|
  call r := λ w, Done (match r with Fopen _ _ | Opendir _ => 3 | _ => 0 end, Console (pending w) (requests w ++ [r]));
  read_from _ n := λ w,
    match pending w with
    | [] => Done ((0, []), w)
    | l :: ls => Done ((zlen (take (Z.to_nat n) l), take (Z.to_nat n) l), Console ls (requests w))
    end;
  getcwd _ := λ w, Done ((true, [47; 0]), w);
  readdir _ := λ w, Done (None, w);
  fread _ _ := λ w, Done ([], w);
|}.

Definition start (lines : list (list Z)) : shell console :=
  Shell (replicate 256 0) (replicate 256 0) (replicate 64 None) (Console lines []).

(** A session: the requests of the whole run. *)
Example a_session :
  match start_shell 4 5 (start [lit " echo  hi > f" ++ [10]; lit "e x" ++ [10]; lit "exit" ++ [10]]) with
  | Done (r, s) => r = 0 ∧ List.filter (λ q, match q with Fopen _ _ | Fwrite _ _ | Fclose _ | Write _ _ | Syscall _ => true | _ => false end) (requests (lib s))
      = [Syscall 169; Fopen (lit "f") "w+"; Fwrite (lit "hi") 3; Fclose 3; Write 1 (lit "x"); Write 1 [10]; Syscall 170]
  | _ => False
  end.
Proof. by vm_compute; split. Qed.

(** "rm a" *)
Lemma shell_round_runs_witness :
  let st := start [lit "rm a" ++ [10]] in
  ∃ st2, lib st2 = Console [] [Printf (lit "DBOLOS %s>") [lit "Unknown path"] []; Fflush] ∧ buffers st2 ∧
    arguments [lit "rm"; lit "a"] st2 ∧
    shell_round 5 1 st = (r ← cmd_rm; mret (inl r)) st2.
Proof.
  intros st. apply (shell_round_runs 5 1 st
    (set_lib (Console [lit "rm a" ++ [10]] [Printf (lit "DBOLOS %s>") [lit "Unknown path"] []; Fflush]) st) (lit "rm a") 10); try done.
  - repeat constructor; done.
  - vm_compute. lia.
Defined.

Lemma cmd_echo_writes_witness :
  let ws := [lit "a"; lit "b"; lit ">"; lit "f"] in
  let st := Shell (replicate 256 0) (splice (replicate 256 0) 0 (layout (lit "echo" :: ws)))
              (splice (replicate 64 None) 0 ((Some <$> offsets 0 (lit "echo" :: ws)) ++ [None])) (Console [] []) in
  cmd_echo st = echo_spec ws st ∧
  requests (lib (match cmd_echo st with Done (_, s) => s | _ => st end)) = [Fopen (lit "f") "w+"; Fwrite (lit "a b") 3; Fclose 3].
Proof.
  intros ws st. split; [|by vm_compute]. apply (cmd_echo_writes (lit "echo")).
  - apply parsed_arguments; [repeat constructor; done|vm_compute; lia..].
  - vm_compute. lia.
  - vm_compute. lia.
Defined.
